(* ===== verification/_CoqProject ===== *)
-Q . S2P
Prelude.v
Words.v
Descriptors.v
Memory.v
AddressSpace.v
Sched.v
Mutex.v
Task.v
Fork.v
ForkSpaces.v
Vsprintf.v
Log.v
Links.v
Buffer.v
Queues.v
Getblk.v
BufferInit.v
CacheSpec.v
Preempt.v
Cpu.v
StringH.v
Strings.v
StringProps.v
Ports.v
Blk.v
Boot.v
Head.v
Syscalls.v
Entry.v
Handlers.v
Messages.v
Layout.v
Macros.v
Start.v
Build.v
