(* ===== verification/Prelude.v ===== *)
(** * mockos: a verification library for the kernel

    mockos is a teaching kernel for 32-bit x86 in the style of Linux 0.12:
    paging with copy-on-write, fork, a round-robin scheduler, kernel mutexes, a
    buffer cache, the beginnings of a hard-disk driver, a formatter for messages,
    and the tool that builds its disk image.  The library translates its C code,
    inline assembly included, into Rocq functions and proves what the functions
    promise.  This file holds the header and what all files share: outcomes, a
    state monad with faults, arrays indexed by C integers, record update.

    ** How the program fits together

    boot/head.s builds the interrupt and segment tables and the page tables and
    calls [main].  init/main.c sets up the serial line, the page allocator, the buffer cache,
    the interrupt gates, the scheduler and the disk, and enters user mode.  From
    then on the kernel runs on interrupts: system calls dispatch through
    [sys_call_table]; a page fault on a read-only page copies it ([do_wp_page]);
    the timer calls [schedule]; the disk calls the handler in [do_hd].  Kernel
    code that waits ([getblk], [sys_klock]) sleeps on a wait queue and is resumed
    by [wake_up].

    ** Files, in dependency order

    - Prelude.v: this header; [outcome], the monad [M] with its Hoare triples,
      [arr_get]/[arr_set], the record-update notation.
    - Words.v: 8-, 16- and 32-bit words as [Z], bit-level automation ([bits]).
    - Descriptors.v: segment and gate descriptors, packed and read back as the
      processor does (include/asm/system.h, include/linux/sched.h, [get_base] and
      [set_base] of kernel/sched.c, [trap_init] of kernel/traps.c).
    - Memory.v: mm/memory.c, mm/swap.c, include/linux/mm.h over a physical
      memory of words and the byte array [mem_map].
    - AddressSpace.v: the page tables as the processor walks them for user code,
      with [page_fault] of mm/page.asm, against separate memories.
    - Sched.v: [schedule], [__sleep_on], [wake_up] of kernel/sched.c over the
      interfaces [SchedOps] and [WaitQueues]; [SchedLaws] states what the
      theorems need of an implementation.
    - Mutex.v: [sys_klock] and [sys_kunlock] as a transition system over the
      scheduler: a step is one task's code up to its next call of [schedule].
    - Task.v, Fork.v: [task_struct] and [INIT_TASK]; kernel/fork.c with [sys_fork]
      of kernel/sys_call.s.  ForkSpaces.v: the memory of the child.
    - Vsprintf.v: kernel/vsprintf.c, [printk] and [printm] of kernel/printk.c.
    - Log.v: [log_buf], [sync_log_buf_2] and [sync_log_buf] of kernel/nasm.asm,
      alone and interleaved.
    - Links.v, Buffer.v, Queues.v, Getblk.v, BufferInit.v, CacheSpec.v: fs/buffer.c.
      Buffer.v has the definitions; Links.v and Queues.v the doubly linked lists;
      Getblk.v the well-formed cache [wf]; BufferInit.v the initial cache;
      CacheSpec.v the abstract cache [a_getblk] and the theorems.  Preempt.v: the
      same code with points where the timer may strike.
    - Cpu.v, StringH.v, Strings.v, StringProps.v: include/string.h.
      Cpu.v is the part of an x86 the string instructions use, StringH.v the
      nineteen functions instruction by instruction, Strings.v their runs.
    - Ports.v, Blk.v: include/asm/io.h; kernel/blk_drv/blk.h and hd.c with
      [hd_interrupt] of kernel/idt.asm.
    - Boot.v: [init_serial], [sched_init], [hd_init] and [main] of init/main.c up
      to [sti()], on a machine made of the state of the components.
    - Syscalls.v: include/unistd.h, include/linux/sys.h, the empty calls of
      kernel/traps.c, [system_call] and [ret_from_sys_call] of kernel/sys_call.s.
    - Head.v: boot/head.s on the machine of Boot.v, and [main] after it.
    - Entry.v: the way into the kernel and back, instruction by instruction:
      [system_call], [ret_from_sys_call] and [sys_fork] of kernel/sys_call.s,
      [move_to_user_mode] of include/asm/system.h, on a processor with registers
      and a stack.  Handlers.v: [timer_interrupt], [page_fault], [hd_interrupt] and
      the default handler [ignore_int].
    - Messages.v: [printk] and [printm] from the format to the serial line, and the
      messages of the user half of [main].
    - Layout.v: the bytes of the structures, as the compiler lays them out.
    - Macros.v: the constants and macros of the headers.
    - Start.v: the boot code, [main], the way to user mode and the first [fork]
      composed.
    - Build.v: tools/build.c.

    ** How code and model correspond

    Definitions have the names of the C functions, macros and structures.  A
    static object is a field of the component's state record; a pointer is the
    [Z] that is its address, or an index where only one array is pointed into.  A
    statement that changes state is a step of the monad.  Loops are [Fixpoint]s
    with fuel.  A function that calls [schedule] in its middle is split there
    ([sleep_enter] and [sleep_resume]; [klock_loop] and [klock_resume]), except
    in [getblk], whose sleeps apply to the cache an arbitrary function of the
    other tasks, taken from the list [wakes].  Messages have no effect on the
    state of the other components.  The timer switches tasks in the kernel too; where
    this matters it has steps of its own (Mutex.v, Log.v, Preempt.v), elsewhere a
    function runs without it.  The hardware is a parameter of Ports.v that answers a read from the
    log of all port operations so far; addresses of assembly code are parameters
    of Descriptors.v and Boot.v.

    The entry code exists at two levels.  Fork.v, Syscalls.v, AddressSpace.v and
    Blk.v give its effect on the kernel's state; Entry.v and Handlers.v the
    instructions, with the registers and the words of the stack, and prove that
    they have that effect.  C functions appear there as machine code that keeps
    the calling convention and computes a function of the model ([compiled]).

    A C structure is a record.  Layout.v says what that means for its bytes, and
    that assigning a member, copying the structure, and the offsets of the
    assembly code agree with the record.

    ** What the theorems show

    - Mutexes: mutual exclusion, no lost wake-up, the chain of sleepers is
      complete, and the only ways the system can stop, one of them a race inside
      [wake_up].
    - Memory: the page allocator takes the highest free frame and clears it;
      [copy_page_tables] shares every page read-only and counts the references;
      after the faults of both sharers each has a private copy; what happens
      when no frame is free.  Page tables with copy-on-write refine separate
      memories, except for what is mapped nowhere.
    - Processes: with three free frames [sys_fork] never reuses a pid or a slot, gives the child the
      parent's context with result 0, its own segments and its place among its
      siblings; address spaces do not overlap; the pid search ends.
    - Scheduling: [schedule] ends and picks the next runnable slot; every
      runnable task runs within 63 timer ticks.
    - Buffer cache: [getblk] refines an abstract cache (hit, or replacement of
      the first least bad unused buffer); whatever other tasks do while it
      sleeps or is preempted before its last tests, no block is cached twice, but a
      preemption behind them hands one buffer to two tasks; [buffer_init] builds a well-formed cache;
      a dirty candidate makes [getblk] loop.
    - Log: used by one task at a time the log is a queue of bytes; interleaved, its
      bounds hold, the first round is in order, later rounds repeat old text; the
      messages of [main], parent and child, reach the line.
    - Formatting: [vsprintf] ends on every format; [number] equals a reference
      layout and its digits read back; when [printk] and [printm] overrun.
    - Strings: [strcmp], [strstr], [memmove], [strcat], [strlen], [strspn] do what
      C says, [strncat] and [memcmp] not quite.
    - Disk: two good interrupts bring a block in, a bad status strands the
      request.
    - Boot: gates, descriptors, task table, interrupt masks and timer as the
      kernel needs them, from reset on; free frames and buffers are disjoint.
    - Entry and exit: a system call returns behind its [int] with the result in
      [eax] and all other registers as before; the timer, the disk and page
      faults are invisible to the code they strike; [fork] returns twice.
    - System calls: numbers and table agree; results and [errno]; the missing
      bounds check; signals dropped on return.
    - Structures: members are aligned and disjoint; a record is a faithful view of
      its bytes; assembly and processor find the members; inodes and super blocks
      begin with their form on disk.
    - Image: the builder equals a function of its input files.

    ** Fuel

    Loops over a known object take their bound from it: 64 slots in [pick], the
    number of heads in [find_chain] and [scan], the length of the format in
    [format], of the file in [copy_loop].  The pid search gets 129 rounds: each
    of the 64 tasks rules out at most a pid and a group.  [number] gets 32 digits,
    as many as the least base, 2, needs for 32 bits.  Loops that wait take the
    number of wake-ups to come.  String functions are given more fuel than their
    strings are long, and the theorems show it is enough.  A user access gets two
    rounds, one before and one after its fault, [check_a20] two, as the first
    comparison decides, and [fill_pages] the 4096 entries it stores.  [getblk] can run for
    ever; the theorems say when it does and that it is safe when it does not.

    ** Not modelled

    - The boot sector and setup, which are binary inputs of the image builder;
      [sys_int] of kernel/nasm.asm, a bare return.  What boot/head.s needs of the
      loader is [linked] of Head.v.
    - The 256 stubs of kernel/idt.asm: each spins for ever; the code behind their
      jump is not reached.
    - The end of [main]: [kdebug()], a system call for the [getblk] of
      [sys_kdebug], and [asmbp()], a jump to itself.
    - Arithmetic flags and [eip] inside the kernel, in Entry.v: each conditional
      jump has its test, each call its function.
    - Caches of the processor: the TLB flush after a change of a page table has
      no state to change.
    - Prototypes of functions that do not exist (file system, terminals, floppy),
      typedefs, constants nothing uses.
    - Build files, emulator settings.
    - [sys_kdebug] exists twice: the one in the call table is that of fs/buffer.c;
      that of kernel/blk_drv/hd.c is static and unused, and modelled in Blk.v for
      the requests it makes. *)

From Stdlib Require Export ZArith Lia.
From stdpp Require Export base tactics gmap list strings fin_maps option.

#[export] Set Default Goal Selector "!".
#[global] Open Scope Z_scope.

(** ** Outcomes

    A C function of the kernel either returns, or stops the machine.  [panic]
    prints its message and spins in [asmbp], so it never returns: [Panic].  An
    access outside the object the C code indexes is [Wild].  [Fuel] marks a
    loop cut by the fuel of the model; the termination theorems show where it
    cannot happen. *)

Inductive fault :=
| Panic (msg : string)
| Wild (obj : string)
| Fuel.

Inductive outcome (A : Type) :=
| Ok (a : A)
| Err (f : fault).
Arguments Ok {A} a.
Arguments Err {A} f.

#[export] Instance fault_eq_dec : EqDecision fault.
Proof. solve_decision. Defined.

#[export] Instance outcome_eq_dec A `{EqDecision A} : EqDecision (outcome A).
Proof. solve_decision. Defined.

Definition is_Ok {A} (o : outcome A) : Prop := exists a, o = Ok a.

(** ** A state monad with faults *)

Definition M (S A : Type) : Type := S -> outcome (S * A).

#[export] Instance M_ret S : MRet (M S) := fun A a s => Ok (s, a).
#[export] Instance M_bind S : MBind (M S) := fun A B k m s =>
  match m s with
  | Ok (s', a) => k a s'
  | Err f => Err f
  end.

Section monad.
Context {S : Type}.

Definition get : M S S := fun s => Ok (s, s).
Definition gets {A} (f : S -> A) : M S A := fun s => Ok (s, f s).
Definition put (s : S) : M S unit := fun _ => Ok (s, tt).
Definition modify (f : S -> S) : M S unit := fun s => Ok (f s, tt).
Definition stop {A} (f : fault) : M S A := fun _ => Err f.
(** Lift an access that may fall outside its object. *)
Definition check {A} (obj : string) (o : option A) : M S A := fun s =>
  match o with
  | Some a => Ok (s, a)
  | None => Err (Wild obj)
  end.
(** [if (c) { m }] *)
Definition when (c : bool) (m : M S unit) : M S unit := if c then m else mret tt.

Lemma bind_ok {A B} (m : M S A) (k : A -> M S B) s s' a :
  m s = Ok (s', a) -> (m ≫= k) s = k a s'.
Proof. intros H. unfold mbind, M_bind. by rewrite H. Qed.

Lemma bind_err {A B} (m : M S A) (k : A -> M S B) s f :
  m s = Err f -> (m ≫= k) s = Err f.
Proof. intros H. unfold mbind, M_bind. by rewrite H. Qed.

Lemma bind_inv {A B} (m : M S A) (k : A -> M S B) s s' b :
  (m ≫= k) s = Ok (s', b) -> exists s1 a, m s = Ok (s1, a) /\ k a s1 = Ok (s', b).
Proof.
  unfold mbind, M_bind. destruct (m s) as [[s1 a]|f] eqn:E; [|done]. eauto.
Qed.

Lemma bind_ret {A B} (a : A) (k : A -> M S B) s : (mret a ≫= k) s = k a s.
Proof. done. Qed.

(** [hoare E P m Q]: from a state in [P], [m] ends in [Q], or stops in a way
    that [E] allows. *)
Definition hoare {A} (E : fault -> Prop) (P : S -> Prop) (m : M S A) (Q : A -> S -> Prop) : Prop := forall s,
  P s -> match m s with Ok (s', a) => Q a s' | Err f => E f end.

Lemma triple_bind {A B} {E : fault -> Prop} P (m : M S A) Q (k : A -> M S B) R :
  hoare E P m Q -> (forall a, hoare E (Q a) (k a) R) -> hoare E P (m ≫= k) R.
Proof.
  intros Hm Hk s Hs. specialize (Hm s Hs). unfold mbind, M_bind.
  destruct (m s) as [[s' a]|f]; [by apply Hk|done].
Qed.

Lemma triple_ret {A} {E : fault -> Prop} (a : A) (P : S -> Prop) Q :
  (forall s, P s -> Q a s) -> hoare E P (mret a) Q.
Proof. intros H s Hs. by apply H. Qed.

Lemma triple_get {E : fault -> Prop} (P : S -> Prop) : hoare E P get (fun s s' => s' = s /\ P s).
Proof. by intros s Hs. Qed.

Lemma triple_pre {A} {E : fault -> Prop} (P P' : S -> Prop) (m : M S A) Q :
  (forall s, P s -> P' s) -> hoare E P' m Q -> hoare E P m Q.
Proof. intros H Hm s Hs. by apply Hm, H. Qed.

(** What the precondition says apart from the state. *)
Lemma triple_pure {A} {E : fault -> Prop} (P : S -> Prop) (phi : Prop) (m : M S A) Q :
  (forall s, P s -> phi) -> (phi -> hoare E P m Q) -> hoare E P m Q.
Proof. intros H Hm s Hs. by apply Hm; [eapply H|]. Qed.

(** A computation whose first step is known. *)
Lemma triple_step {A B} {E : fault -> Prop} (P : S -> Prop) (m : M S A) (k : A -> M S B) R :
  (forall s, P s -> exists s' a, m s = Ok (s', a) /\ hoare E (eq s') (k a) R) -> hoare E P (m ≫= k) R.
Proof.
  intros H s Hs. destruct (H s Hs) as (s' & a & Em & Hk). rewrite (bind_ok _ _ _ _ _ Em). by apply Hk.
Qed.

Lemma triple_at {A} {E : fault -> Prop} (P : S -> Prop) (m : M S A) Q :
  hoare E P m Q -> forall s, P s -> hoare E (eq s) m Q.
Proof. intros H s Hs s' <-. by apply H. Qed.

(** Steps that depend on the result of the first. *)
Lemma bind_ext {A B} (m m' : M S A) (k k' : A -> M S B) s :
  m s = m' s -> (forall s' a, m s = Ok (s', a) -> k a s' = k' a s') -> (m ≫= k) s = (m' ≫= k') s.
Proof.
  intros Em Hk. unfold mbind, M_bind. rewrite <-Em. destruct (m s) as [[s' a]|f]; [by apply Hk|done].
Qed.
End monad.

(** Only fuel may stop the computation. *)
Abbreviation triple := (hoare (fun f => f = Fuel)).

(** ** Arrays indexed by C integers *)

Section arrays.
Context {A : Type}.
Implicit Types (l : list A) (i : Z).

Definition arr_get l i : option A := if decide (0 ≤ i) then l !! Z.to_nat i else None.
Definition arr_set l i (x : A) : option (list A) :=
  if decide (0 ≤ i < Z.of_nat (length l)) then Some (<[Z.to_nat i := x]> l) else None.

Lemma arr_get_Some l i x : arr_get l i = Some x -> 0 ≤ i < Z.of_nat (length l).
Proof.
  unfold arr_get. case_decide; [|done]. intros ?%lookup_lt_Some. lia.
Qed.

Lemma arr_get_is_Some l i : 0 ≤ i < Z.of_nat (length l) -> is_Some (arr_get l i).
Proof.
  intros H. unfold arr_get. rewrite decide_True by lia. apply lookup_lt_is_Some. lia.
Qed.

Lemma arr_get_nat l (n : nat) : arr_get l (Z.of_nat n) = l !! n.
Proof. unfold arr_get. rewrite decide_True by lia. by rewrite Nat2Z.id. Qed.

Lemma arr_set_Some l i x :
  0 ≤ i < Z.of_nat (length l) -> arr_set l i x = Some (<[Z.to_nat i := x]> l).
Proof. intros H. unfold arr_set. by rewrite decide_True. Qed.

Lemma arr_set_inv l i x l' :
  arr_set l i x = Some l' ->
  0 ≤ i < Z.of_nat (length l) /\ l' = <[Z.to_nat i := x]> l.
Proof. unfold arr_set. case_decide; intros; simplify_eq. done. Qed.

Lemma arr_get_insert l i j x :
  0 ≤ i < Z.of_nat (length l) ->
  arr_get (<[Z.to_nat i := x]> l) j = if decide (i = j) then Some x else arr_get l j.
Proof.
  intros H. unfold arr_get. case_decide; case_decide; subst; try lia.
  - by rewrite list_lookup_insert_eq by lia.
  - rewrite list_lookup_insert_ne by lia. done.
  - done.
Qed.

(** Writing back a modified element. *)
Lemma insert_alter l (n : nat) x (f : A -> A) :
  l !! n = Some x -> <[n := f x]> l = alter f n l.
Proof.
  intros Hx. apply list_eq. intros j. destruct (decide (j = n)) as [->|Hj].
  - apply lookup_lt_Some in Hx as ?. by rewrite list_lookup_insert_eq, list_lookup_alter_eq, Hx by lia.
  - by rewrite list_lookup_insert_ne, list_lookup_alter_ne by done.
Qed.
End arrays.

Lemma map_insert_alter {A} (m : gmap Z A) i x (f : A -> A) :
  m !! i = Some x -> <[i := f x]> m = alter f i m.
Proof.
  intros Hx. apply map_eq. intros j. destruct (decide (j = i)) as [->|Hj].
  - by rewrite lookup_insert_eq, lookup_alter_eq, Hx.
  - by rewrite lookup_insert_ne, lookup_alter_ne by done.
Qed.

(** ** Record update

    [r <| f := v |>] replaces one field of a record.  A record type gives its
    eta expansion once ([Eta]); the setter of a field is found by abstracting
    that expansion over the projection. *)

Class Eta (T : Type) := eta : T -> T.
Class Setter {T E : Type} (p : T -> E) := upd : (E -> E) -> T -> T.
Arguments upd {T E} p {_} _ _ /.

Ltac find_setter T p :=
  let e := constr:(_ : Eta T) in
  let e := eval hnf in e in
  lazymatch eval pattern p in e with
  | ?body _ => let s := eval cbv beta in (fun f => body (fun r => f (p r))) in exact s
  end.

#[export] Hint Extern 0 (@Setter ?T _ ?p) => find_setter T p : typeclass_instances.

Declare Scope upd_scope.
#[global] Open Scope upd_scope.
Notation "r <| p := v |>" := (upd p (fun _ => v) r)
  (at level 12, left associativity, p constr at level 9, v constr at level 99) : upd_scope.
