(* ===== verification/Words.v ===== *)
(** * Machine words

    The kernel is compiled for a 32-bit x86: [int], [long] and pointers have
    32 bits.  A word is a [Z]; [u8]/[u16]/[u32] reduce to the unsigned range and
    [s32]/[s8] to the signed one.  The [bits] tactic proves equations between
    shift-and-mask expressions bit by bit. *)
From S2P Require Import Prelude.

Definition u8 (z : Z) : Z := z mod 2 ^ 8.
Definition u16 (z : Z) : Z := z mod 2 ^ 16.
Definition u32 (z : Z) : Z := z mod 2 ^ 32.
Definition s8 (z : Z) : Z := (z + 2 ^ 7) mod 2 ^ 8 - 2 ^ 7.
Definition s32 (z : Z) : Z := (z + 2 ^ 31) mod 2 ^ 32 - 2 ^ 31.

(** ** Ranges *)

Lemma u8_range z : 0 ≤ u8 z < 256.
Proof. apply Z.mod_pos_bound. lia. Qed.
Lemma u16_range z : 0 ≤ u16 z < 65536.
Proof. apply Z.mod_pos_bound. lia. Qed.
Lemma u32_range z : 0 ≤ u32 z < 2 ^ 32.
Proof. apply Z.mod_pos_bound. lia. Qed.
Lemma s32_range z : - 2 ^ 31 ≤ s32 z < 2 ^ 31.
Proof. unfold s32. pose proof (Z.mod_pos_bound (z + 2 ^ 31) (2 ^ 32)). lia. Qed.

Lemma u8_small z : 0 ≤ z < 256 -> u8 z = z.
Proof. intros. apply Z.mod_small. lia. Qed.
Lemma u16_small z : 0 ≤ z < 65536 -> u16 z = z.
Proof. intros. apply Z.mod_small. lia. Qed.
Lemma u32_small z : 0 ≤ z < 2 ^ 32 -> u32 z = z.
Proof. intros. apply Z.mod_small. lia. Qed.
Lemma s32_small z : - 2 ^ 31 ≤ z < 2 ^ 31 -> s32 z = z.
Proof. intros. unfold s32. rewrite Z.mod_small by lia. lia. Qed.

(** ** Bits *)

Lemma testbit_shiftl a n i :
  Z.testbit (Z.shiftl a n) i = (0 <=? i) && Z.testbit a (i - n).
Proof.
  destruct (Z.leb_spec 0 i); simpl.
  - by apply Z.shiftl_spec.
  - by rewrite Z.testbit_neg_r by lia.
Qed.

Lemma testbit_shiftr a n i :
  Z.testbit (Z.shiftr a n) i = (0 <=? i) && Z.testbit a (i + n).
Proof.
  destruct (Z.leb_spec 0 i); simpl.
  - by apply Z.shiftr_spec.
  - by rewrite Z.testbit_neg_r by lia.
Qed.

Lemma testbit_mod_pow2 a n i :
  0 ≤ n -> Z.testbit (a mod 2 ^ n) i = (i <? n) && Z.testbit a i.
Proof. intros. by apply Z.testbit_mod_pow2. Qed.

Lemma testbit_ones n i :
  0 ≤ n -> Z.testbit (Z.ones n) i = (0 <=? i) && (i <? n).
Proof. intros. by rewrite Z.testbit_ones. Qed.

Lemma testbit_high n x i : 0 ≤ x < 2 ^ n -> n ≤ i -> Z.testbit x i = false.
Proof.
  intros [H0 H] Hi. destruct (decide (x = 0)) as [->|]; [apply Z.bits_0|].
  apply Z.bits_above_log2; [lia|]. apply Z.log2_lt_pow2 in H; lia.
Qed.

Lemma testbit_out n x i : 0 ≤ x < 2 ^ n -> ¬ (0 ≤ i < n) -> Z.testbit x i = false.
Proof.
  intros Hx Hi. destruct (decide (0 ≤ i)).
  - apply (testbit_high n); [done|lia].
  - apply Z.testbit_neg_r. lia.
Qed.

Lemma lor_add x y : Z.land x y = 0 -> Z.lor x y = x + y.
Proof. intros H. rewrite <-Z.lxor_lor by done. symmetry. by apply Z.add_nocarry_lxor. Qed.

Lemma land_ones_mod x n : 0 ≤ n -> Z.land x (Z.ones n) = x mod 2 ^ n.
Proof. intros. by apply Z.land_ones. Qed.

Create HintDb bits.
#[export] Hint Rewrite Z.lor_spec Z.land_spec Z.lxor_spec Z.ldiff_spec Z.bits_0
  testbit_shiftl testbit_shiftr : bits.
#[export] Hint Rewrite testbit_mod_pow2 testbit_ones using lia : bits.

Ltac bits_simpl :=
  cbn [negb];
  rewrite ?andb_false_l, ?andb_true_l, ?orb_false_l, ?orb_true_l,
         ?andb_false_r, ?andb_true_r, ?orb_false_r, ?orb_true_r.

Ltac bits_norm := repeat (progress autorewrite with bits).

Ltac bits_split :=
  repeat (match goal with
  | |- context [?a <=? ?b] => destruct (Z.leb_spec a b); try (exfalso; lia)
  | |- context [?a <? ?b] => destruct (Z.ltb_spec a b); try (exfalso; lia)
  end; bits_simpl).

Ltac bits_leaf :=
  repeat match goal with
  | |- context [Z.testbit ?x ?e] => rewrite (Z.testbit_neg_r x e) by lia
  | H : 0 ≤ ?x < 2 ^ ?n |- context [Z.testbit ?x ?e] => rewrite (testbit_high n x e H) by lia
  | |- context [Z.testbit ?x ?e] => rewrite (testbit_high 32 x e) by lia
  | |- context [Z.testbit ?x ?e] => rewrite (testbit_high 16 x e) by lia
  | |- context [Z.testbit ?x ?e] => rewrite (testbit_high 8 x e) by lia
  end;
  bits_simpl;
  first [ done | f_equal; lia | f_equal; f_equal; lia | idtac ].

(** Case split on whether a bit index falls inside a bounded word. *)
Ltac bits_bound :=
  repeat match goal with
  | H : 0 ≤ ?x < 2 ^ ?n |- context [Z.testbit ?x ?e] =>
      assert_fails (assert (0 ≤ e < n) by lia);
      let C := fresh in destruct (decide (0 ≤ e < n)) as [C|C];
      [|rewrite (testbit_out n x e H C)]; try (exfalso; lia)
  end; bits_leaf.

(** Prove [x = y] for words built by shifting and masking. *)
Ltac bits :=
  apply Z.bits_inj'; let i := fresh "i" in let Hi := fresh "Hi" in intros i Hi;
  unfold u8, u16, u32; bits_norm; bits_split; bits_leaf; bits_bound.

(** [mask k w]: ones in the bits [k] to [k + w - 1]. *)
Abbreviation mask k w := (Z.shiftl (Z.ones w) k).
