(* ===== verification/Descriptors.v ===== *)
(** * Segment and gate descriptors

    The code that packs bases, limits and handler addresses into 8-byte x86
    descriptors: [get_base]/[set_base] (kernel/sched.c), [_set_gate] and
    [_set_tssldt_desc] with their wrappers (include/asm/system.h), [_set_limit],
    [get_limit] and the selectors [_TSS]/[_LDT] (include/linux/sched.h), and
    [trap_init] (kernel/traps.c).  Inline assembly is translated instruction
    by instruction; a partial register or memory write is [put_bits]. *)
From S2P Require Import Prelude Words.

(** The [n]-bit field at bit [k]: read, and overwrite with the low bits of [v]. *)
Definition get_bits (k n w : Z) : Z := Z.shiftr w k mod 2 ^ n.
Definition put_bits (k n w v : Z) : Z :=
  Z.lor (Z.ldiff w (mask k n)) (Z.shiftl (v mod 2 ^ n) k).

(** include/linux/head.h *)
Record desc_struct := Desc { desc_a : Z; desc_b : Z }.

#[export] Instance desc_eta : Eta desc_struct := fun d => Desc (desc_a d) (desc_b d).
#[export] Instance desc_eq_dec : EqDecision desc_struct.
Proof. solve_decision. Defined.

Definition wf_desc (d : desc_struct) : Prop := 0 ≤ desc_a d < 2 ^ 32 /\ 0 ≤ desc_b d < 2 ^ 32.

(** ** Bases *)

Definition get_base (p : desc_struct) : Z :=
  Z.lor (Z.lor (Z.shiftr (desc_a p) 16) (Z.shiftl (Z.land (desc_b p) 0xff) 16))
        (Z.land (desc_b p) 0xff000000).

Definition set_base (p : desc_struct) (base : Z) : desc_struct :=
  let a' := Z.lor (Z.land (desc_a p) 0x0000ffff) (Z.shiftl (Z.land base 0xffff) 16) in
  let b' := Z.lor (Z.land (desc_b p) 0xffffff00) (Z.shiftr (Z.land base 0xff0000) 16) in
  let b'' := Z.lor (Z.land b' 0x00ffffff) (Z.land base 0xff000000) in
  Desc a' b''.

(** ** Gates *)

(** [movw %dx,%ax; movw $imm,%dx; movl %eax,(gate); movl %edx,4(gate)] with
    [eax = 0x00080000] and [edx = addr]; the immediate is a [short]. *)
Definition _set_gate (type dpl addr : Z) : desc_struct :=
  let eax := put_bits 0 16 0x00080000 addr in
  let edx := put_bits 0 16 addr (0x8000 + Z.shiftl dpl 13 + Z.shiftl type 8) in
  Desc eax edx.

Definition set_trap_gate (addr : Z) : desc_struct := _set_gate 15 0 addr.
Definition set_system_gate (addr : Z) : desc_struct := _set_gate 15 3 addr.
Definition set_intr_gate (addr : Z) : desc_struct := _set_gate 14 0 addr.

(** ** TSS and LDT descriptors *)

Definition ror16 (w : Z) : Z := Z.lor (Z.shiftr w 16) (Z.shiftl (w mod 2 ^ 16) 16).

(** The stores at [n], [n+2], [n+4], [n+5], [n+6] and [n+7] in order; [eax] is
    rotated between the second and the third. *)
Definition _set_tssldt_desc (n : desc_struct) (addr type : Z) : desc_struct :=
  let eax := addr in
  let a1 := put_bits 0 16 (desc_a n) 104 in
  let a2 := put_bits 16 16 a1 eax in
  let eax := ror16 eax in
  let b1 := put_bits 0 8 (desc_b n) eax in
  let b2 := put_bits 8 8 b1 type in
  let b3 := put_bits 16 8 b2 0x00 in
  let b4 := put_bits 24 8 b3 (Z.shiftr eax 8) in
  Desc a2 b4.

Definition set_tss_desc (n : desc_struct) (addr : Z) : desc_struct :=
  _set_tssldt_desc n addr 0x89.
Definition set_ldt_desc (n : desc_struct) (addr : Z) : desc_struct :=
  _set_tssldt_desc n addr 0x82.

(** ** Limits *)

(** [movw %dx,(addr); rorl $16,%edx; movb 6(addr),%dh; andb $0xf0,%dh;
    orb %dh,%dl; movb %dl,6(addr)] *)
Definition _set_limit (d : desc_struct) (limit : Z) : desc_struct :=
  let a' := put_bits 0 16 (desc_a d) limit in
  let edx := ror16 limit in
  let dh := Z.land (get_bits 16 8 (desc_b d)) 0xf0 in
  let dl := Z.lor (get_bits 0 8 edx) dh in
  Desc a' (put_bits 16 8 (desc_b d) dl).

Definition set_limit (ldt : desc_struct) (limit : Z) : desc_struct :=
  _set_limit ldt (Z.shiftr (u32 (limit - 1)) 12).

(** The CPU's [lsl] instruction: the 20-bit limit, scaled by 4K when the
    granularity bit (bit 23 of the high word) is set. *)
Definition lsl (d : desc_struct) : Z :=
  let raw := Z.lor (get_bits 0 16 (desc_a d)) (Z.shiftl (get_bits 16 4 (desc_b d)) 16) in
  if Z.testbit (desc_b d) 23 then Z.lor (Z.shiftl raw 12) 0xfff else raw.

(** [lsll %1,%0; incl %0] on the descriptor the selector names. *)
Definition get_limit (d : desc_struct) : Z := u32 (lsl d + 1).

(** ** Selectors *)

Definition FIRST_TSS_ENTRY : Z := 4.
Definition FIRST_LDT_ENTRY : Z := FIRST_TSS_ENTRY + 1.
Definition _TSS (n : Z) : Z := u32 (Z.shiftl n 4 + Z.shiftl FIRST_TSS_ENTRY 3).
Definition _LDT (n : Z) : Z := u32 (Z.shiftl n 4 + Z.shiftl FIRST_LDT_ENTRY 3).

(** ** trap_init

    [idt_ptrs] is the table of the 256 default handlers (kernel/idt.asm) and
    [page_fault] the handler of mm/page.asm, both addresses fixed by the
    linker. *)
Section trap_init.
Variables (idt_ptrs : Z -> Z) (page_fault : Z).

Definition set_low_offset (d : desc_struct) (off : Z) : desc_struct :=
  Desc (Z.lor (Z.land (desc_a d) (Z.lnot 0xffff)) (Z.land off 0xffff)) (desc_b d).

Definition trap_init (idt : list desc_struct) : list desc_struct :=
  let idt' := imap (fun i d => if decide (Z.of_nat i < 256)
                               then set_low_offset d (idt_ptrs (Z.of_nat i)) else d) idt in
  <[14%nat := set_trap_gate page_fault]> idt'.
End trap_init.

(** ** How the CPU reads a descriptor

    The specification side: the fields the processor extracts. *)
Record gate := Gate {
  gate_offset : Z; gate_selector : Z; gate_type : Z; gate_dpl : Z; gate_present : bool }.

Definition decode_gate (d : desc_struct) : gate :=
  Gate (Z.lor (get_bits 0 16 (desc_a d)) (Z.shiftl (get_bits 16 16 (desc_b d)) 16))
       (get_bits 16 16 (desc_a d)) (get_bits 8 5 (desc_b d)) (get_bits 13 2 (desc_b d))
       (Z.testbit (desc_b d) 15).

Record segment := Segment { seg_base : Z; seg_raw_limit : Z; seg_access : Z; seg_flags : Z }.

Definition decode_segment (d : desc_struct) : segment :=
  Segment
    (Z.lor (Z.lor (get_bits 16 16 (desc_a d)) (Z.shiftl (get_bits 0 8 (desc_b d)) 16))
           (Z.shiftl (get_bits 24 8 (desc_b d)) 24))
    (Z.lor (get_bits 0 16 (desc_a d)) (Z.shiftl (get_bits 16 4 (desc_b d)) 16))
    (get_bits 8 8 (desc_b d)) (get_bits 20 4 (desc_b d)).

#[export] Instance segment_eta : Eta segment := fun s =>
  Segment (seg_base s) (seg_raw_limit s) (seg_access s) (seg_flags s).

#[export] Instance gate_eta : Eta gate := fun g =>
  Gate (gate_offset g) (gate_selector g) (gate_type g) (gate_dpl g) (gate_present g).

(** ** Lemmas *)

Lemma testbit_put_bits k n w v i :
  0 ≤ k -> 0 ≤ n -> 0 ≤ i ->
  Z.testbit (put_bits k n w v) i =
    if (k <=? i) && (i <? k + n) then Z.testbit v (i - k) else Z.testbit w i.
Proof.
  intros. unfold put_bits. bits_norm. bits_split; bits_leaf.
Qed.

Lemma testbit_get_bits k n w i :
  0 ≤ k -> 0 ≤ n -> 0 ≤ i ->
  Z.testbit (get_bits k n w) i = (i <? n) && Z.testbit w (i + k).
Proof. intros. unfold get_bits. bits_norm. bits_split; bits_leaf. Qed.

Lemma get_put_bits k n w v :
  0 ≤ k -> 0 ≤ n -> get_bits k n (put_bits k n w v) = v mod 2 ^ n.
Proof. intros. unfold get_bits, put_bits. bits. Qed.

(** A field read is unchanged by a write to a disjoint field. *)
Lemma get_put_bits_ne k n k' n' w v :
  0 ≤ k -> 0 ≤ n -> 0 ≤ k' -> 0 ≤ n' -> k + n ≤ k' \/ k' + n' ≤ k ->
  get_bits k n (put_bits k' n' w v) = get_bits k n w.
Proof. intros ???? H. unfold get_bits, put_bits. destruct H; bits. Qed.

Lemma put_bits_range k n w v :
  0 ≤ k -> 0 ≤ n -> k + n ≤ 32 -> 0 ≤ w < 2 ^ 32 -> 0 ≤ put_bits k n w v < 2 ^ 32.
Proof.
  intros. replace (put_bits k n w v) with (u32 (put_bits k n w v)); [apply u32_range|].
  unfold put_bits. bits.
Qed.

Create HintDb desc.
#[export] Hint Rewrite get_put_bits using lia : desc.
#[export] Hint Rewrite get_put_bits_ne using lia : desc.

(** The masks of the C code as bit ranges. *)
Ltac masks :=
  change 0xff000000 with (mask 24 8) in *; change 0xffffff00 with (mask 8 24) in *;
  change 0x00ffffff with (mask 0 24) in *; change 0xff0000 with (mask 16 8) in *;
  change 0xffff with (mask 0 16) in *; change 0xff with (mask 0 8) in *;
  change 0xf0 with (mask 4 4) in *; change 0xfff with (mask 0 12) in *.

Lemma get_base_decode d : wf_desc d -> get_base d = seg_base (decode_segment d).
Proof. intros [Ha Hb]. unfold get_base. cbn. unfold get_bits. masks. bits. Qed.

Lemma set_base_wf d base : wf_desc d -> 0 ≤ base < 2 ^ 32 -> wf_desc (set_base d base).
Proof.
  intros [Ha Hb] H. split; cbn; masks.
  - match goal with |- 0 ≤ ?x < _ => replace x with (u32 x); [apply u32_range|bits] end.
  - match goal with |- 0 ≤ ?x < _ => replace x with (u32 x); [apply u32_range|bits] end.
Qed.

Lemma get_set_base d base :
  wf_desc d -> 0 ≤ base < 2 ^ 32 -> get_base (set_base d base) = base.
Proof. intros Hd Hb. destruct Hd. unfold get_base. cbn. masks. bits. Qed.

Lemma decode_set_base d base :
  wf_desc d -> 0 ≤ base < 2 ^ 32 ->
  decode_segment (set_base d base) = decode_segment d <| seg_base := base |>.
Proof.
  intros Hd Hb. pose proof (get_base_decode _ (set_base_wf _ _ Hd Hb)) as Hw.
  rewrite get_set_base in Hw by done. destruct Hd.
  unfold decode_segment in *. cbn [upd seg_base seg_raw_limit seg_access seg_flags] in *.
  rewrite <-Hw. f_equal; cbn; unfold get_bits; masks; bits.
Qed.

(** [set_base] stores the 32-bit base that both [get_base] and the
    processor read back, and leaves limit, access byte and flags alone. *)
Theorem set_base_correct d base :
  wf_desc d -> 0 ≤ base < 2 ^ 32 ->
  get_base (set_base d base) = base /\
  decode_segment (set_base d base) = decode_segment d <| seg_base := base |>.
Proof. split; [by apply get_set_base|by apply decode_set_base]. Qed.

Lemma gate_word_lor dpl type :
  0 ≤ dpl < 2 ^ 2 -> 0 ≤ type < 2 ^ 5 ->
  0x8000 + Z.shiftl dpl 13 + Z.shiftl type 8 =
  Z.lor (Z.lor (mask 15 1) (Z.shiftl dpl 13)) (Z.shiftl type 8).
Proof.
  intros. change 0x8000 with (mask 15 1).
  assert (Z.land (mask 15 1) (Z.shiftl dpl 13) = 0) as E1 by bits.
  assert (Z.land (Z.lor (mask 15 1) (Z.shiftl dpl 13)) (Z.shiftl type 8) = 0) as E2 by bits.
  by rewrite (lor_add _ _ E2), (lor_add _ _ E1).
Qed.

(** A gate built for [addr] sends the processor to [addr] in the kernel
    code segment (selector 8), with the requested type and privilege level,
    present. *)
Theorem set_gate_decode type dpl addr :
  0 ≤ type < 2 ^ 5 -> 0 ≤ dpl < 2 ^ 2 -> 0 ≤ addr < 2 ^ 32 ->
  decode_gate (_set_gate type dpl addr) = Gate addr 8 type dpl true.
Proof.
  intros. unfold decode_gate, _set_gate. cbn [desc_a desc_b].
  rewrite gate_word_lor by done. change 0x00080000 with (mask 19 1).
  f_equal.
  - unfold get_bits, put_bits. bits.
  - change 8 with (mask 3 1). unfold get_bits, put_bits. bits.
  - unfold get_bits, put_bits. bits.
  - unfold get_bits, put_bits. bits.
  - rewrite testbit_put_bits by lia. bits_norm. bits_split; bits_leaf.
Qed.

Lemma tssldt_wf n addr type : wf_desc n -> wf_desc (_set_tssldt_desc n addr type).
Proof. intros [Ha Hb]. split; cbn; repeat apply put_bits_range; lia. Qed.

Lemma decode_tssldt n addr type :
  wf_desc n -> 0 ≤ addr < 2 ^ 32 -> 0 ≤ type < 2 ^ 8 ->
  decode_segment (_set_tssldt_desc n addr type) = Segment addr 104 type 0.
Proof.
  intros [Ha Hb] Hx Ht.
  unfold decode_segment, _set_tssldt_desc, ror16. cbn [desc_a desc_b].
  f_equal; repeat (progress autorewrite with desc).
  - bits.
  - enough (forall w, get_bits 16 4 (put_bits 16 8 w 0) = 0) as ->; [done|].
    intros. unfold get_bits, put_bits. bits.
  - apply Z.mod_small. lia.
  - unfold get_bits, put_bits. bits.
Qed.

(** A TSS or LDT descriptor for [addr] is a segment of base [addr], limit
    104 bytes and access byte [type], whatever the GDT slot held before. *)
Theorem set_tssldt_decode n addr type :
  wf_desc n -> 0 ≤ addr < 2 ^ 32 -> 0 ≤ type < 2 ^ 8 ->
  decode_segment (_set_tssldt_desc n addr type) = Segment addr 104 type 0 /\
  get_base (_set_tssldt_desc n addr type) = addr.
Proof.
  intros Hn Ha Ht. split; [by apply decode_tssldt|].
  by rewrite get_base_decode, decode_tssldt by (done || by apply tssldt_wf).
Qed.

(** [set_limit] then [get_limit] gives the limit back, for a page-granular
    descriptor and a limit in whole pages; the base is untouched. *)
Theorem set_limit_get_limit d limit :
  wf_desc d -> Z.testbit (desc_b d) 23 = true ->
  0 < limit < 2 ^ 32 -> limit mod 4096 = 0 ->
  get_limit (set_limit d limit) = limit /\ get_base (set_limit d limit) = get_base d.
Proof.
  intros [Ha Hb] HG Hl Hp. unfold set_limit. rewrite (u32_small (limit - 1)) by lia.
  set (r := Z.shiftr (limit - 1) 12).
  assert (r = (limit - 1) / 2 ^ 12) as Er by (apply Z.shiftr_div_pow2; lia).
  assert (0 ≤ r < 2 ^ 20) as Hr by (rewrite Er; Z.div_mod_to_equations; lia).
  assert (Z.testbit (desc_b (_set_limit d r)) 23 = true) as HG'.
  { unfold _set_limit. cbn [desc_b]. rewrite testbit_put_bits by lia.
    change ((16 <=? 23) && (23 <? 16 + 8)) with true. cbv iota. unfold get_bits. masks.
    bits_norm.
    repeat match goal with |- context [Z.testbit (desc_b d) ?e] => change e with 23 end.
    rewrite HG. by rewrite orb_true_r. }
  split.
  - unfold get_limit, lsl. rewrite HG'.
    assert (Z.lor (get_bits 0 16 (desc_a (_set_limit d r)))
              (Z.shiftl (get_bits 16 4 (desc_b (_set_limit d r))) 16) = r) as ->.
    { cbn. unfold get_bits, put_bits, ror16. masks. bits. }
    masks. rewrite lor_add by bits. rewrite Z.shiftl_mul_pow2 by lia. rewrite Er.
    change (mask 0 12) with 4095. rewrite u32_small; Z.div_mod_to_equations; lia.
  - unfold get_base, _set_limit. cbn [desc_a desc_b]. masks. unfold get_bits, put_bits, ror16.
    bits.
Qed.

Lemma trap_init_lookup idt_ptrs page_fault idt (i : nat) d :
  length idt = 256%nat -> idt !! i = Some d -> i <> 14%nat ->
  trap_init idt_ptrs page_fault idt !! i = Some (set_low_offset d (idt_ptrs (Z.of_nat i))).
Proof.
  intros Hl Hi Hne. unfold trap_init. rewrite list_lookup_insert_ne by done.
  rewrite list_lookup_imap, Hi. cbn. apply lookup_lt_Some in Hi.
  by rewrite decide_True by lia.
Qed.

Lemma low_offset_decode d off : wf_desc d -> 0 ≤ off < 2 ^ 32 ->
  decode_gate (set_low_offset d off) =
  decode_gate d <| gate_offset := put_bits 0 16 (gate_offset (decode_gate d)) off |>.
Proof.
  intros [Ha Hb] Ho. unfold decode_gate, set_low_offset.
  cbn [desc_a desc_b upd gate_offset gate_selector gate_type gate_dpl gate_present]. rewrite <-Z.ldiff_land.
  masks. f_equal; unfold get_bits, put_bits; bits.
Qed.

(** [trap_init] on a 256-entry table: vector 14 becomes a trap gate for
    [page_fault]; every other gate keeps its selector, type and privilege, and
    its offset takes only the low half of the handler's address.  So the gate
    reaches its handler exactly when the high half already stored agrees. *)
Theorem trap_init_gates idt_ptrs page_fault idt (i : nat) d :
  length idt = 256%nat -> idt !! i = Some d -> wf_desc d ->
  0 ≤ page_fault < 2 ^ 32 -> 0 ≤ idt_ptrs (Z.of_nat i) < 2 ^ 32 ->
  exists d', trap_init idt_ptrs page_fault idt !! i = Some d' /\
    let off := idt_ptrs (Z.of_nat i) in
    if decide (i = 14%nat) then decode_gate d' = Gate page_fault 8 15 0 true
    else decode_gate d' =
           decode_gate d <| gate_offset :=
             put_bits 0 16 (gate_offset (decode_gate d)) off |> /\
         (gate_offset (decode_gate d') = off <->
            get_bits 16 16 (gate_offset (decode_gate d)) = get_bits 16 16 off).
Proof.
  intros Hl Hi [Ha Hb] Hp Ho. cbv zeta. case_decide as Hc.
  - subst. exists (set_trap_gate page_fault). split.
    + unfold trap_init. rewrite list_lookup_insert_eq; [done|]. rewrite length_imap. lia.
    + apply set_gate_decode; lia.
  - eexists. split; [by apply trap_init_lookup|].
    set (off := idt_ptrs (Z.of_nat i)) in *.
    pose proof (low_offset_decode d off (conj Ha Hb) Ho) as E.
    split; [exact E|]. rewrite E. cbn [upd gate_offset]. split.
    + intros H. rewrite <-H. symmetry. apply get_put_bits_ne; lia.
    + intros H. apply (f_equal (fun z => Z.shiftl z 16)) in H.
      assert (off = put_bits 0 16 (Z.shiftl (get_bits 16 16 off) 16) off) as ->.
      { unfold get_bits, put_bits. bits. }
      rewrite <-H. unfold get_bits, put_bits, decode_gate, gate_offset, get_bits. bits.
Qed.

(** ** Witnesses

    The descriptors of [INIT_TASK]'s LDT (include/linux/sched.h). *)
Definition init_ldt : list desc_struct :=
  [Desc 0 0; Desc 0x9f 0xc0fa00; Desc 0x9f 0xc0f200].

Lemma set_base_correct_witness :
  let d := Desc 0x9f 0xc0fa00 in
  get_base (set_base d 0x4000000) = 0x4000000 /\
  decode_segment (set_base d 0x4000000) = decode_segment d <| seg_base := 0x4000000 |>.
Proof. apply set_base_correct; [split; cbn; lia|lia]. Defined.

Lemma set_gate_decode_witness :
  decode_gate (set_system_gate 0x81c6) = Gate 0x81c6 8 15 3 true.
Proof. apply (set_gate_decode 15 3 0x81c6); lia. Defined.

Lemma set_tssldt_decode_witness :
  decode_segment (set_tss_desc (Desc 0 0) 0x25030) = Segment 0x25030 104 0x89 0 /\
  get_base (set_tss_desc (Desc 0 0) 0x25030) = 0x25030.
Proof. apply (set_tssldt_decode (Desc 0 0) 0x25030 0x89); [split; cbn; lia|lia|lia]. Defined.

Lemma set_limit_get_limit_witness :
  let d := Desc 0x9f 0xc0f200 in
  get_limit (set_limit d 0x400000) = 0x400000 /\ get_base (set_limit d 0x400000) = get_base d.
Proof.
  apply set_limit_get_limit; [split; cbn; lia|reflexivity|lia|reflexivity].
Defined.

Lemma trap_init_gates_witness :
  let idt := replicate 256 (Desc 0x00085000 0x00008e00) in
  exists d', trap_init (fun i => 0x6000 + 16 * i) 0x7abc idt !! 32%nat = Some d' /\
    decode_gate d' = decode_gate (Desc 0x00085000 0x00008e00) <| gate_offset := 0x6200 |> /\
    gate_offset (decode_gate d') = 0x6200.
Proof.
  destruct (trap_init_gates (fun i => 0x6000 + 16 * i) 0x7abc
    (replicate 256 (Desc 0x00085000 0x00008e00)) 32 (Desc 0x00085000 0x00008e00))
    as (d' & E & H1 & H2); [reflexivity|reflexivity|split; cbn; lia|lia|cbn; lia|].
  exists d'. split; [exact E|]. split; [exact H1|]. apply H2. reflexivity.
Defined.
