(* ===== verification/Memory.v ===== *)
(** * Physical memory and copy-on-write

    mm/memory.c, mm/swap.c and include/linux/mm.h: the page allocator over
    [mem_map], the duplication of page tables by [fork], and the write-protect
    fault.  Physical memory is a map from the address of an aligned 32-bit word
    to its value; a word never written reads as 0. *)
From S2P Require Import Prelude Words.

(** include/linux/mm.h *)
Definition PAGE_SIZE : Z := 4096.
Definition LOW_MEM : Z := 0x100000.
Definition USED : Z := 100.
Definition PAGING_MEMORY : Z := 15 * 1024 * 1024.
Definition PAGING_PAGES : Z := Z.shiftr PAGING_MEMORY 12.
Definition MAP_NR (addr : Z) : Z := Z.shiftr (addr - LOW_MEM) 12.

(** The state of the memory manager.  [below_map] is the byte the linker put
    just below [mem_map]: [get_free_page] can touch [mem_map[-1]]. *)
Record mm := Mm {
  phys : gmap Z Z;
  mem_map : list Z;
  below_map : Z;
  HIGH_MEMORY : Z
}.

#[export] Instance mm_eta : Eta mm := fun m =>
  Mm (phys m) (mem_map m) (below_map m) (HIGH_MEMORY m).

Definition read_word (m : gmap Z Z) (addr : Z) : Z := default 0 (m !! addr).

Definition load (addr : Z) : M mm Z := gets (fun s => read_word (phys s) addr).
Definition store (addr v : Z) : M mm unit :=
  modify (fun s => s <| phys := <[addr := v]> (phys s) |>).

(** Accesses to [mem_map[i]]; the model stops on an index outside the array. *)
Definition map_get (i : Z) : M mm Z := s ← get; check "mem_map" (arr_get (mem_map s) i).
Definition map_set (i v : Z) : M mm unit :=
  s ← get; l ← check "mem_map" (arr_set (mem_map s) i (u8 v)); put (s <| mem_map := l |>).

(** ** mem_init *)

(** [while (end_mem-- > 0) mem_map[i++] = 0;] with [n] rounds. *)
Fixpoint mem_init_loop (n : nat) (i : Z) : M mm unit :=
  match n with
  | O => mret tt
  | S n => map_set i 0;; mem_init_loop n (i + 1)
  end.

Definition mem_init (start_mem end_mem : Z) : M mm unit :=
  modify (fun s => s <| HIGH_MEMORY := end_mem |>
                     <| mem_map := replicate (Z.to_nat PAGING_PAGES) USED |>);;
  mem_init_loop (Z.to_nat (Z.shiftr (end_mem - start_mem) 12)) (MAP_NR start_mem).

(** ** get_free_page *)

(** [i = PAGING_PAGES - 1; while (mem_map[i] && i >= 0) i--;] where [n = i + 1].
    At [i = -1] the byte below the array is read and the loop stops whatever it
    holds. *)
Fixpoint find_free (map : list Z) (n : nat) : Z :=
  match n with
  | O => -1
  | S i => if decide (default 0 (map !! i) <> 0) then find_free map i else Z.of_nat i
  end.

(** [for (j = n; j >= 1; j--) *m-- = 0;] *)
Fixpoint clear_down (n : nat) (m : Z) : M mm unit :=
  match n with
  | O => mret tt
  | S n => store m 0;; clear_down n (m - 4)
  end.

(** [mem_map[i] = 1] with [i >= -1]. *)
Definition mark_used (i : Z) : M mm unit :=
  if decide (i = -1) then modify (fun s => s <| below_map := 1 |>) else map_set i 1.

Definition get_free_page : M mm Z :=
  s ← get;
  let i := find_free (mem_map s) (Z.to_nat PAGING_PAGES) in
  mark_used i;;
  let page := u32 (i * PAGE_SIZE + LOW_MEM) in
  clear_down 1024 (page + 4092);;
  mret page.

(** ** copy_page_tables *)

(** [mem_map[this_page]++] on an [unsigned char]. *)
Definition map_incr (i : Z) : M mm unit := v ← map_get i; map_set i (v + 1).
Definition map_decr (i : Z) : M mm unit := v ← map_get i; map_set i (v - 1).

(** The body of the inner loop for one page-table entry. *)
Definition copy_pte (from_pte to_pte : Z) : M mm unit :=
  this_page ← load from_pte;
  if decide (this_page = 0) then mret tt else
  let this_page := Z.land this_page (Z.lnot 2) in
  store to_pte this_page;;
  if decide (this_page > LOW_MEM) then
    store from_pte this_page;;
    map_incr (Z.shiftr (this_page - LOW_MEM) 12)
  else mret tt.

Fixpoint copy_ptes (nr : nat) (from_page_table to_page_table : Z) : M mm unit :=
  match nr with
  | O => mret tt
  | S nr => copy_pte from_page_table to_page_table;;
            copy_ptes nr (from_page_table + 4) (to_page_table + 4)
  end.

(** The body of the outer loop for one directory entry.  The result is [true]
    when the code returns -1. *)
Definition copy_pde (from from_dir to_dir : Z) : M mm bool :=
  td ← load to_dir;
  if decide (Z.land 1 td <> 0) then stop (Panic "copy_page_tables: already exist") else
  fd ← load from_dir;
  if decide (Z.land 1 fd = 0) then mret false else
  let from_page_table := Z.land 0xfffff000 fd in
  to_page_table ← get_free_page;
  if decide (to_page_table = 0) then mret true else
  store to_dir (Z.lor to_page_table 7);;
  copy_ptes (if decide (from = 0) then 0xA0%nat else 1024%nat) from_page_table to_page_table;;
  mret false.

Fixpoint copy_pdes (size : nat) (from from_dir to_dir : Z) : M mm Z :=
  match size with
  | O => mret 0
  | S size => out ← copy_pde from from_dir to_dir;
              if (out : bool) then mret (-1)
              else copy_pdes size from (from_dir + 4) (to_dir + 4)
  end.

Definition pde_addr (address : Z) : Z := Z.land (Z.shiftr address 20) 0xffc.

Definition copy_page_tables (from to size : Z) : M mm Z :=
  if decide (Z.land from 0x3fffff <> 0 \/ Z.land to 0x3fffff <> 0)
  then stop (Panic "copy_page_tables called with wrong alignment") else
  let size := Z.shiftr (u32 (size + 0x3fffff)) 22 in
  copy_pdes (Z.to_nat size) from (pde_addr from) (pde_addr to).

(** ** Write-protect faults *)

(** [cld; rep; movsl] with [ecx] words. *)
Fixpoint copy_words (ecx : nat) (esi edi : Z) : M mm unit :=
  match ecx with
  | O => mret tt
  | S ecx => w ← load esi; store edi w;; copy_words ecx (esi + 4) (edi + 4)
  end.

Definition copy_page (from to : Z) : M mm unit := copy_words 1024 from to.

Definition un_wp_page (table_entry : Z) : M mm unit :=
  e ← load table_entry;
  let old_page := Z.land 0xfffff000 e in
  exclusive ← (if decide (old_page >= LOW_MEM)
               then v ← map_get (MAP_NR old_page); mret (bool_decide (v = 1))
               else mret false);
  if (exclusive : bool) then store table_entry (Z.lor e 2) else
  new_page ← get_free_page;
  when (bool_decide (old_page >= LOW_MEM)) (map_decr (MAP_NR old_page));;
  copy_page old_page new_page;;
  store table_entry (Z.lor new_page 7).

Definition do_wp_page (error_code address : Z) : M mm unit :=
  pde ← load (pde_addr address);
  let y := Z.land pde 0xfffff000 in
  un_wp_page (y + 4 * Z.land (Z.shiftr address 12) 0x3ff).

(** The macro [lin2phy] of include/linux/mm.h. *)
Definition lin2phy (address : Z) : M mm Z :=
  pde ← load (pde_addr address);
  mret (Z.land (Z.shiftr address 10) 0xffc + Z.land 0xfffff000 pde).

(** ** Well-formed states and evaluation lemmas *)

Record wf_mm (s : mm) : Prop := {
  wf_len : length (mem_map s) = Z.to_nat PAGING_PAGES;
  wf_bytes : Forall (fun v => 0 ≤ v < 256) (mem_map s)
}.

Lemma PAGING_PAGES_eq : PAGING_PAGES = 3840.
Proof. reflexivity. Qed.

Lemma read_insert p x v y :
  read_word (<[x := v]> p) y = if decide (x = y) then v else read_word p y.
Proof. unfold read_word. rewrite lookup_insert. by case_decide. Qed.

Lemma load_eq x s : load x s = Ok (s, read_word (phys s) x).
Proof. done. Qed.
Lemma store_eq x v s : store x v s = Ok (s <| phys := <[x := v]> (phys s) |>, tt).
Proof. done. Qed.

Lemma map_get_eq i v s : arr_get (mem_map s) i = Some v -> map_get i s = Ok (s, v).
Proof. intros H. unfold map_get, mbind, M_bind, get, check. by rewrite H. Qed.

Lemma map_set_eq i v s :
  wf_mm s -> 0 ≤ i < PAGING_PAGES ->
  map_set i v s = Ok (s <| mem_map := <[Z.to_nat i := u8 v]> (mem_map s) |>, tt).
Proof.
  intros Hw Hi. unfold map_set, mbind, M_bind, get, check.
  rewrite arr_set_Some; [done|]. rewrite (wf_len s Hw), PAGING_PAGES_eq in *. lia.
Qed.

Lemma wf_set_map s i v :
  wf_mm s -> 0 ≤ v < 256 -> wf_mm (s <| mem_map := <[i := v]> (mem_map s) |>).
Proof.
  intros [Hl Hb] Hv. constructor; cbn; [by rewrite length_insert|].
  by apply Forall_insert.
Qed.

Lemma wf_set_phys s p : wf_mm s -> wf_mm (s <| phys := p |>).
Proof. by intros []. Qed.

Create HintDb mm.
#[export] Hint Resolve wf_set_map wf_set_phys u8_range : mm.

(** *** mem_init *)

Lemma mem_init_loop_eq n i s :
  wf_mm s -> 0 ≤ i -> i + Z.of_nat n ≤ PAGING_PAGES ->
  exists l, mem_init_loop n i s = Ok (s <| mem_map := l |>, tt) /\
    length l = length (mem_map s) /\
    forall j : nat, (j < length (mem_map s))%nat ->
      l !! j = if decide (i ≤ Z.of_nat j < i + Z.of_nat n) then Some 0 else mem_map s !! j.
Proof.
  revert i s. induction n as [|n IH]; intros i s Hw Hi Hn.
  - exists (mem_map s). split; [by destruct s|]. split; [done|]. intros j Hj.
    by rewrite decide_False by lia.
  - cbn [mem_init_loop]. erewrite bind_ok by (apply map_set_eq; [done|lia]).
    destruct (IH (i + 1) _ (wf_set_map s (Z.to_nat i) (u8 0) Hw (u8_range 0))) as (l & E & Hl & H); [lia|lia|].
    rewrite E. cbn [upd mem_map] in *. exists l. split; [done|].
    rewrite length_insert in Hl, H. split; [done|]. intros j Hj. rewrite H by done.
    destruct (decide (i = Z.of_nat j)) as [->|Hne].
    + rewrite decide_False, decide_True by lia. rewrite Nat2Z.id.
      by rewrite list_lookup_insert_eq.
    + rewrite list_lookup_insert_ne by lia. repeat case_decide; lia || done.
Qed.

Lemma mem_init_marks start_mem end_mem s :
  LOW_MEM ≤ start_mem -> start_mem ≤ end_mem -> end_mem ≤ LOW_MEM + PAGING_MEMORY ->
  exists s', mem_init start_mem end_mem s = Ok (s', tt) /\
    HIGH_MEMORY s' = end_mem /\ phys s' = phys s /\ wf_mm s' /\
    forall i : nat, (i < 3840)%nat ->
      mem_map s' !! i =
        Some (if decide (MAP_NR start_mem ≤ Z.of_nat i <
                         MAP_NR start_mem + (end_mem - start_mem) / 4096) then 0 else USED).
Proof.
  intros H1 H2 H3. unfold mem_init.
  set (s0 := s <| HIGH_MEMORY := end_mem |>
               <| mem_map := replicate (Z.to_nat PAGING_PAGES) USED |>).
  assert (wf_mm s0) as Hw by (constructor; cbn; [apply length_replicate|by apply Forall_replicate]).
  erewrite bind_ok by done. fold s0.
  assert (MAP_NR start_mem = (start_mem - LOW_MEM) / 4096) as Em
    by (unfold MAP_NR; by rewrite Z.shiftr_div_pow2 by lia).
  rewrite Z.shiftr_div_pow2 by lia. change (2 ^ 12) with 4096.
  unfold LOW_MEM, PAGING_MEMORY in *.
  assert (0 ≤ (end_mem - start_mem) / 4096 ∧ 0 ≤ MAP_NR start_mem ∧
    MAP_NR start_mem + (end_mem - start_mem) / 4096 ≤ 3840) as (? & ? & ?)
    by (rewrite Em; Z.div_mod_to_equations; lia).
  destruct (mem_init_loop_eq (Z.to_nat ((end_mem - start_mem) / 4096)) (MAP_NR start_mem) s0)
    as (l & E & Hl & Hlk); [done|done|rewrite PAGING_PAGES_eq; lia|].
  rewrite E. eexists. split; [done|]. cbn [upd HIGH_MEMORY phys]. split; [done|].
  split; [done|].
  assert (forall i : nat, (i < 3840)%nat -> l !! i =
    Some (if decide (MAP_NR start_mem ≤ Z.of_nat i <
                     MAP_NR start_mem + (end_mem - start_mem) / 4096) then 0 else USED)) as Hl'.
  { intros i Hi. rewrite Hlk by (rewrite (wf_len _ Hw), PAGING_PAGES_eq; lia).
    rewrite Z2Nat.id by done. case_decide; [done|]. cbn [s0 upd mem_map].
    apply lookup_replicate_2. rewrite PAGING_PAGES_eq. lia. }
  split; [|exact Hl']. constructor; cbn [upd mem_map].
  - rewrite Hl. apply Hw.
  - apply Forall_lookup_2. intros i v Hv. assert (i < 3840)%nat as Hi.
    { apply lookup_lt_Some in Hv. rewrite Hl, (wf_len _ Hw), PAGING_PAGES_eq in Hv. lia. }
    rewrite Hl' in Hv by done. injection Hv as <-. case_decide; unfold USED; lia.
Qed.

(** [mem_init(start, end)] marks the frames of the main memory area free
    and every other frame used, whatever the state was before. *)
Theorem mem_init_correct start_mem end_mem s :
  LOW_MEM ≤ start_mem -> start_mem ≤ end_mem -> end_mem ≤ LOW_MEM + PAGING_MEMORY ->
  exists s', mem_init start_mem end_mem s = Ok (s', tt) /\
    HIGH_MEMORY s' = end_mem /\ phys s' = phys s /\ wf_mm s' /\
    forall i : nat, (i < 3840)%nat ->
      mem_map s' !! i =
        Some (if decide (MAP_NR start_mem ≤ Z.of_nat i <
                         MAP_NR start_mem + (end_mem - start_mem) / 4096) then 0 else USED).
Proof. exact (mem_init_marks start_mem end_mem s). Qed.

(** *** get_free_page *)

Definition frame (i : Z) : Z := i * PAGE_SIZE + LOW_MEM.

(** The words of the page at [page]. *)
Definition in_page (page x : Z) : Prop := page ≤ x < page + PAGE_SIZE /\ x mod 4 = 0.
#[export] Instance in_page_dec page x : Decision (in_page page x).
Proof. unfold in_page. apply _. Defined.

(** Frame [i] is the free frame of highest index. *)
Definition highest_free (s : mm) (i : Z) : Prop :=
  0 ≤ i < PAGING_PAGES /\ arr_get (mem_map s) i = Some 0 /\
  forall j, i < j < PAGING_PAGES -> arr_get (mem_map s) j <> Some 0.

Definition no_free_page (s : mm) : Prop :=
  forall j, 0 ≤ j < PAGING_PAGES -> arr_get (mem_map s) j <> Some 0.

Lemma find_free_spec map n :
  (find_free map n = -1 /\ forall j, (j < n)%nat -> default 0 (map !! j) <> 0) \/
  exists i, (i < n)%nat /\ find_free map n = Z.of_nat i /\ default 0 (map !! i) = 0 /\
    forall j, (i < j < n)%nat -> default 0 (map !! j) <> 0.
Proof.
  induction n as [|n IH]; [left; split; [done|lia]|].
  cbn [find_free]. case_decide as Hn.
  - destruct IH as [[E H]|(i & Hi & E & H0 & H)]; rewrite E.
    + left. split; [done|]. intros j Hj. destruct (decide (j = n)) as [->|]; [done|].
      apply H. lia.
    + right. exists i. split; [lia|]. split; [done|]. split; [done|]. intros j Hj.
      destruct (decide (j = n)) as [->|]; [done|]. apply H. lia.
  - right. exists n. split; [lia|]. split; [done|]. split; [lia|]. lia.
Qed.

Lemma wf_lookup s (i : nat) :
  wf_mm s -> (i < 3840)%nat -> exists v, mem_map s !! i = Some v.
Proof. intros Hw Hi. apply lookup_lt_is_Some. rewrite (wf_len s Hw), PAGING_PAGES_eq. lia. Qed.

Lemma find_free_highest s i :
  wf_mm s -> highest_free s i -> find_free (mem_map s) (Z.to_nat PAGING_PAGES) = i.
Proof.
  intros Hw (Hi & H0 & Hmax). rewrite PAGING_PAGES_eq in *.
  unfold arr_get in H0. rewrite decide_True in H0 by lia.
  destruct (find_free_spec (mem_map s) (Z.to_nat 3840)) as [[E H]|(k & Hk & E & Hk0 & H)].
  - destruct (H (Z.to_nat i)); [lia|]. by rewrite H0.
  - rewrite E. destruct (Z.lt_trichotomy (Z.of_nat k) i) as [Hlt|[?|Hgt]]; [|done|].
    + destruct (H (Z.to_nat i)); [lia|]. by rewrite H0.
    + destruct (wf_lookup s k Hw) as [v Hv]; [lia|].
      destruct (Hmax (Z.of_nat k)); [lia|]. rewrite arr_get_nat, Hv in *. by rewrite <-Hk0.
Qed.

Lemma find_free_none s :
  wf_mm s -> no_free_page s -> find_free (mem_map s) (Z.to_nat PAGING_PAGES) = -1.
Proof.
  intros Hw Hno. rewrite PAGING_PAGES_eq in *.
  destruct (find_free_spec (mem_map s) (Z.to_nat 3840)) as [[E H]|(k & Hk & E & Hk0 & H)]; [done|].
  destruct (wf_lookup s k Hw) as [v Hv]; [lia|].
  destruct (Hno (Z.of_nat k)); [rewrite PAGING_PAGES_eq; lia|].
  rewrite arr_get_nat, Hv in *. by rewrite <-Hk0.
Qed.

Lemma free_page_cases s : wf_mm s -> no_free_page s \/ exists i, highest_free s i.
Proof.
  intros Hw. destruct (find_free_spec (mem_map s) (Z.to_nat PAGING_PAGES))
    as [[E H]|(k & Hk & E & Hk0 & H)]; rewrite PAGING_PAGES_eq in *.
  - left. intros j Hj Hc. rewrite PAGING_PAGES_eq in *. destruct (H (Z.to_nat j)); [lia|].
    unfold arr_get in Hc. rewrite decide_True in Hc by lia. by rewrite Hc.
  - right. exists (Z.of_nat k). destruct (wf_lookup s k Hw) as [v Hv]; [lia|].
    split; [rewrite PAGING_PAGES_eq; lia|]. rewrite arr_get_nat, Hv in *.
    split; [by rewrite <-Hk0|]. intros j Hj Hc. rewrite PAGING_PAGES_eq in *.
    destruct (H (Z.to_nat j)); [lia|].
    unfold arr_get in Hc. rewrite decide_True in Hc by lia. by rewrite Hc.
Qed.

(** Memory after [clear_down]. *)
Fixpoint zero_down (n : nat) (m : Z) (p : gmap Z Z) : gmap Z Z :=
  match n with O => p | S n => zero_down n (m - 4) (<[m := 0]> p) end.

Lemma clear_down_eq n m s : clear_down n m s = Ok (s <| phys := zero_down n m (phys s) |>, tt).
Proof.
  revert m s. induction n as [|n IH]; intros m s; [by destruct s|].
  cbn [clear_down]. erewrite bind_ok by apply store_eq. by rewrite IH.
Qed.

Lemma read_zero_down n m p x :
  read_word (zero_down n m p) x =
  if decide (m - 4 * Z.of_nat n < x ≤ m /\ (m - x) mod 4 = 0) then 0 else read_word p x.
Proof.
  revert m p. induction n as [|n IH]; intros m p; cbn [zero_down].
  - by rewrite decide_False by lia.
  - rewrite IH, read_insert. destruct (decide (m = x)) as [->|Hne].
    + rewrite decide_False by lia. rewrite decide_True; [done|].
      rewrite Z.sub_diag. split; [lia|done].
    + apply decide_ext. Z.div_mod_to_equations. lia.
Qed.

Lemma read_zero_page page p x :
  page mod 4 = 0 ->
  read_word (zero_down 1024 (page + 4092) p) x = if decide (in_page page x) then 0 else read_word p x.
Proof.
  intros Hp. rewrite read_zero_down. apply decide_ext.
  unfold in_page, PAGE_SIZE. Z.div_mod_to_equations. lia.
Qed.

(** The state after the page of frame [i] was handed out. *)
Definition alloc_page (s : mm) (i : Z) : mm :=
  s <| mem_map := <[Z.to_nat i := 1]> (mem_map s) |>
    <| phys := zero_down 1024 (frame i + 4092) (phys s) |>.

Lemma wf_alloc_page s i : wf_mm s -> wf_mm (alloc_page s i).
Proof. intros Hw. apply wf_set_phys, wf_set_map; [done|lia]. Qed.
#[export] Hint Resolve wf_alloc_page : mm.

Lemma get_free_page_ok s i :
  wf_mm s -> highest_free s i -> get_free_page s = Ok (alloc_page s i, frame i).
Proof.
  intros Hw Hi. unfold get_free_page. erewrite bind_ok by done. cbv beta.
  rewrite (find_free_highest s i) by done. destruct Hi as (Hr & _ & _).
  unfold mark_used. rewrite decide_False by lia.
  erewrite bind_ok by (apply map_set_eq; done).
  rewrite u32_small by (unfold PAGE_SIZE, LOW_MEM; rewrite PAGING_PAGES_eq in *; lia).
  erewrite bind_ok by apply clear_down_eq. done.
Qed.

Lemma get_free_page_full s :
  wf_mm s -> no_free_page s ->
  get_free_page s = Ok (s <| below_map := 1 |>
                          <| phys := zero_down 1024 (0xFF000 + 4092) (phys s) |>, 0xFF000).
Proof.
  intros Hw Hno. unfold get_free_page. erewrite bind_ok by done. cbv beta.
  rewrite find_free_none by done. unfold mark_used. rewrite decide_True by done.
  erewrite bind_ok by done. change (u32 (-1 * PAGE_SIZE + LOW_MEM)) with 0xFF000.
  erewrite bind_ok by apply clear_down_eq. done.
Qed.

(** When some frame is free, [get_free_page] returns the free frame of
    highest address, marks it used once, fills it with zeros, and changes no
    other frame, no other word and neither [HIGH_MEMORY] nor the byte below
    the map. *)
Theorem get_free_page_correct s i :
  wf_mm s -> highest_free s i ->
  exists s', get_free_page s = Ok (s', LOW_MEM + PAGE_SIZE * i) /\
    mem_map s' = <[Z.to_nat i := 1]> (mem_map s) /\ wf_mm s' /\
    below_map s' = below_map s /\ HIGH_MEMORY s' = HIGH_MEMORY s /\
    forall x, read_word (phys s') x =
      if decide (in_page (LOW_MEM + PAGE_SIZE * i) x) then 0 else read_word (phys s) x.
Proof.
  intros Hw Hi. exists (alloc_page s i).
  replace (LOW_MEM + PAGE_SIZE * i) with (frame i) by (unfold frame; lia).
  split; [by apply get_free_page_ok|]. split; [done|]. split; [by apply wf_alloc_page|].
  split; [done|]. split; [done|]. intros x. cbn [alloc_page upd phys].
  apply read_zero_page. unfold frame, PAGE_SIZE, LOW_MEM.
  Z.div_mod_to_equations. lia.
Qed.

(** C30.  When no frame is free, [get_free_page] does not return 0, as its
    comment says: it returns the address 0xFF000 of a page below [LOW_MEM],
    wipes that page and writes 1 to the byte below [mem_map]. *)
Theorem get_free_page_exhausted s :
  wf_mm s -> no_free_page s ->
  exists s', get_free_page s = Ok (s', 0xFF000) /\
    mem_map s' = mem_map s /\ below_map s' = 1 /\
    forall x, read_word (phys s') x =
      if decide (in_page 0xFF000 x) then 0 else read_word (phys s) x.
Proof.
  intros Hw Hno. eexists. split; [by apply get_free_page_full|].
  split; [done|]. split; [done|]. intros x. cbn [upd phys]. by apply read_zero_page.
Qed.

(** [get_free_page] never reports failure: on every well-formed state it
    returns a non-zero page-aligned address, so every [== 0] test of its
    callers is dead. *)
Theorem get_free_page_nonzero s :
  wf_mm s -> exists s' p, get_free_page s = Ok (s', p) /\ p <> 0 /\ p mod PAGE_SIZE = 0 /\ wf_mm s'.
Proof.
  intros Hw. destruct (free_page_cases s Hw) as [Hno|[i Hi]].
  - do 2 eexists. split; [by apply get_free_page_full|]. split; [done|]. split; [done|].
    by destruct Hw.
  - do 2 eexists. split; [by apply get_free_page_ok|].
    destruct Hi as (Hr & _). rewrite PAGING_PAGES_eq in Hr. unfold frame, LOW_MEM, PAGE_SIZE.
    split; [lia|]. split; [Z.div_mod_to_equations; lia|]. by apply wf_alloc_page.
Qed.

(** *** Copying words *)

Definition in_words (base : Z) (n : nat) (x : Z) : Prop :=
  base ≤ x < base + 4 * Z.of_nat n /\ (x - base) mod 4 = 0.
#[export] Instance in_words_dec base n x : Decision (in_words base n x).
Proof. unfold in_words. apply _. Defined.

Definition disjoint_words (f t : Z) (n : nat) : Prop :=
  f + 4 * Z.of_nat n ≤ t \/ t + 4 * Z.of_nat n ≤ f.

Lemma in_words_S base n x : in_words base (S n) x <-> x = base \/ in_words (base + 4) n x.
Proof. unfold in_words. Z.div_mod_to_equations. lia. Qed.

Lemma copy_words_eq n f t s :
  disjoint_words f t n ->
  exists p, copy_words n f t s = Ok (s <| phys := p |>, tt) /\
    forall x, read_word p x =
      if decide (in_words t n x) then read_word (phys s) (f + (x - t)) else read_word (phys s) x.
Proof.
  revert f t s. induction n as [|n IH]; intros f t s Hd; cbn [copy_words].
  - exists (phys s). split; [by destruct s|]. intros x. rewrite decide_False; [done|].
    unfold in_words. lia.
  - erewrite bind_ok by apply load_eq. erewrite bind_ok by apply store_eq.
    destruct (IH (f + 4) (t + 4) (s <| phys := <[t := read_word (phys s) f]> (phys s) |>))
      as (p & E & H); [unfold disjoint_words in *; lia|].
    exists p. split; [by rewrite E|]. intros x. rewrite H. cbn [upd phys].
    destruct (decide (in_words (t + 4) n x)) as [Hx|Hx].
    + rewrite read_insert. rewrite decide_False by (unfold in_words, disjoint_words in *; lia).
      rewrite decide_True by (apply in_words_S; by right). f_equal. lia.
    + rewrite read_insert. destruct (decide (t = x)) as [->|Hne].
      * rewrite decide_True by (apply in_words_S; by left). f_equal. lia.
      * rewrite decide_False; [done|]. rewrite in_words_S. by intros [->|?].
Qed.

(** *** Copying page tables *)

(** A page-table entry with the write bit off. *)
Definition wp (e : Z) : Z := Z.land e (Z.lnot 2).

(** The frame whose reference count an entry carries: present entries of the
    paged memory above [LOW_MEM]. *)
Definition shared_frame (e : Z) : option Z :=
  if decide (e <> 0 /\ wp e > LOW_MEM) then Some (Z.shiftr (wp e - LOW_MEM) 12) else None.

Definition entry (p : gmap Z Z) (table k : Z) : Z := read_word p (table + 4 * k).

Fixpoint entries (p : gmap Z Z) (table : Z) (n : nat) : list Z :=
  match n with O => [] | S n => read_word p table :: entries p (table + 4) n end.

(** How many of the entries refer to frame [i]. *)
Definition refs (i : Z) (es : list Z) : Z :=
  Z.of_nat (length (filter (fun e => shared_frame e = Some i) es)).

Lemma refs_cons i e es :
  refs i (e :: es) = (if decide (shared_frame e = Some i) then 1 else 0) + refs i es.
Proof. unfold refs. rewrite filter_cons. case_decide; cbn [length]; lia. Qed.

Lemma refs_nonneg i es : 0 ≤ refs i es.
Proof. unfold refs. lia. Qed.

Lemma entries_ext p p' t n :
  (forall x, in_words t n x -> read_word p x = read_word p' x) -> entries p t n = entries p' t n.
Proof.
  revert t. induction n as [|n IH]; intros t H; [done|]. cbn [entries]. f_equal.
  - apply H. apply in_words_S. by left.
  - apply IH. intros x Hx. apply H. apply in_words_S. by right.
Qed.

(** Every counted frame lies in the paged memory. *)
Definition in_range (es : list Z) : Prop :=
  Forall (fun e => forall i, shared_frame e = Some i -> i < PAGING_PAGES) es.

Lemma in_range_check es :
  forallb (fun e => match shared_frame e with Some i => i <? PAGING_PAGES | None => true end) es
    = true -> in_range es.
Proof.
  intros H. apply Forall_forall. intros e He i Hi. rewrite forallb_forall in H.
  specialize (H e He). rewrite Hi in H. lia.
Qed.

Lemma shared_frame_nonneg e i : shared_frame e = Some i -> 0 ≤ i.
Proof.
  unfold shared_frame. case_decide as H; intros; simplify_eq.
  apply Z.shiftr_nonneg. unfold LOW_MEM in *. lia.
Qed.

Lemma shared_frame_0 : shared_frame 0 = None.
Proof. done. Qed.

(** The state after one entry was copied. *)
Definition pte_copied (f t : Z) (s : mm) : mm :=
  let e := read_word (phys s) f in
  if decide (e = 0) then s else
  match shared_frame e with
  | Some i => s <| phys := <[f := wp e]> (<[t := wp e]> (phys s)) |>
                <| mem_map := alter (fun v => u8 (v + 1)) (Z.to_nat i) (mem_map s) |>
  | None => s <| phys := <[t := wp e]> (phys s) |>
  end.

Lemma wf_alter_map s i :
  wf_mm s -> wf_mm (s <| mem_map := alter (fun v => u8 (v + 1)) i (mem_map s) |>).
Proof.
  intros [Hl Hb]. constructor; cbn; [by rewrite length_alter|].
  apply Forall_alter; [done|]. intros. apply u8_range.
Qed.

Lemma wf_pte_copied f t s : wf_mm s -> wf_mm (pte_copied f t s).
Proof.
  intros Hw. unfold pte_copied. case_decide; [done|].
  destruct (shared_frame _) as [i|]; [|by apply wf_set_phys].
  exact (wf_alter_map _ (Z.to_nat i) (wf_set_phys s _ Hw)).
Qed.

Lemma map_incr_eq i s :
  wf_mm s -> 0 ≤ i < PAGING_PAGES ->
  map_incr i s = Ok (s <| mem_map := alter (fun v => u8 (v + 1)) (Z.to_nat i) (mem_map s) |>, tt).
Proof.
  intros Hw Hi. rewrite PAGING_PAGES_eq in Hi. destruct (wf_lookup s (Z.to_nat i) Hw) as [v Hv]; [lia|].
  unfold map_incr. erewrite bind_ok.
  2: { apply map_get_eq. unfold arr_get. rewrite decide_True by lia. exact Hv. }
  rewrite map_set_eq by (done || rewrite PAGING_PAGES_eq; lia).
  enough (<[Z.to_nat i := u8 (v + 1)]> (mem_map s) =
          alter (fun v => u8 (v + 1)) (Z.to_nat i) (mem_map s)) as ->; [done|].
  apply list_eq. intros j. rewrite list_lookup_alter. case_decide as Hj.
  - subst. rewrite Hv. apply list_lookup_insert_eq. by apply lookup_lt_Some in Hv.
  - by apply list_lookup_insert_ne.
Qed.

Lemma copy_pte_eq f t s :
  wf_mm s -> (forall i, shared_frame (read_word (phys s) f) = Some i -> i < PAGING_PAGES) ->
  copy_pte f t s = Ok (pte_copied f t s, tt).
Proof.
  intros Hw Hr. unfold copy_pte, pte_copied. erewrite bind_ok by apply load_eq.
  set (e := read_word (phys s) f) in *. case_decide as He; [done|].
  cbv zeta. fold (wp e). erewrite bind_ok by apply store_eq.
  destruct (shared_frame e) as [i|] eqn:Ei.
  - pose proof (shared_frame_nonneg _ _ Ei). specialize (Hr i eq_refl).
    unfold shared_frame in Ei. case_decide as Hc; simplify_eq.
    rewrite decide_True by tauto. erewrite bind_ok by apply store_eq. cbn [upd phys].
    apply map_incr_eq; [|lia]. destruct Hw. by constructor.
  - unfold shared_frame in Ei. case_decide as Hc; simplify_eq. rewrite decide_False by tauto. done.
Qed.

(** What one entry becomes in the parent's and in the child's table. *)
Definition parent_entry (e : Z) : Z :=
  match shared_frame e with Some _ => wp e | None => e end.
Definition child_entry (old e : Z) : Z := if decide (e = 0) then old else wp e.

Lemma read_pte_copied f t s x :
  f <> t ->
  read_word (phys (pte_copied f t s)) x =
    let e := read_word (phys s) f in
    if decide (x = f) then parent_entry e
    else if decide (x = t) then child_entry (read_word (phys s) x) e
    else read_word (phys s) x.
Proof.
  intros Hft. cbv zeta. set (e := read_word (phys s) f).
  unfold pte_copied, parent_entry, child_entry. fold e.
  destruct (decide (e = 0)) as [He|He].
  - rewrite He, shared_frame_0. unfold e in He. repeat case_decide; subst; done.
  - destruct (shared_frame e); cbn [upd phys]; rewrite !read_insert;
      repeat case_decide; subst; done.
Qed.

Lemma map_pte_copied f t s (i : nat) :
  wf_mm s ->
  mem_map (pte_copied f t s) !! i =
    (fun v => u8 (v + refs (Z.of_nat i) [read_word (phys s) f])) <$> mem_map s !! i.
Proof.
  intros [_ Hb]. rewrite refs_cons. change (refs (Z.of_nat i) []) with 0. rewrite Z.add_0_r.
  set (e := read_word (phys s) f).
  assert (mem_map s !! i = (fun v => u8 (v + 0)) <$> mem_map s !! i) as Hid.
  { destruct (mem_map s !! i) as [v|] eqn:Hv; [|done]. cbn. f_equal.
    rewrite Z.add_0_r, u8_small; [done|]. exact (Forall_lookup_1 _ _ _ _ Hb Hv). }
  unfold pte_copied. fold e. case_decide as He.
  { rewrite He, shared_frame_0. by rewrite decide_False by done. }
  destruct (shared_frame e) as [j|] eqn:Ej; [|by rewrite decide_False by done].
  pose proof (shared_frame_nonneg _ _ Ej). cbn [upd mem_map]. rewrite list_lookup_alter.
  destruct (decide (j = Z.of_nat i)) as [->|Hne].
  - rewrite decide_True by lia. by rewrite decide_True, Nat2Z.id by done.
  - rewrite decide_False by lia. by rewrite decide_False by congruence.
Qed.

Lemma u8_add_u8 x y : u8 (u8 x + y) = u8 (x + y).
Proof. unfold u8. by rewrite Zplus_mod_idemp_l. Qed.

(** One word after the first entry and then the others were copied. *)
Lemma ptes_word nr f t s x :
  wf_mm s -> disjoint_words f t (S nr) -> f <> t ->
  (forall x, in_words (f + 4) nr x -> read_word (phys (pte_copied f t s)) x = read_word (phys s) x) ->
  (if decide (in_words (f + 4) nr x) then parent_entry (read_word (phys (pte_copied f t s)) x)
   else if decide (in_words (t + 4) nr x)
   then child_entry (read_word (phys (pte_copied f t s)) x) (read_word (phys (pte_copied f t s)) (f + 4 + (x - (t + 4))))
   else read_word (phys (pte_copied f t s)) x) =
  if decide (in_words f (S nr) x) then parent_entry (read_word (phys s) x)
  else if decide (in_words t (S nr) x)
  then child_entry (read_word (phys s) x) (read_word (phys s) (f + (x - t)))
  else read_word (phys s) x.
Proof.
  intros Hw Hd Hft Hsame.
  destruct (decide (in_words (f + 4) nr x)) as [Hx|Hx].
  { rewrite Hsame by done. rewrite decide_True; [done|]. apply in_words_S. by right. }
  destruct (decide (in_words (t + 4) nr x)) as [Hy|Hy].
  { rewrite (decide_False (P := in_words f _ _)) by (unfold in_words, disjoint_words in *; lia).
    rewrite decide_True by (apply in_words_S; by right).
    rewrite (Hsame (f + 4 + (x - (t + 4)))) by (unfold in_words in *; replace (f + 4 + (x - (t + 4)) - (f + 4))
      with (x - (t + 4)) by lia; lia).
    rewrite read_pte_copied by done. cbv zeta.
    rewrite !decide_False by (unfold in_words, disjoint_words in *; lia).
    do 2 f_equal. lia. }
  rewrite read_pte_copied by done. cbv zeta.
  destruct (decide (x = f)) as [->|Hxf].
  { rewrite decide_True; [done|]. apply in_words_S. by left. }
  rewrite (decide_False (P := in_words f _ _)) by (rewrite in_words_S; tauto).
  destruct (decide (x = t)) as [->|Hxt].
  { rewrite decide_True by (apply in_words_S; by left). do 2 f_equal. lia. }
  by rewrite decide_False by (rewrite in_words_S; tauto).
Qed.

(** Duplicating [nr] entries of a page table into a disjoint one.  The
    child gets every present entry without its write bit; the parent's entries
    above [LOW_MEM] lose theirs too; no other word changes; and the count of
    each frame grows (modulo 256) by exactly the number of entries that refer
    to it. *)
Lemma copy_ptes_spec nr f t s :
  wf_mm s -> disjoint_words f t nr -> in_range (entries (phys s) f nr) ->
  exists s', copy_ptes nr f t s = Ok (s', tt) /\ wf_mm s' /\
    (forall x, read_word (phys s') x =
       if decide (in_words f nr x) then parent_entry (read_word (phys s) x)
       else if decide (in_words t nr x)
       then child_entry (read_word (phys s) x) (read_word (phys s) (f + (x - t)))
       else read_word (phys s) x) /\
    (forall i : nat, mem_map s' !! i =
       (fun v => u8 (v + refs (Z.of_nat i) (entries (phys s) f nr))) <$> mem_map s !! i).
Proof.
  revert f t s. induction nr as [|nr IH]; intros f t s Hw Hd Hr.
  - exists s. split; [done|]. split; [done|]. split.
    + intros x. by rewrite !decide_False by (unfold in_words; lia).
    + intros i. destruct (mem_map s !! i) as [v|] eqn:Hv; [|done]. cbn. f_equal.
      change (refs (Z.of_nat i) []) with 0. rewrite Z.add_0_r, u8_small; [done|].
      exact (Forall_lookup_1 _ _ _ _ (wf_bytes s Hw) Hv).
  - cbn [entries] in *. apply Forall_cons_1 in Hr as [Hr1 Hr2].
    assert (f <> t) as Hft by (unfold disjoint_words in Hd; lia).
    assert (forall x, in_words (f + 4) nr x ->
      read_word (phys (pte_copied f t s)) x = read_word (phys s) x) as Hsame.
    { intros x Hx. rewrite read_pte_copied by done. cbv zeta. unfold in_words, disjoint_words in *.
      by rewrite !decide_False by lia. }
    cbn [copy_ptes]. erewrite bind_ok by by apply copy_pte_eq.
    destruct (IH (f + 4) (t + 4) (pte_copied f t s)) as (s' & E & Hw' & Hp & Hm);
      [by apply wf_pte_copied|unfold disjoint_words in *; lia|by rewrite (entries_ext _ (phys s) _ _ Hsame)|].
    exists s'. split; [done|]. split; [done|]. split.
    + intros x. rewrite Hp. by apply ptes_word.
    + intros i. rewrite Hm, map_pte_copied by done.
      rewrite (entries_ext _ (phys s) _ _ Hsame).
      destruct (mem_map s !! i) as [v|]; [|done]. cbn. f_equal.
      rewrite u8_add_u8, !refs_cons. change (refs (Z.of_nat i) []) with 0.
      by rewrite Z.add_0_r, Z.add_assoc.
Qed.

(** *** Write-protect faults *)

Definition page_of (e : Z) : Z := Z.land 0xfffff000 e.

Lemma page_of_aligned e : page_of e mod 4096 = 0.
Proof. change 4096 with (2 ^ 12). unfold page_of. change 0xfffff000 with (mask 12 20). bits. Qed.

Lemma page_of_range e : 0 ≤ page_of e < 2 ^ 32.
Proof.
  replace (page_of e) with (u32 (page_of e)); [apply u32_range|].
  unfold page_of. change 0xfffff000 with (mask 12 20). bits.
Qed.

Lemma frame_aligned i : frame i mod 4096 = 0.
Proof. unfold frame, PAGE_SIZE, LOW_MEM. Z.div_mod_to_equations. lia. Qed.

(** A page of the paged memory and its frame number. *)
Lemma frame_MAP_NR x : x mod 4096 = 0 -> frame (MAP_NR x) = x.
Proof.
  intros H. unfold frame, MAP_NR, PAGE_SIZE, LOW_MEM. rewrite Z.shiftr_div_pow2 by lia.
  change (2 ^ 12) with 4096. Z.div_mod_to_equations. lia.
Qed.

Lemma pages_disjoint x y :
  x mod 4096 = 0 -> y mod 4096 = 0 -> x <> y -> disjoint_words x y 1024.
Proof. unfold disjoint_words. intros. Z.div_mod_to_equations. lia. Qed.

Lemma in_words_page page x : page mod 4096 = 0 -> in_words page 1024 x <-> in_page page x.
Proof. unfold in_words, in_page, PAGE_SIZE. intros. Z.div_mod_to_equations. lia. Qed.

Lemma un_wp_page_keep te s :
  wf_mm s ->
  let e := read_word (phys s) te in
  page_of e >= LOW_MEM -> arr_get (mem_map s) (MAP_NR (page_of e)) = Some 1 ->
  un_wp_page te s = Ok (s <| phys := <[te := Z.lor e 2]> (phys s) |>, tt).
Proof.
  intros Hw e Hlow Hc. unfold un_wp_page. erewrite bind_ok by apply load_eq.
  fold e. cbv zeta. fold (page_of e). rewrite decide_True by done.
  erewrite bind_ok.
  2: { erewrite bind_ok by by apply map_get_eq. done. }
  rewrite bool_decide_true by done. cbv iota. apply store_eq.
Qed.

(** A write fault on a page of the paged memory that one entry uses only
    sets the write bit of the entry: nothing is allocated or copied. *)
Theorem un_wp_page_exclusive te s :
  wf_mm s ->
  let e := read_word (phys s) te in
  page_of e >= LOW_MEM -> arr_get (mem_map s) (MAP_NR (page_of e)) = Some 1 ->
  un_wp_page te s = Ok (s <| phys := <[te := Z.lor e 2]> (phys s) |>, tt).
Proof. exact (un_wp_page_keep te s). Qed.

Lemma map_decr_eq i v s :
  wf_mm s -> arr_get (mem_map s) i = Some v ->
  map_decr i s = Ok (s <| mem_map := <[Z.to_nat i := u8 (v - 1)]> (mem_map s) |>, tt).
Proof.
  intros Hw Hv. unfold map_decr. erewrite bind_ok by by apply map_get_eq.
  apply map_set_eq; [done|]. apply arr_get_Some in Hv.
  rewrite (wf_len s Hw), PAGING_PAGES_eq in *. lia.
Qed.

(** The count after the fault on a page of the paged memory. *)
Definition drop_ref (old : Z) (l : list Z) : list Z :=
  if decide (old >= LOW_MEM)
  then alter (fun v => u8 (v - 1)) (Z.to_nat (MAP_NR old)) l else l.

(** The exclusive-use test of [un_wp_page] fails. *)
Definition needs_copy (s : mm) (old : Z) : Prop :=
  old < LOW_MEM \/
  exists c, arr_get (mem_map s) (MAP_NR old) = Some c /\ c <> 0 /\ c <> 1.

Lemma drop_ref_eq old s i :
  wf_mm s -> needs_copy s old -> highest_free s i ->
  when (bool_decide (old >= LOW_MEM)) (map_decr (MAP_NR old)) (alloc_page s i) =
    Ok (alloc_page s i <| mem_map := drop_ref old (<[Z.to_nat i := 1]> (mem_map s)) |>, tt).
Proof.
  intros Hw Hn Hi. unfold when, drop_ref. case_bool_decide as Ho.
  2: { by rewrite decide_False by done. }
  rewrite decide_True by done. destruct Hn as [?|(c & Hc & Hc0 & Hc1)]; [lia|].
  assert (MAP_NR old <> i) as Hne.
  { intros <-. destruct Hi as (_ & H0 & _). congruence. }
  pose proof (arr_get_Some _ _ _ Hc) as Hr. rewrite (wf_len s Hw), PAGING_PAGES_eq in Hr.
  erewrite map_decr_eq; [|by apply wf_alloc_page|].
  2: { cbn. rewrite arr_get_insert; [by rewrite decide_False by congruence|].
       destruct Hi as (Hi & _). rewrite (wf_len s Hw), PAGING_PAGES_eq in *. lia. }
  enough (<[Z.to_nat (MAP_NR old) := u8 (c - 1)]> (mem_map (alloc_page s i)) =
    alter (fun v => u8 (v - 1)) (Z.to_nat (MAP_NR old)) (<[Z.to_nat i := 1]> (mem_map s)))
    as ->; [done|].
  apply list_eq. intros j. cbn [alloc_page upd mem_map]. rewrite list_lookup_alter.
  case_decide as Hj; [subst j|by rewrite list_lookup_insert_ne].
  destruct Hi as (Hi & _).
  rewrite list_lookup_insert_eq by (rewrite length_insert, (wf_len s Hw), PAGING_PAGES_eq; lia).
  rewrite list_lookup_insert_ne by lia. unfold arr_get in Hc. rewrite decide_True in Hc by lia.
  by rewrite Hc.
Qed.

Lemma un_wp_page_copy te s i :
  wf_mm s -> highest_free s i ->
  let e := read_word (phys s) te in
  let old := page_of e in let new := frame i in
  needs_copy s old -> ~ in_page new te ->
  exists s', un_wp_page te s = Ok (s', tt) /\ wf_mm s' /\
    mem_map s' = drop_ref old (<[Z.to_nat i := 1]> (mem_map s)) /\
    read_word (phys s') te = Z.lor new 7 /\
    forall x, x <> te -> read_word (phys s') x =
      if decide (in_page new x) then read_word (phys s) (old + (x - new))
      else read_word (phys s) x.
Proof.
  intros Hw Hi e old new Hn Hte.
  assert (old <> new) as Hne.
  { intros E. destruct Hi as (Hr & H0 & _). destruct Hn as [Hn|(c & Hc & ? & ?)].
    - rewrite E in Hn. unfold new, frame, PAGE_SIZE, LOW_MEM in Hn. lia.
    - rewrite E in Hc. replace (MAP_NR new) with i in Hc; [congruence|].
      unfold new, frame, MAP_NR, PAGE_SIZE. rewrite Z.shiftr_div_pow2 by lia.
      change (2 ^ 12) with 4096. Z.div_mod_to_equations. lia. }
  pose proof (page_of_aligned e) as Hao. fold old in Hao. pose proof (frame_aligned i) as Han.
  fold new in Han.
  set (s1 := alloc_page s i <| mem_map := drop_ref old (<[Z.to_nat i := 1]> (mem_map s)) |>).
  destruct (copy_words_eq 1024 old new s1) as (p & Ep & Hp); [by apply pages_disjoint|].
  exists (s1 <| phys := <[te := Z.lor new 7]> p |>). split.
  { unfold un_wp_page. erewrite bind_ok by apply load_eq. fold e. cbv zeta.
    fold (page_of e). fold old. erewrite (bind_ok _ _ _ s false).
    2: { case_decide; [|done]. destruct Hn as [?|(c & Hc & ? & ?)]; [lia|].
         erewrite bind_ok by by apply map_get_eq. by rewrite bool_decide_false. }
    cbv iota. erewrite bind_ok by by apply get_free_page_ok.
    erewrite bind_ok by by apply drop_ref_eq.
    unfold copy_page. erewrite bind_ok by apply Ep. by rewrite store_eq. }
  assert (wf_mm s1) as Hw1.
  { pose proof (wf_alloc_page s i Hw) as [Hl Hb]. unfold s1, drop_ref.
    constructor; cbn [upd mem_map]; case_decide;
      [by rewrite length_alter|done| |done].
    apply Forall_alter; [done|]. intros. apply u8_range. }
  split; [constructor; apply Hw1|]. split; [reflexivity|]. split.
  { cbn [upd phys]. by rewrite read_insert, decide_True. }
  intros x Hx. cbn [upd phys]. rewrite read_insert, decide_False by done. rewrite Hp.
  unfold s1. cbn [upd phys]. pose proof (in_words_page new x Han) as Hiff.
  unfold alloc_page. cbn [upd phys]. rewrite !read_zero_page by
    (unfold frame, PAGE_SIZE, LOW_MEM; Z.div_mod_to_equations; lia). fold new.
  destruct (decide (in_page new x)) as [Hin|Hin].
  - rewrite decide_True by tauto. rewrite decide_False; [done|].
    unfold in_page, PAGE_SIZE in *. Z.div_mod_to_equations. lia.
  - by rewrite decide_False by tauto.
Qed.

(** A write fault on a page that several entries share (or on a page
    below [LOW_MEM]) gives the faulting entry a private copy: a free frame is
    allocated with count 1, it holds the words of the old page, the entry maps
    it present, writable and for user mode, the old frame loses one reference,
    and no other word of memory changes. *)
Theorem un_wp_page_copies te s i :
  wf_mm s -> highest_free s i ->
  let e := read_word (phys s) te in
  let old := page_of e in let new := frame i in
  needs_copy s old -> ~ in_page new te ->
  exists s', un_wp_page te s = Ok (s', tt) /\ wf_mm s' /\
    mem_map s' = drop_ref old (<[Z.to_nat i := 1]> (mem_map s)) /\
    read_word (phys s') te = Z.lor new 7 /\
    forall x, x <> te -> read_word (phys s') x =
      if decide (in_page new x) then read_word (phys s) (old + (x - new))
      else read_word (phys s) x.
Proof. exact (un_wp_page_copy te s i). Qed.

Lemma pte_index address :
  4 * Z.land (Z.shiftr address 12) 0x3ff = Z.land (Z.shiftr address 10) 0xffc.
Proof.
  change 4 with (2 ^ 2). rewrite Z.mul_comm, <-Z.shiftl_mul_pow2 by lia.
  change 0x3ff with (mask 0 10). change 0xffc with (mask 2 10). bits.
Qed.

(** [do_wp_page] un-protects the page-table entry whose physical address
    the macro [lin2phy] computes. *)
Theorem do_wp_page_lin2phy error_code address s :
  do_wp_page error_code address s = (pte ← lin2phy address; un_wp_page pte) s.
Proof.
  unfold do_wp_page, lin2phy. unfold mbind, M_bind, load, gets. cbn.
  rewrite pte_index, Z.add_comm. by rewrite (Z.land_comm 0xfffff000).
Qed.

(** *** Copy-on-write sharing *)

Lemma testbit_wp e : Z.testbit (wp e) 1 = false.
Proof. unfold wp. rewrite Z.land_spec. by rewrite andb_false_r. Qed.

Lemma page_of_wp e : page_of (wp e) = page_of e.
Proof.
  unfold page_of, wp. rewrite <-Z.ldiff_land. change 2 with (mask 1 1).
  change 0xfffff000 with (mask 12 20). bits.
Qed.

Lemma wp_0 : wp 0 = 0.
Proof. done. Qed.

Lemma in_words_entry t n (k : nat) : (k < n)%nat -> in_words t n (t + 4 * Z.of_nat k).
Proof. unfold in_words. intros. Z.div_mod_to_equations. lia. Qed.

(** After the copy, parent and child map every shared frame through
    entries that name the same page and have the write bit off, so the first
    write of either one faults. *)
Theorem copy_ptes_readonly nr f t s (k : nat) i :
  wf_mm s -> disjoint_words f t nr -> in_range (entries (phys s) f nr) ->
  (k < nr)%nat ->
  let e := entry (phys s) f (Z.of_nat k) in
  shared_frame e = Some i ->
  exists s', copy_ptes nr f t s = Ok (s', tt) /\
    entry (phys s') f (Z.of_nat k) = wp e /\ entry (phys s') t (Z.of_nat k) = wp e /\
    Z.testbit (wp e) 1 = false /\ page_of (wp e) = page_of e.
Proof.
  intros Hw Hd Hr Hk e Hs.
  destruct (copy_ptes_spec nr f t s Hw Hd Hr) as (s' & E & _ & Hp & _).
  exists s'. split; [done|]. rewrite testbit_wp, page_of_wp. unfold entry in *. rewrite !Hp.
  pose proof (in_words_entry f nr k Hk). pose proof (in_words_entry t nr k Hk).
  rewrite decide_True by done.
  rewrite (decide_False (P := in_words f nr (t + _)))
    by (unfold in_words, disjoint_words in *; lia).
  rewrite decide_True by done. fold e. unfold parent_entry. rewrite Hs.
  replace (f + (t + 4 * Z.of_nat k - t)) with (f + 4 * Z.of_nat k) by lia. fold e.
  unfold child_entry. rewrite decide_False; [done|]. intros He0. by rewrite He0, shared_frame_0 in Hs.
Qed.

(** Two entries share a page counted twice.  After the write fault of
    the second and then of the first, each maps a page of its own, both pages
    are counted once, and both hold the words of the shared page. *)
Theorem cow_private_copies s te1 te2 i :
  wf_mm s -> highest_free s i ->
  let e := read_word (phys s) te2 in
  let old := page_of e in let new := frame i in
  read_word (phys s) te1 = e -> old >= LOW_MEM ->
  arr_get (mem_map s) (MAP_NR old) = Some 2 -> te1 <> te2 ->
  ~ in_page new te1 -> ~ in_page new te2 -> ~ in_page old te1 -> ~ in_page old te2 ->
  exists s1 s2, un_wp_page te2 s = Ok (s1, tt) /\ un_wp_page te1 s1 = Ok (s2, tt) /\
    read_word (phys s2) te1 = Z.lor e 2 /\ read_word (phys s2) te2 = Z.lor new 7 /\
    arr_get (mem_map s2) (MAP_NR old) = Some 1 /\ arr_get (mem_map s2) i = Some 1 /\
    old <> new /\
    forall x, in_page old x ->
      read_word (phys s2) x = read_word (phys s) x /\
      read_word (phys s2) (new + (x - old)) = read_word (phys s) x.
Proof.
  intros Hw Hi e old new E1 Hlow Hc Hte Hn1 Hn2 Ho1 Ho2.
  destruct (un_wp_page_copy te2 s i Hw Hi) as (s1 & R1 & Hw1 & Hm & Ht2 & Hx);
    [right; eexists; split; [exact Hc|done]|done|].
  fold e old new in Hm, Ht2, Hx.
  assert (MAP_NR old <> i) as Hne.
  { intros <-. destruct Hi as (_ & H0 & _). congruence. }
  pose proof (arr_get_Some _ _ _ Hc) as Hr. destruct Hi as (Hir & Hi0 & _).
  rewrite (wf_len s Hw), PAGING_PAGES_eq in Hr. rewrite PAGING_PAGES_eq in Hir.
  assert (arr_get (mem_map s1) (MAP_NR old) = Some 1) as Hc1.
  { rewrite Hm. unfold drop_ref, arr_get in *. rewrite decide_True in Hc by lia.
    rewrite !decide_True by lia. rewrite list_lookup_alter, decide_True by done.
    rewrite list_lookup_insert_ne by lia. by rewrite Hc. }
  assert (arr_get (mem_map s1) i = Some 1) as Hci.
  { rewrite Hm. unfold drop_ref, arr_get. rewrite !decide_True by lia.
    rewrite list_lookup_alter, decide_False by lia.
    apply list_lookup_insert_eq. rewrite (wf_len s Hw), PAGING_PAGES_eq. lia. }
  assert (read_word (phys s1) te1 = e) as Ht1.
  { rewrite Hx, decide_False by done. exact E1. }
  pose proof (un_wp_page_keep te1 s1 Hw1) as R2. cbv zeta in R2. rewrite Ht1 in R2.
  exists s1. eexists. split; [exact R1|]. split; [by apply R2|]. cbn [upd phys mem_map].
  assert (old <> new) as Hon.
  { intros E. apply Hne. rewrite E. unfold new, frame, MAP_NR, PAGE_SIZE.
    rewrite Z.shiftr_div_pow2 by lia. change (2 ^ 12) with 4096. Z.div_mod_to_equations. lia. }
  rewrite !read_insert. rewrite decide_True by done. rewrite decide_False by done.
  do 5 (split; [done|]). intros x Hxo.
  pose proof (page_of_aligned e) as Hao. fold old in Hao.
  pose proof (frame_aligned i) as Han. fold new in Han.
  assert (in_page new (new + (x - old))) as Hxn.
  { unfold in_page, PAGE_SIZE in *. Z.div_mod_to_equations. lia. }
  assert (~ in_page new x) as Hxnn.
  { unfold in_page, PAGE_SIZE in *. Z.div_mod_to_equations. lia. }
  rewrite !read_insert. rewrite decide_False by congruence.
  rewrite (decide_False (P := te1 = new + _)) by congruence.
  rewrite !Hx by congruence. rewrite (decide_False (P := in_page new x)) by done.
  rewrite decide_True by done.
  split; [done|]. f_equal. lia.
Qed.

(** *** Duplicating an address space of at most 4 MB *)

Lemma pde_addr_range x : 0 ≤ pde_addr x < 4096 /\ pde_addr x mod 4 = 0.
Proof.
  assert (pde_addr x = (pde_addr x) mod 2 ^ 12) as E.
  { unfold pde_addr. change 0xffc with (mask 2 10). bits. }
  assert (pde_addr x mod 2 ^ 2 = 0) as E2.
  { unfold pde_addr. change 0xffc with (mask 2 10). bits. }
  split; [|done]. rewrite E. apply Z.mod_pos_bound. lia.
Qed.

(** The number of entries [copy_page_tables] copies per directory entry. *)
Definition nr_entries (from : Z) : nat := if decide (from = 0) then 0xA0 else 1024.

Lemma nr_entries_le from : (nr_entries from ≤ 1024)%nat.
Proof. unfold nr_entries. case_decide; lia. Qed.

(** The state when the copy of the entries starts. *)
Definition table_installed (s : mm) (i to : Z) : mm :=
  alloc_page s i <| phys := <[pde_addr to := Z.lor (frame i) 7]> (phys (alloc_page s i)) |>.

Lemma read_table_installed s i to x :
  read_word (phys (table_installed s i to)) x =
  if decide (pde_addr to = x) then Z.lor (frame i) 7
  else if decide (in_page (frame i) x) then 0 else read_word (phys s) x.
Proof.
  unfold table_installed, alloc_page. cbn [upd phys]. rewrite read_insert.
  rewrite read_zero_page; [done|]. unfold frame, PAGE_SIZE, LOW_MEM. Z.div_mod_to_equations. lia.
Qed.

Lemma page_vs_dir page to x :
  4096 ≤ page -> in_page page x -> pde_addr to <> x.
Proof. pose proof (pde_addr_range to). unfold in_page. lia. Qed.

Lemma in_words_sub page n x :
  page mod 4096 = 0 -> (n ≤ 1024)%nat -> in_words page n x -> in_page page x.
Proof. intros ?? Hx. rewrite <-in_words_page by done. unfold in_words in *. lia. Qed.

Lemma pages_apart x y z :
  x mod 4096 = 0 -> y mod 4096 = 0 -> x <> y -> in_page x z -> ~ in_page y z.
Proof. unfold in_page, PAGE_SIZE. intros. Z.div_mod_to_equations. lia. Qed.

Lemma copy_page_tables_one from to size s s' :
  Z.land from 0x3fffff = 0 -> Z.land to 0x3fffff = 0 -> 0 < size ≤ 0x400000 ->
  copy_pde from (pde_addr from) (pde_addr to) s = Ok (s', false) ->
  copy_page_tables from to size s = Ok (s', 0).
Proof.
  intros Hf Ht Hs E. unfold copy_page_tables. rewrite decide_False by tauto. cbv zeta.
  assert (Z.to_nat (Z.shiftr (u32 (size + 0x3fffff)) 22) = 1%nat) as ->.
  { rewrite u32_small, Z.shiftr_div_pow2 by lia. Z.div_mod_to_equations. lia. }
  cbn [copy_pdes]. by erewrite bind_ok by exact E.
Qed.

Lemma copy_pde_eq from to s i s' :
  wf_mm s -> highest_free s i ->
  Z.land 1 (read_word (phys s) (pde_addr to)) = 0 ->
  Z.land 1 (read_word (phys s) (pde_addr from)) <> 0 ->
  copy_ptes (nr_entries from) (page_of (read_word (phys s) (pde_addr from))) (frame i)
    (table_installed s i to) = Ok (s', tt) ->
  copy_pde from (pde_addr from) (pde_addr to) s = Ok (s', false).
Proof.
  intros Hw Hi Ht Hf E. unfold copy_pde. erewrite bind_ok by apply load_eq.
  rewrite decide_False by lia. erewrite bind_ok by apply load_eq. rewrite decide_False by done.
  cbv zeta. erewrite bind_ok by by apply get_free_page_ok.
  rewrite decide_False.
  2: { destruct Hi as (Hr & _). unfold frame, PAGE_SIZE, LOW_MEM. lia. }
  erewrite bind_ok by apply store_eq.
  erewrite bind_ok; [|exact E]. done.
Qed.

(** Entry [k] of the source page and of the fresh page after the first [nr]
    entries were copied; [s1] is the state with the empty table installed. *)
Lemma copied_entry ft i nr (k : nat) s s1 :
  ft mod 4096 = 0 -> i mod 4096 = 0 -> ft <> i -> (nr ≤ 1024)%nat -> (k < 1024)%nat ->
  (forall x, in_page ft x -> read_word (phys s1) x = read_word (phys s) x) ->
  (forall x, in_page i x -> read_word (phys s1) x = 0) ->
  let copied x :=
    if decide (in_words ft nr x) then parent_entry (read_word (phys s1) x)
    else if decide (in_words i nr x) then child_entry (read_word (phys s1) x) (read_word (phys s1) (ft + (x - i)))
    else read_word (phys s1) x in
  copied (i + 4 * Z.of_nat k) = (if decide (k < nr)%nat then wp (entry (phys s) ft (Z.of_nat k)) else 0) /\
  copied (ft + 4 * Z.of_nat k) =
    (if decide (k < nr)%nat then parent_entry (entry (phys s) ft (Z.of_nat k)) else entry (phys s) ft (Z.of_nat k)).
Proof.
  intros Haf Hai Hne Hnr Hk Hsame Hzero copied. unfold copied, entry.
  assert (in_page ft (ft + 4 * Z.of_nat k)) as Hkf by (apply in_words_page; [done|by apply in_words_entry]).
  assert (in_page i (i + 4 * Z.of_nat k)) as Hki by (apply in_words_page; [done|by apply in_words_entry]).
  rewrite (decide_False (P := in_words ft nr (i + _)))
    by (intros ?%in_words_sub; [by eapply (pages_apart ft i)|done|done]).
  rewrite (decide_False (P := in_words i nr (ft + _)))
    by (intros ?%in_words_sub; [by eapply (pages_apart ft i)|done|done]).
  rewrite Hzero by done.
  replace (ft + (i + 4 * Z.of_nat k - i)) with (ft + 4 * Z.of_nat k) by lia.
  rewrite !Hsame by done. destruct (decide (k < nr)%nat) as [Hlt|Hge].
  - rewrite !decide_True by (by apply in_words_entry). split; [|done].
    unfold child_entry. case_decide as Hz; [|done]. by rewrite Hz, wp_0.
  - by rewrite !decide_False by (unfold in_words; lia).
Qed.

Lemma copy_page_tables_spec from to size s i :
  wf_mm s -> highest_free s i ->
  Z.land from 0x3fffff = 0 -> Z.land to 0x3fffff = 0 -> 0 < size ≤ 0x400000 ->
  let nr := nr_entries from in
  let ft := page_of (read_word (phys s) (pde_addr from)) in
  Z.land 1 (read_word (phys s) (pde_addr to)) = 0 ->
  Z.land 1 (read_word (phys s) (pde_addr from)) <> 0 ->
  4096 ≤ ft -> ft <> frame i -> in_range (entries (phys s) ft nr) ->
  exists s', copy_page_tables from to size s = Ok (s', 0) /\ wf_mm s' /\
    read_word (phys s') (pde_addr to) = Z.lor (frame i) 7 /\
    (forall k : nat, (k < 1024)%nat ->
       entry (phys s') (frame i) (Z.of_nat k) =
         (if decide (k < nr)%nat then wp (entry (phys s) ft (Z.of_nat k)) else 0) /\
       entry (phys s') ft (Z.of_nat k) =
         (if decide (k < nr)%nat then parent_entry (entry (phys s) ft (Z.of_nat k))
          else entry (phys s) ft (Z.of_nat k))) /\
    (forall x, x <> pde_addr to -> ~ in_page (frame i) x -> ~ in_page ft x ->
       read_word (phys s') x = read_word (phys s) x) /\
    (forall j : nat, mem_map s' !! j =
       (fun v => u8 (v + refs (Z.of_nat j) (entries (phys s) ft nr))) <$>
         <[Z.to_nat i := 1]> (mem_map s) !! j).
Proof.
  intros Hw Hi Hf Ht Hs nr ft Htd Hfd Hft Hne Hr.
  pose proof (page_of_aligned (read_word (phys s) (pde_addr from))) as Haf. fold ft in Haf.
  pose proof (frame_aligned i) as Hai. pose proof (nr_entries_le from) as Hnr. fold nr in Hnr.
  assert (4096 ≤ frame i) as Hfr.
  { destruct Hi as (Hi & _). unfold frame, PAGE_SIZE, LOW_MEM. lia. }
  set (s1 := table_installed s i to).
  assert (wf_mm s1) as Hw1 by exact (wf_set_phys _ _ (wf_alloc_page s i Hw)).
  assert (forall x, in_page ft x -> read_word (phys s1) x = read_word (phys s) x) as Hsame.
  { intros x Hx. unfold s1. rewrite read_table_installed.
    rewrite decide_False by (by apply (page_vs_dir ft)).
    by rewrite decide_False by (eapply (pages_apart ft); done). }
  assert (forall x, in_page (frame i) x -> read_word (phys s1) x = 0) as Hzero.
  { intros x Hx. unfold s1. rewrite read_table_installed, decide_False by (by apply (page_vs_dir (frame i))).
    by rewrite decide_True. }
  assert (entries (phys s1) ft nr = entries (phys s) ft nr) as He.
  { apply entries_ext. intros x Hx. by eapply Hsame, in_words_sub. }
  assert (disjoint_words ft (frame i) nr) as Hd.
  { pose proof (pages_disjoint _ _ Haf Hai Hne). unfold disjoint_words in *. lia. }
  destruct (copy_ptes_spec nr ft (frame i) s1 Hw1 Hd) as (s' & E & Hw' & Hp & Hm);
    [by rewrite He|]. rewrite He in Hm.
  exists s'. split; [by apply copy_page_tables_one; [..|eapply copy_pde_eq]|]. split; [done|].
  split.
  { rewrite Hp. pose proof (pde_addr_range to).
    rewrite !decide_False by (unfold in_words; lia). unfold s1.
    rewrite read_table_installed. by rewrite decide_True. }
  split; [|split; [|exact Hm]].
  - intros k Hk. unfold entry. rewrite !Hp. by apply (copied_entry ft (frame i) nr k s s1).
  - intros x Hx1 Hx2 Hx3. rewrite Hp.
    rewrite !decide_False by (intros Hin%in_words_sub; [by auto|done|done]). unfold s1.
    rewrite read_table_installed. by rewrite !decide_False.
Qed.

(** C6.  [copy_page_tables] on an address space of at most 4 MB whose source
    table is in use: it returns 0, installs a fresh page table for [to], fills
    it with the source's entries made read-only (zero beyond the 640 KB copied
    for the kernel), write-protects the source's shared entries, counts every
    reference, and changes nothing else. *)
Theorem copy_page_tables_correct from to size s i :
  wf_mm s -> highest_free s i ->
  Z.land from 0x3fffff = 0 -> Z.land to 0x3fffff = 0 -> 0 < size ≤ 0x400000 ->
  let nr := nr_entries from in
  let ft := page_of (read_word (phys s) (pde_addr from)) in
  Z.land 1 (read_word (phys s) (pde_addr to)) = 0 ->
  Z.land 1 (read_word (phys s) (pde_addr from)) <> 0 ->
  4096 ≤ ft -> ft <> frame i -> in_range (entries (phys s) ft nr) ->
  exists s', copy_page_tables from to size s = Ok (s', 0) /\ wf_mm s' /\
    read_word (phys s') (pde_addr to) = Z.lor (frame i) 7 /\
    (forall k : nat, (k < 1024)%nat ->
       entry (phys s') (frame i) (Z.of_nat k) =
         (if decide (k < nr)%nat then wp (entry (phys s) ft (Z.of_nat k)) else 0) /\
       entry (phys s') ft (Z.of_nat k) =
         (if decide (k < nr)%nat then parent_entry (entry (phys s) ft (Z.of_nat k))
          else entry (phys s) ft (Z.of_nat k))) /\
    (forall x, x <> pde_addr to -> ~ in_page (frame i) x -> ~ in_page ft x ->
       read_word (phys s') x = read_word (phys s) x) /\
    (forall j : nat, mem_map s' !! j =
       (fun v => u8 (v + refs (Z.of_nat j) (entries (phys s) ft nr))) <$>
         <[Z.to_nat i := 1]> (mem_map s) !! j).
Proof. exact (copy_page_tables_spec from to size s i). Qed.

(** ** Witnesses *)

(** The memory after [mem_init(4 << 20, 16 << 20)], with the words [p]. *)
Definition boot_mm (p : gmap Z Z) (used : list (nat * Z)) : mm :=
  Mm p (foldr (fun '(i, v) l => <[i := v]> l) (replicate 768 USED ++ replicate 3072 0) used)
     0 (Z.shiftl 16 20).

Ltac wf_concrete :=
  constructor; [reflexivity|apply (bool_decide_unpack _); vm_compute; exact I].
Ltac free_concrete :=
  split; [done|]; split; [reflexivity|]; intros; rewrite PAGING_PAGES_eq in *; lia.
(** A closed comparison of integers, or a closed lookup. *)
Ltac z_concrete := vm_compute; solve [discriminate | reflexivity | split; reflexivity].
Ltac range_concrete := apply in_range_check; vm_compute; reflexivity.

Lemma mem_init_correct_witness :
  exists s', mem_init (Z.shiftl 4 20) (Z.shiftl 16 20) (Mm ∅ [] 0 0) = Ok (s', tt) /\
    mem_map s' !! 767%nat = Some USED /\ mem_map s' !! 768%nat = Some 0 /\
    mem_map s' !! 3839%nat = Some 0.
Proof.
  destruct (mem_init_correct (Z.shiftl 4 20) (Z.shiftl 16 20) (Mm ∅ [] 0 0))
    as (s' & E & _ & _ & _ & H); [z_concrete..|].
  exists s'. split; [exact E|]. rewrite !H by lia. repeat split; z_concrete.
Defined.

Lemma get_free_page_correct_witness :
  exists s', get_free_page (boot_mm ∅ []) = Ok (s', 0xFFF000) /\
    mem_map s' !! 3839%nat = Some 1 /\ read_word (phys s') 0xFFFFFC = 0.
Proof.
  destruct (get_free_page_correct (boot_mm ∅ []) 3839) as (s' & E & Hm & _ & _ & _ & H);
    [wf_concrete|free_concrete|].
  exists s'. split; [exact E|]. rewrite Hm, H. split; z_concrete.
Defined.

Lemma get_free_page_exhausted_witness :
  exists s', get_free_page (Mm ∅ (replicate 3840 1) 0 0) = Ok (s', 0xFF000) /\ below_map s' = 1.
Proof.
  destruct (get_free_page_exhausted (Mm ∅ (replicate 3840 1) 0 0)) as (s' & E & _ & H & _);
    [wf_concrete| |exists s'; split; [exact E|exact H]].
  intros j _ Hj. unfold arr_get in Hj. case_decide; [|done].
  by apply lookup_replicate in Hj as [? _].
Defined.

Lemma get_free_page_nonzero_witness :
  exists s' p, get_free_page (Mm ∅ (replicate 3840 1) 0 0) = Ok (s', p) /\
    p <> 0 /\ p mod PAGE_SIZE = 0 /\ wf_mm s'.
Proof. apply get_free_page_nonzero. wf_concrete. Defined.

(** A parent table at 0x1000 whose first entry maps the frame at 4 MB. *)
Definition pte_state (c : Z) : mm := boot_mm {[0x1000 := 0x400007; 0x2008 := 0x1001]} [(768%nat, c)].

Lemma copy_ptes_readonly_witness :
  exists s', copy_ptes 2 0x1000 0x2000 (pte_state 1) = Ok (s', tt) /\
    entry (phys s') 0x1000 0 = 0x400005 /\ entry (phys s') 0x2000 0 = 0x400005.
Proof.
  destruct (copy_ptes_readonly 2 0x1000 0x2000 (pte_state 1) 0 768) as (s' & E & H1 & H2 & _);
    [wf_concrete|left; lia|range_concrete|lia|reflexivity|].
  exists s'. split; [exact E|]. split; [exact H1|exact H2].
Defined.

Lemma un_wp_page_exclusive_witness :
  un_wp_page 0x1000 (pte_state 1) =
    Ok (pte_state 1 <| phys := <[0x1000 := 0x400007]> (phys (pte_state 1)) |>, tt).
Proof. apply (un_wp_page_exclusive 0x1000 (pte_state 1)); [wf_concrete|z_concrete|z_concrete]. Defined.

(** Two tables share the frame at 4 MB, read-only. *)
Definition shared_state : mm :=
  boot_mm {[0x1000 := 0x400005; 0x2000 := 0x400005; 0x400010 := 42]} [(768%nat, 2)].

Lemma un_wp_page_copies_witness :
  exists s', un_wp_page 0x2000 shared_state = Ok (s', tt) /\
    read_word (phys s') 0x2000 = 0xFFF007 /\ read_word (phys s') 0xFFF010 = 42 /\
    mem_map s' !! 768%nat = Some 1.
Proof.
  destruct (un_wp_page_copies 0x2000 shared_state 3839) as (s' & E & _ & Hm & He & Hx);
    [wf_concrete|free_concrete|right; exists 2; split; [z_concrete|done]|unfold in_page; rewrite ?page_of_lit; vm_compute; intuition discriminate|].
  exists s'. split; [exact E|]. rewrite Hm, He, Hx by done. repeat split; z_concrete.
Defined.

Lemma cow_private_copies_witness :
  exists s1 s2, un_wp_page 0x2000 shared_state = Ok (s1, tt) /\
    un_wp_page 0x1000 s1 = Ok (s2, tt) /\
    read_word (phys s2) 0x1000 = 0x400007 /\ read_word (phys s2) 0x2000 = 0xFFF007.
Proof.
  destruct (cow_private_copies shared_state 0x1000 0x2000 3839)
    as (s1 & s2 & E1 & E2 & H1 & H2 & _);
    [wf_concrete|free_concrete|z_concrete|z_concrete|z_concrete|done
    |unfold in_page; rewrite ?page_of_lit; vm_compute; intuition discriminate|unfold in_page; rewrite ?page_of_lit; vm_compute; intuition discriminate
    |unfold in_page; rewrite ?page_of_lit; vm_compute; intuition discriminate|unfold in_page; rewrite ?page_of_lit; vm_compute; intuition discriminate|].
  exists s1, s2. split; [exact E1|]. split; [exact E2|]. split; [exact H1|exact H2].
Defined.

(** A directory whose second entry names a table in the frame at 8 MB. *)
Definition dir_state : mm :=
  boot_mm {[0x40 := 0x800007; 0x800000 := 0x400007]} [(768%nat, 1); (1792%nat, 1)].

Lemma copy_page_tables_correct_witness :
  exists s', copy_page_tables 0x4000000 0x8000000 0x400000 dir_state = Ok (s', 0) /\
    read_word (phys s') 0x80 = 0xFFF007 /\
    entry (phys s') 0xFFF000 0 = 0x400005 /\ mem_map s' !! 768%nat = Some 2.
Proof.
  destruct (copy_page_tables_correct 0x4000000 0x8000000 0x400000 dir_state 3839)
    as (s' & E & _ & Hd & Hk & _ & Hm);
    [wf_concrete|free_concrete|z_concrete|z_concrete|lia|z_concrete|z_concrete|z_concrete|z_concrete| |].
  { range_concrete. }
  exists s'. split; [exact E|]. split; [exact Hd|]. split.
  - destruct (Hk 0%nat) as [H _]; [lia|]. exact H.
  - rewrite Hm. vm_compute. reflexivity.
Defined.
