(* ===== verification/AddressSpace.v ===== *)
(** * Copy-on-write as private memory

    The abstract view of mm/: every user space is a memory of its own.  User
    accesses go through the page tables as the processor walks them; a write
    that the tables forbid enters [page_fault] (mm/page.asm), and is tried again
    when that returns.  The file proves that any sequence of such writes and of
    [copy_page_tables] behaves as writes to separate memories and copies of
    them, from the first [fork] on. *)
From S2P Require Import Prelude Words Memory.

(** ** The processor *)

Definition page_index (lin : Z) : Z := Z.land (Z.shiftr lin 12) 0x3ff.

(** Physical address of the page-table entry of a linear address. *)
Definition pte_addr (s : mm) (lin : Z) : Z :=
  page_of (read_word (phys s) (pde_addr lin)) + 4 * page_index lin.

(** Present and accessible to user code; writable by it. *)
Definition user_ok (e : Z) : bool := Z.land e 5 =? 5.
Definition user_rw (e : Z) : bool := Z.land e 7 =? 7.

(** The word a user access to the aligned address [lin] reads. *)
Definition user_read (s : mm) (lin : Z) : option Z :=
  let pte := read_word (phys s) (pte_addr s lin) in
  if user_ok (read_word (phys s) (pde_addr lin)) && user_ok pte
  then Some (read_word (phys s) (page_of pte + Z.land lin 0xffc)) else None.

(** mm/page.asm: the handler hands the error code and [cr2] to [do_wp_page]. *)
Definition page_fault (error_code cr2 : Z) : M mm unit := do_wp_page error_code cr2.

(** The error code of a page fault in user mode. *)
Definition fault_code (s : mm) (lin : Z) (write : bool) : Z :=
  let present := Z.testbit (read_word (phys s) (pde_addr lin)) 0 && Z.testbit (read_word (phys s) (pte_addr s lin)) 0 in
  4 + (if write then 2 else 0) + (if present then 1 else 0).

(** A user write of one word and a user read, restarted after each page fault. *)
Fixpoint user_write (fuel : nat) (lin v : Z) : M mm unit :=
  match fuel with
  | O => stop Fuel
  | S fuel =>
      s ← get;
      let pte := read_word (phys s) (pte_addr s lin) in
      if user_rw (read_word (phys s) (pde_addr lin)) && user_rw pte
      then store (page_of pte + Z.land lin 0xffc) v
      else page_fault (fault_code s lin true) lin;; user_write fuel lin v
  end.

Fixpoint user_load (fuel : nat) (lin : Z) : M mm Z :=
  match fuel with
  | O => stop Fuel
  | S fuel =>
      s ← get;
      match user_read s lin with
      | Some w => mret w
      | None => page_fault (fault_code s lin false) lin;; user_load fuel lin
      end
  end.

(** ** Spaces

    [ds] are the linear bases of the 4 MB regions in use; region [d] has the page
    table [tab s d] with the entries [ent s d k].  An entry either carries a
    reference to a frame ([shared_frame]), or shows a page of low memory
    read-only, or names page 0: those count as unmapped. *)

Definition base (d : Z) : Prop := 0x4000000 ≤ d < 2 ^ 32 /\ d mod 0x400000 = 0.
#[export] Instance base_dec d : Decision (base d).
Proof. unfold base. apply _. Defined.

Definition pde (s : mm) (d : Z) : Z := read_word (phys s) (pde_addr d).
Definition tab (s : mm) (d : Z) : Z := page_of (pde s d).
Definition ent (s : mm) (d : Z) (k : nat) : Z := entry (phys s) (tab s d) (Z.of_nat k).
Definition tents (s : mm) (d : Z) : list Z := entries (phys s) (tab s d) 1024.
Arguments tents : simpl never.
Definition all_ents (s : mm) (ds : list Z) : list Z := flat_map (tents s) ds.

Definition slot (ds : list Z) (d : Z) (k : nat) : Prop := d ∈ ds /\ (k < 1024)%nat.

Record entry_ok (e : Z) : Prop := {
  eo_range : 0 ≤ e < 2 ^ 32;
  eo_frame : forall i, shared_frame e = Some i -> i < PAGING_PAGES;
  eo_user : page_of e <> 0 -> user_ok e = true
}.

Record spaces (s : mm) (ds : list Z) : Prop := {
  sp_wf : wf_mm s;
  sp_nodup : NoDup ds;
  sp_base : forall d, d ∈ ds -> base d;
  sp_pde : forall d, d ∈ ds -> user_rw (pde s d) = true;
  sp_unused : forall d, base d -> d ∉ ds -> Z.land 1 (pde s d) = 0;
  sp_tab : forall d, d ∈ ds -> exists t, tab s d = frame t /\ 0 ≤ t < PAGING_PAGES /\
    arr_get (mem_map s) t <> Some 0;
  sp_tab_inj : forall d d', d ∈ ds -> d' ∈ ds -> tab s d = tab s d' -> d = d';
  sp_ent : forall d k, slot ds d k -> entry_ok (ent s d k);
  sp_apart : forall d k d' i, slot ds d k -> d' ∈ ds -> shared_frame (ent s d k) = Some i ->
    tab s d' <> frame i;
  sp_inj : forall d k k' i, slot ds d k -> slot ds d k' -> shared_frame (ent s d k) = Some i ->
    shared_frame (ent s d k') = Some i -> k = k';
  sp_count : forall d k i, slot ds d k -> shared_frame (ent s d k) = Some i ->
    arr_get (mem_map s) i = Some (refs i (all_ents s ds));
  sp_write : forall d k, slot ds d k -> user_rw (ent s d k) = true ->
    exists i, shared_frame (ent s d k) = Some i /\ refs i (all_ents s ds) = 1
}.

(** The word at offset [o] of page [k] of region [d]. *)
Definition word_at (s : mm) (d : Z) (k : nat) (o : Z) : option Z :=
  if decide (page_of (ent s d k) = 0) then None
  else Some (read_word (phys s) (page_of (ent s d k) + o)).

Definition lin (d : Z) (k : nat) (o : Z) : Z := d + 4096 * Z.of_nat k + o.
Definition offset (o : Z) : Prop := 0 ≤ o < 4096 /\ o mod 4 = 0.
#[export] Instance offset_dec o : Decision (offset o).
Proof. unfold offset. apply _. Defined.

(** ** Address arithmetic *)

Lemma pde_addr_eq x : 0 ≤ x < 2 ^ 32 -> pde_addr x = 4 * (x / 0x400000).
Proof.
  intros Hx. change 0x400000 with (2 ^ 22). rewrite <-Z.shiftr_div_pow2 by lia.
  rewrite Z.mul_comm. replace (Z.shiftr x 22 * 4) with (Z.shiftl (Z.shiftr x 22) 2)
    by (rewrite Z.shiftl_mul_pow2; lia).
  unfold pde_addr. change 0xffc with (mask 2 10). bits.
Qed.

Lemma lin_range d k o : base d -> (k < 1024)%nat -> offset o -> 0 ≤ lin d k o < 2 ^ 32.
Proof. unfold base, offset, lin. intros. Z.div_mod_to_equations. lia. Qed.

Lemma pde_addr_lin d k o :
  base d -> (k < 1024)%nat -> offset o -> pde_addr (lin d k o) = pde_addr d.
Proof.
  intros Hd Hk Ho. pose proof (lin_range d k o Hd Hk Ho). destruct Hd, Ho.
  rewrite !pde_addr_eq by lia. unfold lin. f_equal. Z.div_mod_to_equations. lia.
Qed.

Lemma pde_addr_inj d d' : base d -> base d' -> pde_addr d = pde_addr d' -> d = d'.
Proof.
  intros [? ?] [? ?]. rewrite !pde_addr_eq by lia. intros. Z.div_mod_to_equations. lia.
Qed.

Lemma page_index_lin d k o :
  base d -> (k < 1024)%nat -> offset o -> page_index (lin d k o) = Z.of_nat k.
Proof.
  intros [_ Hm] Hk [Ho _]. unfold page_index, lin. change 0x3ff with (Z.ones 10). rewrite Z.land_ones by lia.
  rewrite Z.shiftr_div_pow2 by lia. change (2 ^ 12) with 4096. change (2 ^ 10) with 1024.
  Z.div_mod_to_equations. lia.
Qed.

Lemma land_offset x : Z.land x 0xffc = x mod 4096 - x mod 4.
Proof.
  assert (Z.land (Z.land x 0xffc) (Z.land x 3) = 0) as E0.
  { change 0xffc with (mask 2 10). change 3 with (Z.ones 2). bits. }
  assert (x mod 2 ^ 12 = Z.lor (Z.land x 0xffc) (Z.land x 3)) as E.
  { change 0xffc with (mask 2 10). change 3 with (Z.ones 2). bits. }
  rewrite (lor_add _ _ E0) in E. change (Z.land x 3) with (Z.land x (Z.ones 2)) in E.
  rewrite Z.land_ones in E by lia. change (2 ^ 12) with 4096 in E. change (2 ^ 2) with 4 in E. lia.
Qed.

Lemma offset_lin d k o : base d -> offset o -> Z.land (lin d k o) 0xffc = o.
Proof.
  intros [_ Hm] [Ho Ho4]. rewrite land_offset. unfold lin. Z.div_mod_to_equations. lia.
Qed.

Lemma pte_addr_lin s d k o :
  base d -> (k < 1024)%nat -> offset o -> pte_addr s (lin d k o) = tab s d + 4 * Z.of_nat k.
Proof. intros. unfold pte_addr. by rewrite pde_addr_lin, page_index_lin. Qed.

(** ** Entries *)

Lemma page_parts e : 0 ≤ e -> wp e = page_of e + Z.land e 0xffd \/ 2 ^ 32 ≤ e.
Proof.
  intros He. destruct (decide (e < 2 ^ 32)); [left|right; lia].
  assert (Z.land (page_of e) (Z.land e 0xffd) = 0) as E.
  { unfold page_of. change 0xffd with (Z.lor (mask 2 10) (mask 0 1)). change 0xfffff000 with (mask 12 20). bits. }
  rewrite <-(lor_add _ _ E). unfold wp, page_of. change (Z.lnot 2) with (Z.lnot (mask 1 1)). rewrite <-Z.ldiff_land.
  change 0xffd with (Z.lor (mask 2 10) (mask 0 1)). change 0xfffff000 with (mask 12 20). bits.
Qed.

Lemma flags_range e : 0 ≤ Z.land e 0xffd < 4096.
Proof.
  assert (Z.land e 0xffd = Z.land e 0xffd mod 2 ^ 12) as ->; [|by apply Z.mod_pos_bound].
  change 0xffd with (Z.lor (mask 2 10) (mask 0 1)). bits.
Qed.

Lemma user_ok_flags e : user_ok e = true -> 0 < Z.land e 0xffd.
Proof.
  unfold user_ok. intros Hu%Z.eqb_eq. pose proof (flags_range e).
  enough (Z.land e 0xffd <> 0) by lia. intros E0.
  apply (f_equal (fun z => Z.testbit z 0)) in Hu, E0. rewrite Z.land_spec in Hu, E0.
  change (Z.testbit 5 0) with true in Hu. change (Z.testbit 0xffd 0) with true in E0.
  change (Z.testbit 0 0) with false in E0. rewrite andb_true_r in Hu, E0. congruence.
Qed.

Lemma user_rw_ok e : user_rw e = true -> user_ok e = true.
Proof.
  unfold user_rw, user_ok. rewrite !Z.eqb_eq. intros E. apply (f_equal (Z.land 5)) in E.
  change (Z.land 5 7) with 5 in E. rewrite <-E at 2. rewrite (Z.land_comm e 7), Z.land_assoc.
  change (Z.land 5 7) with 5. apply Z.land_comm.
Qed.

(** The frame an entry counts for is that of its page. *)
Lemma shared_page e i : 0 ≤ e < 2 ^ 32 -> shared_frame e = Some i -> page_of e = frame i.
Proof.
  intros He. unfold shared_frame. case_decide as Hc; [|done]. intros [= <-].
  destruct (page_parts e) as [Ew|]; [lia| |lia]. pose proof (flags_range e). pose proof (page_of_aligned e).
  unfold frame, PAGE_SIZE. rewrite Z.shiftr_div_pow2 by lia. change (2 ^ 12) with 4096.
  unfold LOW_MEM in *. Z.div_mod_to_equations. lia.
Qed.

Lemma page_shared e i :
  0 ≤ e < 2 ^ 32 -> user_ok e = true -> 0 ≤ i -> page_of e = frame i -> shared_frame e = Some i.
Proof.
  intros He Hu Hi Hp. destruct (page_parts e) as [Ew|]; [lia| |lia].
  pose proof (flags_range e). pose proof (user_ok_flags e Hu). unfold shared_frame.
  unfold frame, PAGE_SIZE in Hp. rewrite decide_True.
  - f_equal. rewrite Z.shiftr_div_pow2 by lia. change (2 ^ 12) with 4096.
    unfold LOW_MEM in *. Z.div_mod_to_equations. lia.
  - split; [intros ->; done|]. lia.
Qed.

Lemma unshared_low e :
  entry_ok e -> shared_frame e = None -> page_of e < LOW_MEM.
Proof.
  intros [He _ Hu] Hs. destruct (decide (page_of e = 0)) as [->|H0]; [done|].
  specialize (Hu H0). destruct (page_parts e) as [Ew|]; [lia| |lia]. pose proof (user_ok_flags e Hu).
  unfold shared_frame in Hs. case_decide as Hc; [done|].
  destruct (decide (e = 0)) as [->|]; [done|]. lia.
Qed.

Lemma lookup_entries p t n : forall k, (k < n)%nat -> entries p t n !! k = Some (entry p t (Z.of_nat k)).
Proof.
  revert t. induction n as [|n IH]; intros t [|k] Hk; try lia; cbn [entries lookup list_lookup].
  - unfold entry. by rewrite Z.add_0_r.
  - rewrite IH by lia. unfold entry. do 2 f_equal. lia.
Qed.

Lemma length_entries p t n : length (entries p t n) = n.
Proof. revert t. induction n; intros; cbn; congruence. Qed.

Lemma entries_eq p t n l :
  length l = n -> (forall j, (j < n)%nat -> l !! j = Some (entry p t (Z.of_nat j))) -> entries p t n = l.
Proof.
  intros Hl H. apply list_eq_same_length with n; [done|apply length_entries|]. intros j x y Hj.
  rewrite lookup_entries, H by done. congruence.
Qed.

Lemma refs_app i l1 l2 : refs i (l1 ++ l2) = refs i l1 + refs i l2.
Proof. unfold refs. rewrite list.filter_app, length_app. lia. Qed.

Definition hits (i e : Z) : Z := if decide (shared_frame e = Some i) then 1 else 0.

Lemma refs_insert i l k e e' : l !! k = Some e ->
  refs i (<[k := e']> l) = refs i l - hits i e + hits i e'.
Proof.
  intros Hk. rewrite <-(take_drop_middle l k e Hk) at 2.
  rewrite insert_take_drop by (by apply lookup_lt_Some in Hk). rewrite !refs_app, !refs_cons. unfold hits. lia.
Qed.

Lemma refs_zero i l : (forall e, e ∈ l -> shared_frame e <> Some i) -> refs i l = 0.
Proof.
  induction l as [|e l IH]; intros H; [done|]. rewrite refs_cons, decide_False by (apply H; by left).
  rewrite IH; [lia|]. intros e' He'. apply H. by right.
Qed.

Lemma refs_pos i l e : e ∈ l -> shared_frame e = Some i -> 0 < refs i l.
Proof.
  intros He Hs. apply list_elem_of_split in He as (l1 & l2 & ->). rewrite refs_app, refs_cons, decide_True by done.
  pose proof (refs_nonneg i l1). pose proof (refs_nonneg i l2). lia.
Qed.

Lemma refs_le_one i l :
  (forall k k' e e', l !! k = Some e -> l !! k' = Some e' -> shared_frame e = Some i ->
     shared_frame e' = Some i -> k = k') -> refs i l ≤ 1.
Proof.
  induction l as [|e l IH]; intros H; [done|]. rewrite refs_cons. case_decide as He.
  - rewrite refs_zero; [lia|]. intros e' [k Hk]%list_elem_of_lookup He'.
    by specialize (H 0%nat (S k) e e' eq_refl Hk He He').
  - assert (refs i l ≤ 1); [|lia]. apply IH. intros k k' e1 e2 H1 H2 Hs1 Hs2.
    specialize (H (S k) (S k') e1 e2 H1 H2 Hs1 Hs2). congruence.
Qed.

Lemma length_tents s d : length (tents s d) = 1024%nat.
Proof. unfold tents. by rewrite length_entries. Qed.

Lemma lookup_tents s d k : (k < 1024)%nat -> tents s d !! k = Some (ent s d k).
Proof. apply lookup_entries. Qed.

Lemma all_ents_cons s d ds : all_ents s (d :: ds) = tents s d ++ all_ents s ds.
Proof. done. Qed.

Lemma all_ents_split s l1 d l2 : all_ents s (l1 ++ d :: l2) = all_ents s l1 ++ tents s d ++ all_ents s l2.
Proof. unfold all_ents. by rewrite flat_map_app. Qed.

Lemma all_ents_ext s s' ds : (forall d, d ∈ ds -> tents s' d = tents s d) -> all_ents s' ds = all_ents s ds.
Proof.
  induction ds as [|d ds IH]; intros H; [done|]. rewrite !all_ents_cons, H by (by left).
  rewrite IH; [done|]. intros d' Hd'. apply H. by right.
Qed.

Lemma elem_tents s d e : e ∈ tents s d -> exists k, (k < 1024)%nat /\ ent s d k = e.
Proof.
  intros [k Hk]%list_elem_of_lookup. pose proof (lookup_lt_Some _ _ _ Hk) as Hlt.
  rewrite length_tents in Hlt. rewrite lookup_tents in Hk by done.
  exists k. split; [done|congruence].
Qed.

Lemma elem_all_ents s ds e : e ∈ all_ents s ds -> exists d k, slot ds d k /\ ent s d k = e.
Proof.
  intros (d & Hd & He)%list_elem_of_In%in_flat_map. apply list_elem_of_In in Hd, He.
  apply elem_tents in He as (k & Hk & He). by exists d, k.
Qed.

Lemma tents_refs_pos s d k i : (k < 1024)%nat -> shared_frame (ent s d k) = Some i -> 0 < refs i (tents s d).
Proof. intros Hk. apply refs_pos. eapply list_elem_of_lookup_2, lookup_tents, Hk. Qed.

Lemma slot_refs_pos s ds d k i : slot ds d k -> shared_frame (ent s d k) = Some i -> 0 < refs i (all_ents s ds).
Proof.
  intros [Hd Hk] Hs. apply list_elem_of_split in Hd as (l1 & l2 & ->). rewrite all_ents_split, !refs_app.
  pose proof (tents_refs_pos s d k i Hk Hs). pose proof (refs_nonneg i (all_ents s l1)).
  pose proof (refs_nonneg i (all_ents s l2)). lia.
Qed.

(** Two regions that map a frame make two references. *)
Lemma refs_two s ds d d' k k' i :
  NoDup ds -> slot ds d k -> slot ds d' k' -> d <> d' -> shared_frame (ent s d k) = Some i ->
  shared_frame (ent s d' k') = Some i -> 2 ≤ refs i (all_ents s ds).
Proof.
  intros Hn [Hd Hk] [Hd' Hk'] Hne Hs Hs'. apply list_elem_of_split in Hd as (l1 & l2 & ->).
  pose proof (tents_refs_pos s d k i Hk Hs) as Hp. rewrite all_ents_split, !refs_app.
  pose proof (refs_nonneg i (all_ents s l1)). pose proof (refs_nonneg i (all_ents s l2)).
  apply elem_of_app in Hd' as [Hd'|[?|Hd']%elem_of_cons]; [|congruence|].
  - pose proof (slot_refs_pos s l1 d' k' i (conj Hd' Hk') Hs'). lia.
  - pose proof (slot_refs_pos s l2 d' k' i (conj Hd' Hk') Hs'). lia.
Qed.

(** References after one entry changed. *)
Lemma all_refs_update s s' ds d k e' i :
  NoDup ds -> slot ds d k -> tents s' d = <[k := e']> (tents s d) ->
  (forall d', d' ∈ ds -> d' <> d -> tents s' d' = tents s d') ->
  refs i (all_ents s' ds) = refs i (all_ents s ds) - hits i (ent s d k) + hits i e'.
Proof.
  intros Hn [Hd Hk] Ht Hsame. apply list_elem_of_split in Hd as (l1 & l2 & ->).
  apply list.NoDup_app in Hn as (_ & Hn1 & [Hn2 _]%list.NoDup_cons).
  rewrite !all_ents_split, !refs_app, Ht, (refs_insert i _ k (ent s d k)) by (by apply lookup_tents).
  rewrite (all_ents_ext s s' l1), (all_ents_ext s s' l2); [lia|..]; intros d' Hd'; apply Hsame.
  - apply elem_of_app. right. by right.
  - by intros ->.
  - apply elem_of_app. by left.
  - intros ->. apply (Hn1 d Hd'). by left.
Qed.

Lemma tents_refs_le s ds d i : spaces s ds -> d ∈ ds -> refs i (tents s d) ≤ 1.
Proof.
  intros Hsp Hd. apply refs_le_one. intros k k' e e' Hk Hk' He He'.
  pose proof (lookup_lt_Some _ _ _ Hk) as H1. pose proof (lookup_lt_Some _ _ _ Hk') as H2.
  rewrite length_tents in H1, H2. rewrite lookup_tents in Hk, Hk' by done. simplify_eq.
  by eapply (sp_inj s ds Hsp d k k' i).
Qed.

(** At most one reference per region. *)
Lemma refs_regions s ds i : spaces s ds -> refs i (all_ents s ds) ≤ Z.of_nat (length ds).
Proof.
  intros Hsp. enough (forall l, l ⊆ ds -> refs i (all_ents s l) ≤ Z.of_nat (length l)) as H by by apply H.
  induction l as [|d l IH]; intros Hl; [done|]. rewrite all_ents_cons, refs_app. cbn [length].
  assert (refs i (tents s d) ≤ 1) by (apply (tents_refs_le s ds); [done|apply Hl; by left]).
  specialize (IH (fun x Hx => Hl x (list_elem_of_further x d l Hx))). lia.
Qed.

(** ** Reads *)

Lemma same_page p p' o o' :
  p mod 4096 = 0 -> p' mod 4096 = 0 -> 0 ≤ o < 4096 -> 0 ≤ o' < 4096 -> p + o = p' + o' -> p = p' /\ o = o'.
Proof. intros. Z.div_mod_to_equations. lia. Qed.

Lemma in_page_offset p o : p mod 4096 = 0 -> offset o -> in_page p (p + o).
Proof. intros Hp [Ho Ho4]. unfold in_page, PAGE_SIZE. Z.div_mod_to_equations. lia. Qed.

Lemma offset_entry (k : nat) : (k < 1024)%nat -> offset (4 * Z.of_nat k).
Proof. intros. unfold offset. Z.div_mod_to_equations. lia. Qed.

Lemma tab_aligned s d : tab s d mod 4096 = 0.
Proof. apply page_of_aligned. Qed.

Lemma in_page_parts p x : p mod 4096 = 0 -> in_page p x <-> exists o, offset o /\ x = p + o.
Proof.
  intros Hp. split; [intros [H1 H2]; exists (x - p)|intros (o & Ho & ->); by apply in_page_offset].
  unfold offset, PAGE_SIZE in *. split; [|lia]. Z.div_mod_to_equations. lia.
Qed.

Lemma page_above e : page_of e <> 0 -> 4096 ≤ page_of e.
Proof.
  intros H0. pose proof (page_of_aligned e). pose proof (page_of_range e). Z.div_mod_to_equations. lia.
Qed.

Section one_state.
Context (s : mm) (ds : list Z) (Hsp : spaces s ds).

Lemma tab_range d : d ∈ ds -> LOW_MEM ≤ tab s d.
Proof. intros (t & -> & Ht & _)%(sp_tab s ds Hsp). unfold frame, PAGE_SIZE. lia. Qed.

(** A mapped page is no page table and not the directory. *)
Lemma mapped_apart d k d' : slot ds d k -> d' ∈ ds -> page_of (ent s d k) <> tab s d'.
Proof.
  intros Hs Hd'. destruct (shared_frame (ent s d k)) as [i|] eqn:Hi.
  - erewrite shared_page by (done || apply (sp_ent s ds Hsp d k Hs)). intros E.
    by apply (sp_apart s ds Hsp d k d' i Hs Hd' Hi).
  - pose proof (unshared_low _ (sp_ent s ds Hsp d k Hs) Hi). pose proof (tab_range d' Hd'). lia.
Qed.

(** A free frame is no page table and not mapped. *)
Lemma free_apart i : 0 ≤ i -> arr_get (mem_map s) i = Some 0 ->
  (forall d, d ∈ ds -> tab s d <> frame i) /\
  (forall d k, slot ds d k -> shared_frame (ent s d k) <> Some i /\ page_of (ent s d k) <> frame i).
Proof.
  intros Hi H0. split.
  - intros d (t & -> & Ht & Hc)%(sp_tab s ds Hsp) E. unfold frame, PAGE_SIZE in E.
    assert (t = i) as -> by lia. done.
  - intros d k Hs. assert (shared_frame (ent s d k) <> Some i) as Hn.
    { intros Hf. pose proof (slot_refs_pos s ds d k i Hs Hf).
      rewrite (sp_count s ds Hsp d k i Hs Hf) in H0. injection H0. lia. }
    split; [done|]. intros E. destruct (shared_frame (ent s d k)) as [j|] eqn:Hj.
    + erewrite shared_page in E by (done || apply (sp_ent s ds Hsp d k Hs)).
      unfold frame, PAGE_SIZE in E. assert (j = i) as -> by lia. done.
    + pose proof (unshared_low _ (sp_ent s ds Hsp d k Hs) Hj). unfold frame, PAGE_SIZE in E. lia.
Qed.

Lemma word_at_Some d k o w : word_at s d k o = Some w ->
  page_of (ent s d k) <> 0 /\ read_word (phys s) (page_of (ent s d k) + o) = w.
Proof. unfold word_at. case_decide; [done|]. intros [= <-]. done. Qed.

Lemma user_read_eq d k o w :
  slot ds d k -> offset o -> word_at s d k o = Some w -> user_read s (lin d k o) = Some w.
Proof.
  intros [Hd Hk] Ho [Hp <-]%word_at_Some. pose proof (sp_base s ds Hsp d Hd) as Hb. unfold user_read.
  rewrite pte_addr_lin, pde_addr_lin, offset_lin by done.
  change (read_word (phys s) (tab s d + 4 * Z.of_nat k)) with (ent s d k).
  change (read_word (phys s) (pde_addr d)) with (pde s d).
  rewrite (user_rw_ok (pde s d)) by (by apply (sp_pde s ds Hsp)).
  by rewrite (eo_user _ (sp_ent s ds Hsp d k (conj Hd Hk)) Hp).
Qed.
End one_state.

(** ** A write that the tables allow *)

(** [s'] has the directory and the page tables of [s]. *)
Definition same_tables (s s' : mm) (ds : list Z) : Prop := forall x,
  x < 4096 \/ (exists d, d ∈ ds /\ in_page (tab s d) x) -> read_word (phys s') x = read_word (phys s) x.

Lemma same_pde s s' ds d : same_tables s s' ds -> pde s' d = pde s d.
Proof. intros H. apply H. left. apply pde_addr_range. Qed.

Lemma same_tab s s' ds d : same_tables s s' ds -> tab s' d = tab s d.
Proof. intros H. unfold tab. by rewrite (same_pde s s' ds). Qed.

Lemma same_tents s s' ds d : same_tables s s' ds -> d ∈ ds -> tents s' d = tents s d.
Proof.
  intros H Hd. unfold tents. rewrite (same_tab s s' ds) by done. apply entries_ext. intros x Hx.
  apply H. right. exists d. split; [done|]. by apply in_words_page, Hx; apply tab_aligned.
Qed.

Lemma same_ent s s' ds d k : same_tables s s' ds -> slot ds d k -> ent s' d k = ent s d k.
Proof.
  intros H [Hd Hk]. pose proof (same_tents s s' ds d H Hd) as E.
  apply (f_equal (fun l => l !! k)) in E. rewrite !lookup_tents in E by done. congruence.
Qed.

(** [s'] has the tables of [s] and its counts of the frames in use. *)
Lemma spaces_same s s' ds :
  spaces s ds -> same_tables s s' ds -> wf_mm s' ->
  (forall j c, arr_get (mem_map s) j = Some c -> c <> 0 -> arr_get (mem_map s') j = Some c) -> spaces s' ds.
Proof.
  intros Hsp H Hw Hm. assert (all_ents s' ds = all_ents s ds) as Ha.
  { apply all_ents_ext. intros d Hd. by apply (same_tents s s' ds). }
  constructor.
  - done.
  - apply (sp_nodup s ds Hsp).
  - apply (sp_base s ds Hsp).
  - intros d. rewrite (same_pde s s' ds) by done. apply (sp_pde s ds Hsp).
  - intros d. rewrite (same_pde s s' ds) by done. apply (sp_unused s ds Hsp).
  - intros d Hd. rewrite (same_tab s s' ds) by done. destruct (sp_tab s ds Hsp d Hd) as (t & Et & Ht & Hc).
    exists t. split; [done|]. split; [done|].
    destruct (arr_get_is_Some (mem_map s) t) as [c Hct]; [rewrite (wf_len s (sp_wf s ds Hsp)); lia|].
    rewrite (Hm t c); congruence.
  - intros d d'. rewrite !(same_tab s s' ds) by done. apply (sp_tab_inj s ds Hsp).
  - intros d k Hs. rewrite (same_ent s s' ds) by done. by apply (sp_ent s ds Hsp).
  - intros d k d' i Hs. rewrite (same_ent s s' ds), (same_tab s s' ds) by done. by apply (sp_apart s ds Hsp).
  - intros d k k' i Hs Hs'. rewrite !(same_ent s s' ds) by done. by apply (sp_inj s ds Hsp).
  - intros d k i Hs. rewrite (same_ent s s' ds), Ha by done. intros Hi.
    pose proof (slot_refs_pos s ds d k i Hs Hi). apply Hm; [|lia]. by apply (sp_count s ds Hsp d k).
  - intros d k Hs. rewrite (same_ent s s' ds), Ha by done. by apply (sp_write s ds Hsp).
Qed.

(** Only one slot names the page a writable entry maps. *)
Lemma exclusive_page s ds d k d' k' :
  spaces s ds -> slot ds d k -> slot ds d' k' -> user_rw (ent s d k) = true ->
  page_of (ent s d' k') = page_of (ent s d k) -> d' = d /\ k' = k.
Proof.
  intros Hsp Hs Hs' Hrw Hp. destruct (sp_write s ds Hsp d k Hs Hrw) as (i & Hi & H1).
  pose proof (sp_ent s ds Hsp d k Hs) as He. pose proof (sp_ent s ds Hsp d' k' Hs') as He'.
  rewrite (shared_page (ent s d k) i) in Hp by (done || apply He). pose proof (shared_frame_nonneg _ _ Hi).
  assert (shared_frame (ent s d' k') = Some i) as Hi'.
  { apply page_shared; [apply He'| |done|done]. apply (eo_user _ He'). rewrite Hp.
    unfold frame, PAGE_SIZE, LOW_MEM. lia. }
  destruct (decide (d' = d)) as [->|Hne].
  - split; [done|]. by apply (sp_inj s ds Hsp d k' k i).
  - pose proof (refs_two s ds d d' k k' i (sp_nodup s ds Hsp) Hs Hs' (not_eq_sym Hne) Hi Hi'). lia.
Qed.

Definition poke (s : mm) (x v : Z) : mm := s <| phys := <[x := v]> (phys s) |>.

Lemma poke_step s ds d k o v :
  spaces s ds -> slot ds d k -> offset o -> user_rw (ent s d k) = true ->
  let s' := poke s (page_of (ent s d k) + o) v in
  spaces s' ds /\ (forall d' k' o', slot ds d' k' -> offset o' ->
    word_at s' d' k' o' = if decide (d' = d /\ k' = k /\ o' = o) then Some v else word_at s d' k' o').
Proof.
  intros Hsp Hs Ho Hrw s'. destruct (sp_write s ds Hsp d k Hs Hrw) as (i & Hi & H1).
  pose proof (shared_frame_nonneg _ _ Hi). pose proof (page_of_aligned (ent s d k)) as Ha.
  assert (LOW_MEM ≤ page_of (ent s d k)) as Hlow.
  { erewrite shared_page by (done || apply (sp_ent s ds Hsp d k Hs)). unfold frame, PAGE_SIZE. lia. }
  assert (same_tables s s' ds) as Hsame.
  { intros x Hx. unfold s', poke. cbn [upd phys]. rewrite read_insert. apply decide_False. intros <-.
    destruct Ho as [Ho _]. destruct Hx as [Hx|(d' & Hd' & Hx)]; [unfold LOW_MEM in Hlow; lia|].
    apply in_page_parts in Hx as (o' & [Ho' _] & E); [|apply tab_aligned].
    apply same_page in E as [E _]; [|done|apply tab_aligned|done|done].
    by apply (mapped_apart s ds Hsp d k d'). }
  split; [by apply (spaces_same s); [..|apply wf_set_phys, (sp_wf s ds Hsp)|]|]. intros d' k' o' Hs' Ho'. unfold word_at.
  rewrite (same_ent s s' ds) by done. unfold s', poke. cbn [upd phys]. rewrite read_insert.
  destruct (decide (d' = d /\ k' = k /\ o' = o)) as [(-> & -> & ->)|Hne].
  - rewrite decide_False by (unfold LOW_MEM in Hlow; lia). by rewrite decide_True.
  - rewrite (decide_False (P := _ + o = _)); [done|]. intros E.
    destruct Ho as [Ho _], Ho' as [Ho' _].
    apply same_page in E as [E ->]; [|done|apply page_of_aligned|done|done].
    destruct (exclusive_page s ds d k d' k') as [-> ->]; naive_solver.
Qed.

(** ** One entry changes *)

Section update.
Context (s s' : mm) (ds : list Z) (d : Z) (k : nat) (e' i' : Z).
Context (Hsp : spaces s ds) (Hs : slot ds d k) (Hw : wf_mm s').
Context (Hdir : forall x, x < 4096 -> read_word (phys s') x = read_word (phys s) x).
Context (Htab : forall d' k', slot ds d' k' -> entry (phys s') (tab s d') (Z.of_nat k') =
  if decide (d' = d /\ k' = k) then e' else ent s d' k').
Context (He : entry_ok e') (Hi : shared_frame e' = Some i').
Context (Hap : forall d', d' ∈ ds -> tab s d' <> frame i').
Context (Hfresh : forall d' k', slot ds d' k' -> shared_frame (ent s d' k') = Some i' -> d' = d /\ k' = k).
Context (Hone : refs i' (all_ents s ds) = hits i' (ent s d k)).
Context (Hcnt' : arr_get (mem_map s') i' = Some 1).
Context (Hcnt : forall j c, j <> i' -> arr_get (mem_map s) j = Some c -> c <> 0 ->
  arr_get (mem_map s') j = Some (c - hits j (ent s d k))).

Lemma update_pde d' : pde s' d' = pde s d'.
Proof. apply Hdir, pde_addr_range. Qed.

Lemma update_tab d' : tab s' d' = tab s d'.
Proof. unfold tab. by rewrite update_pde. Qed.

Lemma update_ent d' k' : slot ds d' k' ->
  ent s' d' k' = if decide (d' = d /\ k' = k) then e' else ent s d' k'.
Proof. unfold ent at 1. rewrite update_tab. apply Htab. Qed.

Lemma update_other d' k' : slot ds d' k' -> ~ (d' = d /\ k' = k) -> ent s' d' k' = ent s d' k'.
Proof. intros H Hne. rewrite update_ent by done. by apply decide_False. Qed.

Lemma update_refs i : refs i (all_ents s' ds) = refs i (all_ents s ds) - hits i (ent s d k) + hits i e'.
Proof.
  pose proof (sp_nodup s ds Hsp) as Hn. destruct Hs as [Hd Hk]. apply all_refs_update; [done|done|..].
  - apply entries_eq; [by rewrite length_insert, length_tents|]. intros j Hj.
    change (entry (phys s') (tab s' d) (Z.of_nat j)) with (ent s' d j). rewrite update_ent by done.
    destruct (decide (j = k)) as [->|Hne].
    + rewrite list_lookup_insert_eq by (by rewrite length_tents). by rewrite decide_True.
    + rewrite list_lookup_insert_ne, lookup_tents, decide_False by (congruence || lia || by intros [_ ?]). done.
  - intros d' Hd' Hne. apply entries_eq; [by rewrite length_tents|]. intros j Hj.
    change (entry (phys s') (tab s' d') (Z.of_nat j)) with (ent s' d' j).
    rewrite lookup_tents, update_other by (done || by (intros [? _])). done.
Qed.

Lemma update_spaces : spaces s' ds.
Proof.
  assert (refs i' (all_ents s' ds) = 1) as H1.
  { rewrite update_refs, Hone. unfold hits at 3. rewrite decide_True by done. lia. }
  constructor.
  - exact Hw.
  - apply (sp_nodup s ds Hsp).
  - apply (sp_base s ds Hsp).
  - intros d'. rewrite update_pde. apply (sp_pde s ds Hsp).
  - intros d'. rewrite update_pde. apply (sp_unused s ds Hsp).
  - intros d' Hd'. rewrite update_tab. destruct (sp_tab s ds Hsp d' Hd') as (t & Et & Ht & Hc).
    exists t. split; [done|]. split; [done|]. destruct (arr_get (mem_map s) t) as [c|] eqn:Hct.
    + rewrite (Hcnt t c); [|intros ->; by apply (Hap d')|done|congruence].
      unfold hits. rewrite decide_False; [intros [= ?]; apply Hc; f_equal; lia|]. intros Hf.
      by apply (sp_apart s ds Hsp d k d' t).
    + destruct (wf_lookup s (Z.to_nat t) (sp_wf s ds Hsp)) as [v Hv];
        [rewrite PAGING_PAGES_eq in Ht; lia|]. unfold arr_get in Hct. rewrite decide_True in Hct by lia. congruence.
  - intros d1 d2. rewrite !update_tab. apply (sp_tab_inj s ds Hsp).
  - intros d' k' Hs'. rewrite update_ent by done. case_decide; [done|]. by apply (sp_ent s ds Hsp).
  - intros d' k' d2 i Hs' Hd2. rewrite update_tab, update_ent by done. case_decide.
    + intros Hi2. assert (i = i') as -> by congruence. by apply Hap.
    + by apply (sp_apart s ds Hsp d' k').
  - intros d' k1 k2 i Hs1 Hs2 Hi1 Hi2. destruct (decide (i = i')) as [->|Hne].
    + assert (forall k0, slot ds d' k0 -> shared_frame (ent s' d' k0) = Some i' -> k0 = k) as Hk.
      { intros k0 Hs0. rewrite update_ent by done. case_decide as Hc; [tauto|]. intros H. by apply (Hfresh d' k0). }
      rewrite (Hk k1), (Hk k2) by done. done.
    + assert (forall k0, slot ds d' k0 -> shared_frame (ent s' d' k0) = Some i ->
        shared_frame (ent s d' k0) = Some i) as Hback.
      { intros k0 Hs0. rewrite update_ent by done. case_decide; [congruence|done]. }
      apply (sp_inj s ds Hsp d' k1 k2 i); auto.
  - intros d' k' i Hs'. rewrite update_ent by done. destruct (decide (i = i')) as [->|Hne].
    + intros _. by rewrite Hcnt', H1.
    + case_decide; [congruence|]. intros Hi2. pose proof (slot_refs_pos s ds d' k' i Hs' Hi2).
      rewrite (Hcnt i _ Hne (sp_count s ds Hsp d' k' i Hs' Hi2)) by lia. f_equal.
      rewrite update_refs. unfold hits at 3. rewrite (decide_False (P := shared_frame e' = Some i)) by congruence. lia.
  - intros d' k' Hs' Hrw. rewrite update_ent in * by done. case_decide as Hc; [by exists i'|].
    destruct (sp_write s ds Hsp d' k' Hs' Hrw) as (i & Hi2 & Hr). exists i. split; [done|].
    destruct (decide (i = i')) as [->|Hne]; [done|].
    assert (0 < refs i (all_ents s' ds)).
    { apply (slot_refs_pos s' ds d' k'); [done|]. by rewrite update_other. }
    rewrite update_refs in *. unfold hits in *. rewrite (decide_False (P := shared_frame e' = Some i)) in * by congruence.
    case_decide; lia.
Qed.
End update.

(** ** Free frames *)

Definition is_free (s : mm) (j : nat) : Prop := mem_map s !! j = Some 0.
#[export] Instance is_free_dec s j : Decision (is_free s j).
Proof. unfold is_free. apply _. Defined.
Definition frees (s : mm) : nat := length (filter (is_free s) (seq 0 (Z.to_nat PAGING_PAGES))).

Lemma filter_lose_one (P Q : nat -> Prop) {HP : forall x, Decision (P x)} {HQ : forall x, Decision (Q x)} i l :
  NoDup l -> (forall j, j <> i -> P j -> Q j) -> (length (filter P l) ≤ S (length (filter Q l)))%nat.
Proof.
  intros Hn H. assert (forall l0 : list nat, i ∉ l0 -> (length (filter P l0) ≤ length (filter Q l0))%nat) as Hle.
  { intros l0. induction l0 as [|x l0 IH]; intros Hi; [done|]. apply not_elem_of_cons in Hi as [Hx Hi].
    specialize (IH Hi). rewrite !filter_cons. repeat case_decide; cbn [length]; try lia.
    exfalso; eauto. }
  induction l as [|x l IH]; [by cbn; lia|]. apply list.NoDup_cons in Hn as [Hx Hn].
  destruct (decide (x = i)) as [->|Hne].
  - specialize (Hle l Hx). rewrite !filter_cons. repeat case_decide; cbn [length]; lia.
  - specialize (IH Hn). rewrite !filter_cons. repeat case_decide; cbn [length]; try lia.
    exfalso; eauto.
Qed.

Lemma filter_nonempty (P : nat -> Prop) {HP : forall x, Decision (P x)} n :
  (0 < length (filter P (seq 0 n)))%nat -> exists j, P j /\ (j < n)%nat.
Proof.
  intros Hl. destruct (filter P (seq 0 n)) as [|j l'] eqn:E; [cbn in Hl; lia|]. exists j.
  assert (j ∈ filter P (seq 0 n)) as Hj by (rewrite E; by left).
  apply list_elem_of_filter in Hj as [Hj Hr%elem_of_seq]. split; [done|lia].
Qed.

Lemma frees_lose_one s s' (i : nat) :
  (forall j, j <> i -> is_free s j -> is_free s' j) -> (frees s ≤ S (frees s'))%nat.
Proof. intros H. apply (filter_lose_one _ _ i); [apply NoDup_seq|done]. Qed.

Lemma frees_highest s : wf_mm s -> (0 < frees s)%nat -> exists i, highest_free s i.
Proof.
  intros Hw Hf. destruct (free_page_cases s Hw) as [Hn|H]; [|done]. exfalso. unfold frees in Hf.
  destruct (filter_nonempty (is_free s) _ Hf) as (j & Hj & Hr). apply (Hn (Z.of_nat j)).
  - lia.
  - by rewrite arr_get_nat.
Qed.

(** ** Page faults *)

Lemma page_of_flags p f : p mod 4096 = 0 -> 0 ≤ p < 2 ^ 32 -> 0 ≤ f < 2 ^ 12 -> page_of (Z.lor p f) = p.
Proof.
  intros Hp Hr Hf. assert (p = Z.shiftl (p / 4096) 12) as Ep.
  { rewrite Z.shiftl_mul_pow2 by lia. change (2 ^ 12) with 4096. Z.div_mod_to_equations. lia. }
  assert (0 ≤ p / 4096 < 2 ^ 20) by (Z.div_mod_to_equations; lia). rewrite Ep.
  generalize dependent (p / 4096). intros q _ Hq. unfold page_of. change 0xfffff000 with (mask 12 20). bits.
Qed.

Lemma frame_range i : 0 ≤ i < PAGING_PAGES -> LOW_MEM ≤ frame i < 2 ^ 24.
Proof. rewrite PAGING_PAGES_eq. unfold frame, PAGE_SIZE, LOW_MEM. lia. Qed.

(** The entry that maps frame [i] for user reads and writes. *)
Lemma frame_entry i : 0 ≤ i < PAGING_PAGES ->
  entry_ok (Z.lor (frame i) 7) /\ shared_frame (Z.lor (frame i) 7) = Some i /\
  page_of (Z.lor (frame i) 7) = frame i /\ user_rw (Z.lor (frame i) 7) = true.
Proof.
  intros Hi. pose proof (frame_range i Hi) as Hr. unfold LOW_MEM in Hr. pose proof (frame_aligned i) as Ha.
  assert (page_of (Z.lor (frame i) 7) = frame i) as Hp by (apply page_of_flags; lia).
  assert (user_rw (Z.lor (frame i) 7) = true) as Hrw.
  { unfold user_rw. apply Z.eqb_eq. change 7 with (Z.ones 3). bits. }
  assert (0 ≤ Z.lor (frame i) 7 < 2 ^ 32) as He.
  { assert (Z.land (frame i) 7 = 0) as E.
    { change 7 with (Z.ones 3). rewrite Z.land_ones by lia. change (2 ^ 3) with 8. Z.div_mod_to_equations. lia. }
    rewrite (lor_add _ _ E). lia. }
  assert (shared_frame (Z.lor (frame i) 7) = Some i) as Hs.
  { apply page_shared; [done|by apply user_rw_ok|lia|done]. }
  split; [|done]. constructor; [done| |intros _; by apply user_rw_ok]. intros j. rewrite Hs. intros [= <-]. lia.
Qed.

(** Setting the write bit. *)
Lemma writable_entry e i : entry_ok e -> shared_frame e = Some i ->
  entry_ok (Z.lor e 2) /\ shared_frame (Z.lor e 2) = Some i /\
  page_of (Z.lor e 2) = page_of e /\ user_rw (Z.lor e 2) = true.
Proof.
  intros He Hs. pose proof (shared_frame_nonneg _ _ Hs) as Hi. pose proof (shared_page e i (eo_range e He) Hs) as Hp.
  assert (user_ok e = true) as Hu.
  { apply (eo_user e He). rewrite Hp. unfold frame, PAGE_SIZE, LOW_MEM. lia. }
  pose proof (eo_range e He) as Hr.
  assert (page_of (Z.lor e 2) = page_of e) as Hp2.
  { unfold page_of. change 2 with (mask 1 1). change 0xfffff000 with (mask 12 20). bits. }
  assert (user_rw (Z.lor e 2) = true) as Hrw.
  { unfold user_ok, user_rw in *. apply Z.eqb_eq in Hu. apply Z.eqb_eq. rewrite Z.land_lor_distr_l.
    change (Z.land 2 7) with 2. replace 7 with (Z.lor 5 2) at 1 by done.
    rewrite Z.land_lor_distr_r, Hu. rewrite <-Z.lor_assoc.
    replace (Z.lor (Z.land e 2) 2) with 2; [done|]. change 2 with (mask 1 1). bits. }
  assert (0 ≤ Z.lor e 2 < 2 ^ 32) as He2.
  { assert (Z.lor e 2 = Z.lor e 2 mod 2 ^ 32) as ->; [|by apply Z.mod_pos_bound]. change 2 with (mask 1 1). bits. }
  assert (shared_frame (Z.lor e 2) = Some i) as Hs2.
  { apply page_shared; [done|by apply user_rw_ok|done|congruence]. }
  split; [|done]. constructor; [done| |intros _; by apply user_rw_ok]. intros j. rewrite Hs2. intros [= <-].
  by apply (eo_frame e He).
Qed.

Lemma page_fault_eq c s d k o :
  base d -> (k < 1024)%nat -> offset o ->
  page_fault c (lin d k o) s = un_wp_page (tab s d + 4 * Z.of_nat k) s.
Proof.
  intros Hd Hk Ho. unfold page_fault, do_wp_page. erewrite bind_ok by apply load_eq. cbv zeta.
  rewrite pde_addr_lin by done. change (Z.land (Z.shiftr (lin d k o) 12) 0x3ff) with (page_index (lin d k o)).
  rewrite page_index_lin by done. by rewrite (Z.land_comm _ 0xfffff000).
Qed.

(** [s'] shows every space the words [s] shows. *)
Definition same_words (s s' : mm) (ds : list Z) : Prop := forall d k o,
  slot ds d k -> offset o -> word_at s' d k o = word_at s d k o.

(** A change of the entry of a slot, as seen from the slots. *)
Lemma entry_slot s ds d k d' k' :
  spaces s ds -> slot ds d k -> slot ds d' k' ->
  tab s d' + 4 * Z.of_nat k' = tab s d + 4 * Z.of_nat k -> d' = d /\ k' = k.
Proof.
  intros Hsp [Hd Hk] [Hd' Hk'] E. apply same_page in E as [E1 E2]; try lia; try apply tab_aligned.
  split; [|lia]. by apply (sp_tab_inj s ds Hsp).
Qed.

Lemma te_apart s ds d k p :
  spaces s ds -> slot ds d k -> p mod 4096 = 0 -> p <> tab s d ->
  forall o, offset o -> tab s d + 4 * Z.of_nat k <> p + o.
Proof.
  intros Hsp [Hd Hk] Hp Hne o [Ho _] E. apply same_page in E as [E _]; try lia; apply tab_aligned.
Qed.

Lemma te_above s ds d k : spaces s ds -> slot ds d k -> LOW_MEM ≤ tab s d + 4 * Z.of_nat k.
Proof. intros Hsp [Hd _]. pose proof (tab_range s ds Hsp d Hd). lia. Qed.

(** The fault on a page with one reference. *)
Lemma fault_keep s ds d k i :
  spaces s ds -> slot ds d k -> shared_frame (ent s d k) = Some i -> refs i (all_ents s ds) = 1 ->
  exists s', un_wp_page (tab s d + 4 * Z.of_nat k) s = Ok (s', tt) /\ spaces s' ds /\
    same_words s s' ds /\ user_rw (ent s' d k) = true /\ frees s' = frees s.
Proof.
  intros Hsp Hs Hi H1. set (te := tab s d + 4 * Z.of_nat k). pose proof (sp_wf s ds Hsp) as Hw.
  pose proof (sp_ent s ds Hsp d k Hs) as He. pose proof (shared_page _ i (eo_range _ He) Hi) as Hp.
  pose proof (shared_frame_nonneg _ _ Hi) as Hi0. pose proof (sp_count s ds Hsp d k i Hs Hi) as Hc. rewrite H1 in Hc.
  destruct (writable_entry _ i He Hi) as (He2 & Hi2 & Hp2 & Hrw).
  exists (poke s te (Z.lor (ent s d k) 2)). split.
  { apply un_wp_page_keep; [done| |]; change (read_word (phys s) te) with (ent s d k); rewrite Hp.
    - unfold frame, PAGE_SIZE. lia.
    - unfold MAP_NR, frame, PAGE_SIZE. rewrite Z.shiftr_div_pow2 by lia. change (2 ^ 12) with 4096.
      rewrite <-Hc. f_equal. Z.div_mod_to_equations. lia. }
  set (s' := poke s te (Z.lor (ent s d k) 2)). pose proof (te_above s ds d k Hsp Hs) as Hte. fold te in Hte.
  assert (forall x, read_word (phys s') x = if decide (te = x) then Z.lor (ent s d k) 2 else read_word (phys s) x) as Hx
    by (intros; apply read_insert).
  assert (forall x, x < 4096 -> read_word (phys s') x = read_word (phys s) x) as Hdir.
  { intros x Hlt. rewrite Hx. apply decide_False. unfold LOW_MEM in Hte. lia. }
  assert (forall d' k', slot ds d' k' -> entry (phys s') (tab s d') (Z.of_nat k') =
    if decide (d' = d /\ k' = k) then Z.lor (ent s d k) 2 else ent s d' k') as Htab.
  { intros d' k' Hs'. unfold entry at 1. rewrite Hx. apply decide_ext. split; [|intros [-> ->]; done].
    intros E. by apply (entry_slot s ds d k d' k'). }
  split; [|split; [|split]].
  - apply (update_spaces s s' ds d k (Z.lor (ent s d k) 2) i); try done; [by apply wf_set_phys|..].
    + intros d' Hd'. by apply (sp_apart s ds Hsp d k d' i).
    + intros d' k' Hs' Hi'. destruct (decide (d' = d)) as [->|Hne].
      * split; [done|]. by apply (sp_inj s ds Hsp d k' k i).
      * pose proof (refs_two s ds d' d k' k i (sp_nodup s ds Hsp) Hs' Hs Hne Hi' Hi). lia.
    + unfold hits. by rewrite decide_True.
    + intros j c Hj Hjc _. unfold hits. rewrite decide_False by congruence. rewrite Z.sub_0_r. exact Hjc.
  - intros d' k' o Hs' Ho. unfold word_at. rewrite (update_ent s s' ds d k (Z.lor (ent s d k) 2)) by done.
    assert (page_of (if decide (d' = d /\ k' = k) then Z.lor (ent s d k) 2 else ent s d' k') = page_of (ent s d' k')) as ->.
    { case_decide as Hc'; [|done]. by destruct Hc' as [-> ->]. }
    case_decide as H0; [done|]. rewrite Hx, decide_False; [done|].
    apply (te_apart s ds); [done|done|apply page_of_aligned| |done].
    apply (mapped_apart s ds Hsp d' k' d Hs'). apply Hs.
  - rewrite (update_ent s s' ds d k (Z.lor (ent s d k) 2)) by done. by rewrite decide_True.
  - done.
Qed.

Lemma frame_index i : MAP_NR (frame i) = i.
Proof.
  unfold MAP_NR, frame, PAGE_SIZE. rewrite Z.shiftr_div_pow2 by lia. change (2 ^ 12) with 4096.
  Z.div_mod_to_equations. lia.
Qed.

(** The count of another frame after the copy. *)
Lemma drop_ref_count s e i j c :
  wf_mm s -> entry_ok e -> j <> i -> 0 ≤ i -> arr_get (mem_map s) j = Some c -> c <> 0 ->
  arr_get (drop_ref (page_of e) (<[Z.to_nat i := 1]> (mem_map s))) j = Some (c - hits j e).
Proof.
  intros Hw He Hji Hi Hc Hc0. pose proof (arr_get_Some _ _ _ Hc) as Hj.
  unfold arr_get in *. rewrite decide_True in * by lia. unfold drop_ref, hits.
  assert (<[Z.to_nat i := 1]> (mem_map s) !! Z.to_nat j = Some c) as Hc1.
  { rewrite list_lookup_insert_ne; [done|lia]. }
  assert (0 < c < 256) as Hcr.
  { pose proof (proj1 (list.Forall_forall _ _) (wf_bytes s Hw) c (list_elem_of_lookup_2 _ _ _ Hc)) as Hb. cbn in Hb. lia. }
  destruct (shared_frame e) as [j'|] eqn:Hs.
  - pose proof (shared_frame_nonneg _ _ Hs). rewrite (shared_page e j') by (done || apply He).
    rewrite decide_True by (unfold frame, PAGE_SIZE; lia). rewrite frame_index, list_lookup_alter.
    destruct (decide (j' = j)) as [->|Hne].
    + rewrite !decide_True by done. rewrite Hc1. cbn. by rewrite u8_small by lia.
    + rewrite !decide_False by (congruence || lia). rewrite Hc1. f_equal. lia.
  - pose proof (unshared_low e He Hs). rewrite !decide_False by (done || lia). rewrite Hc1. f_equal. lia.
Qed.

Lemma drop_ref_new s e i :
  wf_mm s -> entry_ok e -> shared_frame e <> Some i -> 0 ≤ i < PAGING_PAGES ->
  arr_get (drop_ref (page_of e) (<[Z.to_nat i := 1]> (mem_map s))) i = Some 1.
Proof.
  intros Hw He Hne Hi. unfold arr_get. rewrite decide_True by lia. unfold drop_ref.
  assert (<[Z.to_nat i := 1]> (mem_map s) !! Z.to_nat i = Some 1) as H1.
  { apply list_lookup_insert_eq. rewrite (wf_len s Hw). lia. }
  destruct (shared_frame e) as [j|] eqn:Hs.
  - pose proof (shared_frame_nonneg _ _ Hs). rewrite (shared_page e j) by (done || apply He).
    rewrite decide_True by (unfold frame, PAGE_SIZE; lia). rewrite frame_index, list_lookup_alter_ne; [done|].
    intros E. apply Hne. f_equal. lia.
  - pose proof (unshared_low e He Hs). by rewrite decide_False by lia.
Qed.

(** Region [d] shows page [old] at [k], and all else is as in [s]. *)
Definition words_with (s s' : mm) (ds : list Z) (d : Z) (k : nat) (old : Z) : Prop := forall d' k' o,
  slot ds d' k' -> offset o ->
  word_at s' d' k' o = if decide (d' = d /\ k' = k) then Some (read_word (phys s) (old + o)) else word_at s d' k' o.

(** The fault on a shared page, or on a page of low memory. *)
Lemma fault_copy s ds d k :
  spaces s ds -> slot ds d k -> user_rw (ent s d k) = false -> (0 < frees s)%nat ->
  (forall i, shared_frame (ent s d k) = Some i -> refs i (all_ents s ds) <> 1) ->
  exists s', un_wp_page (tab s d + 4 * Z.of_nat k) s = Ok (s', tt) /\ spaces s' ds /\
    words_with s s' ds d k (page_of (ent s d k)) /\ user_rw (ent s' d k) = true /\ (frees s ≤ S (frees s'))%nat.
Proof.
  intros Hsp Hs Hro Hf Hshared. set (te := tab s d + 4 * Z.of_nat k). pose proof (sp_wf s ds Hsp) as Hw.
  destruct (frees_highest s Hw Hf) as [i Hi]. pose proof Hi as (Hir & Hi0 & _).
  destruct (free_apart s ds Hsp i (proj1 Hir) Hi0) as [Htabs Hslots].
  pose proof (sp_ent s ds Hsp d k Hs) as He. pose proof (te_above s ds d k Hsp Hs) as Hte. fold te in Hte.
  destruct (frame_entry i Hir) as (He2 & Hi2 & Hp2 & Hrw). pose proof (frame_range i Hir) as Hfr.
  assert (forall o, offset o -> te <> frame i + o) as Hten.
  { apply (te_apart s ds); [done|done|apply frame_aligned|]. apply not_eq_sym, Htabs, Hs. }
  destruct (un_wp_page_copy te s i Hw Hi) as (s' & E & Hw' & Hm & Hv & Hx).
  { change (read_word (phys s) te) with (ent s d k). destruct (shared_frame (ent s d k)) as [j|] eqn:Hj.
    - right. exists (refs j (all_ents s ds)). rewrite (shared_page _ j) by (done || apply He). rewrite frame_index.
      rewrite (sp_count s ds Hsp d k j Hs Hj). pose proof (slot_refs_pos s ds d k j Hs Hj).
      specialize (Hshared j eq_refl). split; [done|lia].
    - left. by apply unshared_low. }
  { intros (o & Ho & Eo)%in_page_parts; [|apply frame_aligned]. by apply (Hten o). }
  change (read_word (phys s) te) with (ent s d k) in *. cbv zeta in *.
  exists s'. split; [exact E|].
  assert (forall x, x < LOW_MEM -> read_word (phys s') x = read_word (phys s) x) as Hlow.
  { intros x Hlt. rewrite Hx by lia. apply decide_False. unfold in_page. lia. }
  assert (forall d' k', slot ds d' k' -> entry (phys s') (tab s d') (Z.of_nat k') =
    if decide (d' = d /\ k' = k) then Z.lor (frame i) 7 else ent s d' k') as Htab.
  { intros d' k' Hs'. unfold entry at 1. case_decide as Hc; [by destruct Hc as [-> ->]|].
    rewrite Hx by (intros Eq; by apply Hc, (entry_slot s ds d k d' k')). apply decide_False.
    intros (o & Ho & Eo)%in_page_parts; [|apply frame_aligned].
    apply (te_apart s ds d' k' (frame i) Hsp Hs' (frame_aligned i)) with o; [|done|done].
    apply not_eq_sym, Htabs, Hs'. }
  assert (forall d' k', slot ds d' k' -> ent s' d' k' =
    if decide (d' = d /\ k' = k) then Z.lor (frame i) 7 else ent s d' k') as Hent.
  { apply (update_ent s s' ds d k); [|done]. intros x Hlt. apply Hlow. unfold LOW_MEM. lia. }
  split; [|split; [|split]].
  - apply (update_spaces s s' ds d k (Z.lor (frame i) 7) i); try done.
    + intros x Hlt. apply Hlow. unfold LOW_MEM. lia.
    + intros d' k' Hs' Hf'. by destruct (Hslots d' k' Hs').
    + unfold hits. rewrite decide_False by (by apply Hslots). apply refs_zero.
      intros e (d' & k' & Hs' & <-)%elem_all_ents. by apply Hslots.
    + rewrite Hm. apply drop_ref_new; [done|done|by apply Hslots|done].
    + intros j c Hj Hc Hc0. rewrite Hm. apply drop_ref_count; [done|done|done|lia|done|done].
  - intros d' k' o Hs' Ho. unfold word_at. rewrite Hent by done.
    destruct (decide (d' = d /\ k' = k)) as [[-> ->]|Hc]; [rewrite Hp2|].
    + rewrite decide_False by (unfold LOW_MEM in Hfr; lia). f_equal. rewrite Hx.
      * rewrite decide_True by (apply in_page_offset; [apply frame_aligned|done]). f_equal. lia.
      * by apply not_eq_sym, Hten.
    + case_decide as H0; [done|]. f_equal. rewrite Hx.
      * apply decide_False. intros (o' & [Ho' _] & Eo)%in_page_parts; [|apply frame_aligned]. destruct Ho as [Ho _].
        apply same_page in Eo as [Eo _]; [|apply page_of_aligned|apply frame_aligned|done|done].
        by apply (proj2 (Hslots d' k' Hs')).
      * apply not_eq_sym, (te_apart s ds); [done|done|apply page_of_aligned| |done].
        apply (mapped_apart s ds Hsp d' k' d Hs'). apply Hs.
  - rewrite Hent by done. by rewrite decide_True.
  - apply (frees_lose_one s s' (Z.to_nat i)). intros j Hj Hfree. unfold is_free in *. rewrite Hm.
    unfold drop_ref. assert (<[Z.to_nat i := 1]> (mem_map s) !! j = Some 0) as Hj0.
    { by rewrite list_lookup_insert_ne by done. }
    case_decide as Hold; [|done]. rewrite list_lookup_alter_ne; [done|]. intros Ej.
    destruct (shared_frame (ent s d k)) as [i0|] eqn:Hi0'.
    + pose proof (sp_count s ds Hsp d k i0 Hs Hi0') as Hc0. pose proof (slot_refs_pos s ds d k i0 Hs Hi0').
      pose proof (shared_frame_nonneg _ _ Hi0'). rewrite (shared_page _ i0) in Ej by (done || apply He).
      rewrite frame_index in Ej. unfold arr_get in Hc0. rewrite decide_True, Ej, Hfree in Hc0 by done.
      injection Hc0. lia.
    + pose proof (unshared_low _ He Hi0'). lia.
Qed.

(** ** User writes *)

Lemma user_write_store s ds d k o v n :
  spaces s ds -> slot ds d k -> offset o -> user_rw (ent s d k) = true ->
  user_write (S n) (lin d k o) v s = Ok (poke s (page_of (ent s d k) + o) v, tt).
Proof.
  intros Hsp [Hd Hk] Ho Hrw. pose proof (sp_base s ds Hsp d Hd) as Hb. cbn [user_write].
  erewrite bind_ok by reflexivity. cbv zeta. rewrite pte_addr_lin, pde_addr_lin, offset_lin by done.
  change (read_word (phys s) (tab s d + 4 * Z.of_nat k)) with (ent s d k).
  change (read_word (phys s) (pde_addr d)) with (pde s d).
  by rewrite (sp_pde s ds Hsp d Hd), Hrw.
Qed.

Section writes.
Context (s : mm) (ds : list Z) (d : Z) (k : nat) (o v : Z).
Context (Hsp : spaces s ds) (Hs : slot ds d k) (Ho : offset o).

Lemma user_write_fault n s' : user_rw (ent s d k) = false ->
  un_wp_page (tab s d + 4 * Z.of_nat k) s = Ok (s', tt) ->
  user_write (S n) (lin d k o) v s = user_write n (lin d k o) v s'.
Proof.
  intros Hrw E. destruct Hs as [Hd Hk]. pose proof (sp_base s ds Hsp d Hd) as Hb. cbn [user_write].
  erewrite bind_ok by reflexivity. cbv zeta. rewrite pte_addr_lin, pde_addr_lin by done.
  change (read_word (phys s) (tab s d + 4 * Z.of_nat k)) with (ent s d k).
  change (read_word (phys s) (pde_addr d)) with (pde s d).
  rewrite Hrw, andb_false_r.
  apply (bind_ok _ (fun _ => user_write n (lin d k o) v) s s' tt). by rewrite page_fault_eq.
Qed.

Lemma user_load_mapped n w : word_at s d k o = Some w -> user_load (S n) (lin d k o) s = Ok (s, w).
Proof.
  intros Hw. cbn [user_load]. erewrite bind_ok by reflexivity. by rewrite (user_read_eq s ds Hsp d k o w).
Qed.

Lemma user_load_fault n s' : user_read s (lin d k o) = None ->
  un_wp_page (tab s d + 4 * Z.of_nat k) s = Ok (s', tt) ->
  user_load (S n) (lin d k o) s = user_load n (lin d k o) s'.
Proof.
  intros Hr E. destruct Hs as [Hd Hk]. pose proof (sp_base s ds Hsp d Hd) as Hb. cbn [user_load].
  erewrite bind_ok by reflexivity. rewrite Hr.
  apply (bind_ok _ (fun _ => user_load n (lin d k o)) s s' tt). by rewrite page_fault_eq.
Qed.

(** The fault where nothing is mapped. *)
Lemma unmapped_settled : ent s d k = 0 -> (0 < frees s)%nat ->
  user_read s (lin d k o) = None /\
  exists s', un_wp_page (tab s d + 4 * Z.of_nat k) s = Ok (s', tt) /\ spaces s' ds /\
    words_with s s' ds d k 0 /\ user_rw (ent s' d k) = true /\ (frees s ≤ S (frees s'))%nat.
Proof.
  intros H0 Hf. split.
  - destruct Hs as [Hd Hk]. pose proof (sp_base s ds Hsp d Hd) as Hb. unfold user_read.
    rewrite pte_addr_lin by done. change (read_word (phys s) (tab s d + 4 * Z.of_nat k)) with (ent s d k).
    rewrite H0. by rewrite andb_false_r.
  - destruct (fault_copy s ds d k Hsp Hs) as (s' & E & H & Hw & Hrw & Hfr); rewrite ?H0; try done.
    rewrite H0 in Hw. by exists s'.
Qed.

(** Any fault on a mapped page is settled. *)
Lemma fault_settled : user_rw (ent s d k) = false -> (0 < frees s)%nat -> page_of (ent s d k) <> 0 ->
  exists s', un_wp_page (tab s d + 4 * Z.of_nat k) s = Ok (s', tt) /\ spaces s' ds /\
    same_words s s' ds /\ user_rw (ent s' d k) = true /\ (frees s ≤ S (frees s'))%nat.
Proof.
  intros Hro Hf Hp. assert ((exists i, shared_frame (ent s d k) = Some i /\ refs i (all_ents s ds) = 1) \/
    forall i, shared_frame (ent s d k) = Some i -> refs i (all_ents s ds) <> 1) as [(i & Hi & H1)|Hn].
  { destruct (shared_frame (ent s d k)) as [i|]; [|by right]. destruct (decide (refs i (all_ents s ds) = 1)) as [H1|H1].
    - left. by exists i.
    - right. by intros j [= <-]. }
  - destruct (fault_keep s ds d k i Hsp Hs Hi H1) as (s' & E & H & Hw & Hrw & Hfr).
    exists s'. split; [exact E|]. split; [done|]. split; [done|]. split; [done|]. lia.
  - destruct (fault_copy s ds d k Hsp Hs Hro Hf) as (s' & E & H & Hw & Hrw & Hfr); [done|].
    exists s'. split; [exact E|]. split; [done|]. split; [|done]. intros d' k' o' Hs' Ho'.
    rewrite Hw by done. case_decide as Hc; [destruct Hc as [-> ->]|done].
    unfold word_at. by rewrite decide_False.
Qed.

Lemma user_write_step : (0 < frees s)%nat -> word_at s d k o <> None ->
  exists s', user_write 2 (lin d k o) v s = Ok (s', tt) /\ spaces s' ds /\ (frees s ≤ S (frees s'))%nat /\
    forall d' k' o', slot ds d' k' -> offset o' ->
      word_at s' d' k' o' = if decide (d' = d /\ k' = k /\ o' = o) then Some v else word_at s d' k' o'.
Proof.
  intros Hf Hmap. destruct (user_rw (ent s d k)) eqn:Hrw.
  - destruct (poke_step s ds d k o v Hsp Hs Ho Hrw) as [Hsp' Hw].
    eexists. split; [by apply (user_write_store s ds)|]. split; [done|]. split; [|done].
    change (frees (poke s (page_of (ent s d k) + o) v)) with (frees s). lia.
  - destruct fault_settled as (s1 & E & Hsp1 & Hsame & Hrw1 & Hfr); [done|done| |].
    { unfold word_at in Hmap. by case_decide. }
    destruct (poke_step s1 ds d k o v Hsp1 Hs Ho Hrw1) as [Hsp' Hw].
    eexists. split; [|split; [exact Hsp'|split; [exact Hfr|]]].
    + rewrite (user_write_fault _ s1) by done. by apply (user_write_store s1 ds).
    + intros d' k' o' Hs' Ho'. rewrite Hw by done. by rewrite Hsame.
Qed.
End writes.

(** ** Duplicating a space *)

Lemma wp_wp e : wp (wp e) = wp e.
Proof. unfold wp. change (Z.lnot 2) with (Z.lnot (mask 1 1)). rewrite <-!Z.ldiff_land. bits. Qed.

Lemma shared_wp e : shared_frame (wp e) = shared_frame e.
Proof.
  unfold shared_frame. rewrite wp_wp. apply decide_ext. split; intros [H0 Hc]; (split; [|done]); intros E.
  - rewrite E, wp_0 in Hc. done.
  - rewrite E in Hc. done.
Qed.

Lemma shared_parent e : shared_frame (parent_entry e) = shared_frame e.
Proof. unfold parent_entry. destruct (shared_frame e) eqn:E; [by rewrite shared_wp|done]. Qed.

Lemma page_of_parent e : page_of (parent_entry e) = page_of e.
Proof. unfold parent_entry. case_match; [apply page_of_wp|done]. Qed.

Lemma user_ok_wp e : user_ok (wp e) = user_ok e.
Proof.
  unfold user_ok, wp. f_equal. rewrite <-Z.land_assoc. change (Z.land (Z.lnot 2) 5) with 5. done.
Qed.

Lemma user_rw_wp e : user_rw (wp e) = false.
Proof.
  unfold user_rw. apply Z.eqb_neq. intros E. apply (f_equal (fun z => Z.testbit z 1)) in E.
  rewrite Z.land_spec, testbit_wp in E. done.
Qed.

Lemma entry_ok_wp e : entry_ok e -> entry_ok (wp e).
Proof.
  intros [Hr Hf Hu]. constructor.
  - assert (wp e = wp e mod 2 ^ 32) as ->; [|by apply Z.mod_pos_bound].
    unfold wp. change (Z.lnot 2) with (Z.lnot (mask 1 1)). rewrite <-Z.ldiff_land. bits.
  - intros i. rewrite shared_wp. apply Hf.
  - rewrite page_of_wp, user_ok_wp. exact Hu.
Qed.

Lemma entry_ok_parent e : entry_ok e -> entry_ok (parent_entry e).
Proof. unfold parent_entry. case_match; [apply entry_ok_wp|done]. Qed.

Lemma refs_ext i l : forall l', length l = length l' ->
  (forall k e e', l !! k = Some e -> l' !! k = Some e' -> shared_frame e = shared_frame e') ->
  refs i l = refs i l'.
Proof.
  induction l as [|e l IH]; intros [|e' l'] Hl H; try done. rewrite !refs_cons, (IH l').
  - by rewrite (H 0%nat e e').
  - by injection Hl.
  - intros k x x' Hx Hx'. by apply (H (S k)).
Qed.

Lemma tents_refs_ext i s s' d d' :
  (forall k, (k < 1024)%nat -> shared_frame (ent s d k) = shared_frame (ent s' d' k)) ->
  refs i (tents s d) = refs i (tents s' d').
Proof.
  intros H. apply refs_ext; [by rewrite !length_tents|]. intros k e e' He He'.
  pose proof (lookup_lt_Some _ _ _ He) as Hk. rewrite length_tents in Hk.
  rewrite lookup_tents in He, He' by done. specialize (H k Hk). congruence.
Qed.

Lemma all_refs_ext i s s' ds :
  (forall d k, slot ds d k -> shared_frame (ent s d k) = shared_frame (ent s' d k)) ->
  refs i (all_ents s ds) = refs i (all_ents s' ds).
Proof.
  induction ds as [|d ds IH]; intros H; [done|]. rewrite !all_ents_cons, !refs_app, IH.
  - f_equal. apply tents_refs_ext. intros k Hk. apply H. split; [by left|done].
  - intros d' k [Hd' Hk]. apply H. split; [by right|done].
Qed.

Lemma tents_refs_absent s d i :
  (forall k, (k < 1024)%nat -> shared_frame (ent s d k) <> Some i) -> refs i (tents s d) = 0.
Proof. intros H. apply refs_zero. intros e (k & Hk & <-)%elem_tents. by apply H. Qed.

Section fork.
Context (s s' : mm) (ds : list Z) (from to i : Z).
Context (Hsp : spaces s ds) (Hfrom : from ∈ ds) (Hto : to ∉ ds) (Hb : base to) (Hroom : (length ds < 255)%nat).
Context (Hi : highest_free s i) (Hw' : wf_mm s').
Context (Hpde_to : pde s' to = Z.lor (frame i) 7).
Context (Htables : forall k : nat, (k < 1024)%nat ->
  entry (phys s') (frame i) (Z.of_nat k) = wp (ent s from k) /\
  entry (phys s') (tab s from) (Z.of_nat k) = parent_entry (ent s from k)).
Context (Hsame : forall x, x <> pde_addr to -> ~ in_page (frame i) x -> ~ in_page (tab s from) x ->
  read_word (phys s') x = read_word (phys s) x).
Context (Hmap : forall j : nat, mem_map s' !! j =
  (fun v => u8 (v + refs (Z.of_nat j) (tents s from))) <$> <[Z.to_nat i := 1]> (mem_map s) !! j).

(** The space whose frames region [d] shows after the copy. *)
Definition src (d : Z) : Z := if decide (d = to) then from else d.
Definition forked_entry (d : Z) (k : nat) : Z :=
  if decide (d = to) then wp (ent s from k)
  else if decide (d = from) then parent_entry (ent s from k) else ent s d k.

Lemma fork_frame : 0 ≤ i < PAGING_PAGES /\ LOW_MEM ≤ frame i < 2 ^ 24 /\
  (forall d, d ∈ ds -> tab s d <> frame i) /\
  (forall d k, slot ds d k -> shared_frame (ent s d k) <> Some i /\ page_of (ent s d k) <> frame i).
Proof.
  destruct Hi as (Hr & H0 & _). split; [done|]. split; [by apply frame_range|].
  by apply (free_apart s ds Hsp i (proj1 Hr)).
Qed.

Lemma src_slot d k : slot (to :: ds) d k -> slot ds (src d) k.
Proof.
  unfold src. intros [Hd Hk]. case_decide as E; [done|]. split; [|done].
  by apply elem_of_cons in Hd as [?|?].
Qed.

Lemma fork_pde d : base d -> d <> to -> pde s' d = pde s d.
Proof.
  intros Hbd Hne. pose proof (pde_addr_range d) as [Hr _]. unfold pde.
  pose proof fork_frame as (_ & Hfr & _). pose proof (tab_range s ds Hsp from Hfrom).
  unfold LOW_MEM in *. apply Hsame; [|unfold in_page; lia|unfold in_page; lia].
  intros E. by apply Hne, pde_addr_inj.
Qed.

Lemma fork_tab_to : tab s' to = frame i.
Proof. unfold tab. rewrite Hpde_to. by apply frame_entry, fork_frame. Qed.

Lemma fork_tab d : d ∈ ds -> tab s' d = tab s d.
Proof.
  intros Hd. unfold tab. rewrite fork_pde; [done|by apply (sp_base s ds Hsp)|]. by intros ->.
Qed.

Lemma fork_ent d k : slot (to :: ds) d k -> ent s' d k = forked_entry d k.
Proof.
  intros [Hd Hk]. unfold forked_entry. destruct (Htables k Hk) as [H1 H2].
  case_decide as E; [subst d; unfold ent at 1; by rewrite fork_tab_to|].
  apply elem_of_cons in Hd as [?|Hd]; [done|]. unfold ent at 1. rewrite (fork_tab d Hd).
  case_decide as E2; [by subst d|]. unfold ent, entry. pose proof fork_frame as (_ & Hfr & Htabs & _).
  apply Hsame.
  - pose proof (pde_addr_range to). pose proof (tab_range s ds Hsp d Hd). unfold LOW_MEM in *. lia.
  - intros (o & Ho & Eo)%in_page_parts; [|apply frame_aligned].
    apply (te_apart s ds d k (frame i) Hsp (conj Hd Hk) (frame_aligned i)) with o; [|done|done].
    by apply not_eq_sym, Htabs.
  - intros (o & Ho & Eo)%in_page_parts; [|apply tab_aligned].
    apply (te_apart s ds d k (tab s from) Hsp (conj Hd Hk) (tab_aligned s from)) with o; [|done|done].
    intros Et. by apply E2, (sp_tab_inj s ds Hsp).
Qed.

Lemma fork_shared d k : slot (to :: ds) d k -> shared_frame (ent s' d k) = shared_frame (ent s (src d) k).
Proof.
  intros Hs. rewrite fork_ent by done. unfold forked_entry, src. case_decide; [apply shared_wp|].
  case_decide as E; [subst d; apply shared_parent|done].
Qed.

Lemma fork_page d k : slot (to :: ds) d k -> page_of (ent s' d k) = page_of (ent s (src d) k).
Proof.
  intros Hs. rewrite fork_ent by done. unfold forked_entry, src. case_decide; [apply page_of_wp|].
  case_decide as E; [subst d; apply page_of_parent|done].
Qed.

Lemma fork_refs j : refs j (all_ents s' (to :: ds)) = refs j (all_ents s ds) + refs j (tents s from).
Proof.
  rewrite all_ents_cons, refs_app. rewrite (tents_refs_ext j s' s to from).
  - rewrite (all_refs_ext j s' s ds); [lia|]. intros d k [Hd Hk].
    rewrite fork_shared by (split; [by right|done]). unfold src. by rewrite decide_False by (by intros ->).
  - intros k Hk. rewrite fork_shared by (split; [by left|done]). unfold src. by rewrite decide_True.
Qed.

Lemma fork_count j c : j <> i -> arr_get (mem_map s) j = Some c -> c + refs j (tents s from) < 256 ->
  arr_get (mem_map s') j = Some (c + refs j (tents s from)).
Proof.
  intros Hj Hc Hlt. pose proof (arr_get_Some _ _ _ Hc) as Hr. pose proof fork_frame as (Hir & _).
  unfold arr_get in *. rewrite decide_True in * by lia. rewrite Hmap, list_lookup_insert_ne, Hc by lia. cbn.
  rewrite Z2Nat.id by lia. f_equal. apply u8_small. pose proof (refs_nonneg j (tents s from)).
  pose proof (proj1 (list.Forall_forall _ _) (wf_bytes s (sp_wf s ds Hsp)) c (list_elem_of_lookup_2 _ _ _ Hc)) as Hb0.
  cbn in Hb0. lia.
Qed.

Lemma fork_new_count : arr_get (mem_map s') i = Some 1.
Proof.
  pose proof fork_frame as (Hir & _ & _ & Hslots). unfold arr_get. rewrite decide_True by lia.
  rewrite Hmap, list_lookup_insert_eq by (rewrite (wf_len s (sp_wf s ds Hsp)); lia). cbn.
  rewrite Z2Nat.id by lia. rewrite tents_refs_absent; [done|]. intros k Hk. by apply Hslots.
Qed.

Lemma fork_refs_absent d : d ∈ ds -> forall t, tab s d = frame t -> refs t (tents s from) = 0.
Proof.
  intros Hd t Ht. apply tents_refs_absent. intros k Hk E.
  by apply (sp_apart s ds Hsp from k d t (conj Hfrom Hk) Hd E).
Qed.

Lemma fork_entry_ok d k : slot (to :: ds) d k -> entry_ok (ent s' d k).
Proof.
  intros Hs. pose proof (sp_ent s ds Hsp _ _ (src_slot d k Hs)) as He. rewrite fork_ent by done.
  unfold forked_entry, src in *. case_decide; [by apply entry_ok_wp|].
  case_decide as E; [subst d; by apply entry_ok_parent|done].
Qed.

(** What stays writable belongs to a region that was not duplicated. *)
Lemma fork_write d k : slot (to :: ds) d k -> user_rw (ent s' d k) = true ->
  exists j, shared_frame (ent s' d k) = Some j /\ refs j (all_ents s' (to :: ds)) = 1.
Proof.
  intros Hs Hrw. pose proof (src_slot d k Hs) as Hss. rewrite fork_shared by done. rewrite fork_ent in Hrw by done.
  unfold forked_entry, src in *. case_decide as E1; [by rewrite user_rw_wp in Hrw|].
  case_decide as E2.
  { subst d. exfalso. unfold parent_entry in Hrw. destruct (shared_frame (ent s from k)) eqn:Ei; [by rewrite user_rw_wp in Hrw|].
    destruct (sp_write s ds Hsp from k Hss Hrw) as (j & Hj & _). congruence. }
  destruct (sp_write s ds Hsp d k Hss Hrw) as (j & Hj & H1). exists j. split; [done|]. rewrite fork_refs, H1.
  rewrite tents_refs_absent; [lia|]. intros k' Hk' Hj'.
  pose proof (refs_two s ds d from k k' j (sp_nodup s ds Hsp) Hss (conj Hfrom Hk') E2 Hj Hj'). lia.
Qed.

Lemma fork_spaces : spaces s' (to :: ds).
Proof.
  pose proof fork_frame as (Hir & Hfr & Htabs & Hslots).
  assert (forall d, d ∈ to :: ds -> d = to \/ d ∈ ds /\ d <> to) as Hcase.
  { intros d [->|Hd]%elem_of_cons; [by left|]. right. split; [done|]. by intros ->. }
  constructor.
  - exact Hw'.
  - apply list.NoDup_cons. split; [done|apply (sp_nodup s ds Hsp)].
  - intros d [->|[Hd _]]%Hcase; [done|by apply (sp_base s ds Hsp)].
  - intros d [->|[Hd Hne]]%Hcase; [rewrite Hpde_to; by apply frame_entry|].
    rewrite fork_pde by (by apply (sp_base s ds Hsp) || done). by apply (sp_pde s ds Hsp).
  - intros d Hbd [Hne Hd]%not_elem_of_cons. rewrite fork_pde by done. by apply (sp_unused s ds Hsp).
  - intros d [->|[Hd _]]%Hcase.
    + exists i. rewrite fork_tab_to, fork_new_count. split; [done|]. by split.
    + rewrite fork_tab by done. destruct (sp_tab s ds Hsp d Hd) as (t & Et & Ht & Hc).
      exists t. split; [done|]. split; [done|].
      destruct (arr_get_is_Some (mem_map s) t) as [c Hct]; [rewrite (wf_len s (sp_wf s ds Hsp)); lia|].
      assert (t <> i) by (intros ->; by apply (Htabs d)).
      pose proof (proj1 (list.Forall_forall _ _) (wf_bytes s (sp_wf s ds Hsp)) c) as Hcb. cbn in Hcb.
      unfold arr_get in Hct. rewrite decide_True in Hct by lia. specialize (Hcb (list_elem_of_lookup_2 _ _ _ Hct)).
      assert (arr_get (mem_map s) t = Some c) as Hct2 by (unfold arr_get; by rewrite decide_True by lia).
      pose proof (fork_refs_absent d Hd t Et) as H0.
      rewrite (fork_count t c) by (done || lia). rewrite H0, Z.add_0_r. congruence.
  - intros d d' [->|[Hd Hne]]%Hcase [->|[Hd' Hne']]%Hcase; rewrite ?fork_tab_to, ?fork_tab by done; intros E; try done.
    + by destruct (Htabs d' Hd').
    + by destruct (Htabs d Hd).
    + by apply (sp_tab_inj s ds Hsp).
  - apply fork_entry_ok.
  - intros d k d' j Hs [->|[Hd' _]]%Hcase; rewrite fork_shared by done; intros Hj.
    + rewrite fork_tab_to. intros E. pose proof (src_slot d k Hs) as Hss. apply (proj1 (Hslots _ _ Hss)).
      unfold frame, PAGE_SIZE in E. assert (i = j) as -> by lia. done.
    + rewrite fork_tab by done. by apply (sp_apart s ds Hsp (src d) k d' j (src_slot d k Hs)).
  - intros d k k' j Hs Hs'. rewrite !fork_shared by done. by apply (sp_inj s ds Hsp); apply src_slot.
  - intros d k j Hs. rewrite fork_shared by done. intros Hj. pose proof (src_slot d k Hs) as Hss.
    rewrite fork_refs. apply fork_count.
    + intros ->. by apply (proj1 (Hslots _ _ Hss)).
    + by apply (sp_count s ds Hsp (src d) k).
    + pose proof (refs_regions s ds j Hsp). pose proof (tents_refs_le s ds from j Hsp Hfrom). lia.
  - apply fork_write.
Qed.

Lemma fork_words d k o : slot (to :: ds) d k -> offset o -> word_at s' d k o = word_at s (src d) k o.
Proof.
  intros Hs Ho. pose proof (src_slot d k Hs) as Hss. unfold word_at. rewrite fork_page by done.
  case_decide as H0; [done|]. f_equal. pose proof (page_above _ H0) as Ha.
  pose proof fork_frame as (_ & _ & _ & Hslots). destruct Ho as [Ho _]. apply Hsame.
  - pose proof (pde_addr_range to). lia.
  - intros (o' & [Ho' _] & E)%in_page_parts; [|apply frame_aligned].
    apply same_page in E as [E _]; [|apply page_of_aligned|apply frame_aligned|done|done].
    by apply (proj2 (Hslots _ _ Hss)).
  - intros (o' & [Ho' _] & E)%in_page_parts; [|apply tab_aligned].
    apply same_page in E as [E _]; [|apply page_of_aligned|apply tab_aligned|done|done].
    by apply (mapped_apart s ds Hsp (src d) k from).
Qed.

Lemma fork_frees : (frees s ≤ S (frees s'))%nat.
Proof.
  pose proof fork_frame as (Hir & _). apply (frees_lose_one s s' (Z.to_nat i)). intros j Hj Hf.
  unfold is_free in *. rewrite Hmap, list_lookup_insert_ne, Hf by done. cbn.
  destruct (free_apart s ds Hsp (Z.of_nat j)) as [_ H]; [lia|by rewrite arr_get_nat|].
  rewrite tents_refs_absent; [done|]. intros k Hk. by apply H.
Qed.
End fork.

Lemma base_aligned d : base d -> Z.land d 0x3fffff = 0.
Proof. intros [_ H]. change 0x3fffff with (Z.ones 22). by rewrite Z.land_ones. Qed.

Lemma fork_step s ds from to size :
  spaces s ds -> from ∈ ds -> to ∉ ds -> base to -> (length ds < 255)%nat -> 0 < size ≤ 0x400000 ->
  (0 < frees s)%nat ->
  exists s', copy_page_tables from to size s = Ok (s', 0) /\ spaces s' (to :: ds) /\ (frees s ≤ S (frees s'))%nat /\
    (forall d k o, slot (to :: ds) d k -> offset o -> word_at s' d k o = word_at s (src from to d) k o) /\
    forall k, (k < 1024)%nat -> user_rw (ent s' to k) = false.
Proof.
  intros Hsp Hfrom Hto Hb Hroom Hsize Hf. destruct (frees_highest s (sp_wf s ds Hsp) Hf) as [i Hi].
  pose proof (sp_base s ds Hsp from Hfrom) as Hbf.
  assert (nr_entries from = 1024%nat) as Hnr by (unfold nr_entries; apply decide_False; destruct Hbf; lia).
  pose proof (fork_frame s ds i Hsp Hi) as (Hir & Hfr & Htabs & Hslots).
  destruct (copy_page_tables_spec from to size s i) as (s' & E & Hw' & Hd & Ht & Hx & Hm);
    rewrite ?Hnr in *; try done; try by apply base_aligned.
  - apply (sp_wf s ds Hsp).
  - by apply (sp_unused s ds Hsp).
  - pose proof (user_rw_ok _ (sp_pde s ds Hsp from Hfrom)) as Hu. unfold user_ok, pde in Hu. intros E0.
    apply Z.eqb_eq in Hu. apply (f_equal (Z.land 1)) in Hu. rewrite (Z.land_comm _ 5), Z.land_assoc in Hu.
    change (Z.land 1 5) with 1 in Hu. by rewrite E0 in Hu.
  - change (4096 ≤ tab s from). pose proof (tab_range s ds Hsp from Hfrom). unfold LOW_MEM in *. lia.
  - change (tab s from <> frame i). by apply Htabs.
  - apply list.Forall_forall. change (entries (phys s) _ 1024) with (tents s from).
    intros e (k & Hk & <-)%elem_tents. apply (sp_ent s ds Hsp from k (conj Hfrom Hk)).
  - assert (forall k : nat, (k < 1024)%nat ->
      entry (phys s') (frame i) (Z.of_nat k) = wp (ent s from k) /\
      entry (phys s') (tab s from) (Z.of_nat k) = parent_entry (ent s from k)) as Ht'.
    { intros k Hk. destruct (Ht k Hk) as [H1 H2]. rewrite decide_True in H1, H2 by done. by split. }
    exists s'. split; [exact E|]. split; [|split; [|split]].
    + by apply (fork_spaces s s' ds from to i).
    + by apply (fork_frees s s' ds from i).
    + intros d k o Hs Ho. by apply (fork_words s s' ds from to i).
    + intros k Hk. rewrite (fork_ent s s' ds from to i) by (done || by split; [left|]).
      unfold forked_entry. rewrite decide_True by done. apply user_rw_wp.
Qed.

(** ** Separate memories *)

(** The words of each region; [None] where nothing is mapped. *)
Definition amem : Type := Z -> nat -> Z -> option Z.

Inductive user_op :=
| Read (d : Z) (k : nat) (o : Z)
| Write (d : Z) (k : nat) (o v : Z)
| Fork (from to size : Z).

Definition set_word (m : amem) (d : Z) (k : nat) (o v : Z) : amem := fun d' k' o' =>
  if decide (d' = d /\ k' = k /\ o' = o) then Some v else m d' k' o'.
Definition copy_space (m : amem) (from to : Z) : amem := fun d => m (src from to d).

(** The specification: a read gives the word of its region, a write touches
    one word of one region, a fork makes a new region with the words of
    another. *)
Definition astep (op : user_op) (a : list Z * amem) : option ((list Z * amem) * Z) :=
  match op with
  | Read d k o =>
      guard (d ∈ a.1 /\ (k < 1024)%nat /\ offset o);; w ← a.2 d k o; Some (a, w)
  | Write d k o v =>
      guard (d ∈ a.1 /\ (k < 1024)%nat /\ offset o /\ a.2 d k o <> None);;
      Some ((a.1, set_word a.2 d k o v), 0)
  | Fork from to size =>
      guard (from ∈ a.1 /\ to ∉ a.1 /\ base to /\ (length a.1 < 255)%nat /\ 0 < size ≤ 0x400000);;
      Some ((to :: a.1, copy_space a.2 from to), 0)
  end.

Fixpoint arun (ops : list user_op) (a : list Z * amem) : option ((list Z * amem) * list Z) :=
  match ops with
  | [] => Some (a, [])
  | op :: ops => '(a, r) ← astep op a; '(a, rs) ← arun ops a; Some (a, r :: rs)
  end.

(** The implementation; two rounds let each access fault once. *)
Definition cstep (op : user_op) : M mm Z :=
  match op with
  | Read d k o => user_load 2 (lin d k o)
  | Write d k o v => user_write 2 (lin d k o) v;; mret 0
  | Fork from to size => copy_page_tables from to size
  end.

Fixpoint crun (ops : list user_op) : M mm (list Z) :=
  match ops with
  | [] => mret []
  | op :: ops => r ← cstep op; rs ← crun ops; mret (r :: rs)
  end.

Definition agree (s : mm) (a : list Z * amem) : Prop :=
  spaces s a.1 /\ forall d k o, slot a.1 d k -> offset o -> word_at s d k o = a.2 d k o.

Lemma astep_refines op s a a' r :
  agree s a -> astep op a = Some (a', r) -> (0 < frees s)%nat ->
  exists s', cstep op s = Ok (s', r) /\ agree s' a' /\ (frees s ≤ S (frees s'))%nat.
Proof.
  destruct a as [ds m]. intros [Hsp Hw] Ha Hf. cbn [fst snd] in *.
  destruct op as [d k o|d k o v|from to size]; cbn [astep fst snd] in Ha; apply bind_Some in Ha as (Hg & _ & Ha).
  - destruct Hg as (Hd & Hk & Ho). apply bind_Some in Ha as (w & Hm & [= <- <-]).
    exists s. split; [|split; [done|lia]]. apply (user_load_mapped s ds); [done|done|done|].
    by rewrite Hw.
  - injection Ha as <- <-. destruct Hg as (Hd & Hk & Ho & Hm). assert (slot ds d k) as Hs by by split.
    destruct (user_write_step s ds d k o v Hsp Hs Ho Hf) as (s' & E & Hsp' & Hfr & Hw'); [by rewrite Hw|].
    exists s'. split; [unfold cstep; by rewrite (bind_ok _ _ _ _ _ E)|]. split; [|done]. split; [done|].
    intros d' k' o' Hs' Ho'. rewrite Hw' by done. unfold set_word. cbn [snd]. case_decide; [done|by apply Hw].
  - injection Ha as <- <-. destruct Hg as (Hfrom & Hto & Hb & Hroom & Hsize).
    destruct (fork_step s ds from to size Hsp Hfrom Hto Hb Hroom Hsize Hf) as (s' & E & Hsp' & Hfr & Hw' & _).
    exists s'. split; [exact E|]. split; [|done]. split; [done|]. intros d k o Hs Ho. cbn [fst snd] in *.
    rewrite Hw' by done. unfold copy_space. apply Hw; [|done]. by apply (src_slot ds from to).
Qed.

Lemma crun_agree ops : forall s a a' rs,
  agree s a -> arun ops a = Some (a', rs) -> (length ops ≤ frees s)%nat ->
  exists s', crun ops s = Ok (s', rs) /\ agree s' a' /\ (frees s ≤ frees s' + length ops)%nat.
Proof.
  induction ops as [|op ops IH]; intros s a a' rs Hs Ha Hf; cbn [arun crun length] in *.
  - injection Ha as <- <-. exists s. split; [done|]. split; [done|lia].
  - apply bind_Some in Ha as ([a1 r] & Ha1 & ([a2 rs'] & Ha & [= <- <-])%bind_Some).
    destruct (astep_refines op s a a1 r Hs Ha1) as (s1 & E1 & Hs1 & Hf1); [lia|].
    destruct (IH s1 a1 a2 rs' Hs1 Ha) as (s' & E & Hs' & Hf'); [lia|]. exists s'. split; [|split; [done|lia]].
    rewrite (bind_ok _ _ _ _ _ E1), (bind_ok _ _ _ _ _ E). done.
Qed.

(** C5.  Copy-on-write refines separate memories: any sequence of user reads,
    user writes and duplications that the specification allows runs to the end
    as long as there are as many free frames as operations, every access being
    granted after at most one fault; reads give the words of the specification,
    in which each region is a memory of its own, every [copy_page_tables] returns
    0, and the final states agree. *)
Theorem cow_refines ops s a a' rs :
  agree s a -> arun ops a = Some (a', rs) -> (length ops ≤ frees s)%nat ->
  exists s', crun ops s = Ok (s', rs) /\ agree s' a' /\ (frees s ≤ frees s' + length ops)%nat.
Proof. exact (crun_agree ops s a a' rs). Qed.

(** C31.  [page_fault] never looks at its error code, so an access where nothing
    is mapped is no error: [do_wp_page] takes the empty entry for a shared page 0.
    A user read of an address whose entry is 0 succeeds and gives the word of the
    page directory at that offset, and the page becomes a writable private copy
    of the directory. *)
Theorem unmapped_read s ds d k o :
  spaces s ds -> slot ds d k -> offset o -> ent s d k = 0 -> (0 < frees s)%nat ->
  exists s', user_load 2 (lin d k o) s = Ok (s', read_word (phys s) o) /\ spaces s' ds /\
    words_with s s' ds d k 0 /\ user_rw (ent s' d k) = true.
Proof.
  intros Hsp Hs Ho H0 Hf. destruct (unmapped_settled s ds d k o Hsp Hs Ho H0 Hf) as (Hr & s' & E & Hsp' & Hw & Hrw & _).
  exists s'. split; [|done]. rewrite (user_load_fault s ds d k o Hsp Hs Ho 1 s') by done.
  apply (user_load_mapped s' ds); [done..|]. rewrite Hw by done. by rewrite decide_True.
Qed.

(** ** The first fork

    Task 0 runs in the region at 0, whose table boot/head.s made an identity map;
    the first [fork] copies the 160 entries of low memory. *)

Record kernel_tables (s : mm) : Prop := {
  kt_wf : wf_mm s;
  kt_pde : read_word (phys s) 0 = 0x1007;
  kt_entry : forall k : nat, (k < 1024)%nat -> entry (phys s) 0x1000 (Z.of_nat k) = 4096 * Z.of_nat k + 7;
  kt_unused : forall d, base d -> Z.land 1 (pde s d) = 0
}.

(** What the first user region shows: low memory above the directory. *)
Definition boot_words (s : mm) : amem := fun _ k o =>
  if decide (0 < k < 160)%nat then Some (read_word (phys s) (4096 * Z.of_nat k + o)) else None.

Lemma low_entry (k : nat) : (k < 160)%nat ->
  let e := 4096 * Z.of_nat k + 7 in
  shared_frame e = None /\ page_of e = 4096 * Z.of_nat k /\ user_ok e = true /\ 0 ≤ wp e < 2 ^ 32.
Proof.
  assert (forallb (fun k : nat => let e := 4096 * Z.of_nat k + 7 in
    bool_decide (shared_frame e = None /\ page_of e = 4096 * Z.of_nat k /\ user_ok e = true /\ 0 ≤ wp e < 2 ^ 32))
    (seq 0 160) = true) as H by (vm_compute; reflexivity).
  intros Hk. rewrite forallb_forall in H. specialize (H k (proj2 (in_seq 160 0 k) ltac:(lia))).
  cbv zeta in *. exact (bool_decide_eq_true_1 _ H).
Qed.

Section first_fork.
Context (s s' : mm) (to i : Z) (Hk : kernel_tables s) (Hb : base to) (Hi : highest_free s i) (Hw' : wf_mm s').
Context (Hpde_to : read_word (phys s') (pde_addr to) = Z.lor (frame i) 7).
Context (Htables : forall k : nat, (k < 1024)%nat ->
  entry (phys s') (frame i) (Z.of_nat k) = (if decide (k < 160)%nat then wp (entry (phys s) 0x1000 (Z.of_nat k)) else 0) /\
  entry (phys s') 0x1000 (Z.of_nat k) =
    (if decide (k < 160)%nat then parent_entry (entry (phys s) 0x1000 (Z.of_nat k)) else entry (phys s) 0x1000 (Z.of_nat k))).
Context (Hsame : forall x, x <> pde_addr to -> ~ in_page (frame i) x -> ~ in_page 0x1000 x ->
  read_word (phys s') x = read_word (phys s) x).
Context (Hmap : forall j : nat, mem_map s' !! j =
  (fun v => u8 (v + refs (Z.of_nat j) (entries (phys s) 0x1000 160))) <$> <[Z.to_nat i := 1]> (mem_map s) !! j).

Lemma first_range : 0 ≤ i < PAGING_PAGES /\ 0x100000 ≤ frame i < 2 ^ 24.
Proof. destruct Hi as (Hr & _). split; [done|]. by apply frame_range. Qed.

Lemma first_refs j : refs j (entries (phys s) 0x1000 160) = 0.
Proof.
  apply refs_zero. intros e [k Hl]%list_elem_of_lookup. pose proof (lookup_lt_Some _ _ _ Hl) as Hlt.
  rewrite length_entries in Hlt. rewrite lookup_entries, (kt_entry s Hk) in Hl by lia. injection Hl as <-.
  destruct (low_entry k Hlt) as [E _]. by rewrite E.
Qed.

Lemma first_tab : tab s' to = frame i.
Proof. unfold tab, pde. rewrite Hpde_to. by apply frame_entry, first_range. Qed.

Lemma first_ent k : (k < 1024)%nat ->
  ent s' to k = if decide (k < 160)%nat then wp (4096 * Z.of_nat k + 7) else 0.
Proof.
  intros Hlt. unfold ent. rewrite first_tab. destruct (Htables k Hlt) as [-> _].
  case_decide; [|done]. by rewrite (kt_entry s Hk).
Qed.

Lemma first_unshared k : (k < 1024)%nat -> shared_frame (ent s' to k) = None.
Proof.
  intros Hlt. rewrite first_ent by done. case_decide as Hc; [|done]. rewrite shared_wp. by apply low_entry.
Qed.

Lemma first_read x : 4096 ≤ x < 0x100000 -> x mod 4 = 0 -> read_word (phys s') x = read_word (phys s) x.
Proof.
  intros Hx Hx4. pose proof (pde_addr_range to). pose proof first_range as [_ Hf].
  destruct (decide (in_page 0x1000 x)) as [(Hr & _)|Hn]; [|apply Hsame; [lia|unfold in_page; lia|done]].
  unfold PAGE_SIZE in Hr. pose (k := Z.to_nat ((x - 0x1000) / 4)).
  assert (x = 0x1000 + 4 * Z.of_nat k) as Ex by (unfold k; Z.div_mod_to_equations; lia).
  assert (k < 1024)%nat as Hlt by lia. destruct (Htables k Hlt) as [_ Ht]. unfold entry in Ht. rewrite <-Ex in Ht.
  rewrite Ht. case_decide as Hc; [|done]. pose proof (kt_entry s Hk k Hlt) as He. unfold entry in He. rewrite <-Ex in He.
  rewrite He. unfold parent_entry. destruct (low_entry k Hc) as [E _]. by rewrite E.
Qed.

Lemma first_spaces : spaces s' [to].
Proof.
  pose proof first_range as [Hir Hfr].
  assert (forall d, d ∈ [to] -> d = to) as H1 by (intros d; apply list_elem_of_singleton).
  constructor.
  - exact Hw'.
  - apply NoDup_singleton.
  - by intros d ->%H1.
  - intros d ->%H1. unfold pde. rewrite Hpde_to. by apply frame_entry.
  - intros d Hbd Hd. unfold pde. pose proof (pde_addr_range d). pose proof (pde_addr_range to).
    rewrite Hsame; [by apply (kt_unused s Hk)| |unfold in_page; lia|unfold in_page; lia].
    intros E. apply Hd. apply list_elem_of_singleton. by apply pde_addr_inj.
  - intros d ->%H1. exists i. split; [apply first_tab|]. split; [done|]. unfold arr_get. rewrite decide_True by lia.
    rewrite Hmap, first_refs, list_lookup_insert_eq by (rewrite (wf_len s (kt_wf s Hk)); lia). done.
  - by intros d d' ->%H1 ->%H1.
  - intros d k [->%H1 Hlt]. constructor.
    + rewrite first_ent by done. case_decide as Hc; [by apply low_entry|lia].
    + intros j. by rewrite first_unshared.
    + rewrite first_ent by done. case_decide as Hc; [|done]. rewrite page_of_wp, user_ok_wp. intros _. by apply low_entry.
  - intros d k d' j [->%H1 Hlt] _. by rewrite first_unshared.
  - intros d k k' j [->%H1 Hlt] _. by rewrite first_unshared.
  - intros d k j [->%H1 Hlt]. by rewrite first_unshared.
  - intros d k [->%H1 Hlt]. rewrite first_ent by done. case_decide; [by rewrite user_rw_wp|done].
Qed.

Lemma first_words k o : (k < 1024)%nat -> offset o -> word_at s' to k o = boot_words s to k o.
Proof.
  intros Hlt [Ho Ho4]. unfold word_at, boot_words. rewrite first_ent by done.
  destruct (decide (k < 160)%nat) as [Hc|Hc]; [|by rewrite decide_True, decide_False by (done || lia)].
  rewrite page_of_wp. destruct (low_entry k Hc) as (_ & -> & _).
  destruct (decide (0 < k < 160)%nat) as [H0|H0]; [rewrite decide_False by lia|by rewrite decide_True by lia].
  f_equal. apply first_read; [lia|]. Z.div_mod_to_equations. lia.
Qed.

Lemma first_frees : (frees s ≤ S (frees s'))%nat.
Proof.
  apply (frees_lose_one s s' (Z.to_nat i)). intros j Hj Hf. unfold is_free in *.
  by rewrite Hmap, first_refs, list_lookup_insert_ne, Hf by done.
Qed.
End first_fork.

Lemma first_fork_agree s to size :
  kernel_tables s -> base to -> 0 < size ≤ 0x400000 -> (0 < frees s)%nat ->
  exists s', copy_page_tables 0 to size s = Ok (s', 0) /\ agree s' ([to], boot_words s) /\ (frees s ≤ S (frees s'))%nat /\
    (forall k, (160 ≤ k < 1024)%nat -> ent s' to k = 0) /\
    forall k, (k < 1024)%nat -> user_rw (ent s' to k) = false.
Proof.
  intros Hk Hb Hsize Hf. pose proof (kt_wf s Hk) as Hw. destruct (frees_highest s Hw Hf) as [i Hi].
  pose proof (first_range s i Hi) as [Hir Hfr].
  destruct (copy_page_tables_spec 0 to size s i Hw Hi) as (s' & E & Hw' & Hd & Ht & Hx & Hm);
    change (nr_entries 0) with 160%nat in *; change (pde_addr 0) with 0 in *; rewrite ?(kt_pde s Hk) in *;
    change (page_of 0x1007) with 0x1000 in *; try done; try lia.
  - by apply base_aligned.
  - by apply (kt_unused s Hk).
  - apply list.Forall_forall. intros e [k Hl]%list_elem_of_lookup. pose proof (lookup_lt_Some _ _ _ Hl) as Hlt.
    rewrite length_entries in Hlt. rewrite lookup_entries, (kt_entry s Hk) in Hl by lia. injection Hl as <-.
    destruct (low_entry k Hlt) as [E _]. by rewrite E.
  - exists s'. split; [exact E|].
    split; [split|split; [by apply (first_frees s s' i)|split]].
    + by apply (first_spaces s s' to i).
    + intros d k o [Hd' Hlt] Ho. apply list_elem_of_singleton in Hd' as ->. by apply (first_words s s' to i).
    + intros k Hlt. rewrite (first_ent s s' to i) by (done || lia). by rewrite decide_False by lia.
    + intros k Hlt. rewrite (first_ent s s' to i) by done. case_decide; [apply user_rw_wp|done].
Qed.

(** Starting from the tables that boot/head.s leaves, the first
    duplication sets the stage for [cow_refines]: it returns 0, and the new region
    satisfies the invariant and shows the words of low memory (but the page
    directory) read-only, without counting any frame of low memory; the entries
    beyond are empty. *)
Theorem first_fork s to size :
  kernel_tables s -> base to -> 0 < size ≤ 0x400000 -> (0 < frees s)%nat ->
  exists s', copy_page_tables 0 to size s = Ok (s', 0) /\ agree s' ([to], boot_words s) /\ (frees s ≤ S (frees s'))%nat /\
    (forall k, (160 ≤ k < 1024)%nat -> ent s' to k = 0) /\
    forall k, (k < 1024)%nat -> user_rw (ent s' to k) = false.
Proof. exact (first_fork_agree s to size). Qed.

(** ** Witnesses

    The identity map of boot/head.s for 4 MB, a word of the directory and one of
    low memory; all frames from 4 MB on free. *)
Definition ident_phys : gmap Z Z :=
  <[0x5010 := 11]> (<[0 := 0x1007]> (list_to_map
    (map (fun k : nat => (0x1000 + 4 * Z.of_nat k, 4096 * Z.of_nat k + 7)) (seq 0 1024)))).
Definition ident_mm : mm := boot_mm ident_phys [].

Lemma ident_tables : kernel_tables ident_mm.
Proof.
  constructor.
  - wf_concrete.
  - vm_compute. reflexivity.
  - assert (forallb (fun k : nat => entry (phys ident_mm) 0x1000 (Z.of_nat k) =? 4096 * Z.of_nat k + 7) (seq 0 1024) = true)
      as H by (vm_compute; reflexivity).
    intros k Hk. rewrite forallb_forall in H. specialize (H k (proj2 (in_seq 1024 0 k) ltac:(lia))).
    by apply Z.eqb_eq.
  - assert (forallb (fun q : nat => Z.land 1 (read_word (phys ident_mm) (4 * Z.of_nat q)) =? 0) (seq 16 1008) = true)
      as H by (vm_compute; reflexivity).
    intros d [Hd _]. rewrite forallb_forall in H. unfold pde. rewrite pde_addr_eq by lia.
    assert (16 ≤ d / 0x400000 < 1024) as Hq by (Z.div_mod_to_equations; lia).
    assert (16 ≤ Z.to_nat (d / 0x400000) < 16 + 1008)%nat as Hs by lia.
    specialize (H _ (proj2 (in_seq 1008 16 _) Hs)). apply Z.eqb_eq in H. by rewrite Z2Nat.id in H by lia.
Defined.

Lemma ident_frees : (frees ident_mm = 3072)%nat.
Proof. apply Nat2Z.inj. vm_compute. reflexivity. Qed.

Lemma space_base (d : Z) : bool_decide (base d) = true -> base d.
Proof. apply bool_decide_eq_true_1. Qed.

Lemma offset_check o : bool_decide (offset o) = true -> offset o.
Proof. apply bool_decide_eq_true_1. Qed.

Lemma first_fork_witness :
  exists s', copy_page_tables 0 0x4000000 0xA0000 ident_mm = Ok (s', 0) /\
    word_at s' 0x4000000 5 16 = Some 11 /\ word_at s' 0x4000000 200 0 = None.
Proof.
  destruct (first_fork ident_mm 0x4000000 0xA0000 ident_tables) as (s' & E & [_ H] & _);
    [by apply space_base|lia|rewrite ident_frees; lia|].
  exists s'. split; [exact E|]. cbn [fst snd] in H. assert (0x4000000 ∈ [0x4000000]) as Hd by by left. split.
  - rewrite (H 0x4000000 5%nat 16); [vm_compute; reflexivity|split; [exact Hd|lia]|apply offset_check; reflexivity].
  - rewrite (H 0x4000000 200%nat 0); [vm_compute; reflexivity|split; [exact Hd|lia]|apply offset_check; reflexivity].
Defined.

(** Parent and child write the same word after the fork. *)
Definition two_writers : list user_op :=
  [Write 0x4000000 5 16 42; Fork 0x4000000 0x8000000 0xA0000; Write 0x8000000 5 16 43;
   Read 0x4000000 5 16; Read 0x8000000 5 16; Read 0x8000000 1 8].

Lemma arun_two_writers :
  exists a, arun two_writers ([0x4000000], boot_words ident_mm) = Some (a, [0; 0; 0; 42; 43; 0x2007]).
Proof.
  assert (snd <$> arun two_writers ([0x4000000], boot_words ident_mm) = Some [0; 0; 0; 42; 43; 0x2007])
    as H by (vm_compute; reflexivity).
  apply fmap_Some in H as ([a rs] & H & E). exists a. by rewrite E.
Qed.

Lemma cow_refines_witness :
  exists s0 s', copy_page_tables 0 0x4000000 0xA0000 ident_mm = Ok (s0, 0) /\
    crun two_writers s0 = Ok (s', [0; 0; 0; 42; 43; 0x2007]).
Proof.
  destruct (first_fork_agree ident_mm 0x4000000 0xA0000 ident_tables) as (s0 & E0 & Ha & Hf & _);
    [apply space_base; reflexivity|lia|rewrite ident_frees; lia|].
  destruct arun_two_writers as [a Ea].
  destruct (cow_refines two_writers s0 _ a _ Ha Ea) as (s' & E & _).
  - rewrite ident_frees in Hf. cbn [two_writers length]. lia.
  - exists s0, s'. split; [exact E0|exact E].
Defined.


(** Page 200 of the first region is not mapped: reading it gives the directory. *)
Lemma unmapped_read_witness :
  exists s0 s', copy_page_tables 0 0x4000000 0xA0000 ident_mm = Ok (s0, 0) /\
    user_load 2 (lin 0x4000000 200 0) s0 = Ok (s', read_word (phys s0) 0) /\ user_rw (ent s' 0x4000000 200) = true.
Proof.
  destruct (first_fork_agree ident_mm 0x4000000 0xA0000 ident_tables) as (s0 & E0 & [Hsp _] & Hf & H0 & _);
    [apply space_base; reflexivity|lia|rewrite ident_frees; lia|].
  rewrite ident_frees in Hf.
  destruct (unmapped_read s0 [0x4000000] 0x4000000 200 0 Hsp) as (s' & E & _ & _ & Hrw).
  - split; [by left|lia].
  - apply offset_check. reflexivity.
  - apply H0. lia.
  - lia.
  - exists s0, s'. split; [exact E0|]. split; [exact E|exact Hrw].
Defined.
