(* ===== verification/Sched.v ===== *)
(** * Scheduler, sleeping and waking

    kernel/sched.c: [schedule], [sys_pause], [__sleep_on], [wake_up].  The code
    is stated once over any kernel state that offers the task table, the
    current task, the task states and wait-queue heads ([SchedOps]); the mutex
    system of Mutex.v is an instance.

    [schedule] may switch stacks: what follows the call in the C function runs
    when the task becomes current again.  A function that calls [schedule] in
    the middle is therefore two operations, [sleep_enter] up to the call and
    [sleep_resume] from its return. *)
From S2P Require Import Prelude Words.

Definition NR_TASKS : Z := 64.
Definition TASK_RUNNING : Z := 0.
Definition TASK_INTERRUPTIBLE : Z := 1.
Definition TASK_UNINTERRUPTIBLE : Z := 2.
Definition TASK_ZOMBIE : Z := 3.
Definition TASK_STOPPED : Z := 4.

(** What scheduling needs of a kernel state.  Tasks are the addresses of their
    [task_struct]s, 0 is [NULL]. *)
Class SchedOps (S : Type) := {
  init_task : S -> Z;
  slots : S -> list Z;
  cur : S -> Z;
  set_cur : Z -> S -> S;
  state_of : S -> Z -> Z;
  set_state : Z -> Z -> S -> S
}.
#[global] Hint Mode SchedOps ! : typeclass_instances.

(** The [struct task_struct *] variables that serve as wait-queue heads; [K]
    names them. *)
Class WaitQueues (S K : Type) := {
  head_of : K -> S -> Z;
  set_head : K -> Z -> S -> S
}.
#[global] Hint Mode WaitQueues ! - : typeclass_instances.

Section pick.
Variables (task : list Z) (state_of : Z -> Z) (current : Z).

(** [for (i = 0; task[i] != current; i++);] from index [i] on. *)
Fixpoint find_slot (l : list Z) (i : Z) : option Z :=
  match l with
  | [] => None
  | p :: l => if decide (p = current) then Some i else find_slot l (i + 1)
  end.

Definition runnable (p : Z) : Prop := p <> 0 /\ state_of p = TASK_RUNNING.
#[export] Instance runnable_dec p : Decision (runnable p).
Proof. unfold runnable. apply _. Defined.

(** The [for (;; i++)] loop: the slot to switch to, or [None] when it comes
    back to [current]. *)
Fixpoint pick (fuel : nat) (i : Z) : outcome (option Z) :=
  match fuel with
  | O => Err Fuel
  | S fuel =>
      let k := i mod NR_TASKS in
      match arr_get task k with
      | None => Err (Wild "task")
      | Some p =>
          if decide (p = current) then Ok None
          else if decide (runnable p) then Ok (Some k)
          else pick fuel (i + 1)
      end
  end.
End pick.

Section sched.
Context {S : Type} `{SchedOps S}.

Definition switch_to (n : Z) : M S unit :=
  s ← get; p ← check "task" (arr_get (slots s) n);
  if decide (p = cur s) then mret tt else modify (set_cur p).

Definition schedule : M S unit :=
  s ← get;
  i ← check "task" (find_slot (cur s) (slots s) 0);
  match pick (slots s) (state_of s) (cur s) 64 (i + 1) with
  | Ok (Some k) => switch_to k
  | Ok None => mret tt
  | Err f => stop f
  end.

(** [do_timer] ignores the privilege level it is given. *)
Definition do_timer (cpl : Z) : M S unit := schedule.

(** [sys_pause] up to its call of [schedule]. *)
Definition sys_pause_enter : M S unit :=
  modify (fun s => set_state (cur s) TASK_INTERRUPTIBLE s);; schedule.
End sched.

Section queues.
Context {S K : Type} `{SchedOps S, WaitQueues S K}.

(** [__sleep_on(p, state)] up to its call of [schedule]; the result is the
    local [tmp], the previous head of the queue. *)
Definition sleep_enter (p : K) (state : Z) : M S Z :=
  s ← get;
  if decide (cur s = init_task s) then stop (Panic "task[0] trying to sleep") else
  let tmp := head_of p s in
  modify (set_head p (cur s));;
  modify (fun s => set_state (cur s) state s);;
  schedule;;
  mret tmp.

(** [__sleep_on] from the return of [schedule] on; [false] when the task went
    back to [schedule] at [goto repeat], [true] when [__sleep_on] returned.
    (The message about a null head has no effect on the state.) *)
Definition sleep_resume (p : K) (tmp : Z) : M S bool :=
  s ← get;
  let h := head_of p s in
  if decide (h <> 0 /\ h <> cur s) then
    modify (set_state h TASK_RUNNING);;
    modify (fun s => set_state (cur s) TASK_UNINTERRUPTIBLE s);;
    schedule;;
    mret false
  else
    modify (set_head p tmp);;
    when (bool_decide (tmp <> 0)) (modify (set_state tmp 0));;
    mret true.

Definition sleep_on (p : K) : M S Z := sleep_enter p TASK_UNINTERRUPTIBLE.
Definition interruptible_sleep_on (p : K) : M S Z := sleep_enter p TASK_INTERRUPTIBLE.

(** (The messages for stopped and zombie tasks have no effect on the state.) *)
Definition wake_up (p : K) : M S unit :=
  s ← get;
  when (bool_decide (head_of p s <> 0)) (modify (set_state (head_of p s) TASK_RUNNING)).
End queues.

(** ** The choice of the next task *)

Lemma find_slot_spec current l i j :
  find_slot current l i = Some j ->
  exists n : nat, j = i + Z.of_nat n /\ l !! n = Some current.
Proof.
  revert i. induction l as [|p l IH]; intros i; cbn [find_slot]; [done|].
  case_decide as Hp; intros E; simplify_eq.
  - exists 0%nat. split; [lia|done].
  - destruct (IH _ E) as (n & -> & Hn). exists (S n). split; [lia|done].
Qed.

Lemma find_slot_is_Some current l i : current ∈ l -> is_Some (find_slot current l i).
Proof.
  revert i. induction l as [|p l IH]; intros i Hin; [by apply not_elem_of_nil in Hin|].
  cbn [find_slot]. case_decide; [by eexists|]. apply IH. by apply elem_of_cons in Hin as [?|?].
Qed.

Section pick_spec.
Variables (task : list Z) (state_of : Z -> Z) (current : Z).
Hypothesis Hlen : length task = 64%nat.

Abbreviation runnable := (runnable state_of).
Abbreviation pick := (pick task state_of current).

(** The task in the [d]-th slot after slot [i], cyclically. *)
Definition slot (i : Z) (d : nat) : Z := default 0 (arr_get task ((i + Z.of_nat d) mod NR_TASKS)).

Definition skipped (p : Z) : Prop := p <> current /\ ~ runnable p.

Lemma slot_get i d : arr_get task ((i + Z.of_nat d) mod NR_TASKS) = Some (slot i d).
Proof.
  unfold slot. destruct (arr_get_is_Some task ((i + Z.of_nat d) mod NR_TASKS)) as [p ->]; [|done].
  rewrite Hlen. apply Z.mod_pos_bound. done.
Qed.

Lemma pick_eq d fuel i :
  (forall d', (d' < d)%nat -> skipped (slot i d')) -> (d < fuel)%nat ->
  slot i d = current \/ runnable (slot i d) ->
  pick fuel i = Ok (if decide (slot i d = current) then None
                    else Some ((i + Z.of_nat d) mod NR_TASKS)).
Proof.
  revert fuel i. induction d as [|d IH]; intros fuel i Hskip Hf Hd;
    (destruct fuel as [|fuel]; [lia|]); cbn [pick].
  - pose proof (slot_get i 0) as E. rewrite Z.add_0_r in E. rewrite E.
    rewrite Z.add_0_r. case_decide; [done|]. by rewrite decide_True by tauto.
  - destruct (Hskip 0%nat) as [H1 H2]; [lia|].
    pose proof (slot_get i 0) as E. rewrite Z.add_0_r in E. rewrite E.
    rewrite !decide_False by done.
    assert (forall d, slot (i + 1) d = slot i (S d)) as Hs.
    { intros d'. unfold slot. do 3 f_equal. lia. }
    rewrite IH; [| |lia|by rewrite Hs].
    + rewrite Hs. replace (i + 1 + Z.of_nat d) with (i + Z.of_nat (S d)) by lia. done.
    + intros d' Hd'. rewrite Hs. apply Hskip. lia.
Qed.

(** The least distance at which the loop stops. *)
Lemma first_stop i :
  slot i 63 = current ->
  exists d, (d ≤ 63)%nat /\ (forall d', (d' < d)%nat -> skipped (slot i d')) /\
    (slot i d = current \/ runnable (slot i d)).
Proof.
  intros H63.
  assert (forall n, (exists d, (d < n)%nat /\ (forall d', (d' < d)%nat -> skipped (slot i d')) /\
      (slot i d = current \/ runnable (slot i d))) \/
      forall d', (d' < n)%nat -> skipped (slot i d')) as Hn.
  { induction n as [|n [IH|IH]]; [right; lia| |].
    - left. destruct IH as (d & ? & ?). exists d. split; [lia|done].
    - destruct (decide (slot i n = current \/ runnable (slot i n))) as [Hs|Hs].
      + left. exists n. split; [lia|]. split; [done|done].
      + right. intros d' Hd'. destruct (decide (d' = n)) as [->|]; [|apply IH; lia].
        unfold skipped. tauto. }
  destruct (Hn 64%nat) as [(d & ? & ? & ?)|Hall]; [by exists d; split; [lia|]|].
  destruct (Hall 63%nat) as [Hc _]; [lia|]. done.
Qed.
End pick_spec.

(** ** Laws of the interface *)

Class SchedLaws (S : Type) `{SchedOps S} := {
  cur_set_cur p (s : S) : cur (set_cur p s) = p;
  cur_set_state p v (s : S) : cur (set_state p v s) = cur s;
  slots_set_cur p (s : S) : slots (set_cur p s) = slots s;
  slots_set_state p v (s : S) : slots (set_state p v s) = slots s;
  state_set_cur p (s : S) q : state_of (set_cur p s) q = state_of s q;
  state_set_state p v (s : S) q :
    state_of (set_state p v s) q = if decide (p = q) then v else state_of s q;
  set_cur_cur (s : S) : set_cur (cur s) s = s;
  init_set_cur p (s : S) : init_task (set_cur p s) = init_task s;
  init_set_state p v (s : S) : init_task (set_state p v s) = init_task s
}.
#[global] Hint Mode SchedLaws ! - : typeclass_instances.

Section schedule_spec.
Context {S : Type} `{SchedLaws S}.
Implicit Types s : S.

(** The task table is the 64-slot array and holds the current task. *)
Definition wf_table s : Prop := length (slots s) = 64%nat /\ cur s <> 0 /\ cur s ∈ slots s.

Lemma schedule_cases s :
  wf_table s ->
  exists (i : nat) (d : nat), slots s !! i = Some (cur s) /\ (d ≤ 63)%nat /\
    let p := slot (slots s) (Z.of_nat i + 1) d in
    (forall d', (d' < d)%nat ->
       skipped (state_of s) (cur s) (slot (slots s) (Z.of_nat i + 1) d')) /\
    ((p = cur s /\ schedule s = Ok (s, tt)) \/
     (p <> cur s /\ runnable (state_of s) p /\ schedule s = Ok (set_cur p s, tt))).
Proof.
  intros (Hl & Hc0 & Hin). destruct (find_slot_is_Some (cur s) (slots s) 0 Hin) as [j Hj].
  pose proof Hj as (i & Ej & Hi)%find_slot_spec. rewrite Z.add_0_l in Ej.
  assert (slot (slots s) (Z.of_nat i + 1) 63 = cur s) as H63.
  { unfold slot. apply lookup_lt_Some in Hi as Hlt. rewrite Hl in Hlt.
    replace ((Z.of_nat i + 1 + Z.of_nat 63) mod NR_TASKS) with (Z.of_nat i).
    - by rewrite arr_get_nat, Hi.
    - unfold NR_TASKS. Z.div_mod_to_equations. lia. }
  destruct (first_stop (slots s) (state_of s) (cur s) Hl _ H63) as (d & Hd & Hskip & Hstop).
  exists i, d. split; [done|]. split; [done|]. cbv zeta. split; [done|].
  pose proof (pick_eq (slots s) (state_of s) (cur s) Hl d 64 _ Hskip ltac:(lia) Hstop) as E.
  pose proof (slot_get (slots s) Hl (Z.of_nat i + 1) d) as Eg.
  assert (schedule s = match pick (slots s) (state_of s) (cur s) 64 (Z.of_nat i + 1) with
    | Ok (Some k) => switch_to k s | Ok None => Ok (s, tt) | Err f => Err f end) as ->.
  { unfold schedule. rewrite <-Ej. unfold mbind, M_bind, get, check. cbn -[pick]. rewrite Hj.
    generalize (pick (slots s) (state_of s) (cur s) 64 (j + 1)). by intros [[?|]|?]. }
  rewrite E. case_decide as Hp; [by left|].
  right. split; [done|]. split; [tauto|]. unfold switch_to, mbind, M_bind, get, check.
  rewrite Eg. by rewrite decide_False.
Qed.

(** C17.  [schedule] always terminates: it looks at the slots after the current
    task's in cyclic order, skips empty slots and tasks that are not running,
    and switches to the first runnable task; when it comes back to the current
    task first it returns without switching, whatever the state of that task. *)
Theorem schedule_correct s :
  wf_table s ->
  exists (i : nat) (d : nat), slots s !! i = Some (cur s) /\ (d ≤ 63)%nat /\
    let p := slot (slots s) (Z.of_nat i + 1) d in
    (forall d', (d' < d)%nat ->
       skipped (state_of s) (cur s) (slot (slots s) (Z.of_nat i + 1) d')) /\
    ((p = cur s /\ schedule s = Ok (s, tt)) \/
     (p <> cur s /\ runnable (state_of s) p /\ schedule s = Ok (set_cur p s, tt))).
Proof. exact (schedule_cases s). Qed.

(** No task sits in two slots. *)
Definition slots_distinct s : Prop :=
  forall i j p, slots s !! i = Some p -> slots s !! j = Some p -> p <> 0 -> i = j.

(** One call of [schedule] moves from slot [i] towards any runnable slot [k]
    and does not go past it. *)
Lemma schedule_progress s (i k : nat) p :
  wf_table s -> slots_distinct s -> slots s !! i = Some (cur s) -> slots s !! k = Some p ->
  runnable (state_of s) p -> i <> k ->
  exists i' : nat, schedule s = Ok (set_cur (default 0 (slots s !! i')) s, tt) /\
    is_Some (slots s !! i') /\ default 0 (slots s !! i') <> 0 /\
    (Z.of_nat k - Z.of_nat i') mod 64 < (Z.of_nat k - Z.of_nat i) mod 64.
Proof.
  intros Hwf Hd Hi Hk [Hp Hrun] Hik. destruct (schedule_cases s Hwf) as (i0 & d & Hi0 & Hd63 & Hsk & Hres).
  destruct Hwf as (Hl & Hc & _). pose proof (Hd _ _ _ Hi Hi0 Hc) as ->.
  pose proof (lookup_lt_Some _ _ _ Hi0) as Hi0l. pose proof (lookup_lt_Some _ _ _ Hk) as Hkl.
  rewrite Hl in Hi0l, Hkl.
  assert (forall j, slots s !! Z.to_nat ((Z.of_nat i0 + 1 + Z.of_nat j) mod 64) =
                    Some (slot (slots s) (Z.of_nat i0 + 1) j)) as Hslot.
  { intros j. rewrite <-slot_get by done. unfold arr_get, NR_TASKS.
    by rewrite decide_True by (apply Z.mod_pos_bound; lia). }
  set (m := (Z.of_nat k - Z.of_nat i0) mod 64).
  assert (0 < m < 64) as Hm by (unfold m; Z.div_mod_to_equations; lia).
  assert (slot (slots s) (Z.of_nat i0 + 1) (Z.to_nat (m - 1)) = p) as Hat.
  { specialize (Hslot (Z.to_nat (m - 1))).
    replace (Z.to_nat _) with k in Hslot; [congruence|].
    unfold m in *. Z.div_mod_to_equations. lia. }
  assert (Z.of_nat d < m) as Hdm.
  { destruct (decide (Z.of_nat d < m)) as [|Hn]; [done|]. exfalso.
    destruct (Hsk (Z.to_nat (m - 1))) as [_ Hnr]; [lia|]. apply Hnr. by rewrite Hat. }
  specialize (Hslot d).
  set (i' := Z.to_nat ((Z.of_nat i0 + 1 + Z.of_nat d) mod 64)) in *.
  assert (i' <> i0) as Hne by (unfold i'; Z.div_mod_to_equations; lia).
  exists i'. rewrite Hslot. cbn [default]. destruct Hres as [[Heq _]|(Hnc & [Hnz _] & ->)].
  - exfalso. apply Hne. apply (Hd _ _ (cur s)); congruence.
  - split; [done|]. split; [by eexists|]. split; [done|].
    unfold m, i' in *. rewrite Z2Nat.id by (apply Z.mod_pos_bound; lia).
    Z.div_mod_to_equations. lia.
Qed.

(** When the current task or some other task can run, [schedule] gives the
    processor to a task that can run. *)
Lemma schedule_to s :
  wf_table s -> slots_distinct s ->
  (exists q, q ∈ slots s /\ runnable (state_of s) q) ->
  exists p, schedule s = Ok (set_cur p s, tt) /\ p ∈ slots s /\ runnable (state_of s) p.
Proof.
  intros Hwf Hd (q & Hq & Hr).
  destruct (decide (runnable (state_of s) (cur s))) as [Hcr|Hcr].
  - destruct (schedule_cases s Hwf) as (i & d & Hi & _ & _ & [[_ E]|(_ & Hp & E)]).
    + exists (cur s). rewrite set_cur_cur. split; [done|]. split; [apply Hwf|done].
    + eexists. split; [exact E|]. split; [|done].
      pose proof (slot_get (slots s) (proj1 Hwf) (Z.of_nat i + 1) d) as Hg.
      unfold arr_get in Hg. rewrite decide_True in Hg by (apply Z.mod_pos_bound; done).
      by eapply list_elem_of_lookup_2.
  - pose proof (proj2 (proj2 Hwf)) as [i Hi]%list_elem_of_lookup.
    apply list_elem_of_lookup in Hq as [k Hk].
    assert (i <> k) as Hik by (intros ->; congruence).
    destruct (schedule_progress s i k q Hwf Hd Hi Hk Hr Hik) as (i' & E & [p Hp] & Hnz & Hlt).
    rewrite Hp in *. cbn [default] in *. exists p. split; [done|].
    split; [by eapply list_elem_of_lookup_2|].
    destruct (schedule_cases s Hwf) as (i0 & d & Hi0 & _ & _ & [[_ E']|(_ & Hp' & E')]).
    + assert (p = cur s) as ->.
      { rewrite E in E'. injection E' as Es. by rewrite <-(cur_set_cur p s), Es at 1. }
      pose proof (Hd _ _ _ Hp Hi Hnz) as ->. lia.
    + rewrite E in E'. injection E' as E'.
      apply (f_equal cur) in E'. rewrite !cur_set_cur in E'. by subst.
Qed.

(** ** Round robin *)

(** [n] timer interrupts from time [i] on; [env] is what the kernel does to the
    state before each of them. *)
Fixpoint ticks (env : nat -> S -> S) (i n : nat) (s : S) : outcome S :=
  match n with
  | O => Ok s
  | Datatypes.S n =>
      match do_timer 3 (env i s) with
      | Ok (s', _) => ticks env (Datatypes.S i) n s'
      | Err f => Err f
      end
  end.

Section round_robin.
Variables (env : nat -> S -> S) (p : Z).
Hypothesis env_slots : forall n s, slots (env n s) = slots s.
Hypothesis env_cur : forall n s, cur (env n s) = cur s.
Hypothesis env_runnable : forall n s,
  runnable (state_of s) p -> runnable (state_of (env n s)) p.

Lemma ticks_reach (m : nat) : forall t s (i k : nat),
  wf_table s -> slots_distinct s -> slots s !! i = Some (cur s) -> slots s !! k = Some p ->
  runnable (state_of s) p -> (Z.of_nat k - Z.of_nat i) mod 64 ≤ Z.of_nat m ->
  exists n s', (n ≤ m)%nat /\ ticks env t n s = Ok s' /\ cur s' = p.
Proof.
  induction m as [|m IH]; intros t s i k Hwf Hd Hi Hk Hrun Hm.
  all: destruct (decide (i = k)) as [->|Hik];
    [exists 0%nat, s; split; [lia|]; split; [done|congruence]|].
  all: pose proof (lookup_lt_Some _ _ _ Hi) as Hil; pose proof (lookup_lt_Some _ _ _ Hk) as Hkl.
  all: destruct Hwf as (Hl & Hc & Hin); rewrite Hl in Hil, Hkl.
  - exfalso. Z.div_mod_to_equations. lia.
  - assert (wf_table (env t s)) as Hwf' by (unfold wf_table; rewrite env_slots, env_cur; done).
    destruct (schedule_progress (env t s) i k p) as (i' & Hs & Hi' & Hnz & Hlt); try done.
    { intros ???. rewrite env_slots. apply Hd. }
    { by rewrite env_slots, env_cur. }
    { by rewrite env_slots. }
    { by apply env_runnable. }
    rewrite env_slots in Hs, Hi', Hnz. destruct Hi' as [q Hq]. rewrite Hq in *. cbn [default] in *.
    destruct (IH (Datatypes.S t) (set_cur q (env t s)) i' k) as (n & s' & Hn & Ht & Hcur).
    + unfold wf_table. rewrite slots_set_cur, cur_set_cur, env_slots.
      repeat split; try done. by eapply list_elem_of_lookup_2.
    + intros ???. rewrite slots_set_cur, env_slots. apply Hd.
    + by rewrite slots_set_cur, cur_set_cur, env_slots.
    + by rewrite slots_set_cur, env_slots.
    + destruct (env_runnable t s Hrun). split; [done|]. by rewrite state_set_cur.
    + lia.
    + exists (Datatypes.S n), s'. split; [lia|]. split; [|done]. cbn [ticks].
      unfold do_timer. by rewrite Hs.
Qed.

(** C32.  Round-robin liveness: whatever else the kernel does between timer
    interrupts, as long as it keeps the task table and the current task and
    leaves [p] runnable, [p] becomes the current task within 63 interrupts. *)
Theorem round_robin s :
  wf_table s -> slots_distinct s -> p ∈ slots s -> runnable (state_of s) p ->
  exists n s', (n ≤ 63)%nat /\ ticks env 0 n s = Ok s' /\ cur s' = p.
Proof.
  intros Hwf Hd Hp Hrun. apply list_elem_of_lookup in Hp as [k Hk].
  pose proof (proj2 (proj2 Hwf)) as [i Hi]%list_elem_of_lookup.
  eapply ticks_reach; try done. Z.div_mod_to_equations. lia.
Qed.
End round_robin.
End schedule_spec.

(** ** The state of kernel/sched.c *)

Record kernel_mutex := Mutex { wait : Z; lock : Z }.

#[export] Instance eta_kernel_mutex : Eta kernel_mutex :=
  fun r => {| wait := wait r; lock := lock r |}.

(** [init_addr] is [&(init_task.task)], [tstate] the [state] fields of the task
    structures by address. *)
Record sched_state := SchedState {
  init_addr : Z;
  task : list Z;
  current : Z;
  tstate : gmap Z Z;
  kernel_mutxt_a : list kernel_mutex
}.

#[export] Instance eta_sched_state : Eta sched_state :=
  fun r => {| init_addr := init_addr r; task := task r; current := current r;
              tstate := tstate r; kernel_mutxt_a := kernel_mutxt_a r |}.

#[export] Instance sched_ops : SchedOps sched_state := {|
  init_task := init_addr;
  slots := task;
  cur := current;
  set_cur p s := s <| current := p |>;
  state_of s p := default TASK_RUNNING (tstate s !! p);
  set_state p v s := s <| tstate := <[p := v]> (tstate s) |>
|}.

(** The wait queues are the [wait] fields of [kernel_mutxt_a]. *)
#[export] Instance sched_queues : WaitQueues sched_state Z := {|
  head_of n s := from_option wait 0 (arr_get (kernel_mutxt_a s) n);
  set_head n p s := s <| kernel_mutxt_a := alter (fun m => m <| wait := p |>) (Z.to_nat n) (kernel_mutxt_a s) |>
|}.

#[export] Instance sched_laws : SchedLaws sched_state.
Proof.
  split; intros; try done.
  - cbn. case_decide; subst; [by rewrite lookup_insert_eq|by rewrite lookup_insert_ne].
  - by destruct s.
Qed.

(** Three tasks at addresses 4096, 8192 and 12288 in slots 0, 5 and 63. *)
Definition three_tasks : sched_state := {|
  init_addr := 4096;
  task := <[63%nat := 12288]> (<[5%nat := 8192]> (4096 :: replicate 63 0));
  current := 8192;
  tstate := {[4096 := TASK_RUNNING; 8192 := TASK_RUNNING; 12288 := TASK_INTERRUPTIBLE]};
  kernel_mutxt_a := replicate 64 (Mutex 0 0)
|}.

Lemma three_tasks_wf : wf_table three_tasks.
Proof. split; [done|]. split; [done|]. by apply (list_elem_of_lookup_2 _ 5). Qed.

Lemma slots_distinct_dec (s : sched_state) :
  NoDup (filter (fun p => p <> 0) (slots s)) -> slots_distinct s.
Proof.
  unfold slots_distinct. induction (slots s) as [|q l IH]; intros Hnd i j p Hi Hj Hp; [done|].
  assert (forall n, l !! n = Some p -> q = p -> False) as Hno.
  { intros n Hn ->. rewrite filter_cons_True in Hnd by done.
    apply list.NoDup_cons in Hnd as [Hnin _]. apply Hnin, list_elem_of_filter.
    split; [done|]. by eapply list_elem_of_lookup_2. }
  assert (NoDup (filter (fun p => p <> 0) l)) as Hnd'.
  { destruct (decide (q <> 0)) as [Hq|Hq].
    - rewrite filter_cons_True in Hnd by done. by apply list.NoDup_cons in Hnd as [_ ?].
    - by rewrite filter_cons_False in Hnd. }
  destruct i, j; cbn in *; simplify_eq; try done.
  - exfalso. eauto.
  - exfalso. eauto.
  - f_equal. by apply (IH Hnd' i j p).
Qed.

Lemma schedule_correct_witness :
  schedule three_tasks = Ok (three_tasks <| current := 4096 |>, tt) /\
  exists (i d : nat), slots three_tasks !! i = Some (cur three_tasks) /\ (d ≤ 63)%nat /\
    let p := slot (slots three_tasks) (Z.of_nat i + 1) d in
    (forall d', (d' < d)%nat ->
       skipped (state_of three_tasks) (cur three_tasks) (slot (slots three_tasks) (Z.of_nat i + 1) d')) /\
    ((p = cur three_tasks /\ schedule three_tasks = Ok (three_tasks, tt)) \/
     (p <> cur three_tasks /\ runnable (state_of three_tasks) p /\
      schedule three_tasks = Ok (set_cur p three_tasks, tt))).
Proof. split; [by vm_compute|]. apply (schedule_correct three_tasks). apply three_tasks_wf. Defined.

Lemma round_robin_witness :
  exists n s', (n ≤ 63)%nat /\ ticks (fun _ s => s) 0 n three_tasks = Ok s' /\ cur s' = 4096.
Proof.
  apply (round_robin (fun _ s => s) 4096).
  - done.
  - done.
  - done.
  - apply three_tasks_wf.
  - apply slots_distinct_dec. apply (bool_decide_eq_true_1 _). by vm_compute.
  - by apply (list_elem_of_lookup_2 _ 0).
  - split; done.
Defined.
