(* ===== verification/Mutex.v ===== *)
(** * Kernel mutexes as a transition system

    kernel/sched.c: [sys_klock], [sys_kunlock] over the scheduler of Sched.v.

    [sys_klock] runs with interrupts disabled ([cli] before the loop, [sti]
    after it), so from its entry, or from the return of the [schedule] inside
    [sleep_on], up to its next [schedule] it is one step.  [sys_kunlock] runs
    with interrupts enabled: a timer interrupt can come between the store to
    [lock] and [wake_up], and inside [wake_up] between the test of the head of
    the queue, the load of the head for the assignment and the assignment, so these
    are four steps. *)
From S2P Require Import Prelude Words Sched.

(** ** The code *)

Definition get_mutex (n : Z) : M sched_state kernel_mutex :=
  s ← get; check "kernel_mutxt_a" (arr_get (kernel_mutxt_a s) n).

Definition set_lock (n v : Z) : M sched_state unit :=
  m ← get_mutex n; s ← get;
  l ← check "kernel_mutxt_a" (arr_set (kernel_mutxt_a s) n (m <| lock := v |>));
  put (s <| kernel_mutxt_a := l |>).

(** [sys_klock] from the test of the [while] on: [None] when it took the lock
    and returned, [Some tmp] when the task went to sleep inside [sleep_on]. *)
Definition klock_loop (n : Z) : M sched_state (option Z) :=
  m ← get_mutex n;
  if decide (lock m <> 0) then tmp ← sleep_on n; mret (Some tmp)
  else set_lock n 1;; mret None.

Definition sys_klock (n : Z) : M sched_state (option Z) := klock_loop n.

(** The task that sleeps in [sys_klock] with local [tmp] gets the processor. *)
Definition klock_resume (n tmp : Z) : M sched_state (option Z) :=
  b ← sleep_resume n tmp;
  if (b : bool) then klock_loop n else mret (Some tmp).

(** [sys_kunlock]: the store, and [wake_up] in its stages, [if (p && *p)], the
    load of [*p] in [( **p ).state = TASK_RUNNING] and the store through it.  (A
    compiler that does not load [*p] again makes the first two one.) *)
Inductive stage := Test | Load | Store (head : Z).

Definition kunlock_store (n : Z) : M sched_state unit := set_lock n 0.

(** The next stage; [None] when [sys_kunlock] returns. *)
Definition kunlock_wake (n : Z) (w : stage) : M sched_state (option stage) :=
  match w with
  | Test => m ← get_mutex n; mret (if decide (wait m <> 0) then Some Load else None)
  | Load => m ← get_mutex n; mret (Some (Store (wait m)))
  | Store h =>
      if decide (h = 0) then stop (Wild "NULL") else
      modify (set_state h TASK_RUNNING);; mret None
  end.

(** ** The transition system *)

(** Where a task is: outside the mutex code, in the [schedule] call of
    [sys_klock n] with local [tmp], or behind the store of [sys_kunlock n]. *)
Inductive phase := Run | Sleeping (n tmp : Z) | Waking (n : Z) (w : stage).

#[export] Instance stage_eq_dec : EqDecision stage.
Proof. solve_decision. Defined.

#[export] Instance phase_eq_dec : EqDecision phase.
Proof. solve_decision. Defined.

(** The kernel's state with each task's place in the code and the history
    variable [held]: the pairs of a task and a mutex it has locked and not
    yet unlocked. *)
Record msys := Msys {
  sys : sched_state;
  phases : gmap Z phase;
  held : gset (Z * Z)
}.

Definition phase_of (s : msys) (p : Z) : phase := default Run (phases s !! p).

#[export] Instance eta_msys : Eta msys :=
  fun r => {| sys := sys r; phases := phases r; held := held r |}.

Inductive event := Klock (n : Z) | Resume | Kunlock (n : Z) | Wake | Timer.

(** What the current task can do next.  A task unlocks only mutexes it holds;
    it can be interrupted except in [sys_klock]. *)
Definition enabled (s : msys) (e : event) : Prop :=
  let me := current (sys s) in
  match e, phase_of s me with
  | Klock _, Run => True
  | Kunlock n, Run => (me, n) ∈ held s
  | Resume, Sleeping _ _ => True
  | Wake, Waking _ _ => True
  | Timer, Run | Timer, Waking _ _ => True
  | _, _ => False
  end.

#[export] Instance enabled_dec s e : Decision (enabled s e).
Proof. unfold enabled. destruct e, (phase_of s _); apply _. Defined.

(** The outcome of [sys_klock n] by task [me]. *)
Definition klock_outcome (s : msys) (me n : Z) (o : outcome (sched_state * option Z)) : outcome msys :=
  match o with
  | Ok (k, None) => Ok (Msys k (<[me := Run]> (phases s)) ({[(me, n)]} ∪ held s))
  | Ok (k, Some tmp) => Ok (Msys k (<[me := Sleeping n tmp]> (phases s)) (held s))
  | Err f => Err f
  end.

Definition exec (s : msys) (e : event) : outcome msys :=
  let me := current (sys s) in
  match e, phase_of s me with
  | Klock n, _ => klock_outcome s me n (sys_klock n (sys s))
  | Resume, Sleeping n tmp => klock_outcome s me n (klock_resume n tmp (sys s))
  | Kunlock n, _ =>
      match kunlock_store n (sys s) with
      | Ok (k, _) => Ok (Msys k (<[me := Waking n Test]> (phases s)) (held s ∖ {[(me, n)]}))
      | Err f => Err f
      end
  | Wake, Waking n w =>
      match kunlock_wake n w (sys s) with
      | Ok (k, Some w) => Ok (Msys k (<[me := Waking n w]> (phases s)) (held s))
      | Ok (k, None) => Ok (Msys k (<[me := Run]> (phases s)) (held s))
      | Err f => Err f
      end
  | Timer, _ =>
      match do_timer 3 (sys s) with
      | Ok (k, _) => Ok (s <| sys := k |>)
      | Err f => Err f
      end
  | _, _ => Ok s
  end.

Inductive step (s : msys) (e : event) (s' : msys) : Prop :=
| Step : enabled s e -> exec s e = Ok s' -> step s e s'.

(** A kernel about to run its tasks: nobody in the mutex code, all mutexes
    free, all tasks running. *)
Definition initial (s : msys) : Prop :=
  let k := sys s in
  wf_table k /\ slots_distinct k /\ init_addr k ∈ task k /\ init_addr k <> 0 /\
  phases s = ∅ /\ held s = ∅ /\ kernel_mutxt_a k = replicate 64 (Mutex 0 0) /\
  (forall p, p ∈ task k -> p <> 0 -> state_of k p = TASK_RUNNING).

Inductive reachable : msys -> Prop :=
| reach_init s : initial s -> reachable s
| reach_step s e s' : reachable s -> step s e s' -> reachable s'.

(** ** Views of the state *)

Definition mutex_at (n : Z) (k : sched_state) : kernel_mutex :=
  default (Mutex 0 0) (arr_get (kernel_mutxt_a k) n).

Definition upd_mutex (n : Z) (f : kernel_mutex -> kernel_mutex) (k : sched_state) : sched_state :=
  k <| kernel_mutxt_a := alter f (Z.to_nat n) (kernel_mutxt_a k) |>.

Definition in_range (n : Z) : Prop := 0 ≤ n < 64.

Lemma get_mutex_ok n k :
  length (kernel_mutxt_a k) = 64%nat -> in_range n -> get_mutex n k = Ok (k, mutex_at n k).
Proof.
  intros Hl Hn. unfold get_mutex, mutex_at, mbind, M_bind, get, check.
  destruct (arr_get_is_Some (kernel_mutxt_a k) n) as [m ->]; [|done]. rewrite Hl. apply Hn.
Qed.

Lemma get_mutex_wild n k :
  length (kernel_mutxt_a k) = 64%nat -> ~ in_range n ->
  get_mutex n k = Err (Wild "kernel_mutxt_a").
Proof.
  intros Hl Hn. unfold get_mutex, mbind, M_bind, get, check.
  destruct (arr_get (kernel_mutxt_a k) n) eqn:E; [|done].
  apply arr_get_Some in E. unfold in_range in Hn. lia.
Qed.

Lemma set_lock_ok n v k :
  length (kernel_mutxt_a k) = 64%nat -> in_range n ->
  set_lock n v k = Ok (upd_mutex n (fun m => m <| lock := v |>) k, tt).
Proof.
  intros Hl Hn. unfold set_lock. rewrite (bind_ok _ _ _ _ _ (get_mutex_ok n k Hl Hn)).
  unfold mbind, M_bind, get, check, put. unfold in_range in Hn.
  rewrite arr_set_Some by lia. unfold upd_mutex, mutex_at, arr_get.
  rewrite decide_True by lia. cbn [upd]. do 3 f_equal.
  destruct (kernel_mutxt_a k !! Z.to_nat n) as [m|] eqn:E.
  - exact (insert_alter _ _ _ (fun m => m <| lock := v |>) E).
  - apply lookup_ge_None in E. lia.
Qed.

Section views.
Implicit Types k : sched_state.

Lemma mutex_upd n n' f k :
  length (kernel_mutxt_a k) = 64%nat -> in_range n -> in_range n' ->
  mutex_at n' (upd_mutex n f k) = if decide (n = n') then f (mutex_at n k) else mutex_at n' k.
Proof.
  unfold mutex_at, upd_mutex, arr_get, in_range. intros Hl Hn Hn'. cbn [upd kernel_mutxt_a].
  rewrite !(decide_True (P := 0 ≤ _)) by lia. case_decide; subst.
  - rewrite list_lookup_alter_eq. by destruct (lookup_lt_is_Some_2 (kernel_mutxt_a k) (Z.to_nat n') ltac:(lia)) as [m ->].
  - by rewrite list_lookup_alter_ne by lia.
Qed.

Lemma length_upd n f k : length (kernel_mutxt_a (upd_mutex n f k)) = length (kernel_mutxt_a k).
Proof. cbn. apply length_alter. Qed.

Lemma mutex_set_state p v n k : mutex_at n (set_state p v k) = mutex_at n k.
Proof. done. Qed.
Lemma mutex_set_cur p n k : mutex_at n (set_cur p k) = mutex_at n k.
Proof. done. Qed.

Lemma head_mutex n k : in_range n -> head_of n k = wait (mutex_at n k).
Proof. unfold mutex_at. cbn. by destruct (arr_get _ _). Qed.

Lemma set_head_upd n p k : set_head n p k = upd_mutex n (fun m => m <| wait := p |>) k.
Proof. done. Qed.
End views.

(** ** Wait chains *)

(** [linked ph n h l]: from head [h], following the locals [tmp] of the tasks
    that sleep on mutex [n], one meets the tasks [l] and then [NULL]. *)
Fixpoint linked (ph : Z -> phase) (n h : Z) (l : list Z) : Prop :=
  match l with
  | [] => h = 0
  | p :: l => h = p /\ p <> 0 /\ exists tmp, ph p = Sleeping n tmp /\ linked ph n tmp l
  end.

Section linked.
Variables (ph : Z -> phase) (n : Z).

Lemma linked_in h l p : linked ph n h l -> p ∈ l -> p <> 0 /\ exists tmp, ph p = Sleeping n tmp.
Proof.
  revert h. induction l as [|q l IH]; intros h Hl Hp; [by apply not_elem_of_nil in Hp|].
  destruct Hl as (_ & Hq & tmp & Hph & Hl). apply elem_of_cons in Hp as [->|Hp]; [eauto|].
  by eapply IH.
Qed.

Lemma linked_ext ph' h l :
  linked ph n h l -> (forall p, p ∈ l -> ph' p = ph p) -> linked ph' n h l.
Proof.
  revert h. induction l as [|q l IH]; intros h Hl Hext; [done|].
  destruct Hl as (Hh & Hq & tmp & Hph & Hl). split; [done|]. split; [done|].
  exists tmp. split; [rewrite Hext; [done|by apply elem_of_cons; left]|].
  apply IH; [done|]. intros p Hp. apply Hext. by apply elem_of_cons; right.
Qed.

Lemma linked_nonnull h l : linked ph n h l -> l <> [] -> h ∈ l /\ h <> 0.
Proof. destruct l; [done|]. intros (-> & ? & _) _. split; [by apply elem_of_cons; left|done]. Qed.
End linked.

(** ** The invariant *)

Definition sleeping (s : msys) (n p : Z) : Prop := exists tmp, phase_of s p = Sleeping n tmp.

(** Task [q] has freed mutex [n] and is about to wake the head of its queue. *)
Definition about_to_wake (s : msys) (n q : Z) : Prop := exists w, phase_of s q = Waking n w /\
  match w with Store h => h = wait (mutex_at n (sys s)) | _ => True end.

(** The invariant of the system between a change of a task's state and the
    switch to another task: everything except that the current task runs. *)
Record inv_base (s : msys) : Prop := {
  inv_wf : wf_table (sys s);
  inv_distinct : slots_distinct (sys s);
  inv_init : init_addr (sys s) ∈ task (sys s) /\ init_addr (sys s) <> 0;
  inv_len : length (kernel_mutxt_a (sys s)) = 64%nat;
  inv_running : forall p, p ∈ task (sys s) -> p <> 0 -> (forall n, ~ sleeping s n p) ->
    state_of (sys s) p = TASK_RUNNING;
  inv_sleeper : forall n p, sleeping s n p -> in_range n /\ p ∈ task (sys s) /\ p <> init_addr (sys s);
  inv_waking : forall n p w, phase_of s p = Waking n w -> in_range n /\ p ∈ task (sys s) /\ p <> 0;
  (** the chain of mutex [n] holds exactly the tasks that sleep on it, once each *)
  inv_chain : forall n, in_range n -> exists l,
    linked (phase_of s) n (wait (mutex_at n (sys s))) l /\ NoDup l /\ forall p, sleeping s n p -> p ∈ l;
  inv_held : forall p n, (p, n) ∈ held s -> in_range n;
  inv_free : forall n, in_range n -> lock (mutex_at n (sys s)) = 0 <-> forall p, (p, n) ∉ held s;
  inv_owner : forall p q n, (p, n) ∈ held s -> (q, n) ∈ held s -> p = q;
  (** when a mutex is free and tasks sleep on it, one of them has been woken or
      the task that freed it is about to wake one *)
  inv_woken : forall n p, sleeping s n p -> lock (mutex_at n (sys s)) = 0 ->
    exists q, state_of (sys s) q = TASK_RUNNING /\ (sleeping s n q \/ about_to_wake s n q)
}.

Definition inv (s : msys) : Prop := inv_base s /\ state_of (sys s) (current (sys s)) = TASK_RUNNING.

Lemma phase_upd k phs h q ph p :
  phase_of (Msys k (<[q := ph]> phs) h) p = if decide (q = p) then ph else default Run (phs !! p).
Proof.
  unfold phase_of. cbn. case_decide; subst; [by rewrite lookup_insert_eq|by rewrite lookup_insert_ne].
Qed.

Lemma init_runnable s : inv_base s -> runnable (state_of (sys s)) (init_addr (sys s)).
Proof.
  intros H. destruct (inv_init s H) as [Hin Hnz]. split; [done|].
  apply (inv_running s H); [done|done|]. intros n Hs. by destruct (inv_sleeper s H n _ Hs) as (_ & _ & ?).
Qed.

(** A switch to a task that can run restores the full invariant. *)
Lemma switch_inv s p :
  inv_base s -> p ∈ task (sys s) -> runnable (state_of (sys s)) p ->
  inv (s <| sys := set_cur p (sys s) |>).
Proof.
  intros [Hwf Hd Hi Hl Hr Hs Hw Hc Hh Hf Ho Hk] Hp [Hnz Hst].
  split; [|done]. split; try done. split; [apply Hwf|]. by split.
Qed.

Lemma schedule_inv s :
  inv_base s -> exists p, schedule (sys s) = Ok (set_cur p (sys s), tt) /\
    inv (s <| sys := set_cur p (sys s) |>).
Proof.
  intros H. destruct (schedule_to (sys s) (inv_wf s H) (inv_distinct s H)) as (p & E & Hp & Hr).
  - exists (init_addr (sys s)). split; [apply (inv_init s H)|by apply init_runnable].
  - exists p. split; [done|]. by apply switch_inv.
Qed.

(** Replacing the phase of a task that does not sleep on [n] keeps the chain of
    [n]. *)
Lemma chain_keep s n k h q ph :
  in_range n -> (forall tmp, ph <> Sleeping n tmp) -> ~ sleeping s n q ->
  (exists l, linked (phase_of s) n (wait (mutex_at n (sys s))) l /\ NoDup l /\
     forall p, sleeping s n p -> p ∈ l) ->
  wait (mutex_at n k) = wait (mutex_at n (sys s)) ->
  exists l, linked (phase_of (Msys k (<[q := ph]> (phases s)) h)) n (wait (mutex_at n k)) l /\
    NoDup l /\ forall p, sleeping (Msys k (<[q := ph]> (phases s)) h) n p -> p ∈ l.
Proof.
  intros Hn Hph Hq (l & Hl & Hnd & Hall) Hw. exists l. split; [|split; [done|]].
  - rewrite Hw. eapply linked_ext; [exact Hl|]. intros p Hp. rewrite phase_upd.
    case_decide as Hqp; [|done]. subst. destruct (linked_in _ _ _ _ _ Hl Hp) as (_ & Hs). done.
  - intros p [tmp Hp]. rewrite phase_upd in Hp. case_decide; [by apply Hph in Hp|].
    apply Hall. by exists tmp.
Qed.

Lemma sleeping_upd s k h q ph n p :
  (forall tmp, ph <> Sleeping n tmp) -> ~ sleeping s n q ->
  sleeping (Msys k (<[q := ph]> (phases s)) h) n p <-> sleeping s n p.
Proof.
  intros Hph Hq. unfold sleeping. split; intros [tmp Hp]; exists tmp.
  - rewrite phase_upd in Hp. case_decide; [by apply Hph in Hp|done].
  - rewrite phase_upd. case_decide; [|done]. subst. destruct Hq. by exists tmp.
Qed.

(** A task other than [q] stays about to wake. *)
Lemma about_upd s k h q ph n p :
  about_to_wake s n p -> (forall w, phase_of s q <> Waking n w) ->
  wait (mutex_at n k) = wait (mutex_at n (sys s)) ->
  about_to_wake (Msys k (<[q := ph]> (phases s)) h) n p.
Proof.
  intros (w & Hp & Hw) Hq Hwait. exists w. rewrite phase_upd, decide_False by (intros <-; by apply (Hq w)).
  split; [exact Hp|]. cbn [sys]. by rewrite Hwait.
Qed.

Lemma awake_not_sleeping s p n :
  (forall m tmp, phase_of s p <> Sleeping m tmp) -> ~ sleeping s n p.
Proof. intros H [tmp Hp]. by apply H in Hp. Qed.

Ltac fields := cbn [sys phases held upd] in *.

Lemma state_upd_mutex n f k p : state_of (upd_mutex n f k) p = state_of k p.
Proof. done. Qed.

(** Taking a free mutex. *)
Lemma take_inv s n :
  let me := current (sys s) in
  inv s -> phase_of s me = Run -> in_range n -> lock (mutex_at n (sys s)) = 0 ->
  inv (Msys (upd_mutex n (fun m => m <| lock := 1 |>) (sys s))
            (<[me := Run]> (phases s)) ({[(me, n)]} ∪ held s)).
Proof.
  intros me [H Hcur] Hme Hn Hlock. pose proof H as [Hwf Hd Hi Hl Hr Hs Hw Hc Hh Hf Ho Hk].
  assert (forall m, ~ sleeping s m me) as Hnm by (intros m; apply awake_not_sleeping; congruence).
  pose proof (fun k h m p => sleeping_upd s k h me Run m p ltac:(done) (Hnm m)) as Hsl.
  split; [|done]. split; fields; try done.
  - by rewrite length_upd.
  - intros p Hp Hp0 Hns. apply Hr; try done. intros m Hm. apply (Hns m). by apply Hsl.
  - intros m p Hm%Hsl. by apply Hs.
  - intros m p w Hm. rewrite phase_upd in Hm. case_decide; [done|]. by apply (Hw m p w).
  - intros m Hm. apply chain_keep; try done; [by apply Hc|].
    rewrite mutex_upd by done. case_decide; [by subst|done].
  - intros p m [Hp|Hp]%elem_of_union; [|by eapply Hh].
    apply elem_of_singleton in Hp. by simplify_eq.
  - intros m Hm. rewrite mutex_upd by done. case_decide; subst.
    + split; [done|]. intros Hno. destruct (Hno me). set_solver.
    + rewrite Hf by done. split; intros Hno p; specialize (Hno p); set_solver.
  - intros p q m [Hp|Hp]%elem_of_union [Hq|Hq]%elem_of_union.
    + set_solver.
    + apply elem_of_singleton in Hp. simplify_eq. by apply Hf with (p := q) in Hlock.
    + apply elem_of_singleton in Hq. simplify_eq. by apply Hf with (p := p) in Hlock.
    + by eapply Ho.
  - intros m p Hm%Hsl. rewrite mutex_upd by (done || by eapply Hs). case_decide; [done|]. intros Hlm.
    destruct (Hk m p Hm Hlm) as (q & Hq & Hq'). exists q. split; [done|].
    destruct Hq' as [Hq'|Hq']; [left; by apply Hsl|right]. apply about_upd; [done|intros w; congruence|].
    rewrite mutex_upd by (done || by eapply Hs). by case_decide; subst.
Qed.

(** [sys_kunlock]'s store. *)
Lemma unlock_inv s n :
  let me := current (sys s) in
  inv s -> phase_of s me = Run -> (me, n) ∈ held s ->
  inv (Msys (upd_mutex n (fun m => m <| lock := 0 |>) (sys s))
            (<[me := Waking n Test]> (phases s)) (held s ∖ {[(me, n)]})).
Proof.
  intros me [H Hcur] Hme Hheld. pose proof H as [Hwf Hd Hi Hl Hr Hs Hw Hc Hh Hf Ho Hk].
  pose proof (Hh _ _ Hheld) as Hn.
  assert (forall m, ~ sleeping s m me) as Hnm by (intros m; apply awake_not_sleeping; congruence).
  pose proof (fun k h m p => sleeping_upd s k h me (Waking n Test) m p ltac:(done) (Hnm m)) as Hsl.
  split; [|done]. split; fields; try done.
  - by rewrite length_upd.
  - intros p Hp Hp0 Hns. apply Hr; try done. intros m Hm. apply (Hns m). by apply Hsl.
  - intros m p Hm%Hsl. by apply Hs.
  - intros m p w Hm. rewrite phase_upd in Hm. case_decide; [|by apply (Hw m p w)].
    simplify_eq. destruct Hwf as (_ & ? & ?). done.
  - intros m Hm. apply chain_keep; try done; [by apply Hc|].
    rewrite mutex_upd by done. case_decide; [by subst|done].
  - intros p m [Hp _]%elem_of_difference. by eapply Hh.
  - intros m Hm. rewrite mutex_upd by done. case_decide; subst.
    + split; [|done]. intros _ p [Hp Hne]%elem_of_difference. apply Hne, elem_of_singleton.
      f_equal. by eapply Ho.
    + rewrite Hf by done. split; intros Hno p; specialize (Hno p); set_solver.
  - intros p q m [Hp _]%elem_of_difference [Hq _]%elem_of_difference. by eapply Ho.
  - intros m p Hm%Hsl. rewrite mutex_upd by (done || by eapply Hs). case_decide; subst; intros Hlm.
    + exists me. split; [done|]. right. exists Test. rewrite phase_upd. by rewrite decide_True.
    + destruct (Hk m p Hm Hlm) as (q & Hq & Hq'). exists q. split; [done|].
      destruct Hq' as [Hq'|Hq']; [left; by apply Hsl|right]. apply about_upd; [done|intros w; congruence|].
      rewrite mutex_upd by (done || by eapply Hs). by rewrite decide_False.
Qed.

(** [wake_up] at the end of [sys_kunlock]. *)
Definition woken (h : Z) (k : sched_state) : sched_state :=
  if decide (h <> 0) then set_state h TASK_RUNNING k else k.

Lemma woken_same h k :
  cur (woken h k) = cur k /\ slots (woken h k) = slots k /\ init_task (woken h k) = init_task k /\
  kernel_mutxt_a (woken h k) = kernel_mutxt_a k.
Proof. unfold woken. by case_decide. Qed.

Lemma woken_running h k p : state_of k p = TASK_RUNNING -> state_of (woken h k) p = TASK_RUNNING.
Proof. unfold woken. intros Hp. case_decide; [|done]. rewrite state_set_state. by case_decide. Qed.

Lemma woken_head h k : h <> 0 -> state_of (woken h k) h = TASK_RUNNING.
Proof. unfold woken. intros Hp. rewrite decide_True, state_set_state by done. by rewrite decide_True. Qed.

(** Waking a task keeps the invariant. *)
Lemma woken_inv s h : inv s -> inv (s <| sys := woken h (sys s) |>).
Proof.
  intros [[Hwf Hd Hi Hl Hr Hs Hw Hc Hh Hf Ho Hk] Hcur].
  destruct (woken_same h (sys s)) as (Ec & Es & Ei & Em).
  split; [|unfold inv; fields; cbn in *; rewrite Ec; by apply woken_running].
  cbn in Ec, Es, Ei.
  assert (forall n, mutex_at n (woken h (sys s)) = mutex_at n (sys s)) as Eat
    by (intros n; unfold mutex_at; by rewrite Em).
  split; fields; try (unfold wf_table, slots_distinct in *; cbn; rewrite ?Ec, ?Es, ?Ei, ?Em; done).
  - intros p Hp Hp0 Hns. apply woken_running. rewrite Es in Hp. by apply Hr.
  - intros n Hn. rewrite Eat. by apply Hc.
  - intros n Hn. rewrite Eat. by apply Hf.
  - intros n p Hp. rewrite Eat. intros Hlm. destruct (Hk n p Hp Hlm) as (q & Hq & Hq').
    exists q. split; [by apply woken_running|]. destruct Hq' as [|(w & Hw' & Hwh)]; [by left|right].
    exists w. split; [done|]. cbn [sys]. by rewrite Eat.
Qed.

Lemma chain_head s n p :
  inv_base s -> sleeping s n p ->
  wait (mutex_at n (sys s)) <> 0 /\ sleeping s n (wait (mutex_at n (sys s))).
Proof.
  intros H Hp. destruct (inv_sleeper s H n p Hp) as (Hn & _).
  destruct (inv_chain s H n Hn) as (l & Hl & _ & Hall).
  destruct (linked_nonnull _ _ _ _ Hl) as [Hh Hnz].
  - intros ->. by apply Hall, not_elem_of_nil in Hp.
  - split; [done|]. by apply (linked_in _ _ _ _ _ Hl).
Qed.

(** A stage of [wake_up], which may wake [h], keeps the invariant when for the
    sleepers of [n] somebody is still responsible. *)
Lemma wake_inv s n w h ph :
  let me := current (sys s) in
  inv s -> phase_of s me = Waking n w -> (ph = Run \/ exists w', ph = Waking n w') ->
  (forall p, sleeping s n p -> lock (mutex_at n (sys s)) = 0 ->
     (exists q, state_of (woken h (sys s)) q = TASK_RUNNING /\
       (sleeping s n q \/ about_to_wake s n q /\ q <> me)) \/
     about_to_wake (Msys (woken h (sys s)) (<[me := ph]> (phases s)) (held s)) n me) ->
  inv (Msys (woken h (sys s)) (<[me := ph]> (phases s)) (held s)).
Proof.
  intros me Hinv Hme Hph Hn. destruct (woken_same h (sys s)) as (Ec & _ & _ & Em).
  assert (forall m, wait (mutex_at m (woken h (sys s))) = wait (mutex_at m (sys s))) as Ew
    by (intros m; unfold mutex_at; by rewrite Em).
  assert (forall m, ~ sleeping s m me) as Hnm by (intros m; apply awake_not_sleeping; congruence).
  assert (forall m tmp, ph <> Sleeping m tmp) as Hps by (intros m tmp; destruct Hph as [->|[w' ->]]; done).
  pose proof (fun k g m p => sleeping_upd s k g me ph m p (Hps m) (Hnm m)) as Hsl.
  pose proof (inv_waking s (proj1 Hinv) n me w Hme) as Hr0. pose proof (proj2 Hinv) as Hcur0.
  assert (forall m p, sleeping s m p -> lock (mutex_at m (sys s)) = 0 ->
    exists q, state_of (woken h (sys s)) q = TASK_RUNNING /\
      (sleeping s m q \/ about_to_wake (Msys (woken h (sys s)) (<[me := ph]> (phases s)) (held s)) m q)) as Hwk.
  { assert (forall m q, about_to_wake s m q -> q <> me ->
      about_to_wake (Msys (woken h (sys s)) (<[me := ph]> (phases s)) (held s)) m q) as Hkeep.
    { intros m q (w' & Hq & Hw') Hne. exists w'. rewrite phase_upd, decide_False by auto. split; [exact Hq|].
      cbn [sys]. by rewrite Ew. }
    intros m p Hp Hlm. destruct (decide (m = n)) as [->|Hmn].
    - destruct (Hn p Hp Hlm) as [(q & Hq & [Hq'|[Hq' Hne]])|Ha].
      + exists q. split; [done|by left].
      + exists q. split; [done|right; by apply Hkeep].
      + exists me. split; [by apply woken_running|by right].
    - destruct (inv_woken s (proj1 Hinv) m p Hp Hlm) as (q & Hq & Hq'). exists q.
      split; [by apply woken_running|]. destruct Hq' as [|Hq']; [by left|right]. apply Hkeep; [done|].
      destruct Hq' as (w' & Hq' & _). congruence. }
  destruct (woken_inv s h Hinv) as [[Hwf Hd Hi Hl Hr Hs Hw Hc Hh Hf Ho _] Hcur].
  split; [|done]. split; fields; try done.
  - intros p Hp Hp0 Hns. apply Hr; try done. intros m Hm. apply (Hns m). by apply Hsl.
  - intros m p Hm%Hsl. by apply Hs.
  - intros m p v Hm. rewrite phase_upd in Hm. case_decide as Hp; [|by apply (Hw m p v)]. rewrite <-Hp.
    destruct Hph as [E|[w' E]]; rewrite E in Hm; [done|]. injection Hm as <- _. by apply (Hw n me w).
  - intros m Hm. apply chain_keep; [done|apply Hps|apply Hnm| |by rewrite Ew].
    destruct (Hc m Hm) as (l & Hlk & ?). exists l. by rewrite Ew in Hlk.
  - intros m p Hm%Hsl. unfold mutex_at. rewrite Em. intros Hlm.
    destruct (Hwk m p Hm Hlm) as (q & Hq & Hq'). exists q. split; [done|].
    destruct Hq' as [Hq'|Hq']; [left; by apply Hsl|by right].
Qed.

Lemma sleeping_run s k h q n p :
  sleeping (Msys k (<[q := Run]> (phases s)) h) n p <-> sleeping s n p /\ q <> p.
Proof.
  unfold sleeping. split.
  - intros [tmp Hp]. rewrite phase_upd in Hp. case_decide; [done|]. split; [by exists tmp|done].
  - intros [[tmp Hp] Hne]. exists tmp. rewrite phase_upd. by rewrite decide_False.
Qed.

(** The end of [__sleep_on]: the head of the queue leaves it and wakes the
    next task. *)
Lemma pop_chain s n tmp :
  let me := current (sys s) in
  inv_base s -> phase_of s me = Sleeping n tmp -> wait (mutex_at n (sys s)) = me ->
  exists l, linked (phase_of s) n tmp l /\ NoDup l /\ me ∉ l /\
    forall p, sleeping s n p -> p <> me -> p ∈ l.
Proof.
  intros me H Hme Hhd. destruct (inv_sleeper s H n me) as (Hn & _); [by exists tmp|].
  destruct (inv_chain s H n Hn) as (l & Hl & Hnd & Hall). rewrite Hhd in Hl.
  destruct l as [|q l].
  - assert (me ∈ []) as Hin by (apply Hall; by exists tmp). by apply not_elem_of_nil in Hin.
  - destruct Hl as (<- & _ & tmp' & Hph & Hl). assert (tmp' = tmp) as -> by congruence.
    apply list.NoDup_cons in Hnd as [Hni Hnd]. exists l. split; [done|]. split; [done|].
    split; [done|]. intros p Hp Hne. apply Hall in Hp. by apply elem_of_cons in Hp as [?|?].
Qed.

Lemma pop_inv s n tmp :
  let me := current (sys s) in
  inv s -> phase_of s me = Sleeping n tmp -> wait (mutex_at n (sys s)) = me ->
  inv (Msys (woken tmp (set_head n tmp (sys s))) (<[me := Run]> (phases s)) (held s)).
Proof.
  intros me Hinv Hme Hhd. rewrite set_head_upd. set (k := upd_mutex n _ (sys s)).
  destruct (pop_chain s n tmp (proj1 Hinv) Hme Hhd) as (l & Hlk & Hnd & Hni & Hall).
  destruct Hinv as [[Hwf Hd Hi Hl Hr Hs Hw Hc Hh Hf Ho Hk] Hcur].
  destruct (woken_same tmp k) as (Ec & Es & Ei & Em). cbn in Ec, Es, Ei.
  assert (in_range n) as Hn by (apply (Hs n me); by exists tmp).
  assert (forall m, in_range m -> lock (mutex_at m (woken tmp k)) = lock (mutex_at m (sys s)) /\
    wait (mutex_at m (woken tmp k)) = if decide (n = m) then tmp else wait (mutex_at m (sys s))) as Eat.
  { intros m Hm. unfold mutex_at at 1 3. rewrite Em. change (default _ _) with (mutex_at m k).
    unfold k. rewrite mutex_upd by done. case_decide; by subst. }
  pose proof (sleeping_run s (woken tmp k) (held s) me) as Hsl.
  assert (forall p, state_of (sys s) p = TASK_RUNNING -> state_of (woken tmp k) p = TASK_RUNNING) as Hst
    by (intros p Hp; by apply woken_running).
  split; [|fields; cbn in *; rewrite Ec; by apply Hst].
  split; fields; rewrite ?Es, ?Ei.
  - unfold wf_table. cbn. by rewrite Ec, Es.
  - unfold slots_distinct. cbn. by rewrite Es.
  - done.
  - rewrite Em. unfold k. by rewrite length_upd.
  - intros p Hp Hp0 Hns. apply Hst. destruct (decide (p = me)) as [->|Hne]; [done|].
    apply Hr; try done. intros m Hm. apply (Hns m). apply Hsl. by split.
  - intros m p [Hm _]%Hsl. by apply Hs.
  - intros m p w Hm. rewrite phase_upd in Hm. case_decide; [done|]. by apply (Hw m p w).
  - intros m Hm. destruct (Eat m Hm) as [_ ->]. case_decide as Hnm; subst.
    + exists l. split; [|split; [done|]].
      * eapply linked_ext; [done|]. intros p Hp. rewrite phase_upd. case_decide; [by subst|done].
      * intros p [Hp Hne]%Hsl. by apply Hall.
    + destruct (Hc m Hm) as (lm & Hlm & Hndm & Hallm). exists lm. split; [|split; [done|]].
      * eapply linked_ext; [done|]. intros p Hp. rewrite phase_upd. case_decide; [|done]. subst.
        destruct (linked_in _ _ _ _ _ Hlm Hp) as (_ & ? & ?). congruence.
      * intros p [Hp _]%Hsl. by apply Hallm.
  - done.
  - intros m Hm. destruct (Eat m Hm) as [-> _]. by apply Hf.
  - done.
  - intros m p [Hm Hne]%Hsl. destruct (Hs m p Hm) as (Hmr & _). destruct (Eat m Hmr) as [-> _].
    intros Hlm. destruct (decide (m = n)) as [->|Hmn].
    + destruct (linked_nonnull _ _ _ _ Hlk) as [Ht Htz].
      { intros ->. by apply Hall, not_elem_of_nil in Hm. }
      exists tmp. split; [by apply woken_head|]. left. apply Hsl.
      split; [by apply (linked_in _ _ _ _ _ Hlk)|]. by intros <-.
    + destruct (Hk m p Hm Hlm) as (q & Hq & Hq'). exists q. split; [by apply Hst|].
      destruct Hq' as [Hq'|Hq'].
      * left. apply Hsl. split; [done|]. intros <-. destruct Hq' as [? ?]. congruence.
      * right. apply about_upd; [done|intros w; congruence|]. destruct (Eat m Hmr) as [_ ->]. by rewrite decide_False by auto.
Qed.

(** [sleep_on] by a task that finds the mutex locked, up to [schedule]. *)
Lemma push_inv s n :
  let me := current (sys s) in
  inv s -> phase_of s me = Run -> in_range n -> lock (mutex_at n (sys s)) <> 0 ->
  me <> init_addr (sys s) ->
  inv_base (Msys (set_state me TASK_UNINTERRUPTIBLE (set_head n me (sys s)))
                 (<[me := Sleeping n (wait (mutex_at n (sys s)))]> (phases s)) (held s)).
Proof.
  intros me [[Hwf Hd Hi Hl Hr Hs Hw Hc Hh Hf Ho Hk] Hcur] Hme Hn Hlock Hni.
  rewrite set_head_upd. set (k := upd_mutex n _ (sys s)).
  set (tmp := wait (mutex_at n (sys s))).
  assert (forall m, in_range m -> lock (mutex_at m k) = lock (mutex_at m (sys s)) /\
    wait (mutex_at m k) = if decide (n = m) then me else wait (mutex_at m (sys s))) as Eat.
  { intros m Hm. unfold k. rewrite mutex_upd by done. case_decide; by subst. }
  set (s' := Msys _ _ _).
  assert (forall p, phase_of s' p = if decide (me = p) then Sleeping n tmp else phase_of s p) as Eph
    by (intros p; unfold s'; by rewrite phase_upd).
  assert (forall m, ~ sleeping s m me) as Hnm by (intros m; apply awake_not_sleeping; congruence).
  assert (forall m p, sleeping s' m p <-> sleeping s m p \/ (m = n /\ p = me)) as Hsl.
  { intros m p. unfold sleeping. rewrite Eph. case_decide; subst; [|naive_solver].
    split; [intros [? ?]; right; naive_solver|].
    intros [[? ?]|[-> _]]; [congruence|by eexists]. }
  assert (sys s' = set_state me TASK_UNINTERRUPTIBLE k) as Esys by done.
  destruct Hwf as (Hl64 & Hm0 & Hmin).
  split; rewrite ?Esys; try done.
  - by rewrite mutex_set_state || by cbn; rewrite length_alter.
  - intros p Hp Hp0 Hns. rewrite state_set_state. case_decide as Hpm.
    + subst. destruct (Hns n). apply Hsl. by right.
    + apply Hr; try done. intros m Hm. apply (Hns m), Hsl. by left.
  - intros m p [Hm|[-> ->]]%Hsl; [by apply Hs|done].
  - intros m p w Hm. rewrite Eph in Hm. case_decide; [done|by apply (Hw m p w)].
  - intros m Hm. rewrite mutex_set_state. destruct (Eat m Hm) as [_ ->].
    destruct (Hc m Hm) as (l & Hlk & Hnd & Hall).
    assert (me ∉ l) as Hmel by (intros Hin; by apply (Hnm m), (linked_in _ _ _ _ _ Hlk)).
    assert (linked (phase_of s') m (wait (mutex_at m (sys s))) l) as Hlk'.
    { eapply linked_ext; [exact Hlk|]. intros p Hp. rewrite Eph. case_decide; [by subst|done]. }
    case_decide; subst.
    + exists (me :: l). split; [|split].
      * split; [done|]. split; [done|]. exists tmp. split; [|done]. rewrite Eph. by rewrite decide_True.
      * by apply list.NoDup_cons.
      * intros p [Hp|[_ ->]]%Hsl; apply elem_of_cons; [right; by apply Hall|by left].
    + exists l. split; [done|]. split; [done|]. intros p [Hp|[-> _]]%Hsl; [by apply Hall|done].
  - intros m Hm. rewrite mutex_set_state. destruct (Eat m Hm) as [-> _]. by apply Hf.
  - intros m p Hm. rewrite mutex_set_state.
    destruct (decide (m = n)) as [->|Hmn]; [by destruct (Eat n Hn) as [-> _]|].
    apply Hsl in Hm as [Hm|[? _]]; [|done]. destruct (Eat m) as [-> _]; [by eapply Hs|].
    intros Hlm. destruct (Hk m p Hm Hlm) as (q & Hq & Hq'). exists q.
    rewrite state_set_state. destruct (decide (me = q)) as [<-|Hne].
    + destruct Hq' as [|(w & ? & _)]; [by destruct (Hnm m)|congruence].
    + split; [done|]. destruct Hq'; [left; apply Hsl; by left|right]. apply about_upd; [done|intros w; congruence|].
      rewrite mutex_set_state. destruct (Eat m) as [_ ->]; [by eapply Hs|]. by rewrite decide_False by auto.
Qed.

(** The branch of [__sleep_on] that hands the processor to the head of the
    queue, up to [schedule]. *)
Lemma relay_inv s n tmp :
  let me := current (sys s) in
  let h := wait (mutex_at n (sys s)) in
  inv s -> phase_of s me = Sleeping n tmp -> h <> me ->
  inv_base (s <| sys := set_state me TASK_UNINTERRUPTIBLE (set_state h TASK_RUNNING (sys s)) |>).
Proof.
  intros me h [H Hcur] Hme Hh0. assert (sleeping s n me) as Hsm by (by exists tmp).
  destruct (chain_head s n me H Hsm) as [_ Hsh]. fold h in Hsh.
  destruct H as [Hwf Hd Hi Hl Hr Hs Hw Hc Hh Hf Ho Hk].
  split; fields; try done.
  - intros p Hp Hp0 Hns. rewrite !state_set_state. case_decide; subst; [by destruct (Hns n)|].
    case_decide; [done|]. by apply Hr.
  - intros m p Hm. rewrite !mutex_set_state. intros Hlm.
    destruct (decide (m = n)) as [->|Hmn].
    + exists h. rewrite !state_set_state. rewrite decide_False by done.
      rewrite decide_True by done. split; [done|by left].
    + destruct (Hk m p Hm Hlm) as (q & Hq & Hq'). exists q. split; [|done].
      rewrite !state_set_state. case_decide as Hmq; [|by case_decide].
      exfalso. rewrite <-Hmq in Hq'. destruct Hq' as [[? ?]|(w & ? & _)]; congruence.
Qed.

(** ** Every step keeps the invariant *)

(** What a step may stop the machine with: an index out of range, task 0
    on a mutex that is locked, or a [wake_up] whose queue became empty behind its
    test. *)
Inductive mutex_fault (s : msys) : fault -> event -> Prop :=
| fault_index n : ~ in_range n -> mutex_fault s (Wild "kernel_mutxt_a") (Klock n)
| fault_idle n : in_range n -> current (sys s) = init_addr (sys s) ->
    lock (mutex_at n (sys s)) <> 0 -> mutex_fault s (Panic "task[0] trying to sleep") (Klock n)
| fault_null n : phase_of s (current (sys s)) = Waking n (Store 0) -> mutex_fault s (Wild "NULL") Wake.

Lemma set_phase_again k p ph phs h :
  Msys k (<[p := ph]> (<[p := Run]> phs)) h = Msys k (<[p := ph]> phs) h.
Proof. by rewrite insert_insert_eq. Qed.

Lemma klock_free s n :
  inv_base s -> in_range n -> lock (mutex_at n (sys s)) = 0 ->
  klock_loop n (sys s) = Ok (upd_mutex n (fun m => m <| lock := 1 |>) (sys s), None).
Proof.
  intros H Hn Hl. pose proof (inv_len s H) as Hlen. unfold klock_loop.
  rewrite (bind_ok _ _ _ _ _ (get_mutex_ok n _ Hlen Hn)), decide_False by (intros ?; done).
  by rewrite (bind_ok _ _ _ _ _ (set_lock_ok n 1 _ Hlen Hn)).
Qed.

Lemma klock_idle s n :
  inv_base s -> in_range n -> lock (mutex_at n (sys s)) <> 0 ->
  current (sys s) = init_addr (sys s) ->
  klock_loop n (sys s) = Err (Panic "task[0] trying to sleep").
Proof.
  intros H Hn Hl Hi. unfold klock_loop.
  rewrite (bind_ok _ _ _ _ _ (get_mutex_ok n _ (inv_len s H) Hn)), decide_True by done.
  unfold sleep_on, sleep_enter, mbind, M_bind, get. cbn [cur init_task sched_ops].
  by rewrite decide_True.
Qed.

Lemma klock_busy s n :
  let me := current (sys s) in
  inv s -> phase_of s me = Run -> in_range n -> lock (mutex_at n (sys s)) <> 0 ->
  me <> init_addr (sys s) ->
  exists k, klock_loop n (sys s) = Ok (k, Some (wait (mutex_at n (sys s)))) /\
    inv (Msys k (<[me := Sleeping n (wait (mutex_at n (sys s)))]> (phases s)) (held s)).
Proof.
  intros me Hinv Hme Hn Hl Hi.
  destruct (schedule_inv _ (push_inv s n Hinv Hme Hn Hl Hi)) as (p & E & Hp). fields.
  eexists. split; [|exact Hp]. unfold klock_loop.
  rewrite (bind_ok _ _ _ _ _ (get_mutex_ok n _ (inv_len s (proj1 Hinv)) Hn)), decide_True by done.
  unfold sleep_on, sleep_enter. unfold mbind at 1 2, M_bind at 1 2, get. rewrite decide_False by done.
  unfold modify, mbind, M_bind. change (cur _) with (current (sys s)) at 1.
  change (cur (sys s)) with (current (sys s)). rewrite E. cbv beta iota.
  unfold mret, M_ret. by rewrite head_mutex.
Qed.

Lemma klock_exec s n :
  let me := current (sys s) in
  inv s -> phase_of s me = Run ->
  match klock_outcome s me n (klock_loop n (sys s)) with
  | Ok s' => inv s'
  | Err f => mutex_fault s f (Klock n)
  end.
Proof.
  intros me Hinv Hme. destruct (decide (0 ≤ n < 64)) as [Hn|Hn].
  2: { unfold klock_loop. rewrite (bind_err _ _ _ _ (get_mutex_wild n _ (inv_len s (proj1 Hinv)) Hn)).
       by apply fault_index. }
  destruct (decide (lock (mutex_at n (sys s)) = 0)) as [Hl|Hl].
  { rewrite (klock_free s n (proj1 Hinv) Hn Hl). by apply take_inv. }
  destruct (decide (me = init_addr (sys s))) as [Hi|Hi].
  - rewrite (klock_idle s n (proj1 Hinv) Hn Hl Hi). by apply fault_idle.
  - destruct (klock_busy s n Hinv Hme Hn Hl Hi) as (k & -> & Hk). exact Hk.
Qed.

Lemma resume_head s n tmp :
  in_range n -> wait (mutex_at n (sys s)) = current (sys s) ->
  klock_resume n tmp (sys s) = klock_loop n (woken tmp (set_head n tmp (sys s))).
Proof.
  intros Hn Hh. unfold klock_resume.
  assert (sleep_resume n tmp (sys s) = Ok (woken tmp (set_head n tmp (sys s)), true)) as E;
    [|by rewrite (bind_ok _ _ _ _ _ E)].
  unfold sleep_resume, mbind, M_bind, get. rewrite head_mutex by done.
  rewrite decide_False by (intros [_ ?]; done). unfold modify, when, woken.
  by destruct (decide (tmp <> 0)); [rewrite bool_decide_true|rewrite bool_decide_false].
Qed.

Lemma resume_relay s n tmp :
  let me := current (sys s) in
  let h := wait (mutex_at n (sys s)) in
  inv s -> phase_of s me = Sleeping n tmp -> h <> me ->
  exists p, let k := set_cur p (set_state me TASK_UNINTERRUPTIBLE (set_state h TASK_RUNNING (sys s))) in
    klock_resume n tmp (sys s) = Ok (k, Some tmp) /\ inv (s <| sys := k |>).
Proof.
  intros me h Hinv Hme Hh. pose proof Hinv as [Hb _].
  assert (sleeping s n me) as Hsm by (by exists tmp).
  destruct (inv_sleeper s Hb n me Hsm) as (Hn & _ & _).
  destruct (chain_head s n me Hb Hsm) as [Hh0 _].
  destruct (schedule_inv _ (relay_inv s n tmp Hinv Hme Hh)) as (p & E & Hp). fields.
  exists p. split; [|exact Hp].
  unfold klock_resume, sleep_resume, mbind, M_bind, get. rewrite head_mutex by done.
  rewrite decide_True by done. unfold modify.
  rewrite cur_set_state. unfold me, h. cbn [cur sched_ops]. by rewrite E.
Qed.

Lemma resume_exec s n tmp :
  let me := current (sys s) in
  inv s -> phase_of s me = Sleeping n tmp ->
  exists s', klock_outcome s me n (klock_resume n tmp (sys s)) = Ok s' /\ inv s'.
Proof.
  intros me Hinv Hme. pose proof Hinv as [Hb _].
  destruct (inv_sleeper s Hb n me) as (Hn & _ & Hni); [by exists tmp|].
  destruct (decide (wait (mutex_at n (sys s)) = me)) as [Hh|Hh].
  - rewrite resume_head by done. pose proof (pop_inv s n tmp Hinv Hme Hh) as Hpop.
    set (s1 := Msys _ _ _) in Hpop.
    assert (current (sys s1) = me) as Hme1 by apply woken_same.
    assert (phase_of s1 me = Run) as Hrun by (unfold s1; by rewrite phase_upd, decide_True).
    pose proof (klock_exec s1 n) as Hx. cbv zeta in Hx. rewrite Hme1 in Hx.
    specialize (Hx Hpop Hrun). change (woken _ _) with (sys s1).
    assert (forall o, klock_outcome s1 me n o = klock_outcome s me n o) as Eo.
    { intros [[k [x|]]|f]; cbn; [| |done]; by rewrite insert_insert_eq. }
    rewrite Eo in Hx. destruct (klock_outcome s me n _) as [s'|f] eqn:Eout; [by eexists|].
    exfalso. inversion Hx; subst; [done|]. rewrite Hme1 in *. apply Hni.
    destruct (woken_same tmp (set_head n tmp (sys s))) as (_ & _ & Ei & _).
    cbn in Ei. by rewrite <-Ei.
  - destruct (resume_relay s n tmp Hinv Hme Hh) as (p & -> & Hp). eexists. split; [done|].
    assert (<[me := Sleeping n tmp]> (phases s) = phases s) as ->; [|exact Hp].
    apply insert_id. unfold phase_of in Hme. by destruct (phases s !! me); cbn in *; congruence.
Qed.

(** The stages of [wake_up]. *)
Lemma wake_exec s n w :
  let me := current (sys s) in
  inv s -> phase_of s me = Waking n w ->
  match exec s Wake with
  | Ok s' => inv s'
  | Err f => mutex_fault s f Wake
  end.
Proof.
  intros me Hinv Hme. pose proof Hinv as [Hb _]. destruct (inv_waking s Hb n me w Hme) as (Hm & _).
  pose proof (get_mutex_ok n _ (inv_len s Hb) Hm) as Eg. unfold exec. cbv zeta. fold me. rewrite Hme.
  assert (forall k, woken 0 k = k) as E0 by done.
  destruct w as [| |h]; cbn [kunlock_wake]; [rewrite (bind_ok _ _ _ _ _ Eg)..|].
  - unfold mret, M_ret. destruct (decide (wait (mutex_at n (sys s)) <> 0)) as [Hh|Hh]; [pose proof (wake_inv s n Test 0 (Waking n Load) Hinv Hme) as H|
      pose proof (wake_inv s n Test 0 Run Hinv Hme) as H]; cbv zeta in H; rewrite E0 in H; apply H;
      [right; by eexists| |by left|].
    + intros p _ _. right. exists Load. by rewrite phase_upd, decide_True.
    + intros p Hp _. exfalso. by apply Hh, (chain_head s n p Hb).
  - pose proof (wake_inv s n Load 0 (Waking n (Store (wait (mutex_at n (sys s))))) Hinv Hme) as H.
    cbv zeta in H. rewrite E0 in H. apply H; [right; by eexists|].
    intros p _ _. right. eexists. by rewrite phase_upd, decide_True.
  - case_decide as Hh; [subst; by apply (fault_null s n)|].
    pose proof (wake_inv s n (Store h) h Run Hinv Hme (or_introl eq_refl)) as H. unfold woken in H.
    rewrite decide_True in H by done. apply H. clear H.
    intros p Hp Hl. left. destruct (inv_woken s Hb n p Hp Hl) as (q & Hq & Hq').
    assert (forall q, state_of (sys s) q = TASK_RUNNING -> state_of (set_state h TASK_RUNNING (sys s)) q = TASK_RUNNING) as Hst
      by (intros q' Hq2; rewrite state_set_state; by case_decide).
    destruct Hq' as [Hq'|Hq']; [exists q; split; [by apply Hst|by left]|].
    destruct (decide (q = me)) as [->|Hne]; [|exists q; split; [by apply Hst|by right]].
    destruct Hq' as (w & Ew & Hw). assert (w = Store h) as -> by congruence. cbv iota in Hw. exists h.
    rewrite state_set_state, decide_True by done. split; [done|left]. rewrite Hw. by apply (chain_head s n p Hb).
Qed.

(** Without an interrupt the stages are [wake_up]. *)
Lemma wake_stages n k : length (kernel_mutxt_a k) = 64%nat -> in_range n ->
  (w ← kunlock_wake n Test;
   match w with
   | Some w => w ← kunlock_wake n w; match w with Some w => kunlock_wake n w | None => mret None end
   | None => mret None
   end) k = (wake_up n;; mret None) k.
Proof.
  intros Hl Hn. pose proof (get_mutex_ok n k Hl Hn) as Eg. unfold wake_up, mbind, M_bind, get, when.
  cbn [kunlock_wake]. unfold mbind, M_bind. rewrite Eg. unfold mret, M_ret. rewrite head_mutex by done.
  destruct (decide (wait (mutex_at n k) <> 0)) as [Hh|Hh]; [rewrite bool_decide_true by done|by rewrite bool_decide_false].
  cbn [kunlock_wake]. unfold mbind, M_bind. rewrite Eg. unfold mret, M_ret. cbn [kunlock_wake].
  by rewrite decide_False.
Qed.

(** Safety of one step: the invariant is kept, or the machine stops in one of
    the ways of [mutex_fault]. *)
Lemma exec_inv s e :
  inv s -> enabled s e ->
  match exec s e with
  | Ok s' => inv s'
  | Err f => mutex_fault s f e
  end.
Proof.
  intros Hinv Hen. pose proof Hinv as [Hb _]. unfold enabled in Hen.
  destruct e as [n| |n| |], (phase_of s (current (sys s))) as [|m tmp|m w] eqn:Hme; try done;
    try (by apply (wake_exec s m w)); unfold exec; cbv zeta; rewrite ?Hme.
  - by apply klock_exec.
  - destruct (resume_exec s m tmp Hinv Hme) as (s' & -> & ?). done.
  - unfold kunlock_store. rewrite set_lock_ok by (apply Hb || by eapply inv_held).
    by apply unlock_inv.
  - unfold do_timer. destruct (schedule_inv s Hb) as (p & -> & ?). done.
  - unfold do_timer. destruct (schedule_inv s Hb) as (p & -> & ?). done.
Qed.

Lemma initial_inv s : initial s -> inv s.
Proof.
  intros (Hwf & Hd & Hi & Hi0 & Hph & Hh & Hm & Hr).
  assert (forall n p, ~ sleeping s n p) as Hns.
  { intros n p [tmp Hp]. unfold phase_of in Hp. by rewrite Hph in Hp. }
  assert (forall n, in_range n -> mutex_at n (sys s) = Mutex 0 0) as Hat.
  { intros n Hn. unfold in_range in Hn. unfold mutex_at, arr_get. rewrite Hm, decide_True by lia.
    by rewrite lookup_replicate_2 by lia. }
  split; [|destruct Hwf as (_ & ? & ?); by apply Hr].
  split; try done.
  - by rewrite Hm.
  - intros p Hp Hp0 _. by apply Hr.
  - intros n p Hp. by destruct (Hns n p).
  - intros n p w Hp. unfold phase_of in Hp. by rewrite Hph in Hp.
  - intros n Hn. exists []. rewrite Hat by done. split; [done|]. split; [apply NoDup_nil_2|].
    intros p Hp. by destruct (Hns n p).
  - intros p n Hp. by rewrite Hh in Hp.
  - intros n Hn. rewrite Hat, Hh by done. split; [intros _ p; apply not_elem_of_empty|done].
  - intros p q n Hp. by rewrite Hh in Hp.
  - intros n p Hp. by destruct (Hns n p).
Qed.

Lemma reachable_inv s : reachable s -> inv s.
Proof.
  induction 1 as [s Hs|s e s' _ IH [Hen Hex]]; [by apply initial_inv|].
  pose proof (exec_inv s e IH Hen) as Hx. by rewrite Hex in Hx.
Qed.

(** ** Properties *)

(** C1.  Mutual exclusion: in every reachable state at most one task holds a
    kernel mutex, and the [lock] field is nonzero exactly when a task holds
    it. *)
Theorem mutual_exclusion s n :
  reachable s -> in_range n ->
  (forall p q, (p, n) ∈ held s -> (q, n) ∈ held s -> p = q) /\
  (lock (mutex_at n (sys s)) <> 0 <-> exists p, (p, n) ∈ held s).
Proof.
  intros [H _]%reachable_inv Hn. split; [intros p q; by apply (inv_owner s H)|].
  rewrite (inv_free s H n Hn). split; [|intros [p Hp] Hno; by apply (Hno p)].
  intros Hne. destruct (decide (Exists (fun x => x.2 = n) (elements (held s)))) as [He|He].
  - apply list.Exists_exists in He as ([p m] & Hp%elem_of_elements & Heq). cbn in Heq. subst. eauto.
  - destruct Hne. intros p Hp. apply He, list.Exists_exists. exists (p, n).
    by rewrite elem_of_elements.
Qed.

(** C28.  The tasks that sleep on a mutex are exactly the tasks met when
    following the queue from the [wait] field through the sleepers' local
    variables [tmp], each met once: no sleeping task is dropped from the queue
    and, while one sleeps, the head is not null (the warning of [__sleep_on] is
    never printed). *)
Theorem wait_chain_complete s n :
  reachable s -> in_range n ->
  exists l, linked (phase_of s) n (wait (mutex_at n (sys s))) l /\ NoDup l /\
    (forall p, p ∈ l <-> sleeping s n p) /\
    ((exists p, sleeping s n p) -> wait (mutex_at n (sys s)) <> 0).
Proof.
  intros [H _]%reachable_inv Hn. destruct (inv_chain s H n Hn) as (l & Hl & Hnd & Hall).
  exists l. split; [done|]. split; [done|]. split.
  - intros p. split; [|apply Hall]. intros Hp. by apply (linked_in _ _ _ _ _ Hl).
  - intros [p Hp]. by apply (chain_head s n p).
Qed.

(** C8.  No lost wake-up: when a mutex is free and a task sleeps on it, some
    task that sleeps on it is runnable, or the task that freed it is runnable
    and about to wake the head of the queue. *)
Theorem no_lost_wakeup s n p :
  reachable s -> sleeping s n p -> lock (mutex_at n (sys s)) = 0 ->
  exists q, state_of (sys s) q = TASK_RUNNING /\ (sleeping s n q \/ about_to_wake s n q).
Proof. intros [H _]%reachable_inv Hp Hl. by apply (inv_woken s H n p). Qed.

(** C29.  A reachable system is never stuck and stops only in three ways: the
    current task is runnable and can take a step; a step that is enabled leads
    to a reachable state unless it locks an index outside the 64 mutexes, is
    task 0 locking a mutex that is taken, or is the store of a [wake_up] that found
    the queue empty when it loaded its head a second time ([wake_up_null]). *)
Theorem mutex_steps_safe s :
  reachable s ->
  state_of (sys s) (current (sys s)) = TASK_RUNNING /\
  (exists e s', (e = Timer \/ e = Resume) /\ step s e s') /\
  forall e, enabled s e ->
    match exec s e with Ok s' => reachable s' | Err f => mutex_fault s f e end.
Proof.
  intros Hr. pose proof (reachable_inv s Hr) as Hinv. split; [apply Hinv|].
  assert (forall e, enabled s e ->
    match exec s e with Ok s' => reachable s' | Err f => mutex_fault s f e end) as Hsafe.
  { intros e Hen. pose proof (exec_inv s e Hinv Hen) as Hx. destruct (exec s e) eqn:E; [|done].
    by apply (reach_step s e). }
  split; [|done].
  assert (exists e, (e = Timer \/ e = Resume) /\ enabled s e) as (e & He & Hen).
  { unfold enabled. destruct (phase_of s _) eqn:E;
      [exists Timer|exists Resume|exists Timer]; auto. }
  pose proof (Hsafe e Hen) as Hx. destruct (exec s e) as [s'|f] eqn:E.
  - exists e, s'. split; [done|]. by split.
  - exfalso. inversion Hx; subst; by destruct He.
Qed.

(** A woken task makes progress: if it is the head of the queue of a free
    mutex it takes the mutex; if it is not the head it makes the head runnable
    before it sleeps again. *)
Theorem resume_progress s n tmp :
  reachable s -> phase_of s (current (sys s)) = Sleeping n tmp ->
  exists s', exec s Resume = Ok s' /\
    (wait (mutex_at n (sys s)) = current (sys s) -> lock (mutex_at n (sys s)) = 0 ->
       (current (sys s), n) ∈ held s' /\ current (sys s') = current (sys s)) /\
    (wait (mutex_at n (sys s)) <> current (sys s) ->
       state_of (sys s') (wait (mutex_at n (sys s))) = TASK_RUNNING /\
       phase_of s' (current (sys s)) = Sleeping n tmp).
Proof.
  intros [Hinv Hcur]%reachable_inv Hme. pose proof (conj Hinv Hcur : inv s) as Hi.
  destruct (resume_exec s n tmp Hi Hme) as (s' & E & Hs'). exists s'.
  assert (exec s Resume = Ok s') as -> by (unfold exec; by rewrite Hme).
  split; [done|]. destruct (inv_sleeper s Hinv n (current (sys s))) as (Hn & _); [by exists tmp|].
  split; intros Hh.
  - intros Hl. rewrite resume_head in E by done. set (k := woken _ _) in E.
    destruct (woken_same tmp (set_head n tmp (sys s))) as (Ec & _ & _ & Em). fold k in Ec, Em.
    assert (mutex_at n k = Mutex tmp (lock (mutex_at n (sys s)))) as Hat.
    { unfold mutex_at at 1. rewrite Em, set_head_upd.
      change (default _ _) with (mutex_at n (upd_mutex n (fun m => m <| wait := tmp |>) (sys s))).
      rewrite mutex_upd by (done || apply Hinv). by rewrite decide_True. }
    unfold klock_loop in E.
    assert (length (kernel_mutxt_a k) = 64%nat) as Hlen.
    { rewrite Em, set_head_upd, length_upd. apply Hinv. }
    rewrite (bind_ok _ _ _ _ _ (get_mutex_ok n k Hlen Hn)), Hat in E.
    rewrite decide_False in E by (intros Hx; by apply Hx).
    rewrite (bind_ok _ _ _ _ _ (set_lock_ok n 1 k Hlen Hn)) in E. cbn in E. simplify_eq.
    split; [cbn; set_solver|]. exact Ec.
  - destruct (resume_relay s n tmp Hi Hme Hh) as (p & Er & _). rewrite Er in E. injection E as <-.
    split; [|by rewrite phase_upd, decide_True]. cbn [sys].
    change (state_of (set_state (current (sys s)) TASK_UNINTERRUPTIBLE
      (set_state (wait (mutex_at n (sys s))) TASK_RUNNING (sys s))) (wait (mutex_at n (sys s))) = TASK_RUNNING).
    rewrite state_set_state, decide_False by done. by rewrite state_set_state, decide_True.
Qed.

(** ** A run of three tasks *)

(** Run a list of events, [None] when one is not enabled or stops the machine. *)
Fixpoint run (s : msys) (es : list event) : option msys :=
  match es with
  | [] => Some s
  | e :: es =>
      if decide (enabled s e) then
        match exec s e with Ok s' => run s' es | Err _ => None end
      else None
  end.

Lemma run_reachable s es s' : reachable s -> run s es = Some s' -> reachable s'.
Proof.
  revert s. induction es as [|e es IH]; intros s Hr E; cbn [run] in E; [by simplify_eq|].
  case_decide as Hen; [|done]. destruct (exec s e) as [s1|f] eqn:Ex; [|done].
  apply (IH s1); [|done]. by apply (reach_step s e).
Qed.

Definition start : msys := {|
  sys := three_tasks <| tstate := {[4096 := 0; 8192 := 0; 12288 := 0]} |>;
  phases := ∅; held := ∅
|}.

Lemma start_initial : initial start.
Proof.
  split; [exact three_tasks_wf|].
  split; [apply slots_distinct_dec, (bool_decide_eq_true_1 _); by vm_compute|].
  split; [by apply (list_elem_of_lookup_2 _ 0)|]. repeat (split; [done|]).
  intros p Hp _. assert (Forall (fun p => state_of (sys start) p = TASK_RUNNING) (task (sys start))) as Hall.
  { apply (bool_decide_eq_true_1 _). by vm_compute. }
  rewrite list.Forall_forall in Hall. by apply Hall.
Qed.

Lemma start_reachable : reachable start.
Proof. apply reach_init, start_initial. Qed.

(** Task 8192 takes mutex 3, task 12288 sleeps on it, and 8192 has stored 0
    into its [lock] field. *)
Definition contended : msys :=
  default start (run start [Klock 3; Timer; Klock 3; Timer; Kunlock 3]).

(** 8192 has also called [wake_up] and was interrupted. *)
Definition handed_over : msys := default start (run contended [Wake; Wake; Wake; Timer]).

Lemma contended_reachable : reachable contended.
Proof. apply (run_reachable start [Klock 3; Timer; Klock 3; Timer; Kunlock 3]); [apply start_reachable|by vm_compute]. Qed.

Lemma handed_over_reachable : reachable handed_over.
Proof. apply (run_reachable contended [Wake; Wake; Wake; Timer]); [apply contended_reachable|by vm_compute]. Qed.

(** 8192 is interrupted behind the test of [wake_up]; task 0 takes and frees the
    mutex and wakes 12288, which leaves the queue; 8192 goes on. *)
Definition emptied : msys := default start (run contended
  [Wake; Timer; Klock 3; Kunlock 3; Wake; Wake; Wake; Timer; Timer; Resume; Timer; Timer; Wake]).

(** C37.  The race in [wake_up]: it tests that the queue is not empty and then
    loads the head again; a timer interrupt in between can empty the queue.  Such a
    state is reachable from the start: the task that frees the mutex is about to
    store TASK_RUNNING through the null pointer. *)
Theorem wake_up_null :
  exists s n, initial start /\ reachable s /\ enabled s Wake /\
    phase_of s (current (sys s)) = Waking n (Store 0) /\ exec s Wake = Err (Wild "NULL").
Proof.
  exists emptied, 3. split; [apply start_initial|]. split; [|by vm_compute].
  apply (run_reachable contended [Wake; Timer; Klock 3; Kunlock 3; Wake; Wake; Wake; Timer; Timer; Resume; Timer; Timer; Wake]);
    [apply contended_reachable|by vm_compute].
Qed.

Lemma mutual_exclusion_witness :
  (forall p q, (p, 3) ∈ held contended -> (q, 3) ∈ held contended -> p = q) /\
  (lock (mutex_at 3 (sys contended)) <> 0 <-> exists p, (p, 3) ∈ held contended).
Proof. apply (mutual_exclusion contended 3); [apply contended_reachable|done]. Defined.

Lemma wait_chain_complete_witness :
  wait (mutex_at 3 (sys contended)) = 12288 /\
  exists l, linked (phase_of contended) 3 (wait (mutex_at 3 (sys contended))) l /\ NoDup l /\
    (forall p, p ∈ l <-> sleeping contended 3 p) /\
    ((exists p, sleeping contended 3 p) -> wait (mutex_at 3 (sys contended)) <> 0).
Proof.
  split; [by vm_compute|].
  apply (wait_chain_complete contended 3); [apply contended_reachable|done].
Defined.

Lemma no_lost_wakeup_witness :
  exists q, state_of (sys contended) q = TASK_RUNNING /\
    (sleeping contended 3 q \/ about_to_wake contended 3 q).
Proof.
  apply (no_lost_wakeup contended 3 12288).
  - apply contended_reachable.
  - exists 0. by vm_compute.
  - by vm_compute.
Defined.

Lemma mutex_steps_safe_witness :
  state_of (sys contended) (current (sys contended)) = TASK_RUNNING /\
  (exists e s', (e = Timer \/ e = Resume) /\ step contended e s') /\
  forall e, enabled contended e ->
    match exec contended e with Ok s' => reachable s' | Err f => mutex_fault contended f e end.
Proof. apply (mutex_steps_safe contended), contended_reachable. Defined.

Lemma resume_progress_witness :
  exists s', exec handed_over Resume = Ok s' /\
    (wait (mutex_at 3 (sys handed_over)) = current (sys handed_over) ->
     lock (mutex_at 3 (sys handed_over)) = 0 ->
       (current (sys handed_over), 3) ∈ held s' /\ current (sys s') = current (sys handed_over)) /\
    (wait (mutex_at 3 (sys handed_over)) <> current (sys handed_over) ->
       state_of (sys s') (wait (mutex_at 3 (sys handed_over))) = TASK_RUNNING /\
       phase_of s' (current (sys handed_over)) = Sleeping 3 0).
Proof. apply (resume_progress handed_over 3 0); [apply handed_over_reachable|by vm_compute]. Defined.

Example handed_over_head :
  wait (mutex_at 3 (sys handed_over)) = current (sys handed_over) /\
  lock (mutex_at 3 (sys handed_over)) = 0.
Proof. by vm_compute. Qed.
