(* ===== verification/Task.v ===== *)
(** * Task structures

    include/linux/sched.h: [struct task_struct], [struct tss_struct],
    [struct i387_struct], the initial task [INIT_TASK]; the layout the compiler
    gives them.  The members of a TSS and the limits of a descriptor are kept
    as the 32-bit patterns the processor loads; the other [long] and [int]
    members are signed. *)
From S2P Require Import Prelude Words Descriptors Memory Sched.

Definition TASK_SIZE : Z := 0x04000000.
Definition NR_OPEN : Z := 20.
Definition NGROUPS : Z := 32.
Definition NOGROUP : Z := -1.
Definition RLIM_NLIMITS : Z := 6.

Record i387_struct := I387 {
  cwd : Z; swd : Z; twd : Z; fip : Z; fcs : Z; foo : Z; fos : Z;
  st_space : list Z
}.

Record tss_struct := Tss {
  back_link : Z; esp0 : Z; ss0 : Z; esp1 : Z; ss1 : Z; esp2 : Z; ss2 : Z;
  cr3 : Z; eip : Z; eflags : Z; eax : Z; ecx : Z; edx : Z; ebx : Z;
  esp : Z; ebp : Z; esi : Z; edi : Z;
  es : Z; cs : Z; ss : Z; ds : Z; fs : Z; gs : Z;
  tss_ldt : Z; trace_bitmap : Z; i387 : i387_struct
}.

#[export] Instance eta_tss_struct : Eta tss_struct := fun r =>
  Tss (back_link r) (esp0 r) (ss0 r) (esp1 r) (ss1 r) (esp2 r) (ss2 r)
      (cr3 r) (eip r) (eflags r) (eax r) (ecx r) (edx r) (ebx r)
      (esp r) (ebp r) (esi r) (edi r) (es r) (cs r) (ss r) (ds r) (fs r) (gs r)
      (tss_ldt r) (trace_bitmap r) (i387 r).

Record sigaction := Sigaction { sa_handler : Z; sa_mask : Z; sa_flags : Z; sa_restorer : Z }.
Record rlimit := Rlimit { rlim_cur : Z; rlim_max : Z }.

Record task_struct := Task {
  state : Z; counter : Z; priority : Z; signal : Z;
  sigactions : list sigaction; blocked : Z;
  exit_code : Z; start_code : Z; end_code : Z; end_data : Z; brk : Z; start_stack : Z;
  pid : Z; pgrp : Z; session : Z; leader : Z;
  groups : list Z;
  p_pptr : Z; p_cptr : Z; p_ysptr : Z; p_osptr : Z;
  uid : Z; euid : Z; suid : Z; gid : Z; egid : Z; sgid : Z;
  timeout : Z; alarm : Z; utime : Z; stime : Z; cutime : Z; cstime : Z; start_time : Z;
  rlim : list rlimit;
  flags : Z; used_math : Z; tty : Z; umask : Z;
  pwd : Z; root : Z; executable : Z; library : Z;
  close_on_exec : Z;
  filp : list Z;
  ldt : list desc_struct;
  tss : tss_struct
}.

#[export] Instance eta_task_struct : Eta task_struct := fun r =>
  Task (state r) (counter r) (priority r) (signal r) (sigactions r) (blocked r)
       (exit_code r) (start_code r) (end_code r) (end_data r) (brk r) (start_stack r)
       (pid r) (pgrp r) (session r) (leader r) (groups r)
       (p_pptr r) (p_cptr r) (p_ysptr r) (p_osptr r)
       (uid r) (euid r) (suid r) (gid r) (egid r) (sgid r)
       (timeout r) (alarm r) (utime r) (stime r) (cutime r) (cstime r) (start_time r)
       (rlim r) (flags r) (used_math r) (tty r) (umask r)
       (pwd r) (root r) (executable r) (library r) (close_on_exec r)
       (filp r) (ldt r) (tss r).

(** ** INIT_TASK

    [init_task] is the address of the union that holds task 0, [pg_dir] of the
    page directory. *)
Definition INIT_TSS (init_task pg_dir : Z) : tss_struct := {|
  back_link := 0; esp0 := u32 (PAGE_SIZE + init_task); ss0 := 0x10;
  esp1 := 0; ss1 := 0; esp2 := 0; ss2 := 0; cr3 := pg_dir; eip := 0; eflags := 0;
  eax := 0; ecx := 0; edx := 0; ebx := 0; esp := 0; ebp := 0; esi := 0; edi := 0;
  es := 0x17; cs := 0x17; ss := 0x17; ds := 0x17; fs := 0x17; gs := 0x17;
  tss_ldt := _LDT 0; trace_bitmap := 0x80000000;
  i387 := I387 0 0 0 0 0 0 0 (replicate 20 0)
|}.

Definition INIT_TASK (init_task pg_dir : Z) : task_struct := {|
  state := 0; counter := 15; priority := 15; signal := 0;
  sigactions := replicate 32 (Sigaction 0 0 0 0); blocked := 0;
  exit_code := 0; start_code := 0; end_code := 0; end_data := 0; brk := 0; start_stack := 0;
  pid := 0; pgrp := 0; session := 0; leader := 0;
  groups := NOGROUP :: replicate 31 0;
  p_pptr := init_task; p_cptr := 0; p_ysptr := 0; p_osptr := 0;
  uid := 0; euid := 0; suid := 0; gid := 0; egid := 0; sgid := 0;
  timeout := 0; alarm := 0; utime := 0; stime := 0; cutime := 0; cstime := 0; start_time := 0;
  rlim := replicate 6 (Rlimit 0x7fffffff 0x7fffffff);
  flags := 0; used_math := 0; tty := -1; umask := 18;
  pwd := 0; root := 0; executable := 0; library := 0;
  close_on_exec := 0;
  filp := replicate 20 0;
  ldt := [Desc 0 0; Desc 0x9f 0xc0fa00; Desc 0x9f 0xc0f200];
  tss := INIT_TSS init_task pg_dir
|}.

(** ** Layout

    The members of [task_struct] in order: name, size of one element (which is
    also its alignment, arrays of structures of 32-bit words have 4) and number
    of elements. *)
Definition task_members : list (string * Z * Z) := [
  ("state", 4, 1); ("counter", 4, 1); ("priority", 4, 1); ("signal", 4, 1);
  ("sigaction", 4, 4 * 32); ("blocked", 4, 1);
  ("exit_code", 4, 1); ("start_code", 4, 1); ("end_code", 4, 1); ("end_data", 4, 1);
  ("brk", 4, 1); ("start_stack", 4, 1);
  ("pid", 4, 1); ("pgrp", 4, 1); ("session", 4, 1); ("leader", 4, 1);
  ("groups", 4, NGROUPS);
  ("p_pptr", 4, 1); ("p_cptr", 4, 1); ("p_ysptr", 4, 1); ("p_osptr", 4, 1);
  ("uid", 2, 1); ("euid", 2, 1); ("suid", 2, 1); ("gid", 2, 1); ("egid", 2, 1); ("sgid", 2, 1);
  ("timeout", 4, 1); ("alarm", 4, 1); ("utime", 4, 1); ("stime", 4, 1); ("cutime", 4, 1);
  ("cstime", 4, 1); ("start_time", 4, 1);
  ("rlim", 4, 2 * RLIM_NLIMITS);
  ("flags", 4, 1); ("used_math", 2, 1); ("tty", 4, 1); ("umask", 2, 1);
  ("pwd", 4, 1); ("root", 4, 1); ("executable", 4, 1); ("library", 4, 1);
  ("close_on_exec", 4, 1);
  ("filp", 4, NR_OPEN);
  ("ldt", 4, 2 * 3);
  ("tss", 4, 26 + 7 + 20)
]%string.

Definition align_up (off a : Z) : Z := (off + a - 1) / a * a.

(** The offset of a member and, for a name not found, of the end. *)
Fixpoint offset_of (ms : list (string * Z * Z)) (off : Z) (name : string) : Z :=
  match ms with
  | [] => off
  | (m, size, n) :: ms =>
      let off := align_up off size in
      if decide (m = name) then off else offset_of ms (off + size * n) name
  end.

Definition LDT_OFFSET : Z := offset_of task_members 0 "ldt".
Definition TSS_OFFSET : Z := offset_of task_members 0 "tss".
Definition TASK_STRUCT_SIZE : Z := offset_of task_members 0 "".

Lemma task_offsets : LDT_OFFSET = 920 /\ TSS_OFFSET = 944 /\ TASK_STRUCT_SIZE = 1156.
Proof. by vm_compute. Qed.

(** [&(p->ldt)] and [&(p->tss)] *)
Definition ldt_addr (p : Z) : Z := u32 (p + LDT_OFFSET).
Definition tss_addr (p : Z) : Z := u32 (p + TSS_OFFSET).
