(* ===== verification/Fork.v ===== *)
(** * fork

    kernel/fork.c and [sys_fork] of kernel/sys_call.s: the search for a pid and
    a slot, the duplication of the task structure, of the address space (through
    Memory.v) and of the descriptors (through Descriptors.v).

    Task structures live in pages of the physical memory; the model keeps them
    in a map of their own, by address, apart from the words the memory manager
    reads. *)
From S2P Require Import Prelude Words Descriptors Memory Sched Task.

Definition EAGAIN : Z := 11.

(** [fpu] is the coprocessor's state; [f_count] and [i_count] the reference
    counts of the [struct file]s and [struct m_inode]s by address. *)
Record kernel := Kernel {
  mem : mm;
  tasks : gmap Z task_struct;
  task : list Z;
  current : Z;
  last_pid : Z;
  jiffies : Z;
  gdt : list desc_struct;
  f_count : gmap Z Z;
  i_count : gmap Z Z;
  last_task_used_math : Z;
  fpu : i387_struct
}.

#[export] Instance eta_kernel : Eta kernel := fun r =>
  Kernel (mem r) (tasks r) (task r) (current r) (last_pid r) (jiffies r) (gdt r)
         (f_count r) (i_count r) (last_task_used_math r) (fpu r).

(** Run an operation of the memory manager. *)
Definition in_mem {A} (m : M mm A) : M kernel A := fun s =>
  match m (mem s) with
  | Ok (m', a) => Ok (s <| mem := m' |>, a)
  | Err f => Err f
  end.

(** [*p] and an assignment to members of [*p]. *)
Definition get_task (p : Z) : M kernel task_struct :=
  s ← get; check "task_struct" (tasks s !! p).
Definition put_task (p : Z) (t : task_struct) : M kernel unit :=
  modify (fun s => s <| tasks := <[p := t]> (tasks s) |>).
Definition upd_task (p : Z) (f : task_struct -> task_struct) : M kernel unit :=
  t ← get_task p; put_task p (f t).

(** ** find_empty_process *)

(** [task[i] && (task[i]->pid == pid || task[i]->pgrp == pid)] *)
Definition pid_used (s : kernel) (v : Z) (p : Z) : bool :=
  bool_decide (p <> 0) &&
  match tasks s !! p with
  | Some t => bool_decide (pid t = v \/ pgrp t = v)
  | None => false
  end.

Definition next_pid (v : Z) : Z := let v := s32 (v + 1) in if decide (v < 0) then 1 else v.

(** [repeat: if (++last_pid < 0) last_pid = 1; for ... goto repeat;] *)
Fixpoint search_pid (fuel : nat) (s : kernel) (v : Z) : outcome Z :=
  match fuel with
  | O => Err Fuel
  | S fuel =>
      let v := next_pid v in
      if existsb (pid_used s v) (task s) then search_pid fuel s v else Ok v
  end.

(** [for (i = 1; ...) if (!task[i]) return i; return -EAGAIN;] from slot [i]. *)
Fixpoint empty_slot (l : list Z) (i : Z) : Z :=
  match l with
  | [] => - EAGAIN
  | p :: l => if decide (p = 0) then i else empty_slot l (i + 1)
  end.

(** Rounds of the pid search: one more than the pids and groups in use. *)
Definition PID_ROUNDS : nat := 129.

Definition find_empty_process : M kernel Z :=
  s ← get;
  match search_pid PID_ROUNDS s (last_pid s) with
  | Ok v => modify (fun s => s <| last_pid := v |>);; mret (empty_slot (drop 1 (task s)) 1)
  | Err f => stop f
  end.

(** ** copy_mem *)

Definition get_ldt (p i : Z) : M kernel desc_struct :=
  t ← get_task p; check "ldt" (arr_get (ldt t) i).
Definition set_ldt_base (p i base : Z) : M kernel unit :=
  d ← get_ldt p i;
  t ← get_task p;
  l ← check "ldt" (arr_set (ldt t) i (set_base d base));
  put_task p (t <| ldt := l |>).

(** The selectors 0x0f and 0x17 name the descriptors 1 and 2 of the current
    task's LDT, which [lldt] and the task switch keep loaded. *)
Definition copy_mem (nr p : Z) : M kernel Z :=
  me ← gets current;
  d1 ← get_ldt me 1;
  d2 ← get_ldt me 2;
  let code_limit := get_limit d1 in
  let data_limit := get_limit d2 in
  let old_code_base := get_base d1 in
  let old_data_base := get_base d2 in
  if decide (old_data_base <> old_code_base) then stop (Panic "We don't support separate I&D") else
  if decide (data_limit < code_limit) then stop (Panic "Bad data_limit") else
  let new_data_base := u32 (nr * TASK_SIZE) in
  let new_code_base := new_data_base in
  upd_task p (fun t => t <| start_code := new_code_base |>);;
  set_ldt_base p 1 new_code_base;;
  set_ldt_base p 2 new_data_base;;
  in_mem (copy_page_tables old_data_base new_data_base data_limit);;
  mret 0.

(** ** copy_process *)

(** What [sys_fork], [system_call] and the [int 0x80] instruction pushed. *)
Record regs := Regs {
  r_ebp : Z; r_edi : Z; r_esi : Z; r_gs : Z;
  r_ebx : Z; r_ecx : Z; r_edx : Z; r_orig_eax : Z;
  r_fs : Z; r_es : Z; r_ds : Z;
  r_eip : Z; r_cs : Z; r_eflags : Z; r_esp : Z; r_ss : Z
}.

Definition count_incr (o : Z) (c : gmap Z Z) : gmap Z Z :=
  <[o := u16 (default 0 (c !! o) + 1)]> c.

(** [if (p) p->count++;] *)
Definition hold (o : Z) (c : gmap Z Z) : gmap Z Z := if decide (o <> 0) then count_incr o c else c.

Definition set_gdt (i : Z) (f : desc_struct -> desc_struct) : M kernel unit :=
  s ← get;
  d ← check "gdt" (arr_get (gdt s) i);
  l ← check "gdt" (arr_set (gdt s) i (f d));
  modify (fun s => s <| gdt := l |>).

(** The member assignments of [copy_process] before the TSS. *)
Definition child_members (s : kernel) (t : task_struct) : task_struct :=
  t <| state := TASK_UNINTERRUPTIBLE |> <| pid := last_pid s |> <| counter := priority t |>
    <| signal := 0 |> <| alarm := 0 |> <| leader := 0 |>
    <| utime := 0 |> <| stime := 0 |> <| cutime := 0 |> <| cstime := 0 |>
    <| start_time := jiffies s |>.

(** The assignments to [p->tss]. *)
Definition child_tss (nr p : Z) (r : regs) (t : tss_struct) : tss_struct :=
  t <| back_link := 0 |> <| esp0 := u32 (PAGE_SIZE + p) |> <| ss0 := 0x10 |>
    <| eip := r_eip r |> <| eflags := r_eflags r |> <| eax := 0 |>
    <| ecx := r_ecx r |> <| edx := r_edx r |> <| ebx := r_ebx r |>
    <| esp := r_esp r |> <| ebp := r_ebp r |> <| esi := r_esi r |> <| edi := r_edi r |>
    <| es := Z.land (r_es r) 0xffff |> <| cs := Z.land (r_cs r) 0xffff |>
    <| ss := Z.land (r_ss r) 0xffff |> <| ds := Z.land (r_ds r) 0xffff |>
    <| fs := Z.land (r_fs r) 0xffff |> <| gs := Z.land (r_gs r) 0xffff |>
    <| tss_ldt := _LDT nr |> <| trace_bitmap := 0x80000000 |>.

(** [(esp + 4095) / 4096 * 4096 + new_data_base - 4096], where [esp] is signed. *)
Definition stack_page (esp new_data_base : Z) : Z :=
  u32 (Z.quot (s32 (s32 esp + 4095)) 4096 * 4096 + new_data_base - 4096).

(** The links of the new task to its parent and older sibling. *)
Definition child_links (me older : Z) (t : task_struct) : task_struct :=
  t <| p_pptr := me |> <| p_cptr := 0 |> <| p_ysptr := 0 |> <| p_osptr := older |>.

Definition link_child (p : Z) : M kernel unit :=
  me ← gets current;
  parent ← get_task me;
  upd_task p (child_links me (p_cptr parent));;
  when (bool_decide (p_cptr parent <> 0))
    (upd_task (p_cptr parent) (fun t => t <| p_ysptr := p |>));;
  upd_task me (fun t => t <| p_cptr := p |>).

Definition copy_process (nr : Z) (r : regs) : M kernel Z :=
  p ← in_mem get_free_page;
  if decide (p = 0) then mret (- EAGAIN) else
  s ← get;
  l ← check "task" (arr_set (task s) nr p);
  modify (fun s => s <| task := l |>);;
  parent ← get_task (current s);
  put_task p parent;;
  upd_task p (child_members s);;
  upd_task p (fun t => t <| tss := child_tss nr p r (tss t) |>);;
  when (bool_decide (last_task_used_math s = current s))
    (upd_task p (fun t => t <| tss := tss t <| i387 := fpu s |> |>));;
  e ← copy_mem nr p;
  if decide (e <> 0) then mret (- EAGAIN) else
  d ← get_ldt p 2;
  in_mem (pte ← lin2phy (stack_page (r_esp r) (get_base d)); un_wp_page pte);;
  child ← get_task p;
  modify (fun s => s <| f_count := foldl (fun c f => hold f c) (f_count s) (filp child) |>);;
  me ← get_task (current s);
  modify (fun s => s <| i_count :=
    hold (library me) (hold (executable me) (hold (root me) (hold (pwd me) (i_count s)))) |>);;
  set_gdt (Z.shiftl nr 1 + FIRST_TSS_ENTRY) (fun d => set_tss_desc d (tss_addr p));;
  set_gdt (Z.shiftl nr 1 + FIRST_LDT_ENTRY) (fun d => set_ldt_desc d (ldt_addr p));;
  link_child p;;
  upd_task p (fun t => t <| state := TASK_RUNNING |>);;
  gets last_pid.

(** [sys_fork] of kernel/sys_call.s, with interrupts disabled. *)
Definition sys_fork (r : regs) : M kernel Z :=
  nr ← find_empty_process;
  if decide (nr < 0) then mret nr else copy_process nr r.

(** ** The pid search *)

Definition PID_MAX : Z := 2 ^ 31 - 1.

Lemma next_pid_eq v : 0 ≤ v ≤ PID_MAX -> next_pid v = v mod PID_MAX + 1.
Proof.
  unfold next_pid, PID_MAX. intros Hv. cbv zeta. destruct (decide (v = 2 ^ 31 - 1)) as [->|Hne]; [done|].
  rewrite s32_small, decide_False by lia. by rewrite Z.mod_small by lia.
Qed.

(** The [k]-th pid the search tries. *)
Definition candidate (v : Z) (k : nat) : Z := (v + Z.of_nat k) mod PID_MAX + 1.

Lemma candidate_range v k : 1 ≤ candidate v k ≤ PID_MAX.
Proof. unfold candidate, PID_MAX. pose proof (Z.mod_pos_bound (v + Z.of_nat k) (2 ^ 31 - 1)). lia. Qed.

Lemma candidate_S v k : 0 ≤ v ≤ PID_MAX -> candidate (next_pid v) k = candidate v (S k).
Proof.
  intros Hv. rewrite next_pid_eq by done. unfold candidate. f_equal.
  replace (v + Z.of_nat (S k)) with (v + (1 + Z.of_nat k)) by lia.
  rewrite <-(Z.add_mod_idemp_l v) by done. f_equal. lia.
Qed.

Lemma candidate_inj v j k :
  (j < PID_ROUNDS)%nat -> (k < PID_ROUNDS)%nat -> candidate v j = candidate v k -> j = k.
Proof. unfold candidate, PID_MAX, PID_ROUNDS. intros. Z.div_mod_to_equations. lia. Qed.

Definition pid_taken (s : kernel) (v : Z) : Prop :=
  exists p t, p ∈ task s /\ p <> 0 /\ tasks s !! p = Some t /\ (pid t = v \/ pgrp t = v).

Lemma existsb_pid_taken s v : existsb (pid_used s v) (task s) = true <-> pid_taken s v.
Proof.
  rewrite existsb_exists. unfold pid_used, pid_taken. split.
  - intros (p & Hp%list_elem_of_In & [Hnz%bool_decide_eq_true_1 Ht]%andb_true_iff).
    destruct (tasks s !! p) as [t|] eqn:E; [|done]. apply bool_decide_eq_true_1 in Ht.
    by exists p, t.
  - intros (p & t & Hp & Hnz & E & Ht). exists p. split; [by apply list_elem_of_In|].
    by rewrite E, !bool_decide_true.
Qed.

Lemma search_pid_ok fuel s v w :
  0 ≤ v ≤ PID_MAX -> search_pid fuel s v = Ok w ->
  exists k, (k < fuel)%nat /\ w = candidate v k /\ ~ pid_taken s w /\
    forall j, (j < k)%nat -> pid_taken s (candidate v j).
Proof.
  revert v. induction fuel as [|fuel IH]; intros v Hv E; cbn [search_pid] in E; [done|].
  assert (next_pid v = candidate v 0) as E0.
  { rewrite next_pid_eq by done. unfold candidate. by rewrite Z.add_0_r. }
  destruct (existsb _ _) eqn:Eb.
  - apply IH in E as (k & Hk & -> & Hnt & Hall).
    2: { rewrite E0. pose proof (candidate_range v 0). lia. }
    rewrite candidate_S in * by done. exists (S k). split; [lia|]. split; [done|]. split; [done|].
    intros [|j] Hj; [rewrite <-E0; by apply existsb_pid_taken|].
    rewrite <-candidate_S by done. apply Hall. lia.
  - injection E as <-. exists 0%nat. split; [lia|]. split; [done|]. split; [|lia].
    intros Ht%existsb_pid_taken. congruence.
Qed.

Lemma search_pid_err fuel s v f :
  0 ≤ v ≤ PID_MAX -> search_pid fuel s v = Err f ->
  forall k, (k < fuel)%nat -> pid_taken s (candidate v k).
Proof.
  revert v. induction fuel as [|fuel IH]; intros v Hv E k Hk; cbn [search_pid] in E; [lia|].
  assert (next_pid v = candidate v 0) as E0.
  { rewrite next_pid_eq by done. unfold candidate. by rewrite Z.add_0_r. }
  destruct (existsb _ _) eqn:Eb; [|done].
  destruct k as [|k]; [rewrite <-E0; by apply existsb_pid_taken|].
  rewrite <-candidate_S by done. apply IH; [|done|lia].
  rewrite E0. pose proof (candidate_range v 0). lia.
Qed.

(** All pids and groups in use. *)
Definition taken_list (s : kernel) : list Z :=
  p ← task s; match tasks s !! p with Some t => [pid t; pgrp t] | None => [] end.

Lemma taken_list_length s : (length (taken_list s) ≤ 2 * length (task s))%nat.
Proof.
  unfold taken_list. induction (task s) as [|p l IH]; [done|].
  rewrite bind_cons, length_app. cbn [length] in *.
  destruct (tasks s !! p); cbn [length]; lia.
Qed.

Lemma pid_taken_list s v : pid_taken s v -> v ∈ taken_list s.
Proof.
  intros (p & t & Hp & _ & E & Ht). apply list_elem_of_bind. exists p. split; [|done].
  rewrite E. set_solver.
Qed.

(** Among [PID_ROUNDS] candidates one is free. *)
Lemma search_pid_total s v :
  length (task s) = 64%nat -> 0 ≤ v ≤ PID_MAX -> exists w, search_pid PID_ROUNDS s v = Ok w.
Proof.
  intros Hl Hv. destruct (search_pid PID_ROUNDS s v) as [w|f] eqn:E; [by exists w|]. exfalso.
  pose proof (search_pid_err _ _ _ _ Hv E) as Hall.
  assert (NoDup (candidate v <$> seq 0 PID_ROUNDS)) as Hnd.
  { apply NoDup_fmap_2_strong; [|apply NoDup_seq]. intros j k Hj Hk.
    apply elem_of_seq in Hj, Hk. apply candidate_inj; lia. }
  assert (candidate v <$> seq 0 PID_ROUNDS ⊆+ taken_list s) as Hsub.
  { apply NoDup_submseteq; [done|]. intros x (k & -> & Hk)%list_elem_of_fmap.
    apply elem_of_seq in Hk. apply pid_taken_list, Hall. lia. }
  apply submseteq_length in Hsub. pose proof (taken_list_length s).
  rewrite length_fmap, length_seq in Hsub. unfold PID_ROUNDS in Hsub. lia.
Qed.

Lemma empty_slot_spec l i :
  (empty_slot l i = - EAGAIN /\ 0 ∉ l) \/
  exists k : nat, empty_slot l i = i + Z.of_nat k /\ l !! k = Some 0 /\
    forall j p, (j < k)%nat -> l !! j = Some p -> p <> 0.
Proof.
  revert i. induction l as [|p l IH]; intros i; cbn [empty_slot].
  - left. split; [done|]. apply not_elem_of_nil.
  - case_decide as Hp.
    + right. exists 0%nat. subst. split; [lia|]. split; [done|]. lia.
    + destruct (IH (i + 1)) as [[E Hn]|(k & E & Hk & Hall)]; rewrite E.
      * left. split; [done|]. intros [?|?]%elem_of_cons; [by symmetry in H|done].
      * right. exists (S k). split; [lia|]. split; [done|].
        intros [|j] q Hj Hq; cbn in Hq; simplify_eq; [done|]. eapply Hall; [|done]. lia.
Qed.

(** [find_empty_process] always terminates.  It advances [last_pid] to
    the first pid after the old one, wrapping from 2^31 - 1 to 1, that no task
    of the table has as pid or group, and returns the lowest free slot above
    slot 0, or -EAGAIN exactly when there is none. *)
Theorem find_empty_process_correct s :
  length (task s) = 64%nat -> 0 ≤ last_pid s ≤ PID_MAX ->
  exists (v r : Z) (k : nat), find_empty_process s = Ok (s <| last_pid := v |>, r) /\
    v = candidate (last_pid s) k /\ 1 ≤ v ≤ PID_MAX /\ ~ pid_taken s v /\
    (forall j, (j < k)%nat -> pid_taken s (candidate (last_pid s) j)) /\
    ((r = - EAGAIN /\ forall i, 1 ≤ i < 64 -> arr_get (task s) i <> Some 0) \/
     (1 ≤ r < 64 /\ arr_get (task s) r = Some 0 /\
      forall i, 1 ≤ i < r -> arr_get (task s) i <> Some 0)).
Proof.
  intros Hl Hv. destruct (search_pid_total s (last_pid s) Hl Hv) as [v E].
  destruct (search_pid_ok _ _ _ _ Hv E) as (k & _ & -> & Hnt & Hall).
  eexists _, _, k. split.
  { unfold find_empty_process, mbind, M_bind, get, modify. by rewrite E. }
  split; [done|]. split; [apply candidate_range|]. split; [done|]. split; [done|].
  cbn [upd task].
  assert (forall i : Z, 1 ≤ i -> arr_get (task s) i = drop 1 (task s) !! Z.to_nat (i - 1)) as Hget.
  { intros i Hi. unfold arr_get. rewrite decide_True by lia. rewrite lookup_drop. f_equal. lia. }
  destruct (empty_slot_spec (drop 1 (task s)) 1) as [[-> Hn]|(j & -> & Hj & Hmin)].
  - left. split; [done|]. intros i Hi. rewrite Hget by lia. intros H0. apply Hn.
    by eapply list_elem_of_lookup_2.
  - right. pose proof (lookup_lt_Some _ _ _ Hj) as Hlt. rewrite length_drop, Hl in Hlt.
    split; [lia|]. split; [rewrite Hget by lia; rewrite <-Hj; f_equal; lia|].
    intros i Hi. rewrite Hget by lia. intros H0. eapply Hmin; [|exact H0|done]. lia.
Qed.

(** ** copy_process *)

Lemma get_task_eq p t s : tasks s !! p = Some t -> get_task p s = Ok (s, t).
Proof. intros H. unfold get_task, mbind, M_bind, get, check. by rewrite H. Qed.

Lemma upd_task_eq p f t s :
  tasks s !! p = Some t -> upd_task p f s = Ok (s <| tasks := <[p := f t]> (tasks s) |>, tt).
Proof. intros H. unfold upd_task. by rewrite (bind_ok _ _ _ _ _ (get_task_eq p t s H)). Qed.

Lemma in_mem_eq {A} (m : M mm A) m' (a : A) s :
  m (mem s) = Ok (m', a) -> in_mem m s = Ok (s <| mem := m' |>, a).
Proof. intros H. unfold in_mem. by rewrite H. Qed.

(** The kernel [s] with the new task [p] in slot [nr]: memory [m], task
    structure [c]. *)
Definition with_child (s : kernel) (nr p : Z) (m : mm) (c : task_struct) : kernel :=
  s <| mem := m |> <| task := <[Z.to_nat nr := p]> (task s) |> <| tasks := <[p := c]> (tasks s) |>.

Lemma with_child_lookup s nr p m c : tasks (with_child s nr p m c) !! p = Some c.
Proof. apply lookup_insert_eq. Qed.

Lemma with_child_upd s nr p m c f :
  upd_task p f (with_child s nr p m c) = Ok (with_child s nr p m (f c), tt).
Proof.
  rewrite (upd_task_eq _ _ c) by apply with_child_lookup. unfold with_child.
  cbn [upd tasks]. by rewrite insert_insert_eq.
Qed.

Lemma with_child_mem {A} (k : M mm A) m' (a : A) s nr p m c :
  k m = Ok (m', a) -> in_mem k (with_child s nr p m c) = Ok (with_child s nr p m' c, a).
Proof. intros H. by rewrite (in_mem_eq k m' a). Qed.

(** The child's structure before its memory is set up. *)
Definition child_init (s : kernel) (nr p : Z) (r : regs) (parent : task_struct) : task_struct :=
  let t := child_members s parent in
  let t := t <| tss := child_tss nr p r (tss t) |> in
  if decide (last_task_used_math s = current s) then t <| tss := tss t <| i387 := fpu s |> |> else t.

Definition child_ldt (base : Z) (d0 d1 d2 : desc_struct) : list desc_struct :=
  [d0; set_base d1 base; set_base d2 base].

Lemma set_ldt_base_eq s nr p m c i base d l :
  arr_get (ldt c) i = Some d -> arr_set (ldt c) i (set_base d base) = Some l ->
  set_ldt_base p i base (with_child s nr p m c) = Ok (with_child s nr p m (c <| ldt := l |>), tt).
Proof.
  intros Hd Hl. unfold set_ldt_base, get_ldt.
  erewrite (bind_ok _ _ _ _ d).
  2: { erewrite bind_ok by apply get_task_eq, with_child_lookup. unfold check. by rewrite Hd. }
  erewrite bind_ok by apply get_task_eq, with_child_lookup.
  erewrite (bind_ok _ _ _ _ l) by (unfold check; by rewrite Hl).
  unfold put_task, modify, with_child. cbn [upd tasks]. by rewrite insert_insert_eq.
Qed.

(** What [copy_process] needs to go through: task table and GDT of their sizes,
    a parent with a flat LDT, a free frame [i] for the child, and the two
    memory operations, from memory [mem s] with the frame taken to [m3]. *)
Record fork_ready (s : kernel) (nr : Z) (r : regs) (i : Z) (parent : task_struct)
  (d0 d1 d2 : desc_struct) (m2 m3 : mm) (rc : Z) : Prop := {
  fr_table : length (task s) = 64%nat;
  fr_nr : 1 ≤ nr < 64;
  fr_gdt : length (gdt s) = 256%nat;
  fr_wf : wf_mm (mem s);
  fr_free : highest_free (mem s) i;
  fr_parent : tasks s !! current s = Some parent;
  fr_fresh : frame i <> current s;
  fr_ldt : ldt parent = [d0; d1; d2];
  fr_wfd : wf_desc d1 /\ wf_desc d2;
  fr_flat : get_base d1 = get_base d2;
  fr_limit : get_limit d1 ≤ get_limit d2;
  fr_copy : copy_page_tables (get_base d2) (u32 (nr * TASK_SIZE)) (get_limit d2)
              (alloc_page (mem s) i) = Ok (m2, rc);
  fr_stack : (pte ← lin2phy (stack_page (r_esp r) (u32 (nr * TASK_SIZE))); un_wp_page pte) m2 =
               Ok (m3, tt);
  fr_sibling : p_cptr parent <> 0 ->
    p_cptr parent <> frame i /\ p_cptr parent <> current s /\ is_Some (tasks s !! p_cptr parent)
}.

Section copy_process.
Context {s : kernel} {nr : Z} {r : regs} {i : Z} {parent : task_struct}.
Context {d0 d1 d2 : desc_struct} {m2 m3 : mm} {rc : Z}.
Hypothesis Hf : fork_ready s nr r i parent d0 d1 d2 m2 m3 rc.

Abbreviation p := (frame i).
Abbreviation base := (u32 (nr * TASK_SIZE)).

(** The child when its memory has been set up. *)
Definition child_mapped : task_struct :=
  child_init s nr p r parent <| start_code := base |> <| ldt := child_ldt base d0 d1 d2 |>.

Lemma child_init_ldt : ldt (child_init s nr p r parent) = [d0; d1; d2].
Proof. unfold child_init. rewrite <-(fr_ldt _ _ _ _ _ _ _ _ _ _ _ Hf). by case_decide. Qed.

Lemma parent_lookup m c : tasks (with_child s nr p m c) !! current s = Some parent.
Proof.
  unfold with_child. cbn [upd tasks]. rewrite lookup_insert_ne by apply Hf. apply Hf.
Qed.

Lemma copy_mem_eq :
  copy_mem nr p (with_child s nr p (alloc_page (mem s) i) (child_init s nr p r parent)) =
    Ok (with_child s nr p m2 child_mapped, 0).
Proof.
  destruct Hf. unfold copy_mem, get_ldt. erewrite (bind_ok _ _ _ _ (current s)) by done.
  erewrite (bind_ok _ _ _ _ d1).
  2: { erewrite bind_ok by apply get_task_eq, parent_lookup. unfold check. by rewrite fr_ldt0. }
  erewrite (bind_ok _ _ _ _ d2).
  2: { erewrite bind_ok by apply get_task_eq, parent_lookup. unfold check. by rewrite fr_ldt0. }
  cbv zeta. rewrite decide_False by congruence. rewrite decide_False by lia.
  erewrite bind_ok by apply with_child_upd.
  pose proof child_init_ldt as El.
  erewrite bind_ok.
  2: { eapply (set_ldt_base_eq _ _ _ _ _ 1 _ d1); cbn [upd ldt]; rewrite El; done. }
  erewrite bind_ok.
  2: { eapply (set_ldt_base_eq _ _ _ _ _ 2 _ d2); cbn [upd ldt]; done. }
  by erewrite bind_ok by (apply with_child_mem; exact fr_copy0).
Qed.

(** The child when it is linked into the family. *)
Definition child_linked : task_struct :=
  child_links (current s) (p_cptr parent) child_mapped.

Definition child_final : task_struct := child_linked <| state := TASK_RUNNING |>.

(** The task structures after the fork. *)
Definition linked_tasks : gmap Z task_struct :=
  let t1 := <[p := child_linked]> (tasks s) in
  let t2 := if decide (p_cptr parent <> 0)
            then alter (fun t => t <| p_ysptr := p |>) (p_cptr parent) t1 else t1 in
  <[current s := parent <| p_cptr := p |>]> t2.

Definition forked_tasks : gmap Z task_struct := <[p := child_final]> linked_tasks.

Definition forked_gdt : list desc_struct :=
  alter (fun d => set_ldt_desc d (ldt_addr p)) (Z.to_nat (2 * nr + 5))
    (alter (fun d => set_tss_desc d (tss_addr p)) (Z.to_nat (2 * nr + 4)) (gdt s)).

(** The state after the fork. *)
Definition forked : kernel := {|
  mem := m3; tasks := forked_tasks; task := <[Z.to_nat nr := p]> (task s);
  current := current s; last_pid := last_pid s; jiffies := jiffies s;
  gdt := forked_gdt;
  f_count := foldl (fun c f => hold f c) (f_count s) (filp parent);
  i_count := hold (library parent) (hold (executable parent)
               (hold (root parent) (hold (pwd parent) (i_count s))));
  last_task_used_math := last_task_used_math s; fpu := fpu s
|}.

Lemma set_gdt_eq j f k :
  0 ≤ j < Z.of_nat (length (gdt k)) ->
  set_gdt j f k = Ok (k <| gdt := alter f (Z.to_nat j) (gdt k) |>, tt).
Proof.
  intros Hj. unfold set_gdt. erewrite bind_ok by done.
  destruct (arr_get_is_Some (gdt k) j Hj) as [d Hd].
  erewrite (bind_ok _ _ _ _ d) by (unfold check; by rewrite Hd).
  erewrite bind_ok by (unfold check; by rewrite arr_set_Some).
  unfold modify. do 3 f_equal. unfold arr_get in Hd. rewrite decide_True in Hd by lia.
  by rewrite <-(insert_alter _ _ _ f Hd).
Qed.

Lemma link_child_eq k :
  current k = current s -> tasks k = <[p := child_mapped]> (tasks s) ->
  link_child p k = Ok (k <| tasks := linked_tasks |>, tt).
Proof.
  intros Hc Ht. pose proof Hf as []. unfold link_child.
  erewrite (bind_ok _ _ _ _ (current s)) by (unfold gets; by rewrite Hc).
  assert (tasks k !! current s = Some parent) as Hp by (rewrite Ht; by rewrite lookup_insert_ne).
  erewrite bind_ok by by apply get_task_eq.
  erewrite bind_ok by (apply upd_task_eq; rewrite Ht; by apply lookup_insert_eq).
  set (t1 := <[p := child_linked]> (tasks s)).
  set (k1 := k <| tasks := _ |>).
  assert (tasks k1 = t1) as Hk1 by (unfold k1; cbn [upd tasks]; rewrite Ht, insert_insert_eq; reflexivity).
  set (t2 := if decide (p_cptr parent <> 0)
             then alter (fun t => t <| p_ysptr := p |>) (p_cptr parent) t1 else t1).
  assert (t2 !! current s = Some parent) as Hp2.
  { unfold t2, t1. case_decide as Hs; [destruct (fr_sibling0 Hs) as (? & ? & ?);
      rewrite lookup_alter_ne by done|]; by rewrite lookup_insert_ne. }
  erewrite (bind_ok _ _ _ (k1 <| tasks := t2 |>)).
  2: { unfold when, t2. destruct (decide (p_cptr parent <> 0)) as [Hs|Hs].
    - rewrite bool_decide_true by done. destruct (fr_sibling0 Hs) as (Hsp & _ & q & Hq).
      assert (t1 !! p_cptr parent = Some q) as Hq1 by (unfold t1; by rewrite lookup_insert_ne).
      rewrite (upd_task_eq _ _ q) by by rewrite Hk1.
      rewrite Hk1, <-(map_insert_alter _ _ _ (fun t => t <| p_ysptr := p |>) Hq1). done.
    - rewrite bool_decide_false by done. rewrite <-Hk1. by destruct k1. }
  erewrite upd_task_eq by exact Hp2. done.
Qed.

(** The child's own members and registers. *)
Lemma child_init_eq m :
  when (bool_decide (last_task_used_math s = current s))
    (upd_task p (fun t => t <| tss := tss t <| i387 := fpu s |> |>))
    (with_child s nr p m (child_members s parent <| tss := child_tss nr p r (tss (child_members s parent)) |>)) =
  Ok (with_child s nr p m (child_init s nr p r parent), tt).
Proof.
  unfold when, child_init. destruct (decide (last_task_used_math s = current s)) as [Hm|Hm].
  - rewrite bool_decide_true by done. by rewrite with_child_upd.
  - by rewrite bool_decide_false.
Qed.

Lemma child_mapped_base : arr_get (ldt child_mapped) 2 = Some (set_base d2 base).
Proof. done. Qed.

Lemma child_mapped_filp : filp child_mapped = filp parent.
Proof. unfold child_mapped, child_init. destruct (decide _); reflexivity. Qed.

Lemma linked_child : linked_tasks !! p = Some child_linked.
Proof.
  pose proof Hf as []. unfold linked_tasks. rewrite lookup_insert_ne by done.
  case_decide as Hs; [rewrite lookup_alter_ne by by destruct (fr_sibling0 Hs)|];
    apply lookup_insert_eq.
Qed.

Lemma copy_process_eq : copy_process nr r s = Ok (forked, last_pid s).
Proof.
  pose proof Hf as []. unfold copy_process.
  erewrite bind_ok by (eapply in_mem_eq, get_free_page_ok; done).
  rewrite decide_False.
  2: { destruct fr_free0 as (Hi & _). unfold frame, LOW_MEM, PAGE_SIZE. lia. }
  set (s1 := s <| mem := _ |>).
  erewrite (bind_ok _ _ _ s1 s1) by done.
  erewrite (bind_ok _ _ _ _ (<[Z.to_nat nr := p]> (task s)))
    by (unfold check; change (task s1) with (task s); by rewrite arr_set_Some by (rewrite fr_table0; lia)).
  erewrite bind_ok by done.
  erewrite bind_ok by (apply get_task_eq; exact fr_parent0).
  erewrite (bind_ok _ _ _ (with_child s nr p (alloc_page (mem s) i) parent) tt) by done.
  change (child_members s1) with (child_members s). change (last_task_used_math s1) with (last_task_used_math s).
  change (current s1) with (current s). change (fpu s1) with (fpu s).
  erewrite bind_ok by apply with_child_upd. erewrite bind_ok by apply with_child_upd.
  erewrite bind_ok by apply child_init_eq. erewrite bind_ok by apply copy_mem_eq.
  rewrite decide_False by (intros Hx; by apply Hx).
  erewrite (bind_ok _ _ _ _ (set_base d2 base)).
  2: { unfold get_ldt. erewrite bind_ok by apply get_task_eq, with_child_lookup.
       unfold check. by rewrite child_mapped_base. }
  rewrite get_set_base by (apply fr_wfd0 || apply u32_range).
  erewrite bind_ok by (apply with_child_mem; exact fr_stack0).
  erewrite bind_ok by apply get_task_eq, with_child_lookup.
  rewrite child_mapped_filp. set (k0 := with_child s nr p m3 child_mapped).
  erewrite (bind_ok _ _ k0) by done. set (k1 := k0 <| f_count := _ |>).
  erewrite (bind_ok _ _ k1) by exact (get_task_eq _ _ k1 (parent_lookup _ _)).
  erewrite (bind_ok _ _ k1) by done. set (k2 := k1 <| i_count := _ |>).
  rewrite Z.shiftl_mul_pow2 by lia. change (2 ^ 1) with 2. change FIRST_LDT_ENTRY with 5.
  change FIRST_TSS_ENTRY with 4. rewrite (Z.mul_comm nr).
  erewrite (bind_ok _ _ k2) by (apply set_gdt_eq; change (gdt k2) with (gdt s); rewrite fr_gdt0; lia).
  set (k3 := k2 <| gdt := _ |>).
  erewrite (bind_ok _ _ k3).
  2: { apply set_gdt_eq. change (gdt k3) with (alter (fun d => set_tss_desc d (tss_addr p)) (Z.to_nat (2 * nr + 4)) (gdt s)).
       rewrite length_alter, fr_gdt0. lia. }
  set (k4 := k3 <| gdt := _ |>).
  erewrite (bind_ok _ _ k4) by by apply link_child_eq.
  erewrite bind_ok by (apply upd_task_eq; exact linked_child). reflexivity.
Qed.
End copy_process.

(** ** What a fork does *)

(** The user context of a task: what the processor loads when it returns to
    user mode. *)
Record context := Context_ {
  c_eip : Z; c_eflags : Z; c_eax : Z; c_ecx : Z; c_edx : Z; c_ebx : Z;
  c_esp : Z; c_ebp : Z; c_esi : Z; c_edi : Z;
  c_es : Z; c_cs : Z; c_ss : Z; c_ds : Z; c_fs : Z; c_gs : Z
}.

Definition tss_context (t : tss_struct) : context := {|
  c_eip := eip t; c_eflags := eflags t; c_eax := eax t; c_ecx := ecx t; c_edx := edx t;
  c_ebx := ebx t; c_esp := esp t; c_ebp := ebp t; c_esi := esi t; c_edi := edi t;
  c_es := es t; c_cs := cs t; c_ss := ss t; c_ds := ds t; c_fs := fs t; c_gs := gs t
|}.

(** The context [sys_fork]'s caller returns to with result [v]; the segment
    registers have 16 bits. *)
Definition frame_context (r : regs) (v : Z) : context := {|
  c_eip := r_eip r; c_eflags := r_eflags r; c_eax := v; c_ecx := r_ecx r; c_edx := r_edx r;
  c_ebx := r_ebx r; c_esp := r_esp r; c_ebp := r_ebp r; c_esi := r_esi r; c_edi := r_edi r;
  c_es := u16 (r_es r); c_cs := u16 (r_cs r); c_ss := u16 (r_ss r);
  c_ds := u16 (r_ds r); c_fs := u16 (r_fs r); c_gs := u16 (r_gs r)
|}.

Lemma land_u16 z : Z.land z 0xffff = u16 z.
Proof. change 0xffff with (Z.ones 16). by rewrite Z.land_ones by lia. Qed.

Lemma forked_lookup_child s nr r i parent d0 d1 d2 m3 :
  tasks (@forked s nr r i parent d0 d1 d2 m3) !! frame i = Some (@child_final s nr r i parent d0 d1 d2).
Proof. apply lookup_insert_eq. Qed.

(** Projections of the child's structure. *)
Ltac child_field :=
  unfold child_final, child_linked, child_links, child_mapped, child_init;
  destruct (decide _); reflexivity.

(** The child, when [copy_process] goes through.  ForkSpaces.v says when it does. *)
Lemma copied_child s nr r i parent d0 d1 d2 m2 m3 rc :
  fork_ready s nr r i parent d0 d1 d2 m2 m3 rc ->
  exists s' c, copy_process nr r s = Ok (s', last_pid s) /\
    task s' = <[Z.to_nat nr := frame i]> (task s) /\ current s' = current s /\
    mem s' = m3 /\ tasks s' !! frame i = Some c /\
    state c = TASK_RUNNING /\ pid c = last_pid s /\ p_pptr c = current s /\
    tss_context (tss c) = frame_context r 0 /\
    esp0 (tss c) = u32 (PAGE_SIZE + frame i) /\ ss0 (tss c) = 0x10 /\
    counter c = priority parent /\ signal c = 0 /\ alarm c = 0 /\ start_time c = jiffies s /\
    (utime c, stime c, cutime c, cstime c) = (0, 0, 0, 0) /\
    (pgrp c, session c, uid c, gid c) = (pgrp parent, session parent, uid parent, gid parent) /\
    filp c = filp parent.
Proof.
  intros Hf. eexists _, _. split; [exact (copy_process_eq Hf)|].
  do 3 (split; [reflexivity|]). split; [apply forked_lookup_child|].
  do 3 (split; [child_field|]).
  split; [unfold frame_context; rewrite <-!land_u16; child_field|].
  do 8 (split; [child_field|]). child_field.
Qed.

(** The segment of selector [sel] in a descriptor table. *)
Definition selected (table : list desc_struct) (sel : Z) : option segment :=
  decode_segment <$> arr_get table (Z.shiftr sel 3).

Lemma lsl_set_base d base :
  wf_desc d -> 0 ≤ base < 2 ^ 32 -> lsl (set_base d base) = lsl d.
Proof.
  intros Hd Hb. pose proof (decode_set_base d base Hd Hb) as E.
  pose proof (f_equal seg_raw_limit E) as E1. pose proof (f_equal (fun x => Z.testbit (seg_flags x) 3) E) as E2.
  cbn [decode_segment upd seg_raw_limit seg_flags] in E1, E2.
  rewrite !testbit_get_bits in E2 by lia. unfold lsl. rewrite E1.
  change (Z.testbit (desc_b (set_base d base)) 23 = Z.testbit (desc_b d) 23) in E2. by rewrite E2.
Qed.

Lemma selector_index n k : 0 ≤ n < 64 -> 0 ≤ k < 16 -> Z.shiftr (u32 (Z.shiftl n 4 + Z.shiftl k 3)) 3 = 2 * n + k.
Proof.
  intros Hn Hk. rewrite !Z.shiftl_mul_pow2 by lia. rewrite u32_small by lia.
  rewrite Z.shiftr_div_pow2 by lia. Z.div_mod_to_equations. lia.
Qed.

(** The child's segments: its code and data segments start at
    [nr * TASK_SIZE] and keep the parent's limits; the GDT entries that the
    selectors [_TSS(nr)] and [_LDT(nr)] name describe the child's own TSS and
    LDT, and no other GDT entry changes. *)
Theorem copy_process_segments s nr r i parent d0 d1 d2 m2 m3 rc :
  fork_ready s nr r i parent d0 d1 d2 m2 m3 rc -> Forall wf_desc (gdt s) ->
  exists s' c e1 e2, copy_process nr r s = Ok (s', last_pid s) /\
    tasks s' !! frame i = Some c /\ ldt c = [d0; e1; e2] /\
    get_base e1 = nr * TASK_SIZE /\ get_base e2 = nr * TASK_SIZE /\ start_code c = nr * TASK_SIZE /\
    get_limit e1 = get_limit d1 /\ get_limit e2 = get_limit d2 /\
    tss_ldt (tss c) = _LDT nr /\
    selected (gdt s') (_TSS nr) = Some (Segment (frame i + TSS_OFFSET) 104 0x89 0) /\
    selected (gdt s') (_LDT nr) = Some (Segment (frame i + LDT_OFFSET) 104 0x82 0) /\
    forall j, 0 ≤ j -> j <> 2 * nr + 4 -> j <> 2 * nr + 5 -> arr_get (gdt s') j = arr_get (gdt s) j.
Proof.
  intros Hf Hg. eexists _, _, _, _. split; [exact (copy_process_eq Hf)|]. destruct Hf.
  assert (u32 (nr * TASK_SIZE) = nr * TASK_SIZE) as Eb.
  { apply u32_small. unfold TASK_SIZE. lia. }
  assert (0 ≤ nr * TASK_SIZE < 2 ^ 32) as Hb by (unfold TASK_SIZE; lia).
  split; [apply forked_lookup_child|].
  split; [child_field|]. rewrite Eb. destruct fr_wfd0 as [Hw1 Hw2].
  split; [by apply get_set_base|]. split; [by apply get_set_base|].
  split; [rewrite <-Eb; child_field|].
  unfold get_limit. rewrite !lsl_set_base by done. split; [done|]. split; [done|].
  split; [child_field|]. unfold selected, _TSS, _LDT. rewrite !selector_index by (unfold FIRST_LDT_ENTRY, FIRST_TSS_ENTRY; lia).
  destruct fr_free0 as (Hi & _). rewrite PAGING_PAGES_eq in Hi.
  assert (forall off, 0 ≤ off < 4096 -> 0 ≤ frame i + off < 2 ^ 32) as Hfr
    by (unfold frame, PAGE_SIZE, LOW_MEM; lia).
  pose proof (Hfr LDT_OFFSET ltac:(by vm_compute)) as Hl. pose proof (Hfr TSS_OFFSET ltac:(by vm_compute)) as Ht.
  assert (forall j : nat, (j < 256)%nat -> exists d, gdt s !! j = Some d /\ wf_desc d) as Hgd.
  { intros j Hj. destruct (lookup_lt_is_Some_2 (gdt s) j) as [d Hd]; [by rewrite fr_gdt0|].
    exists d. split; [done|]. by eapply Forall_lookup_1. }
  unfold arr_get, forked, forked_gdt, tss_addr, ldt_addr, FIRST_LDT_ENTRY, FIRST_TSS_ENTRY. cbn [gdt].
  rewrite !u32_small by done. change (4 + 1) with 5.
  split; [|split].
  - rewrite decide_True by lia. rewrite list_lookup_alter_ne by lia. rewrite list_lookup_alter_eq.
    destruct (Hgd (Z.to_nat (2 * nr + 4))) as (d & -> & Hd); [lia|]. cbn. f_equal. by apply decode_tssldt.
  - rewrite decide_True by lia. rewrite list_lookup_alter_eq. rewrite list_lookup_alter_ne by lia.
    destruct (Hgd (Z.to_nat (2 * nr + 5))) as (d & -> & Hd); [lia|]. cbn. f_equal. by apply decode_tssldt.
  - intros j Hj Hj4 Hj5. destruct (decide (0 ≤ j)); [|done].
    rewrite list_lookup_alter_ne by lia. rewrite list_lookup_alter_ne by lia. reflexivity.
Qed.

(** *** The family *)

(** [elders ts par young p l]: following [p_osptr] from [p], the tasks [l] in
    this order and then [NULL]; all are children of [par], and each points back
    to its younger neighbour, [young] for the first. *)
Fixpoint elders (ts : gmap Z task_struct) (par young p : Z) (l : list Z) : Prop :=
  match l with
  | [] => p = 0
  | q :: l => p = q /\ q <> 0 /\ exists t, ts !! q = Some t /\ p_pptr t = par /\
                p_ysptr t = young /\ elders ts par q (p_osptr t) l
  end.

(** [l] lists the children of the task [par] from the youngest to the oldest. *)
Definition children (ts : gmap Z task_struct) (par : Z) (l : list Z) : Prop :=
  exists t, ts !! par = Some t /\ elders ts par 0 (p_cptr t) l /\ NoDup l.

Lemma elders_ext ts ts' par young p l :
  elders ts par young p l -> (forall q, q ∈ l -> ts' !! q = ts !! q) -> elders ts' par young p l.
Proof.
  revert young p. induction l as [|q l IH]; intros young p H Hext; [done|].
  destruct H as (-> & Hq & t & Ht & Hp & Hy & He). split; [done|]. split; [done|].
  exists t. split; [by rewrite Hext by (apply elem_of_cons; by left)|]. split; [done|]. split; [done|].
  apply IH; [done|]. intros x Hx. apply Hext. apply elem_of_cons. by right.
Qed.

(** The tasks other than the child, the parent and the older sibling keep
    their structures. *)
Lemma forked_lookup_other s nr r i parent d0 d1 d2 m3 q :
  q <> frame i -> q <> current s ->
  tasks (@forked s nr r i parent d0 d1 d2 m3) !! q =
    if decide (p_cptr parent <> 0 /\ q = p_cptr parent)
    then (fun t => t <| p_ysptr := frame i |>) <$> tasks s !! q else tasks s !! q.
Proof.
  intros H1 H2. unfold forked. cbn [tasks]. unfold forked_tasks, linked_tasks.
  rewrite !lookup_insert_ne by congruence.
  destruct (decide (p_cptr parent <> 0)) as [Hs|Hs]; [|rewrite decide_False by tauto].
  - destruct (decide (q = p_cptr parent)) as [->|Hq].
    + rewrite decide_True by done. rewrite lookup_alter_eq. by rewrite lookup_insert_ne by congruence.
    + rewrite decide_False by tauto. rewrite lookup_alter_ne by done. by rewrite lookup_insert_ne by congruence.
  - by rewrite lookup_insert_ne by congruence.
Qed.

Lemma forked_lookup_parent s nr r i parent d0 d1 d2 m3 :
  frame i <> current s ->
  tasks (@forked s nr r i parent d0 d1 d2 m3) !! current s = Some (parent <| p_cptr := frame i |>).
Proof.
  intros H. unfold forked. cbn [tasks]. unfold forked_tasks, linked_tasks.
  rewrite lookup_insert_ne by done. apply lookup_insert_eq.
Qed.

(** The family links: when the parent's children are linked in a doubly
    linked list from the youngest to the oldest, after the fork they are the
    child followed by the former children, linked both ways; every task that is
    neither the parent nor one of its children is untouched. *)
Theorem copy_process_family s nr r i parent d0 d1 d2 m2 m3 rc l :
  fork_ready s nr r i parent d0 d1 d2 m2 m3 rc ->
  children (tasks s) (current s) l -> frame i ∉ l -> current s ∉ l ->
  exists s', copy_process nr r s = Ok (s', last_pid s) /\
    children (tasks s') (current s) (frame i :: l) /\
    forall q, q <> current s -> q ∉ frame i :: l -> tasks s' !! q = tasks s !! q.
Proof.
  intros Hf (t0 & Ht0 & Hel & Hnd) Hni Hnc. eexists. split; [exact (copy_process_eq Hf)|].
  destruct Hf. assert (t0 = parent) as -> by congruence.
  assert (frame i <> 0) as Hi0.
  { destruct fr_free0 as (Hi & _). unfold frame, LOW_MEM, PAGE_SIZE. lia. }
  pose proof (forked_lookup_other s nr r i parent d0 d1 d2 m3) as Hother.
  split.
  - exists (parent <| p_cptr := frame i |>). split; [by apply forked_lookup_parent|].
    split; [|by apply list.NoDup_cons]. split; [done|]. split; [done|].
    eexists. split; [apply forked_lookup_child|]. split; [child_field|]. split; [child_field|].
    assert (p_osptr (@child_final s nr r i parent d0 d1 d2) = p_cptr parent) as -> by child_field.
    destruct l as [|q l]; [done|].
    destruct Hel as (Hq & Hq0 & t & Ht & Hp & Hy & Hel). split; [done|]. split; [done|].
    apply not_elem_of_cons in Hni as [Hni1 Hni2], Hnc as [Hnc1 Hnc2].
    apply list.NoDup_cons in Hnd as [Hql _].
    exists (t <| p_ysptr := frame i |>). split.
    { rewrite Hother by congruence. rewrite decide_True by (split; congruence). by rewrite Ht. }
    split; [done|]. split; [done|]. eapply elders_ext; [exact Hel|].
    intros x Hx. rewrite Hother by (intros ->; done). rewrite decide_False; [done|].
    intros [_ ->]. by rewrite Hq in Hx.
  - intros q Hqc [Hqi Hql]%not_elem_of_cons. rewrite Hother by done.
    rewrite decide_False; [done|]. intros [Hs ->]. destruct l as [|q l]; [done|].
    destruct Hel as (Hq & _). apply Hql. rewrite Hq. apply elem_of_cons. by left.
Qed.

(** *** Reference counts *)

(** How often [o] occurs in a list of pointers. *)
Fixpoint uses (o : Z) (l : list Z) : Z :=
  match l with
  | [] => 0
  | x :: l => (if decide (x = o) then 1 else 0) + uses o l
  end.

Lemma hold_lookup x c o :
  o <> 0 ->
  default 0 (hold x c !! o) =
    if decide (x = o) then u16 (default 0 (c !! o) + 1) else default 0 (c !! o).
Proof.
  intros Ho. unfold hold, count_incr. repeat case_decide; subst; try done.
  - by rewrite lookup_insert_eq.
  - by rewrite lookup_insert_ne.
Qed.

Lemma hold_all l c o :
  o <> 0 -> 0 ≤ default 0 (c !! o) < 2 ^ 16 ->
  default 0 (foldl (fun c f => hold f c) c l !! o) = u16 (default 0 (c !! o) + uses o l).
Proof.
  intros Ho. revert c. induction l as [|x l IH]; intros c Hc; cbn [foldl uses].
  - by rewrite Z.add_0_r, u16_small.
  - rewrite IH; rewrite hold_lookup by done; case_decide; try done.
    + unfold u16. rewrite Z.add_mod_idemp_l by done. f_equal. lia.
    + apply u16_range.
Qed.

(** The fork counts every reference the child shares with its parent:
    the use count of a file grows by the number of the parent's descriptors
    that refer to it, the use count of an inode by the number of its uses as
    working directory, root, executable and library (modulo 2^16). *)
Theorem copy_process_shares s nr r i parent d0 d1 d2 m2 m3 rc o :
  fork_ready s nr r i parent d0 d1 d2 m2 m3 rc -> o <> 0 ->
  0 ≤ default 0 (f_count s !! o) < 2 ^ 16 -> 0 ≤ default 0 (i_count s !! o) < 2 ^ 16 ->
  exists s', copy_process nr r s = Ok (s', last_pid s) /\
    default 0 (f_count s' !! o) = u16 (default 0 (f_count s !! o) + uses o (filp parent)) /\
    default 0 (i_count s' !! o) =
      u16 (default 0 (i_count s !! o) + uses o [pwd parent; root parent; executable parent; library parent]).
Proof.
  intros Hf Ho Hfc Hic. eexists. split; [exact (copy_process_eq Hf)|].
  split; [by apply hold_all|].
  exact (hold_all [pwd parent; root parent; executable parent; library parent] _ _ Ho Hic).
Qed.

(** *** The whole system call *)

(** A well-formed task table: 64 slots, every task in it has a structure, no
    task is in two slots, no two tasks have the same pid. *)
Record wf_tasks (s : kernel) : Prop := {
  wt_len : length (task s) = 64%nat;
  wt_last : 0 ≤ last_pid s ≤ PID_MAX;
  wt_struct : forall p, p ∈ task s -> p <> 0 -> is_Some (tasks s !! p);
  wt_slots : forall j k p, task s !! j = Some p -> task s !! k = Some p -> p <> 0 -> j = k;
  wt_pids : forall p q t u, p ∈ task s -> q ∈ task s -> p <> 0 -> q <> 0 ->
    tasks s !! p = Some t -> tasks s !! q = Some u -> pid t = pid u -> p = q
}.

Lemma find_empty_process_slot s s1 nr :
  wf_tasks s -> find_empty_process s = Ok (s1, nr) -> 0 ≤ nr ->
  s1 = s <| last_pid := last_pid s1 |> /\ 1 ≤ last_pid s1 ≤ PID_MAX /\ ~ pid_taken s (last_pid s1) /\
  1 ≤ nr < 64 /\ task s !! Z.to_nat nr = Some 0.
Proof.
  intros [Hl Hv _ _ _] E Hnr. destruct (search_pid_total s (last_pid s) Hl Hv) as [v Ev].
  destruct (search_pid_ok _ _ _ _ Hv Ev) as (k & _ & Hk & Hnt & _).
  unfold find_empty_process, mbind, M_bind, get, modify in E. rewrite Ev in E.
  injection E as <- <-. cbn [upd last_pid task] in *. split; [done|].
  split; [rewrite Hk; apply candidate_range|]. split; [done|].
  destruct (empty_slot_spec (drop 1 (task s)) 1) as [[E _]|(j & E & Hj & _)]; rewrite E in *; [done|].
  pose proof (lookup_lt_Some _ _ _ Hj) as Hlt. rewrite length_drop, Hl in Hlt.
  split; [lia|]. rewrite lookup_drop in Hj. rewrite <-Hj. f_equal. lia.
Qed.

(** The pid of a task after the fork. *)
Lemma forked_pid s nr r i parent d0 d1 d2 m3 q t :
  frame i <> current s -> tasks s !! current s = Some parent ->
  tasks (@forked s nr r i parent d0 d1 d2 m3) !! q = Some t ->
  (q = frame i /\ pid t = last_pid s) \/
  (q <> frame i /\ exists t0, tasks s !! q = Some t0 /\ pid t0 = pid t).
Proof.
  intros Hne Hp Hq. destruct (decide (q = frame i)) as [->|Hqi].
  - left. rewrite forked_lookup_child in Hq. injection Hq as <-. split; [done|]. child_field.
  - right. split; [done|]. destruct (decide (q = current s)) as [->|Hqc].
    + rewrite forked_lookup_parent in Hq by done. injection Hq as <-. by exists parent.
    + rewrite forked_lookup_other in Hq by done. case_decide; [|by exists t].
      destruct (tasks s !! q) as [t0|]; [|done]. injection Hq as <-. by exists t0.
Qed.

Lemma forked_struct s nr r i parent d0 d1 d2 m3 q :
  is_Some (tasks s !! q) -> is_Some (tasks (@forked s nr r i parent d0 d1 d2 m3) !! q).
Proof.
  intros Hq. destruct (decide (q = frame i)) as [->|]; [rewrite forked_lookup_child; by eexists|].
  destruct (decide (q = current s)) as [->|].
  - destruct (decide (frame i = current s)) as [<-|]; [rewrite forked_lookup_child; by eexists|].
    rewrite forked_lookup_parent by done. by eexists.
  - rewrite forked_lookup_other by done. case_decide; [by apply fmap_is_Some|done].
Qed.

(** The task table after the fork. *)
Lemma slot_filled (l : list Z) nr p q :
  0 ≤ nr < Z.of_nat (length l) -> q ∈ <[Z.to_nat nr := p]> l -> q = p \/ q ∈ l.
Proof.
  intros Hnr (j & Hj)%list_elem_of_lookup. apply list_lookup_insert_Some in Hj.
  destruct Hj as [(_ & -> & _)|[_ Hj]]; [by left|right]. by eapply list_elem_of_lookup_2.
Qed.

Lemma forked_wf s nr r i parent d0 d1 d2 m2 m3 rc :
  wf_tasks s -> fork_ready s nr r i parent d0 d1 d2 m2 m3 rc ->
  1 ≤ last_pid s -> ~ pid_taken s (last_pid s) -> frame i ∉ task s ->
  wf_tasks (@forked s nr r i parent d0 d1 d2 m3).
Proof.
  intros [Hl Hv Hs Hd Hp] Hf Hlp Hnt Hni. destruct Hf.
  assert (0 ≤ nr < Z.of_nat (length (task s))) as Hnr by (rewrite Hl; lia).
  assert (forall q t, q ∈ task (@forked s nr r i parent d0 d1 d2 m3) -> q <> 0 ->
    tasks (@forked s nr r i parent d0 d1 d2 m3) !! q = Some t ->
    (q = frame i /\ pid t = last_pid s) \/
    (q <> frame i /\ q ∈ task s /\ exists t0, tasks s !! q = Some t0 /\ pid t0 = pid t)) as Hcase.
  { intros q t Hq Hq0 Ht. apply (slot_filled _ _ _ _ Hnr) in Hq.
    destruct (forked_pid _ _ _ _ _ _ _ _ _ _ _ fr_fresh0 fr_parent0 Ht) as [?|[Hqi ?]]; [by left|right].
    split; [done|]. split; [by destruct Hq|done]. }
  assert (forall q t, q ∈ task s -> q <> 0 -> tasks s !! q = Some t -> pid t <> last_pid s) as Hfresh.
  { intros q t Hq Hq0 Ht E. apply Hnt. exists q, t. auto. }
  split.
  - cbn [forked task]. by rewrite length_insert.
  - done.
  - intros q Hq Hq0. destruct (slot_filled _ _ _ _ Hnr Hq) as [->|Hq']; [rewrite forked_lookup_child; by eexists|].
    apply forked_struct. by apply Hs.
  - cbn [forked task]. intros j k q Hj Hk Hq0.
    apply list_lookup_insert_Some in Hj, Hk.
    destruct Hj as [(<- & <- & _)|[Hj0 Hj]], Hk as [(<- & Hk & _)|[Hk0 Hk]]; try done.
    + exfalso. apply Hni. by eapply list_elem_of_lookup_2.
    + exfalso. apply Hni. subst. by eapply list_elem_of_lookup_2.
    + by apply (Hd j k q).
  - intros p q t u Hpi Hqi Hp0 Hq0 Ht Hu E.
    destruct (Hcase p t Hpi Hp0 Ht) as [[-> Ep]|(Hpn & Hpt & t0 & Ht0 & Et)],
             (Hcase q u Hqi Hq0 Hu) as [[-> Eq]|(Hqn & Hqt & u0 & Hu0 & Eu)].
    + done.
    + destruct (Hfresh q u0 Hqt Hq0 Hu0). congruence.
    + destruct (Hfresh p t0 Hpt Hp0 Ht0). congruence.
    + apply (Hp p q t0 u0); congruence.
Qed.

(** The whole of [sys_fork], when [copy_process] goes through. *)
Lemma forked_tasks_wf s s1 r nr :
  wf_tasks s -> find_empty_process s = Ok (s1, nr) ->
  (nr < 0 -> sys_fork r s = Ok (s1, - EAGAIN) /\ s1 = s <| last_pid := last_pid s1 |> /\ wf_tasks s1) /\
  (0 ≤ nr -> forall i parent d0 d1 d2 m2 m3 rc,
     fork_ready s1 nr r i parent d0 d1 d2 m2 m3 rc -> frame i ∉ task s ->
     exists s', sys_fork r s = Ok (s', last_pid s1) /\ 0 < last_pid s1 /\
       ~ pid_taken s (last_pid s1) /\ wf_tasks s').
Proof.
  intros Hw E.
  assert (sys_fork r s = if decide (nr < 0) then Ok (s1, nr) else copy_process nr r s1) as Es.
  { unfold sys_fork. rewrite (bind_ok _ _ _ _ _ E). by case_decide. }
  rewrite Es. split; intros Hnr.
  - rewrite decide_True by done. destruct Hw as [Hl Hv Hs Hd Hp].
    destruct (search_pid_total s (last_pid s) Hl Hv) as [v Ev].
    destruct (search_pid_ok _ _ _ _ Hv Ev) as (k & _ & Hk & _).
    unfold find_empty_process, mbind, M_bind, get, modify in E. rewrite Ev in E.
    injection E as <- <-. cbn [upd last_pid task] in *.
    destruct (empty_slot_spec (drop 1 (task s)) 1) as [[-> _]|(j & E & _)]; [|rewrite E in Hnr; lia].
    split; [done|]. split; [done|]. split; try done. cbn [last_pid]. pose proof (candidate_range (last_pid s) k). lia.
  - intros i parent d0 d1 d2 m2 m3 rc Hf Hni. rewrite decide_False by lia.
    destruct (find_empty_process_slot s s1 nr Hw E Hnr) as (E1 & Hv1 & Hnt & _).
    eexists. split; [exact (copy_process_eq Hf)|]. split; [lia|]. split; [done|].
    assert (wf_tasks s1) as Hw1.
    { destruct Hw as [Hl Hv Hs Hd Hp]. rewrite E1. split; try done. cbn [upd last_pid]. lia. }
    apply (forked_wf _ _ _ _ _ _ _ _ _ _ _ Hw1 Hf); [lia|by rewrite E1|by rewrite E1].
Qed.

(** *** Address spaces *)

Lemma pde_addr_div x : 0 ≤ x < 2 ^ 32 -> pde_addr x = 4 * (x / 2 ^ 22).
Proof.
  intros Hx. rewrite <-Z.shiftr_div_pow2 by lia.
  replace (4 * Z.shiftr x 22) with (Z.shiftl (Z.shiftr x 22) 2) by (rewrite Z.shiftl_mul_pow2 by lia; lia).
  unfold pde_addr. change 0xffc with (mask 2 10). bits.
Qed.

(** The 64 MB that [copy_mem] gives to each slot lie within the 4 GB
    address space, and no page-directory entry serves two slots: the copy for
    one task never meets the entries of another. *)
Theorem task_spaces_disjoint n n' off off' :
  0 ≤ n < NR_TASKS -> 0 ≤ n' < NR_TASKS -> 0 ≤ off < TASK_SIZE -> 0 ≤ off' < TASK_SIZE ->
  u32 (n * TASK_SIZE) + off < 2 ^ 32 /\
  (pde_addr (u32 (n * TASK_SIZE) + off) = pde_addr (u32 (n' * TASK_SIZE) + off') -> n = n').
Proof.
  unfold NR_TASKS, TASK_SIZE. intros Hn Hn' Ho Ho'.
  rewrite !u32_small by lia. split; [lia|]. rewrite !pde_addr_div by lia.
  intros E. Z.div_mod_to_equations. lia.
Qed.

(** ** A fork of task 0

    Task 0 at 0x20000 in the first 640 KB, mapped by the page table at 0x1000;
    it forks for the first time with its stack in the page at 0x7000. *)
Definition demo_mem : mm := {|
  phys := list_to_map ((0, 0x1007) :: ((fun k => (0x1000 + 4 * Z.of_nat k, 4096 * Z.of_nat k + 7)) <$> seq 0 160));
  mem_map := replicate 768 USED ++ replicate 3072 0; below_map := 0; HIGH_MEMORY := 0x1000000
|}.

Definition demo_kernel : kernel := {|
  mem := demo_mem;
  tasks := {[0x20000 := INIT_TASK 0x20000 0]};
  task := 0x20000 :: replicate 63 0;
  current := 0x20000; last_pid := 0; jiffies := 17;
  gdt := replicate 256 (Desc 0 0);
  f_count := ∅; i_count := ∅; last_task_used_math := 0; fpu := i387 (INIT_TSS 0x20000 0)
|}.

Definition demo_regs : regs := {|
  r_ebp := 0x7f40; r_edi := 3; r_esi := 4; r_gs := 0x17; r_ebx := 5; r_ecx := 6; r_edx := 7;
  r_orig_eax := 2; r_fs := 0x17; r_es := 0x17; r_ds := 0x17; r_eip := 0x5678; r_cs := 0x0f;
  r_eflags := 0x202; r_esp := 0x7f00; r_ss := 0x17
|}.

Definition demo_start : kernel := demo_kernel <| last_pid := 1 |>.

Definition demo_copied : mm * Z :=
  match copy_page_tables 0 (1 * TASK_SIZE) 0xa0000 (alloc_page demo_mem 3839) with
  | Ok x => x
  | Err _ => (demo_mem, 0)
  end.

Definition demo_stacked : mm :=
  match (pte ← lin2phy (stack_page 0x7f00 (1 * TASK_SIZE)); un_wp_page pte) (demo_copied.1) with
  | Ok (m, _) => m
  | Err _ => demo_mem
  end.

Definition ok {A} (o : outcome A) : bool := match o with Ok _ => true | Err _ => false end.

Lemma demo_copied_eq :
  copy_page_tables 0 (1 * TASK_SIZE) 0xa0000 (alloc_page demo_mem 3839) =
    Ok (demo_copied.1, demo_copied.2).
Proof.
  assert (ok (copy_page_tables 0 (1 * TASK_SIZE) 0xa0000 (alloc_page demo_mem 3839)) = true) as H
    by (vm_compute; exact eq_refl).
  unfold demo_copied. revert H. destruct (copy_page_tables _ _ _ _) as [[m rc]|f]; [reflexivity|discriminate].
Qed.

Lemma demo_stacked_eq :
  (pte ← lin2phy (stack_page 0x7f00 (1 * TASK_SIZE)); un_wp_page pte) (demo_copied.1) =
    Ok (demo_stacked, tt).
Proof.
  assert (ok ((pte ← lin2phy (stack_page 0x7f00 (1 * TASK_SIZE)); un_wp_page pte) (demo_copied.1)) = true) as H
    by (vm_compute; exact eq_refl).
  unfold demo_stacked. revert H. generalize ((pte ← lin2phy (stack_page 0x7f00 (1 * TASK_SIZE)); un_wp_page pte) (demo_copied.1)).
  intros [[m []]|f]; [reflexivity|discriminate].
Qed.

Lemma demo_ready :
  fork_ready demo_start 1 demo_regs 3839 (INIT_TASK 0x20000 0)
    (Desc 0 0) (Desc 0x9f 0xc0fa00) (Desc 0x9f 0xc0f200) demo_copied.1 demo_stacked demo_copied.2.
Proof.
  split.
  - reflexivity.
  - lia.
  - reflexivity.
  - wf_concrete.
  - free_concrete.
  - reflexivity.
  - vm_compute. discriminate.
  - reflexivity.
  - split; split; cbn; lia.
  - reflexivity.
  - vm_compute. discriminate.
  - exact demo_copied_eq.
  - exact demo_stacked_eq.
  - intros H. by destruct H.
Qed.

Lemma demo_wf : wf_tasks demo_kernel.
Proof.
  assert (forall j p, task demo_kernel !! j = Some p -> p <> 0 -> j = 0%nat /\ p = 0x20000) as H0.
  { intros [|j] p Hj Hp; [by injection Hj|]. change (replicate 63 0 !! j = Some p) in Hj.
    by apply lookup_replicate in Hj as [-> _]. }
  assert (forall p, p ∈ task demo_kernel -> p <> 0 -> p = 0x20000) as H1.
  { intros p [j Hj]%list_elem_of_lookup Hp. by destruct (H0 j p). }
  split.
  - reflexivity.
  - vm_compute. split; discriminate.
  - intros p Hp Hp0. rewrite (H1 p Hp Hp0). by eexists.
  - intros j k p Hj Hk Hp. destruct (H0 j p Hj Hp) as [-> _], (H0 k p Hk Hp) as [-> _]. done.
  - intros p q t u Hp Hq Hp0 Hq0 _ _ _. by rewrite (H1 p Hp Hp0), (H1 q Hq Hq0).
Qed.

Lemma find_empty_process_correct_witness :
  exists (v r : Z) (k : nat), find_empty_process demo_kernel = Ok (demo_kernel <| last_pid := v |>, r) /\
    v = candidate 0 k /\ 1 ≤ v ≤ PID_MAX /\ ~ pid_taken demo_kernel v /\
    (forall j, (j < k)%nat -> pid_taken demo_kernel (candidate 0 j)) /\
    ((r = - EAGAIN /\ forall i, 1 ≤ i < 64 -> arr_get (task demo_kernel) i <> Some 0) \/
     (1 ≤ r < 64 /\ arr_get (task demo_kernel) r = Some 0 /\
      forall i, 1 ≤ i < r -> arr_get (task demo_kernel) i <> Some 0)).
Proof.
  apply (find_empty_process_correct demo_kernel); [reflexivity|vm_compute; split; discriminate].
Defined.

Lemma copy_process_segments_witness :
  exists s' c e1 e2, copy_process 1 demo_regs demo_start = Ok (s', 1) /\
    tasks s' !! 0xfff000 = Some c /\ ldt c = [Desc 0 0; e1; e2] /\
    get_base e1 = 0x4000000 /\ get_base e2 = 0x4000000 /\
    selected (gdt s') (_TSS 1) = Some (Segment 0xfff3b0 104 0x89 0).
Proof.
  destruct (copy_process_segments _ _ _ _ _ _ _ _ _ _ _ demo_ready)
    as (s' & c & e1 & e2 & E & Hc & Hl & H1 & H2 & _ & _ & _ & _ & H3 & _).
  { apply Forall_replicate. split; cbn; lia. }
  exists s', c, e1, e2. repeat split; assumption.
Defined.

Lemma copy_process_family_witness :
  exists s', copy_process 1 demo_regs demo_start = Ok (s', 1) /\
    children (tasks s') 0x20000 [0xfff000].
Proof.
  destruct (copy_process_family _ _ _ _ _ _ _ _ _ _ _ [] demo_ready) as (s' & E & H & _).
  - exists (INIT_TASK 0x20000 0). split; [reflexivity|]. split; [reflexivity|]. apply NoDup_nil_2.
  - apply not_elem_of_nil.
  - apply not_elem_of_nil.
  - exists s'. split; assumption.
Defined.

Lemma copy_process_shares_witness :
  exists s', copy_process 1 demo_regs demo_start = Ok (s', 1) /\ default 0 (f_count s' !! 5) = 0.
Proof.
  destruct (copy_process_shares _ _ _ _ _ _ _ _ _ _ _ 5 demo_ready) as (s' & E & H & _).
  - discriminate.
  - vm_compute. split; [discriminate|reflexivity].
  - vm_compute. split; [discriminate|reflexivity].
  - exists s'. split; assumption.
Defined.

Lemma task_spaces_disjoint_witness :
  u32 (3 * TASK_SIZE) + 0x1000 < 2 ^ 32 /\
  (pde_addr (u32 (3 * TASK_SIZE) + 0x1000) = pde_addr (u32 (4 * TASK_SIZE) + 0x1000) -> 3 = 4).
Proof. apply task_spaces_disjoint; unfold NR_TASKS, TASK_SIZE; lia. Defined.
