(* ===== verification/ForkSpaces.v ===== *)
(** * fork on private memories

    The two halves of [fork] together: [copy_process] (kernel/fork.c, Fork.v)
    takes a frame for the child's kernel page, duplicates the parent's address
    space and copies the page of the child's user stack; in terms of the
    private memories of AddressSpace.v the child simply gets a memory of its own
    with the words of its parent. *)
From S2P Require Import Prelude Words Descriptors Memory AddressSpace Sched Task Fork.

(** ** The child's kernel page *)

Lemma alloc_agree s a i : agree s a -> highest_free s i ->
  agree (alloc_page s i) a /\ (frees s ≤ S (frees (alloc_page s i)))%nat.
Proof.
  intros [Hsp Hw] Hi. destruct a as [ds m]. cbn [fst snd] in *. destruct Hi as (Hr & H0 & _).
  pose proof (frame_range i Hr) as Hfr. unfold LOW_MEM in Hfr. pose proof (frame_aligned i) as Hfa.
  destruct (free_apart s ds Hsp i (proj1 Hr) H0) as [Htabs Hslots]. pose proof (sp_wf s ds Hsp) as Hwf.
  assert (forall x, ~ in_page (frame i) x -> read_word (phys (alloc_page s i)) x = read_word (phys s) x) as Hread.
  { intros x Hx. unfold alloc_page. cbn [phys upd]. rewrite read_zero_page by (Z.div_mod_to_equations; lia).
    by apply decide_False. }
  assert (same_tables s (alloc_page s i) ds) as Hsame.
  { intros x Hx. apply Hread. destruct Hx as [Hx|(d & Hd & Hx)]; [unfold in_page; lia|].
    apply (pages_apart (tab s d) (frame i)); [apply tab_aligned|done|by apply Htabs|done]. }
  split; [split; cbn [fst snd]|].
  - apply (spaces_same s); [done|done|by apply wf_alloc_page|]. intros j c Hj Hc.
    unfold alloc_page. cbn [mem_map upd]. rewrite arr_get_insert by (rewrite (wf_len s Hwf); lia).
    rewrite decide_False; [done|]. intros ->. congruence.
  - intros d k o Hs Ho. rewrite <-Hw by done. unfold word_at. rewrite (same_ent s (alloc_page s i) ds) by done.
    case_decide as Hp; [done|]. f_equal. apply Hread.
    apply (pages_apart (page_of (ent s d k))); [apply page_of_aligned|done|by apply Hslots|].
    apply in_page_offset; [apply page_of_aligned|done].
  - apply (frees_lose_one _ _ (Z.to_nat i)). intros j Hj Hf. unfold is_free, alloc_page in *. cbn [mem_map upd].
    by rewrite list_lookup_insert_ne.
Qed.

(** ** The page of the child's user stack *)

Lemma lin2phy_eq s d k o : base d -> (k < 1024)%nat -> offset o ->
  lin2phy (lin d k o) s = Ok (s, tab s d + 4 * Z.of_nat k).
Proof.
  intros Hd Hk Ho. unfold lin2phy. erewrite bind_ok by apply load_eq. rewrite <-pte_index.
  change (Z.land (Z.shiftr (lin d k o) 12) 0x3ff) with (page_index (lin d k o)).
  rewrite page_index_lin, pde_addr_lin by done. unfold mret, M_ret. do 2 f_equal. unfold tab, pde, page_of. lia.
Qed.

(** The page of [lin d k o] as [copy_process] splits it. *)
Definition stack_slot (esp : Z) : nat := Z.to_nat ((esp + 4095) / 4096 - 1).

Lemma stack_page_lin esp d : base d -> 0 < esp ≤ 0x400000 ->
  stack_page esp d = lin d (stack_slot esp) 0 /\ (stack_slot esp < 1024)%nat.
Proof.
  intros [Hd Hm] He. unfold stack_page, lin, stack_slot. rewrite (s32_small esp), s32_small by lia.
  rewrite Z.quot_div_nonneg by lia.
  assert (1 ≤ (esp + 4095) / 4096 ≤ 1024) as Hq by (Z.div_mod_to_equations; lia).
  rewrite Z2Nat.id by lia. rewrite u32_small; [split; lia|]. Z.div_mod_to_equations. lia.
Qed.

Lemma unshare_stack s a d esp : agree s a -> d ∈ a.1 -> 0 < esp ≤ 0x400000 ->
  user_rw (ent s d (stack_slot esp)) = false -> page_of (ent s d (stack_slot esp)) <> 0 -> (0 < frees s)%nat ->
  exists s', (pte ← lin2phy (stack_page esp d); un_wp_page pte) s = Ok (s', tt) /\ agree s' a /\
    (frees s ≤ S (frees s'))%nat.
Proof.
  intros [Hsp Hw] Hd He Hro Hp Hf. pose proof (sp_base s _ Hsp d Hd) as Hb.
  destruct (stack_page_lin esp d Hb He) as [-> Hk].
  assert (AddressSpace.slot a.1 d (stack_slot esp)) as Hs by by split. assert (offset 0) as Ho by (unfold offset; split; [lia|done]).
  destruct (fault_settled s a.1 d (stack_slot esp) Hsp Hs Hro Hf Hp) as (s' & E & Hsp' & Hsame & _ & Hfr).
  exists s'. split; [by rewrite (bind_ok _ _ _ _ _ (lin2phy_eq s d _ 0 Hb Hk Ho))|]. split; [|done].
  split; [done|]. intros d' k o Hs' Ho'. by rewrite Hsame, Hw.
Qed.

(** ** copy_process *)

Definition task_base (nr : Z) : Z := u32 (nr * TASK_SIZE).

Lemma task_base_ok nr : 1 ≤ nr < 64 -> base (task_base nr).
Proof.
  intros Hn. unfold task_base, TASK_SIZE. rewrite u32_small by lia. split; [lia|]. Z.div_mod_to_equations. lia.
Qed.

(** The task part of what [copy_process] needs: the tables have their sizes, the
    parent's LDT is flat, and no frame that is free holds a task structure. *)
Record can_fork (s : kernel) (nr : Z) (r : regs) (parent : task_struct) (d0 d1 d2 : desc_struct) : Prop := {
  cf_table : length (task s) = 64%nat;
  cf_nr : 1 ≤ nr < 64;
  cf_gdt : length (Fork.gdt s) = 256%nat;
  cf_parent : tasks s !! current s = Some parent;
  cf_ldt : ldt parent = [d0; d1; d2];
  cf_wfd : wf_desc d1 /\ wf_desc d2;
  cf_flat : get_base d1 = get_base d2;
  cf_limit : get_limit d1 ≤ get_limit d2 ≤ 0x400000 /\ 0 < get_limit d2;
  cf_fresh : forall i, arr_get (mem_map (mem s)) i = Some 0 -> frame i <> current s /\ frame i <> p_cptr parent;
  cf_sibling : p_cptr parent <> 0 -> p_cptr parent <> current s /\ is_Some (tasks s !! p_cptr parent);
  cf_stack : 0 < r_esp r ≤ 0x400000
}.

(** What a fork leaves: the child in its slot, resuming where the parent does
    with 0 as its result, in a data segment of its own that starts at
    [task_base nr]. *)
Record child_in_slot (s s' : kernel) (nr : Z) (r : regs) : Prop := {
  ci_current : current s' = current s;
  ci_child : exists p c, task s' !! Z.to_nat nr = Some p /\ tasks s' !! p = Some c /\
    state c = TASK_RUNNING /\ pid c = last_pid s /\ tss_context (tss c) = frame_context r 0 /\
    get_base <$> ldt c !! 1%nat = Some (task_base nr) /\ get_base <$> ldt c !! 2%nat = Some (task_base nr);
  ci_parent : forall t, tasks s !! current s = Some t -> exists q, tasks s' !! current s = Some (t <| p_cptr := q |>);
  ci_slots : forall j, j <> Z.to_nat nr -> task s' !! j = task s !! j
}.

(** The tables are duplicated: frame [i] taken for the child, the memory then [m2]
    with the private memories [a], the child's stack page shared. *)
Record duplicated (s : kernel) (nr : Z) (r : regs) (d2 : desc_struct) (i : Z) (m2 : mm) (a : list Z * amem) : Prop := {
  dp_free : highest_free (mem s) i;
  dp_copy : copy_page_tables (get_base d2) (task_base nr) (get_limit d2) (alloc_page (mem s) i) = Ok (m2, 0);
  dp_agree : agree m2 a;
  dp_base : task_base nr ∈ a.1;
  dp_shared : user_rw (ent m2 (task_base nr) (stack_slot (r_esp r))) = false;
  dp_page : page_of (ent m2 (task_base nr) (stack_slot (r_esp r))) <> 0;
  dp_frees : (3 ≤ frees (mem s))%nat /\ (frees (mem s) ≤ 2 + frees m2)%nat
}.

(** Then the rest of [copy_process] goes through. *)
Lemma duplicated_ready s nr r parent d0 d1 d2 i m2 a :
  can_fork s nr r parent d0 d1 d2 -> wf_mm (mem s) -> duplicated s nr r d2 i m2 a ->
  exists m3, fork_ready s nr r i parent d0 d1 d2 m2 m3 0 /\ agree m3 a /\ (frees m2 ≤ S (frees m3))%nat.
Proof.
  intros [Hct Hcn Hcg Hcp Hcl Hcw Hcf [Hcli Hcl0] Hcfr Hcs Hesp] Hw [Hi E Ha Hto Hro Hp Hf].
  destruct (unshare_stack m2 a (task_base nr) (r_esp r) Ha Hto Hesp Hro Hp ltac:(lia)) as (m3 & E3 & Ha3 & Hf3).
  pose proof Hi as (Hir & H0 & _). destruct (Hcfr i H0) as [Hfr1 Hfr2]. exists m3. split; [|by split].
  constructor; try assumption; [apply Hcli|]. intros Hnz. destruct (Hcs Hnz) as [Hc1 Hc2].
  split; [by apply not_eq_sym|]. by split.
Qed.

Lemma fork_with s nr r parent d0 d1 d2 i m2 a :
  can_fork s nr r parent d0 d1 d2 -> wf_mm (mem s) -> duplicated s nr r d2 i m2 a ->
  exists s', copy_process nr r s = Ok (s', last_pid s) /\ child_in_slot s s' nr r /\ agree (mem s') a /\
    (frees (mem s) ≤ 3 + frees (mem s'))%nat.
Proof.
  intros Hc Hw Hdup. destruct (duplicated_ready s nr r parent d0 d1 d2 i m2 a Hc Hw Hdup) as (m3 & Hr & Ha3 & Hf3).
  destruct Hc as [Hct Hcn _ Hcp _ Hcw _ _ _ _ _]. pose proof (dp_frees _ _ _ _ _ _ _ Hdup) as [_ Hf2].
  exists (forked (s := s) (nr := nr) (r := r) (i := i) (parent := parent) (d0 := d0) (d1 := d1) (d2 := d2) (m3 := m3)).
  split; [exact (copy_process_eq Hr)|]. split; [|split; [exact Ha3|cbn [forked mem]; lia]].
  constructor; [reflexivity| | |].
  2: { intros t Ht. rewrite Hcp in Ht. injection Ht as <-. exists (frame i). apply forked_lookup_parent. apply (fr_fresh _ _ _ _ _ _ _ _ _ _ _ Hr). }
  2: { intros j Hj. apply list_lookup_insert_ne. by apply not_eq_sym. }
  eexists (frame i), _.
  split; [apply list_lookup_insert_eq; rewrite Hct; lia|].
  split; [apply forked_lookup_child|]. split; [child_field|]. split; [child_field|].
  split; [unfold frame_context; rewrite <-!land_u16; child_field|].
  destruct Hcw as [Hw1 Hw2]. pose proof (u32_range (nr * TASK_SIZE)) as Hb.
  split; [change (get_base <$> Some (set_base d1 (task_base nr)) = Some (task_base nr))
         |change (get_base <$> Some (set_base d2 (task_base nr)) = Some (task_base nr))];
    cbn [fmap option_fmap option_map]; f_equal; by apply get_set_base.
Qed.

(** A task whose region is a private memory. *)
Lemma spaces_duplicated s nr r parent d0 d1 d2 a :
  can_fork s nr r parent d0 d1 d2 -> agree (mem s) a ->
  get_base d2 ∈ a.1 -> task_base nr ∉ a.1 -> (length a.1 < 255)%nat ->
  a.2 (get_base d2) (stack_slot (r_esp r)) 0 <> None -> (3 ≤ frees (mem s))%nat ->
  exists i m2, duplicated s nr r d2 i m2 (task_base nr :: a.1, copy_space a.2 (get_base d2) (task_base nr)).
Proof.
  intros Hc Ha Hfrom Hto Hroom Hstack Hf. pose proof Hc as [_ Hn _ _ _ _ _ [[_ Hl1] Hl0] _ _ Hesp].
  destruct (frees_highest (mem s) (sp_wf _ _ (proj1 Ha))) as [i Hi]; [lia|].
  destruct (alloc_agree (mem s) a i Ha Hi) as [[Hsp1 Hw1] Hf1].
  destruct (fork_step (alloc_page (mem s) i) a.1 (get_base d2) (task_base nr) (get_limit d2) Hsp1 Hfrom Hto
    (task_base_ok nr Hn) Hroom ltac:(lia) ltac:(lia)) as (m2 & E & Hsp2 & Hf2 & Hw2 & Hro).
  destruct (stack_page_lin (r_esp r) (task_base nr) (task_base_ok nr Hn) Hesp) as [_ Hk].
  assert (AddressSpace.slot (task_base nr :: a.1) (task_base nr) (stack_slot (r_esp r))) as Hs by (split; [by left|done]).
  assert (offset 0) as Ho by (apply offset_check; reflexivity).
  assert (agree m2 (task_base nr :: a.1, copy_space a.2 (get_base d2) (task_base nr))) as Ha2.
  { split; [done|]. intros d k o Hsl Hoff. cbn [fst snd] in *. rewrite Hw2 by done. unfold copy_space.
    apply Hw1; [|done]. by apply (src_slot a.1 (get_base d2) (task_base nr)). }
  exists i, m2. constructor; [exact Hi|exact E|exact Ha2|by left|by apply Hro| |lia].
  pose proof (proj2 Ha2 _ _ _ Hs Ho) as Hw. cbn [snd] in Hw. unfold copy_space, src in Hw.
  rewrite decide_True in Hw by done. intros Hp. unfold word_at in Hw. rewrite decide_True in Hw by done. congruence.
Qed.

(** C11.  [fork] gives the child a memory of its own.  In a system whose user
    regions are private memories, with three free frames, [copy_process] of a task
    whose region is one of them returns the child's pid, puts the child in its
    slot with segments at its own 64 MB, and leaves private memories again: the
    old regions as they were, and one more, the child's, with the words of the
    parent. *)
Theorem fork_private_memory s nr r parent d0 d1 d2 a :
  can_fork s nr r parent d0 d1 d2 -> agree (mem s) a ->
  get_base d2 ∈ a.1 -> task_base nr ∉ a.1 -> (length a.1 < 255)%nat ->
  a.2 (get_base d2) (stack_slot (r_esp r)) 0 <> None -> (3 ≤ frees (mem s))%nat ->
  exists s', copy_process nr r s = Ok (s', last_pid s) /\ child_in_slot s s' nr r /\
    agree (mem s') (task_base nr :: a.1, copy_space a.2 (get_base d2) (task_base nr)) /\
    (frees (mem s) ≤ 3 + frees (mem s'))%nat.
Proof.
  intros Hc Ha Hfrom Hto Hroom Hstack Hf.
  destruct (spaces_duplicated s nr r parent d0 d1 d2 a Hc Ha Hfrom Hto Hroom Hstack Hf) as (i & m2 & Hd).
  by apply (fork_with s nr r parent d0 d1 d2 i m2 _ Hc (sp_wf _ _ (proj1 Ha))).
Qed.

(** ** The fork of task 0 *)

Lemma alloc_tables s i : kernel_tables s -> highest_free s i ->
  kernel_tables (alloc_page s i) /\
  (forall d k o, offset o -> boot_words (alloc_page s i) d k o = boot_words s d k o) /\
  (frees s ≤ S (frees (alloc_page s i)))%nat.
Proof.
  intros [Hw Hp He Hu] (Hr & H0 & _). pose proof (frame_range i Hr) as Hfr. unfold LOW_MEM in Hfr.
  pose proof (frame_aligned i) as Hfa.
  assert (forall x, x < 0x100000 -> read_word (phys (alloc_page s i)) x = read_word (phys s) x) as Hread.
  { intros x Hx. unfold alloc_page. cbn [phys upd]. rewrite read_zero_page by (Z.div_mod_to_equations; lia).
    apply decide_False. unfold in_page. lia. }
  split; [constructor|split].
  - by apply wf_alloc_page.
  - by rewrite Hread.
  - intros k Hk. unfold entry. rewrite Hread by lia. by apply He.
  - intros d Hd. unfold pde. rewrite Hread by (pose proof (pde_addr_range d); lia). by apply Hu.
  - intros d k o Ho. unfold boot_words. case_decide as Hk; [|done]. f_equal. apply Hread. destruct Ho. lia.
  - apply (frees_lose_one _ _ (Z.to_nat i)). intros j Hj Hf. unfold is_free, alloc_page in *. cbn [mem_map upd].
    by rewrite list_lookup_insert_ne.
Qed.

Lemma task0_duplicated s nr r parent d0 d1 d2 :
  can_fork s nr r parent d0 d1 d2 -> kernel_tables (mem s) -> get_base d2 = 0 ->
  0x1000 < r_esp r ≤ 0xA0000 -> (3 ≤ frees (mem s))%nat ->
  exists i m2, duplicated s nr r d2 i m2 ([task_base nr], boot_words (mem s)).
Proof.
  intros Hc Hk Hd2 Hesp Hf. pose proof Hc as [_ Hn _ _ _ _ _ [[_ Hl1] Hl0] _ _ _].
  destruct (frees_highest (mem s) (kt_wf _ Hk)) as [i Hi]; [lia|].
  destruct (alloc_tables (mem s) i Hk Hi) as (Hk1 & Hb1 & Hf1).
  destruct (first_fork_agree (alloc_page (mem s) i) (task_base nr) (get_limit d2) Hk1 (task_base_ok nr Hn))
    as (m2 & E & [Hsp2 Hw2] & Hf2 & _ & Hro); [lia|lia|]. cbn [fst snd] in *.
  assert (0 < stack_slot (r_esp r) < 160)%nat as Hkk by (unfold stack_slot; Z.div_mod_to_equations; lia).
  assert (agree m2 ([task_base nr], boot_words (mem s))) as Ha2.
  { split; [done|]. intros d k o Hsl Hoff. cbn [fst snd] in *. rewrite Hw2 by done. by apply Hb1. }
  assert (offset 0) as Ho by (apply offset_check; reflexivity).
  assert (AddressSpace.slot [task_base nr] (task_base nr) (stack_slot (r_esp r))) as Hs by (split; [by left|lia]).
  exists i, m2. constructor; [exact Hi|by rewrite Hd2|exact Ha2|by left|apply Hro; lia| |lia].
  pose proof (proj2 Ha2 _ _ _ Hs Ho) as Hw. cbn [snd] in Hw. unfold boot_words in Hw.
  rewrite decide_True in Hw by lia. intros Hp. unfold word_at in Hw. by rewrite decide_True in Hw by done.
Qed.

Lemma fork_task0_spaces s nr r parent d0 d1 d2 :
  can_fork s nr r parent d0 d1 d2 -> kernel_tables (mem s) -> get_base d2 = 0 ->
  0x1000 < r_esp r ≤ 0xA0000 -> (3 ≤ frees (mem s))%nat ->
  exists s', copy_process nr r s = Ok (s', last_pid s) /\ child_in_slot s s' nr r /\
    agree (mem s') ([task_base nr], boot_words (mem s)) /\ (frees (mem s) ≤ 3 + frees (mem s'))%nat.
Proof.
  intros Hc Hk Hd2 Hesp Hf. destruct (task0_duplicated s nr r parent d0 d1 d2 Hc Hk Hd2 Hesp Hf) as (i & m2 & Hd).
  by apply (fork_with s nr r parent d0 d1 d2 i m2 _ Hc (kt_wf _ Hk)).
Qed.

(** The first [fork] of the system.  Task 0, whose stack lies in the first
    640 KB, forks while only the identity map of boot/head.s exists: the result is
    one private memory, the child's, that shows the words of low memory. *)
Theorem fork_task0 s nr r parent d0 d1 d2 :
  can_fork s nr r parent d0 d1 d2 -> kernel_tables (mem s) -> get_base d2 = 0 ->
  0x1000 < r_esp r ≤ 0xA0000 -> (3 ≤ frees (mem s))%nat ->
  exists s', copy_process nr r s = Ok (s', last_pid s) /\ child_in_slot s s' nr r /\
    agree (mem s') ([task_base nr], boot_words (mem s)) /\ (frees (mem s) ≤ 3 + frees (mem s'))%nat.
Proof. exact (fork_task0_spaces s nr r parent d0 d1 d2). Qed.

(** ** The child *)

(** The memory a fork needs: three free frames, for the child's kernel page, its page
    table and its stack page, and page tables that are in order; the task is one
    with a private memory, or task 0 before the first fork. *)
Definition memory_ready (s : kernel) (nr : Z) (r : regs) (d2 : desc_struct) : Prop :=
  (3 ≤ frees (mem s))%nat /\
  ((exists a, agree (mem s) a /\ get_base d2 ∈ a.1 /\ task_base nr ∉ a.1 /\ (length a.1 < 255)%nat /\
      a.2 (get_base d2) (stack_slot (r_esp r)) 0 <> None) \/
   kernel_tables (mem s) /\ get_base d2 = 0 /\ 0x1000 < r_esp r ≤ 0xA0000).

Lemma memory_fork_ready s nr r parent d0 d1 d2 :
  can_fork s nr r parent d0 d1 d2 -> memory_ready s nr r d2 ->
  exists i m2 m3, fork_ready s nr r i parent d0 d1 d2 m2 m3 0 /\ arr_get (mem_map (mem s)) i = Some 0.
Proof.
  intros Hc [Hf [(a & Ha & Hfrom & Hto & Hroom & Hstack)|(Hk & Hd2 & Hesp)]].
  - destruct (spaces_duplicated s nr r parent d0 d1 d2 a Hc Ha Hfrom Hto Hroom Hstack Hf) as (i & m2 & Hd).
    destruct (duplicated_ready s nr r parent d0 d1 d2 i m2 _ Hc (sp_wf _ _ (proj1 Ha)) Hd) as (m3 & Hr & _).
    exists i, m2, m3. split; [exact Hr|]. apply (dp_free _ _ _ _ _ _ _ Hd).
  - destruct (task0_duplicated s nr r parent d0 d1 d2 Hc Hk Hd2 Hesp Hf) as (i & m2 & Hd).
    destruct (duplicated_ready s nr r parent d0 d1 d2 i m2 _ Hc (kt_wf _ Hk) Hd) as (m3 & Hr & _).
    exists i, m2, m3. split; [exact Hr|]. apply (dp_free _ _ _ _ _ _ _ Hd).
Qed.

(** C10.  The second half of [sys_fork] succeeds when three frames are free, the
    page tables are in order and the parent's LDT is flat, and gives the parent
    the child's pid.  The child is in the slot asked for, in a frame that was free,
    runnable, with the new pid; it resumes in user mode where the parent does, with
    the parent's registers except that [eax], its result of [fork], is 0, and with a
    kernel stack at the end of its own page.  (Without a free frame the code goes on
    with the page 0xFF000: [get_free_page_exhausted].) *)
Theorem copy_process_child s nr r parent d0 d1 d2 :
  can_fork s nr r parent d0 d1 d2 -> memory_ready s nr r d2 ->
  exists s' c i, copy_process nr r s = Ok (s', last_pid s) /\ arr_get (mem_map (mem s)) i = Some 0 /\
    task s' = <[Z.to_nat nr := frame i]> (task s) /\ current s' = current s /\
    tasks s' !! frame i = Some c /\
    state c = TASK_RUNNING /\ pid c = last_pid s /\ p_pptr c = current s /\
    tss_context (tss c) = frame_context r 0 /\
    esp0 (tss c) = u32 (PAGE_SIZE + frame i) /\ ss0 (tss c) = 0x10 /\
    counter c = priority parent /\ signal c = 0 /\ alarm c = 0 /\ start_time c = jiffies s /\
    (utime c, stime c, cutime c, cstime c) = (0, 0, 0, 0) /\
    (pgrp c, session c, uid c, gid c) = (pgrp parent, session parent, uid parent, gid parent) /\
    filp c = filp parent.
Proof.
  intros Hc Hm. destruct (memory_fork_ready s nr r parent d0 d1 d2 Hc Hm) as (i & m2 & m3 & Hr & Hi).
  destruct (copied_child s nr r i parent d0 d1 d2 m2 m3 0 Hr) as (s' & c & E & Ht & Hcur & _ & H).
  exists s', c, i. split; [exact E|]. split; [exact Hi|]. split; [exact Ht|]. split; [exact Hcur|exact H].
Qed.

(** C20.  [sys_fork] keeps the task table well formed.  When the table is full
    it returns -EAGAIN and only [last_pid] has changed.  Otherwise, when three frames
    are free, the page tables are in order and no task structure lies in a free
    frame, the parent gets a positive pid that no task had, and afterwards the 64
    slots still hold distinct tasks with distinct pids. *)
Theorem sys_fork_keeps_tasks s s1 r nr :
  wf_tasks s -> find_empty_process s = Ok (s1, nr) ->
  (nr < 0 -> Fork.sys_fork r s = Ok (s1, - EAGAIN) /\ s1 = s <| last_pid := last_pid s1 |> /\ wf_tasks s1) /\
  (0 ≤ nr -> forall parent d0 d1 d2, can_fork s1 nr r parent d0 d1 d2 -> memory_ready s1 nr r d2 ->
     (forall i, arr_get (mem_map (mem s1)) i = Some 0 -> frame i ∉ task s) ->
     exists s', Fork.sys_fork r s = Ok (s', last_pid s1) /\ 0 < last_pid s1 /\
       ~ pid_taken s (last_pid s1) /\ wf_tasks s').
Proof.
  intros Hw E. destruct (forked_tasks_wf s s1 r nr Hw E) as [Hfull Hroom]. split; [exact Hfull|].
  intros Hnr parent d0 d1 d2 Hc Hm Hfree.
  destruct (memory_fork_ready s1 nr r parent d0 d1 d2 Hc Hm) as (i & m2 & m3 & Hr & Hi).
  exact (Hroom Hnr i parent d0 d1 d2 m2 m3 0 Hr (Hfree i Hi)).
Qed.

(** ** Witnesses *)

Lemma frame_above i m : arr_get m i = Some 0 -> 0x100000 ≤ frame i.
Proof. intros H%arr_get_Some. unfold frame, PAGE_SIZE, LOW_MEM. lia. Qed.

(** Task 0 of Fork.v over the identity map of AddressSpace.v. *)
Definition task0_start : kernel := demo_start <| mem := ident_mm |>.

Lemma task0_can_fork :
  can_fork task0_start 1 demo_regs (INIT_TASK 0x20000 0) (Desc 0 0) (Desc 0x9f 0xc0fa00) (Desc 0x9f 0xc0f200).
Proof.
  constructor; [reflexivity|lia|reflexivity|reflexivity|reflexivity|split; split; cbn; lia|reflexivity| | | |].
  - vm_compute. intuition discriminate.
  - intros i Hi%frame_above. cbn [current task0_start demo_start demo_kernel upd p_cptr INIT_TASK]. lia.
  - intros H. by destruct H.
  - vm_compute. intuition discriminate.
Qed.

Lemma fork_task0_witness :
  exists s', copy_process 1 demo_regs task0_start = Ok (s', 1) /\
    agree (mem s') ([0x4000000], boot_words ident_mm) /\
    exists p c, task s' !! 1%nat = Some p /\ tasks s' !! p = Some c /\ pid c = 1.
Proof.
  destruct (fork_task0 task0_start 1 demo_regs _ _ _ _ task0_can_fork ident_tables) as (s' & E & [_ (p & c & H1 & H2 & _ & H3 & _)] & Ha & _).
  - reflexivity.
  - cbn [r_esp demo_regs]. lia.
  - change (3 ≤ frees ident_mm)%nat. rewrite ident_frees. lia.
  - exists s'. split; [exact E|]. split; [exact Ha|]. exists p, c. exact (conj H1 (conj H2 H3)).
Defined.

(** A task with the region at 64 MB. *)
Definition task1 : task_struct := INIT_TASK 0x20000 0
  <| ldt := [Desc 0 0; set_base (Desc 0x9f 0xc0fa00) 0x4000000; set_base (Desc 0x9f 0xc0f200) 0x4000000] |>.
Definition task1_start (m : mm) : kernel := demo_start <| mem := m |> <| tasks := {[0x20000 := task1]} |>.

Lemma task1_can_fork m :
  can_fork (task1_start m) 2 demo_regs task1 (Desc 0 0) (set_base (Desc 0x9f 0xc0fa00) 0x4000000)
    (set_base (Desc 0x9f 0xc0f200) 0x4000000).
Proof.
  constructor; [reflexivity|lia|reflexivity|reflexivity|reflexivity| |reflexivity| | | |].
  - split; (apply set_base_wf; [split; cbn; lia|lia]).
  - vm_compute. intuition discriminate.
  - intros i Hi%frame_above. cbn [current task1_start demo_start demo_kernel upd p_cptr INIT_TASK task1]. lia.
  - intros H. by destruct H.
  - vm_compute. intuition discriminate.
Qed.

Lemma fork_private_memory_witness :
  exists m s', copy_page_tables 0 0x4000000 0xA0000 ident_mm = Ok (m, 0) /\
    copy_process 2 demo_regs (task1_start m) = Ok (s', 1) /\
    agree (mem s') ([0x8000000; 0x4000000], copy_space (boot_words ident_mm) 0x4000000 0x8000000).
Proof.
  destruct (first_fork_agree ident_mm 0x4000000 0xA0000 ident_tables) as (m & E0 & Ha & Hf & _);
    [apply space_base; reflexivity|lia|rewrite ident_frees; lia|]. rewrite ident_frees in Hf.
  destruct (fork_private_memory (task1_start m) 2 demo_regs _ _ _ _ ([0x4000000], boot_words ident_mm) (task1_can_fork m) Ha)
    as (s' & E & _ & Ha' & _).
  - by left.
  - change (0x8000000 ∉ [0x4000000]). rewrite list_elem_of_singleton. discriminate.
  - cbn [length fst]. lia.
  - vm_compute. discriminate.
  - change (3 ≤ frees m)%nat. lia.
  - exists m, s'. split; [exact E0|]. split; [exact E|exact Ha'].
Defined.

Lemma task0_memory : memory_ready task0_start 1 demo_regs (Desc 0x9f 0xc0f200).
Proof.
  split; [change (3 ≤ frees ident_mm)%nat; rewrite ident_frees; lia|]. right.
  split; [exact ident_tables|]. split; [reflexivity|]. cbn [r_esp demo_regs]. lia.
Qed.

Lemma copy_process_child_witness :
  exists s' c i, copy_process 1 demo_regs task0_start = Ok (s', 1) /\
    tasks s' !! frame i = Some c /\ pid c = 1 /\ tss_context (tss c) = frame_context demo_regs 0.
Proof.
  destruct (copy_process_child task0_start 1 demo_regs _ _ _ _ task0_can_fork task0_memory)
    as (s' & c & i & E & _ & _ & _ & Hc & _ & Hp & _ & Hx & _).
  exists s', c, i. split; [exact E|]. split; [exact Hc|]. split; [exact Hp|exact Hx].
Defined.

Lemma sys_fork_keeps_tasks_witness :
  exists s', Fork.sys_fork demo_regs (demo_kernel <| mem := ident_mm |>) = Ok (s', 1) /\ wf_tasks s'.
Proof.
  assert (wf_tasks (demo_kernel <| mem := ident_mm |>)) as Hw by (destruct demo_wf; constructor; assumption).
  destruct (sys_fork_keeps_tasks (demo_kernel <| mem := ident_mm |>) task0_start demo_regs 1 Hw) as [_ H]; [reflexivity|].
  destruct (H ltac:(discriminate) _ _ _ _ task0_can_fork task0_memory) as (s' & E & _ & _ & Hw').
  - intros i Hi%frame_above [Hx|Hx]%elem_of_cons; [lia|]. apply elem_of_replicate in Hx as [Hx _]. lia.
  - exists s'. split; [exact E|exact Hw'].
Defined.
