(* ===== verification/Vsprintf.v ===== *)
(** * Formatted output

    kernel/vsprintf.c ([skip_atoi], [number], [vsprintf]) and its two callers
    of kernel/printk.c.  A [char] is its code, a [Z]; a C string is the list of
    its codes without the final NUL.  Output is the list of the characters
    stored from the start of the buffer on. *)
From S2P Require Import Prelude Words.
From Stdlib Require Ascii String.

Definition chr (a : Ascii.ascii) : Z := Z.of_nat (Ascii.nat_of_ascii a).
Definition str (s : string) : list Z := chr <$> String.list_ascii_of_string s.

Definition c_zero : Z := 48.
Definition c_nine : Z := 57.
Definition c_space : Z := 32.
Definition c_percent : Z := 37.

(** ** Numbers *)

Definition is_digit (c : Z) : bool := (c_zero <=? c) && (c <=? c_nine).

(** The result and the rest of the string. *)
Fixpoint skip_atoi_from (i : Z) (s : list Z) : Z * list Z :=
  match s with
  | c :: s' => if is_digit c then skip_atoi_from (s32 (i * 10 + c - c_zero)) s' else (i, s)
  | [] => (i, [])
  end.

Definition skip_atoi (s : list Z) : Z * list Z := skip_atoi_from 0 s.

Definition ZEROPAD : Z := 1.
Definition SIGN : Z := 2.
Definition PLUS : Z := 4.
Definition SPACE : Z := 8.
Definition LEFT : Z := 16.
Definition SPECIAL : Z := 32.
Definition SMALL : Z := 64.

(** [type & flag] *)
Definition has (type flag : Z) : bool := negb (Z.land type flag =? 0).

(** [divl]: the quotient that replaces [n] and the remainder, unsigned. *)
Definition do_div (n base : Z) : Z * Z := (n / base, n mod base).

Definition digits_upper : list Z := str "0123456789ABCDEFGHIJKLMNOPQRSTUVWXYZ".
Definition digits_lower : list Z := str "0123456789abcdefghijklmnopqrstuvwxyz".

(** [while (num != 0) tmp[i++] = digits[do_div(num, base)];] the digits from
    the lowest on. *)
Fixpoint low_digits (fuel : nat) (digits : list Z) (num base : Z) : list Z :=
  match fuel with
  | O => []
  | S fuel =>
      if decide (num = 0) then [] else
      let '(q, r) := do_div num base in
      default 0 (arr_get digits r) :: low_digits fuel digits q base
  end.

(** [while (size-- > 0) *str++ = c;] the characters stored and the last value
    of [size]. *)
Definition pad (size c : Z) : list Z * Z := (replicate (Z.to_nat size) c, Z.min size 0 - 1).

(** [number]; [None] for the null pointer it returns on a bad base.  [size] and
    [precision] only count down here; a width so extreme that the [int] would overflow
    is undefined in C. *)
Definition number (num base size precision type : Z) : option (list Z) :=
  let digits := if has type SMALL then digits_lower else digits_upper in
  let type := if has type LEFT then Z.land type (Z.lnot ZEROPAD) else type in
  if decide (base < 2 \/ base > 36) then None else
  let c := if has type ZEROPAD then c_zero else c_space in
  let negative := has type SIGN && (num <? 0) in
  let num := if negative then s32 (- num) else num in
  let sign := if negative then 45 else if has type PLUS then 43
              else if has type SPACE then c_space else 0 in
  let size := if decide (sign <> 0) then size - 1 else size in
  let size := if has type SPECIAL then
                if decide (base = 16) then size - 2 else if decide (base = 8) then size - 1 else size
              else size in
  let tmp := if decide (num = 0) then [c_zero] else low_digits 32 digits (u32 num) base in
  let i := Z.of_nat (length tmp) in
  let precision := if decide (i > precision) then i else precision in
  let size := size - precision in
  let '(out1, size) := if decide (Z.land type (ZEROPAD + LEFT) = 0) then pad size c_space else ([], size) in
  let out2 := if decide (sign <> 0) then [sign] else [] in
  let out3 := if has type SPECIAL then
                if decide (base = 8) then [c_zero]
                else if decide (base = 16) then [c_zero; default 0 (arr_get digits 33)] else []
              else [] in
  let '(out4, size) := if has type LEFT then ([], size) else pad size c in
  let out5 := replicate (Z.to_nat (precision - i)) c_zero in
  let '(out6, _) := pad size c_space in
  Some (out1 ++ out2 ++ out3 ++ out4 ++ out5 ++ rev tmp ++ out6).

Example number_hex : number 255 16 8 (-1) (SPECIAL + SMALL) = Some (str "    0xff").
Proof. by vm_compute. Qed.
Example number_neg : number (-42) 10 6 4 SIGN = Some (str " -0042").
Proof. by vm_compute. Qed.
Example number_min : number (- 2 ^ 31) 10 (-1) (-1) SIGN = Some (str "-2147483648").
Proof. by vm_compute. Qed.

(** ** vsprintf *)

(** What a call of [vsprintf] reads and writes: the arguments not yet fetched
    (32-bit words), the characters stored, and the stores of [%n]. *)
Record vstate := Vstate { args : list Z; out : list Z; stores : list (Z * Z) }.

#[export] Instance eta_vstate : Eta vstate := fun r => Vstate (args r) (out r) (stores r).

(** [*str++ = ...] *)
Definition emit (l : list Z) : M vstate unit := modify (fun s => s <| out := out s ++ l |>).

(** [va_arg(args, T)] for a 4-byte [T]; the model stops when the caller passed
    no further argument. *)
Definition va_arg : M vstate Z :=
  s ← get;
  match args s with
  | a :: l => put (s <| args := l |>);; mret a
  | [] => stop (Wild "va_arg")
  end.

(** [repeat: ++fmt;] and its [switch] on the format behind the ['%']. *)
Fixpoint parse_flags (fmt : list Z) (flags : Z) : Z * list Z :=
  match fmt with
  | c :: fmt' =>
      if decide (c = 45) then parse_flags fmt' (Z.lor flags LEFT)
      else if decide (c = 43) then parse_flags fmt' (Z.lor flags PLUS)
      else if decide (c = c_space) then parse_flags fmt' (Z.lor flags SPACE)
      else if decide (c = 35) then parse_flags fmt' (Z.lor flags SPECIAL)
      else if decide (c = c_zero) then parse_flags fmt' (Z.lor flags ZEROPAD)
      else (flags, fmt)
  | [] => (flags, [])
  end.

Definition starts_digit (fmt : list Z) : bool :=
  match fmt with c :: _ => is_digit c | [] => false end.

Definition starts_with (fmt : list Z) (c : Z) : bool :=
  match fmt with c' :: _ => bool_decide (c' = c) | [] => false end.

(** The field width: its value, the flags and the rest of the format.  ['*'] is
    not skipped. *)
Definition parse_width (fmt : list Z) (flags : Z) : M vstate (Z * Z * list Z) :=
  if starts_digit fmt then
    let '(w, fmt) := skip_atoi fmt in mret (w, flags, fmt)
  else if starts_with fmt 42 then
    a ← va_arg;
    let w := s32 a in
    if decide (w < 0) then mret (s32 (- w), Z.lor flags LEFT, fmt) else mret (w, flags, fmt)
  else mret (-1, flags, fmt).

Definition parse_precision (fmt : list Z) : M vstate (Z * list Z) :=
  if starts_with fmt 46 then
    let fmt := drop 1 fmt in
    x ← (if starts_digit fmt then mret (skip_atoi fmt)
         else if starts_with fmt 42 then a ← va_arg; mret (s32 a, fmt)
         else mret (-1, fmt));
    let '(p, fmt) := (x : Z * list Z) in
    mret (if decide (p < 0) then 0 else p, fmt)
  else mret (-1, fmt).

(** The qualifier is skipped and has no other effect. *)
Definition skip_qualifier (fmt : list Z) : list Z :=
  if starts_with fmt 104 || starts_with fmt 108 || starts_with fmt 76 then drop 1 fmt else fmt.

Definition emit_number (base width precision flags : Z) : M vstate unit :=
  a ← va_arg;
  match number (s32 a) base width precision flags with
  | Some l => emit l
  | None => stop (Wild "number")
  end.

Section vsprintf.
(** The C string at an address. *)
Variable strings : Z -> option (list Z).

Definition emit_string (width precision flags : Z) : M vstate unit :=
  a ← va_arg;
  s ← check "%s" (strings a);
  let len := Z.of_nat (length s) in
  let len := if decide (precision < 0) then len else if decide (len > precision) then precision else len in
  let '(lpad, width) := if has flags LEFT then ([], width)
                        else (replicate (Z.to_nat (width - len)) c_space, Z.min width len - 1) in
  emit (lpad ++ take (Z.to_nat len) s ++ replicate (Z.to_nat (width - len)) c_space).

Definition emit_char (width flags : Z) : M vstate unit :=
  let '(lpad, width) := if has flags LEFT then ([], width)
                        else (replicate (Z.to_nat (width - 1)) c_space, Z.min (width - 1) 0) in
  emit lpad;;
  a ← va_arg;
  emit (u8 a :: replicate (Z.to_nat (width - 1)) c_space).

(** The [switch] on the character: the conversion; the result is the format behind it. *)
Definition convert (fmt : list Z) (flags width precision : Z) : M vstate (list Z) :=
  match fmt with
  | [] => emit [c_percent];; mret []
  | c :: fmt =>
      (if decide (c = 99) then emit_char width flags
       else if decide (c = 115) then emit_string width precision flags
       else if decide (c = 111) then emit_number 8 width precision flags
       else if decide (c = 112) then
         (if decide (width = -1) then emit_number 16 8 precision (Z.lor flags ZEROPAD)
          else emit_number 16 width precision flags)
       else if decide (c = 120) then emit_number 16 width precision (Z.lor flags SMALL)
       else if decide (c = 88) then emit_number 16 width precision flags
       else if decide (c = 100 \/ c = 105) then emit_number 10 width precision (Z.lor flags SIGN)
       else if decide (c = 117) then emit_number 10 width precision flags
       else if decide (c = 110) then
         ip ← va_arg;
         modify (fun s => s <| stores := stores s ++ [(ip, Z.of_nat (length (out s)))] |>)
       else emit ((if decide (c <> c_percent) then [c_percent] else []) ++ [c]));;
      mret fmt
  end.

(** One directive, the format behind its ['%'] given. *)
Definition directive (fmt : list Z) : M vstate (list Z) :=
  let '(flags, fmt) := parse_flags fmt 0 in
  x ← parse_width fmt flags;
  let '(width, flags, fmt) := (x : Z * Z * list Z) in
  y ← parse_precision fmt;
  let '(precision, fmt) := (y : Z * list Z) in
  convert (skip_qualifier fmt) flags width precision.

(** The [for] loop; [fuel] bounds the rounds. *)
Fixpoint format (fuel : nat) (fmt : list Z) : M vstate unit :=
  match fmt with
  | [] => mret tt
  | c :: fmt =>
      match fuel with
      | O => stop Fuel
      | S fuel =>
          if decide (c <> c_percent) then emit [c];; format fuel fmt
          else fmt ← directive fmt; format fuel fmt
      end
  end.

(** The stored characters (the final NUL not included), the stores of [%n]; the
    result of the C function is the length of the former. *)
Definition vsprintf (fmt : list Z) (a : list Z) : outcome (list Z * list (Z * Z)) :=
  match format (length fmt) fmt (Vstate a [] []) with
  | Ok (s, _) => Ok (out s, stores s)
  | Err f => Err f
  end.

(** ** printk and printm

    Both format into a buffer of fixed size and hand it with its length to
    [log_buf] (kernel/nasm.asm); the model stops when the characters and the
    NUL do not fit. *)
Definition print_into (size : Z) (fmt : list Z) (a : list Z) : outcome (list Z) :=
  match vsprintf fmt a with
  | Ok (l, _) => if decide (Z.of_nat (length l) + 1 > size) then Err (Wild "buf") else Ok l
  | Err f => Err f
  end.

Definition printk (fmt a : list Z) : outcome (list Z) := print_into 1024 fmt a.
Definition printm (fmt a : list Z) : outcome (list Z) := print_into 128 fmt a.
End vsprintf.

Example vsprintf_ex :
  vsprintf (fun _ => Some (str "tty")) (str "%5s|%-4d|%#x|%c%%%n") [0; 7; 255; 65; 0x9000] =
    Ok (str "  tty|7   |0xff|A%", [(0x9000, 18)]).
Proof. by vm_compute. Qed.

(** ** Digits *)

(** The place of a digit in the upper-case alphabet, lower case accepted. *)
Definition digit_value (c : Z) : Z :=
  if is_digit c then c - c_zero else if decide (c < 97) then c - 55 else c - 87.

(** The value of a numeral, the highest digit first. *)
Definition numeral_value (base : Z) (l : list Z) : Z :=
  foldl (fun v c => v * base + digit_value c) 0 l.

Definition alphabet (digits : list Z) : Prop :=
  forall r, 0 ≤ r < 36 -> exists c, arr_get digits r = Some c /\ digit_value c = r.

Lemma digits_alphabet type :
  alphabet (if has type SMALL then digits_lower else digits_upper).
Proof.
  intros r Hr.
  assert (forall l, Forall (fun r => exists c, arr_get l r = Some c /\ digit_value c = r) (seqZ 0 36) ->
    exists c, arr_get l r = Some c /\ digit_value c = r) as Hl.
  { intros l Hall. rewrite list.Forall_forall in Hall. apply Hall, elem_of_seqZ. lia. }
  apply Hl. destruct (has type SMALL); cbn -[arr_get digits_lower digits_upper];
    repeat (constructor; [by eexists|]); constructor.
Qed.

Section digits.
Variables (digits : list Z) (base : Z).
Hypothesis Hdigits : alphabet digits.
Hypothesis Hbase : 2 ≤ base ≤ 36.

Lemma numeral_value_snoc l c : numeral_value base (l ++ [c]) = numeral_value base l * base + digit_value c.
Proof. unfold numeral_value. by rewrite foldl_app. Qed.

Lemma low_digits_value fuel num :
  0 ≤ num < base ^ Z.of_nat fuel -> numeral_value base (rev (low_digits fuel digits num base)) = num.
Proof.
  revert num. induction fuel as [|fuel IH]; intros num Hn; [cbn in *; lia|].
  cbn [low_digits]. case_decide as H0; [by subst|]. unfold do_div.
  destruct (Hdigits (num mod base)) as (c & -> & Hc).
  { pose proof (Z.mod_pos_bound num base). lia. }
  cbn [rev default]. rewrite numeral_value_snoc, IH; [unfold id; rewrite Hc; pose proof (Z_div_mod_eq_full num base); lia|].
  rewrite Nat2Z.inj_succ, Z.pow_succ_r in Hn by lia. split; [apply Z.div_pos; lia|].
  apply Z.div_lt_upper_bound; lia.
Qed.

(** At most [k] digits below [base ^ k]. *)
Lemma low_digits_length fuel num (k : nat) :
  0 ≤ num < base ^ Z.of_nat k -> (length (low_digits fuel digits num base) ≤ k)%nat.
Proof.
  revert num k. induction fuel as [|fuel IH]; intros num k Hn; cbn [low_digits]; [cbn; lia|].
  case_decide; [cbn; lia|]. destruct k as [|k]; [cbn in Hn; lia|].
  unfold do_div. cbn [length]. apply le_n_S, IH.
  rewrite Nat2Z.inj_succ, Z.pow_succ_r in Hn by lia. split; [apply Z.div_pos; lia|].
  apply Z.div_lt_upper_bound; lia.
Qed.

(** The highest digit is not 0. *)
Lemma low_digits_last fuel num :
  0 < num < base ^ Z.of_nat fuel ->
  exists l c, rev (low_digits fuel digits num base) = c :: l /\ digit_value c <> 0.
Proof.
  revert num. induction fuel as [|fuel IH]; intros num Hn; [cbn in *; lia|].
  cbn [low_digits]. rewrite decide_False by lia. unfold do_div.
  destruct (Hdigits (num mod base)) as (c & -> & Hc).
  { pose proof (Z.mod_pos_bound num base). lia. }
  cbn [rev default]. destruct (decide (num / base = 0)) as [Hq|Hq].
  - exists [], c. split; [by destruct fuel; [|cbn [low_digits]; rewrite decide_True by done]|].
    rewrite Hc. pose proof (Z_div_mod_eq_full num base). lia.
  - destruct (IH (num / base)) as (l & d & -> & Hd); [|by exists (l ++ [id c]), d].
    rewrite Nat2Z.inj_succ, Z.pow_succ_r in Hn by lia. pose proof (Z.div_pos num base).
    split; [lia|]. apply Z.div_lt_upper_bound; lia.
Qed.

Lemma u32_digits num : 0 ≤ u32 num < base ^ Z.of_nat 32.
Proof.
  pose proof (u32_range num). split; [lia|].
  enough (2 ^ 32 ≤ base ^ Z.of_nat 32) by lia. apply Z.pow_le_mono_l. lia.
Qed.
End digits.

(** The digits [number] prints for a number without sign. *)
Definition digits_of (type base num : Z) : list Z :=
  if decide (num = 0) then [c_zero]
  else rev (low_digits 32 (if has type SMALL then digits_lower else digits_upper) (u32 num) base).

Lemma digits_of_value type base num :
  2 ≤ base ≤ 36 -> - 2 ^ 31 ≤ num < 2 ^ 31 -> numeral_value base (digits_of type base num) = u32 num.
Proof.
  intros Hb Hn. unfold digits_of. case_decide as H0; [by subst|].
  apply low_digits_value; [apply digits_alphabet|done|]. by apply u32_digits.
Qed.

Lemma digits_of_nonempty type base num :
  2 ≤ base ≤ 36 -> - 2 ^ 31 ≤ num < 2 ^ 31 -> exists c l, digits_of type base num = c :: l /\
    (digit_value c = 0 -> num = 0).
Proof.
  intros Hb Hn. unfold digits_of. case_decide as H0; [by exists c_zero, []|].
  destruct (low_digits_last (if has type SMALL then digits_lower else digits_upper) base (digits_alphabet type) Hb 32 (u32 num))
    as (l & c & -> & Hc).
  - pose proof (u32_digits base Hb num) as [H1 H2]. split; [|done].
    assert (u32 num <> 0); [|lia]. unfold u32 in *. intros E. apply H0.
    Z.div_mod_to_equations. lia.
  - by exists c, l.
Qed.

(** ** The layout of a number *)

Lemma has_bit type k : 0 ≤ k -> has type (2 ^ k) = Z.testbit type k.
Proof.
  intros Hk. unfold has. destruct (Z.testbit type k) eqn:E.
  - apply negb_true_iff, Z.eqb_neq. intros H0.
    assert (Z.testbit (Z.land type (2 ^ k)) k = true) as Ht
      by (rewrite Z.land_spec, E, Z.pow2_bits_true by done; done).
    by rewrite H0, Z.bits_0 in Ht.
  - apply negb_false_iff, Z.eqb_eq, Z.bits_inj'. intros n Hn.
    rewrite Z.land_spec, Z.pow2_bits_eqb, Z.bits_0 by done.
    destruct (Z.eqb_spec k n) as [<-|]; [by rewrite E|by rewrite andb_false_r].
Qed.

Lemma no_padding type :
  Z.land type (ZEROPAD + LEFT) = 0 <-> has type ZEROPAD = false /\ has type LEFT = false.
Proof.
  assert (Z.land type (ZEROPAD + LEFT) = Z.lor (Z.land type ZEROPAD) (Z.land type LEFT)) as ->.
  { by rewrite <-Z.land_lor_distr_r. }
  rewrite Z.lor_eq_0_iff. unfold has. rewrite !negb_false_iff, !Z.eqb_eq. done.
Qed.

Lemma land_unpad type flag : Z.land flag ZEROPAD = 0 ->
  has (Z.land type (Z.lnot ZEROPAD)) flag = has type flag.
Proof.
  intros H. unfold has. do 2 f_equal. rewrite <-Z.land_assoc. f_equal.
  rewrite Z.land_comm, <-Z.ldiff_land. rewrite <-(Z.lor_ldiff_and flag ZEROPAD) at 2.
  rewrite H. by rewrite Z.lor_0_r.
Qed.

Lemma land_unpad_zero type : has (Z.land type (Z.lnot ZEROPAD)) ZEROPAD = false.
Proof. unfold has. by rewrite <-Z.land_assoc, Z.land_0_r. Qed.

(** The sign character, the base prefix and the digits filled up with zeros to
    the precision. *)
Definition sign_part (num type : Z) : list Z :=
  if has type SIGN && (num <? 0) then [45]
  else if has type PLUS then [43] else if has type SPACE then [c_space] else [].

Definition prefix_part (base type : Z) : list Z :=
  if has type SPECIAL then
    if decide (base = 8) then [c_zero]
    else if decide (base = 16) then [c_zero; if has type SMALL then 120 else 88] else []
  else [].

Definition digits_part (num base precision type : Z) : list Z :=
  let n := if has type SIGN && (num <? 0) then s32 (- num) else num in
  let ds := digits_of type base n in
  replicate (Z.to_nat (precision - Z.of_nat (length ds))) c_zero ++ ds.

(** What a number looks like: blanks go to the right for [LEFT], otherwise to
    the left of everything, or zeros between sign and digits for [ZEROPAD]. *)
Definition number_layout (num base size precision type : Z) : list Z :=
  let head := sign_part num type ++ prefix_part base type in
  let ds := digits_part num base precision type in
  let fill := replicate (Z.to_nat (size - Z.of_nat (length (head ++ ds)))) in
  if has type LEFT then head ++ ds ++ fill c_space
  else if has type ZEROPAD then head ++ fill c_zero ++ ds
  else fill c_space ++ head ++ ds.

(** How the C code computes the head. *)
Definition sign_char (num type : Z) : Z :=
  if has type SIGN && (num <? 0) then 45 else if has type PLUS then 43
  else if has type SPACE then c_space else 0.

Lemma sign_char_part num type size :
  (if decide (sign_char num type <> 0) then [sign_char num type] else []) = sign_part num type /\
  (if decide (sign_char num type <> 0) then size - 1 else size) =
    size - Z.of_nat (length (sign_part num type)).
Proof.
  unfold sign_char, sign_part. unfold c_space.
  destruct (has type SIGN && (num <? 0)), (has type PLUS), (has type SPACE);
    (split; case_decide; cbn; congruence || lia).
Qed.

Lemma prefix_chars base type size :
  (if has type SPECIAL then
     if decide (base = 8) then [c_zero]
     else if decide (base = 16)
          then [c_zero; default 0 (arr_get (if has type SMALL then digits_lower else digits_upper) 33)] else []
   else []) = prefix_part base type /\
  (if has type SPECIAL then
     if decide (base = 16) then size - 2 else if decide (base = 8) then size - 1 else size
   else size) = size - Z.of_nat (length (prefix_part base type)).
Proof.
  unfold prefix_part. destruct (has type SPECIAL); [|split; [done|cbn; lia]].
  repeat case_decide; subst; try lia; (split; [|cbn; lia]); [done| |done].
  by destruct (has type SMALL).
Qed.

Lemma digit_chars base n type :
  rev (if decide (n = 0) then [c_zero]
       else low_digits 32 (if has type SMALL then digits_lower else digits_upper) (u32 n) base) =
    digits_of type base n.
Proof. unfold digits_of. by case_decide. Qed.

Lemma replicate_neg e (c : Z) : e ≤ 0 -> replicate (Z.to_nat e) c = [].
Proof. intros He. by rewrite Z2Nat.nonpos by done. Qed.

Lemma number_layout_eq num base size precision type :
  2 ≤ base ≤ 36 -> number num base size precision type = Some (number_layout num base size precision type).
Proof.
  intros Hb. unfold number. rewrite decide_False by lia. cbv zeta.
  set (t' := if has type LEFT then _ else type).
  assert (forall flag, Z.land flag ZEROPAD = 0 -> has t' flag = has type flag) as Ht.
  { intros flag Hf. unfold t'. destruct (has type LEFT); [by apply land_unpad|done]. }
  assert (has t' ZEROPAD = negb (has type LEFT) && has type ZEROPAD) as Hz.
  { unfold t'. destruct (has type LEFT) eqn:E; [by rewrite land_unpad_zero|done]. }
  rewrite !(Ht SIGN), !(Ht PLUS), !(Ht SPACE), !(Ht SPECIAL), !(Ht LEFT) by done.
  fold (sign_char num type).
  set (n := if has type SIGN && (num <? 0) then s32 (- num) else num).
  pose proof (digit_chars base n type) as Ed. set (tmp := if decide (n = 0) then _ else _) in *.
  assert (length tmp = length (digits_of type base n)) as El by (by rewrite <-Ed, length_rev).
  rewrite Ed, El. clearbody tmp. set (ds := digits_of type base n) in *.
  destruct (sign_char_part num type size) as [E1 E2]. rewrite E1, E2. clear E1 E2.
  destruct (prefix_chars base type (size - Z.of_nat (length (sign_part num type)))) as [E1 E2].
  rewrite E1, E2. clear E1 E2. set (k := Z.of_nat (length ds)).
  assert ((if decide (k > precision) then k else precision) = Z.max k precision) as ->
    by (case_decide; lia).
  set (sz := size - _ - _ - _).
  assert (replicate (Z.to_nat (Z.max k precision - k)) c_zero = replicate (Z.to_nat (precision - k)) c_zero) as ->.
  { destruct (decide (precision ≤ k)); [by rewrite !replicate_neg by lia|]. do 2 f_equal. lia. }
  assert (sz = size - Z.of_nat (length ((sign_part num type ++ prefix_part base type) ++
    digits_part num base precision type))) as Esz.
  { unfold sz, digits_part. cbv zeta. fold n. fold ds. fold k. rewrite !length_app, length_replicate. lia. }
  unfold number_layout. cbv zeta. rewrite <-Esz.
  unfold digits_part. cbv zeta. fold n. fold ds. fold k.
  assert (Z.land t' (ZEROPAD + LEFT) = 0 <-> has type ZEROPAD = false /\ has type LEFT = false) as Hp.
  { rewrite no_padding, Hz, (Ht LEFT) by done. destruct (has type LEFT), (has type ZEROPAD); cbn; naive_solver. }
  unfold pad. rewrite Hz. destruct (has type LEFT) eqn:EL; [|destruct (has type ZEROPAD) eqn:EZ]; cbn [negb andb].
  - rewrite decide_False by (intros [_ ?]%Hp; done). cbn [app]. by rewrite <-!app_assoc.
  - rewrite decide_False by (intros [? _]%Hp; done). cbn [app].
    rewrite (replicate_neg (_ - 1)) by lia. by rewrite app_nil_r, <-!app_assoc.
  - rewrite decide_True by (by apply Hp).
    rewrite !(replicate_neg (_ - 1)) by lia. cbn [app]. by rewrite app_nil_r, <-!app_assoc.
Qed.

(** C26.  [number] lays a number out as its flags, width and precision ask: it
    stores sign, base prefix, leading zeros up to the precision and digits,
    and fills up to the width on the side the flags select; so it stores
    exactly as many characters as the larger of the width and the number
    itself. *)
Theorem number_layout_correct num base size precision type :
  2 ≤ base ≤ 36 ->
  exists l, number num base size precision type = Some l /\
    l = number_layout num base size precision type /\
    Z.of_nat (length l) = Z.max size
      (Z.of_nat (length (sign_part num type) + length (prefix_part base type)) +
       Z.max precision (Z.of_nat (length (digits_of type base
         (if has type SIGN && (num <? 0) then s32 (- num) else num))))).
Proof.
  intros Hb. eexists. split; [by apply number_layout_eq|]. split; [done|].
  unfold number_layout, digits_part. cbv zeta.
  destruct (has type LEFT); [|destruct (has type ZEROPAD)];
    rewrite ?length_app, ?length_replicate, ?length_app, ?length_replicate; lia.
Qed.

(** Without flags, width and precision [number] prints the digits alone. *)
Lemma number_plain num base t :
  2 ≤ base ≤ 36 -> t = 0 \/ t = SMALL ->
  number num base (-1) (-1) t = Some (digits_of t base num).
Proof.
  intros Hb Ht. rewrite number_layout_eq by done. f_equal. unfold number_layout, digits_part.
  destruct Ht as [-> | ->]; cbn -[digits_of Z.of_nat Z.to_nat]; rewrite !replicate_neg by lia; done.
Qed.

(** A signed decimal: the sign of a negative number, then its absolute value. *)
Lemma number_decimal num :
  number num 10 (-1) (-1) SIGN =
    Some (if decide (num < 0) then 45 :: digits_of 0 10 (s32 (- num)) else digits_of 0 10 num).
Proof.
  rewrite number_layout_eq by lia. f_equal. unfold number_layout, digits_part, sign_part.
  change (has SIGN SIGN) with true. cbn [andb]. change (has SIGN LEFT) with false.
  change (has SIGN ZEROPAD) with false. destruct (Z.ltb_spec num 0).
  - rewrite decide_True by done. cbn -[digits_of Z.of_nat Z.to_nat]. by rewrite !replicate_neg by lia.
  - rewrite decide_False by lia. cbn -[digits_of Z.of_nat Z.to_nat]. by rewrite !replicate_neg by lia.
Qed.

(** C25.  [number] prints the numeral of its argument: without flags, width and
    precision the characters it stores, read as a numeral in the base, give
    the 32-bit number back, in upper or lower case, and do not start with 0
    unless the number is 0. *)
Theorem number_roundtrip num base t :
  2 ≤ base ≤ 36 -> t = 0 \/ t = SMALL -> - 2 ^ 31 ≤ num < 2 ^ 31 ->
  exists c l, number num base (-1) (-1) t = Some (c :: l) /\
    numeral_value base (c :: l) = u32 num /\ (digit_value c = 0 -> num = 0).
Proof.
  intros Hb Ht Hn. rewrite number_plain by done.
  destruct (digits_of_nonempty t base num Hb Hn) as (c & l & E & Hc).
  exists c, l. rewrite <-E, digits_of_value by done. by rewrite E.
Qed.

(** ** Reading numbers back *)

Abbreviation decimal_step := (fun v c => v * 10 + digit_value c).

Lemma digit_range c : is_digit c = true -> 0 ≤ c - c_zero ≤ 9 /\ digit_value c = c - c_zero.
Proof.
  intros Hc. split; [unfold is_digit, c_zero, c_nine in *; lia|].
  unfold digit_value. by rewrite Hc.
Qed.

Lemma decimal_grows l v :
  Forall (fun c => is_digit c = true) l -> 0 ≤ v -> v ≤ foldl decimal_step v l.
Proof.
  intros Hl. revert v. induction Hl as [|c l Hc Hl IH]; intros v Hv; cbn [foldl]; [lia|].
  destruct (digit_range c Hc) as [? E]. rewrite E. specialize (IH (v * 10 + (c - c_zero))). lia.
Qed.

Lemma skip_atoi_digits l rest v :
  Forall (fun c => is_digit c = true) l -> starts_digit rest = false ->
  0 ≤ v -> foldl decimal_step v l < 2 ^ 31 ->
  skip_atoi_from v (l ++ rest) = (foldl decimal_step v l, rest).
Proof.
  intros Hl Hr. revert v. induction Hl as [|c l Hc Hl IH]; intros v Hv Hb; cbn [app foldl] in *.
  - destruct rest as [|c rest]; [done|]. cbn [skip_atoi_from starts_digit] in *. by rewrite Hr.
  - destruct (digit_range c Hc) as [? E]. cbn [skip_atoi_from]. rewrite Hc.
    pose proof (decimal_grows l (v * 10 + digit_value c) Hl). rewrite E in *.
    rewrite s32_small by lia. replace (v * 10 + c - c_zero) with (v * 10 + (c - c_zero)) by lia.
    apply IH; lia.
Qed.

Lemma low_digits_decimal digits fuel num :
  alphabet digits -> 0 ≤ num -> (forall r, 0 ≤ r < 10 -> arr_get digits r = Some (c_zero + r)) ->
  Forall (fun c => is_digit c = true) (low_digits fuel digits num 10).
Proof.
  intros Ha Hn Hd. revert num Hn. induction fuel as [|fuel IH]; intros num Hn; cbn [low_digits]; [constructor|].
  case_decide; [constructor|]. unfold do_div. pose proof (Z.mod_pos_bound num 10 ltac:(lia)) as Hr.
  rewrite Hd by done. constructor.
  - unfold is_digit, c_zero, c_nine, id. cbn [default]. unfold id. lia.
  - apply IH. apply Z.div_pos; lia.
Qed.

Lemma digits_of_decimal type num : Forall (fun c => is_digit c = true) (digits_of type 10 num).
Proof.
  unfold digits_of. case_decide; [by constructor|].
  apply Forall_rev, low_digits_decimal; [apply digits_alphabet|apply u32_range|].
  intros r Hr. destruct (has type SMALL);
    (assert (r = 0 \/ r = 1 \/ r = 2 \/ r = 3 \/ r = 4 \/ r = 5 \/ r = 6 \/ r = 7 \/ r = 8 \/ r = 9) as Hc by lia;
     by repeat (destruct Hc as [->|Hc]; [reflexivity|]); subst).
Qed.

(** [skip_atoi], which reads the widths of a format, reads back what
    [number] prints: the value, and the format right behind the digits. *)
Theorem skip_atoi_number num rest :
  0 ≤ num < 2 ^ 31 -> starts_digit rest = false ->
  exists l, number num 10 (-1) (-1) 0 = Some l /\ skip_atoi (l ++ rest) = (num, rest).
Proof.
  intros Hn Hr. eexists. split; [apply number_plain; lia|].
  pose proof (digits_of_value 0 10 num ltac:(lia) ltac:(lia)) as Ev. rewrite u32_small in Ev by lia.
  unfold skip_atoi. rewrite skip_atoi_digits; [by rewrite <-Ev at 2|apply digits_of_decimal|done|lia|].
  change (numeral_value 10 (digits_of 0 10 num) < 2 ^ 31). lia.
Qed.

(** ** Termination *)

(** A computation that fails at most because an argument is missing or a [%s]
    argument is no string. *)
Definition arg_fault (f : fault) : Prop := f = Wild "va_arg" \/ f = Wild "%s".
Definition safe {A} (m : M vstate A) : Prop := forall s f, m s = Err f -> arg_fault f.

(** All results of a computation satisfy [P]. *)
Definition yields {A} (m : M vstate A) (P : A -> Prop) : Prop := forall s s' a, m s = Ok (s', a) -> P a.

Lemma safe_bind {A B} (m : M vstate A) (k : A -> M vstate B) (P : A -> Prop) :
  safe m -> yields m P -> (forall a, P a -> safe (k a)) -> safe (m ≫= k).
Proof.
  intros Hm Hy Hk s f E. unfold mbind, M_bind in E. destruct (m s) as [[s' a]|f'] eqn:Em.
  - eapply Hk; [by eapply Hy|done].
  - injection E as <-. by eapply Hm.
Qed.

Lemma safe_bind_any {A B} (m : M vstate A) (k : A -> M vstate B) :
  safe m -> (forall a, safe (k a)) -> safe (m ≫= k).
Proof. intros Hm Hk. apply (safe_bind m k (fun _ => True)); [done|by intros ????|done]. Qed.

Lemma safe_ret {A} (a : A) : safe (mret a).
Proof. by intros s f. Qed.
Lemma safe_modify f : safe (modify f).
Proof. by intros s g. Qed.
Lemma safe_emit l : safe (emit l).
Proof. apply safe_modify. Qed.
Lemma safe_va_arg : safe va_arg.
Proof.
  intros s f E. unfold va_arg, mbind, M_bind, get in E. destruct (args s); [|done].
  injection E as <-. by left.
Qed.
Create HintDb vsafe.
#[export] Hint Resolve safe_bind_any safe_ret safe_modify safe_emit safe_va_arg : vsafe.

Lemma yields_ret {A} (a : A) (P : A -> Prop) : P a -> yields (mret a) P.
Proof. intros H s s' b E. by injection E as <- <-. Qed.

Lemma yields_bind {A B} (m : M vstate A) (k : A -> M vstate B) (P : B -> Prop) :
  (forall a, yields (k a) P) -> yields (m ≫= k) P.
Proof. intros H s s' b (s1 & a & _ & E)%bind_inv. by eapply H. Qed.

Lemma skip_atoi_shorter i l : (length (skip_atoi_from i l).2 ≤ length l)%nat.
Proof.
  revert i. induction l as [|c l IH]; intros i; cbn [skip_atoi_from]; [done|].
  destruct (is_digit c); [|done]. specialize (IH (s32 (i * 10 + c - c_zero))). cbn [length]. lia.
Qed.

Lemma parse_flags_shorter l flags : (length (parse_flags l flags).2 ≤ length l)%nat.
Proof.
  revert flags. induction l as [|c l IH]; intros flags; cbn [parse_flags]; [done|].
  repeat case_decide; try (etrans; [apply IH|]; cbn [length]; lia). done.
Qed.

Lemma parse_width_ok l flags :
  safe (parse_width l flags) /\ yields (parse_width l flags) (fun x => (length x.2 ≤ length l)%nat).
Proof.
  unfold parse_width. pose proof (skip_atoi_shorter 0 l). destruct (starts_digit l).
  { unfold skip_atoi. destruct (skip_atoi_from 0 l). split; [apply safe_ret|by apply yields_ret]. }
  destruct (starts_with l 42); [|split; [apply safe_ret|by apply yields_ret]]. split.
  - apply safe_bind_any; [apply safe_va_arg|]. intros a. case_decide; apply safe_ret.
  - apply yields_bind. intros a. case_decide; by apply yields_ret.
Qed.

Lemma parse_precision_ok l :
  safe (parse_precision l) /\ yields (parse_precision l) (fun x => (length x.2 ≤ length l)%nat).
Proof.
  unfold parse_precision. destruct (starts_with l 46); [|split; [apply safe_ret|by apply yields_ret]].
  cbv zeta. set (l' := drop 1 l).
  assert (length l' ≤ length l)%nat as Hl' by (unfold l'; rewrite length_drop; lia).
  pose proof (skip_atoi_shorter 0 l').
  set (m := if starts_digit l' then _ else _).
  assert (safe m /\ yields m (fun x => (length x.2 ≤ length l)%nat)) as [Hs Hy].
  { unfold m. destruct (starts_digit l'); [split; [apply safe_ret|apply yields_ret; unfold skip_atoi; lia]|].
    destruct (starts_with l' 42); [|split; [apply safe_ret|by apply yields_ret]]. split.
    - apply safe_bind_any; [apply safe_va_arg|]. intros a. apply safe_ret.
    - apply yields_bind. intros a. by apply yields_ret. }
  split.
  - apply safe_bind_any; [done|]. intros [p f]. apply safe_ret.
  - intros s s' x (s1 & [p f] & E & E')%bind_inv. apply Hy in E. by injection E' as _ <-.
Qed.

Lemma skip_qualifier_shorter l : (length (skip_qualifier l) ≤ length l)%nat.
Proof. unfold skip_qualifier. destruct (_ || _); [rewrite length_drop; lia|done]. Qed.

Lemma emit_number_safe base width precision flags : 2 ≤ base ≤ 36 -> safe (emit_number base width precision flags).
Proof.
  intros Hb. apply safe_bind_any; [apply safe_va_arg|]. intros a.
  rewrite number_layout_eq by done. apply safe_emit.
Qed.

Section vsprintf_spec.
Variable strings : Z -> option (list Z).

Lemma emit_string_safe width precision flags : safe (emit_string strings width precision flags).
Proof.
  apply safe_bind_any; [apply safe_va_arg|]. intros a. apply safe_bind_any.
  - intros s f E. unfold check in E. destruct (strings a); [done|]. injection E as <-. by right.
  - intros l. cbv zeta. destruct (has flags LEFT); apply safe_emit.
Qed.

Lemma emit_char_safe width flags : safe (emit_char width flags).
Proof.
  unfold emit_char. destruct (has flags LEFT);
    (apply safe_bind_any; [apply safe_emit|]; intros _; apply safe_bind_any; [apply safe_va_arg|];
     intros; apply safe_emit).
Qed.

Lemma convert_ok l flags width precision :
  safe (convert strings l flags width precision) /\
  yields (convert strings l flags width precision) (fun x => (length x ≤ length l)%nat).
Proof.
  unfold convert. destruct l as [|c l].
  - split; [|apply yields_bind; intros []; by apply yields_ret].
    apply safe_bind_any; [apply safe_emit|]. intros []. apply safe_ret.
  - split; [|apply yields_bind; intros []; apply yields_ret; cbn [length]; lia].
    apply safe_bind_any; [|intros []; apply safe_ret].
    repeat case_decide; auto using emit_char_safe, emit_string_safe, safe_emit with lia;
      try (apply emit_number_safe; lia).
    apply safe_bind_any; [apply safe_va_arg|]. intros a. apply safe_modify.
Qed.

Lemma directive_ok l :
  safe (directive strings l) /\ yields (directive strings l) (fun x => (length x ≤ length l)%nat).
Proof.
  unfold directive. pose proof (parse_flags_shorter l 0) as H1.
  destruct (parse_flags l 0) as [flags l1]. cbn [snd] in H1.
  destruct (parse_width_ok l1 flags) as [Hs2 Hy2]. split.
  - eapply safe_bind_any; [done|]. intros [[width flags2] l2].
    eapply safe_bind_any; [apply parse_precision_ok|]. intros [precision l3]. apply convert_ok.
  - intros s s' x (s1 & [[width flags2] l2] & E2 & E)%bind_inv. apply Hy2 in E2.
    apply bind_inv in E as (s2 & [precision l3] & E3 & E). apply parse_precision_ok in E3.
    apply convert_ok in E. pose proof (skip_qualifier_shorter l3). cbn [snd] in *. lia.
Qed.

Lemma format_safe fuel l : (length l ≤ fuel)%nat -> safe (format strings fuel l).
Proof.
  revert l. induction fuel as [|fuel IH]; intros [|c l] Hl; cbn [format]; try apply safe_ret;
    cbn [length] in Hl; [lia|].
  case_decide.
  - apply safe_bind_any; [apply safe_emit|]. intros []. apply IH. lia.
  - destruct (directive_ok l) as [Hs Hy]. eapply safe_bind; [done|done|].
    intros l' Hl'. apply IH. cbn beta in Hl'. lia.
Qed.

(** C23.  [vsprintf] terminates on every format and argument list, and fails
    only where the C program has no defined behaviour: when the format asks for
    an argument that was not passed, or for a string at an address that holds
    none. *)
Theorem vsprintf_terminates fmt a :
  (exists l st, vsprintf strings fmt a = Ok (l, st)) \/
  (exists f, vsprintf strings fmt a = Err f /\ arg_fault f).
Proof.
  unfold vsprintf. destruct (format strings (length fmt) fmt _) as [[s []]|f] eqn:E; [left|right].
  - by eexists _, _.
  - exists f. split; [done|]. by eapply (format_safe (length fmt) fmt).
Qed.

(** ** What is printed *)

(** Enough fuel is as good as more. *)
Lemma format_fuel f1 f2 l s :
  (length l ≤ f1)%nat -> (length l ≤ f2)%nat -> format strings f1 l s = format strings f2 l s.
Proof.
  revert f2 l s. induction f1 as [|f1 IH]; intros f2 [|c l] s H1 H2; cbn [length] in *; try lia.
  - by destruct f2.
  - by destruct f2.
  - destruct f2 as [|f2]; [lia|]. cbn [format]. case_decide.
    + unfold mbind, M_bind, emit, modify. apply IH; lia.
    + unfold mbind, M_bind. destruct (directive strings l s) as [[s' l']|f] eqn:E; [|done].
      apply directive_ok in E. cbn beta in E. apply IH; lia.
Qed.

Definition run_format (l : list Z) : M vstate unit := format strings (length l) l.

Lemma run_char c l s :
  c <> c_percent -> run_format (c :: l) s = run_format l (s <| out := out s ++ [c] |>).
Proof. intros Hc. unfold run_format. cbn [length format]. by rewrite decide_True. Qed.

Lemma run_directive l s s' l' :
  directive strings l s = Ok (s', l') -> run_format (c_percent :: l) s = run_format l' s'.
Proof.
  intros E. unfold run_format. cbn [length format]. rewrite decide_False by auto.
  rewrite (bind_ok _ _ _ _ _ E). apply directive_ok in E. by apply format_fuel.
Qed.

Definition literal (l : list Z) : Prop := Forall (fun c => c <> c_percent) l.

Lemma run_literal pre l s :
  literal pre -> run_format (pre ++ l) s = run_format l (s <| out := out s ++ pre |>).
Proof.
  intros Hp. revert s. induction Hp as [|c pre Hc Hp IH]; intros s; cbn [app].
  - rewrite app_nil_r. by destruct s.
  - rewrite run_char, IH by done. cbn [upd out args stores]. by rewrite <-app_assoc.
Qed.

Lemma run_end l s : literal l -> run_format l s = Ok (s <| out := out s ++ l |>, tt).
Proof.
  intros Hl. pose proof (run_literal l [] s Hl) as E. rewrite app_nil_r in E. by rewrite E.
Qed.

(** The numeral [vsprintf] prints for a signed word. *)
Definition decimal (n : Z) : list Z :=
  if decide (n < 0) then 45 :: digits_of 0 10 (s32 (- n)) else digits_of 0 10 n.

Definition decimal_value (l : list Z) : Z :=
  match l with
  | c :: ds => if decide (c = 45) then - numeral_value 10 ds else numeral_value 10 l
  | [] => 0
  end.

Lemma decimal_value_eq n : - 2 ^ 31 ≤ n < 2 ^ 31 -> decimal_value (decimal n) = n.
Proof.
  intros Hn. unfold decimal, decimal_value. case_decide as Hneg.
  - rewrite decide_True by done. rewrite digits_of_value by (lia || apply s32_range).
    unfold u32, s32. Z.div_mod_to_equations. lia.
  - pose proof (digits_of_value 0 10 n ltac:(lia) Hn) as Ev.
    pose proof (digits_of_decimal 0 n) as Hd.
    destruct (digits_of 0 10 n) as [|c l] eqn:E.
    + unfold numeral_value in Ev. cbn [foldl] in Ev. rewrite u32_small in Ev by lia. done.
    + inversion Hd as [|?? Hc]; subst. rewrite decide_False by (intros ->; done).
      rewrite Ev. by rewrite u32_small by lia.
Qed.

(** A conversion character with nothing between it and the ['%']: none of the
    flag, digit, star, point and qualifier characters. *)
Definition bare (c : Z) : bool :=
  negb (is_digit c) && negb (bool_decide (c ∈ [45; 43; c_space; 35; 42; 46; 104; 108; 76])).

Lemma directive_bare c l s :
  bare c = true -> directive strings (c :: l) s = convert strings (c :: l) 0 (-1) (-1) s.
Proof.
  intros [Hd Hn]%andb_true_iff. apply negb_true_iff in Hd, Hn. apply bool_decide_eq_false_1 in Hn.
  assert (c <> c_zero) by (intros ->; done).
  unfold directive. cbn [parse_flags]. do 5 rewrite decide_False by set_solver.
  assert (parse_width (c :: l) 0 = mret (-1, 0, c :: l)) as ->.
  { unfold parse_width. cbn [starts_digit starts_with]. rewrite Hd.
    by rewrite bool_decide_false by set_solver. }
  rewrite bind_ret.
  assert (parse_precision (c :: l) = mret (-1, c :: l)) as ->.
  { unfold parse_precision. cbn [starts_with]. by rewrite bool_decide_false by set_solver. }
  rewrite bind_ret. unfold skip_qualifier. cbn [starts_with].
  by rewrite !bool_decide_false by set_solver.
Qed.

Lemma va_arg_eq s a rest : args s = a :: rest -> va_arg s = Ok (s <| args := rest |>, a).
Proof. intros Ha. unfold va_arg, mbind, M_bind, get, put. by rewrite Ha. Qed.

Lemma directive_decimal l a s rest :
  args s = a :: rest ->
  directive strings (100 :: l) s =
    Ok (s <| args := rest |> <| out := out s ++ decimal (s32 a) |>, l).
Proof.
  intros Ha. rewrite directive_bare by done. unfold convert. do 6 rewrite decide_False by discriminate.
  rewrite decide_True by auto. change (Z.lor 0 SIGN) with SIGN.
  unfold emit_number, va_arg, put, mbind, M_bind, get. rewrite Ha.
  unfold mret, M_ret. rewrite number_decimal. done.
Qed.

Lemma directive_string l p t s rest :
  args s = p :: rest -> strings p = Some t ->
  directive strings (115 :: l) s = Ok (s <| args := rest |> <| out := out s ++ t |>, l).
Proof.
  intros Ha Ht. rewrite directive_bare by done. unfold convert. rewrite decide_False by discriminate.
  rewrite decide_True by done. unfold emit_string, va_arg, put, mbind, M_bind, get, check. rewrite Ha.
  unfold mret, M_ret. rewrite Ht. cbv zeta. rewrite decide_True by done. change (has 0 LEFT) with false. cbv iota.
  rewrite !replicate_neg by lia. rewrite Nat2Z.id, firstn_all. cbn [app]. by rewrite app_nil_r.
Qed.

Lemma vsprintf_literal pre : literal pre -> vsprintf strings pre [] = Ok (pre, []).
Proof. intros Hpre. unfold vsprintf. fold (run_format pre). by rewrite run_end. Qed.

Lemma vsprintf_one_decimal pre post a : literal pre -> literal post ->
  vsprintf strings (pre ++ str "%d" ++ post) [a] = Ok (pre ++ decimal (s32 a) ++ post, []).
Proof.
  intros Hpre Hpost. unfold vsprintf. fold (run_format (pre ++ str "%d" ++ post)).
  rewrite run_literal by done. change (str "%d" ++ post) with (c_percent :: 100 :: post).
  erewrite run_directive by by apply (directive_decimal _ a).
  rewrite run_end by done. cbn [upd out stores args app]. by rewrite <-app_assoc.
Qed.

(** C24.  [vsprintf] copies the text around directives and replaces [%d] by the
    decimal numeral of the next argument, whose value is that argument as a
    signed 32-bit integer; text without directives is copied as it is. *)
Theorem vsprintf_decimal pre post a :
  literal pre -> literal post ->
  vsprintf strings pre [] = Ok (pre, []) /\
  vsprintf strings (pre ++ str "%d" ++ post) [a] = Ok (pre ++ decimal (s32 a) ++ post, []) /\
  decimal_value (decimal (s32 a)) = s32 a.
Proof.
  intros Hpre Hpost. split; [by apply vsprintf_literal|]. split; [by apply vsprintf_one_decimal|].
  apply decimal_value_eq, s32_range.
Qed.

Lemma directive_star l w s rest :
  args s = w :: rest ->
  directive strings (42 :: l) s = Ok (s <| args := rest |> <| out := out s ++ [c_percent; 42] |>, l).
Proof.
  intros Ha. unfold directive. cbn [parse_flags]. do 5 rewrite decide_False by discriminate.
  assert (parse_width (42 :: l) 0 s = Ok (s <| args := rest |>,
    if decide (s32 w < 0) then (s32 (- s32 w), Z.lor 0 LEFT, 42 :: l) else (s32 w, 0, 42 :: l))) as E.
  { unfold parse_width. cbn [starts_digit starts_with]. change (is_digit 42) with false.
    rewrite bool_decide_true by done. cbv iota. rewrite (bind_ok _ _ _ _ _ (va_arg_eq s w rest Ha)).
    by destruct (decide (s32 w < 0)). }
  rewrite (bind_ok _ _ _ _ _ E).
  assert (forall width flags precision, convert strings (42 :: l) flags width precision (s <| args := rest |>) =
    Ok (s <| args := rest |> <| out := out s ++ [c_percent; 42] |>, l)) as Ec.
  { intros width flags precision. reflexivity. }
  case_decide; unfold parse_precision, skip_qualifier; cbn [starts_with];
    rewrite !bool_decide_false by discriminate; cbn [orb]; rewrite bind_ret; apply Ec.
Qed.

(** A star is not a width.  The code fetches the argument but does not
    step over the ['*'], so [%*d] is printed as it stands and the number meant
    for it goes to the next directive. *)
Theorem vsprintf_star pre mid w a :
  literal pre -> literal mid ->
  vsprintf strings (pre ++ str "%*d" ++ mid ++ str "%d") [w; a] =
    Ok (pre ++ str "%*d" ++ mid ++ decimal (s32 a), []).
Proof.
  intros Hpre Hmid. unfold vsprintf. fold (run_format (pre ++ str "%*d" ++ mid ++ str "%d")).
  rewrite run_literal by done.
  change (str "%*d" ++ mid ++ str "%d") with (c_percent :: 42 :: 100 :: mid ++ [c_percent; 100]).
  erewrite run_directive by by apply (directive_star _ w).
  rewrite run_char by done. rewrite run_literal by done.
  erewrite run_directive by by apply (directive_decimal _ a).
  unfold run_format. cbn [length format]. unfold mret, M_ret. cbn [upd out stores args app].
  by rewrite <-!app_assoc.
Qed.

(** ** The fixed buffers *)

(** [printm] has 128 bytes and [printk] 1024 bytes for the characters and
    the NUL, and no check: a text, or a string printed with [%s], fits exactly
    when it is shorter than that; otherwise the buffer is overrun. *)
Theorem print_bounds size t p :
  literal t -> strings p = Some t ->
  (Z.of_nat (length t) < size ->
     print_into strings size t [] = Ok t /\ print_into strings size (str "%s") [p] = Ok t) /\
  (size ≤ Z.of_nat (length t) ->
     print_into strings size t [] = Err (Wild "buf") /\
     print_into strings size (str "%s") [p] = Err (Wild "buf")).
Proof.
  intros Ht Hp.
  assert (vsprintf strings t [] = Ok (t, [])) as E1.
  { unfold vsprintf. fold (run_format t). by rewrite run_end. }
  assert (vsprintf strings (str "%s") [p] = Ok (t, [])) as E2.
  { unfold vsprintf. fold (run_format (str "%s")). change (str "%s") with [c_percent; 115].
    by erewrite run_directive by by apply (directive_string _ p t). }
  unfold print_into. rewrite E1, E2. split; intros Hs; case_decide; (lia || done).
Qed.
End vsprintf_spec.

(** ** Witnesses *)

Lemma number_roundtrip_witness :
  exists c l, number (-1) 16 (-1) (-1) SMALL = Some (c :: l) /\
    numeral_value 16 (c :: l) = 0xffffffff /\ (digit_value c = 0 -> -1 = 0).
Proof. apply (number_roundtrip (-1) 16 SMALL); [lia|by right|lia]. Defined.

Lemma number_layout_correct_witness :
  exists l, number (-42) 10 6 4 SIGN = Some l /\ l = str " -0042" /\ Z.of_nat (length l) = 6.
Proof.
  destruct (number_layout_correct (-42) 10 6 4 SIGN) as (l & E & El & Hl); [lia|].
  exists l. split; [exact E|]. rewrite El. split; vm_compute; reflexivity.
Defined.

Lemma skip_atoi_number_witness :
  exists l, number 1024 10 (-1) (-1) 0 = Some l /\ skip_atoi (l ++ str "d") = (1024, str "d").
Proof. apply (skip_atoi_number 1024 (str "d")); [lia|reflexivity]. Defined.

Lemma vsprintf_decimal_witness :
  vsprintf (fun _ => None) (str "pid ") [] = Ok (str "pid ", []) /\
  vsprintf (fun _ => None) (str "pid %d.") [0xffffffff] = Ok (str "pid -1.", []) /\
  decimal_value (decimal (s32 0xffffffff)) = s32 0xffffffff.
Proof.
  apply (vsprintf_decimal (fun _ => None) (str "pid ") (str ".") 0xffffffff);
    apply (bool_decide_eq_true_1 _); vm_compute; reflexivity.
Defined.

Lemma vsprintf_star_witness :
  vsprintf (fun _ => None) (str "%*d|%d") [8; 42] = Ok (str "%*d|42", []).
Proof.
  apply (vsprintf_star (fun _ => None) [] (str "|") 8 42);
    apply (bool_decide_eq_true_1 _); vm_compute; reflexivity.
Defined.

Lemma print_bounds_witness :
  let t := replicate 200 c_space in
  printm (fun _ => Some t) (str "%s") [0x5000] = Err (Wild "buf") /\
  printk (fun _ => Some t) (str "%s") [0x5000] = Ok t.
Proof.
  destruct (print_bounds (fun _ => Some (replicate 200 c_space)) 128 (replicate 200 c_space) 0x5000)
    as [_ H1]; [apply (bool_decide_eq_true_1 _); vm_compute; reflexivity|reflexivity|].
  destruct (print_bounds (fun _ => Some (replicate 200 c_space)) 1024 (replicate 200 c_space) 0x5000)
    as [H2 _]; [apply (bool_decide_eq_true_1 _); vm_compute; reflexivity|reflexivity|].
  split; [apply H1|apply H2]; vm_compute; congruence.
Defined.
