(* ===== verification/Log.v ===== *)
(** * The log buffer

    kernel/nasm.asm, behind [printk] and [printm]: a text reserves room in
    [log_buffer] with a compare-and-swap on its limit, is copied there, and the
    timer interrupt sends what the serial line takes.  [log] is the buffer (limit at
    offset 0, the place of the next byte to send at 8, the bytes at 16) with what
    was sent so far.  The answers of the line status port are lists of booleans,
    one for each poll; when a list ends the line is busy. *)
From S2P Require Import Prelude Words.

Definition buffer_size : Z := 2048.
(** The bytes of [char log_buffer[4096]] from 16 on. *)
Definition data_size : nat := 4080.

Record log := Log { limit : Z; offset : Z; data : list Z; sent : list Z }.

#[export] Instance log_eta : Eta log := fun r => Log (limit r) (offset r) (data r) (sent r).

(** [bss] is zero. *)
Definition init_log : log := Log 0 0 (replicate data_size 0) [].

(** ** sync_log_buf_2

    [.ready] to [loop .ready] with [ecx] bytes to go; the result is [ecx] at
    [.write_end].  [ah] is the byte the caller left there: [cmp ax, 0] sees it. *)
Fixpoint write_loop (ecx : nat) (esi ah : Z) (polls : list bool) : M log Z :=
  match ecx with
  | O => mret 0
  | S n =>
      match polls with
      | true :: polls =>
          s ← get;
          al ← check "log_buffer" (arr_get (data s) esi);
          if decide (256 * ah + al = 0) then mret (Z.of_nat (S n)) else
          modify (fun s => s <| sent := sent s ++ [al] |>);;
          write_loop n (esi + 1) ah polls
      | _ => mret (Z.of_nat (S n))
      end
  end.

Definition sync_log_buf_2 (ah : Z) (polls : list bool) : M log unit :=
  s ← get;
  let ebx := u32 (limit s - offset s) in
  if decide (ebx = 0) then mret tt else
  ecx ← write_loop (Z.to_nat ebx) (offset s) ah polls;
  if decide (ecx = 0) then modify (fun s => s <| limit := 0 |> <| offset := 0 |>)
  else modify (fun s => s <| offset := u32 (offset s + (ebx - ecx)) |>).

(** ** sync_log_buf

    An older drain, which nothing calls any more.  It sends only a buffer without
    a zero byte, waits for the line before each byte ([.ready]), clears what it
    sends, and knows no [offset]. *)
Fixpoint wait_ready (polls : list bool) : option (list bool) :=
  match polls with
  | [] => None
  | b :: polls => if b then Some polls else wait_ready polls
  end.

Fixpoint write_all (ecx : nat) (edi : Z) (polls : list bool) : M log unit :=
  match ecx with
  | O => mret tt
  | S n =>
      match wait_ready polls with
      | None => stop Fuel
      | Some polls =>
          s ← get;
          al ← check "log_buffer" (arr_get (data s) edi);
          l ← check "log_buffer" (arr_set (data s) edi 0);
          modify (fun s => s <| data := l |> <| sent := sent s ++ [al] |>);;
          write_all n (edi + 1) polls
      end
  end.

Definition sync_log_buf (polls : list bool) : M log unit :=
  s ← get;
  let ecx := limit s in
  if decide (ecx = 0) then mret tt else
  if decide (0 ∈ take (Z.to_nat ecx) (data s)) then mret tt else
  write_all (Z.to_nat ecx) 0 polls;;
  modify (fun s => s <| limit := 0 |>).

(** ** log_buf

    A round of [add_loop] that finds no room goes to [atomic_add_try].  There
    [add esp, 4] follows the [test] of the interrupt flag and sets the zero flag
    anew, from the stack pointer, which is not 0: [jnz] always jumps back, and the
    call of [sync_log_buf_2] below it is never made.  So only the timer makes
    room, with 0x17 in [eax], when interrupts are on.  [env] has an element for
    each such round, the answers the line gives to the timer in it. *)
Fixpoint atomic_add (edx : Z) (interrupts : bool) (env : list (list bool)) : M log Z :=
  s ← get;
  let eax := limit s in
  let ecx := s32 (eax + edx) in
  if decide (ecx > buffer_size) then
    match env with
    | [] => stop Fuel
    | polls :: env =>
        (if interrupts then sync_log_buf_2 0 polls else mret tt);;
        atomic_add edx interrupts env
    end
  else modify (fun s => s <| limit := ecx |>);; mret ecx.

Fixpoint rep_movsb (text : list Z) (edi : Z) : M log unit :=
  match text with
  | [] => mret tt
  | b :: text =>
      s ← get;
      l ← check "log_buffer" (arr_set (data s) edi b);
      modify (fun s => s <| data := l |>);;
      rep_movsb text (edi + 1)
  end.

Definition log_buf (text : list Z) (interrupts : bool) (env : list (list bool)) : M log unit :=
  let n := Z.of_nat (length text) in
  edi ← atomic_add n interrupts env;
  rep_movsb text (edi - n).

(** ** Interleavings

    A task can lose the processor anywhere between the compare-and-swap and the
    last byte of the copy: [writers] are the copies under way. *)
Record writer := Writer { edi : Z; rest : list Z }.

Inductive step : log * list writer -> log * list writer -> Prop :=
| step_reserve s ws text :
    Z.of_nat (length text) < 2 ^ 30 -> Forall (fun b => 0 ≤ b < 256) text ->
    s32 (limit s + Z.of_nat (length text)) ≤ buffer_size ->
    step (s, ws) (s <| limit := s32 (limit s + Z.of_nat (length text)) |>, ws ++ [Writer (limit s) text])
| step_copy s ws1 ws2 p b text l :
    arr_set (data s) p b = Some l ->
    step (s, ws1 ++ Writer p (b :: text) :: ws2) (s <| data := l |>, ws1 ++ Writer (p + 1) text :: ws2)
| step_done s ws1 ws2 p :
    step (s, ws1 ++ Writer p [] :: ws2) (s, ws1 ++ ws2)
| step_drain s s' ws ah polls :
    0 ≤ ah < 256 -> sync_log_buf_2 ah polls s = Ok (s', tt) -> step (s, ws) (s', ws).

Definition reachable (c : log * list writer) : Prop := rtc step (init_log, []) c.

(** ** Well-formed buffers *)

Record wf_log (s : log) : Prop := {
  wl_offset : 0 ≤ offset s;
  wl_order : offset s < limit s \/ offset s = 0 /\ limit s = 0;
  wl_limit : limit s ≤ buffer_size;
  wl_data : length (data s) = data_size;
  wl_bytes : Forall (fun b => 0 ≤ b < 256) (data s)
}.

(** The bytes reserved and not sent. *)
Definition pending (s : log) : list Z :=
  take (Z.to_nat (limit s - offset s)) (drop (Z.to_nat (offset s)) (data s)).

Lemma data_size_eq : Z.of_nat data_size = 4080.
Proof. reflexivity. Qed.

Lemma wf_init : wf_log init_log.
Proof.
  constructor; [done|by right|done|exact (length_replicate data_size 0)|].
  apply Forall_replicate. lia.
Qed.

Lemma length_pending s : wf_log s -> length (pending s) = Z.to_nat (limit s - offset s).
Proof.
  intros [Ho Hor Hl Hd _]. pose proof data_size_eq. unfold pending, buffer_size in *.
  rewrite length_take, length_drop. lia.
Qed.

(** *** The send loop *)

(** How many bytes of [l] a drain sends. *)
Fixpoint sends (ah : Z) (polls : list bool) (l : list Z) : nat :=
  match polls, l with
  | true :: polls, b :: l => if decide (256 * ah + b = 0) then O else S (sends ah polls l)
  | _, _ => O
  end.

Lemma sends_le ah polls : forall l, (sends ah polls l ≤ length l)%nat.
Proof.
  induction polls as [|[] polls IH]; intros [|b l]; cbn; try lia. case_decide; [lia|]. specialize (IH l). lia.
Qed.

Lemma write_loop_eq ah ecx : forall polls esi s,
  (0 ≤ esi) -> (Z.to_nat esi + ecx ≤ length (data s))%nat ->
  let l := take ecx (drop (Z.to_nat esi) (data s)) in
  let k := sends ah polls l in
  write_loop ecx esi ah polls s = Ok (s <| sent := sent s ++ take k l |>, Z.of_nat (ecx - k)).
Proof.
  induction ecx as [|n IH]; intros polls esi s He Hl.
  - cbn. destruct polls as [|[] ?]; cbn; rewrite app_nil_r; by destruct s.
  - destruct (lookup_lt_is_Some_2 (data s) (Z.to_nat esi)) as [b Hb]; [lia|].
    rewrite (drop_S _ _ _ Hb). cbn [take]. cbv zeta. cbn [write_loop].
    assert (s <| sent := sent s ++ [] |> = s) as E0 by (rewrite app_nil_r; by destruct s).
    destruct polls as [|[] polls]; cbn [sends take];
      [by rewrite E0, Nat.sub_0_r| |by rewrite E0, Nat.sub_0_r].
    erewrite bind_ok by reflexivity. erewrite bind_ok.
    2: { unfold check, arr_get. rewrite decide_True by done. by rewrite Hb. }
    case_decide as Hz; [by rewrite take_0, E0, Nat.sub_0_r|].
    erewrite bind_ok by reflexivity. rewrite IH by (cbn [data upd]; lia). cbn [data sent upd].
    replace (Z.to_nat (esi + 1)) with (S (Z.to_nat esi)) by lia. cbn [take]. rewrite <-app_assoc. do 3 f_equal.
Qed.

(** *** One drain *)

(** The state after [k] of the pending bytes were sent. *)
Definition drained (s : log) (k : nat) : log :=
  let all := bool_decide (k = length (pending s)) in
  Log (if all then 0 else limit s) (if all then 0 else offset s + Z.of_nat k) (data s)
      (sent s ++ take k (pending s)).

Lemma sync_eq ah polls s : wf_log s ->
  sync_log_buf_2 ah polls s = Ok (drained s (sends ah polls (pending s)), tt).
Proof.
  intros Hw. pose proof (length_pending s Hw) as Hlen. destruct Hw as [Ho Hor Hl Hd Hb].
  pose proof data_size_eq. unfold buffer_size in Hl. unfold sync_log_buf_2.
  erewrite bind_ok by reflexivity. cbv zeta. rewrite u32_small by lia.
  pose proof (sends_le ah polls (pending s)) as Hk. unfold drained.
  pose proof (write_loop_eq ah (Z.to_nat (limit s - offset s)) polls (offset s) s Ho) as E.
  cbv zeta in E. fold (pending s) in E. specialize (E ltac:(lia)).
  case_decide as H0.
  - assert (pending s = []) as -> by (apply nil_length_inv; lia).
    assert (offset s = 0 /\ limit s = 0) as [E1 E2] by lia.
    destruct s; cbn in *. subst. destruct polls as [|[] ?]; cbn; by rewrite app_nil_r.
  - destruct (decide (sends ah polls (pending s) = length (pending s))) as [Ek|Ek].
    + rewrite (bool_decide_eq_true_2 _ Ek).
      rewrite (bind_ok _ _ _ _ _ E).
      rewrite decide_True by lia. reflexivity.
    + rewrite (bool_decide_eq_false_2 _ Ek).
      rewrite (bind_ok _ _ _ _ _ E).
      rewrite decide_False by lia. unfold modify. cbn [upd offset sent limit data].
      rewrite u32_small by lia. do 3 f_equal. lia.
Qed.

Lemma wf_drained s k : wf_log s -> (k ≤ length (pending s))%nat -> wf_log (drained s k).
Proof.
  intros Hw Hk. rewrite (length_pending s Hw) in Hk. pose proof (length_pending s Hw) as Hlen.
  destruct Hw as [Ho Hor Hl Hd Hb]. unfold drained. case_bool_decide as E.
  - constructor; cbn [limit offset data]; [done|by right|done|done|done].
  - constructor; cbn [limit offset data]; try done; lia.
Qed.

Lemma pending_drained s k : wf_log s -> (k ≤ length (pending s))%nat ->
  pending (drained s k) = drop k (pending s).
Proof.
  intros Hw Hk. pose proof (length_pending s Hw) as Hlen. unfold drained. case_bool_decide as E.
  - rewrite drop_ge by lia. unfold pending. cbn [limit offset data]. by rewrite take_0.
  - destruct Hw as [Ho Hor Hl Hd Hb]. unfold pending in *. cbn [limit offset data].
    rewrite skipn_firstn_comm, drop_drop. f_equal; [lia|]. f_equal. lia.
Qed.

(** *** One text *)

Lemma rep_movsb_eq text : forall p s, 0 ≤ p -> (Z.to_nat p + length text ≤ length (data s))%nat ->
  rep_movsb text p s = Ok (s <| data := list_inserts (Z.to_nat p) text (data s) |>, tt).
Proof.
  induction text as [|b text IH]; intros p s Hp Hl; cbn [rep_movsb list_inserts length] in *.
  - by destruct s.
  - erewrite bind_ok by reflexivity. erewrite bind_ok.
    2: { unfold check. rewrite arr_set_Some by lia. reflexivity. }
    erewrite bind_ok by reflexivity. rewrite IH by (cbn [data upd]; rewrite ?length_insert; lia).
    cbn [data upd]. do 3 f_equal. replace (Z.to_nat (p + 1)) with (S (Z.to_nat p)) by lia.
    symmetry. apply list_insert_inserts_lt. lia.
Qed.

(** The state after the whole of [log_buf], when there was room. *)
Definition logged (s : log) (text : list Z) : log :=
  s <| limit := limit s + Z.of_nat (length text) |> <| data := list_inserts (Z.to_nat (limit s)) text (data s) |>.

Definition has_room (s : log) (text : list Z) : Prop := limit s + Z.of_nat (length text) ≤ buffer_size.

Lemma log_buf_room s text intr env : wf_log s -> has_room s text ->
  log_buf text intr env s = Ok (logged s text, tt).
Proof.
  intros [Ho Hor Hl Hd Hb] Hr. pose proof data_size_eq. unfold has_room, buffer_size in *. unfold log_buf.
  erewrite (bind_ok _ _ s (s <| limit := limit s + Z.of_nat (length text) |>)).
  2: { destruct env; cbn [atomic_add]; (erewrite bind_ok by reflexivity); cbv zeta;
       rewrite s32_small by lia; rewrite decide_False by (unfold buffer_size; lia); reflexivity. }
  replace (limit s + Z.of_nat (length text) - Z.of_nat (length text)) with (limit s) by lia.
  rewrite rep_movsb_eq by (cbn [data upd]; lia). reflexivity.
Qed.

Lemma take_drop_inserts (o l : nat) (text d : list Z) : (o ≤ l)%nat -> (l + length text ≤ length d)%nat ->
  take (l + length text - o) (drop o (list_inserts l text d)) = take (l - o) (drop o d) ++ text.
Proof.
  intros Ho Hl. rewrite <-(take_drop l d) at 1. rewrite <-(take_drop (length text) (drop l d)).
  replace l with (length (take l d) + 0)%nat at 2 by (rewrite length_take; lia).
  rewrite list_inserts_app_r, list_inserts_0_r by (rewrite length_take, length_drop; lia).
  rewrite drop_app_le by (rewrite length_take; lia). rewrite app_assoc, take_app_le.
  - rewrite take_ge; [|rewrite length_app, length_drop, length_take; lia].
    f_equal. rewrite skipn_firstn_comm. done.
  - rewrite length_app, length_drop, length_take. lia.
Qed.

Lemma pending_logged s text : wf_log s -> has_room s text -> pending (logged s text) = pending s ++ text.
Proof.
  intros [Ho Hor Hl Hd Hb] Hr. pose proof data_size_eq. unfold has_room, buffer_size in *.
  unfold pending, logged. cbn [limit offset data upd].
  replace (Z.to_nat (limit s + Z.of_nat (length text) - offset s))
    with (Z.to_nat (limit s) + length text - Z.to_nat (offset s))%nat by lia.
  rewrite take_drop_inserts by lia. do 2 f_equal. lia.
Qed.

Lemma bytes_inserts i text d : Forall (fun b => 0 ≤ b < 256) text -> Forall (fun b => 0 ≤ b < 256) d ->
  Forall (fun b => 0 ≤ b < 256) (list_inserts i text d).
Proof.
  intros Ht Hd. revert i. induction Ht as [|b text Hb Ht IH]; intros i; [done|]. cbn [list_inserts].
  by apply Forall_insert.
Qed.

Lemma wf_logged s text : wf_log s -> has_room s text -> Forall (fun b => 0 ≤ b < 256) text -> wf_log (logged s text).
Proof.
  intros [Ho Hor Hl Hd Hb] Hr Ht. unfold has_room in Hr. constructor; cbn [logged limit offset data upd].
  - done.
  - destruct text; cbn [length] in *; lia.
  - done.
  - by rewrite length_inserts.
  - by apply bytes_inserts.
Qed.

(** [sync_log_buf] *)
Lemma wait_ready_count n polls : (S n ≤ length (filter (fun b => b = true) polls))%nat ->
  exists polls', wait_ready polls = Some polls' /\ (n ≤ length (filter (fun b => b = true) polls'))%nat.
Proof.
  induction polls as [|b polls IH]; [cbn; lia|]. destruct b; cbn [wait_ready].
  - rewrite filter_cons_True by done. cbn [length]. intros. exists polls. split; [done|lia].
  - by rewrite filter_cons_False by done.
Qed.

Lemma write_all_eq n : forall edi polls s, 0 ≤ edi -> (Z.to_nat edi + n ≤ length (data s))%nat ->
  (n ≤ length (filter (fun b => b = true) polls))%nat ->
  write_all n edi polls s = Ok (s <| data := list_inserts (Z.to_nat edi) (replicate n 0) (data s) |>
    <| sent := sent s ++ take n (drop (Z.to_nat edi) (data s)) |>, tt).
Proof.
  induction n as [|n IH]; intros edi polls s He Hl Hp; cbn [write_all].
  - cbn [replicate list_inserts take]. rewrite app_nil_r. by destruct s.
  - destruct (wait_ready_count n polls Hp) as (polls' & -> & Hp').
    destruct (lookup_lt_is_Some_2 (data s) (Z.to_nat edi)) as [b Hb]; [lia|].
    erewrite bind_ok by reflexivity. erewrite bind_ok.
    2: { unfold check, arr_get. rewrite decide_True by done. by rewrite Hb. }
    erewrite bind_ok.
    2: { unfold check. rewrite arr_set_Some by lia. reflexivity. }
    erewrite bind_ok by reflexivity. rewrite IH by (cbn [data upd]; rewrite ?length_insert; (lia || done)).
    cbn [data sent upd replicate list_inserts]. rewrite (drop_S _ _ _ Hb). cbn [take]. rewrite <-app_assoc.
    replace (Z.to_nat (edi + 1)) with (S (Z.to_nat edi)) by lia.
    rewrite drop_insert_lt by lia. do 3 f_equal. f_equal.
    symmetry. apply list_insert_inserts_lt. lia.
Qed.

(** The older drain does nothing to a buffer with a byte not written yet; any
    other it sends whole and leaves zero, so that no text could be sent twice. *)
Theorem sync_log_buf_clears s polls : wf_log s -> (Z.to_nat (limit s) ≤ length (filter (fun b => b = true) polls))%nat ->
  sync_log_buf polls s = Ok (if decide (0 ∈ take (Z.to_nat (limit s)) (data s)) then s else
    Log 0 (offset s) (list_inserts 0 (replicate (Z.to_nat (limit s)) 0) (data s)) (sent s ++ take (Z.to_nat (limit s)) (data s)), tt).
Proof.
  intros [Ho Hor Hl Hd _] Hp. pose proof data_size_eq. unfold buffer_size in Hl. unfold sync_log_buf.
  erewrite bind_ok by reflexivity. cbv zeta. case_decide as H0.
  - rewrite H0. change (Z.to_nat 0) with O. cbn [take replicate list_inserts]. rewrite app_nil_r, <-H0. by destruct s.
  - case_decide; [done|]. assert (Z.to_nat 0 + Z.to_nat (limit s) ≤ length (data s))%nat as Hfit by lia.
    rewrite (bind_ok _ _ _ _ _ (write_all_eq (Z.to_nat (limit s)) 0 polls s ltac:(done) Hfit Hp)). reflexivity.
Qed.

(** ** A queue

    What the buffer is for: bytes leave in the order they came.  [q_used] is the
    part of the 2048 bytes that cannot be reserved again: it is given back only
    when the queue runs empty. *)
Record queue := Queue { q_sent : list Z; q_pending : list Z; q_used : Z }.

Inductive log_op :=
| Print (text : list Z)
| Timer (polls : list bool).

Definition qstep (op : log_op) (q : queue) : option queue :=
  match op with
  | Print text =>
      guard (q_used q + Z.of_nat (length text) ≤ buffer_size /\ Forall (fun b => 0 ≤ b < 256) text);;
      Some (Queue (q_sent q) (q_pending q ++ text) (q_used q + Z.of_nat (length text)))
  | Timer polls =>
      let k := sends 0 polls (q_pending q) in
      Some (Queue (q_sent q ++ take k (q_pending q)) (drop k (q_pending q))
                  (if decide (k = length (q_pending q)) then 0 else q_used q))
  end.

Definition cstep (op : log_op) : M log unit :=
  match op with
  | Print text => log_buf text true []
  | Timer polls => sync_log_buf_2 0 polls
  end.

Fixpoint qrun (ops : list log_op) (q : queue) : option queue :=
  match ops with [] => Some q | op :: ops => q ← qstep op q; qrun ops q end.
Fixpoint crun (ops : list log_op) : M log unit :=
  match ops with [] => mret tt | op :: ops => cstep op;; crun ops end.

Definition abs_log (s : log) : queue := Queue (sent s) (pending s) (limit s).

Lemma cstep_refines op s q : wf_log s -> qstep op (abs_log s) = Some q ->
  exists s', cstep op s = Ok (s', tt) /\ wf_log s' /\ abs_log s' = q.
Proof.
  intros Hw Hq. destruct op as [text|polls]; cbn [qstep cstep] in *.
  - apply bind_Some in Hq as ([Hr Ht] & _ & [= <-]). exists (logged s text).
    split; [by apply log_buf_room|]. split; [by apply wf_logged|].
    unfold abs_log. by rewrite pending_logged.
  - injection Hq as <-. cbn [abs_log q_pending q_sent q_used]. set (k := sends 0 polls (pending s)).
    pose proof (sends_le 0 polls (pending s)) as Hk. fold k in Hk.
    exists (drained s k). split; [by apply sync_eq|]. split; [by apply wf_drained|].
    unfold abs_log. rewrite pending_drained by done. unfold drained. cbn [sent limit]. f_equal.
    by rewrite bool_decide_decide; case_decide.
Qed.

(** C15.  Used by one task at a time, the buffer is a queue: any sequence of
    [log_buf] calls (for which there is room) and timer drains runs without fault
    and does to the pending and the sent bytes what the queue does. *)
Theorem log_refines_queue ops : forall s q, wf_log s -> qrun ops (abs_log s) = Some q ->
  exists s', crun ops s = Ok (s', tt) /\ wf_log s' /\ abs_log s' = q.
Proof.
  induction ops as [|op ops IH]; intros s q Hw Hq; cbn [qrun crun] in *.
  - injection Hq as <-. by exists s.
  - apply bind_Some in Hq as (q1 & H1 & H2). destruct (cstep_refines op s q1 Hw H1) as (s1 & E1 & Hw1 & <-).
    destruct (IH s1 q Hw1 H2) as (s' & E & Hw' & Hq'). exists s'. by rewrite (bind_ok _ _ _ _ _ E1).
Qed.

(** ** Waiting for room *)

Lemma sends_all ah l : Forall (fun b => 256 * ah + b <> 0) l -> sends ah (replicate (length l) true) l = length l.
Proof. induction 1 as [|b l Hb Hl IH]; [done|]. cbn. rewrite decide_False by done. by rewrite IH. Qed.

Lemma atomic_add_closed n env s : s32 (limit s + n) > buffer_size -> atomic_add n false env s = Err Fuel.
Proof.
  intros Hn. induction env as [|polls env IH]; cbn [atomic_add]; (erewrite bind_ok by reflexivity); cbv zeta;
    rewrite decide_True by done; [done|exact IH].
Qed.

Lemma atomic_add_full n intr env : forall s, wf_log s -> buffer_size < n < 2 ^ 30 ->
  atomic_add n intr env s = Err Fuel.
Proof.
  induction env as [|polls env IH]; intros s Hw Hn; pose proof Hw as [Ho Hor Hl _ _]; unfold buffer_size in *;
    cbn [atomic_add]; (erewrite bind_ok by reflexivity); cbv zeta; rewrite s32_small by lia;
    rewrite decide_True by (unfold buffer_size; lia); [done|].
  destruct intr; [|exact (IH s Hw Hn)]. rewrite (bind_ok _ _ _ _ _ (sync_eq 0 polls s Hw)). apply IH; [|done].
  apply wf_drained; [done|apply sends_le].
Qed.

(** Waiting for room.  When a text does not fit and interrupts are on, one timer
    interrupt in which the line takes every pending byte is enough for [log_buf]
    to go on.  A text of more than 2048 bytes waits for ever, however the line
    answers; and with interrupts off every text that does not fit does. *)
Theorem log_room s text intr env : wf_log s -> Z.of_nat (length text) < 2 ^ 30 ->
  Forall (fun b => b <> 0) (pending s) -> Forall (fun b => 0 ≤ b < 256) text -> ~ has_room s text ->
  if decide (Z.of_nat (length text) ≤ buffer_size /\ intr = true)
  then exists s', log_buf text intr (replicate (length (pending s)) true :: env) s = Ok (s', tt) /\
         sent s' = sent s ++ pending s /\ pending s' = text
  else log_buf text intr env s = Err Fuel.
Proof.
  intros Hw Hn Hnz Ht Hr. pose proof Hw as [Ho Hor Hl Hd Hb]. unfold has_room, buffer_size in *. case_decide as Hfit.
  - destruct Hfit as [Hfit ->].
    assert (Forall (fun b => 0 ≤ b < 256) (pending s)) as Hpb by by apply Forall_take, Forall_drop.
    assert (sends 0 (replicate (length (pending s)) true) (pending s) = length (pending s)) as Hk.
    { apply sends_all. apply list.Forall_forall. intros b Hin.
      pose proof (proj1 (list.Forall_forall _ _) Hnz b Hin) as Hb1. pose proof (proj1 (list.Forall_forall _ _) Hpb b Hin) as Hb0.
      cbn in Hb0, Hb1. lia. }
    set (s1 := drained s (length (pending s))).
    assert (wf_log s1) as Hw1 by (by apply wf_drained).
    assert (limit s1 = 0) as Hl1 by (unfold s1, drained; by rewrite bool_decide_eq_true_2).
    assert (pending s1 = []) as Hp1 by (unfold s1; rewrite pending_drained by done; apply drop_all).
    assert (has_room s1 text) as Hr1 by (unfold has_room, buffer_size; lia).
    exists (logged s1 text). split; [|split].
    + rewrite <-(log_buf_room s1 text true env Hw1 Hr1). unfold log_buf. cbv zeta. unfold mbind, M_bind.
      cbn [atomic_add]. (erewrite bind_ok by reflexivity). cbv zeta. rewrite s32_small by lia.
      rewrite decide_True by (unfold buffer_size; lia).
      rewrite (bind_ok _ _ _ _ _ (sync_eq 0 _ s Hw)), Hk. done.
    + cbn [logged sent upd]. unfold s1, drained. cbn [sent]. by rewrite firstn_all.
    + rewrite pending_logged by done. by rewrite Hp1.
  - unfold log_buf. apply bind_err. destruct intr.
    + apply atomic_add_full; [done|]. unfold buffer_size. lia.
    + apply atomic_add_closed. unfold buffer_size. rewrite s32_small by lia. lia.
Qed.

(** ** Interleavings *)

Definition writer_ok (w : writer) : Prop :=
  0 ≤ edi w /\ edi w + Z.of_nat (length (rest w)) ≤ buffer_size /\ Forall (fun b => 0 ≤ b < 256) (rest w).

Definition log_inv (c : log * list writer) : Prop := wf_log c.1 /\ Forall writer_ok c.2.

Lemma step_inv c c' : step c c' -> log_inv c -> log_inv c'.
Proof.
  intros Hs [Hw Hws]. destruct Hs as [s ws text Hn Ht Hr|s ws1 ws2 p b text l Hset|s ws1 ws2 p|s s' ws ah polls Hah E];
    cbn [fst snd] in *.
  - pose proof Hw as [Ho Hor Hl Hd Hb]. unfold buffer_size in *. rewrite s32_small in * by lia. split; cbn [fst snd].
    + constructor; cbn [limit offset data upd]; try done. destruct text; cbn [length] in *; lia.
    + apply Forall_app. split; [done|]. apply Forall_singleton. unfold writer_ok, buffer_size. cbn [edi rest].
      split; [|split; [lia|done]]. lia.
  - apply arr_set_inv in Hset as [Hp ->]. apply Forall_app in Hws as [H1 [(He & Hle & Hbs) H2]%list.Forall_cons].
    cbn [edi rest length] in *. apply list.Forall_cons in Hbs as [Hb0 Hbs]. split; cbn [fst snd].
    + destruct Hw as [Ho Hor Hl Hd Hb]. constructor; cbn [limit offset data upd]; try done.
      * by rewrite length_insert.
      * by apply Forall_insert.
    + apply Forall_app. split; [done|]. apply list.Forall_cons. split; [|done].
      unfold writer_ok. cbn [edi rest]. split; [lia|split; [lia|done]].
  - split; [done|]. apply Forall_app in Hws as [H1 [_ H2]%list.Forall_cons]. by apply Forall_app.
  - rewrite (sync_eq ah polls s Hw) in E. injection E as <-. split; [|done]. apply wf_drained; [done|apply sends_le].
Qed.

Lemma reachable_log c : reachable c -> log_inv c.
Proof.
  intros H. enough (forall c0, rtc step c0 c -> log_inv c0 -> log_inv c) as Hgen.
  { apply (Hgen (init_log, [])); [done|]. split; [apply wf_init|constructor]. }
  clear H. intros c0. induction 1 as [|c0 c1 c2 Hs _ IH]; [done|]. intros Hi. by apply IH, (step_inv c0).
Qed.

(** C16.  However tasks and interrupts interleave, the buffer stays in bounds:
    the place to send from never passes the limit, the limit never passes 2048,
    every copy under way stays within the 2048 bytes, so its next byte can be
    stored, and a drain never fails. *)
Theorem log_bounds s ws : reachable (s, ws) ->
  0 ≤ offset s ≤ limit s /\ limit s ≤ buffer_size /\
  Forall (fun w => 0 ≤ edi w /\ edi w + Z.of_nat (length (rest w)) ≤ buffer_size) ws /\
  (forall w b, w ∈ ws -> is_Some (arr_set (data s) (edi w) b) \/ rest w = []) /\
  (forall ah polls, is_Ok (sync_log_buf_2 ah polls s)).
Proof.
  intros [Hw Hws]%reachable_log. cbn [fst snd] in *. pose proof Hw as [Ho Hor Hl Hd Hb].
  split; [lia|]. split; [done|]. split; [|split].
  - eapply Forall_impl; [|exact Hws]. intros w (H1 & H2 & _). done.
  - intros w b Hin. destruct (proj1 (list.Forall_forall _ _) Hws w Hin) as (H1 & H2 & _).
    destruct (rest w) as [|b' r]; [by right|]. left. cbn [length] in H2. pose proof data_size_eq.
    unfold buffer_size in *. rewrite arr_set_Some by lia. done.
  - intros ah polls. eexists. by apply sync_eq.
Qed.

(** *** The first round

    Until the buffer is first emptied, a zero byte marks what is not copied yet.
    [gstep] adds the history of the texts in the order of their reservations to
    the interleavings of that time, with the timer as the only drain. *)
Inductive gstep : list Z * log * list writer -> list Z * log * list writer -> Prop :=
| g_reserve h s ws text :
    Forall (fun b => 0 < b < 256) text -> limit s + Z.of_nat (length text) ≤ buffer_size ->
    gstep (h, s, ws) (h ++ text, s <| limit := limit s + Z.of_nat (length text) |>, ws ++ [Writer (limit s) text])
| g_copy h s ws1 ws2 p b text l :
    arr_set (data s) p b = Some l ->
    gstep (h, s, ws1 ++ Writer p (b :: text) :: ws2) (h, s <| data := l |>, ws1 ++ Writer (p + 1) text :: ws2)
| g_done h s ws1 ws2 p : gstep (h, s, ws1 ++ Writer p [] :: ws2) (h, s, ws1 ++ ws2)
| g_drain h s s' ws polls :
    sync_log_buf_2 0 polls s = Ok (s', tt) -> (limit s = 0 \/ limit s' <> 0) -> gstep (h, s, ws) (h, s', ws).

(** The writer copies its part of the history. *)
Definition writes_part (h : list Z) (w : writer) : Prop :=
  0 ≤ edi w /\ forall i b, rest w !! i = Some b -> h !! (Z.to_nat (edi w) + i)%nat = Some b.

Record round_inv (h : list Z) (s : log) (ws : list writer) : Prop := {
  ri_wf : wf_log s;
  ri_len : Z.of_nat (length h) = limit s;
  ri_nonzero : Forall (fun b => 0 < b < 256) h;
  ri_data : forall p b, data s !! p = Some b -> b = 0 \/ h !! p = Some b;
  ri_writers : Forall (writes_part h) ws;
  ri_sent : sent s = take (Z.to_nat (offset s)) h
}.

(** What a drain sends agrees with the history. *)
Lemma sends_history polls : forall l h,
  (forall i b, l !! i = Some b -> b = 0 \/ h !! i = Some b) ->
  take (sends 0 polls l) l = take (sends 0 polls l) h.
Proof.
  induction polls as [|[] polls IH]; intros [|b l] h H; cbn; try done. case_decide as Hz; [done|]. cbn.
  destruct (H 0%nat b eq_refl) as [->|Hb]; [lia|]. destruct h as [|b' h]; [done|]. injection Hb as ->.
  cbn [take]. f_equal. apply IH. intros i c Hc. by apply (H (S i)).
Qed.

Lemma drain_history h s ws polls : round_inv h s ws ->
  let k := sends 0 polls (pending s) in
  sent (drained s k) = take (Z.to_nat (offset s) + k) h.
Proof.
  intros [Hw Hlen _ Hd _ Hs] k. unfold drained. cbn [sent]. rewrite Hs.
  assert (take k (pending s) = take k (drop (Z.to_nat (offset s)) h)) as ->.
  { apply sends_history. intros i b Hb. unfold pending in Hb. apply lookup_take_Some in Hb as [Hb Hi].
    rewrite lookup_drop in Hb. destruct (Hd _ _ Hb) as [->|H]; [by left|right]. by rewrite lookup_drop. }
  by rewrite take_take_drop.
Qed.

Lemma gstep_inv h s ws h' s' ws' :
  gstep (h, s, ws) (h', s', ws') -> round_inv h s ws -> round_inv h' s' ws'.
Proof.
  intros Hg Hi. pose proof Hi as [Hw Hlen Hnz Hd Hws Hs]. pose proof Hw as [Ho Hor Hl Hdl Hb].
  inversion Hg as [h0 s0 ws0 text Ht Hr|h0 s0 ws1 ws2 p b text l Hset|h0 s0 ws1 ws2 p|h0 s0 s1 ws0 polls E Hne]; subst.
  - constructor; cbn [limit offset data sent upd].
    + constructor; cbn [limit offset data upd]; try done. destruct text; cbn [length] in *; lia.
    + rewrite length_app. lia.
    + by apply Forall_app.
    + intros p b Hp. destruct (Hd p b Hp) as [H|H]; [by left|right]. by apply lookup_app_l_Some.
    + apply Forall_app. split.
      * eapply Forall_impl; [|exact Hws]. intros w [He Hp]. split; [done|]. intros i b Hib.
        apply lookup_app_l_Some. by apply Hp.
      * apply Forall_singleton. split; cbn [edi rest]; [lia|]. intros i b Hib.
        rewrite lookup_app_r by lia. rewrite <-Hib. f_equal. lia.
    + rewrite take_app_le by lia. done.
  - apply arr_set_inv in Hset as [Hp ->]. apply Forall_app in Hws as [H1 [[He Hp2] H2]%list.Forall_cons].
    cbn [edi rest] in *. assert (h' !! Z.to_nat p = Some b) as Hpb by (rewrite <-(Hp2 0%nat b eq_refl); f_equal; lia).
    constructor; cbn [limit offset data sent upd]; try done.
    + constructor; cbn [limit offset data upd]; try done; [by rewrite length_insert|].
      apply Forall_insert; [done|]. pose proof (proj1 (list.Forall_forall _ _) Hnz b (list_elem_of_lookup_2 _ _ _ Hpb)) as H0.
      cbn in H0. lia.
    + intros q c Hc. destruct (decide (Z.to_nat p = q)) as [<-|Hq].
      * rewrite list_lookup_insert_eq in Hc by lia. injection Hc as <-. by right.
      * rewrite list_lookup_insert_ne in Hc by done. by apply Hd.
    + apply Forall_app. split; [done|]. apply list.Forall_cons. split; [|done]. split; cbn [edi rest]; [lia|].
      intros i c Hic. rewrite <-(Hp2 (S i) c Hic). f_equal. lia.
  - constructor; try done. apply Forall_app in Hws as [H1 [_ H2]%list.Forall_cons]. by apply Forall_app.
  - rewrite (sync_eq 0 polls s Hw) in E. injection E as <-. pose proof (sends_le 0 polls (pending s)) as Hk.
    constructor; try done; try (by apply wf_drained); rewrite ?(drain_history h' s ws' polls Hi).
    + unfold drained in *. cbn [limit] in *. case_bool_decide; [|done]. destruct Hne as [?|?]; [lia|done].
    + unfold drained in *. cbn [limit offset] in *. f_equal. case_bool_decide as Hall; [|lia].
      destruct Hne as [H0|?]; [|done]. rewrite (length_pending s Hw) in *. lia.
Qed.

Lemma ground_inv c c' : rtc gstep c c' -> forall h s ws, c = (h, s, ws) -> round_inv h s ws ->
  forall h' s' ws', c' = (h', s', ws') -> round_inv h' s' ws'.
Proof.
  induction 1 as [c|c [[h1 s1] ws1] c' Hg _ IH]; intros h s ws -> Hi h' s' ws' E.
  - by injection E as <- <- <-.
  - apply (IH h1 s1 ws1 eq_refl); [by eapply gstep_inv|done].
Qed.

Lemma init_round : round_inv [] init_log [].
Proof.
  constructor; [apply wf_init|done|constructor| |constructor|done].
  intros p b Hp. cbn [init_log data] in Hp. apply lookup_replicate in Hp as [-> _]. by left.
Qed.

(** C39.  The zero bytes protect the first round: while the buffer has not yet been
    emptied, whatever tasks are preempted in the middle of their copies, the timer
    sends only bytes of the texts in the order of their reservations, and stops
    at the first byte not copied yet. *)
Theorem log_first_round h s ws polls s' :
  rtc gstep ([], init_log, []) (h, s, ws) -> sync_log_buf_2 0 polls s = Ok (s', tt) ->
  sent s' = take (length (sent s')) h /\ (length (sent s') ≤ length h)%nat.
Proof.
  intros Hg E. pose proof (ground_inv _ _ Hg [] init_log [] eq_refl init_round h s ws eq_refl) as Hi.
  rewrite (sync_eq 0 polls s (ri_wf _ _ _ Hi)) in E. injection E as <-.
  pose proof (drain_history h s ws polls Hi) as Hk. cbv zeta in Hk. rewrite Hk.
  rewrite length_take. split; [|lia]. apply list_eq. intros i. destruct (decide (i < Z.to_nat (offset s) + sends 0 polls (pending s))%nat).
  - destruct (decide (i < length h)%nat); [rewrite !lookup_take_lt by lia; done|].
    rewrite !lookup_ge_None_2 by (rewrite length_take; lia). done.
  - rewrite !lookup_ge_None_2 by (rewrite length_take; lia). done.
Qed.

(** ** Stale bytes *)

Lemma copies_steps ws1 ws2 text : forall p s,
  0 ≤ p -> (Z.to_nat p + length text ≤ length (data s))%nat ->
  rtc step (s, ws1 ++ Writer p text :: ws2) (s <| data := list_inserts (Z.to_nat p) text (data s) |>, ws1 ++ ws2).
Proof.
  induction text as [|b text IH]; intros p s Hp Hl; cbn [list_inserts length] in *.
  - replace (s <| data := data s |>) with s by by destruct s. eapply rtc_l; [apply step_done|reflexivity].
  - eapply rtc_l; [apply step_copy, arr_set_Some; lia|].
    pose proof (IH (p + 1) (s <| data := <[Z.to_nat p := b]> (data s) |>)) as H. cbn [data upd] in H.
    rewrite length_insert in H. specialize (H ltac:(lia) ltac:(lia)).
    replace (Z.to_nat (p + 1)) with (S (Z.to_nat p)) in H by lia.
    rewrite <-list_insert_inserts_lt in H by lia. exact H.
Qed.

(** [log_buf] without interruption. *)
Lemma log_steps s text ws : wf_log s -> has_room s text -> Forall (fun b => 0 ≤ b < 256) text ->
  rtc step (s, ws) (logged s text, ws).
Proof.
  intros [Ho Hor Hl Hd Hb] Hr Ht. pose proof data_size_eq. unfold has_room, buffer_size in *.
  eapply rtc_l; [apply (step_reserve s ws text); [lia|done|rewrite s32_small by lia; unfold buffer_size; lia]|].
  rewrite s32_small by lia. pose proof (copies_steps ws [] text (limit s) (s <| limit := limit s + Z.of_nat (length text) |>)) as H1.
  cbn [data upd] in H1. rewrite app_nil_r in H1. apply H1; lia.
Qed.

(** Every pending byte is sent. *)
Lemma drain_all s ws : wf_log s -> Forall (fun b => 0 < b < 256) (pending s) ->
  step (s, ws) (Log 0 0 (data s) (sent s ++ pending s), ws).
Proof.
  intros Hw Hp. apply (step_drain _ _ _ 0 (replicate (length (pending s)) true)); [lia|].
  rewrite sync_eq by done. rewrite sends_all.
  - unfold drained. by rewrite bool_decide_eq_true_2, firstn_all by done.
  - eapply Forall_impl; [|exact Hp]. intros b Hb. cbn in Hb. lia.
Qed.

Lemma take_inserts (text d : list Z) : (length text ≤ length d)%nat -> take (length text) (list_inserts 0 text d) = text.
Proof.
  intros Hl. pose proof (take_drop_inserts 0 0 text d) as H. rewrite Nat.sub_0_r, !drop_0, take_0 in H. by apply H.
Qed.

(** C40.  After the first round the zeros are gone, because [sync_log_buf_2],
    unlike [sync_log_buf], does not clear what it sends.  Two texts of one length
    are logged; the second writer loses the processor between its reservation and
    its copy while the timer drains.  Both calls run to their end, nothing is left
    pending, and the line has got the first text twice and the second never. *)
Theorem log_stale old new :
  length old = length new -> Z.of_nat (length old) ≤ buffer_size ->
  Forall (fun b => 0 < b < 256) old -> Forall (fun b => 0 ≤ b < 256) new ->
  exists s, reachable (s, []) /\ sent s = old ++ old /\ pending s = [] /\ offset s = 0 /\ limit s = 0 /\
    take (length new) (data s) = new.
Proof.
  intros Hlen Hfit Hold Hnew. pose proof data_size_eq. unfold buffer_size in *.
  assert (Forall (fun b => 0 ≤ b < 256) old) as Hold' by (eapply Forall_impl; [|exact Hold]; intros b Hb; cbn in Hb; lia).
  assert (has_room init_log old) as Hr1 by (unfold has_room, buffer_size; cbn [init_log limit]; lia).
  set (s1 := logged init_log old). assert (wf_log s1) as Hw1 by (by apply wf_logged; [apply wf_init|..]).
  assert (pending s1 = old) as Hp1 by (unfold s1; by rewrite pending_logged by (done || apply wf_init)).
  set (s2 := Log 0 0 (data s1) old).
  assert (step (s1, []) (s2, [])) as H2 by (pose proof (drain_all s1 [] Hw1) as H2; rewrite Hp1 in H2; by apply H2).
  assert (log_inv (s2, [])) as [Hw2 _] by (apply (step_inv _ _ H2); split; [done|constructor]). cbn [fst] in Hw2.
  assert (length (data s1) = data_size) as Hd1 by apply (wl_data s1 Hw1).
  set (s3 := Log (Z.of_nat (length new)) 0 (data s1) old).
  assert (step (s2, []) (s3, [Writer 0 new])) as H3.
  { pose proof (step_reserve s2 [] new) as H3. cbn [limit s2] in H3. rewrite s32_small in H3 by lia.
    apply H3; [lia|done|unfold buffer_size; lia]. }
  assert (log_inv (s3, [Writer 0 new])) as [Hw3 _] by (apply (step_inv _ _ H3); split; [done|constructor]). cbn [fst] in Hw3.
  assert (pending s3 = old) as Hp3.
  { unfold pending, s3. cbn [limit offset data]. rewrite Z.sub_0_r, Nat2Z.id, drop_0, <-Hlen.
    unfold s1, logged. cbn [data upd init_log limit]. apply take_inserts. rewrite length_replicate. lia. }
  assert (step (s3, [Writer 0 new]) (Log 0 0 (data s1) (old ++ old), [Writer 0 new])) as H4.
  { pose proof (drain_all s3 [Writer 0 new] Hw3) as H4. rewrite Hp3 in H4. by apply H4. }
  pose proof (copies_steps [] [] new 0 (Log 0 0 (data s1) (old ++ old))) as H5. cbn [limit offset data sent upd app] in H5.
  exists (Log 0 0 (list_inserts 0 new (data s1)) (old ++ old)). cbn [limit offset data sent].
  split; [|split; [done|split; [done|split; [done|split; [done|]]]]].
  - unfold reachable. etrans; [apply (log_steps init_log old []); [apply wf_init|done|done]|].
    eapply rtc_l; [exact H2|]. eapply rtc_l; [exact H3|]. eapply rtc_l; [exact H4|]. apply H5; lia.
  - apply take_inserts. lia.
Qed.

(** ** Witnesses *)

Lemma ascii_bytes (l : list Z) : bool_decide (Forall (fun b => 0 < b < 256) l) = true -> Forall (fun b => 0 < b < 256) l.
Proof. apply bool_decide_eq_true_1. Qed.

Lemma log_refines_queue_witness :
  exists s', crun [Print [72; 105]; Timer [true]; Print [33]; Timer [true; true; true]] init_log = Ok (s', tt) /\
    sent s' = [72; 105; 33] /\ pending s' = [].
Proof.
  destruct (log_refines_queue [Print [72; 105]; Timer [true]; Print [33]; Timer [true; true; true]] init_log
    (Queue [72; 105; 33] [] 0) wf_init) as (s' & E & _ & Hq).
  - vm_compute. reflexivity.
  - exists s'. split; [exact E|]. injection Hq as H1 H2 _. by split.
Defined.

(** A buffer with 2047 bytes pending and a text of 2. *)
Definition full_log : log := logged init_log (replicate 2047 65).

Lemma wf_full : wf_log full_log.
Proof.
  apply wf_logged; [apply wf_init|unfold has_room; rewrite length_replicate; unfold buffer_size; cbn [init_log limit]; lia|].
  apply Forall_replicate. lia.
Qed.

Lemma pending_full : pending full_log = replicate 2047 65.
Proof.
  unfold full_log. rewrite pending_logged; [done|apply wf_init|].
  unfold has_room. rewrite length_replicate. unfold buffer_size. cbn [init_log limit]. lia.
Qed.

Lemma log_room_witness :
  exists s', log_buf [66; 67] true [replicate (length (pending full_log)) true] full_log = Ok (s', tt) /\ pending s' = [66; 67].
Proof.
  destruct (log_room full_log [66; 67] true [] wf_full) as (s' & E & _ & Hp).
  - cbn [length]. lia.
  - rewrite pending_full. by apply Forall_replicate.
  - repeat constructor; lia.
  - unfold has_room, full_log, logged, buffer_size. cbn [limit upd init_log]. rewrite length_replicate. cbn [length]. lia.
  - exists s'. split; [exact E|exact Hp].
Defined.

(** A task is preempted after its reservation. *)
Lemma log_bounds_witness :
  exists s ws, reachable (s, ws) /\ ws = [Writer 0 [72; 105]] /\ limit s ≤ buffer_size.
Proof.
  exists (init_log <| limit := s32 (limit init_log + Z.of_nat (length [72; 105])) |>), [Writer 0 [72; 105]].
  assert (reachable (init_log <| limit := s32 (limit init_log + Z.of_nat (length [72; 105])) |>, [Writer 0 [72; 105]])) as H.
  { eapply rtc_l; [apply (step_reserve init_log [] [72; 105])|reflexivity]; [done|repeat constructor; lia|done]. }
  split; [exact H|]. split; [reflexivity|].
  destruct (log_bounds _ _ H) as (_ & Hl & _). exact Hl.
Defined.

Lemma log_first_round_witness :
  exists h s ws s', rtc gstep ([], init_log, []) (h, s, ws) /\ sync_log_buf_2 0 [true; true] s = Ok (s', tt) /\
    h = [72; 105] /\ (length (sent s') ≤ length h)%nat.
Proof.
  set (s := init_log <| limit := limit init_log + Z.of_nat (length [72; 105]) |>).
  assert (rtc gstep ([], init_log, []) ([72; 105], s, [Writer 0 [72; 105]])) as H.
  { eapply rtc_l; [apply (g_reserve [] init_log [] [72; 105])|reflexivity]; [repeat constructor; lia|done]. }
  assert (wf_log s) as Hw by apply (ri_wf _ _ _ (ground_inv _ _ H [] init_log [] eq_refl init_round _ _ _ eq_refl)).
  exists [72; 105], s, [Writer 0 [72; 105]]. eexists. split; [exact H|]. split; [apply (sync_eq _ _ _ Hw)|].
  split; [reflexivity|]. apply (log_first_round _ _ _ [true; true] _ H (sync_eq _ _ _ Hw)).
Defined.

Lemma log_stale_witness :
  exists s, reachable (s, []) /\ sent s = [72; 105; 72; 105] /\ pending s = [].
Proof.
  destruct (log_stale [72; 105] [79; 75]) as (s & H & Hs & Hp & _); [done|done|apply ascii_bytes; reflexivity|repeat constructor; lia|].
  exists s. split; [exact H|]. split; [exact Hs|exact Hp].
Defined.
