(* ===== verification/Links.v ===== *)
(** * Doubly linked lists

    The circular lists and the [NULL]-terminated lists of the kernel as
    predicates on the functions that follow the links, and what unlinking and
    appending an element does to them. *)
From S2P Require Import Prelude.

(** Following [nx] from [x] one meets the list [l] and then [z]; [pv] goes back. *)
Fixpoint path (nx pv : Z -> Z) (x : Z) (l : list Z) (z : Z) : Prop :=
  match l with
  | [] => nx x = z /\ pv z = x
  | y :: l => nx x = y /\ pv y = x /\ path nx pv y l z
  end.

(** A circular doubly linked list. *)
Definition ring (nx pv : Z -> Z) (l : list Z) : Prop :=
  match l with [] => False | x :: l => path nx pv x l x end.

(** A doubly linked list that ends in [NULL]; [prev] is what the first element
    points back to. *)
Fixpoint chain (nx pv : Z -> Z) (prev first : Z) (l : list Z) : Prop :=
  match l with
  | [] => first = 0
  | a :: l => first = a /\ a <> 0 /\ pv a = prev /\ chain nx pv a (nx a) l
  end.

Section paths.
Variables (nx pv : Z -> Z).

Lemma path_app x l1 y l2 z :
  path nx pv x (l1 ++ y :: l2) z <-> path nx pv x l1 y /\ path nx pv y l2 z.
Proof.
  revert x. induction l1 as [|w l1 IH]; intros x; cbn [app path]; [tauto|]. rewrite IH. tauto.
Qed.

Lemma path_ext nx' pv' x l z :
  path nx pv x l z -> (forall a, a ∈ x :: l -> nx' a = nx a) -> (forall a, a ∈ l ++ [z] -> pv' a = pv a) ->
  path nx' pv' x l z.
Proof.
  revert x. induction l as [|y l IH]; intros x; cbn [path app].
  - intros [H1 H2] Hn Hp. rewrite Hn, Hp by set_solver. done.
  - intros (H1 & H2 & H3) Hn Hp.
    assert (nx' x = nx x) as -> by (apply Hn, elem_of_cons; by left).
    assert (pv' y = pv y) as -> by (apply Hp, elem_of_cons; by left).
    split; [done|]. split; [done|]. apply IH; [done| |]; intros a Ha.
    + apply Hn, elem_of_cons. by right.
    + apply Hp, elem_of_cons. by right.
Qed.

Lemma path_last x l z : path nx pv x l z -> pv z ∈ x :: l.
Proof.
  revert x. induction l as [|y l IH]; intros x; cbn [path].
  - intros [_ ->]. set_solver.
  - intros (_ & _ & H). apply IH in H. set_solver.
Qed.

Lemma path_first x l z : path nx pv x l z -> nx x ∈ l ++ [z].
Proof. destruct l; cbn [path]; intros (-> & _); set_solver. Qed.

Lemma chain_ext nx' pv' prev first l :
  chain nx pv prev first l -> (forall a, a ∈ l -> nx' a = nx a /\ pv' a = pv a) ->
  chain nx' pv' prev first l.
Proof.
  revert prev first. induction l as [|a l IH]; intros prev first; cbn [chain]; [done|].
  intros (-> & Ha & Hp & Hc) He. destruct (He a) as [E1 E2]; [set_solver|].
  rewrite E1, E2. split; [done|]. split; [done|]. split; [done|]. apply IH; [done|]. set_solver.
Qed.

End paths.

(** A list without one element. *)
Definition without (b : Z) (l : list Z) : list Z := filter (fun a => a <> b) l.

Lemma without_notin b l : b ∉ l -> without b l = l.
Proof.
  unfold without. induction l as [|a l IH]; intros Hb; [done|].
  apply not_elem_of_cons in Hb as [Ha Hb]. rewrite filter_cons_True by auto. by rewrite IH.
Qed.

Lemma without_split l1 b l2 : b ∉ l1 -> b ∉ l2 -> without b (l1 ++ b :: l2) = l1 ++ l2.
Proof.
  intros H1 H2. unfold without. rewrite list.filter_app, filter_cons_False by auto.
  fold (without b l1). fold (without b l2). by rewrite !without_notin.
Qed.

Lemma without_spec b l a : a ∈ without b l <-> a <> b /\ a ∈ l.
Proof. unfold without. by rewrite list_elem_of_filter. Qed.

Lemma NoDup_split l1 (b : Z) l2 : NoDup (l1 ++ b :: l2) -> b ∉ l1 /\ b ∉ l2.
Proof.
  intros (_ & Hd & [Hb _]%list.NoDup_cons)%list.NoDup_app. split; [|done].
  intros Hin. apply (Hd b Hin). apply elem_of_cons. by left.
Qed.

Section removal.
Variables (nx pv : Z -> Z).

(** Redirecting the end of a path from [b] to [c]. *)
Lemma path_redirect x l b c nx' pv' :
  path nx pv x l b -> NoDup (x :: l) ->
  (forall a, a ∈ x :: l -> a <> pv b -> nx' a = nx a) -> nx' (pv b) = c ->
  (forall a, a ∈ l -> pv' a = pv a) -> pv' c = pv b -> path nx' pv' x l c.
Proof.
  revert x. induction l as [|y l IH]; intros x; cbn [path].
  - intros [_ Hb] _ _ Hc _ Hp. by rewrite Hb in *.
  - intros (Hx & Hy & H) Hnd Hn Hc Hpv Hp. apply list.NoDup_cons in Hnd as [Hxn Hnd].
    assert (pv b ∈ y :: l) as Hpb by by eapply path_last.
    rewrite Hn, Hpv by ((apply elem_of_cons; by left) || by intros ->). split; [done|]. split; [done|].
    apply IH; try done; set_solver.
Qed.

Definition nx_removed (b a : Z) : Z := if decide (a = pv b) then nx b else nx a.
Definition pv_removed (b a : Z) : Z := if decide (a = nx b) then pv b else pv a.

Lemma ring_remove_head x y l :
  ring nx pv (x :: y :: l) -> NoDup (x :: y :: l) -> ring (nx_removed x) (pv_removed x) (y :: l).
Proof.
  intros (Hx & Hy & H) [Hxn Hnd]%list.NoDup_cons. cbn [ring].
  apply (path_redirect _ _ x); [done|done| | | |]; unfold nx_removed, pv_removed.
  - intros a Ha Hne. by rewrite decide_False.
  - by rewrite decide_True.
  - intros a Ha. rewrite decide_False; [done|]. intros ->. rewrite Hx in Ha.
    by apply list.NoDup_cons in Hnd as [? _].
  - by rewrite decide_True.
Qed.

Lemma ring_remove_tail x l1 b l2 :
  ring nx pv (x :: l1 ++ b :: l2) -> NoDup (x :: l1 ++ b :: l2) ->
  ring (nx_removed b) (pv_removed b) (x :: l1 ++ l2).
Proof.
  cbn [ring]. intros [H1 H2]%path_app Hnd.
  pose proof (Hnd : NoDup ((x :: l1) ++ b :: l2)) as (Hnd1 & Hdis & Hnd2)%list.NoDup_app.
  assert (nx b ∈ l2 ++ [x]) as Hnb by by eapply path_first.
  assert (pv b ∈ x :: l1) as Hpb by by eapply path_last.
  apply list.NoDup_cons in Hnd1 as [Hx1 Hnd1].
  assert (nx b ∉ l1) as Hnl1.
  { intros Hin. apply elem_of_app in Hnb as [Hnb|Hnb%list_elem_of_singleton].
    - apply (Hdis (nx b)); apply elem_of_cons; by right.
    - apply Hx1. by rewrite <-Hnb. }
  assert (path (nx_removed b) (pv_removed b) x l1 (nx b)) as Hl1.
  { apply (path_redirect _ _ b); try done; unfold nx_removed, pv_removed.
    - by apply list.NoDup_cons.
    - intros a Ha Hne. by rewrite decide_False.
    - by rewrite decide_True.
    - intros a Ha. rewrite decide_False; [done|]. by intros ->.
    - by rewrite decide_True. }
  destruct l2 as [|y l2]; cbn [path] in H2.
  - destruct H2 as [H2 _]. rewrite H2 in Hl1. by rewrite app_nil_r.
  - destruct H2 as (H2 & H3 & H4). rewrite H2 in Hl1. apply path_app. split; [done|].
    eapply path_ext; [exact H4| |]; intros a Ha; unfold nx_removed, pv_removed; rewrite decide_False; try done.
    + intros ->. apply (Hdis _ Hpb). apply elem_of_cons. by right.
    + intros ->. rewrite H2 in Ha. apply list.NoDup_cons in Hnd2 as [_ [Hy _]%list.NoDup_cons].
      apply elem_of_app in Ha as [?|Ha]; [done|]. apply list_elem_of_singleton in Ha. set_solver.
Qed.

(** Removing [b] from a ring of at least two elements. *)
Lemma ring_remove l b :
  ring nx pv l -> NoDup l -> b ∈ l -> (2 ≤ length l)%nat ->
  ring (nx_removed b) (pv_removed b) (without b l).
Proof.
  intros Hr Hnd Hb Hl. apply list_elem_of_split in Hb as (l1 & l2 & ->).
  destruct (NoDup_split _ _ _ Hnd) as [H1 H2]. rewrite without_split by done.
  destruct l1 as [|x l1]; [|by apply ring_remove_tail].
  destruct l2 as [|y l2]; [cbn in Hl; lia|]. by apply ring_remove_head.
Qed.

(** Appending [b] at the end of a ring. *)
Lemma ring_append x l b nx' pv' :
  ring nx pv (x :: l) -> NoDup (x :: l) -> b ∉ x :: l ->
  (forall a, nx' a = if decide (a = pv x) then b else if decide (a = b) then x else nx a) ->
  (forall a, pv' a = if decide (a = x) then b else if decide (a = b) then pv x else pv a) ->
  ring nx' pv' (x :: l ++ [b]).
Proof.
  cbn [ring]. intros H Hnd Hb Hn Hp. apply list.NoDup_cons in Hnd as [Hxl Hnd].
  assert (pv x ∈ x :: l) as Hpx by by eapply path_last.
  apply path_app. split; cbn [path].
  - apply (path_redirect _ _ x); try done.
    + by apply list.NoDup_cons.
    + intros a Ha Hne. rewrite Hn. by rewrite !decide_False by (done || intros ->; done).
    + rewrite Hn. by rewrite decide_True.
    + intros a Ha. rewrite Hp. rewrite !decide_False; [done|intros ->; set_solver|by intros ->].
    + rewrite Hp. rewrite decide_False by set_solver. by rewrite decide_True.
  - rewrite Hn, Hp. rewrite decide_False by (intros ->; done). by rewrite !decide_True.
Qed.

(** *** Chains *)

Lemma chain_nx prev first l1 b l2 :
  chain nx pv prev first (l1 ++ b :: l2) -> nx b = 0 /\ l2 = [] \/ exists y l, l2 = y :: l /\ nx b = y.
Proof.
  revert prev first. induction l1 as [|w l1 IH]; intros prev first; cbn [app chain].
  - intros (_ & _ & _ & H). destruct l2 as [|y l2]; [by left|right]. destruct H as [-> _]. by exists y, l2.
  - intros (_ & _ & _ & H). by eapply IH.
Qed.

Lemma chain_pv prev first l1 b l2 :
  chain nx pv prev first (l1 ++ b :: l2) -> l1 = [] /\ pv b = prev /\ first = b \/ l1 <> [] /\ pv b ∈ l1.
Proof.
  revert prev first. induction l1 as [|w l1 IH]; intros prev first; cbn [app chain].
  - intros (-> & _ & -> & H). by left.
  - intros (_ & _ & _ & H). right. split; [done|]. apply IH in H as [(-> & -> & _)|[_ H]]; set_solver.
Qed.

Lemma chain_nonnull prev first l : chain nx pv prev first l -> 0 ∉ l.
Proof.
  revert prev first. induction l as [|a l IH]; intros prev first; cbn [chain]; [set_solver|].
  intros (_ & Ha & _ & H%IH). set_solver.
Qed.

(** Removing [b] from a chain. *)
Lemma chain_remove prev first l1 b l2 nx' pv' :
  chain nx pv prev first (l1 ++ b :: l2) -> NoDup (l1 ++ b :: l2) -> prev ∉ l1 ++ b :: l2 ->
  (forall a, a ∈ l1 ++ l2 -> nx' a = nx_removed b a /\ pv' a = pv_removed b a) ->
  chain nx' pv' prev (if decide (first = b) then nx b else first) (l1 ++ l2).
Proof.
  revert prev first. induction l1 as [|w l1 IH]; intros prev first Hc Hnd Hprev Hu; cbn [app] in *.
  - pose proof (chain_nx prev first [] b l2 Hc) as Hnx. cbn [chain] in Hc. destruct Hc as (-> & Hb & Hp & Hc).
    rewrite decide_True by done. apply list.NoDup_cons in Hnd as [Hbl Hnd].
    destruct Hnx as [[-> ->]|(y & l & -> & Hy)]; [done|].
    cbn [chain] in *. destruct Hc as (_ & Hy0 & _ & Hc). apply list.NoDup_cons in Hnd as [Hyl Hnd].
    destruct (Hu y) as [E1 E2]; [set_solver|]. unfold nx_removed in E1. unfold pv_removed in E2.
    rewrite decide_True in E2 by done. rewrite decide_False in E1 by set_solver.
    rewrite E1, E2. split; [done|]. split; [done|]. split; [done|]. eapply chain_ext; [exact Hc|].
    intros a Ha. destruct (Hu a) as [-> ->]; [set_solver|]. unfold nx_removed, pv_removed.
    rewrite !decide_False by (rewrite ?Hy, ?Hp; set_solver). done.
  - pose proof (chain_nx _ _ (w :: l1) _ _ Hc) as Hnx. pose proof (chain_pv _ _ (w :: l1) _ _ Hc) as Hpv.
    cbn [chain] in *. destruct Hc as (-> & Hw & Hp & Hc). apply list.NoDup_cons in Hnd as [Hwl Hnd].
    pose proof (chain_pv _ _ _ _ _ Hc) as Hpv'.
    assert (w <> b) as Hwb by set_solver. rewrite decide_False by done.
    destruct (Hu w) as [E1 E2]; [set_solver|]. unfold nx_removed in E1. unfold pv_removed in E2.
    assert (w <> nx b) as Hwn.
    { destruct Hnx as [[-> _]|(y & l & -> & ->)]; [done|set_solver]. }
    rewrite decide_False in E2 by done. rewrite E1, E2. split; [done|]. split; [done|]. split; [done|].
    assert ((if decide (w = pv b) then nx b else nx w) = if decide (nx w = b) then nx b else nx w) as ->.
    { destruct Hpv' as [(_ & Hpb & Hn)|[Hl1 Hpb]].
      - by rewrite !decide_True by congruence.
      - rewrite decide_False by set_solver. rewrite decide_False; [done|]. intros Hn. destruct l1 as [|v l1]; [done|].
        cbn [app chain] in Hc. destruct Hc as (Hv & _). apply list.NoDup_cons in Hnd as [Hvl _]. set_solver. }
    apply IH; [done|done|done|]. intros a Ha. apply Hu. set_solver.
Qed.
End removal.
