(* ===== verification/Buffer.v ===== *)
(** * The buffer cache

    fs/buffer.c and the buffer head of include/linux/fs.h.  Buffer heads are a
    map from addresses to structures; a pointer to no head stops the model.

    A task that sleeps in [sleep_on] gives way to others: the state holds the
    list [wakes] of what the rest of the kernel does to the cache during each
    sleep.  A computation that sleeps more often than the list is long is still
    asleep and has no result.  Task 0 must not sleep: [__sleep_on] panics.  The
    functions here run from one sleep to the next without a timer interrupt;
    Preempt.v lets the timer strike. *)
From S2P Require Import Prelude Words.

Definition NR_HASH : Z := 307.
Definition BLOCK_SIZE : Z := 1024.
Definition SIZEOF_BUFFER_HEAD : Z := 36.

Record buffer_head := BufferHead {
  b_data : Z; b_blocknr : Z; b_dev : Z; b_uptodate : Z; b_dirt : Z;
  b_count : Z; b_lock : Z; b_wait : Z;
  b_prev : Z; b_next : Z; b_prev_free : Z; b_next_free : Z
}.

#[export] Instance eta_buffer_head : Eta buffer_head := fun r =>
  BufferHead (b_data r) (b_blocknr r) (b_dev r) (b_uptodate r) (b_dirt r)
    (b_count r) (b_lock r) (b_wait r) (b_prev r) (b_next r) (b_prev_free r) (b_next_free r).

Record cache := Cache {
  heads : gmap Z buffer_head;
  free_list : Z;
  hash_table : list Z;
  nr_buffers : Z
}.

#[export] Instance eta_cache : Eta cache := fun r =>
  Cache (heads r) (free_list r) (hash_table r) (nr_buffers r).

(** [task0]: the current task is task 0. *)
Record bsys := Bsys { bc : cache; wakes : list (cache -> cache); task0 : bool }.

#[export] Instance eta_bsys : Eta bsys := fun r => Bsys (bc r) (wakes r) (task0 r).

(** [bh->...] and an assignment to members of [*bh]. *)
Definition head (a : Z) : M bsys buffer_head :=
  s ← get; check "buffer_head" (heads (bc s) !! a).
Definition set_bh (a : Z) (f : buffer_head -> buffer_head) : M bsys unit :=
  h ← head a; modify (fun s => s <| bc := bc s <| heads := <[a := f h]> (heads (bc s)) |> |>).

Definition _hashfn (dev block : Z) : Z := u32 (Z.lxor dev block) mod NR_HASH.

Definition hash (dev block : Z) : M bsys Z :=
  s ← get; check "hash_table" (arr_get (hash_table (bc s)) (_hashfn dev block)).
Definition set_hash (dev block v : Z) : M bsys unit :=
  s ← get; l ← check "hash_table" (arr_set (hash_table (bc s)) (_hashfn dev block) v);
  modify (fun s => s <| bc := bc s <| hash_table := l |> |>).

Definition BADNESS (bh : buffer_head) : Z := Z.shiftl (b_dirt bh) 1 + b_lock bh.

(** [sleep_on] on a buffer's queue or on [buffer_wait]. *)
Definition sleep : M bsys unit :=
  s ← get;
  if task0 s then stop (Panic "task[0] trying to sleep") else
  match wakes s with
  | f :: l => put (Bsys (f (bc s)) l false)
  | [] => stop Fuel
  end.

(** [while (bh->b_lock) sleep_on(&bh->b_wait);] *)
Fixpoint wait_on_buffer_loop (fuel : nat) (bh : Z) : M bsys unit :=
  match fuel with
  | O => stop Fuel
  | S fuel => h ← head bh; if decide (b_lock h <> 0) then sleep;; wait_on_buffer_loop fuel bh else mret tt
  end.

Definition wait_on_buffer (bh : Z) : M bsys unit :=
  s ← get; wait_on_buffer_loop (S (length (wakes s))) bh.

(** ** The queues *)

Definition remove_from_queues (bh : Z) : M bsys unit :=
  h ← head bh;
  when (bool_decide (b_next h <> 0)) (set_bh (b_next h) (fun n => n <| b_prev := b_prev h |>));;
  when (bool_decide (b_prev h <> 0)) (set_bh (b_prev h) (fun p => p <| b_next := b_next h |>));;
  first ← hash (b_dev h) (b_blocknr h);
  when (bool_decide (first = bh)) (set_hash (b_dev h) (b_blocknr h) (b_next h));;
  if decide (b_prev_free h = 0 \/ b_prev_free h = 0) then stop (Panic "Free block list corrupted") else
  set_bh (b_next_free h) (fun n => n <| b_prev_free := b_prev_free h |>);;
  set_bh (b_prev_free h) (fun p => p <| b_next_free := b_next_free h |>);;
  s ← get;
  when (bool_decide (free_list (bc s) = bh))
    (f ← head bh; modify (fun s => s <| bc := bc s <| free_list := b_next_free f |> |>)).

Definition insert_into_queues (bh : Z) : M bsys unit :=
  s ← get;
  let fl := free_list (bc s) in
  f ← head fl;
  let last := b_prev_free f in
  set_bh bh (fun h => h <| b_prev_free := last |>);;
  set_bh bh (fun h => h <| b_next_free := fl |>);;
  set_bh last (fun h => h <| b_next_free := bh |>);;
  set_bh fl (fun h => h <| b_prev_free := bh |>);;
  set_bh bh (fun h => h <| b_prev := 0 |> <| b_next := 0 |>);;
  h ← head bh;
  if decide (b_dev h = 0) then mret tt else
  first ← hash (b_dev h) (b_blocknr h);
  set_hash (b_dev h) (b_blocknr h) bh;;
  set_bh bh (fun h => h <| b_next := first |>);;
  when (bool_decide (first <> 0)) (set_bh first (fun h => h <| b_prev := bh |>)).

(** ** Look-up *)

(** [tmp->b_dev == dev && tmp->b_blocknr == block], the second as unsigned. *)
Definition same_block (h : buffer_head) (dev block : Z) : bool :=
  bool_decide (b_dev h = dev /\ b_blocknr h = u32 block).

Fixpoint find_chain (fuel : nat) (tmp dev block : Z) : M bsys Z :=
  if decide (tmp = 0) then mret 0 else
  match fuel with
  | O => stop Fuel
  | S fuel =>
      h ← head tmp;
      if same_block h dev block then mret tmp else find_chain fuel (b_next h) dev block
  end.

(** At most every buffer is in the chain. *)
Definition find_buffer (dev block : Z) : M bsys Z :=
  first ← hash dev block; s ← get; find_chain (size (heads (bc s))) first dev block.

Fixpoint get_hash_table_loop (fuel : nat) (dev block : Z) : M bsys Z :=
  match fuel with
  | O => stop Fuel
  | S fuel =>
      bh ← find_buffer dev block;
      if decide (bh = 0) then mret 0 else
      set_bh bh (fun h => h <| b_count := u8 (b_count h + 1) |>);;
      wait_on_buffer bh;;
      h ← head bh;
      if same_block h dev block then mret bh
      else set_bh bh (fun h => h <| b_count := u8 (b_count h - 1) |>);; get_hash_table_loop fuel dev block
  end.

Definition get_hash_table (dev block : Z) : M bsys Z :=
  s ← get; get_hash_table_loop (S (length (wakes s))) dev block.

(** ** getblk *)

(** The [do ... while] scan of the free list from [tmp] on, [bh] the best
    candidate so far. *)
Fixpoint scan (fuel : nat) (tmp bh : Z) : M bsys Z :=
  match fuel with
  | O => stop Fuel
  | S fuel =>
      t ← head tmp;
      s ← get;
      let next (bh : Z) : M bsys Z :=
        if decide (b_next_free t <> free_list (bc s)) then scan fuel (b_next_free t) bh else mret bh in
      if decide (b_count t <> 0) then next bh
      else if decide (bh = 0) then if decide (BADNESS t = 0) then mret tmp else next tmp
      else
        b ← head bh;
        if decide (BADNESS t < BADNESS b) then if decide (BADNESS t = 0) then mret tmp else next tmp
        else next bh
  end.

(** One pass of the code behind [repeat:]; [None] for [goto repeat]. *)
Definition getblk_once (dev block : Z) : M bsys (option Z) :=
  bh ← get_hash_table dev block;
  if decide (bh <> 0) then mret (Some bh) else
  s ← get;
  bh ← scan (size (heads (bc s))) (free_list (bc s)) 0;
  if decide (bh = 0) then sleep;; mret None else
  wait_on_buffer bh;;
  h ← head bh;
  if decide (b_count h <> 0) then mret None else
  if decide (b_dirt h <> 0) then mret None else
  found ← find_buffer dev block;
  if decide (found <> 0) then mret None else
  set_bh bh (fun h => h <| b_count := 1 |> <| b_dirt := 0 |> <| b_uptodate := 0 |>);;
  remove_from_queues bh;;
  set_bh bh (fun h => h <| b_dev := u16 dev |> <| b_blocknr := u32 block |>);;
  insert_into_queues bh;;
  mret (Some bh).

Fixpoint getblk (fuel : nat) (dev block : Z) : M bsys Z :=
  match fuel with
  | O => stop Fuel
  | S fuel =>
      r ← getblk_once dev block;
      match r with
      | Some bh => mret bh
      | None => getblk fuel dev block
      end
  end.

(** [sys_kdebug]: the first block of the hard disk. *)
Definition sys_kdebug (fuel : nat) : M bsys Z := getblk fuel 0x300 0.

(** ** buffer_init *)

(** The initial contents of the memory that becomes buffer heads. *)
Definition no_head : buffer_head := BufferHead 0 0 0 0 0 0 0 0 0 0 0 0.

Definition init_head (h b : Z) (old : buffer_head) : buffer_head :=
  old <| b_dev := 0 |> <| b_dirt := 0 |> <| b_count := 0 |> <| b_lock := 0 |> <| b_uptodate := 0 |>
      <| b_wait := 0 |> <| b_next := 0 |> <| b_prev := 0 |> <| b_data := b |>
      <| b_prev_free := h - SIZEOF_BUFFER_HEAD |> <| b_next_free := h + SIZEOF_BUFFER_HEAD |>.

(** The loop; the result is [h] when it ends. *)
Fixpoint buffer_init_loop (fuel : nat) (h b : Z) : M bsys Z :=
  let b := b - BLOCK_SIZE in
  if decide (b >= h + SIZEOF_BUFFER_HEAD) then
    match fuel with
    | O => stop Fuel
    | S fuel =>
        modify (fun s => s <| bc := bc s
          <| heads := <[h := init_head h b (default no_head (heads (bc s) !! h))]> (heads (bc s)) |>
          <| nr_buffers := nr_buffers (bc s) + 1 |> |>);;
        buffer_init_loop fuel (h + SIZEOF_BUFFER_HEAD) (if decide (b = 0x100000) then 0xa0000 else b)
    end
  else mret h.

Definition buffer_init (start_buffer buffer_end : Z) : M bsys unit :=
  let b := if decide (buffer_end = Z.shiftl 1 20) then 640 * 1024 else buffer_end in
  h ← buffer_init_loop (Z.to_nat (b / BLOCK_SIZE)) start_buffer b;
  let h := h - SIZEOF_BUFFER_HEAD in
  modify (fun s => s <| bc := bc s <| free_list := start_buffer |> |>);;
  set_bh start_buffer (fun f => f <| b_prev_free := h |>);;
  set_bh h (fun l => l <| b_next_free := start_buffer |>);;
  modify (fun s => s <| bc := bc s <| hash_table := replicate (Z.to_nat NR_HASH) 0 |> |>).

(** ** Views of the cache *)

Definition hd (c : cache) (a : Z) : buffer_head := default no_head (heads c !! a).
Definition known (c : cache) (a : Z) : Prop := is_Some (heads c !! a).
Definition updh (a : Z) (f : buffer_head -> buffer_head) (c : cache) : cache :=
  c <| heads := alter f a (heads c) |>.
Definition in_cache (c : cache) (s : bsys) : bsys := s <| bc := c |>.

(** The links, as functions of the address. *)
Definition nf (c : cache) (a : Z) : Z := b_next_free (hd c a).
Definition pf (c : cache) (a : Z) : Z := b_prev_free (hd c a).
Definition nh (c : cache) (a : Z) : Z := b_next (hd c a).
Definition ph (c : cache) (a : Z) : Z := b_prev (hd c a).

(** What a head holds besides its links. *)
Definition payload (h : buffer_head) : buffer_head :=
  h <| b_prev := 0 |> <| b_next := 0 |> <| b_prev_free := 0 |> <| b_next_free := 0 |>.

Section views.
Implicit Types (c : cache) (s : bsys).

Lemma head_eq a s : known (bc s) a -> head a s = Ok (s, hd (bc s) a).
Proof. intros [h Hh]. unfold head, hd, mbind, M_bind, get, check. by rewrite Hh. Qed.

Lemma set_bh_eq a f s : known (bc s) a -> set_bh a f s = Ok (in_cache (updh a f (bc s)) s, tt).
Proof.
  intros Hk. unfold set_bh. rewrite (bind_ok _ _ _ _ _ (head_eq a s Hk)).
  destruct Hk as [h Hh]. unfold modify, in_cache, updh, hd. rewrite Hh. cbn [default].
  by rewrite <-(map_insert_alter _ _ _ f Hh).
Qed.

Lemma hd_updh a f c x : known c a -> hd (updh a f c) x = if decide (a = x) then f (hd c x) else hd c x.
Proof.
  intros [h Hh]. unfold hd, updh. cbn [upd heads]. case_decide; subst.
  - by rewrite lookup_alter_eq, Hh.
  - by rewrite lookup_alter_ne.
Qed.

Lemma known_updh a f c x : known (updh a f c) x <-> known c x.
Proof.
  unfold known, updh. cbn [upd heads]. destruct (decide (a = x)) as [->|].
  - rewrite lookup_alter_eq. apply fmap_is_Some.
  - by rewrite lookup_alter_ne.
Qed.

Lemma hash_eq dev block s :
  length (hash_table (bc s)) = 307%nat ->
  hash dev block s = Ok (s, default 0 (arr_get (hash_table (bc s)) (_hashfn dev block))).
Proof.
  intros Hl. unfold hash, mbind, M_bind, get, check.
  destruct (arr_get_is_Some (hash_table (bc s)) (_hashfn dev block)) as [v ->]; [|done].
  rewrite Hl. unfold _hashfn, NR_HASH. pose proof (Z.mod_pos_bound (u32 (Z.lxor dev block)) 307). lia.
Qed.

Definition bucket (k : Z) c : Z := default 0 (arr_get (hash_table c) k).
Definition set_bucket (k v : Z) c : cache := c <| hash_table := <[Z.to_nat k := v]> (hash_table c) |>.

Lemma hashfn_range dev block : 0 ≤ _hashfn dev block < 307.
Proof. apply Z.mod_pos_bound. done. Qed.

Lemma set_hash_eq dev block v s :
  length (hash_table (bc s)) = 307%nat ->
  set_hash dev block v s = Ok (in_cache (set_bucket (_hashfn dev block) v (bc s)) s, tt).
Proof.
  intros Hl. pose proof (hashfn_range dev block). unfold set_hash, mbind, M_bind, get, check.
  rewrite arr_set_Some by lia. done.
Qed.

Lemma bucket_set k v k' c :
  length (hash_table c) = 307%nat -> 0 ≤ k < 307 ->
  bucket k' (set_bucket k v c) = if decide (k = k') then v else bucket k' c.
Proof.
  intros Hl Hk. unfold bucket, set_bucket. cbn [upd hash_table]. rewrite arr_get_insert by lia.
  by case_decide.
Qed.
End views.
