(* ===== verification/Queues.v ===== *)
(** * The queues of the buffer cache

    The invariant of the free ring and of the hash chains, and what
    [remove_from_queues] and [insert_into_queues] do to them. *)
From S2P Require Import Prelude Words Links Buffer.

(** ** The queue invariant *)

(** [r] is the free ring from its head on and [ch k] the chain of bucket [k];
    [all] are the addresses of the buffer heads. *)
Record linked (c : cache) (all r : list Z) (ch : Z -> list Z) : Prop := {
  lk_known : forall a, known c a <-> a ∈ all;
  lk_null : 0 ∉ all;
  lk_sub : forall a, a ∈ r -> a ∈ all;
  lk_ring : ring (nf c) (pf c) r;
  lk_nodup : NoDup r;
  lk_head : list.head r = Some (free_list c);
  lk_table : length (hash_table c) = 307%nat;
  lk_chain : forall k, 0 ≤ k < 307 ->
    chain (nh c) (ph c) 0 (bucket k c) (ch k) /\ NoDup (ch k) /\ forall a, a ∈ ch k -> a ∈ all;
  lk_disj : forall k k' a, 0 ≤ k < 307 -> 0 ≤ k' < 307 -> a ∈ ch k -> a ∈ ch k' -> k = k'
}.

Definition key (c : cache) (b : Z) : Z := _hashfn (b_dev (hd c b)) (b_blocknr (hd c b)).

(** [b] is in the chain of its bucket, or in no chain and without hash links. *)
Definition hashed_or_not (c : cache) (ch : Z -> list Z) (b : Z) : Prop :=
  b ∈ ch (key c b) \/ (nh c b = 0 /\ ph c b = 0 /\ forall k, 0 ≤ k < 307 -> b ∉ ch k).

Lemma ring_members c x l z : path (nf c) (pf c) x l z -> forall a, a ∈ x :: l -> nf c a ∈ l ++ [z] /\ (a <> x -> pf c a ∈ x :: l).
Proof.
  revert x. induction l as [|y l IH]; intros x; cbn [path].
  - intros [H1 H2] a ->%list_elem_of_singleton. rewrite H1. split; [apply elem_of_cons; by left|done].
  - intros (H1 & H2 & H3) a Ha. apply elem_of_cons in Ha as [->|Ha].
    + rewrite H1. split; [apply elem_of_cons; by left|done].
    + destruct (IH y H3 a Ha) as [H4 H5]. split; [apply elem_of_cons; by right|]. intros _.
      destruct (decide (a = y)) as [->|Hay]; [rewrite H2; apply elem_of_cons; by left|].
      apply elem_of_cons. right. by apply H5.
Qed.

Lemma ring_closed c all r ch a : linked c all r ch -> a ∈ r -> nf c a ∈ r /\ pf c a ∈ r.
Proof.
  intros Hl Ha. pose proof (lk_ring _ _ _ _ Hl) as Hr. destruct r as [|x l]; [done|]. cbn [ring] in Hr.
  destruct (ring_members c x l x Hr a Ha) as [H1 H2]. split.
  - apply elem_of_app in H1 as [H1|H1%list_elem_of_singleton]; apply elem_of_cons; auto.
  - destruct (decide (a = x)) as [->|]; [by eapply path_last|by apply H2].
Qed.

(** A bucket points to a member of its chain. *)
Lemma bucket_member c all r ch k : linked c all r ch -> 0 ≤ k < 307 -> bucket k c <> 0 -> bucket k c ∈ ch k.
Proof.
  intros Hl Hk Hb. destruct (lk_chain _ _ _ _ Hl k Hk) as (Hc & _).
  destruct (ch k) as [|a l]; cbn [chain] in Hc; [done|]. destruct Hc as [-> _]. apply elem_of_cons. by left.
Qed.

Section remove.
Variables (c : cache) (all r : list Z) (ch : Z -> list Z) (b : Z).
Hypothesis Hl : linked c all r ch.
Hypothesis Hb : b ∈ r.
Hypothesis Hlen : (2 ≤ length r)%nat.
Hypothesis Hh : hashed_or_not c ch b.

Definition unhash : cache :=
  let c1 := if decide (nh c b <> 0) then updh (nh c b) (fun n => n <| b_prev := ph c b |>) c else c in
  let c2 := if decide (ph c b <> 0) then updh (ph c b) (fun p => p <| b_next := nh c b |>) c1 else c1 in
  if decide (bucket (key c b) c = b) then set_bucket (key c b) (nh c b) c2 else c2.

Definition unfree (c' : cache) : cache :=
  updh (pf c b) (fun p => p <| b_next_free := nf c b |>)
    (updh (nf c b) (fun n => n <| b_prev_free := pf c b |>) c').

Definition removed : cache :=
  let c1 := unfree unhash in
  if decide (free_list c = b) then c1 <| free_list := nf c b |> else c1.

(** In a ring of two or more no element is its own neighbour. *)
Lemma pf_ne : pf c b <> b.
Proof.
  pose proof (lk_ring _ _ _ _ Hl) as Hr. pose proof (lk_nodup _ _ _ _ Hl) as Hnd. clear Hh.
  pose proof Hb as Hbl. apply list_elem_of_split in Hbl as (l1 & l2 & E).
  rewrite E in Hr, Hnd. destruct l1 as [|x l1]; cbn [app ring] in Hr.
  - destruct l2 as [|y l2]; [rewrite E in Hlen; cbn in Hlen; lia|].
    destruct Hr as (_ & _ & Hr). apply path_last in Hr. intros Hpb. rewrite Hpb in Hr.
    by apply list.NoDup_cons in Hnd as [? _].
  - apply path_app in Hr as [Hr _]. apply path_last in Hr. intros Hpb. rewrite Hpb in Hr.
    cbn [app] in Hnd. by apply (NoDup_split (x :: l1)) in Hnd as [? _].
Qed.

(** The hash neighbours of [b] are heads. *)
Lemma hash_links_known : (nh c b <> 0 -> known c (nh c b)) /\ (ph c b <> 0 -> known c (ph c b)).
Proof.
  destruct Hh as [Hin|(-> & -> & _)]; [|done].
  destruct (lk_chain _ _ _ _ Hl (key c b) (hashfn_range _ _)) as (Hc & _ & Hall).
  apply list_elem_of_split in Hin as (l1 & l2 & E). rewrite E in Hc, Hall.
  split; intros Hnz; apply (lk_known _ _ _ _ Hl), Hall.
  - destruct (chain_nx _ _ _ _ _ _ _ Hc) as [[? _]|(y & l & -> & ->)]; [done|].
    apply elem_of_app. right. apply elem_of_cons. right. apply elem_of_cons. by left.
  - destruct (chain_pv _ _ _ _ _ _ _ Hc) as [(_ & ? & _)|[_ ?]]; [done|]. apply elem_of_app. by left.
Qed.

Lemma free_links_known : known c (nf c b) /\ known c (pf c b).
Proof. destruct (ring_closed c all r ch b Hl Hb). split; by apply (lk_known _ _ _ _ Hl), (lk_sub _ _ _ _ Hl). Qed.

Lemma hd_unhash a :
  hd unhash a =
    (fun h => if decide (ph c b <> 0 /\ ph c b = a) then h <| b_next := nh c b |> else h)
    ((fun h => if decide (nh c b <> 0 /\ nh c b = a) then h <| b_prev := ph c b |> else h) (hd c a)).
Proof.
  destruct hash_links_known as [H1 H2]. unfold unhash. cbv zeta.
  set (c1 := if decide (nh c b <> 0) then _ else c).
  assert (forall x, known c1 x <-> known c x) as Hk1.
  { intros x. unfold c1. case_decide; [apply known_updh|done]. }
  assert (hd c1 a = (if decide (nh c b <> 0 /\ nh c b = a) then hd c a <| b_prev := ph c b |> else hd c a)) as E1.
  { unfold c1. destruct (decide (nh c b <> 0)) as [Hn|Hn].
    - rewrite hd_updh by auto. destruct (decide (nh c b = a)); [by rewrite decide_True|by rewrite decide_False by tauto].
    - by rewrite decide_False by tauto. }
  set (c2 := if decide (ph c b <> 0) then _ else c1).
  assert (hd c2 a = (if decide (ph c b <> 0 /\ ph c b = a) then hd c1 a <| b_next := nh c b |> else hd c1 a)) as E2.
  { unfold c2. destruct (decide (ph c b <> 0)) as [Hn|Hn].
    - rewrite hd_updh by (apply Hk1; auto).
      destruct (decide (ph c b = a)); [by rewrite decide_True|by rewrite decide_False by tauto].
    - by rewrite decide_False by tauto. }
  assert (forall v, hd (set_bucket (key c b) v c2) a = hd c2 a) as Hsb by done.
  destruct (decide (bucket (key c b) c = b)); rewrite ?Hsb, E2, E1; done.
Qed.

Lemma known_unhash a : known unhash a <-> known c a.
Proof.
  unfold unhash. cbv zeta.
  assert (forall k v c' x, known (set_bucket k v c') x <-> known c' x) as Hsb by done.
  destruct (decide (bucket (key c b) c = b)), (decide (ph c b <> 0)), (decide (nh c b <> 0));
    rewrite ?Hsb, ?known_updh; done.
Qed.

Lemma hd_removed a :
  hd removed a =
    (fun h => if decide (pf c b = a) then h <| b_next_free := nf c b |> else h)
    ((fun h => if decide (nf c b = a) then h <| b_prev_free := pf c b |> else h) (hd unhash a)).
Proof.
  destruct free_links_known as [H1 H2].
  assert (hd removed a = hd (unfree unhash) a) as ->.
  { unfold removed. cbv zeta. by case_decide. }
  unfold unfree. rewrite hd_updh by (by rewrite known_updh, known_unhash).
  rewrite hd_updh by (by rewrite known_unhash). done.
Qed.

Lemma removed_links a :
  nf removed a = nx_removed (nf c) (pf c) b a /\ pf removed a = pv_removed (nf c) (pf c) b a /\
  (a <> 0 -> nh removed a = nx_removed (nh c) (ph c) b a /\ ph removed a = pv_removed (nh c) (ph c) b a) /\
  payload (hd removed a) = payload (hd c a).
Proof.
  change (nf removed a) with (b_next_free (hd removed a)).
  change (pf removed a) with (b_prev_free (hd removed a)).
  change (nh removed a) with (b_next (hd removed a)).
  change (ph removed a) with (b_prev (hd removed a)).
  rewrite hd_removed, hd_unhash.
  unfold nx_removed, pv_removed.
  split; [|split; [|split; [intros Ha|]]].
  - destruct (decide (pf c b = a)), (decide (a = pf c b)); try congruence; [done|].
    by destruct (decide (nf c b = a)), (decide (ph c b <> 0 /\ ph c b = a)), (decide (nh c b <> 0 /\ nh c b = a)).
  - destruct (decide (nf c b = a)), (decide (a = nf c b)); try congruence; [by destruct (decide (pf c b = a))|].
    by destruct (decide (pf c b = a)), (decide (ph c b <> 0 /\ ph c b = a)), (decide (nh c b <> 0 /\ nh c b = a)).
  - assert (forall h, b_next ((fun h => if decide (pf c b = a) then h <| b_next_free := nf c b |> else h)
      ((fun h => if decide (nf c b = a) then h <| b_prev_free := pf c b |> else h) h)) = b_next h /\
      b_prev ((fun h => if decide (pf c b = a) then h <| b_next_free := nf c b |> else h)
      ((fun h => if decide (nf c b = a) then h <| b_prev_free := pf c b |> else h) h)) = b_prev h) as Hf.
    { intros h. by destruct (decide (pf c b = a)), (decide (nf c b = a)). }
    destruct (Hf ((fun h => if decide (ph c b <> 0 /\ ph c b = a) then h <| b_next := nh c b |> else h)
      ((fun h => if decide (nh c b <> 0 /\ nh c b = a) then h <| b_prev := ph c b |> else h) (hd c a)))) as [E1 E2].
    rewrite E1, E2. split.
    + destruct (decide (a = ph c b)) as [E|E].
      * rewrite decide_True by (split; congruence). done.
      * rewrite decide_False by (intros [_ ?]; congruence). by destruct (decide (nh c b <> 0 /\ nh c b = a)).
    + destruct (decide (a = nh c b)) as [E|E].
      * rewrite (decide_True (P := nh c b <> 0 /\ nh c b = a)) by (split; congruence).
        by destruct (decide (ph c b <> 0 /\ ph c b = a)).
      * rewrite (decide_False (P := nh c b <> 0 /\ nh c b = a)) by (intros [_ ?]; congruence).
        by destruct (decide (ph c b <> 0 /\ ph c b = a)).
  - by destruct (decide (pf c b = a)), (decide (nf c b = a)), (decide (ph c b <> 0 /\ ph c b = a)),
      (decide (nh c b <> 0 /\ nh c b = a)).
Qed.

Lemma bucket_removed k :
  bucket k removed = if decide (key c b = k /\ bucket (key c b) c = b) then nh c b else bucket k c.
Proof.
  assert (bucket k removed = bucket k unhash) as ->.
  { unfold removed, unfree. cbv zeta. by case_decide. }
  assert (forall k', bucket k' (if decide (ph c b <> 0) then updh (ph c b) (fun p => p <| b_next := nh c b |>)
       (if decide (nh c b <> 0) then updh (nh c b) (fun n => n <| b_prev := ph c b |>) c else c)
     else (if decide (nh c b <> 0) then updh (nh c b) (fun n => n <| b_prev := ph c b |>) c else c)) = bucket k' c) as Hk.
  { intros k'. by destruct (decide (ph c b <> 0)), (decide (nh c b <> 0)). }
  unfold unhash. cbv zeta. destruct (decide (bucket (key c b) c = b)) as [Hbk|Hbk].
  - rewrite bucket_set; [|by destruct (decide (ph c b <> 0)), (decide (nh c b <> 0)); apply Hl|apply hashfn_range].
    destruct (decide (key c b = k)); [by rewrite decide_True|]. rewrite Hk. by rewrite decide_False by tauto.
  - rewrite Hk. by rewrite decide_False by tauto.
Qed.

Lemma known_removed a : known removed a <-> known c a.
Proof.
  assert (known removed a <-> known (unfree unhash) a) as ->.
  { unfold removed. cbv zeta. by case_decide. }
  unfold unfree. by rewrite !known_updh, known_unhash.
Qed.

Lemma without_nonempty : exists x l, without b r = x :: l.
Proof.
  pose proof (lk_nodup _ _ _ _ Hl) as Hnd. pose proof Hb as Hb'.
  apply list_elem_of_split in Hb' as (l1 & l2 & E). rewrite E in Hnd.
  destruct (NoDup_split _ _ _ Hnd). rewrite E, without_split by done.
  destruct l1 as [|x l1]; [|by eexists _, _]. destruct l2 as [|y l2]; [|by eexists _, _].
  rewrite E in Hlen. cbn in Hlen. lia.
Qed.

Lemma free_unhash : free_list unhash = free_list c.
Proof.
  unfold unhash. cbv zeta.
  by destruct (decide (bucket (key c b) c = b)), (decide (ph c b <> 0)), (decide (nh c b <> 0)).
Qed.

Lemma head_removed : list.head (without b r) = Some (free_list removed).
Proof.
  pose proof (lk_nodup _ _ _ _ Hl) as Hnd. pose proof (lk_head _ _ _ _ Hl) as Hhd.
  pose proof (lk_ring _ _ _ _ Hl) as Hr. pose proof Hb as Hb'. pose proof Hlen as Hlen'.
  apply list_elem_of_split in Hb' as (l1 & l2 & E). rewrite E in Hnd, Hhd, Hr, Hlen'.
  destruct (NoDup_split _ _ _ Hnd). rewrite E, without_split by done. unfold removed. cbv zeta.
  destruct l1 as [|x l1]; cbn [app list.head] in *; injection Hhd as Hhd; rewrite <-Hhd.
  - rewrite decide_True by done. cbn [upd free_list]. destruct l2 as [|y l2]; [cbn in Hlen'; lia|].
    cbn [ring path] in Hr. cbn [list.head]. by destruct Hr as [-> _].
  - rewrite (decide_False (P := x = b)) by set_solver.
    change (free_list (unfree unhash)) with (free_list unhash). by rewrite free_unhash, Hhd.
Qed.

Lemma bucket_in_chain k : 0 ≤ k < 307 -> bucket k c = b -> b ∈ ch k.
Proof.
  intros Hk E. destruct (lk_chain _ _ _ _ Hl k Hk) as (Hc & _). rewrite E in Hc.
  destruct (ch k) as [|a l]; cbn [chain] in Hc.
  - exfalso. apply (lk_null _ _ _ _ Hl). rewrite <-Hc. by apply (lk_sub _ _ _ _ Hl).
  - destruct Hc as [<- _]. apply elem_of_cons. by left.
Qed.

Lemma chain_removed k : 0 ≤ k < 307 ->
  chain (nh removed) (ph removed) 0 (bucket k removed) (without b (ch k)).
Proof.
  intros Hk. destruct (lk_chain _ _ _ _ Hl k Hk) as (Hc & Hnd & Hall).
  pose proof (chain_nonnull _ _ _ _ _ Hc) as Hnn. rewrite bucket_removed.
  assert (forall a, a ∈ without b (ch k) -> nh removed a = nx_removed (nh c) (ph c) b a /\
    ph removed a = pv_removed (nh c) (ph c) b a) as Hu.
  { intros a [_ Ha]%without_spec. apply removed_links. by intros ->. }
  destruct (decide (b ∈ ch k)) as [Hin|Hin].
  - assert (key c b = k) as Ek.
    { destruct Hh as [Hin'|(_ & _ & Hno)]; [|by destruct (Hno k)].
      exact (lk_disj _ _ _ _ Hl (key c b) k b (hashfn_range _ _) Hk Hin' Hin). }
    apply list_elem_of_split in Hin as (l1 & l2 & E). rewrite E in *.
    destruct (NoDup_split _ _ _ Hnd) as [H1 H2]. rewrite without_split in * by done.
    assert ((if decide (key c b = k /\ bucket (key c b) c = b) then nh c b else bucket k c) =
      if decide (bucket k c = b) then nh c b else bucket k c) as ->.
    { rewrite Ek. destruct (decide (bucket k c = b)); [by rewrite decide_True|by rewrite decide_False by tauto]. }
    by eapply chain_remove.
  - rewrite without_notin in * by done. rewrite decide_False.
    2: { intros [Ek Eb]. rewrite Ek in Eb. by apply Hin, bucket_in_chain. }
    eapply chain_ext; [exact Hc|]. intros a Ha. destruct (Hu a Ha) as [-> ->].
    unfold nx_removed, pv_removed.
    assert (a <> ph c b /\ a <> nh c b) as [Hp Hn].
    { destruct Hh as [Hin'|(-> & -> & _)]; [|split; intros ->; done].
      destruct (lk_chain _ _ _ _ Hl (key c b) (hashfn_range _ _)) as (Hc' & _).
      assert (forall x, x ∈ ch (key c b) -> a <> x) as Hne.
      { intros x Hx ->. apply Hin.
        by rewrite (lk_disj _ _ _ _ Hl k (key c b) x Hk (hashfn_range _ _) Ha Hx). }
      apply list_elem_of_split in Hin' as (l1 & l2 & E). rewrite E in Hc', Hne. split.
      - destruct (chain_pv _ _ _ _ _ _ _ Hc') as [(_ & -> & _)|[_ Hx]]; [by intros ->|].
        apply Hne, elem_of_app. by left.
      - destruct (chain_nx _ _ _ _ _ _ _ Hc') as [[-> _]|(y & l & -> & ->)]; [by intros ->|].
        apply Hne, elem_of_app. right. apply elem_of_cons. right. apply elem_of_cons. by left. }
    by rewrite !decide_False.
Qed.

Lemma linked_removed : linked removed all (without b r) (fun k => without b (ch k)).
Proof.
  split.
  - intros a. rewrite known_removed. apply Hl.
  - apply Hl.
  - intros a [_ Ha]%without_spec. by apply (lk_sub _ _ _ _ Hl).
  - pose proof (ring_remove _ _ r b (lk_ring _ _ _ _ Hl) (lk_nodup _ _ _ _ Hl) Hb Hlen) as Hr.
    destruct without_nonempty as (x & l & E). rewrite E in *. cbn [ring] in *.
    eapply path_ext; [exact Hr| |]; intros a _; apply removed_links.
  - apply list.NoDup_filter, Hl.
  - exact head_removed.
  - unfold removed, unfree, unhash. cbv zeta. pose proof (lk_table _ _ _ _ Hl) as Ht.
    destruct (decide (bucket (key c b) c = b)), (decide (ph c b <> 0)), (decide (nh c b <> 0)),
      (decide (free_list c = b)); cbn -[Z.to_nat key]; rewrite ?length_insert; done.
  - intros k Hk. destruct (lk_chain _ _ _ _ Hl k Hk) as (_ & Hnd & Hall).
    split; [by apply chain_removed|]. split; [by apply list.NoDup_filter|].
    intros a [_ Ha]%without_spec. by apply Hall.
  - intros k k' a Hk Hk' [_ Ha]%without_spec [_ Ha']%without_spec.
    exact (lk_disj _ _ _ _ Hl k k' a Hk Hk' Ha Ha').
Qed.
End remove.

Lemma when_eq {S} (P : Prop) `{Decision P} (m : M S unit) s s' :
  (P -> m s = Ok (s', tt)) -> when (bool_decide P) m s = Ok (if decide P then s' else s, tt).
Proof.
  intros Hm. unfold when. destruct (decide P) as [HP|HP].
  - rewrite bool_decide_true by done. by apply Hm.
  - by rewrite bool_decide_false.
Qed.

Lemma in_cache_if (P : Prop) `{Decision P} c1 c2 s :
  (if decide P then in_cache c1 s else in_cache c2 s) = in_cache (if decide P then c1 else c2) s.
Proof. by case_decide. Qed.

Lemma remove_eq c s all r ch b :
  linked c all r ch -> b ∈ r -> (2 ≤ length r)%nat -> hashed_or_not c ch b ->
  remove_from_queues b (in_cache c s) = Ok (in_cache (removed c b) s, tt).
Proof.
  intros Hl Hb Hlen Hh.
  assert (known c b) as Hkb by (apply (lk_known _ _ _ _ Hl), (lk_sub _ _ _ _ Hl); done).
  destruct (hash_links_known c all r ch b Hl Hh) as [Hkn Hkp].
  destruct (free_links_known c all r ch b Hl Hb) as [Hkn' Hkp'].
  unfold remove_from_queues. rewrite (bind_ok _ _ _ _ _ (head_eq b (in_cache c s) Hkb)).
  change (bc (in_cache c s)) with c.
  change (b_next (hd c b)) with (nh c b). change (b_prev (hd c b)) with (ph c b).
  change (b_prev_free (hd c b)) with (pf c b). change (b_next_free (hd c b)) with (nf c b).
  set (c1 := if decide (nh c b <> 0) then updh (nh c b) (fun n => n <| b_prev := ph c b |>) c else c).
  rewrite (bind_ok _ _ _ (in_cache c1 s) tt).
  2: { unfold c1. rewrite <-in_cache_if. apply when_eq. intros Hn.
       by rewrite set_bh_eq by (by apply Hkn). }
  assert (forall x, known c1 x <-> known c x) as Hk1.
  { intros x. unfold c1. case_decide; [apply known_updh|done]. }
  set (c2 := if decide (ph c b <> 0) then updh (ph c b) (fun p => p <| b_next := nh c b |>) c1 else c1).
  rewrite (bind_ok _ _ _ (in_cache c2 s) tt).
  2: { unfold c2. rewrite <-in_cache_if. apply when_eq. intros Hn.
       by rewrite set_bh_eq by (by apply Hk1, Hkp). }
  assert (hash_table c2 = hash_table c) as Ht2.
  { unfold c2, c1. by destruct (decide (ph c b <> 0)), (decide (nh c b <> 0)). }
  assert (length (hash_table c2) = 307%nat) as Hl2 by (rewrite Ht2; apply Hl).
  rewrite (bind_ok _ _ _ (in_cache c2 s) (bucket (key c b) c)).
  2: { rewrite hash_eq by done. unfold bucket, key. change (bc (in_cache c2 s)) with c2. by rewrite Ht2. }
  rewrite (bind_ok _ _ _ (in_cache (unhash c b) s) tt).
  2: { unfold unhash. cbv zeta. fold c1. fold c2. rewrite <-in_cache_if. apply when_eq. intros Hn.
       rewrite set_hash_eq by done. done. }
  assert (pf c b ∈ all) as Hpin by by apply (lk_known _ _ _ _ Hl).
  rewrite decide_False by (intros [E|E]; rewrite E in Hpin; by apply (lk_null _ _ _ _ Hl)).
  erewrite bind_ok by (apply set_bh_eq; by apply known_unhash).
  erewrite bind_ok by (apply set_bh_eq; by apply known_updh, known_unhash).
  change (in_cache _ (in_cache _ _)) with (in_cache (unfree c b (unhash c b)) s).
  rewrite (bind_ok _ _ _ (in_cache (unfree c b (unhash c b)) s) (in_cache (unfree c b (unhash c b)) s)) by done.
  change (free_list (bc (in_cache (unfree c b (unhash c b)) s))) with (free_list (unhash c b)).
  rewrite free_unhash. unfold removed. cbv zeta. rewrite <-in_cache_if. apply when_eq. intros Hfl.
  erewrite bind_ok.
  2: { apply head_eq. unfold unfree. change (bc (in_cache ?c s)) with c.
       by apply known_updh, known_updh, known_unhash. }
  change (bc (in_cache ?c s)) with c.
  assert (b_next_free (hd (unfree c b (unhash c b)) b) = nf c b) as E.
  { destruct (removed_links c all r ch b Hl Hb Hh b) as [E _].
    unfold nx_removed in E. rewrite (decide_False (P := b = pf c b)) in E by (apply not_eq_sym; by eapply pf_ne).
    rewrite <-E. unfold nf at 1, removed. cbv zeta. by rewrite decide_True. }
  unfold modify. change (bc (in_cache ?c s)) with c. by rewrite E.
Qed.

(** ** Insertion *)

Section insert.
Variables (c : cache) (all r : list Z) (ch : Z -> list Z) (b : Z).
Hypothesis Hl : linked c all r ch.
Hypothesis Hb : b ∈ all.
Hypothesis Hbr : b ∉ r.
Hypothesis Hbc : forall k, 0 ≤ k < 307 -> b ∉ ch k.

Let fl : Z := free_list c.
Let last : Z := pf c fl.
Let first : Z := bucket (key c b) c.

Definition refreed : cache :=
  updh (free_list c) (fun h => h <| b_prev_free := b |>)
    (updh (pf c (free_list c)) (fun h => h <| b_next_free := b |>)
      (updh b (fun h => h <| b_next_free := free_list c |>)
        (updh b (fun h => h <| b_prev_free := pf c (free_list c) |>) c))).

Definition relinked : cache := updh b (fun h => h <| b_prev := 0 |> <| b_next := 0 |>) refreed.

Definition inserted : cache :=
  if decide (b_dev (hd c b) = 0) then relinked else
  let c1 := updh b (fun h => h <| b_next := bucket (key c b) c |>) (set_bucket (key c b) b relinked) in
  if decide (bucket (key c b) c <> 0) then updh (bucket (key c b) c) (fun h => h <| b_prev := b |>) c1 else c1.

Definition chains' (k : Z) : list Z :=
  if decide (b_dev (hd c b) <> 0 /\ k = key c b) then b :: ch k else ch k.

Lemma fl_in_ring : exists l, r = fl :: l.
Proof.
  pose proof (lk_head _ _ _ _ Hl) as H. destruct r as [|x l]; [done|]. injection H as ->. by eexists.
Qed.

Lemma ends_known : known c b /\ known c fl /\ known c last /\ fl <> b /\ last <> b.
Proof.
  destruct fl_in_ring as [l E]. assert (fl ∈ r) as Hf by (rewrite E; apply elem_of_cons; by left).
  destruct (ring_closed c all r ch fl Hl Hf) as [_ Hla].
  assert (forall x, x ∈ all -> known c x) as Hk by (intros; by apply (lk_known _ _ _ _ Hl)).
  split; [by apply Hk|]. split; [by apply Hk, (lk_sub _ _ _ _ Hl)|].
  split; [by apply Hk, (lk_sub _ _ _ _ Hl)|]. split; intros E'; apply Hbr; rewrite <-E'; done.
Qed.

Lemma first_known : first <> 0 -> known c first /\ first <> b.
Proof.
  intros Hf. destruct (lk_chain _ _ _ _ Hl (key c b) (hashfn_range _ _)) as (Hc & _ & Hall).
  pose proof (Hbc (key c b) (hashfn_range _ _)) as Hn. fold first in Hc.
  destruct (ch (key c b)) as [|x l]; cbn [chain] in Hc; [done|]. destruct Hc as [E _]. rewrite E.
  split; [apply (lk_known _ _ _ _ Hl), Hall; apply elem_of_cons; by left|set_solver].
Qed.

Lemma hd_relinked a :
  nf relinked a = (if decide (a = last) then b else if decide (a = b) then fl else nf c a) /\
  pf relinked a = (if decide (a = fl) then b else if decide (a = b) then last else pf c a) /\
  nh relinked a = (if decide (a = b) then 0 else nh c a) /\
  ph relinked a = (if decide (a = b) then 0 else ph c a) /\
  payload (hd relinked a) = payload (hd c a).
Proof.
  destruct ends_known as (K1 & K2 & K3 & N1 & N2). unfold nf, pf, nh, ph, relinked, refreed.
  fold fl. fold (pf c fl). fold last.
  rewrite !hd_updh by (rewrite ?known_updh; done).
  destruct (decide (a = b)) as [->|Hab].
  - rewrite !(decide_True (P := b = b)), !(decide_False (P := fl = b)), !(decide_False (P := last = b)),
      (decide_False (P := b = fl)), (decide_False (P := b = last)) by (done || by apply not_eq_sym). done.
  - rewrite !(decide_False (P := b = a)) by by apply not_eq_sym.
    destruct (decide (a = last)), (decide (last = a)); try congruence;
      destruct (decide (fl = a)), (decide (a = fl)); congruence || done.
Qed.

Lemma known_relinked a : known relinked a <-> known c a.
Proof. unfold relinked, refreed. by rewrite !known_updh. Qed.

Lemma inserted_links a :
  nf inserted a = (if decide (a = last) then b else if decide (a = b) then fl else nf c a) /\
  pf inserted a = (if decide (a = fl) then b else if decide (a = b) then last else pf c a) /\
  nh inserted a = (if decide (a = b) then if decide (b_dev (hd c b) <> 0) then first else 0 else nh c a) /\
  ph inserted a = (if decide (a = b) then 0 else
    if decide (b_dev (hd c b) <> 0 /\ first <> 0 /\ a = first) then b else ph c a) /\
  payload (hd inserted a) = payload (hd c a).
Proof.
  destruct ends_known as (K1 & _). pose proof first_known as F. fold first in F.
  destruct (hd_relinked a) as (E1 & E2 & E3 & E4 & E5).
  rewrite <-E1, <-E2, <-E5. unfold inserted. cbv zeta. fold first.
  destruct (decide (b_dev (hd c b) = 0)) as [D|D].
  - rewrite (decide_False (P := b_dev (hd c b) <> 0)) by auto.
    rewrite (decide_False (P := b_dev (hd c b) <> 0 /\ first <> 0 /\ a = first)) by tauto. done.
  - rewrite (decide_True (P := b_dev (hd c b) <> 0)) by auto.
    set (c1 := updh b _ _).
    assert (forall x, hd c1 x = if decide (b = x) then hd relinked x <| b_next := first |> else hd relinked x) as Hc1.
    { intros x. unfold c1. rewrite hd_updh by (by apply known_relinked). done. }
    assert (hd (if decide (first <> 0) then updh first (fun h => h <| b_prev := b |>) c1 else c1) a =
      if decide (first <> 0 /\ a = first) then hd c1 a <| b_prev := b |> else hd c1 a) as Ha.
    { destruct (decide (first <> 0)) as [Hf|Hf]; [|by rewrite decide_False by tauto].
      rewrite hd_updh. 2: { unfold c1. apply known_updh. change (known relinked first).
        apply known_relinked. by apply F. }
      destruct (decide (first = a)) as [->|]; [by rewrite decide_True|by rewrite decide_False by (intros [_ ->]; done)]. }
    unfold nf, pf, nh, ph in *. rewrite Ha, Hc1.
    destruct (decide (first <> 0 /\ a = first)) as [[Hf ->]|Hf].
    + destruct (F Hf) as [_ Hne]. rewrite (decide_False (P := b = first)), (decide_False (P := first = b)) in * by auto.
      rewrite !decide_False, decide_True by auto. done.
    + rewrite (decide_False (P := b_dev (hd c b) <> 0 /\ first <> 0 /\ a = first)) by tauto.
      destruct (decide (b = a)), (decide (a = b)); try congruence; done.
Qed.

Lemma known_inserted a : known inserted a <-> known c a.
Proof.
  unfold inserted. cbv zeta. rewrite <-known_relinked.
  destruct (decide (b_dev (hd c b) = 0)); [done|]. by case_decide; rewrite !known_updh.
Qed.

Lemma bucket_inserted k : 0 ≤ k < 307 ->
  bucket k inserted = if decide (b_dev (hd c b) <> 0 /\ k = key c b) then b else bucket k c.
Proof.
  intros Hk. unfold inserted. cbv zeta. destruct (decide (b_dev (hd c b) = 0)) as [D|D].
  { by rewrite decide_False by tauto. }
  assert (bucket k (set_bucket (key c b) b relinked) =
    if decide (b_dev (hd c b) <> 0 /\ k = key c b) then b else bucket k c) as <-.
  { rewrite bucket_set; [|apply Hl|apply hashfn_range].
    destruct (decide (key c b = k)) as [->|]; [by rewrite decide_True|by rewrite decide_False by (intros [_ ->]; done)]. }
  by case_decide.
Qed.

(** The bucket lists stay chains, and stay disjoint. *)
Lemma chain_inserted k : 0 ≤ k < 307 ->
  chain (nh inserted) (ph inserted) 0 (bucket k inserted) (chains' k) /\ NoDup (chains' k) /\
  forall a, a ∈ chains' k -> a ∈ all.
Proof.
  intros Hk. destruct (lk_chain _ _ _ _ Hl k Hk) as (Hc & Hnd & Hall). rewrite bucket_inserted by done.
  pose proof (Hbc k Hk) as Hbk. unfold chains'.
  assert (forall prev first' l', chain (nh c) (ph c) prev first' l' -> b ∉ l' -> first ∉ l' \/ ~ b_dev (hd c b) <> 0 ->
    chain (nh inserted) (ph inserted) prev first' l') as Hext.
  { intros prev first' l' Hc' Hbl Hfl. eapply chain_ext; [exact Hc'|]. intros a Ha.
    destruct (inserted_links a) as (_ & _ & -> & -> & _).
    rewrite !(decide_False (P := a = b)) by (intros ->; done).
    rewrite decide_False; [done|]. intros (D & _ & ->). by destruct Hfl. }
  destruct (decide (b_dev (hd c b) <> 0 /\ k = key c b)) as [[D ->]|Hno].
  + split; [|split; [by apply list.NoDup_cons|]].
    2: { intros a [->|Ha]%elem_of_cons; [done|by apply Hall]. }
    cbn [chain]. destruct (inserted_links b) as (_ & _ & -> & -> & _).
    rewrite !(decide_True (P := b = b)), (decide_True (P := b_dev (hd c b) <> 0)) by done.
    split; [done|]. split; [intros ->; by apply (lk_null _ _ _ _ Hl)|]. split; [done|].
    fold first in Hc |- *. destruct (ch (key c b)) as [|x l'] eqn:Ex; [done|].
    cbn [chain] in Hc |- *. destruct Hc as (Ef & Hx & _ & Hc). rewrite Ef. split; [done|]. split; [done|].
    apply list.NoDup_cons in Hnd as [Hxl Hnd].
    assert (x <> b) as Hxb by set_solver.
    destruct (inserted_links x) as (_ & _ & -> & -> & _). rewrite !(decide_False (P := x = b)) by done.
    rewrite decide_True by (split; [done|split; congruence]). split; [done|].
    apply Hext; [done|set_solver|left; by rewrite Ef].
  + split; [|done]. apply Hext; [done|done|].
    destruct (decide (b_dev (hd c b) <> 0)) as [D|D]; [left|by right]. intros Hfk.
    destruct (lk_chain _ _ _ _ Hl (key c b) (hashfn_range _ _)) as (Hc' & _ & _).
    fold first in Hc'. destruct (ch (key c b)) as [|x l'] eqn:Ex; cbn [chain] in Hc'.
    * apply (lk_null _ _ _ _ Hl), Hall. by rewrite <-Hc'.
    * apply Hno. split; [done|]. destruct Hc' as [Ef _].
      apply (lk_disj _ _ _ _ Hl k (key c b) first Hk (hashfn_range _ _) Hfk).
      rewrite Ex, Ef. apply elem_of_cons. by left.
Qed.

Lemma disjoint_inserted k k' a : 0 ≤ k < 307 -> 0 ≤ k' < 307 -> a ∈ chains' k -> a ∈ chains' k' -> k = k'.
Proof.
  intros Hk Hk'. unfold chains'.
  assert (forall q, 0 ≤ q < 307 -> a ∈ (if decide (b_dev (hd c b) <> 0 /\ q = key c b) then b :: ch q else ch q) ->
    a = b /\ q = key c b \/ a <> b /\ a ∈ ch q) as Hq.
  { intros q Hq. case_decide as D.
    - intros [->|Ha]%elem_of_cons; [left; tauto|right]. split; [intros ->; by eapply Hbc|done].
    - intros Ha. right. split; [intros ->; by eapply Hbc|done]. }
  intros [[-> ->]|[Ha1 Ha]]%(Hq k Hk) [[E' ->]|[Ha2 Ha']]%(Hq k' Hk'); try done.
  exact (lk_disj _ _ _ _ Hl k k' a Hk Hk' Ha Ha').
Qed.

Lemma linked_inserted : linked inserted all (r ++ [b]) chains'.
Proof.
  destruct fl_in_ring as [l E]. destruct ends_known as (_ & _ & _ & N1 & N2).
  split.
  - intros a. rewrite known_inserted. apply Hl.
  - apply Hl.
  - intros a [Ha|Ha%list_elem_of_singleton]%elem_of_app; [by apply (lk_sub _ _ _ _ Hl)|by subst].
  - rewrite E. pose proof (lk_ring _ _ _ _ Hl) as Hr. pose proof (lk_nodup _ _ _ _ Hl) as Hnd.
    pose proof Hbr as Hn. rewrite E in Hr, Hnd, Hn.
    apply (ring_append _ _ _ _ _ _ _ Hr Hnd Hn); intros a; apply inserted_links.
  - apply list.NoDup_app. split; [apply Hl|]. split; [|apply NoDup_singleton].
    intros a Ha Hab%list_elem_of_singleton. by subst.
  - rewrite E. cbn [app list.head]. unfold inserted. cbv zeta.
    by destruct (decide (b_dev (hd c b) = 0)), (decide (bucket (key c b) c <> 0)).
  - unfold inserted. cbv zeta. pose proof (lk_table _ _ _ _ Hl) as Ht.
    destruct (decide (b_dev (hd c b) = 0)), (decide (bucket (key c b) c <> 0)); cbn -[Z.to_nat key];
      rewrite ?length_insert; done.
  - exact chain_inserted.
  - exact disjoint_inserted.
Qed.
End insert.

Lemma known_in_cache c s a : known (bc (in_cache c s)) a <-> known c a.
Proof. done. Qed.

Lemma insert_eq c s all r ch b :
  linked c all r ch -> b ∈ all -> b ∉ r -> (forall k, 0 ≤ k < 307 -> b ∉ ch k) ->
  insert_into_queues b (in_cache c s) = Ok (in_cache (inserted c b) s, tt).
Proof.
  intros Hl Hb Hbr Hbc.
  destruct (ends_known c all r ch b Hl Hb Hbr) as (K1 & K2 & K3 & N1 & N2).
  pose proof (first_known c all r ch b Hl Hb Hbr Hbc) as F.
  destruct (hd_relinked c all r ch b Hl Hb Hbr b) as (_ & _ & _ & _ & Ep).
  unfold insert_into_queues. rewrite (bind_ok get _ _ (in_cache c s) (in_cache c s)) by done. cbv zeta.
  change (bc (in_cache c s)) with c.
  rewrite (bind_ok _ _ _ _ _ (head_eq (free_list c) (in_cache c s) K2)).
  change (b_prev_free (hd c (free_list c))) with (pf c (free_list c)).
  do 5 (erewrite bind_ok by (apply set_bh_eq; repeat (rewrite known_updh || rewrite known_in_cache); done)).
  rewrite (bind_ok _ _ _ (in_cache (relinked c b) s) (hd (relinked c b) b))
    by (apply (head_eq b (in_cache (relinked c b) s)); by apply known_relinked).
  change (bc (in_cache (relinked c b) s)) with (relinked c b).
  injection Ep as _ Eblk Edev _ _ _ _ _. rewrite Edev, Eblk. unfold inserted.
  destruct (decide (b_dev (hd c b) = 0)) as [D|D]; [done|]. cbv zeta.
  assert (length (hash_table (relinked c b)) = 307%nat) as Ht by apply Hl.
  rewrite (bind_ok _ _ _ _ _ (hash_eq _ _ (in_cache (relinked c b) s) Ht)).
  rewrite (bind_ok _ _ _ _ _ (set_hash_eq _ _ b (in_cache (relinked c b) s) Ht)).
  fold (bucket (key c b) c). change (default 0 _) with (bucket (key c b) c).
  erewrite bind_ok by (apply set_bh_eq; by apply known_relinked).
  change (in_cache _ (in_cache _ _)) with
    (in_cache (updh b (fun h => h <| b_next := bucket (key c b) c |>) (set_bucket (key c b) b (relinked c b))) s).
  rewrite <-in_cache_if. apply when_eq. intros Hf.
  rewrite set_bh_eq; [done|]. apply known_updh. change (known (relinked c b) (bucket (key c b) c)).
  apply known_relinked. by apply F.
Qed.

(** ** What the two operations promise *)

(** Taking a buffer out of the queues and putting it back moves it to the
    end of the free ring and to the front of the chain of its block, keeps all
    other buffers in order, and changes nothing but links. *)
Theorem requeue_correct c s all r ch b :
  linked c all r ch -> b ∈ r -> (2 ≤ length r)%nat -> hashed_or_not c ch b ->
  exists c1 c2, remove_from_queues b (in_cache c s) = Ok (in_cache c1 s, tt) /\
    linked c1 all (without b r) (fun k => without b (ch k)) /\
    insert_into_queues b (in_cache c1 s) = Ok (in_cache c2 s, tt) /\
    linked c2 all (without b r ++ [b]) (fun k =>
      if decide (b_dev (hd c b) <> 0 /\ k = key c b) then b :: without b (ch k) else without b (ch k)) /\
    (forall a, payload (hd c2 a) = payload (hd c a)).
Proof.
  intros Hl Hb Hlen Hh. exists (removed c b), (inserted (removed c b) b).
  pose proof (linked_removed c all r ch b Hl Hb Hlen Hh) as H1.
  assert (b ∈ all) as Hba by by apply (lk_sub _ _ _ _ Hl).
  assert (forall l, b ∉ without b l) as Hno by (intros l [? _]%without_spec; done).
  destruct (removed_links c all r ch b Hl Hb Hh b) as (_ & _ & _ & E). injection E as _ E1 E2 _ _ _ _ _.
  split; [by eapply remove_eq|]. split; [done|]. split; [exact (insert_eq _ s _ _ _ b H1 Hba (Hno r) (fun k _ => Hno (ch k)))|]. split.
  - pose proof (linked_inserted _ _ _ _ b H1 Hba (Hno r) (fun k _ => Hno (ch k))) as H2.
    unfold chains', key in H2. rewrite E1, E2 in H2. exact H2.
  - intros a. destruct (inserted_links _ _ _ _ b H1 Hba (Hno r) (fun k _ => Hno (ch k)) a) as (_ & _ & _ & _ & ->).
    by apply (removed_links c all r ch b Hl Hb Hh a).
Qed.

(** Two heads in a ring, none hashed. *)
Definition two_heads : cache := Cache
  (<[36 := no_head <| b_next_free := 72 |> <| b_prev_free := 72 |>]>
    {[72 := no_head <| b_next_free := 36 |> <| b_prev_free := 36 |>]}) 36 (replicate 307 0) 2.

Lemma two_linked : linked two_heads [36; 72] [36; 72] (fun _ => []).
Proof.
  split; try done.
  - intros a. unfold known. cbn [heads two_heads]. rewrite lookup_insert_is_Some, lookup_singleton_is_Some, elem_of_cons, list_elem_of_singleton.
    destruct (decide (a = 36)), (decide (a = 72)); naive_solver.
  - set_solver.
  - apply list.NoDup_cons. split; [set_solver|apply NoDup_singleton].
  - intros k Hk. split; [|split; [constructor|by intros a ?%elem_of_nil]]. cbn [chain]. unfold bucket.
    cbn [hash_table two_heads]. unfold arr_get. rewrite decide_True by lia. by rewrite lookup_replicate_2 by lia.
  - by intros k k' a _ _ ?%elem_of_nil.
Qed.

Lemma requeue_correct_witness :
  exists c1 c2, remove_from_queues 36 (in_cache two_heads (Bsys two_heads [] true)) = Ok (in_cache c1 (Bsys two_heads [] true), tt) /\
    linked c1 [36; 72] (without 36 [36; 72]) (fun k => without 36 []) /\
    insert_into_queues 36 (in_cache c1 (Bsys two_heads [] true)) = Ok (in_cache c2 (Bsys two_heads [] true), tt) /\
    linked c2 [36; 72] (without 36 [36; 72] ++ [36]) (fun k =>
      if decide (b_dev (hd two_heads 36) <> 0 /\ k = key two_heads 36) then 36 :: without 36 [] else without 36 []) /\
    (forall a, payload (hd c2 a) = payload (hd two_heads a)).
Proof.
  apply (requeue_correct two_heads _ [36; 72] [36; 72] (fun _ => []) 36 two_linked); [set_solver|cbn; lia|].
  right. split; [done|]. split; [done|]. intros k _ ?%elem_of_nil. done.
Defined.

(** The corruption test of [remove_from_queues] looks at the previous
    element twice and never at the next one: with a [NULL] next element the
    panic is missed and the null pointer written through. *)
Theorem remove_next_unchecked c s b :
  known c b -> ~ known c 0 -> length (hash_table c) = 307%nat -> nh c b = 0 -> ph c b = 0 ->
  pf c b <> 0 -> nf c b = 0 -> remove_from_queues b (in_cache c s) = Err (Wild "buffer_head").
Proof.
  intros Hk H0 Ht Hn Hp Hpf Hnf. unfold remove_from_queues.
  rewrite (bind_ok _ _ _ _ _ (head_eq b (in_cache c s) Hk)). change (bc (in_cache c s)) with c.
  unfold nh, ph, pf, nf in *. rewrite Hn, Hp, Hnf.
  rewrite (bind_ok _ _ _ (in_cache c s) tt) by done. rewrite (bind_ok _ _ _ (in_cache c s) tt) by done.
  rewrite (bind_ok _ _ _ _ _ (hash_eq _ _ (in_cache c s) Ht)).
  set (first := default 0 _).
  assert (exists s', when (bool_decide (first = b)) (set_hash (b_dev (hd c b)) (b_blocknr (hd c b)) 0) (in_cache c s) =
    Ok (s', tt) /\ heads (bc s') = heads c) as (s' & E & Eh).
  { unfold when. case_bool_decide; [|by eexists]. rewrite set_hash_eq by done. by eexists. }
  rewrite (bind_ok _ _ _ _ _ E). rewrite decide_False by tauto. apply bind_err. unfold set_bh. apply bind_err.
  unfold head, mbind, M_bind, get, check. rewrite Eh. destruct (heads c !! 0) eqn:E0; [|done].
  by destruct H0; eexists.
Qed.

Definition broken_next : cache := two_heads <| heads := alter (fun h => h <| b_next_free := 0 |>) 36 (heads two_heads) |>.

Lemma remove_next_unchecked_witness :
  remove_from_queues 36 (in_cache broken_next (Bsys two_heads [] true)) = Err (Wild "buffer_head").
Proof.
  apply remove_next_unchecked; try done.
  - by eexists.
  - intros [h Hh]. by vm_compute in Hh.
Defined.
