(* ===== verification/Getblk.v ===== *)
(** * Looking up and claiming buffers

    The invariant of the whole cache, the functional behaviour of [find_buffer]
    and of the steps of [getblk], and [getblk] against an abstract cache: the
    list of the buffers in the order of the free ring. *)
From S2P Require Import Prelude Words Links Buffer Queues.

(** ** The invariant

    [b_dev = 0] marks a buffer without a block; every other buffer is in the
    chain of its bucket, and no two hold the same block.  The members stay in
    the range of their C types. *)
Definition typed (h : buffer_head) : Prop :=
  0 ≤ b_dev h < 2 ^ 16 /\ 0 ≤ b_blocknr h < 2 ^ 32 /\ 0 ≤ b_uptodate h < 2 ^ 8 /\
  0 ≤ b_dirt h < 2 ^ 8 /\ 0 ≤ b_count h < 2 ^ 8 /\ 0 ≤ b_lock h < 2 ^ 8.

Record wf (all : list Z) (c : cache) (r : list Z) (ch : Z -> list Z) : Prop := {
  wf_linked : linked c all r ch;
  wf_ring : forall a, a ∈ all -> a ∈ r;
  wf_len : (2 ≤ length r)%nat;
  wf_hashed : forall a, a ∈ all -> b_dev (hd c a) <> 0 -> a ∈ ch (key c a);
  wf_dev : forall k a, 0 ≤ k < 307 -> a ∈ ch k -> b_dev (hd c a) <> 0;
  wf_unhashed : forall a, a ∈ all -> b_dev (hd c a) = 0 -> nh c a = 0 /\ ph c a = 0;
  wf_unique : forall a a', a ∈ all -> a' ∈ all -> b_dev (hd c a) <> 0 ->
    b_dev (hd c a) = b_dev (hd c a') -> b_blocknr (hd c a) = b_blocknr (hd c a') -> a = a';
  wf_typed : forall a, a ∈ all -> typed (hd c a)
}.

Section facts.
Context {all : list Z} {c : cache} {r : list Z} {ch : Z -> list Z}.
Hypothesis Hwf : wf all c r ch.

Lemma wf_known a : a ∈ all -> known c a.
Proof. apply (lk_known _ _ _ _ (wf_linked _ _ _ _ Hwf)). Qed.

Lemma wf_nonnull a : a ∈ all -> a <> 0.
Proof. intros Ha ->. by apply (lk_null _ _ _ _ (wf_linked _ _ _ _ Hwf)). Qed.

Lemma wf_hashed_or_not a : a ∈ all -> hashed_or_not c ch a.
Proof.
  intros Ha. destruct (decide (b_dev (hd c a) = 0)) as [D|D]; [right|left; by apply (wf_hashed _ _ _ _ Hwf)].
  destruct (wf_unhashed _ _ _ _ Hwf a Ha D). split; [done|]. split; [done|].
  intros k Hk Hin. by apply (wf_dev _ _ _ _ Hwf k a Hk Hin).
Qed.

Lemma wf_key k a : 0 ≤ k < 307 -> a ∈ ch k -> k = key c a.
Proof.
  intros Hk Ha. assert (a ∈ all) as Hall by by apply (lk_chain _ _ _ _ (wf_linked _ _ _ _ Hwf) k Hk).
  apply (lk_disj _ _ _ _ (wf_linked _ _ _ _ Hwf) k (key c a) a Hk (hashfn_range _ _) Ha).
  apply (wf_hashed _ _ _ _ Hwf); [done|]. by apply (wf_dev _ _ _ _ Hwf k).
Qed.

(** Distinct heads are no more than the map of the heads holds. *)
Lemma heads_length (l : list Z) : NoDup l -> (forall a, a ∈ l -> a ∈ all) -> (length l ≤ size (heads c))%nat.
Proof.
  intros Hnd Hall. rewrite <-size_dom, <-(size_list_to_set (C := gset Z)) by done.
  apply subseteq_size. intros a Ha. apply elem_of_dom, wf_known, Hall. set_solver.
Qed.
End facts.

(** ** Changes that leave links and block alone *)

Definition same_links (f : buffer_head -> buffer_head) : Prop := forall h,
  b_prev (f h) = b_prev h /\ b_next (f h) = b_next h /\ b_prev_free (f h) = b_prev_free h /\
  b_next_free (f h) = b_next_free h.
Definition same_key (f : buffer_head -> buffer_head) : Prop := forall h,
  b_dev (f h) = b_dev h /\ b_blocknr (f h) = b_blocknr h /\ (typed h -> typed (f h)).

Section change.
Context {all : list Z} {c : cache} {r : list Z} {ch : Z -> list Z} (b : Z) (f : buffer_head -> buffer_head).
Hypothesis Hb : known c b.
Hypothesis Hf : same_links f.

Lemma links_updh a :
  nf (updh b f c) a = nf c a /\ pf (updh b f c) a = pf c a /\ nh (updh b f c) a = nh c a /\ ph (updh b f c) a = ph c a.
Proof.
  unfold nf, pf, nh, ph. rewrite hd_updh by done. case_decide; [|done].
  by destruct (Hf (hd c a)) as (-> & -> & -> & ->).
Qed.

Lemma linked_updh : linked c all r ch -> linked (updh b f c) all r ch.
Proof.
  intros Hl. split; try apply Hl.
  - intros a. rewrite known_updh. apply Hl.
  - pose proof (lk_ring _ _ _ _ Hl) as Hr. destruct r as [|x l]; [done|]. cbn [ring] in *.
    eapply path_ext; [exact Hr| |]; intros a _; apply links_updh.
  - intros k Hk. destruct (lk_chain _ _ _ _ Hl k Hk) as (Hc & Hrest). split; [|done].
    eapply chain_ext; [exact Hc|]. intros a _. split; apply links_updh.
Qed.
End change.

Lemma key_eq c c' a :
  b_dev (hd c' a) = b_dev (hd c a) -> b_blocknr (hd c' a) = b_blocknr (hd c a) -> key c' a = key c a.
Proof. unfold key. by intros -> ->. Qed.

Lemma wf_updh all c r ch b f :
  wf all c r ch -> b ∈ all -> same_links f -> same_key f -> wf all (updh b f c) r ch.
Proof.
  intros H Hb Hl Hk. pose proof (wf_known H b Hb) as Hkb.
  assert (forall a, b_dev (hd (updh b f c) a) = b_dev (hd c a) /\
    b_blocknr (hd (updh b f c) a) = b_blocknr (hd c a) /\
    (typed (hd c a) -> typed (hd (updh b f c) a))) as E.
  { intros a. rewrite hd_updh by done. case_decide; [apply Hk|done]. }
  split.
  - apply linked_updh; [done|done|apply H].
  - apply H.
  - apply H.
  - intros a Ha. destruct (E a) as (E1 & E2 & _). rewrite E1, (key_eq c) by done. by apply H.
  - intros k a. destruct (E a) as [-> _]. apply H.
  - intros a. destruct (E a) as [-> _]. destruct (links_updh b f Hkb Hl a) as (_ & _ & -> & ->). apply H.
  - intros a a'. destruct (E a) as (-> & -> & _), (E a') as (-> & -> & _). apply H.
  - intros a Ha. by apply E, H.
Qed.

(** ** find_buffer *)

Fixpoint first_match (c : cache) (dev block : Z) (l : list Z) : Z :=
  match l with
  | [] => 0
  | a :: l => if same_block (hd c a) dev block then a else first_match c dev block l
  end.

Lemma first_match_spec c dev block l :
  0 ∉ l ->
  (first_match c dev block l = 0 /\ forall a, a ∈ l -> same_block (hd c a) dev block = false) \/
  (first_match c dev block l ∈ l /\ same_block (hd c (first_match c dev block l)) dev block = true).
Proof.
  induction l as [|x l IH]; intros H0; cbn [first_match].
  - left. split; [done|]. by intros a ?%elem_of_nil.
  - apply not_elem_of_cons in H0 as [Hx H0]. destruct (same_block (hd c x) dev block) eqn:E.
    + right. split; [apply elem_of_cons; by left|done].
    + destruct (IH H0) as [[E1 E2]|[E1 E2]]; [left|right].
      * split; [done|]. intros a [->|Ha]%elem_of_cons; [done|by apply E2].
      * split; [apply elem_of_cons; by right|done].
Qed.

Lemma find_chain_eq dev block s l : forall fuel prev first,
  chain (nh (bc s)) (ph (bc s)) prev first l -> (forall a, a ∈ l -> known (bc s) a) ->
  (length l ≤ fuel)%nat -> find_chain fuel first dev block s = Ok (s, first_match (bc s) dev block l).
Proof.
  induction l as [|a l IH]; intros fuel prev first Hc Hk Hlen; cbn [chain length] in Hc, Hlen.
  - subst first. by destruct fuel.
  - destruct Hc as (-> & Ha & _ & Hc). destruct fuel as [|fuel]; [lia|].
    cbn [find_chain first_match]. rewrite decide_False by done.
    rewrite (bind_ok _ _ _ _ _ (head_eq a s ltac:(apply Hk, elem_of_cons; by left))).
    destruct (same_block (hd (bc s) a) dev block); [done|]. apply (IH _ a); [done| |lia].
    intros x Hx. apply Hk, elem_of_cons. by right.
Qed.

Lemma same_block_spec h dev block : same_block h dev block = true <-> b_dev h = dev /\ b_blocknr h = u32 block.
Proof. unfold same_block. apply bool_decide_eq_true. Qed.

(** The hash of a block as [int] and as [unsigned long] is the same. *)
Lemma hashfn_u32 dev block : _hashfn dev (u32 block) = _hashfn dev block.
Proof.
  unfold _hashfn. f_equal. bits.
Qed.

Definition absent (all : list Z) (c : cache) (dev block : Z) : Prop :=
  forall a, a ∈ all -> b_dev (hd c a) <> 0 -> same_block (hd c a) dev block = false.
Definition holds (all : list Z) (c : cache) (dev block a : Z) : Prop :=
  a ∈ all /\ b_dev (hd c a) <> 0 /\ same_block (hd c a) dev block = true.

Section find.
Context {all : list Z} {s : bsys} {r : list Z} {ch : Z -> list Z} (dev block : Z).
Hypothesis Hwf : wf all (bc s) r ch.

Lemma find_buffer_eq :
  find_buffer dev block s = Ok (s, first_match (bc s) dev block (ch (_hashfn dev block))).
Proof.
  pose proof (wf_linked _ _ _ _ Hwf) as Hl. unfold find_buffer.
  rewrite (bind_ok _ _ _ _ _ (hash_eq dev block s (lk_table _ _ _ _ Hl))).
  destruct (lk_chain _ _ _ _ Hl _ (hashfn_range dev block)) as (Hc & Hnd & Hall).
  rewrite (bind_ok get _ s s s) by done. apply (find_chain_eq _ _ _ _ _ 0); [done| |].
  - intros a Ha. apply (wf_known Hwf), Hall, Ha.
  - apply (heads_length Hwf); auto.
Qed.

Lemma chain_of_block a : a ∈ all -> b_dev (hd (bc s) a) <> 0 -> same_block (hd (bc s) a) dev block = true ->
  a ∈ ch (_hashfn dev block).
Proof.
  intros Ha Hd [E1 E2]%same_block_spec. pose proof (wf_hashed _ _ _ _ Hwf a Ha Hd) as Hin.
  unfold key in Hin. by rewrite E1, E2, hashfn_u32 in Hin.
Qed.

Lemma find_buffer_spec :
  exists a, find_buffer dev block s = Ok (s, a) /\
    (a = 0 /\ absent all (bc s) dev block \/ holds all (bc s) dev block a).
Proof.
  eexists. split; [exact find_buffer_eq|].
  destruct (lk_chain _ _ _ _ (wf_linked _ _ _ _ Hwf) _ (hashfn_range dev block)) as (Hc & _ & Hall).
  destruct (first_match_spec (bc s) dev block _ (chain_nonnull _ _ _ _ _ Hc)) as [[-> E]|[Hin E]].
  - left. split; [done|]. intros a Ha Hd. destruct (same_block (hd (bc s) a) dev block) eqn:Hs; [|done].
    by rewrite <-(E a (chain_of_block a Ha Hd Hs)).
  - right. split; [by apply Hall|]. split; [|done]. by eapply (wf_dev _ _ _ _ Hwf), Hin; apply hashfn_range.
Qed.
End find.

(** ** The scan of the free list *)

Fixpoint choose (c : cache) (l : list Z) (bh : Z) : Z :=
  match l with
  | [] => bh
  | t :: l =>
      if decide (b_count (hd c t) <> 0) then choose c l bh
      else if decide (bh = 0 \/ BADNESS (hd c t) < BADNESS (hd c bh))
           then if decide (BADNESS (hd c t) = 0) then t else choose c l t
           else choose c l bh
  end.

Lemma scan_eq s l : forall fuel tmp bh,
  path (nf (bc s)) (pf (bc s)) tmp l (free_list (bc s)) -> free_list (bc s) ∉ l ->
  (forall a, a ∈ tmp :: l -> known (bc s) a) -> (bh <> 0 -> known (bc s) bh) ->
  (S (length l) ≤ fuel)%nat -> scan fuel tmp bh s = Ok (s, choose (bc s) (tmp :: l) bh).
Proof.
  induction l as [|y l IH]; intros fuel tmp bh Hp Hfl Hk Hb Hlen; (destruct fuel as [|fuel]; [cbn in Hlen; lia|]).
  all: assert (known (bc s) tmp) as Ht by (apply Hk, elem_of_cons; by left).
  all: set (next := fun bh : Z => if decide (b_next_free (hd (bc s) tmp) <> free_list (bc s))
         then scan fuel (b_next_free (hd (bc s) tmp)) bh else mret bh : M bsys Z).
  all: match type of Hp with path _ _ _ ?l0 _ => assert (forall bh', (bh' <> 0 -> known (bc s) bh') ->
         next bh' s = Ok (s, choose (bc s) l0 bh')) as Hnext end.
  1: { intros bh' _. unfold next. destruct Hp as [Hn _]. unfold nf in Hn. rewrite decide_False by (intros H; by apply H). done. }
  2: { intros bh' Hb'. unfold next. destruct Hp as (Hn & _ & Hp). unfold nf in Hn. rewrite Hn.
       apply not_elem_of_cons in Hfl as [Hy Hfl]. rewrite decide_True by (intros E; by apply Hy).
       apply IH; try done; [|cbn in Hlen; lia]. intros a Ha. apply Hk, elem_of_cons. by right. }
  all: cbn [scan]; rewrite (bind_ok _ _ _ _ _ (head_eq tmp s Ht)), (bind_ok get _ s s s) by done; cbv zeta.
  all: match goal with |- _ = Ok (_, choose _ (_ :: ?l0) _) =>
         assert (choose (bc s) (tmp :: l0) bh = if decide (b_count (hd (bc s) tmp) <> 0) then choose (bc s) l0 bh
           else if decide (bh = 0 \/ BADNESS (hd (bc s) tmp) < BADNESS (hd (bc s) bh))
             then if decide (BADNESS (hd (bc s) tmp) = 0) then tmp else choose (bc s) l0 tmp
             else choose (bc s) l0 bh) as -> by done end.
  all: destruct (decide (b_count (hd (bc s) tmp) <> 0)); [by apply Hnext|].
  all: destruct (decide (bh = 0)) as [->|Hb0]; [rewrite (decide_True (P := 0 = 0 \/ _)) by auto|].
  all: try (destruct (decide (BADNESS (hd (bc s) tmp) = 0)); [done|by apply Hnext]).
  all: rewrite (bind_ok _ _ _ _ _ (head_eq bh s (Hb Hb0))).
  all: destruct (decide (BADNESS (hd (bc s) tmp) < BADNESS (hd (bc s) bh)));
    [rewrite (decide_True (P := bh = 0 \/ _)) by auto|rewrite (decide_False (P := bh = 0 \/ _)) by tauto; by apply Hnext].
  all: destruct (decide (BADNESS (hd (bc s) tmp) = 0)); [done|by apply Hnext].
Qed.

(** [a] is the first of the least bad unused buffers of [l]. *)
Definition least_bad (c : cache) (l : list Z) (a : Z) : Prop := exists l1 l2,
  l = l1 ++ a :: l2 /\ b_count (hd c a) = 0 /\
  (forall x, x ∈ l1 -> b_count (hd c x) = 0 -> BADNESS (hd c a) < BADNESS (hd c x)) /\
  (forall x, x ∈ l2 -> b_count (hd c x) = 0 -> BADNESS (hd c a) ≤ BADNESS (hd c x)).

Lemma least_bad_cons c x l a :
  least_bad c l a -> (b_count (hd c x) = 0 -> BADNESS (hd c a) < BADNESS (hd c x)) -> least_bad c (x :: l) a.
Proof.
  intros (l1 & l2 & -> & Ha & H1 & H2) Hx. exists (x :: l1), l2. split; [done|]. split; [done|]. split; [|done].
  intros y [->|Hy]%elem_of_cons; auto.
Qed.

Lemma choose_spec c l : forall bh,
  0 ∉ l -> (forall a, a ∈ l -> 0 ≤ BADNESS (hd c a)) ->
  (choose c l bh = bh /\ forall a, a ∈ l -> b_count (hd c a) = 0 -> bh <> 0 /\ BADNESS (hd c bh) ≤ BADNESS (hd c a)) \/
  (least_bad c l (choose c l bh) /\ (bh <> 0 -> BADNESS (hd c (choose c l bh)) < BADNESS (hd c bh))).
Proof.
  induction l as [|t l IH]; intros bh H0 Hpos; cbn [choose].
  { left. split; [done|]. by intros a ?%elem_of_nil. }
  apply not_elem_of_cons in H0 as [Ht H0].
  assert (forall a, a ∈ l -> 0 ≤ BADNESS (hd c a)) as Hpos' by (intros; apply Hpos, elem_of_cons; by right).
  assert (0 ≤ BADNESS (hd c t)) as Hpt by (apply Hpos, elem_of_cons; by left).
  case_decide as Hc; [|case_decide as Hbad; [case_decide as Hz|]].
  - destruct (IH bh H0 Hpos') as [[E1 E2]|[E1 E2]]; [left|right].
    + split; [done|]. intros a [->|Ha]%elem_of_cons Hca; [done|by apply E2].
    + split; [by apply least_bad_cons|done].
  - right. split; [|lia]. exists [], l. split; [done|]. split; [lia|]. split; [by intros x ?%elem_of_nil|].
    intros x Hx _. rewrite Hz. by apply Hpos'.
  - right. destruct (IH t H0 Hpos') as [[E1 E2]|[E1 E2]].
    + rewrite E1. split; [|lia]. exists [], l. split; [done|]. split; [lia|]. split; [by intros x ?%elem_of_nil|].
      intros x Hx Hcx. by apply E2.
    + pose proof (E2 ltac:(auto)). split; [|lia]. apply least_bad_cons; [done|]. auto.
  - apply Decidable.not_or in Hbad as [Hb Hbad]. destruct (IH bh H0 Hpos') as [[E1 E2]|[E1 E2]]; [left|right].
    + split; [done|]. intros a [->|Ha]%elem_of_cons Hca; [split; [done|lia]|by apply E2].
    + split; [|done]. apply least_bad_cons; [done|]. intros _. pose proof (E2 Hb). lia.
Qed.

Lemma scan_ring all s r ch : wf all (bc s) r ch ->
  scan (size (heads (bc s))) (free_list (bc s)) 0 s = Ok (s, choose (bc s) r 0).
Proof.
  intros Hwf. pose proof (wf_linked _ _ _ _ Hwf) as Hl.
  pose proof (lk_ring _ _ _ _ Hl) as Hr. pose proof (lk_head _ _ _ _ Hl) as Hh. pose proof (lk_nodup _ _ _ _ Hl) as Hnd.
  assert (length r ≤ size (heads (bc s)))%nat as Hsz.
  { apply (heads_length Hwf); [done|]. apply (lk_sub _ _ _ _ Hl). }
  assert (forall a, a ∈ r -> known (bc s) a) as Hk.
  { intros a Ha. by apply (wf_known Hwf), (lk_sub _ _ _ _ Hl). }
  destruct r as [|x l]; [done|]. cbn [list.head] in Hh. injection Hh as ->.
  apply list.NoDup_cons in Hnd as [Hx _]. apply scan_eq; try done.
Qed.

Lemma badness_pos all c r ch : wf all c r ch -> forall a, a ∈ r -> 0 ≤ BADNESS (hd c a).
Proof.
  intros H a Ha. destruct (wf_typed _ _ _ _ H a (lk_sub _ _ _ _ (wf_linked _ _ _ _ H) a Ha)) as (_ & _ & _ & Hd & _ & Hk).
  unfold BADNESS. rewrite Z.shiftl_mul_pow2 by lia. lia.
Qed.

Lemma choose_ring all c r ch : wf all c r ch ->
  choose c r 0 = 0 /\ (forall a, a ∈ all -> b_count (hd c a) <> 0) \/
  choose c r 0 ∈ all /\ least_bad c r (choose c r 0).
Proof.
  intros H. pose proof (lk_sub _ _ _ _ (wf_linked _ _ _ _ H)) as Hs.
  assert (0 ∉ r) as H0 by (intros Hin; by apply (wf_nonnull H 0 (Hs 0 Hin))).
  destruct (choose_spec c r 0 H0 (badness_pos all c r ch H)) as [[E Hc]|[Hc _]]; [left|right].
  - split; [done|]. intros a Ha Hca. by destruct (Hc a (wf_ring _ _ _ _ H a Ha) Hca).
  - split; [|done]. destruct Hc as (l1 & l2 & E & _). apply Hs. rewrite E at 2. set_solver.
Qed.

(** ** Claiming a buffer for a block *)

Definition take (h : buffer_head) : buffer_head := h <| b_count := 1 |> <| b_dirt := 0 |> <| b_uptodate := 0 |>.
Definition assign (dev block : Z) (h : buffer_head) : buffer_head := h <| b_dev := u16 dev |> <| b_blocknr := u32 block |>.

Definition unqueued (c : cache) (b : Z) : cache := removed (updh b take c) b.
Definition claimed (c : cache) (dev block b : Z) : cache :=
  inserted (updh b (assign dev block) (unqueued c b)) b.

Lemma take_same : same_links take /\ same_key take.
Proof. split; [done|]. intros h. split; [done|]. split; [done|]. unfold typed. cbn. lia. Qed.

Lemma payload_assign dev block h : payload (assign dev block h) = assign dev block (payload h).
Proof. by destruct h. Qed.

Lemma assign_links dev block : same_links (assign dev block).
Proof. done. Qed.

(** The heads next to a buffer in its chain hold blocks. *)
Lemma neighbour_dev all c r ch b : wf all c r ch -> b ∈ all ->
  (nh c b <> 0 -> b_dev (hd c (nh c b)) <> 0) /\ (ph c b <> 0 -> b_dev (hd c (ph c b)) <> 0).
Proof.
  intros Hwf Hb. pose proof (hashfn_range (b_dev (hd c b)) (b_blocknr (hd c b))) as Hk. fold (key c b) in Hk.
  destruct (wf_hashed_or_not Hwf b Hb) as [Hin|(-> & -> & _)]; [|done].
  destruct (lk_chain _ _ _ _ (wf_linked _ _ _ _ Hwf) _ Hk) as (Hc & _ & _).
  assert (forall x, x ∈ ch (key c b) -> b_dev (hd c x) <> 0) as Hd.
  { intros x Hx. by apply (wf_dev _ _ _ _ Hwf (key c b)). }
  apply list_elem_of_split in Hin as (l1 & l2 & E). rewrite E in Hc, Hd. split; intros Hn; apply Hd.
  - destruct (chain_nx _ _ _ _ _ _ _ Hc) as [[? _]|(y & l & -> & ->)]; [done|].
    apply elem_of_app. right. apply elem_of_cons. right. apply elem_of_cons. by left.
  - destruct (chain_pv _ _ _ _ _ _ _ Hc) as [(_ & ? & _)|[_ ?]]; [done|]. apply elem_of_app. by left.
Qed.

Section claim.
Context {all : list Z} {c : cache} {r : list Z} {ch : Z -> list Z} (dev block b : Z).
Hypothesis Hwf : wf all c r ch.
Hypothesis Hb : b ∈ all.

Lemma wf_taken : wf all (updh b take c) r ch.
Proof. apply wf_updh; try done; apply take_same. Qed.

Lemma unqueued_linked : linked (unqueued c b) all (without b r) (fun k => without b (ch k)).
Proof.
  pose proof wf_taken as Ht. apply linked_removed; [apply Ht|by apply (wf_ring _ _ _ _ Hwf)|apply Hwf|].
  by apply (wf_hashed_or_not Ht).
Qed.

Lemma assigned_linked :
  linked (updh b (assign dev block) (unqueued c b)) all (without b r) (fun k => without b (ch k)).
Proof.
  pose proof unqueued_linked as Hl. apply linked_updh; [|apply assign_links|done].
  by apply (lk_known _ _ _ _ Hl).
Qed.

Lemma not_without l : b ∉ without b l.
Proof. by intros [? _]%without_spec. Qed.

Lemma unqueued_payload a :
  payload (hd (unqueued c b) a) = if decide (b = a) then payload (take (hd c a)) else payload (hd c a).
Proof.
  pose proof wf_taken as Ht. unfold unqueued.
  destruct (removed_links (updh b take c) all r ch b (wf_linked _ _ _ _ Ht) (wf_ring _ _ _ _ Hwf b Hb)
    (wf_hashed_or_not Ht b Hb) a) as (_ & _ & _ & ->).
  rewrite hd_updh by by apply (wf_known Hwf). by case_decide.
Qed.

Lemma assigned_payload a :
  payload (hd (updh b (assign dev block) (unqueued c b)) a) =
    if decide (b = a) then payload (assign dev block (take (hd c a))) else payload (hd c a).
Proof.
  rewrite hd_updh by by apply (lk_known _ _ _ _ unqueued_linked).
  pose proof (unqueued_payload a) as E. case_decide; [|done].
  rewrite !payload_assign. f_equal. exact E.
Qed.

Lemma claimed_payload a :
  payload (hd (claimed c dev block b) a) =
    if decide (b = a) then payload (assign dev block (take (hd c a))) else payload (hd c a).
Proof.
  rewrite <-assigned_payload. unfold claimed.
  apply (inserted_links _ _ _ _ _ assigned_linked Hb (not_without r) (fun k _ => not_without (ch k)) a).
Qed.
Lemma claimed_key a :
  b_dev (hd (claimed c dev block b) a) = (if decide (b = a) then u16 dev else b_dev (hd c a)) /\
  b_blocknr (hd (claimed c dev block b) a) = (if decide (b = a) then u32 block else b_blocknr (hd c a)) /\
  (typed (hd c a) -> typed (hd (claimed c dev block b) a)).
Proof.
  pose proof (claimed_payload a) as E. pose proof (u16_range dev). pose proof (u32_range block).
  case_decide; injection E as _ E1 E2 E3 E4 E5 E6 _; (split; [done|]); (split; [done|]);
    unfold typed; rewrite E1, E2, E3, E4, E5, E6; cbn; lia.
Qed.

Definition claimed_chains (k : Z) : list Z :=
  if decide (u16 dev <> 0 /\ k = _hashfn dev block) then b :: without b (ch k) else without b (ch k).

Hypothesis Hdev : 0 ≤ dev < 2 ^ 16.

Lemma claimed_chains_eq k :
  chains' (updh b (assign dev block) (unqueued c b)) (fun k => without b (ch k)) b k = claimed_chains k.
Proof.
  pose proof (assigned_payload b) as E. rewrite decide_True in E by done. injection E as _ E1 E2 _ _ _ _ _.
  unfold chains', claimed_chains, key. rewrite E1, E2.
  change (b_dev (assign dev block _)) with (u16 dev). change (b_blocknr (assign dev block _)) with (u32 block).
  by rewrite hashfn_u32, (u16_small dev) by lia.
Qed.

Lemma claimed_linked : linked (claimed c dev block b) all (without b r ++ [b]) claimed_chains.
Proof.
  pose proof (linked_inserted _ _ _ _ _ assigned_linked Hb (not_without r) (fun k _ => not_without (ch k))) as H.
  destruct H. split; try done.
  - intros k Hk. rewrite <-claimed_chains_eq. auto.
  - intros k k' a. rewrite <-!claimed_chains_eq. eauto.
Qed.

Lemma claimed_unhashed a : a ∈ all -> b_dev (hd (claimed c dev block b) a) = 0 ->
  nh (claimed c dev block b) a = 0 /\ ph (claimed c dev block b) a = 0.
Proof.
  intros Ha. destruct (claimed_key a) as [-> _]. pose proof (assigned_payload b) as Eb.
  rewrite decide_True in Eb by done. injection Eb as _ _ Ed _ _ _ _ _. cbn in Ed.
  pose proof (wf_linked _ _ _ _ wf_taken) as Ht.
  destruct (inserted_links _ _ _ _ _ assigned_linked Hb (not_without r) (fun k _ => not_without (ch k)) a)
    as (_ & _ & E1 & E2 & _).
  fold (claimed c dev block b) in E1, E2. rewrite E1, E2, Ed.
  destruct (decide (b = a)) as [->|Hba]; intros Hd.
  { rewrite !(decide_True (P := a = a)) by done. by rewrite decide_False by (rewrite Hd; auto). }
  rewrite !(decide_False (P := a = b)) by (intros ->; done).
  rewrite decide_False.
  2: { intros (_ & Hf & Ea). unfold key in Hf, Ea. pose proof (bucket_member _ _ _ _ _ assigned_linked (hashfn_range _ _) Hf) as Hin.
       rewrite <-Ea in Hin. apply without_spec in Hin as [_ Hin].
       by eapply (wf_dev _ _ _ _ Hwf), Hd; [apply hashfn_range|]. }
  destruct (links_updh b (assign dev block) (proj2 (lk_known _ _ _ _ unqueued_linked b) Hb) (assign_links _ _) a)
    as (_ & _ & -> & ->).
  destruct (removed_links _ all r ch b Ht (wf_ring _ _ _ _ Hwf b Hb) (wf_hashed_or_not wf_taken b Hb) a)
    as (_ & _ & Elinks & _).
  destruct (Elinks (wf_nonnull Hwf a Ha)) as [E3 E4].
  fold (unqueued c b) in E3, E4. rewrite E3, E4. unfold nx_removed, pv_removed.
  destruct (links_updh b take (wf_known Hwf b Hb) (proj1 take_same) b) as (_ & _ & -> & ->).
  destruct (links_updh b take (wf_known Hwf b Hb) (proj1 take_same) a) as (_ & _ & -> & ->).
  destruct (neighbour_dev all c r ch b Hwf Hb) as [N1 N2].
  rewrite !decide_False; [by apply (wf_unhashed _ _ _ _ Hwf)|..].
  - intros ->. by apply N1; [apply (wf_nonnull Hwf)|].
  - intros ->. by apply N2; [apply (wf_nonnull Hwf)|].
Qed.

Hypothesis Habs : absent all c dev block.

Lemma wf_claimed : wf all (claimed c dev block b) (without b r ++ [b]) claimed_chains.
Proof.
  assert (u16 dev = dev) as Eu by (apply u16_small; lia).
  split; [apply claimed_linked| | | | |exact claimed_unhashed| |].
  - intros a Ha. destruct (decide (a = b)) as [->|Hab]; apply elem_of_app; [right; by apply list_elem_of_singleton|left].
    apply without_spec. split; [done|]. by apply (wf_ring _ _ _ _ Hwf).
  - rewrite length_app. cbn [length].
    destruct (without_nonempty (updh b take c) all r ch b (wf_linked _ _ _ _ wf_taken)
      (wf_ring _ _ _ _ Hwf b Hb) (wf_len _ _ _ _ Hwf)) as (x & l & ->). cbn [length]. lia.
  - intros a Ha. destruct (claimed_key a) as (Ed & Eb & _). unfold key. rewrite Ed, Eb. unfold claimed_chains.
    destruct (decide (b = a)) as [->|Hab]; intros Hd.
    + rewrite hashfn_u32, Eu. rewrite decide_True by (by rewrite Eu in Hd). apply elem_of_cons. by left.
    + assert (a ∈ without b (ch (key c a))) as Hin.
      { apply without_spec. split; [by apply not_eq_sym|]. by apply (wf_hashed _ _ _ _ Hwf). }
      unfold key in Hin. case_decide; [apply elem_of_cons; by right|done].
  - intros k a Hk Hin. destruct (claimed_key a) as [-> _]. unfold claimed_chains in Hin.
    destruct (decide (b = a)) as [->|Hab].
    + case_decide as Hd; [by destruct Hd|]. by apply without_spec in Hin as [? _].
    + assert (a ∈ without b (ch k)) as [_ Hc]%without_spec.
      { case_decide; [|done]. by apply elem_of_cons in Hin as [->|?]. }
      by apply (wf_dev _ _ _ _ Hwf k).
  - intros a a' Ha Ha'. destruct (claimed_key a) as (-> & -> & _), (claimed_key a') as (-> & -> & _).
    assert (forall x, x ∈ all -> b_dev (hd c x) <> 0 -> b_dev (hd c x) = u16 dev -> b_blocknr (hd c x) = u32 block -> False) as Hno.
    { intros x Hx Hd E1 E2. specialize (Habs x Hx Hd). rewrite Eu in E1.
      by rewrite (proj2 (same_block_spec (hd c x) dev block)) in Habs. }
    destruct (decide (b = a)) as [<-|], (decide (b = a')) as [<-|]; intros Hd E1 E2; [done| | |by apply (wf_unique _ _ _ _ Hwf)].
    + destruct (Hno a'); congruence.
    + destruct (Hno a); congruence.
  - intros a Ha. apply claimed_key. by apply (wf_typed _ _ _ _ Hwf).
Qed.

Lemma claim_eq {A} (x : A) s :
  (set_bh b take;; remove_from_queues b;; set_bh b (assign dev block);; insert_into_queues b;; mret x) (in_cache c s)
    = Ok (in_cache (claimed c dev block b) s, x).
Proof.
  pose proof (wf_linked _ _ _ _ wf_taken) as Ht.
  rewrite (bind_ok _ _ _ _ _ (set_bh_eq b take (in_cache c s) (wf_known Hwf b Hb))).
  rewrite (bind_ok _ _ _ _ _ (remove_eq _ s all r ch b Ht (wf_ring _ _ _ _ Hwf b Hb) (wf_len _ _ _ _ Hwf)
    (wf_hashed_or_not wf_taken b Hb))).
  fold (unqueued c b).
  rewrite (bind_ok _ _ _ _ _ (set_bh_eq b (assign dev block) (in_cache (unqueued c b) s)
    (proj2 (lk_known _ _ _ _ unqueued_linked b) Hb))).
  change (in_cache ?x (in_cache ?y ?z)) with (in_cache x z).
  by rewrite (bind_ok _ _ _ _ _ (insert_eq _ s _ _ _ b assigned_linked Hb (not_without r) (fun k _ => not_without (ch k)))).
Qed.
End claim.

(** ** Changes by other tasks *)

Definition good (all : list Z) (c : cache) : Prop := exists r ch, wf all c r ch.

Lemma in_cache_id s : in_cache (bc s) s = s.
Proof. by destruct s. Qed.

(** Changing the count of a buffer. *)
Lemma count_same (g : Z -> Z) :
  same_links (fun h => h <| b_count := u8 (g (b_count h)) |>) /\
  same_key (fun h => h <| b_count := u8 (g (b_count h)) |>).
Proof.
  split; [done|]. intros h. split; [done|]. split; [done|]. unfold typed. cbn. pose proof (u8_range (g (b_count h))). lia.
Qed.

Lemma good_updh all c b f : good all c -> b ∈ all -> same_links f -> same_key f -> good all (updh b f c).
Proof. intros (r & ch & H) Hb Hl Hk. exists r, ch. by apply wf_updh. Qed.

Lemma holds_claimed all c r ch dev block bh : 0 < dev < 2 ^ 16 -> wf all c r ch -> bh ∈ all ->
  holds all (claimed c dev block bh) dev block bh.
Proof.
  intros Hdev H Hb. destruct (claimed_key dev block bh H Hb bh) as (E1 & E2 & _).
  rewrite !decide_True in E1, E2 by done. rewrite (u16_small dev) in E1 by lia.
  split; [done|]. split; [lia|]. by apply same_block_spec.
Qed.
