(* ===== verification/BufferInit.v ===== *)
(** * buffer_init

    What the start of the kernel makes of the memory behind its image: heads
    growing upwards and blocks growing downwards, all heads in the free ring
    and none hashed. *)
From S2P Require Import Prelude Words Links Buffer Queues Getblk.

(** The addresses of [n] heads from [h] on. *)
Fixpoint addrs (h : Z) (n : nat) : list Z :=
  match n with O => [] | S n => h :: addrs (h + SIZEOF_BUFFER_HEAD) n end.

(** The blocks [l] lie below [b], each below the one before. *)
Fixpoint descending (b : Z) (l : list Z) : Prop :=
  match l with [] => True | d :: l => d + BLOCK_SIZE ≤ b /\ descending d l end.

Lemma descending_below b l d : descending b l -> d ∈ l -> d + BLOCK_SIZE ≤ b.
Proof.
  unfold BLOCK_SIZE. revert b. induction l as [|e l IH]; intros b H Hin; [by apply not_elem_of_nil in Hin|].
  cbn [descending] in H. unfold BLOCK_SIZE in H. apply elem_of_cons in Hin as [->|Hin]; [lia|].
  specialize (IH e (proj2 H) Hin). lia.
Qed.

Lemma descending_room l : forall b k, k ≤ b -> descending b l -> (forall d, d ∈ l -> k ≤ d) ->
  k + 1024 * Z.of_nat (length l) ≤ b.
Proof.
  induction l as [|e l IH]; intros b k Hk H Hl; cbn [length]; [lia|]. destruct H as [He H]. unfold BLOCK_SIZE in He.
  assert (k ≤ e) as Hke by (apply Hl, elem_of_cons; by left).
  specialize (IH e k Hke H (fun d Hd => Hl d (proj2 (elem_of_cons _ _ _) (or_intror Hd)))). lia.
Qed.

(** The heads from [h] on, with the blocks [l]. *)
Fixpoint init_heads (h : Z) (l : list Z) (m : gmap Z buffer_head) : gmap Z buffer_head :=
  match l with
  | [] => m
  | d :: l => init_heads (h + SIZEOF_BUFFER_HEAD) l (<[h := init_head h d (default no_head (m !! h))]> m)
  end.

Definition with_heads (h : Z) (l : list Z) (s : bsys) : bsys :=
  s <| bc := bc s <| heads := init_heads h l (heads (bc s)) |>
                  <| nr_buffers := nr_buffers (bc s) + Z.of_nat (length l) |> |>.

(** The blocks keep clear of the memory of the video card and the BIOS. *)
Definition clear_of_hole (d : Z) : Prop := 0x100000 ≤ d \/ d + BLOCK_SIZE ≤ 0xa0000.

Lemma addrs_spec h n a : a ∈ addrs h n <-> exists i, (i < n)%nat /\ a = h + 36 * Z.of_nat i.
Proof.
  revert h. induction n as [|n IH]; intros h; cbn [addrs].
  - rewrite elem_of_nil. split; [done|]. intros (i & Hi & _). lia.
  - rewrite elem_of_cons, IH. unfold SIZEOF_BUFFER_HEAD. split.
    + intros [->|(i & Hi & ->)]; [exists 0%nat; lia|exists (S i); lia].
    + intros (i & Hi & ->). destruct i as [|i]; [left; lia|right; exists i; lia].
Qed.

Lemma addrs_NoDup h n : NoDup (addrs h n).
Proof.
  revert h. induction n as [|n IH]; intros h; cbn [addrs]; [constructor|].
  apply list.NoDup_cons. split; [|done]. rewrite addrs_spec. unfold SIZEOF_BUFFER_HEAD. intros (i & _ & E). lia.
Qed.

Lemma addrs_length h n : length (addrs h n) = n.
Proof. revert h. induction n as [|n IH]; intros h; cbn; [done|]. by rewrite IH. Qed.

Lemma addrs_lookup h n i a : addrs h n !! i = Some a -> a = h + 36 * Z.of_nat i.
Proof.
  revert h i. induction n as [|n IH]; intros h [|i]; cbn [addrs]; try done.
  - intros [= ->]. lia.
  - intros E%IH. unfold SIZEOF_BUFFER_HEAD in E. lia.
Qed.

Lemma init_heads_below h l m a : a < h -> init_heads h l m !! a = m !! a.
Proof.
  revert h m. induction l as [|d l IH]; intros h m Ha; cbn [init_heads]; [done|].
  rewrite IH by (unfold SIZEOF_BUFFER_HEAD; lia). by rewrite lookup_insert_ne by lia.
Qed.

Lemma init_heads_lookup h l m a : (forall x, h ≤ x -> m !! x = None) -> h ≤ a ->
  init_heads h l m !! a =
    (if decide (a ∈ addrs h (length l)) then Some (init_head a (default 0 (l !! Z.to_nat ((a - h) / 36))) no_head) else None).
Proof.
  revert h m. induction l as [|d l IH]; intros h m Hm Ha; cbn [init_heads length].
  - rewrite decide_False by apply not_elem_of_nil. by apply Hm.
  - destruct (decide (a < h + 36)) as [Hlt|Hge].
    + rewrite init_heads_below by (unfold SIZEOF_BUFFER_HEAD; lia). destruct (decide (a = h)) as [->|Hne].
      * rewrite lookup_insert_eq, decide_True by (cbn [addrs]; apply elem_of_cons; by left).
        rewrite Hm by lia. cbn [default]. by replace (Z.to_nat ((h - h) / 36)) with 0%nat by (rewrite Z.sub_diag; done).
      * rewrite lookup_insert_ne, Hm by lia. rewrite decide_False; [done|].
        rewrite addrs_spec. intros (i & _ & E). lia.
    + rewrite IH; unfold SIZEOF_BUFFER_HEAD; [|intros x Hx; rewrite lookup_insert_ne by lia; apply Hm; lia|lia].
      assert (a ∈ addrs (h + 36) (length l) <-> a ∈ addrs h (S (length l))) as E.
      { cbn [addrs]. rewrite elem_of_cons. unfold SIZEOF_BUFFER_HEAD. split; [by right|]. intros [->|?]; [lia|done]. }
      destruct (decide (a ∈ addrs (h + 36) (length l))) as [Hin|Hin]; [rewrite decide_True by by apply E|by rewrite decide_False by (by rewrite <-E)].
      replace (Z.to_nat ((a - h) / 36)) with (S (Z.to_nat ((a - (h + 36)) / 36))); [done|].
      rewrite <-Z2Nat.inj_succ by (apply Z.div_pos; lia). f_equal.
      replace (a - h) with (a - (h + 36) + 1 * 36) by lia. rewrite Z.div_add by lia. lia.
Qed.

(** ** The loop *)

Lemma init_loop_spec fuel : forall h b s,
  0 < h -> b ≤ (Z.of_nat fuel + 1) * 1024 ->
  exists l, buffer_init_loop fuel h b s = Ok (with_heads h l s, h + 36 * Z.of_nat (length l)) /\
    descending b l /\ (forall d, d ∈ l -> h + 36 * Z.of_nat (length l) ≤ d) /\
    (b mod 1024 = 0 -> 0x100000 < b \/ b ≤ 0xa0000 -> forall d, d ∈ l -> clear_of_hole d) /\
    (forall n, 0x100000 < b - 1024 * n \/ b ≤ 0xa0000 -> h + 36 * n ≤ b - 1024 * n -> n ≤ Z.of_nat (length l)).
Proof.
  unfold BLOCK_SIZE, SIZEOF_BUFFER_HEAD, clear_of_hole.
  induction fuel as [|fuel IH]; intros h b s Hh Hb; cbn [buffer_init_loop]; unfold BLOCK_SIZE, SIZEOF_BUFFER_HEAD.
  all: destruct (decide (b - 1024 >= h + 36)) as [Hge|Hlt].
  - lia.
  - exists []. unfold with_heads. cbn [length init_heads]. rewrite Z.mul_0_r, !Z.add_0_r.
    destruct s as [[]]. split; [done|]. split; [done|]. split; [by intros d ?%elem_of_nil|].
    split; [by intros _ _ d ?%elem_of_nil|]. cbn. lia.
  - set (b' := if decide (b - 1024 = 1048576) then 655360 else b - 1024).
    assert (b' ≤ b - 1024) as Hb' by (unfold b'; case_decide; lia).
    destruct (IH (h + 36) b' (with_heads h [b - 1024] s)) as (l & E & Hd & Hl & Hc & Hn); [lia|lia|].
    exists ((b - 1024) :: l). split; [|split; [|split; [|split]]].
    + erewrite bind_ok by done. etransitivity; [exact E|]. do 2 f_equal.
      * unfold with_heads. destruct s as [[]]. cbn -[Z.of_nat Z.add]. do 2 f_equal. lia.
      * cbn [length]. lia.
    + cbn [descending]. unfold BLOCK_SIZE. split; [lia|]. destruct l as [|d l]; [done|].
      cbn [descending] in *. unfold BLOCK_SIZE in *. split; [lia|tauto].
    + cbn [length]. intros d [->|Hin]%elem_of_cons; [|specialize (Hl d Hin); lia].
      destruct l as [|d l]; [cbn; lia|]. specialize (Hl d ltac:(apply elem_of_cons; by left)).
      cbn [descending length] in *. unfold BLOCK_SIZE in Hd. lia.
    + intros Hm Hside. pose proof (Z.div_mod b 1024 ltac:(lia)) as Hdm.
      assert (b' mod 1024 = 0) as Hm'.
      { unfold b'. case_decide; [done|]. replace (b - 1024) with (b + (-1) * 1024) by lia. by rewrite Z.mod_add by lia. }
      assert (1048576 < b' \/ b' ≤ 655360) as Hside'.
      { unfold b'. case_decide; [by right|]. lia. }
      intros d [->|Hin]%elem_of_cons; [|by apply (Hc Hm' Hside' d)]. lia.
    + intros n Hside Hn'. destruct (decide (n ≤ 1)); [cbn [length]; lia|].
      assert (b' = b - 1024) as Eb by (unfold b'; rewrite decide_False by lia; done).
      specialize (Hn (n - 1) ltac:(lia) ltac:(lia)). cbn [length]. lia.
  - exists []. unfold with_heads. cbn [length init_heads]. rewrite Z.mul_0_r, !Z.add_0_r.
    destruct s as [[]]. split; [done|]. split; [done|]. split; [by intros d ?%elem_of_nil|].
    split; [by intros _ _ d ?%elem_of_nil|]. cbn. lia.
Qed.

(** ** The ring *)

Lemma path_addrs nx pv z n : forall x,
  (forall a, a ∈ addrs x n -> nx a = a + 36) -> nx (x + 36 * Z.of_nat n) = z ->
  (forall a, a ∈ addrs (x + 36) n -> pv a = a - 36) -> pv z = x + 36 * Z.of_nat n ->
  path nx pv x (addrs (x + 36) n) z.
Proof.
  unfold SIZEOF_BUFFER_HEAD. induction n as [|n IH]; intros x Hn Hz Hp Hpz; cbn [addrs path] in *.
  - rewrite Z.mul_0_r, Z.add_0_r in *. done.
  - unfold SIZEOF_BUFFER_HEAD in *.
    rewrite (Hn x), (Hp (x + 36)) by (apply elem_of_cons; by left). split; [done|]. split; [lia|].
    replace (x + 36 * Z.of_nat (S n)) with (x + 36 + 36 * Z.of_nat n) in * by lia.
    apply IH; try done; intros a Ha; [apply Hn|apply Hp]; apply elem_of_cons; by right.
Qed.

Section init.
Variables (start : Z) (l : list Z) (s : bsys).
Hypothesis Hstart : 0 < start.
Hypothesis Hlen : (2 ≤ length l)%nat.
Hypothesis Hheads : heads (bc s) = ∅.

Definition last_head : Z := start + 36 * Z.of_nat (length l) - 36.

Definition initial : cache :=
  (updh last_head (fun h => h <| b_next_free := start |>)
    (updh start (fun h => h <| b_prev_free := last_head |>)
      (bc (with_heads start l s) <| free_list := start |>)))
  <| hash_table := replicate (Z.to_nat NR_HASH) 0 |>.

Lemma known_initial a : known initial a <-> a ∈ addrs start (length l).
Proof.
  unfold initial. change (known (?c <| hash_table := ?t |>) a) with (known c a). rewrite !known_updh.
  unfold known. cbn [upd heads bc with_heads]. rewrite Hheads. destruct (decide (start ≤ a)) as [Ha|Ha].
  - rewrite init_heads_lookup by done. case_decide; split; try done; by intros [? ?].
  - rewrite init_heads_below, lookup_empty by lia. split; [intros [? ?]; done|].
    rewrite addrs_spec. intros (i & _ & ->). lia.
Qed.

Lemma ends_in : start ∈ addrs start (length l) /\ last_head ∈ addrs start (length l) /\ start <> last_head.
Proof.
  unfold last_head. rewrite !addrs_spec. split; [exists 0%nat; lia|]. split; [exists (length l - 1)%nat; lia|lia].
Qed.

Lemma hd_initial a : a ∈ addrs start (length l) ->
  payload (hd initial a) = payload (init_head a (default 0 (l !! Z.to_nat ((a - start) / 36))) no_head) /\
  nf initial a = (if decide (a = last_head) then start else a + 36) /\
  pf initial a = (if decide (a = start) then last_head else a - 36) /\ nh initial a = 0 /\ ph initial a = 0.
Proof.
  intros Ha. destruct ends_in as (E1 & E2 & E3).
  set (c0 := bc (with_heads start l s) <| free_list := start |>).
  assert (forall x, x ∈ addrs start (length l) ->
    heads c0 !! x = Some (init_head x (default 0 (l !! Z.to_nat ((x - start) / 36))) no_head)) as H0.
  { intros x Hx. unfold c0. cbn [upd heads bc with_heads]. rewrite Hheads.
    rewrite init_heads_lookup, decide_True; [done|done|done|].
    apply addrs_spec in Hx as (i & _ & ->). lia. }
  assert (forall x, x ∈ addrs start (length l) -> known c0 x) as Hk by (intros; eexists; by apply H0).
  unfold nf, pf, nh, ph, initial. fold c0.
  change (hd (?c <| hash_table := ?t |>) a) with (hd c a).
  rewrite !hd_updh by (rewrite ?known_updh; auto). unfold hd. rewrite (H0 a Ha). cbn [default].
  destruct (decide (last_head = a)), (decide (a = last_head)); try congruence;
    destruct (decide (start = a)), (decide (a = start)); try congruence; done.
Qed.

Lemma addrs_nonnull : 0 ∉ addrs start (length l).
Proof. rewrite addrs_spec. intros (i & _ & E). lia. Qed.

Lemma wf_initial : wf (addrs start (length l)) initial (addrs start (length l)) (fun _ => []).
Proof.
  assert (forall a, a ∈ addrs start (length l) -> b_dev (hd initial a) = 0 /\ typed (hd initial a)) as Hd.
  { intros a Ha. destruct (hd_initial a Ha) as [E _]. injection E as _ E1 E2 E3 E4 E5 E6 _.
    split; [exact E2|]. unfold typed. rewrite E1, E2, E3, E4, E5, E6. cbn. lia. }
  split; [split| | | | | | |]; try done.
  - exact known_initial.
  - exact addrs_nonnull.
  - assert (exists n, length l = S n) as [n En] by (exists (length l - 1)%nat; lia). rewrite En. cbn [addrs ring].
    apply path_addrs.
    + intros a Ha. destruct (hd_initial a) as (_ & -> & _).
      * rewrite En. apply addrs_spec in Ha as (i & Hi & ->). apply addrs_spec. exists i. lia.
      * rewrite decide_False; [done|]. apply addrs_spec in Ha as (i & Hi & ->). unfold last_head. rewrite En. lia.
    + destruct (hd_initial last_head) as (_ & E & _); [apply ends_in|]. rewrite decide_True in E by done.
      assert (start + 36 * Z.of_nat n = last_head) as -> by (unfold last_head; rewrite En; lia). exact E.
    + intros a Ha. destruct (hd_initial a) as (_ & _ & -> & _).
      * rewrite En. cbn [addrs]. apply elem_of_cons. by right.
      * rewrite decide_False; [done|]. apply addrs_spec in Ha as (i & Hi & ->). lia.
    + destruct (hd_initial start) as (_ & _ & E & _); [apply ends_in|]. rewrite decide_True in E by done.
      rewrite E. unfold last_head. rewrite En. lia.
  - apply addrs_NoDup.
  - assert (exists n, length l = S n) as [n ->] by (exists (length l - 1)%nat; lia). done.
  - intros k Hk. split; [|split; [constructor|by intros a ?%elem_of_nil]]. cbn [chain]. unfold bucket, initial.
    cbn [upd hash_table]. unfold arr_get. rewrite decide_True by lia. rewrite lookup_replicate_2; [done|].
    unfold NR_HASH. lia.
  - intros k k' a _ _ ?%elem_of_nil. done.
  - rewrite addrs_length. done.
  - intros a Ha Hnz. by destruct (Hd a Ha).
  - intros k a _ ?%elem_of_nil. done.
  - intros a Ha _. by destruct (hd_initial a Ha) as (_ & _ & _ & ?).
  - intros a a' Ha _ Hnz. by destruct (Hd a Ha).
  - intros a Ha. by apply Hd.
Qed.
End init.

Lemma buffer_init_eq start buffer_end s :
  let b := if decide (buffer_end = Z.shiftl 1 20) then 640 * 1024 else buffer_end in
  0 < start -> heads (bc s) = ∅ -> start + 36 * 2 ≤ b - 1024 * 2 -> 0x100000 + 1024 * 2 < b \/ b ≤ 0xa0000 ->
  exists l, buffer_init start buffer_end s = Ok (in_cache (initial start l s) s, tt) /\
    (2 ≤ length l)%nat /\ descending b l /\ (forall d, d ∈ l -> start + 36 * Z.of_nat (length l) ≤ d) /\
    (b mod 1024 = 0 -> forall d, d ∈ l -> clear_of_hole d).
Proof.
  intros b Hs Hh Hroom Hside. unfold buffer_init. fold b.
  destruct (init_loop_spec (Z.to_nat (b / BLOCK_SIZE)) start b s) as (l & E & Hd & Hl & Hc & Hn); [done| |].
  { unfold BLOCK_SIZE. pose proof (Z.div_mod b 1024 ltac:(lia)). pose proof (Z.mod_pos_bound b 1024 ltac:(lia)).
    rewrite Z2Nat.id by (apply Z.div_pos; lia). lia. }
  specialize (Hn 2 ltac:(lia) Hroom). assert (2 ≤ length l)%nat as Hlen by lia.
  exists l. split; [|split; [done|split; [done|split; [done|]]]].
  2: { intros Hm. apply Hc; [done|]. lia. }
  rewrite (bind_ok _ _ _ _ _ E). cbv zeta. unfold SIZEOF_BUFFER_HEAD.
  destruct (ends_in start l Hlen) as (E1 & E2 & E3). fold (last_head start l).
  erewrite (bind_ok (modify _)) by done.
  set (s1 := with_heads start l s <| bc := _ |>).
  assert (forall x, x ∈ addrs start (length l) -> known (bc s1) x) as Hk.
  { intros x Hx. apply (known_initial start l s Hlen Hh x) in Hx. unfold initial in Hx.
    change (known (?c <| hash_table := ?t |>) x) with (known c x) in Hx. by rewrite !known_updh in Hx. }
  erewrite bind_ok by (apply set_bh_eq; auto).
  erewrite bind_ok by (apply set_bh_eq; apply known_updh; auto).
  done.
Qed.
