(* ===== verification/CacheSpec.v ===== *)
(** * The buffer cache as a list

    An abstract cache is the list of its buffers, address and contents, from
    the least to the most recently claimed one.  [getblk] over linked heads does
    to this list what [a_getblk] does. *)
From Stdlib Require Import List.
From S2P Require Import Prelude Words Links Buffer Queues Getblk BufferInit.

Definition acache : Type := list (Z * buffer_head).

Definition a_holds (dev block : Z) (e : Z * buffer_head) : bool :=
  bool_decide (b_dev e.2 <> 0) && same_block e.2 dev block.

(** The first of the least bad unused buffers. *)
Fixpoint a_min (l : acache) : option (Z * buffer_head) :=
  match l with
  | [] => None
  | e :: l =>
      if decide (b_count e.2 <> 0) then a_min l else
      match a_min l with
      | Some e' => if decide (BADNESS e'.2 < BADNESS e.2) then Some e' else Some e
      | None => Some e
      end
  end.

Definition bump (h : buffer_head) : buffer_head := h <| b_count := u8 (b_count h + 1) |>.

(** [None] where [getblk] sleeps or starts again. *)
Definition a_getblk (dev block : Z) (l : acache) : option (acache * Z) :=
  match List.find (a_holds dev block) l with
  | Some (a, h) =>
      if decide (b_lock h = 0)
      then Some (map (fun e => if decide (a = e.1) then (e.1, bump e.2) else e) l, a) else None
  | None =>
      match a_min l with
      | Some (a, h) =>
          if decide (BADNESS h = 0)
          then Some (filter (fun e => e.1 <> a) l ++ [(a, assign dev block (take h))], a) else None
      | None => None
      end
  end.

Definition abs (c : cache) (r : list Z) : acache := map (fun a => (a, payload (hd c a))) r.

Lemma find_abs dev block all c r ch a : wf all c r ch -> holds all c dev block a ->
  List.find (a_holds dev block) (abs c r) = Some (a, payload (hd c a)).
Proof.
  intros H (Ha & Hd & Hs). destruct (List.find (a_holds dev block) (abs c r)) as [[x h]|] eqn:E.
  - apply List.find_some in E as [Hin Hx]. apply in_map_iff in Hin as (y & [= <- <-] & Hy%list_elem_of_In).
    apply andb_prop in Hx as [Hx1%bool_decide_eq_true Hx2]. cbn in Hx1, Hx2.
    apply same_block_spec in Hs as [E1 E2]. apply same_block_spec in Hx2 as [E3 E4]. cbn in E3, E4.
    assert (a = y) as ->; [|done]. apply (wf_unique _ _ _ _ H); [done| |done|congruence|congruence].
    by apply (lk_sub _ _ _ _ (wf_linked _ _ _ _ H)).
  - pose proof (List.find_none _ _ E (a, payload (hd c a))) as Hn. exfalso.
    assert (In (a, payload (hd c a)) (abs c r)) as Hin.
    { apply (in_map (fun a => (a, payload (hd c a)))), list_elem_of_In, (wf_ring _ _ _ _ H), Ha. }
    specialize (Hn Hin). unfold a_holds in Hn. rewrite bool_decide_true in Hn by done.
    change (same_block (hd c a) dev block = false) in Hn. congruence.
Qed.

Lemma find_abs_none dev block all c r ch : wf all c r ch -> absent all c dev block ->
  List.find (a_holds dev block) (abs c r) = None.
Proof.
  intros H Habs. destruct (List.find (a_holds dev block) (abs c r)) as [[x h]|] eqn:E; [|done].
  apply List.find_some in E as [Hin Hx]. apply in_map_iff in Hin as (y & [= <- <-] & Hy%list_elem_of_In).
  apply andb_prop in Hx as [Hx1%bool_decide_eq_true Hx2].
  change (same_block (hd c y) dev block = true) in Hx2.
  rewrite Habs in Hx2; [done| |done]. by apply (lk_sub _ _ _ _ (wf_linked _ _ _ _ H)).
Qed.

Lemma a_min_in l e : a_min l = Some e -> e ∈ l /\ b_count e.2 = 0.
Proof.
  induction l as [|x l IH]; cbn [a_min]; [done|]. intros E. case_decide.
  - destruct (IH E). split; [apply elem_of_cons; by right|done].
  - destruct (a_min l) as [e'|]; [case_decide|]; injection E as ->.
    + destruct (IH eq_refl). split; [apply elem_of_cons; by right|done].
    + split; [apply elem_of_cons; by left|lia].
    + split; [apply elem_of_cons; by left|lia].
Qed.

Lemma a_min_none c l : (forall a, a ∈ l -> b_count (hd c a) <> 0) -> a_min (abs c l) = None.
Proof.
  induction l as [|x l IH]; intros H; cbn; [done|].
  rewrite decide_True by (apply H, elem_of_cons; by left). apply IH. intros a Ha. apply H, elem_of_cons. by right.
Qed.

Lemma a_min_least c l a : least_bad c l a -> a_min (abs c l) = Some (a, payload (hd c a)).
Proof.
  intros (l1 & l2 & -> & Ha & H1 & H2). induction l1 as [|x l1 IH].
  - cbn [app abs map a_min]. fold (abs c l2). rewrite (decide_False (P := _ <> 0)) by (intros Hn; exact (Hn Ha)).
    destruct (a_min (abs c l2)) as [e|] eqn:E; [|done].
    apply a_min_in in E as [Hin Hc]. apply list_elem_of_In, in_map_iff in Hin as (y & <- & Hy%list_elem_of_In).
    rewrite decide_False; [done|]. apply Z.le_ngt. by apply H2.
  - cbn [app abs map a_min]. fold (abs c (l1 ++ a :: l2)).
    rewrite IH by (intros y Hy; apply H1, elem_of_cons; by right). case_decide as Hx; [done|].
    rewrite decide_True; [done|]. apply (H1 x); [apply elem_of_cons; by left|].
    exact Hx.
Qed.

(** ** getblk does what the abstract cache does *)

Lemma payload_bump h : payload (bump h) = bump (payload h).
Proof. by destruct h. Qed.
Lemma payload_take h : payload (take h) = take (payload h).
Proof. by destruct h. Qed.

Lemma abs_bump c r a : known c a ->
  abs (updh a bump c) r = map (fun e => if decide (a = e.1) then (e.1, bump e.2) else e) (abs c r).
Proof.
  intros Ha. unfold abs. rewrite map_map. apply map_ext. intros x. cbn [fst snd]. rewrite hd_updh by done.
  case_decide; [by rewrite payload_bump|done].
Qed.

Lemma abs_claimed dev block b all c r ch : wf all c r ch -> b ∈ all ->
  abs (claimed c dev block b) (without b r ++ [b]) =
    filter (fun e => e.1 <> b) (abs c r) ++ [(b, assign dev block (take (payload (hd c b))))].
Proof.
  intros H Hb. unfold abs. rewrite map_app. f_equal.
  - unfold without. generalize r as l. induction l as [|x l IH]; [done|]. cbn [map].
    destruct (decide (x = b)) as [->|Hx].
    + rewrite (filter_cons_False (fun a : Z => a <> b)), (filter_cons_False (fun e : Z * buffer_head => e.1 <> b)) by (intros Hn; by apply Hn). exact IH.
    + rewrite (filter_cons_True (fun a : Z => a <> b)),
        (filter_cons_True (fun e : Z * buffer_head => e.1 <> b)) by exact Hx. cbn [map]. rewrite IH. do 2 f_equal.
      rewrite (claimed_payload dev block b H Hb x). by rewrite decide_False by auto.
  - cbn [map]. do 2 f_equal. rewrite (claimed_payload dev block b H Hb b), decide_True by done.
    by rewrite payload_assign, payload_take.
Qed.

Section refinement.
Context {all : list Z} {c : cache} {r : list Z} {ch : Z -> list Z} (dev block : Z) (s : bsys).
Hypothesis Hwf : wf all c r ch.
Hypothesis Hdev : 0 < dev < 2 ^ 16.

Lemma wait_unlocked fuel a c' : known c' a -> b_lock (hd c' a) = 0 ->
  wait_on_buffer_loop (S fuel) a (in_cache c' s) = Ok (in_cache c' s, tt).
Proof.
  intros Ha Hl. cbn [wait_on_buffer_loop]. rewrite (bind_ok _ _ _ _ _ (head_eq a (in_cache c' s) Ha)).
  by rewrite decide_False by auto.
Qed.

Lemma hash_table_hit a : holds all c dev block a -> b_lock (hd c a) = 0 ->
  get_hash_table dev block (in_cache c s) = Ok (in_cache (updh a bump c) s, a).
Proof.
  intros Ha Hl. pose proof (wf_known Hwf a (proj1 Ha)) as Hk.
  assert (known (updh a bump c) a) as Hk' by by apply known_updh.
  assert (hd (updh a bump c) a = bump (hd c a)) as Eh by by rewrite hd_updh, decide_True.
  unfold get_hash_table. rewrite (bind_ok get _ _ (in_cache c s) (in_cache c s)) by done.
  cbn [get_hash_table_loop]. destruct (find_buffer_spec dev block (s := in_cache c s) Hwf) as (a' & E & Ha').
  rewrite (bind_ok _ _ _ _ _ E). assert (a' = a) as ->.
  { destruct Ha' as [[_ Ha']|(H1 & H2 & H3)]; destruct Ha as (G1 & G2 & G3).
    - specialize (Ha' a G1 G2). change (bc (in_cache c s)) with c in Ha'. congruence.
    - apply same_block_spec in H3 as [E1 E2], G3 as [E3 E4]. change (bc (in_cache c s)) with c in *.
      apply (wf_unique _ _ _ _ Hwf); [done|done|done|congruence|congruence]. }
  rewrite decide_False by (apply (wf_nonnull Hwf), Ha).
  rewrite (bind_ok _ _ _ _ _ (set_bh_eq a bump (in_cache c s) Hk)).
  change (in_cache _ (in_cache c s)) with (in_cache (updh a bump c) s).
  rewrite (bind_ok _ _ _ (in_cache (updh a bump c) s) tt).
  2: { unfold wait_on_buffer. rewrite (bind_ok get _ _ (in_cache (updh a bump c) s) (in_cache (updh a bump c) s)) by done.
       apply wait_unlocked; [done|]. by rewrite Eh. }
  rewrite (bind_ok _ _ _ _ _ (head_eq a (in_cache (updh a bump c) s) Hk')).
  change (bc (in_cache (updh a bump c) s)) with (updh a bump c). rewrite Eh.
  change (same_block (bump (hd c a)) dev block) with (same_block (hd c a) dev block).
  by destruct Ha as (_ & _ & ->).
Qed.

Lemma hash_table_miss : absent all c dev block -> get_hash_table dev block (in_cache c s) = Ok (in_cache c s, 0).
Proof.
  intros Habs. unfold get_hash_table. rewrite (bind_ok get _ _ (in_cache c s) (in_cache c s)) by done.
  cbn [get_hash_table_loop]. destruct (find_buffer_spec dev block (s := in_cache c s) Hwf) as (a' & E & Ha').
  rewrite (bind_ok _ _ _ _ _ E). destruct Ha' as [[-> _]|(H1 & H2 & H3)]; [done|].
  specialize (Habs a' H1 H2). change (bc (in_cache c s)) with c in H3. congruence.
Qed.

(** [getblk] on a block that is not cached, when its choice is not locked. *)
Lemma getblk_once_miss a : absent all c dev block -> a ∈ all -> least_bad c r a -> b_lock (hd c a) = 0 ->
  getblk_once dev block (in_cache c s) =
    if decide (b_dirt (hd c a) = 0) then Ok (in_cache (claimed c dev block a) s, Some a)
    else Ok (in_cache c s, None).
Proof.
  intros Habs Ha Hleast Hlock. unfold getblk_once. rewrite (bind_ok _ _ _ _ _ (hash_table_miss Habs)).
  rewrite (decide_False (P := 0 <> 0)) by auto.
  rewrite (bind_ok get _ _ (in_cache c s) (in_cache c s)) by done.
  rewrite (bind_ok _ _ _ _ _ (scan_ring all (in_cache c s) r ch Hwf)). change (bc (in_cache c s)) with c.
  assert (choose c r 0 = a) as ->.
  { pose proof (a_min_least c r a Hleast) as E. destruct (choose_ring all c r ch Hwf) as [[_ Hall]|[_ Hl]].
    - destruct Hleast as (? & ? & _ & Hc & _). by destruct (Hall a Ha Hc).
    - rewrite (a_min_least c r _ Hl) in E. by injection E. }
  rewrite decide_False by by apply (wf_nonnull Hwf).
  rewrite (bind_ok _ _ _ (in_cache c s) tt).
  2: { unfold wait_on_buffer. rewrite (bind_ok get _ _ (in_cache c s) (in_cache c s)) by done.
       apply wait_unlocked; [by apply (wf_known Hwf)|done]. }
  rewrite (bind_ok _ _ _ _ _ (head_eq a (in_cache c s) (wf_known Hwf a Ha))). change (bc (in_cache c s)) with c.
  destruct Hleast as (? & ? & _ & Hc & _). rewrite decide_False by auto.
  destruct (decide (b_dirt (hd c a) = 0)); [rewrite decide_False by auto|by rewrite decide_True].
  destruct (find_buffer_spec dev block (s := in_cache c s) Hwf) as (a' & E & Ha').
  rewrite (bind_ok _ _ _ _ _ E). destruct Ha' as [[-> _]|(H1 & H2 & H3)].
  - rewrite decide_False by auto. by apply (claim_eq dev block a Hwf Ha).
  - specialize (Habs a' H1 H2). change (bc (in_cache c s)) with c in H3. congruence.
Qed.

Lemma getblk_hit fuel a : holds all c dev block a -> b_lock (hd c a) = 0 ->
  getblk (S fuel) dev block (in_cache c s) = Ok (in_cache (updh a bump c) s, a).
Proof.
  intros Ha Hl. cbn [getblk]. rewrite (bind_ok _ _ _ (in_cache (updh a bump c) s) (Some a)); [done|].
  unfold getblk_once. rewrite (bind_ok _ _ _ _ _ (hash_table_hit a Ha Hl)). by rewrite decide_True by (apply (wf_nonnull Hwf), Ha).
Qed.

Lemma badness_zero h : typed h -> BADNESS h = 0 -> b_lock h = 0 /\ b_dirt h = 0.
Proof. unfold typed, BADNESS. rewrite Z.shiftl_mul_pow2 by lia. lia. Qed.

Lemma refines fuel l' b : a_getblk dev block (abs c r) = Some (l', b) ->
  exists c' r' ch', getblk (S fuel) dev block (in_cache c s) = Ok (in_cache c' s, b) /\
    wf all c' r' ch' /\ abs c' r' = l'.
Proof.
  intros E. unfold a_getblk in E.
  destruct (find_buffer_spec dev block (s := in_cache c s) Hwf) as (a & _ & [[_ Habs]|Ha]);
    change (bc (in_cache c s)) with c in *.
  - rewrite (find_abs_none dev block all c r ch Hwf Habs) in E.
    destruct (choose_ring all c r ch Hwf) as [[_ Hall]|[Hin Hleast]].
    { rewrite a_min_none in E; [done|]. intros x Hx. by apply Hall, (lk_sub _ _ _ _ (wf_linked _ _ _ _ Hwf)). }
    set (x := choose c r 0) in *. rewrite (a_min_least c r x Hleast) in E.
    change (BADNESS (payload (hd c x))) with (BADNESS (hd c x)) in E. case_decide as Hbad; [|done].
    injection E as <- <-. destruct (badness_zero _ (wf_typed _ _ _ _ Hwf x Hin) Hbad) as [Hlock Hdirt].
    exists (claimed c dev block x), (without x r ++ [x]), (claimed_chains (ch := ch) dev block x). split; [|split].
    + cbn [getblk]. erewrite bind_ok by (rewrite (getblk_once_miss x Habs Hin Hleast Hlock); by rewrite decide_True). done.
    + apply (wf_claimed dev block x Hwf Hin); [lia|done].
    + by apply (abs_claimed dev block x all c r ch).
  - rewrite (find_abs dev block all c r ch a Hwf Ha) in E.
    change (b_lock (payload (hd c a))) with (b_lock (hd c a)) in E. case_decide as Hlock; [|done].
    injection E as <- <-. exists (updh a bump c), r, ch. split; [by apply getblk_hit|]. split.
    + destruct (count_same (fun n => n + 1)). by apply wf_updh; [|apply Ha|..].
    + apply abs_bump, (wf_known Hwf), Ha.
Qed.

Lemma livelock a : absent all c dev block -> a_min (abs c r) = Some (a, payload (hd c a)) ->
  b_lock (hd c a) = 0 -> b_dirt (hd c a) <> 0 -> forall fuel, getblk fuel dev block (in_cache c s) = Err Fuel.
Proof.
  intros Habs Hmin Hlock Hdirt.
  destruct (choose_ring all c r ch Hwf) as [[_ Hall]|[Hin Hleast]].
  { rewrite a_min_none in Hmin; [done|]. intros x Hx. by apply Hall, (lk_sub _ _ _ _ (wf_linked _ _ _ _ Hwf)). }
  rewrite (a_min_least c r _ Hleast) in Hmin. injection Hmin as Ea _. rewrite Ea in *.
  induction fuel as [|fuel IH]; [done|]. cbn [getblk].
  erewrite bind_ok by (rewrite (getblk_once_miss a Habs Hin Hleast Hlock); by rewrite decide_False). exact IH.
Qed.
End refinement.

Lemma initial_data start l s : 0 < start -> (2 ≤ length l)%nat -> heads (bc s) = ∅ ->
  map (fun e => b_data e.2) (abs (initial start l s) (addrs start (length l))) = l.
Proof.
  intros Hs Hlen Hh. unfold abs. rewrite map_map. apply list_eq. intros i.
  rewrite list_lookup_fmap. destruct (addrs start (length l) !! i) as [a|] eqn:Ea.
  - assert (a = start + 36 * Z.of_nat i) as -> by (by eapply addrs_lookup).
    destruct (hd_initial start l s Hlen Hh (start + 36 * Z.of_nat i)) as [E _].
    { by apply list_elem_of_lookup_2 in Ea. }
    cbn [fmap option_fmap option_map snd]. injection E as E _ _ _ _ _ _ _.
    change (b_data (payload ?h)) with (b_data h). rewrite E.
    replace (Z.to_nat ((start + 36 * Z.of_nat i - start) / 36)) with i.
    2: { replace (start + 36 * Z.of_nat i - start) with (Z.of_nat i * 36) by lia. rewrite Z.div_mul by lia. lia. }
    apply lookup_lt_Some in Ea. rewrite addrs_length in Ea.
    destruct (lookup_lt_is_Some_2 l i Ea) as [d ->]. done.
  - cbn. apply lookup_ge_None in Ea. rewrite addrs_length in Ea. symmetry. by apply lookup_ge_None.
Qed.

(** ** What the cache promises *)

(** A cache of three buffers, as the kernel would start with. *)
Definition small_blocks : list Z := [7168; 6144; 5120].
Definition small_cache : cache := initial 0x1000 small_blocks (Bsys (Cache ∅ 0 [] 0) [] true).
Definition small (c : cache) : bsys := Bsys c [] true.

Lemma small_wf : wf (addrs 0x1000 3) small_cache (addrs 0x1000 3) (fun _ => []).
Proof. apply (wf_initial 0x1000 small_blocks); [done|cbn; lia|done]. Qed.

Lemma small_absent dev block : absent (addrs 0x1000 3) small_cache dev block.
Proof.
  intros a Ha Hd. exfalso. apply Hd.
  assert (2 ≤ length small_blocks)%nat as H2 by (cbn; lia).
  destruct (hd_initial 0x1000 small_blocks (Bsys (Cache ∅ 0 [] 0) [] true) H2 eq_refl a Ha) as [E _]. by injection E.
Qed.

(** C2.  Refinement: whatever [getblk] does to the linked heads, the hash table
    and the free ring when it need not wait, it does to the abstract cache what
    the specification says: it returns the buffer that holds the block with its
    use count raised, or else the first of the least bad unused buffers, which
    becomes the last of the ring and holds the block from now on. *)
Theorem getblk_refines all c r ch dev block s l' b fuel :
  wf all c r ch -> 0 < dev < 2 ^ 16 -> a_getblk dev block (abs c r) = Some (l', b) ->
  exists c' r' ch', getblk (S fuel) dev block (in_cache c s) = Ok (in_cache c' s, b) /\
    wf all c' r' ch' /\ abs c' r' = l'.
Proof. intros Hwf Hdev. exact (refines dev block s Hwf Hdev fuel l' b). Qed.

Lemma getblk_refines_witness :
  exists c' r' ch', getblk 1 0x300 0 (in_cache small_cache (small small_cache)) = Ok (in_cache c' (small small_cache), 0x1000) /\
    wf (addrs 0x1000 3) c' r' ch' /\
    abs c' r' = filter (fun e => e.1 <> 0x1000) (abs small_cache (addrs 0x1000 3)) ++
                [(0x1000, assign 0x300 0 (take (payload (hd small_cache 0x1000))))].
Proof. apply (getblk_refines _ _ _ _ 0x300 0 _ _ 0x1000 0 small_wf); [done|]. vm_compute. reflexivity. Defined.

(** [find_buffer] returns the one buffer that holds the block, and [NULL]
    exactly when no buffer does. *)
Theorem find_buffer_correct all s r ch dev block : wf all (bc s) r ch ->
  exists a, find_buffer dev block s = Ok (s, a) /\
    (a = 0 -> absent all (bc s) dev block) /\ (a <> 0 -> holds all (bc s) dev block a) /\
    (forall a', holds all (bc s) dev block a' -> a' = a).
Proof.
  intros H. destruct (find_buffer_spec dev block H) as (a & E & Ha). exists a. split; [done|].
  split; [|split].
  - intros ->. destruct Ha as [[_ ?]|[Ha _]]; [done|]. by destruct (wf_nonnull H 0 Ha).
  - intros Hn. by destruct Ha as [[? _]|?].
  - intros a' (G1 & G2 & G3). destruct Ha as [[_ Ha]|(H1 & H2 & H3)].
    + specialize (Ha a' G1 G2). congruence.
    + apply same_block_spec in G3 as [E1 E2], H3 as [E3 E4].
      by apply (wf_unique _ _ _ _ H); [| | |congruence|congruence].
Qed.

Lemma find_buffer_correct_witness : exists a, find_buffer 0x300 0 (small small_cache) = Ok (small small_cache, a) /\
  (a = 0 -> absent (addrs 0x1000 3) small_cache 0x300 0) /\
  (a <> 0 -> holds (addrs 0x1000 3) small_cache 0x300 0 a) /\
  (forall a', holds (addrs 0x1000 3) small_cache 0x300 0 a' -> a' = a).
Proof. apply (find_buffer_correct _ (small small_cache) _ _ 0x300 0 small_wf). Defined.

(** The scan of the free list ends and finds the first, in ring order, of
    the unused buffers with the least [BADNESS]; it finds none only when every
    buffer is in use. *)
Theorem scan_least all s r ch : wf all (bc s) r ch ->
  exists a, scan (size (heads (bc s))) (free_list (bc s)) 0 s = Ok (s, a) /\
    (a = 0 /\ (forall x, x ∈ all -> b_count (hd (bc s) x) <> 0) \/ a ∈ all /\ least_bad (bc s) r a).
Proof. intros H. exists (choose (bc s) r 0). split; [by eapply scan_ring|by eapply choose_ring]. Qed.

Lemma scan_least_witness : exists a, scan 3 0x1000 0 (small small_cache) = Ok (small small_cache, a) /\
  (a = 0 /\ (forall x, x ∈ addrs 0x1000 3 -> b_count (hd small_cache x) <> 0) \/
   a ∈ addrs 0x1000 3 /\ least_bad small_cache (addrs 0x1000 3) a).
Proof. exact (scan_least _ (small small_cache) _ _ small_wf). Defined.

(** When the least bad unused buffer is dirty, [getblk] for a block that is
    not cached never returns: nothing in its loop writes the buffer out. *)
Theorem getblk_dirty_livelock all c r ch dev block s a :
  wf all c r ch -> absent all c dev block ->
  a_min (abs c r) = Some (a, payload (hd c a)) -> b_lock (hd c a) = 0 -> b_dirt (hd c a) <> 0 ->
  forall fuel, getblk fuel dev block (in_cache c s) = Err Fuel.
Proof. intros Hwf. exact (livelock dev block s Hwf a). Qed.

Definition dirty (h : buffer_head) : buffer_head := h <| b_dirt := 1 |>.
Definition dirty_cache : cache := updh 0x1048 dirty (updh 0x1024 dirty (updh 0x1000 dirty small_cache)).

Lemma dirty_wf : wf (addrs 0x1000 3) dirty_cache (addrs 0x1000 3) (fun _ => []) /\
  absent (addrs 0x1000 3) dirty_cache 0x300 0.
Proof.
  assert (forall c, wf (addrs 0x1000 3) c (addrs 0x1000 3) (fun _ => []) /\ absent (addrs 0x1000 3) c 0x300 0 ->
    forall b, b ∈ addrs 0x1000 3 ->
    wf (addrs 0x1000 3) (updh b dirty c) (addrs 0x1000 3) (fun _ => []) /\
    absent (addrs 0x1000 3) (updh b dirty c) 0x300 0) as Hd.
  { intros c [H1 H2] b Hb. split.
    - apply wf_updh; [done|done|done|]. intros h. split; [done|]. split; [done|]. unfold typed. cbn. lia.
    - intros a Ha. rewrite hd_updh by by apply (wf_known H1). case_decide; apply (H2 a Ha). }
  unfold dirty_cache. do 3 (apply Hd; [|vm_compute; set_solver]). split; [apply small_wf|apply small_absent].
Qed.

Lemma getblk_dirty_livelock_witness :
  getblk 100 0x300 0 (in_cache dirty_cache (small small_cache)) = Err Fuel.
Proof.
  apply (getblk_dirty_livelock (addrs 0x1000 3) dirty_cache (addrs 0x1000 3) (fun _ => []) 0x300 0 _ 0x1000);
    [apply dirty_wf|apply dirty_wf|vm_compute; reflexivity|vm_compute; reflexivity|vm_compute; discriminate].
Defined.

(** The use count is one byte: taking a buffer that is in use 255 times
    returns it with the count zero, as if nobody used it. *)
Theorem get_hash_table_count_wraps all c r ch dev block s a :
  wf all c r ch -> holds all c dev block a -> b_lock (hd c a) = 0 -> b_count (hd c a) = 255 ->
  exists c', get_hash_table dev block (in_cache c s) = Ok (in_cache c' s, a) /\ b_count (hd c' a) = 0.
Proof.
  intros Hwf Ha Hl Hc. exists (updh a bump c). split; [by eapply hash_table_hit|].
  rewrite hd_updh by by apply (wf_known Hwf), Ha. rewrite decide_True by done. cbn. by rewrite Hc.
Qed.

Definition busy (h : buffer_head) : buffer_head := h <| b_count := 255 |>.
Definition busy_cache : cache := updh 0x1000 busy (claimed small_cache 0x300 0 0x1000).

Lemma busy_wf : exists r ch, wf (addrs 0x1000 3) busy_cache r ch.
Proof.
  eexists _, _. apply wf_updh; [|vm_compute; set_solver|done|].
  - apply (wf_claimed 0x300 0 0x1000 small_wf); [vm_compute; set_solver|done|apply small_absent].
  - intros h. split; [done|]. split; [done|]. unfold typed. cbn. lia.
Qed.

Lemma get_hash_table_count_wraps_witness :
  exists c', get_hash_table 0x300 0 (in_cache busy_cache (small small_cache)) =
    Ok (in_cache c' (small small_cache), 0x1000) /\ b_count (hd c' 0x1000) = 0.
Proof.
  destruct busy_wf as (r & ch & H).
  apply (get_hash_table_count_wraps (addrs 0x1000 3) busy_cache r ch 0x300 0 _ 0x1000 H);
    [|vm_compute; reflexivity|vm_compute; reflexivity].
  split; [vm_compute; set_solver|]. split; [vm_compute; discriminate|vm_compute; reflexivity].
Defined.

(** C27.  [buffer_init] turns the memory between the kernel and [buffer_end] into
    a well-formed cache: all heads in the ring, none hashed, the blocks one
    below the other and above all heads, and, when [buffer_end] is a multiple
    of the block size, none of them in the hole between 640 KB and 1 MB.  Nothing
    in the code keeps the heads out of the hole, but when the kernel ends by 500 KB
    and the buffers by 4 MB they end below it. *)
Theorem buffer_init_correct start buffer_end s :
  let b := if decide (buffer_end = Z.shiftl 1 20) then 640 * 1024 else buffer_end in
  0 < start -> heads (bc s) = ∅ -> start + 36 * 2 ≤ b - 1024 * 2 -> 0x100000 + 1024 * 2 < b \/ b ≤ 0xa0000 ->
  exists l c, buffer_init start buffer_end s = Ok (in_cache c s, tt) /\
    wf (addrs start (length l)) c (addrs start (length l)) (fun _ => []) /\
    map (fun e => b_data e.2) (abs c (addrs start (length l))) = l /\
    descending b l /\ (forall d, d ∈ l -> start + 36 * Z.of_nat (length l) ≤ d) /\
    (b mod 1024 = 0 -> forall d, d ∈ l -> clear_of_hole d) /\
    (start ≤ 0x7d000 -> b ≤ 0x400000 -> forall h, h ∈ addrs start (length l) -> h + 36 ≤ 0xa0000).
Proof.
  intros b Hs Hh Hroom Hside.
  destruct (buffer_init_eq start buffer_end s Hs Hh Hroom Hside) as (l & E & Hlen & Hd & Hl & Hc).
  exists l, (initial start l s). split; [done|]. split; [by apply wf_initial|].
  split; [by apply initial_data|]. do 3 (split; [done|]).
  intros Hst Hb h (i & Hi & ->)%addrs_spec.
  assert (start + 36 * Z.of_nat (length l) ≤ b) as Hlb.
  { destruct l as [|d l]; [cbn in Hlen; lia|]. specialize (Hl d ltac:(apply elem_of_cons; by left)).
    destruct Hd as [Hd _]. unfold BLOCK_SIZE in Hd. lia. }
  pose proof (descending_room l b _ Hlb Hd Hl). lia.
Qed.

Lemma buffer_init_correct_witness : exists l c,
  buffer_init 0x10000 0x400000 (Bsys (Cache ∅ 0 [] 0) [] true) = Ok (in_cache c (Bsys (Cache ∅ 0 [] 0) [] true), tt) /\
  wf (addrs 0x10000 (length l)) c (addrs 0x10000 (length l)) (fun _ => []) /\
  map (fun e => b_data e.2) (abs c (addrs 0x10000 (length l))) = l /\
  descending 0x400000 l /\ (forall d, d ∈ l -> 0x10000 + 36 * Z.of_nat (length l) ≤ d) /\
  (0x400000 mod 1024 = 0 -> forall d, d ∈ l -> clear_of_hole d) /\
  (0x10000 ≤ 0x7d000 -> 0x400000 ≤ 0x400000 -> forall h, h ∈ addrs 0x10000 (length l) -> h + 36 ≤ 0xa0000).
Proof. apply (buffer_init_correct 0x10000 0x400000); [done|done|vm_compute; discriminate|left; vm_compute; reflexivity]. Defined.
