(* ===== verification/Preempt.v ===== *)
(** * getblk under the timer

    [do_timer] of kernel/sched.c switches to another task wherever the timer
    strikes, in the kernel too, and nothing in fs/buffer.c prevents it but the
    [cli] of [wait_on_buffer].  Here the functions of Buffer.v have a point of
    preemption between any two statements: [tick] is what other tasks do to the
    cache there.  From the last tests of the chosen buffer to its claim the
    interrupt would have to be held off; [window] is what happens in that place.
    With nothing at these points the functions are those of Buffer.v
    ([getblk_quiet]). *)
From S2P Require Import Prelude Words Links Buffer Queues Getblk BufferInit CacheSpec.

Section code.
Variables (tick window : M bsys unit).
(** The rounds of a loop over links, and of one that starts again. *)
Variables (links : cache -> nat) (rounds : bsys -> nat).

Fixpoint find_chain_at (fuel : nat) (tmp dev block : Z) : M bsys Z :=
  if decide (tmp = 0) then mret 0 else
  match fuel with
  | O => stop Fuel
  | S fuel =>
      tick;;
      h ← head tmp;
      if same_block h dev block then mret tmp else
      tick;;
      h ← head tmp;
      find_chain_at fuel (b_next h) dev block
  end.

Definition find_buffer_at (dev block : Z) : M bsys Z :=
  first ← hash dev block; s ← get; find_chain_at (links (bc s)) first dev block.

Fixpoint get_hash_table_loop_at (fuel : nat) (dev block : Z) : M bsys Z :=
  match fuel with
  | O => stop Fuel
  | S fuel =>
      bh ← find_buffer_at dev block;
      if decide (bh = 0) then mret 0 else
      tick;;
      set_bh bh (fun h => h <| b_count := u8 (b_count h + 1) |>);;
      tick;;
      wait_on_buffer bh;;
      tick;;
      h ← head bh;
      if same_block h dev block then mret bh else
      tick;;
      set_bh bh (fun h => h <| b_count := u8 (b_count h - 1) |>);;
      tick;;
      get_hash_table_loop_at fuel dev block
  end.

Definition get_hash_table_at (dev block : Z) : M bsys Z :=
  s ← get; get_hash_table_loop_at (rounds s) dev block.

Fixpoint scan_at (fuel : nat) (tmp bh : Z) : M bsys Z :=
  match fuel with
  | O => stop Fuel
  | S fuel =>
      let next (bh : Z) : M bsys Z :=
        tick;;
        t ← head tmp; s ← get;
        if decide (b_next_free t <> free_list (bc s)) then tick;; scan_at fuel (b_next_free t) bh else mret bh in
      t ← head tmp;
      if decide (b_count t <> 0) then next bh else
      tick;;
      better ← (if decide (bh = 0) then mret true else
        t ← head tmp; b ← head bh; mret (bool_decide (BADNESS t < BADNESS b)));
      if better : bool then
        tick;;
        t ← head tmp;
        if decide (BADNESS t = 0) then mret tmp else next tmp
      else next bh
  end.

(** From [if (bh->b_count)] on. *)
Definition claim_at (dev block bh : Z) : M bsys (option Z) :=
  h ← head bh;
  if decide (b_count h <> 0) then mret None else
  if decide (b_dirt h <> 0) then mret None else
  found ← find_buffer dev block;
  if decide (found <> 0) then mret None else
  window;;
  set_bh bh take;; remove_from_queues bh;; set_bh bh (assign dev block);; insert_into_queues bh;; mret (Some bh).

Definition getblk_once_at (dev block : Z) : M bsys (option Z) :=
  bh ← get_hash_table_at dev block;
  if decide (bh <> 0) then mret (Some bh) else
  tick;;
  s ← get;
  bh ← scan_at (links (bc s)) (free_list (bc s)) 0;
  tick;;
  if decide (bh = 0) then sleep;; tick;; mret None else
  wait_on_buffer bh;;
  tick;;
  claim_at dev block bh.

Fixpoint getblk_at (fuel : nat) (dev block : Z) : M bsys Z :=
  match fuel with
  | O => stop Fuel
  | S fuel =>
      r ← getblk_once_at dev block;
      match r with
      | Some bh => mret bh
      | None => tick;; getblk_at fuel dev block
      end
  end.
End code.

(** ** Without interrupts *)

(** No other task runs. *)
Definition nothing : M bsys unit := mret tt.
Definition ring_links (c : cache) : nat := size (heads c).
Definition table_rounds (s : bsys) : nat := S (length (wakes s)).

Lemma head_again a s s' h : head a s = Ok (s', h) -> s' = s.
Proof. unfold head, mbind, M_bind, get, check. destruct (_ !! _); [by intros [= <-]|done]. Qed.

Lemma find_chain_quiet fuel : forall tmp dev block s,
  find_chain_at nothing fuel tmp dev block s = find_chain fuel tmp dev block s.
Proof.
  induction fuel as [|fuel IH]; intros tmp dev block s; cbn [find_chain_at find_chain]; [done|].
  case_decide; [done|]. change ((nothing;; ?k) s) with (k s). apply bind_ext; [done|]. intros s' h E.
  destruct (same_block h dev block); [done|]. change ((nothing;; ?k) s') with (k s').
  pose proof (head_again _ _ _ _ E) as ->. rewrite (bind_ok _ _ _ _ _ E). apply IH.
Qed.

Lemma find_buffer_quiet dev block s : find_buffer_at nothing ring_links dev block s = find_buffer dev block s.
Proof. apply bind_ext; [done|]. intros s' h _. apply bind_ext; [done|]. intros s2 a _. apply find_chain_quiet. Qed.

Lemma get_hash_table_loop_quiet fuel : forall dev block s,
  get_hash_table_loop_at nothing ring_links fuel dev block s = get_hash_table_loop fuel dev block s.
Proof.
  induction fuel as [|fuel IH]; intros dev block s; [done|]. cbn [get_hash_table_loop_at get_hash_table_loop].
  apply bind_ext; [apply find_buffer_quiet|]. intros s1 bh _. case_decide; [done|].
  change ((nothing;; ?k) s1) with (k s1). apply bind_ext; [done|]. intros s2 [] _.
  change ((nothing;; ?k) s2) with (k s2). apply bind_ext; [done|]. intros s3 [] _.
  change ((nothing;; ?k) s3) with (k s3). apply bind_ext; [done|]. intros s4 h _.
  destruct (same_block h dev block); [done|]. change ((nothing;; ?k) s4) with (k s4).
  apply bind_ext; [done|]. intros s5 [] _. change ((nothing;; ?k) s5) with (k s5). apply IH.
Qed.

Lemma get_hash_table_quiet dev block s :
  get_hash_table_at nothing ring_links table_rounds dev block s = get_hash_table dev block s.
Proof. apply bind_ext; [done|]. intros s' a [= <- <-]. apply get_hash_table_loop_quiet. Qed.

Lemma scan_quiet fuel : forall tmp bh s, scan_at nothing fuel tmp bh s = scan fuel tmp bh s.
Proof.
  induction fuel as [|fuel IH]; intros tmp bh s; [done|]. cbn [scan_at scan]. cbv zeta.
  apply bind_ext; [done|]. intros s' t E. pose proof (head_again _ _ _ _ E) as ->.
  rewrite (bind_ok get _ s s s) by done.
  assert (forall bh', (nothing;; t ← head tmp; s ← get;
      if decide (b_next_free t <> free_list (bc s)) then nothing;; scan_at nothing fuel (b_next_free t) bh'
      else mret bh') s =
    (if decide (b_next_free t <> free_list (bc s)) then scan fuel (b_next_free t) bh' else mret bh') s) as Hnext.
  { intros bh'. change ((nothing;; ?k) s) with (k s). rewrite (bind_ok _ _ _ _ _ E), (bind_ok get _ s s s) by done.
    case_decide; [apply IH|done]. }
  destruct (decide (b_count t <> 0)); [apply Hnext|]. change ((nothing;; ?k) s) with (k s).
  destruct (decide (bh = 0)) as [Hb|Hb].
  - rewrite bind_ret. change ((nothing;; ?k) s) with (k s). rewrite (bind_ok _ _ _ _ _ E).
    destruct (decide (BADNESS t = 0)); [done|apply Hnext].
  - destruct (head bh s) as [[s2 b]|f] eqn:Eb.
    2: { rewrite (bind_err (head bh) _ _ _ Eb). apply bind_err. rewrite (bind_ok _ _ _ _ _ E). by apply bind_err. }
    pose proof (head_again _ _ _ _ Eb) as ->. rewrite (bind_ok (head bh) _ _ _ _ Eb).
    rewrite (bind_ok _ _ s s (bool_decide (BADNESS t < BADNESS b))).
    2: { by rewrite (bind_ok _ _ _ _ _ E), (bind_ok _ _ _ _ _ Eb). }
    case_bool_decide as Hlt; [rewrite decide_True by done|rewrite decide_False by done; apply Hnext].
    change ((nothing;; ?k) s) with (k s). rewrite (bind_ok _ _ _ _ _ E).
    destruct (decide (BADNESS t = 0)); [done|apply Hnext].
Qed.

Lemma getblk_quiet fuel : forall dev block s,
  getblk_at nothing nothing ring_links table_rounds fuel dev block s = getblk fuel dev block s.
Proof.
  induction fuel as [|fuel IH]; intros dev block s; [done|]. cbn [getblk_at getblk]. apply bind_ext.
  - apply bind_ext; [apply get_hash_table_quiet|]. intros s1 bh _. case_decide; [done|].
    change ((nothing;; ?k) s1) with (k s1). apply bind_ext; [done|]. intros s2 a _.
    apply bind_ext; [apply scan_quiet|]. intros s3 bh2 _. change ((nothing;; ?k) s3) with (k s3).
    case_decide; [done|]. apply bind_ext; [done|]. intros s4 [] _. reflexivity.
  - intros s1 [bh|] _; [done|]. change ((nothing;; ?k) s1) with (k s1). apply IH.
Qed.

(** ** Safety

    While a task sleeps, and at every [tick], the others may change the cache in
    any way that keeps the invariant. *)

Definition fair (all : list Z) (s : bsys) : Prop :=
  good all (bc s) /\ Forall (fun f => forall c, good all c -> good all (f c)) (wakes s).

(** Only task 0 stops, by going to sleep. *)
Definition may_stop (zero : bool) (f : fault) : Prop :=
  f = Fuel \/ zero = true /\ f = Panic "task[0] trying to sleep".

Lemma fair_in_cache all c s : fair all s -> good all c -> fair all (in_cache c s).
Proof. by intros [_ H] Hc. Qed.

Section safety.
Variables (all : list Z) (dev block : Z) (zero : bool).
Variables (tick : M bsys unit) (links : cache -> nat) (rounds : bsys -> nat).

Definition runs_in (s : bsys) : Prop := fair all s /\ task0 s = zero.

Hypothesis Hdev : 0 < dev < 2 ^ 16.
Hypothesis Htick : hoare (may_stop zero) runs_in tick (fun _ => runs_in).

Abbreviation safe := (hoare (may_stop zero)).
Definition null_or_head (a : Z) (s : bsys) : Prop := runs_in s /\ (a = 0 \/ a ∈ all).

(** A point of preemption, and a read of a head. *)
Lemma tick_step {A} (k : M bsys A) Q : safe runs_in k Q -> safe runs_in (tick;; k) Q.
Proof. intros Hk. eapply triple_bind; [exact Htick|]. by intros []. Qed.

Lemma runs_head s a : runs_in s -> a ∈ all -> head a s = Ok (s, hd (bc s) a).
Proof. intros [[(r & ch & H) _] _] Ha. by apply head_eq, (wf_known H a). Qed.

Lemma head_step {A} a (k : buffer_head -> M bsys A) Q : a ∈ all ->
  (forall s, runs_in s -> safe (eq s) (k (hd (bc s) a)) Q) -> safe runs_in (h ← head a; k h) Q.
Proof. intros Ha Hk. apply triple_step. intros s Hs. exists s, (hd (bc s) a). split; [by apply runs_head|by apply Hk]. Qed.

Lemma runs_nonnull s a : runs_in s -> a ∈ all -> a <> 0.
Proof. intros [[(r & ch & H) _] _]. apply (wf_nonnull H). Qed.

(** The links of a well-formed cache lead to heads. *)
Lemma good_links c : good all c ->
  free_list c ∈ all /\ (forall k, 0 ≤ k < 307 -> bucket k c = 0 \/ bucket k c ∈ all) /\
  forall a, a ∈ all -> b_next_free (hd c a) ∈ all /\ (b_next (hd c a) = 0 \/ b_next (hd c a) ∈ all).
Proof.
  intros (r & ch & H). pose proof (wf_linked _ _ _ _ H) as Hl. split; [|split].
  - pose proof (lk_head _ _ _ _ Hl) as Hh. apply (lk_sub _ _ _ _ Hl). destruct r; [done|]. injection Hh as ->.
    apply elem_of_cons. by left.
  - intros k Hk. destruct (decide (bucket k c = 0)) as [|Hb]; [by left|right].
    apply (lk_chain _ _ _ _ Hl k Hk). by apply (bucket_member c all r ch k Hl).
  - intros a Ha. split; [by apply (lk_sub _ _ _ _ Hl), (ring_closed c all r ch a Hl), (wf_ring _ _ _ _ H)|].
    destruct (decide (nh c a = 0)) as [|Hn]; [by left|right].
    apply (lk_known _ _ _ _ Hl). by apply (hash_links_known c all r ch a Hl (wf_hashed_or_not H a Ha)).
Qed.

Lemma runs_good s : runs_in s -> good all (bc s).
Proof. by intros [[H _] _]. Qed.

Lemma find_chain_safe fuel : forall tmp, tmp = 0 \/ tmp ∈ all ->
  safe runs_in (find_chain_at tick fuel tmp dev block) null_or_head.
Proof.
  induction fuel as [|fuel IH]; intros tmp Ht; cbn [find_chain_at].
  1: case_decide; [apply triple_ret; intros s Hs; by split; [|left]|by intros s _; left].
  case_decide; [apply triple_ret; intros s Hs; by split; [|left]|]. destruct Ht as [?|Ht]; [done|].
  apply tick_step, head_step; [done|]. intros s Hs. destruct (same_block _ _ _).
  { apply triple_ret. intros s' <-. split; [done|by right]. }
  apply (triple_pre _ runs_in); [by intros s' <-|]. apply tick_step, head_step; [done|]. intros s2 Hs2.
  eapply triple_pre; [|apply IH, (good_links _ (runs_good _ Hs2)), Ht]. by intros s' <-.
Qed.

Lemma find_buffer_safe : safe runs_in (find_buffer_at tick links dev block) null_or_head.
Proof.
  apply triple_step. intros s Hs. destruct (runs_good _ Hs) as (r & ch & H).
  pose proof (hash_eq dev block s (lk_table _ _ _ _ (wf_linked _ _ _ _ H))) as E. eexists s, _. split; [exact E|].
  apply triple_step. intros s' <-. exists s, s. split; [done|].
  eapply triple_pre; [|apply find_chain_safe]; [by intros s' <-|].
  apply (good_links _ (runs_good _ Hs)), hashfn_range.
Qed.

Lemma sleep_safe : safe runs_in sleep (fun _ => runs_in).
Proof.
  intros s [[Hg Hw] Hz]. unfold sleep. rewrite (bind_ok get _ s s s) by done.
  destruct (task0 s); [right; by split|]. destruct (wakes s) as [|f l] eqn:E; [by left|].
  inversion_clear Hw as [|? ? Hf Hl]. split; [split; [by apply Hf|done]|done].
Qed.

Lemma wait_safe fuel bh : bh ∈ all ->
  safe runs_in (wait_on_buffer_loop fuel bh) (fun _ => runs_in).
Proof.
  intros Hb. induction fuel as [|fuel IH]; [by intros s _; left|]. cbn [wait_on_buffer_loop].
  apply head_step; [done|]. intros s Hs. case_decide as Hl.
  - eapply triple_bind; [exact (triple_at _ _ _ sleep_safe s Hs)|]. intros []. exact IH.
  - apply triple_ret. by intros s' <-.
Qed.

Lemma wait_on_buffer_safe bh : bh ∈ all -> safe runs_in (wait_on_buffer bh) (fun _ => runs_in).
Proof.
  intros Hb. unfold wait_on_buffer. apply triple_step. intros s Hs. exists s, s. split; [done|].
  by apply (triple_at _ _ _ (wait_safe _ bh Hb)).
Qed.

Lemma count_step {A} bh (g : Z -> Z) (k : M bsys A) Q : bh ∈ all -> safe runs_in k Q ->
  safe runs_in (set_bh bh (fun h => h <| b_count := u8 (g (b_count h)) |>);; k) Q.
Proof.
  intros Hb Hk. apply triple_step. intros s [Hs Hz]. eexists _, tt. split.
  - apply set_bh_eq. destruct (proj1 Hs) as (r & ch & H). by apply (wf_known H).
  - eapply triple_pre; [|exact Hk]. intros s' <-. split; [|done]. apply fair_in_cache; [done|].
    destruct (count_same g). apply good_updh; [apply Hs|done..].
Qed.

Definition found (bh : Z) (s : bsys) : Prop := runs_in s /\ (bh = 0 \/ holds all (bc s) dev block bh).

Lemma get_hash_table_safe fuel : safe runs_in (get_hash_table_loop_at tick links fuel dev block) found.
Proof.
  induction fuel as [|fuel IH]; [by intros s _; left|]. cbn [get_hash_table_loop_at].
  eapply triple_bind; [exact find_buffer_safe|]. intros bh. case_decide as H0.
  { apply triple_ret. intros s [Hs _]. split; [done|by left]. }
  apply (triple_pure _ (bh ∈ all)); [by intros s [_ [?|?]]|]. intros Hb.
  apply (triple_pre _ runs_in); [by intros s [? _]|].
  apply tick_step, (count_step bh (fun n => n + 1)), tick_step; [done|].
  eapply triple_bind; [by apply wait_on_buffer_safe|]. intros []. apply tick_step, head_step; [done|]. intros s Hs.
  destruct (same_block (hd (bc s) bh) dev block) eqn:Esb.
  - apply triple_ret. intros s' <-. split; [done|]. right. split; [done|]. split; [|done].
    apply same_block_spec in Esb as [-> _]. lia.
  - eapply triple_pre; [|apply tick_step, (count_step bh (fun n => n - 1)), tick_step, IH; done]. by intros s' <-.
Qed.

Lemma scan_safe fuel : forall tmp bh, tmp ∈ all -> bh = 0 \/ bh ∈ all ->
  safe runs_in (scan_at tick fuel tmp bh) null_or_head.
Proof.
  induction fuel as [|fuel IH]; intros tmp bh Ht Hb; [by intros s _; left|]. cbn [scan_at]. cbv zeta.
  assert (forall bh', bh' = 0 \/ bh' ∈ all -> safe runs_in (tick;; t ← head tmp; s ← get;
    if decide (b_next_free t <> free_list (bc s)) then tick;; scan_at tick fuel (b_next_free t) bh' else mret bh')
    null_or_head) as Hnext.
  { intros bh' Hb'. apply tick_step, head_step; [done|]. intros s Hs.
    apply triple_step. intros s' <-. exists s, s. split; [done|]. apply (triple_pre _ runs_in); [by intros s' <-|].
    case_decide; [|by apply triple_ret; intros s' Hs'; split].
    apply tick_step, IH; [|done]. by apply (good_links _ (runs_good _ Hs)). }
  apply head_step; [done|]. intros s Hs. apply (triple_pre _ runs_in); [by intros s' <-|].
  destruct (decide (b_count _ <> 0)); [by apply Hnext|]. apply tick_step.
  eapply (triple_bind _ _ (fun _ => runs_in)).
  - destruct (decide (bh = 0)) as [|Hb0]; [by apply triple_ret|]. destruct Hb as [?|Hb]; [done|].
    apply head_step; [done|]. intros s1 Hs1. apply (triple_pre _ runs_in); [by intros s' <-|].
    apply head_step; [done|]. intros s2 Hs2. apply triple_ret. by intros s' <-.
  - intros []; [|by apply Hnext]. apply tick_step, head_step; [done|]. intros s1 Hs1.
    apply (triple_pre _ runs_in); [by intros s' <-|].
    destruct (decide (BADNESS _ = 0)); [apply triple_ret; intros s2 Hs2; split; [done|by right]|].
    apply Hnext. by right.
Qed.

Definition result (o : option Z) (s : bsys) : Prop :=
  runs_in s /\ match o with Some bh => holds all (bc s) dev block bh | None => True end.

Lemma claim_safe bh : bh ∈ all -> safe runs_in (claim_at nothing dev block bh) result.
Proof.
  intros Hb. apply head_step; [done|]. intros s Hs.
  assert (safe (eq s) (mret None) result) as Hnone by (apply triple_ret; by intros s' <-).
  do 2 (case_decide; [done|]). apply triple_step. intros s' <-. destruct (runs_good _ Hs) as (r & ch & Hwf).
  destruct (find_buffer_spec dev block Hwf) as (a & E & Ha). exists s, a. split; [done|].
  destruct Ha as [[-> Habs]|Ha].
  - rewrite decide_False by auto. intros s' <-. change ((nothing;; ?k) s) with (k s).
    pose proof (claim_eq dev block bh Hwf Hb (Some bh) s) as Ec. rewrite in_cache_id in Ec. rewrite Ec.
    split; [|by eapply holds_claimed]. split; [|apply Hs]. apply fair_in_cache; [apply Hs|]. eexists _, _.
    apply (wf_claimed dev block bh Hwf Hb); [lia|done].
  - rewrite decide_True by (by apply (wf_nonnull Hwf), Ha). done.
Qed.

Lemma getblk_once_safe : safe runs_in (getblk_once_at tick nothing links rounds dev block) result.
Proof.
  unfold getblk_once_at, get_hash_table_at. eapply (triple_bind _ _ found).
  { apply triple_step. intros s Hs. exists s, s. split; [done|]. by apply (triple_at _ _ _ (get_hash_table_safe _)). }
  intros bh. case_decide as Hbh.
  { apply triple_ret. intros s [Hs [?|Ha]]; [done|by split]. }
  apply (triple_pre _ runs_in); [by intros s [? _]|].
  apply tick_step, triple_step. intros s Hs. exists s, s. split; [done|].
  apply (triple_pre _ runs_in); [by intros s' <-|]. eapply triple_bind.
  { apply scan_safe; [apply (good_links _ (runs_good _ Hs))|by left]. }
  intros a. apply (triple_pure _ (a = 0 \/ a ∈ all)); [by intros s' [_ ?]|]. intros Ha.
  apply (triple_pre _ runs_in); [by intros s' [? _]|]. apply tick_step. case_decide as Ha0.
  - eapply triple_bind; [exact sleep_safe|]. intros []. apply tick_step, triple_ret. by intros s' Hs'.
  - destruct Ha as [?|Ha]; [done|]. eapply triple_bind; [by apply wait_on_buffer_safe|]. intros [].
    by apply tick_step, claim_safe.
Qed.

Lemma getblk_at_safe fuel : safe runs_in (getblk_at tick nothing links rounds fuel dev block)
  (fun bh s => runs_in s /\ holds all (bc s) dev block bh).
Proof.
  induction fuel as [|fuel IH]; [by intros s _; left|]. cbn [getblk_at].
  eapply triple_bind; [exact getblk_once_safe|]. intros [bh|]; [by apply triple_ret|].
  eapply triple_pre; [|apply tick_step, IH]. by intros s [Hs _].
Qed.
End safety.


(** ** The timer between the tests and the claim *)

Section race.
Context {all : list Z} {c : cache} {r : list Z} {ch : Z -> list Z} (s : bsys) (a : Z).
Hypothesis Hwf : wf all c r ch.
Hypothesis Ha : a ∈ all.
Hypothesis Hleast : least_bad c r a.
Hypothesis Hclean : BADNESS (hd c a) = 0.

Lemma chosen : choose c r 0 = a.
Proof.
  pose proof (a_min_least c r a Hleast) as E. destruct (choose_ring all c r ch Hwf) as [[_ Hall]|[_ Hl]].
  - destruct Hleast as (? & ? & _ & Hc & _). by destruct (Hall a Ha Hc).
  - rewrite (a_min_least c r _ Hl) in E. by injection E.
Qed.

(** A pass of [getblk] up to the claim: nothing has changed. *)
Lemma up_to_claim dev block window : absent all c dev block ->
  getblk_once_at nothing window ring_links table_rounds dev block (in_cache c s) =
  (window;; set_bh a take;; remove_from_queues a;; set_bh a (assign dev block);; insert_into_queues a;;
   mret (Some a)) (in_cache c s).
Proof.
  intros Habs. destruct (badness_zero _ (wf_typed _ _ _ _ Hwf a Ha) Hclean) as [Hlock Hdirt].
  unfold getblk_once_at.
  rewrite (bind_ok _ _ _ (in_cache c s) 0) by (rewrite get_hash_table_quiet; by apply (hash_table_miss dev block s Hwf)).
  rewrite decide_False by auto. change ((nothing;; ?k) ?s0) with (k s0).
  rewrite (bind_ok get _ _ (in_cache c s) (in_cache c s)) by done.
  rewrite (bind_ok _ _ _ (in_cache c s) a).
  2: { rewrite scan_quiet. unfold ring_links. rewrite (scan_ring all (in_cache c s) r ch Hwf).
       change (bc (in_cache c s)) with c. by rewrite chosen. }
  change ((nothing;; ?k) ?s0) with (k s0). rewrite decide_False by by apply (wf_nonnull Hwf).
  rewrite (bind_ok _ _ _ (in_cache c s) tt).
  2: { unfold wait_on_buffer. rewrite (bind_ok get _ _ (in_cache c s) (in_cache c s)) by done.
       apply (wait_unlocked s); [by apply (wf_known Hwf)|done]. }
  change ((nothing;; ?k) ?s0) with (k s0). unfold claim_at.
  rewrite (bind_ok _ _ _ _ _ (head_eq a (in_cache c s) (wf_known Hwf a Ha))). change (bc (in_cache c s)) with c.
  destruct Hleast as (? & ? & _ & Hc & _). rewrite decide_False by auto. rewrite decide_False by auto.
  destruct (find_buffer_spec dev block (s := in_cache c s) Hwf) as (y & E & Hy).
  rewrite (bind_ok _ _ _ _ _ E). destruct Hy as [[-> _]|(H1 & H2 & H3)]; [by rewrite decide_False by auto|].
  specialize (Habs y H1 H2). change (bc (in_cache c s)) with c in H3. congruence.
Qed.
End race.

(** What another task does that calls [getblk] in the window. *)
Definition other_getblk (dev block : Z) : M bsys unit := _ ← getblk 1 dev block; mret tt.

(** C33.  The claim of a buffer is a race.  Two tasks ask for blocks that are not
    cached, and the timer switches from the first to the second between the last
    test of the first and its claim.  Both calls return the same buffer, with a
    use count of 1; it holds the block of the first task, and when the blocks
    differ the second task has a buffer with the wrong block. *)
Theorem getblk_race all c r ch s a dev block dev' block' :
  wf all c r ch -> a ∈ all -> least_bad c r a -> BADNESS (hd c a) = 0 ->
  0 < dev < 2 ^ 16 -> 0 < dev' < 2 ^ 16 -> absent all c dev block -> absent all c dev' block' ->
  exists c1 c2, getblk 1 dev' block' (in_cache c s) = Ok (in_cache c1 s, a) /\ holds all c1 dev' block' a /\
    getblk_at nothing (other_getblk dev' block') ring_links table_rounds 1 dev block (in_cache c s) =
      Ok (in_cache c2 s, a) /\
    holds all c2 dev block a /\ b_count (hd c2 a) = 1 /\
    (u32 block <> u32 block' \/ dev <> dev' -> ~ holds all c2 dev' block' a).
Proof.
  intros Hwf Ha Hl Hb Hd Hd' Habs Habs'.
  assert (getblk 1 dev' block' (in_cache c s) = Ok (in_cache (claimed c dev' block' a) s, a)) as E.
  { cbn [getblk]. destruct (badness_zero _ (wf_typed _ _ _ _ Hwf a Ha) Hb) as [Hlock Hdirt].
    erewrite bind_ok by (rewrite (getblk_once_miss dev' block' s Hwf a Habs' Ha Hl Hlock); by rewrite decide_True). done. }
  pose proof (wf_claimed dev' block' a Hwf Ha (conj (Z.lt_le_incl _ _ (proj1 Hd')) (proj2 Hd')) Habs') as Hwf'.
  set (c1 := claimed c dev' block' a) in *. exists c1, (claimed c1 dev block a).
  pose proof (holds_claimed all c1 _ _ dev block a Hd Hwf' Ha) as Hh.
  split; [exact E|]. split; [exact (holds_claimed all c r ch dev' block' a Hd' Hwf Ha)|]. split; [|split; [exact Hh|split]].
  - cbn [getblk_at]. rewrite (bind_ok _ _ _ (in_cache (claimed c1 dev block a) s) (Some a)); [done|]. rewrite (up_to_claim s a Hwf Ha Hl Hb dev block _ Habs).
    rewrite (bind_ok (other_getblk dev' block') _ _ (in_cache c1 s) tt) by exact (bind_ok _ (fun _ => mret tt) _ _ _ E).
    apply (claim_eq dev block a Hwf' Ha (Some a) s).
  - pose proof (claimed_payload dev block a Hwf' Ha a) as Ep. rewrite decide_True in Ep by done.
    revert Ep. generalize (hd (claimed c1 dev block a) a), (hd c1 a). intros h h1 Ep. by injection Ep.
  - intros Hne (_ & _ & Hs). destruct Hh as (_ & _ & Hs2). apply same_block_spec in Hs as [E1 E2], Hs2 as [E3 E4].
    destruct Hne as [Hne|Hne]; apply Hne; congruence.
Qed.

(** ** Witnesses *)

(** At every tick another task uses the first buffer. *)
Definition user : M bsys unit := modify (fun s => in_cache (updh 0x1000 bump (bc s)) s).


(** It is not the only way to end: the call returns the second buffer. *)
Example getblk_user :
  match getblk_at user nothing (fun _ => 9%nat) (fun _ => 9%nat) 5 0x300 7 (Bsys small_cache [] false) with
  | Ok (_, bh) => bh = 0x1024
  | Err _ => False
  end.
Proof. by vm_compute. Qed.

Lemma getblk_race_witness :
  exists c1 c2, getblk 1 0x300 8 (in_cache small_cache (small small_cache)) = Ok (in_cache c1 (small small_cache), 0x1000) /\
    getblk_at nothing (other_getblk 0x300 8) ring_links table_rounds 1 0x300 7 (in_cache small_cache (small small_cache)) =
      Ok (in_cache c2 (small small_cache), 0x1000) /\
    ~ holds (addrs 0x1000 3) c2 0x300 8 0x1000.
Proof.
  destruct (getblk_race (addrs 0x1000 3) small_cache (addrs 0x1000 3) (fun _ => []) (small small_cache) 0x1000
    0x300 7 0x300 8 small_wf) as (c1 & c2 & E1 & _ & E2 & _ & _ & Hn).
  - vm_compute. set_solver.
  - exists [], [0x1024; 0x1048]. split; [reflexivity|]. split; [reflexivity|].
    split; [by intros x ?%elem_of_nil|]. intros x Hx _. rewrite !list.elem_of_cons in Hx.
    destruct Hx as [->|[->|?%elem_of_nil]]; [vm_compute; discriminate..|done].
  - reflexivity.
  - done.
  - done.
  - apply small_absent.
  - apply small_absent.
  - exists c1, c2. split; [exact E1|]. split; [exact E2|]. apply Hn. left. discriminate.
Defined.
