(* ===== verification/Cpu.v ===== *)
(** * The processor as the string functions use it

    include/string.h is inline assembly.  Its instructions are modelled one by
    one over the registers, the flags the branches test, the direction flag and
    a flat memory of bytes.  A register holds an unsigned 32-bit word.  A branch
    target that is jumped back to becomes a recursive function with fuel. *)
From S2P Require Import Prelude Words.

Record cpu := Cpu {
  eax : Z; ebx : Z; ecx : Z; edx : Z; esi : Z; edi : Z;
  zf : bool; sf : bool; lf : bool; (** [SF <> OF], what [jl] tests *)
  df : bool;
  mem : Z -> Z
}.

#[export] Instance eta_cpu : Eta cpu := fun r =>
  Cpu (eax r) (ebx r) (ecx r) (edx r) (esi r) (edi r) (zf r) (sf r) (lf r) (df r) (mem r).

Definition s8 (b : Z) : Z := if decide (b < 128) then b else b - 256.
Definition al (s : cpu) : Z := eax s mod 256.
Definition ah (s : cpu) : Z := eax s / 256 mod 256.
Definition set_low (r b : Z) : Z := r - r mod 256 + b.
Definition store (a v : Z) (m : Z -> Z) : Z -> Z := fun x => if decide (x = a) then v else m x.
(** Where a string instruction moves its pointer. *)
Definition next (d : bool) (a : Z) : Z := u32 (if d then a - 1 else a + 1).

(** Flags of the byte subtraction [a - b]. *)
Definition cmp_flags (a b : Z) (s : cpu) : cpu :=
  s <| zf := bool_decide (a = b) |> <| sf := bool_decide (128 ≤ u8 (a - b)) |> <| lf := bool_decide (s8 a < s8 b) |>.
(** Flags of a logical operation with the result [v] of [w] bits. *)
Definition logic_flags (w v : Z) (s : cpu) : cpu :=
  let neg := bool_decide (2 ^ (w - 1) ≤ v) in s <| zf := bool_decide (v = 0) |> <| sf := neg |> <| lf := neg |>.

Definition cld : M cpu unit := modify (fun s => s <| df := false |>).
Definition std : M cpu unit := modify (fun s => s <| df := true |>).
Definition lodsb : M cpu unit :=
  modify (fun s => s <| eax := set_low (eax s) (mem s (esi s)) |> <| esi := next (df s) (esi s) |>).
Definition stosb : M cpu unit :=
  modify (fun s => s <| mem := store (edi s) (al s) (mem s) |> <| edi := next (df s) (edi s) |>).
Definition movsb : M cpu unit :=
  modify (fun s => s <| mem := store (edi s) (mem s (esi s)) (mem s) |>
                     <| esi := next (df s) (esi s) |> <| edi := next (df s) (edi s) |>).
Definition scasb : M cpu unit :=
  modify (fun s => cmp_flags (al s) (mem s (edi s)) s <| edi := next (df s) (edi s) |>).
Definition cmpsb : M cpu unit :=
  modify (fun s => cmp_flags (mem s (esi s)) (mem s (edi s)) s
                     <| esi := next (df s) (esi s) |> <| edi := next (df s) (edi s) |>).
Definition testb_al : M cpu unit := modify (fun s => logic_flags 8 (al s) s).
Definition movb_al_ah : M cpu unit :=
  modify (fun s => s <| eax := eax s + (al s - ah s) * 256 |>).
Definition cmpb_ah_al : M cpu unit := modify (fun s => cmp_flags (al s) (ah s) s).
(** [cmpb $0,a] and [testl r,r] *)
Definition cmpb_0 (a : cpu -> Z) : M cpu unit := modify (fun s => cmp_flags (mem s (a s)) 0 s).
Definition testl (r : cpu -> Z) : M cpu unit := modify (fun s => logic_flags 32 (r s) s).

(** [incl], [decl], [notl], [negl] and [xorl r,r] on the register [r], with [put]
    to write it back; [notl] leaves the flags alone. *)
Definition step_flags (v : Z) (overflow : bool) (s : cpu) : cpu :=
  let neg := bool_decide (2 ^ 31 ≤ v) in
  s <| zf := bool_decide (v = 0) |> <| sf := neg |> <| lf := xorb neg overflow |>.
Definition incl (r : cpu -> Z) (put : Z -> cpu -> cpu) : M cpu unit :=
  modify (fun s => step_flags (u32 (r s + 1)) (bool_decide (r s = 2 ^ 31 - 1)) (put (u32 (r s + 1)) s)).
Definition decl (r : cpu -> Z) (put : Z -> cpu -> cpu) : M cpu unit :=
  modify (fun s => step_flags (u32 (r s - 1)) (bool_decide (r s = 2 ^ 31)) (put (u32 (r s - 1)) s)).
Definition negl (r : cpu -> Z) (put : Z -> cpu -> cpu) : M cpu unit :=
  modify (fun s => step_flags (u32 (- r s)) (bool_decide (r s = 2 ^ 31)) (put (u32 (- r s)) s)).
Definition notl (r : cpu -> Z) (put : Z -> cpu -> cpu) : M cpu unit :=
  modify (fun s => put (u32 (- r s - 1)) s).
Definition xorl (put : Z -> cpu -> cpu) : M cpu unit := modify (fun s => logic_flags 32 0 (put 0 s)).
(** [movl] from an operand outside the registers, and between registers. *)
Definition movl (v : Z) (put : Z -> cpu -> cpu) : M cpu unit := modify (put v).
Definition movr (r : cpu -> Z) (put : Z -> cpu -> cpu) : M cpu unit := modify (fun s => put (r s) s).

Definition to_eax (v : Z) (s : cpu) : cpu := s <| eax := v |>.
Definition to_ebx (v : Z) (s : cpu) : cpu := s <| ebx := v |>.
Definition to_ecx (v : Z) (s : cpu) : cpu := s <| ecx := v |>.
Definition to_edx (v : Z) (s : cpu) : cpu := s <| edx := v |>.
Definition to_esi (v : Z) (s : cpu) : cpu := s <| esi := v |>.
Definition to_edi (v : Z) (s : cpu) : cpu := s <| edi := v |>.

Definition reg (r : cpu -> Z) : M cpu Z := gets r.

(** Branches: the code when the branch is taken, the code behind it. *)
Definition branch (c : cpu -> bool) (taken behind : M cpu unit) : M cpu unit :=
  b ← gets c; if (b : bool) then taken else behind.
Abbreviation je := (branch zf).
Abbreviation jne := (branch (fun s => negb (zf s))).
Abbreviation js := (branch sf).
Abbreviation jl := (branch lf).

(** [rep], [repe] and [repne]: test [ecx], count it down without flags, execute,
    test [ZF] for the latter two. *)
Fixpoint rep (fuel : nat) (i : M cpu unit) : M cpu unit :=
  c ← reg ecx;
  if decide (c = 0) then mret tt else
  match fuel with O => stop Fuel | S fuel => movl (c - 1) to_ecx;; i;; rep fuel i end.
Fixpoint repe (fuel : nat) (i : M cpu unit) : M cpu unit :=
  c ← reg ecx;
  if decide (c = 0) then mret tt else
  match fuel with O => stop Fuel | S fuel => movl (c - 1) to_ecx;; i;; je (repe fuel i) (mret tt) end.
Fixpoint repne (fuel : nat) (i : M cpu unit) : M cpu unit :=
  c ← reg ecx;
  if decide (c = 0) then mret tt else
  match fuel with O => stop Fuel | S fuel => movl (c - 1) to_ecx;; i;; jne (repne fuel i) (mret tt) end.
