(* ===== verification/StringH.v ===== *)
(** * The string functions

    include/string.h, instruction by instruction.  A function sets the registers
    its operand constraints name and runs its listing; [name_k] is the code from
    the label [k] on.  Arguments are [unsigned] words: a negative count is given
    as its two's complement. *)
From S2P Require Import Prelude Words Cpu.

(** ** Copying *)

Fixpoint copy_1 (fuel : nat) : M cpu unit :=
  match fuel with
  | O => stop Fuel
  | S fuel => lodsb;; stosb;; testb_al;; jne (copy_1 fuel) (mret tt)
  end.

Definition strcpy (fuel : nat) (dest src : Z) : M cpu Z :=
  movl src to_esi;; movl dest to_edi;;
  cld;; copy_1 fuel;; mret dest.

Fixpoint strncpy_1 (fuel : nat) : M cpu unit :=
  match fuel with
  | O => stop Fuel
  | S fuel =>
      decl ecx to_ecx;;
      js (mret tt) (lodsb;; stosb;; testb_al;; jne (strncpy_1 fuel) (rep fuel stosb))
  end.

Definition strncpy (fuel : nat) (dest src count : Z) : M cpu Z :=
  movl src to_esi;; movl dest to_edi;; movl count to_ecx;;
  cld;; strncpy_1 fuel;; mret dest.

Definition strcat (fuel : nat) (dest src : Z) : M cpu Z :=
  movl src to_esi;; movl dest to_edi;; movl 0 to_eax;; movl 0xffffffff to_ecx;;
  cld;; repne fuel scasb;; decl edi to_edi;; copy_1 fuel;; mret dest.

Definition strncat_2 : M cpu unit := xorl to_eax;; stosb.
Fixpoint strncat_1 (fuel : nat) : M cpu unit :=
  match fuel with
  | O => stop Fuel
  | S fuel =>
      decl ecx to_ecx;;
      js strncat_2 (lodsb;; stosb;; testb_al;; jne (strncat_1 fuel) strncat_2)
  end.

Definition strncat (fuel : nat) (dest src count : Z) : M cpu Z :=
  movl src to_esi;; movl dest to_edi;; movl 0 to_eax;; movl 0xffffffff to_ecx;;
  cld;; repne fuel scasb;; decl edi to_edi;; movl count to_ecx;; strncat_1 fuel;; mret dest.

(** ** Comparing *)

(** [movl $1,%eax; jl; negl %eax]: the result of a comparison that differs. *)
Definition sign_result : M cpu unit := movl 1 to_eax;; jl (mret tt) (negl eax to_eax).

Fixpoint strcmp_1 (fuel : nat) : M cpu unit :=
  match fuel with
  | O => stop Fuel
  | S fuel => lodsb;; scasb;; jne sign_result (testb_al;; jne (strcmp_1 fuel) (xorl to_eax))
  end.

Definition strcmp (fuel : nat) (cs ct : Z) : M cpu Z :=
  movl cs to_edi;; movl ct to_esi;;
  cld;; strcmp_1 fuel;; reg eax.

Fixpoint strncmp_1 (fuel : nat) : M cpu unit :=
  match fuel with
  | O => stop Fuel
  | S fuel =>
      decl ecx to_ecx;;
      js (xorl to_eax) (lodsb;; scasb;; jne sign_result (testb_al;; jne (strncmp_1 fuel) (xorl to_eax)))
  end.

Definition strncmp (fuel : nat) (cs ct count : Z) : M cpu Z :=
  movl cs to_edi;; movl ct to_esi;; movl count to_ecx;;
  cld;; strncmp_1 fuel;; reg eax.

(** ** Searching *)

Definition strchr_2 : M cpu unit := movr esi to_eax;; decl eax to_eax.
Fixpoint strchr_1 (fuel : nat) : M cpu unit :=
  match fuel with
  | O => stop Fuel
  | S fuel =>
      lodsb;; cmpb_ah_al;;
      je strchr_2 (testb_al;; jne (strchr_1 fuel) (movl 1 to_esi;; strchr_2))
  end.

Definition strchr (fuel : nat) (s c : Z) : M cpu Z :=
  movl s to_esi;; movl c to_eax;;
  cld;; movb_al_ah;; strchr_1 fuel;; reg eax.

Fixpoint strrchr_1 (fuel : nat) : M cpu unit :=
  match fuel with
  | O => stop Fuel
  | S fuel =>
      let strrchr_2 := testb_al;; jne (strrchr_1 fuel) (mret tt) in
      lodsb;; cmpb_ah_al;; jne strrchr_2 (movr esi to_edx;; decl edx to_edx;; strrchr_2)
  end.

Definition strrchr (fuel : nat) (s c : Z) : M cpu Z :=
  movl 0 to_edx;; movl s to_esi;; movl c to_eax;;
  cld;; movb_al_ah;; strrchr_1 fuel;; reg edx.

(** [ecx] and [edx] become the length of the string at [ct]. *)
Definition set_length (fuel : nat) (ct : Z) : M cpu unit :=
  movl ct to_edi;; repne fuel scasb;; notl ecx to_ecx;; decl ecx to_ecx.

(** Does the set at [ct] hold [al]?  The answer is in [ZF]. *)
Definition scan_set (fuel : nat) (ct : Z) : M cpu unit :=
  movl ct to_edi;; movr edx to_ecx;; repne fuel scasb.

Fixpoint strspn_1 (fuel : nat) (ct : Z) : M cpu unit :=
  match fuel with
  | O => stop Fuel
  | S fuel => lodsb;; testb_al;; je (mret tt) (scan_set fuel ct;; je (strspn_1 fuel ct) (mret tt))
  end.

Definition strspn (fuel : nat) (cs ct : Z) : M cpu Z :=
  movl 0 to_eax;; movl 0xffffffff to_ecx;; movl cs to_esi;;
  cld;; set_length fuel ct;; movr ecx to_edx;; strspn_1 fuel ct;; decl esi to_esi;;
  r ← reg esi; mret (u32 (r - cs)).

Fixpoint strcspn_1 (fuel : nat) (ct : Z) : M cpu unit :=
  match fuel with
  | O => stop Fuel
  | S fuel => lodsb;; testb_al;; je (mret tt) (scan_set fuel ct;; jne (strcspn_1 fuel ct) (mret tt))
  end.

Definition strcspn (fuel : nat) (cs ct : Z) : M cpu Z :=
  movl 0 to_eax;; movl 0xffffffff to_ecx;; movl cs to_esi;;
  cld;; set_length fuel ct;; movr ecx to_edx;; strcspn_1 fuel ct;; decl esi to_esi;;
  r ← reg esi; mret (u32 (r - cs)).

Fixpoint strpbrk_1 (fuel : nat) (ct : Z) : M cpu unit :=
  match fuel with
  | O => stop Fuel
  | S fuel =>
      lodsb;; testb_al;;
      je (xorl to_esi) (scan_set fuel ct;; jne (strpbrk_1 fuel ct) (decl esi to_esi))
  end.

Definition strpbrk (fuel : nat) (cs ct : Z) : M cpu Z :=
  movl 0 to_eax;; movl 0xffffffff to_ecx;; movl cs to_esi;;
  cld;; set_length fuel ct;; movr ecx to_edx;; strpbrk_1 fuel ct;; reg esi.

Fixpoint strstr_1 (fuel : nat) (ct : Z) : M cpu unit :=
  match fuel with
  | O => stop Fuel
  | S fuel =>
      movl ct to_edi;; movr esi to_eax;; movr edx to_ecx;; repe fuel cmpsb;;
      je (mret tt)
        (modify (fun s => s <| eax := esi s |> <| esi := eax s |>);; incl esi to_esi;;
         cmpb_0 (fun s => u32 (eax s - 1));; jne (strstr_1 fuel ct) (xorl to_eax))
  end.

(** The operand [%4] is the pointer [ct] in memory or in a register the code does not
    write; the constraint [g] allows one it does. *)
Definition strstr (fuel : nat) (cs ct : Z) : M cpu Z :=
  movl 0 to_eax;; movl 0xffffffff to_ecx;; movl cs to_esi;;
  cld;; set_length fuel ct;; movr ecx to_edx;; strstr_1 fuel ct;; reg eax.

Definition strlen (fuel : nat) (s : Z) : M cpu Z :=
  movl s to_edi;; movl 0 to_eax;; movl 0xffffffff to_ecx;;
  cld;; repne fuel scasb;; notl ecx to_ecx;; decl ecx to_ecx;; reg ecx.

(** ** strtok *)

Definition strtok_7 : M cpu unit := testl ebx;; jne (mret tt) (movr ebx to_esi).
Definition strtok_6 : M cpu unit := cmpb_0 ebx;; jne strtok_7 (xorl to_ebx;; strtok_7).
Definition strtok_5 : M cpu unit := xorl to_esi;; strtok_6.

Fixpoint strtok_3 (fuel : nat) (ct : Z) : M cpu unit :=
  match fuel with
  | O => stop Fuel
  | S fuel =>
      lodsb;; testb_al;;
      je strtok_5 (scan_set fuel ct;;
        jne (strtok_3 fuel ct)
          (decl esi to_esi;; cmpb_0 esi;;
           je strtok_5 (modify (fun s => s <| mem := store (esi s) 0 (mem s) |>);; incl esi to_esi;; strtok_6)))
  end.

Fixpoint strtok_2 (fuel : nat) (ct : Z) : M cpu unit :=
  match fuel with
  | O => stop Fuel
  | S fuel =>
      lodsb;; testb_al;;
      je strtok_7 (scan_set fuel ct;;
        je (strtok_2 fuel ct)
          (decl esi to_esi;; cmpb_0 esi;; je strtok_7 (movr esi to_ebx;; strtok_3 fuel ct)))
  end.

Definition strtok_1 (fuel : nat) (ct : Z) : M cpu unit :=
  xorl to_ebx;; movl 0xffffffff to_ecx;; xorl to_eax;; cld;; set_length fuel ct;;
  je strtok_7 (movr ecx to_edx;; strtok_2 fuel ct).

(** The result and the new value of [___strtok]. *)
Definition strtok (fuel : nat) (___strtok s ct : Z) : M cpu (Z * Z) :=
  movl ___strtok to_ebx;; movl s to_esi;;
  testl esi;;
  jne (strtok_1 fuel ct) (testl ebx;; je (mret tt) (movr ebx to_esi;; strtok_1 fuel ct));;
  r ← reg ebx; t ← reg esi; mret (r, t).

(** ** Memory blocks *)

Definition memcpy (fuel : nat) (dest src n : Z) : M cpu Z :=
  movl n to_ecx;; movl src to_esi;; movl dest to_edi;;
  cld;; rep fuel movsb;; mret dest.

Definition memmove (fuel : nat) (dest src n : Z) : M cpu Z :=
  (if decide (dest < src)
   then movl n to_ecx;; movl src to_esi;; movl dest to_edi;; cld;; rep fuel movsb
   else movl n to_ecx;; movl (u32 (src + n - 1)) to_esi;; movl (u32 (dest + n - 1)) to_edi;;
        std;; rep fuel movsb);;
  mret dest.

Definition memcmp (fuel : nat) (cs ct count : Z) : M cpu Z :=
  movl 0 to_eax;; movl cs to_edi;; movl ct to_esi;; movl count to_ecx;;
  cld;; repe fuel cmpsb;; je (mret tt) sign_result;; reg eax.

Definition memchr (fuel : nat) (cs c count : Z) : M cpu Z :=
  if decide (count = 0) then mret 0 else
  movl c to_eax;; movl cs to_edi;; movl count to_ecx;;
  cld;; repne fuel scasb;; je (mret tt) (movl 1 to_edi);; decl edi to_edi;; reg edi.

Definition memset (fuel : nat) (s c count : Z) : M cpu Z :=
  movl c to_eax;; movl s to_edi;; movl count to_ecx;;
  cld;; rep fuel stosb;; mret s.
