(* ===== verification/Strings.v ===== *)
(** * What the string functions compute

    Strings as lists of bytes in memory, the loops of the listings on them, and
    the functional behaviour of the functions of include/string.h. *)
From S2P Require Import Prelude Words Cpu StringH.

(** ** Bytes in memory *)

Fixpoint bytes_at (m : Z -> Z) (a : Z) (l : list Z) : Prop :=
  match l with [] => True | x :: l => m a = x /\ bytes_at m (a + 1) l end.

Definition is_char (x : Z) : Prop := 0 < x < 256.

(** The characters [l] and a [NUL] at [a], not at the very end of the space. *)
Definition str_at (m : Z -> Z) (a : Z) (l : list Z) : Prop :=
  bytes_at m a (l ++ [0]) /\ Forall is_char l /\ 0 ≤ a /\ a + Z.of_nat (length l) + 1 < 2 ^ 32.

(** [m'] is [m] after moving [n] bytes from [src] to [dest]. *)
Definition copied (m m' : Z -> Z) (dest src n : Z) : Prop := forall x,
  m' x = if decide (dest ≤ x < dest + n) then m (src + (x - dest)) else m x.

Lemma str_at_nil m a : str_at m a [] -> m a = 0 /\ 0 ≤ a /\ a + 1 < 2 ^ 32.
Proof. intros ([H _] & _ & ? & E). cbn [length] in E. lia. Qed.

Lemma str_at_cons m a x l :
  str_at m a (x :: l) -> m a = x /\ is_char x /\ str_at m (a + 1) l /\ 0 ≤ a /\ a + 1 < 2 ^ 32.
Proof.
  intros ([Hx H] & Hc & Ha & E). apply list.Forall_cons in Hc as [Hx' Hc]. cbn [length] in E.
  split; [done|]. split; [done|]. split; [|lia]. split; [done|]. split; [done|]. lia.
Qed.

Lemma bytes_at_lookup m l : forall a i x, bytes_at m a l -> l !! i = Some x -> m (a + Z.of_nat i) = x.
Proof.
  induction l as [|y l IH]; intros a [|i] x; cbn [bytes_at]; try done.
  - intros [Hy _] [= <-]. rewrite <-Hy. f_equal. lia.
  - intros [_ H] E. rewrite <-(IH (a + 1) i x H E). f_equal. lia.
Qed.

Lemma next_up a : 0 ≤ a -> a + 1 < 2 ^ 32 -> next false a = a + 1.
Proof. intros. unfold next. apply u32_small. lia. Qed.

Lemma set_low_mod r b : 0 ≤ b < 256 -> set_low r b mod 256 = b.
Proof.
  intros Hb. unfold set_low. pose proof (Z.div_mod r 256 ltac:(lia)).
  replace (r - r mod 256 + b) with (b + (r / 256) * 256) by lia. rewrite Z.mod_add by lia. by apply Z.mod_small.
Qed.

Lemma set_low_div r b : 0 ≤ b < 256 -> set_low r b / 256 = r / 256.
Proof.
  intros Hb. unfold set_low. pose proof (Z.div_mod r 256 ltac:(lia)).
  replace (r - r mod 256 + b) with (b + (r / 256) * 256) by lia. rewrite Z.div_add, Z.div_small by lia. lia.
Qed.

Lemma store_at_eq a v m : store a v m a = v.
Proof. unfold store. by rewrite decide_True. Qed.
Lemma store_ne a v m x : x <> a -> store a v m x = m x.
Proof. intros H. unfold store. by rewrite decide_False. Qed.

Lemma bytes_at_ext m m' l : forall a, bytes_at m a l ->
  (forall y, a ≤ y < a + Z.of_nat (length l) -> m' y = m y) -> bytes_at m' a l.
Proof.
  induction l as [|x l IH]; intros a; cbn [bytes_at length]; [done|]. intros [Hx H] He.
  split; [rewrite <-Hx; apply He; lia|]. apply IH; [done|]. intros y Hy. apply He. lia.
Qed.

Lemma bytes_at_app m l1 l2 : forall a, bytes_at m a (l1 ++ l2) -> bytes_at m a l1.
Proof. induction l1 as [|x l1 IH]; intros a; cbn [app bytes_at]; [done|]. intros [? H]. split; [done|by apply IH]. Qed.

Lemma str_at_ext m m' a l : str_at m a l -> (forall y, a ≤ y ≤ a + Z.of_nat (length l) -> m' y = m y) -> str_at m' a l.
Proof.
  intros (H & Hrest) He. split; [|done]. eapply bytes_at_ext; [exact H|]. intros y Hy.
  rewrite length_app in Hy. cbn [length] in Hy. apply He. lia.
Qed.

Create HintDb cpu.
#[export] Hint Rewrite set_low_mod set_low_div next_up using (unfold is_char in *; lia) : cpu.

(** ** repne scasb *)

Lemma repne_scasb_S n a b c d si di z f l m : c <> 0 ->
  repne (S n) scasb (Cpu a b c d si di z f l false m) =
    (if negb (bool_decide (a mod 256 = m di)) then repne n scasb else mret tt)
    (Cpu a b (c - 1) d si (next false di) (bool_decide (a mod 256 = m di))
      (bool_decide (128 ≤ u8 (a mod 256 - m di))) (bool_decide (s8 (a mod 256) < s8 (m di))) false m).
Proof.
  intros Hc. cbn [repne]. rewrite (bind_ok (reg ecx) _ _ (Cpu a b c d si di z f l false m) c) by done.
  cbv beta. rewrite decide_False by done. reflexivity.
Qed.

Lemma repne_scasb_nul l : forall n a b c d si di z f lt m,
  a mod 256 = 0 -> str_at m di l -> Z.of_nat (length l) < c -> (length l < n)%nat ->
  repne n scasb (Cpu a b c d si di z f lt false m) =
    Ok (Cpu a b (c - Z.of_nat (length l) - 1) d si (di + Z.of_nat (length l) + 1) true false false false m, tt).
Proof.
  induction l as [|x l IH]; intros n a b c d si di z f lt m Ha Hs Hc Hn; (destruct n as [|n]; [cbn in Hn; lia|]);
    cbn [length] in *; rewrite repne_scasb_S by lia; rewrite Ha.
  - destruct (str_at_nil _ _ Hs) as (E & H1 & H2). rewrite E, next_up by lia.
    replace (c - Z.of_nat 0 - 1) with (c - 1) by lia. replace (di + Z.of_nat 0 + 1) with (di + 1) by lia. reflexivity.
  - destruct (str_at_cons _ _ _ _ Hs) as (E & Hx & Hs' & H1 & H2). rewrite E, next_up by lia.
    rewrite (bool_decide_false (0 = x)) by (unfold is_char in Hx; lia). cbn [negb].
    rewrite IH by (done || lia). do 3 f_equal; lia.
Qed.

(** [scan_set]: [ZF] says whether the set holds [al]; an empty set leaves it. *)
Lemma repne_scasb_set l : forall n a b c d si di z f lt m,
  bytes_at m di l -> 0 ≤ di -> di + Z.of_nat (length l) < 2 ^ 32 -> Z.of_nat (length l) = c -> (length l ≤ n)%nat ->
  exists c' di' f' lt', repne n scasb (Cpu a b c d si di z f lt false m) =
    Ok (Cpu a b c' d si di' (match l with [] => z | _ => bool_decide (a mod 256 ∈ l) end) f' lt' false m, tt).
Proof.
  induction l as [|x l IH]; intros n a b c d si di z f lt m Hb Hd He Hc Hn; cbn [length bytes_at] in *.
  - exists c, di, f, lt. subst c. by destruct n.
  - destruct n as [|n]; [lia|]. destruct Hb as [Hx Hb]. rewrite repne_scasb_S by lia. rewrite Hx, next_up by lia.
    destruct (decide (a mod 256 = x)) as [E|E].
    + rewrite !(bool_decide_true (a mod 256 = x)), (bool_decide_true (a mod 256 ∈ x :: l)) by (rewrite ?elem_of_cons; auto).
      by eexists _, _, _, _.
    + rewrite (bool_decide_false (a mod 256 = x)) by done. cbn [negb].
      destruct (IH n a b (c - 1) d si (di + 1) false (bool_decide (128 ≤ u8 (a mod 256 - x)))
        (bool_decide (s8 (a mod 256) < s8 x)) m Hb) as (c' & di' & f' & lt' & ->); [lia..|].
      exists c', di', f', lt'. do 2 f_equal. f_equal. destruct l as [|y l].
      * symmetry. apply bool_decide_eq_false. by intros ?%list_elem_of_singleton.
      * apply bool_decide_ext. rewrite (elem_of_cons (y :: l)). tauto.
Qed.

(** ** Copying *)

Lemma copy_1_S n a b c d si di z f l m :
  copy_1 (S n) (Cpu a b c d si di z f l false m) =
    (if negb (bool_decide (set_low a (m si) mod 256 = 0)) then copy_1 n else mret tt)
    (logic_flags 8 (set_low a (m si) mod 256)
      (Cpu (set_low a (m si)) b c d (next false si) (next false di) z f l false (store di (set_low a (m si) mod 256) m))).
Proof. reflexivity. Qed.

Lemma copied_cons m m' dest src n :
  copied (store dest (m src) m) m' (dest + 1) (src + 1) n -> 0 ≤ n -> dest ≤ src \/ src + n < dest -> copied m m' dest src (n + 1).
Proof.
  intros H Hn Hd x. rewrite (H x). unfold store.
  repeat case_decide; try lia; try (f_equal; lia). 
Qed.

Lemma copy_1_spec l : forall n a b c d si di z f lt m,
  str_at m si l -> 0 ≤ di -> di + Z.of_nat (length l) + 1 < 2 ^ 32 ->
  di ≤ si \/ si + Z.of_nat (length l) < di -> (length l < n)%nat ->
  exists a' m', copy_1 n (Cpu a b c d si di z f lt false m) =
    Ok (Cpu a' b c d (si + Z.of_nat (length l) + 1) (di + Z.of_nat (length l) + 1) true false false false m', tt) /\
    copied m m' di si (Z.of_nat (length l) + 1).
Proof.
  induction l as [|x l IH]; intros n a b c d si di z f lt m Hs Hdi Hend Hov Hn; (destruct n as [|n]; [cbn in Hn; lia|]);
    cbn [length] in *; rewrite copy_1_S.
  - destruct (str_at_nil _ _ Hs) as (E & H1 & H2). rewrite E, set_low_mod, !next_up by lia.
    exists (set_low a 0), (store di 0 m). change (Z.of_nat 0) with 0. rewrite !Z.add_0_r. split; [reflexivity|]. intros x. unfold store.
    repeat case_decide; try lia; try done. rewrite <-E. f_equal. lia.
  - destruct (str_at_cons _ _ _ _ Hs) as (E & Hx & Hs' & H1 & H2).
    assert (set_low a (m si) mod 256 = x) as Ex by (rewrite E; apply set_low_mod; unfold is_char in Hx; lia).
    rewrite Ex, !next_up by lia. rewrite (bool_decide_false (x = 0)) by (unfold is_char in Hx; lia). cbn [negb].
    destruct (IH n (set_low a (m si)) b c d (si + 1) (di + 1) (bool_decide (x = 0)) (bool_decide (2 ^ (8 - 1) ≤ x))
      (bool_decide (2 ^ (8 - 1) ≤ x)) (store di x m)) as (a' & m' & Er & Hc); try lia.
    { eapply str_at_ext; [exact Hs'|]. intros y Hy. apply store_ne. lia. }
    exists a', m'. split.
    + etransitivity; [exact Er|]. do 3 f_equal; lia.
    + replace (Z.of_nat (S (length l)) + 1) with (Z.of_nat (length l) + 1 + 1) by lia.
      apply copied_cons; [|lia|lia]. by rewrite E.
Qed.

Lemma strlen_run fuel s a l : str_at (mem s) a l -> (length l < fuel)%nat ->
  exists s', strlen fuel a s = Ok (s', Z.of_nat (length l)) /\ mem s' = mem s.
Proof.
  intros Hs Hn. destruct s as [a0 b c d si di z f lt k m]. cbn [mem] in Hs. unfold strlen.
  pose proof (proj2 (proj2 Hs)) as Hb.
  do 4 (erewrite bind_ok by reflexivity).
  cbn [to_eax to_ecx to_edi upd eax ebx ecx edx esi edi zf sf lf df mem].
  rewrite (bind_ok _ _ _ _ _ (repne_scasb_nul l fuel 0 b 0xffffffff d si a z f lt m eq_refl Hs ltac:(lia) Hn)).
  do 2 (erewrite bind_ok by reflexivity).
  assert (u32 (u32 (- (0xffffffff - Z.of_nat (length l) - 1) - 1) - 1) = Z.of_nat (length l)) as E.
  { unfold u32. rewrite <-(Z.mod_small (Z.of_nat (length l)) (2 ^ 32)) at 2 by lia.
    Z.to_euclidean_division_equations; lia. }
  eexists. split; [exact (f_equal2 (fun x y => Ok (x, y)) eq_refl E)|reflexivity].
Qed.

(** ** rep movsb *)

Lemma rep_movsb_S n a b c d si di z f l k m : c <> 0 ->
  rep (S n) movsb (Cpu a b c d si di z f l k m) =
    rep n movsb (Cpu a b (c - 1) d (next k si) (next k di) z f l k (store di (m si) m)).
Proof.
  intros Hc. cbn [rep]. rewrite (bind_ok (reg ecx) _ _ (Cpu a b c d si di z f l k m) c) by done.
  cbv beta. rewrite decide_False by done. reflexivity.
Qed.

Lemma rep_0 fuel i a b d si di z f l k m :
  rep fuel i (Cpu a b 0 d si di z f l k m) = Ok (Cpu a b 0 d si di z f l k m, tt).
Proof. by destruct fuel. Qed.

Lemma copied_0 m dest src : copied m m dest src 0.
Proof. intros x. by rewrite decide_False by lia. Qed.

Lemma rep_movsb_up n : forall fuel a b d si di z f l m,
  0 ≤ si -> si + Z.of_nat n < 2 ^ 32 -> 0 ≤ di -> di + Z.of_nat n < 2 ^ 32 ->
  di ≤ si \/ si + Z.of_nat n ≤ di -> (n ≤ fuel)%nat ->
  exists s', rep fuel movsb (Cpu a b (Z.of_nat n) d si di z f l false m) = Ok (s', tt) /\
    df s' = false /\ copied m (mem s') di si (Z.of_nat n).
Proof.
  induction n as [|n IH]; intros fuel a b d si di z f l m H1 H2 H3 H4 Hov Hn.
  - rewrite rep_0. eexists. split; [reflexivity|]. split; [done|apply copied_0].
  - destruct fuel as [|fuel]; [lia|]. rewrite rep_movsb_S, !next_up by lia.
    replace (Z.of_nat (S n)) with (Z.of_nat n + 1) in * by lia. rewrite Z.add_simpl_r.
    destruct (IH fuel a b d (si + 1) (di + 1) z f l (store di (m si) m)) as (s' & E & Hd & Hc); try lia.
    exists s'. split; [done|]. split; [done|]. apply copied_cons; [done|lia|lia].
Qed.

Lemma copied_snoc m m' dest src n :
  copied (store (dest + n) (m (src + n)) m) m' dest src n -> 0 ≤ n -> src ≤ dest -> copied m m' dest src (n + 1).
Proof.
  intros H Hn Hd x. rewrite (H x). unfold store. repeat case_decide; try lia; try (f_equal; lia).
Qed.

Lemma next_down x : next true (u32 x) = u32 (x - 1).
Proof. unfold next, u32. Z.to_euclidean_division_equations; lia. Qed.

Lemma rep_movsb_down n : forall fuel a b d src dest z f l m,
  0 ≤ src -> src ≤ dest -> dest + Z.of_nat n ≤ 2 ^ 32 -> (n ≤ fuel)%nat ->
  exists s', rep fuel movsb (Cpu a b (Z.of_nat n) d (u32 (src + Z.of_nat n - 1)) (u32 (dest + Z.of_nat n - 1)) z f l true m)
    = Ok (s', tt) /\ df s' = true /\ copied m (mem s') dest src (Z.of_nat n).
Proof.
  induction n as [|n IH]; intros fuel a b d src dest z f l m H1 H2 H3 Hn.
  - rewrite rep_0. eexists. split; [reflexivity|]. split; [done|apply copied_0].
  - destruct fuel as [|fuel]; [lia|]. rewrite rep_movsb_S, !next_down by lia.
    replace (Z.of_nat (S n) - 1) with (Z.of_nat n) by lia.
    replace (src + Z.of_nat (S n) - 1) with (src + Z.of_nat n) by lia.
    replace (dest + Z.of_nat (S n) - 1) with (dest + Z.of_nat n) by lia.
    rewrite (u32_small (src + Z.of_nat n)), (u32_small (dest + Z.of_nat n)) by lia.
    destruct (IH fuel a b d src dest z f l (store (dest + Z.of_nat n) (m (src + Z.of_nat n)) m)) as (s' & E & Hd & Hc); try lia.
    exists s'. split; [done|]. split; [done|]. replace (Z.of_nat (S n)) with (Z.of_nat n + 1) by lia.
    by apply copied_snoc; [|lia|].
Qed.

Lemma memmove_run fuel s dest src n :
  0 ≤ src -> src + Z.of_nat n < 2 ^ 32 -> 0 ≤ dest -> dest + Z.of_nat n < 2 ^ 32 -> (n ≤ fuel)%nat ->
  exists s', memmove fuel dest src (Z.of_nat n) s = Ok (s', dest) /\
    copied (mem s) (mem s') dest src (Z.of_nat n) /\ df s' = bool_decide (src ≤ dest).
Proof.
  intros H1 H2 H3 H4 Hn. destruct s as [a b c d si di z f l k m]. unfold memmove. cbn [mem].
  destruct (decide (dest < src)) as [Hlt|Hge].
  - destruct (rep_movsb_up n fuel a b d src dest z f l m) as (s' & E & Hd & Hc); try lia.
    exists s'. split; [|split; [done|by rewrite bool_decide_false by lia]].
    erewrite bind_ok; [reflexivity|]. do 4 (erewrite bind_ok by reflexivity). exact E.
  - destruct (rep_movsb_down n fuel a b d src dest z f l m) as (s' & E & Hd & Hc); try lia.
    exists s'. split; [|split; [done|by rewrite bool_decide_true by lia]].
    erewrite bind_ok; [reflexivity|]. do 4 (erewrite bind_ok by reflexivity). exact E.
Qed.

Lemma memcpy_run fuel s dest src n :
  0 ≤ src -> src + Z.of_nat n < 2 ^ 32 -> 0 ≤ dest -> dest + Z.of_nat n < 2 ^ 32 ->
  dest ≤ src \/ src + Z.of_nat n ≤ dest -> (n ≤ fuel)%nat ->
  exists s', memcpy fuel dest src (Z.of_nat n) s = Ok (s', dest) /\ copied (mem s) (mem s') dest src (Z.of_nat n).
Proof.
  intros H1 H2 H3 H4 Hov Hn. destruct s as [a b c d si di z f l k m]. cbn [mem].
  destruct (rep_movsb_up n fuel a b d src dest z f l m) as (s' & E & Hd & Hc); try lia.
  exists s'. split; [|done]. unfold memcpy. do 4 (erewrite bind_ok by reflexivity).
  erewrite bind_ok; [reflexivity|exact E].
Qed.

(** ** strcpy and strcat *)

Lemma strcpy_run fuel s dest src l :
  str_at (mem s) src l -> 0 ≤ dest -> dest + Z.of_nat (length l) + 1 < 2 ^ 32 ->
  dest ≤ src \/ src + Z.of_nat (length l) < dest -> (length l < fuel)%nat ->
  exists s', strcpy fuel dest src s = Ok (s', dest) /\ copied (mem s) (mem s') dest src (Z.of_nat (length l) + 1).
Proof.
  intros Hs H1 H2 Hov Hn. destruct s as [a b c d si di z f lt k m]. cbn [mem] in *.
  destruct (copy_1_spec l fuel a b c d src dest z f lt m Hs) as (a' & m' & E & Hc); try done.
  eexists. split.
  - unfold strcpy. do 3 (erewrite bind_ok by reflexivity). erewrite bind_ok; [reflexivity|exact E].
  - exact Hc.
Qed.

Lemma strcat_run fuel s dest src l1 l2 :
  str_at (mem s) dest l1 -> str_at (mem s) src l2 ->
  dest + Z.of_nat (length l1) + Z.of_nat (length l2) + 1 < 2 ^ 32 ->
  dest + Z.of_nat (length l1) ≤ src \/ src + Z.of_nat (length l2) < dest + Z.of_nat (length l1) ->
  (length l1 < fuel)%nat -> (length l2 < fuel)%nat ->
  exists s', strcat fuel dest src s = Ok (s', dest) /\
    copied (mem s) (mem s') (dest + Z.of_nat (length l1)) src (Z.of_nat (length l2) + 1).
Proof.
  intros Hs1 Hs2 H2 Hov Hn1 Hn2. destruct s as [a b c d si di z f lt k m]. cbn [mem] in *.
  pose proof (proj2 (proj2 Hs1)) as Hb.
  set (n1 := Z.of_nat (length l1)) in *.
  assert (u32 (dest + n1 + 1 - 1) = dest + n1) as Eu by (rewrite u32_small; lia).
  destruct (copy_1_spec l2 fuel 0 b (0xffffffff - n1 - 1) d src (dest + n1)
    (bool_decide (dest + n1 = 0)) (bool_decide (2 ^ 31 ≤ dest + n1))
    (xorb (bool_decide (2 ^ 31 ≤ dest + n1)) (bool_decide (dest + n1 + 1 = 2 ^ 31))) m Hs2) as (a' & m' & E & Hc); try lia.
  assert (decl edi to_edi (Cpu 0 b (0xffffffff - n1 - 1) d src (dest + n1 + 1) true false false false m) =
    Ok (Cpu 0 b (0xffffffff - n1 - 1) d src (dest + n1) (bool_decide (dest + n1 = 0)) (bool_decide (2 ^ 31 ≤ dest + n1))
      (xorb (bool_decide (2 ^ 31 ≤ dest + n1)) (bool_decide (dest + n1 + 1 = 2 ^ 31))) false m, tt)) as Edec.
  { transitivity (Ok (step_flags (u32 (dest + n1 + 1 - 1)) (bool_decide (dest + n1 + 1 = 2 ^ 31))
      (Cpu 0 b (0xffffffff - n1 - 1) d src (u32 (dest + n1 + 1 - 1)) true false false false m), tt)); [reflexivity|].
    by rewrite Eu. }
  eexists. split.
  - unfold strcat. do 5 (erewrite bind_ok by reflexivity).
    cbn [to_eax to_ecx to_edi to_esi upd eax ebx ecx edx esi edi zf sf lf df mem].
    rewrite (bind_ok _ _ _ _ _ (repne_scasb_nul l1 fuel 0 b 0xffffffff d src dest z f lt m eq_refl Hs1 ltac:(lia) Hn1)).
    fold n1. rewrite (bind_ok _ _ _ _ _ Edec). erewrite bind_ok; [reflexivity|exact E].
  - exact Hc.
Qed.

(** ** strcmp *)

(** The result for bytes that differ: the sign of their difference as [char]s. *)
Definition order_of (x y : Z) : Z := if decide (s8 y < s8 x) then 1 else 2 ^ 32 - 1.

Lemma strcmp_1_S n a b c d si di z f l m :
  strcmp_1 (S n) (Cpu a b c d si di z f l false m) =
    (if negb (bool_decide (set_low a (m si) mod 256 = m di)) then sign_result
     else testb_al;; jne (strcmp_1 n) (xorl to_eax))
    (Cpu (set_low a (m si)) b c d (next false si) (next false di)
      (bool_decide (set_low a (m si) mod 256 = m di)) (bool_decide (128 ≤ u8 (set_low a (m si) mod 256 - m di)))
      (bool_decide (s8 (set_low a (m si) mod 256) < s8 (m di))) false m).
Proof. reflexivity. Qed.

Lemma sign_result_run a b c d si di z f l k m :
  exists s', sign_result (Cpu a b c d si di z f l k m) = Ok (s', tt) /\ eax s' = (if l then 1 else 2 ^ 32 - 1) /\ mem s' = m.
Proof. destruct l; eexists; repeat split. Qed.

Definition first_difference (cs ct : list Z) (r : Z) : Prop :=
  cs = ct /\ r = 0 \/
  exists p x y r1 r2, cs ++ [0] = p ++ x :: r1 /\ ct ++ [0] = p ++ y :: r2 /\ x <> y /\ r = order_of x y.

Lemma first_difference_cons x cs ct r : first_difference cs ct r -> first_difference (x :: cs) (x :: ct) r.
Proof.
  intros [[-> ->]|(p & y & z & r1 & r2 & E1 & E2 & Hne & ->)]; [by left|right].
  exists (x :: p), y, z, r1, r2. cbn. by rewrite E1, E2.
Qed.

(** One turn of the loop on the bytes [x] of [cs] and [y] of [ct]. *)
Lemma strcmp_1_turn n a b c d si di z f l m x y :
  m di = x -> m si = y -> 0 ≤ x < 256 -> 0 ≤ y < 256 -> 0 ≤ si -> si + 1 < 2 ^ 32 -> 0 ≤ di -> di + 1 < 2 ^ 32 ->
  if decide (x <> y)
  then exists s', strcmp_1 (S n) (Cpu a b c d si di z f l false m) = Ok (s', tt) /\ eax s' = order_of x y /\ mem s' = m
  else if decide (x = 0)
  then exists s', strcmp_1 (S n) (Cpu a b c d si di z f l false m) = Ok (s', tt) /\ eax s' = 0 /\ mem s' = m
  else exists f' l', strcmp_1 (S n) (Cpu a b c d si di z f l false m) =
    strcmp_1 n (Cpu (set_low a y) b c d (si + 1) (di + 1) false f' l' false m).
Proof.
  intros Ex Ey Hx Hy H1 H2 H3 H4. rewrite strcmp_1_S, Ex, Ey, set_low_mod, !next_up by lia.
  destruct (decide (x <> y)) as [Hne|Heq].
  - rewrite (bool_decide_false (y = x)) by auto. cbn [negb].
    destruct (sign_result_run (set_low a y) b c d (si + 1) (di + 1) false (bool_decide (128 ≤ u8 (y - x)))
      (bool_decide (s8 y < s8 x)) false m) as (s' & E & Ee & Em).
    exists s'. split; [done|]. split; [|done]. rewrite Ee. unfold order_of.
    destruct (decide (s8 y < s8 x)); [by rewrite bool_decide_true|by rewrite bool_decide_false].
  - assert (x = y) as <- by lia. rewrite (bool_decide_true (x = x)) by done. cbn [negb].
    unfold testb_al. erewrite bind_ok by reflexivity. cbn -[set_low strcmp_1 logic_flags bool_decide].
    unfold al. cbn [eax]. rewrite set_low_mod by lia. unfold branch, logic_flags.
    erewrite bind_ok by reflexivity. cbn -[set_low strcmp_1 bool_decide].
    destruct (decide (x = 0)) as [->|Hnz].
    + eexists. split; [reflexivity|]. done.
    + rewrite (bool_decide_false (x = 0)) by done. by eexists _, _.
Qed.

Lemma strcmp_1_spec cs : forall ct n a b c d si di z f l m,
  str_at m di cs -> str_at m si ct -> (length cs < n)%nat ->
  exists s', strcmp_1 n (Cpu a b c d si di z f l false m) = Ok (s', tt) /\
    first_difference cs ct (eax s') /\ mem s' = m.
Proof.
  induction cs as [|x cs IH]; intros ct n a b c d si di z f l m H1 H2 Hn; (destruct n as [|n]; [cbn in Hn; lia|]);
    destruct ct as [|y ct].
  all: try (apply str_at_nil in H1 as (E1 & B1)); try (apply str_at_cons in H1 as (E1 & C1 & H1 & B1)).
  all: try (apply str_at_nil in H2 as (E2 & B2)); try (apply str_at_cons in H2 as (E2 & C2 & H2 & B2)).
  all: unfold is_char in *; pose proof (strcmp_1_turn n a b c d si di z f l m _ _ E1 E2 ltac:(lia) ltac:(lia)
         ltac:(lia) ltac:(lia) ltac:(lia) ltac:(lia)) as Ht.
  - rewrite decide_False, decide_True in Ht by auto. destruct Ht as (s' & E & Ee & Em).
    exists s'. split; [done|]. split; [|done]. by left.
  - rewrite decide_True in Ht by lia. destruct Ht as (s' & E & Ee & Em). exists s'. split; [done|]. split; [|done].
    right. exists [], 0, y, [], (ct ++ [0]). split; [done|]. split; [done|]. split; [lia|done].
  - rewrite decide_True in Ht by lia. destruct Ht as (s' & E & Ee & Em). exists s'. split; [done|]. split; [|done].
    right. exists [], x, 0, (cs ++ [0]), []. split; [done|]. split; [done|]. split; [lia|done].
  - destruct (decide (x <> y)) as [Hne|Heq].
    + destruct Ht as (s' & E & Ee & Em). exists s'. split; [done|]. split; [|done].
      right. exists [], x, y, (cs ++ [0]), (ct ++ [0]). done.
    + rewrite decide_False in Ht by lia. destruct Ht as (f' & l' & E). assert (x = y) as <- by lia.
      destruct (IH ct n (set_low a x) b c d (si + 1) (di + 1) false f' l' m) as (s' & Er & Hd & Hm); [done|done|cbn in Hn; lia|].
      exists s'. split; [by rewrite E|]. split; [|done]. by apply first_difference_cons.
Qed.

Lemma strcmp_run fuel s cs ct l1 l2 :
  str_at (mem s) cs l1 -> str_at (mem s) ct l2 -> (length l1 < fuel)%nat ->
  exists s' r, strcmp fuel cs ct s = Ok (s', r) /\ first_difference l1 l2 r /\ mem s' = mem s.
Proof.
  intros H1 H2 Hn. destruct s as [a b c d si di z f l k m]. cbn [mem] in *.
  destruct (strcmp_1_spec l1 l2 fuel a b c d ct cs z f l m H1 H2 Hn) as (s' & E & Hd & Hm).
  exists s', (eax s'). split; [|done]. unfold strcmp. do 3 (erewrite bind_ok by reflexivity).
  by rewrite (bind_ok _ _ _ _ _ E).
Qed.

(** ** strncat *)

Lemma strncat_1_S n a b c d si di z f l m : 1 ≤ c ≤ 2 ^ 31 ->
  strncat_1 (S n) (Cpu a b c d si di z f l false m) =
    (if negb (bool_decide (set_low a (m si) mod 256 = 0)) then strncat_1 n else strncat_2)
    (logic_flags 8 (set_low a (m si) mod 256)
      (Cpu (set_low a (m si)) b (c - 1) d (next false si) (next false di) z f l false
        (store di (set_low a (m si) mod 256) m))).
Proof.
  intros Hc. cbn [strncat_1].
  assert (u32 (c - 1) = c - 1) as Eu by (apply u32_small; lia).
  erewrite bind_ok by reflexivity. cbn [to_ecx upd ecx]. unfold step_flags. rewrite Eu.
  rewrite (bool_decide_false (2 ^ 31 ≤ c - 1)) by lia. reflexivity.
Qed.

Lemma strncat_2_run a b c d si di z f l m :
  exists s', strncat_2 (Cpu a b c d si di z f l false m) = Ok (s', tt) /\ mem s' = store di 0 m.
Proof. eexists. split; reflexivity. Qed.

Lemma strncat_1_spec l : forall n a b c d si di z f lt m,
  str_at m si l -> 0 ≤ di -> di + Z.of_nat (length l) + 1 < 2 ^ 32 ->
  si + Z.of_nat (length l) < di \/ di + Z.of_nat (length l) < si -> (length l < n)%nat -> Z.of_nat (length l) < c ≤ 2 ^ 31 ->
  exists s' m', strncat_1 n (Cpu a b c d si di z f lt false m) = Ok (s', tt) /\
    copied m m' di si (Z.of_nat (length l) + 1) /\ mem s' = store (di + Z.of_nat (length l) + 1) 0 m'.
Proof.
  induction l as [|x l IH]; intros n a b c d si di z f lt m Hs Hdi Hend Hov Hn Hc; (destruct n as [|n]; [cbn in Hn; lia|]);
    cbn [length] in *; rewrite strncat_1_S by lia.
  - destruct (str_at_nil _ _ Hs) as (E & H1 & H2). rewrite E, set_low_mod, !next_up by lia.
    destruct (strncat_2_run (set_low a 0) b (c - 1) d (si + 1) (di + 1) true false false (store di 0 m)) as (s' & Er & Em).
    exists s', (store di 0 m). split; [exact Er|]. split.
    + intros x. unfold store. repeat case_decide; try lia; try done. rewrite <-E. f_equal. lia.
    + rewrite Em. f_equal. lia.
  - destruct (str_at_cons _ _ _ _ Hs) as (E & Hx & Hs' & H1 & H2).
    assert (set_low a (m si) mod 256 = x) as Ex by (rewrite E; apply set_low_mod; unfold is_char in Hx; lia).
    rewrite Ex, !next_up by lia. rewrite (bool_decide_false (x = 0)) by (unfold is_char in Hx; lia). cbn [negb].
    destruct (IH n (set_low a (m si)) b (c - 1) d (si + 1) (di + 1) (bool_decide (x = 0)) (bool_decide (2 ^ (8 - 1) ≤ x))
      (bool_decide (2 ^ (8 - 1) ≤ x)) (store di x m)) as (s' & m' & Er & Hcp & Em); try lia.
    { eapply str_at_ext; [exact Hs'|]. intros y Hy. apply store_ne. lia. }
    exists s', m'. split; [exact Er|]. split.
    + replace (Z.of_nat (S (length l)) + 1) with (Z.of_nat (length l) + 1 + 1) by lia.
      apply copied_cons; [|lia|lia]. by rewrite E.
    + rewrite Em. f_equal. lia.
Qed.

(** ** strspn *)

Fixpoint span (set l : list Z) : nat :=
  match l with x :: l => if decide (x ∈ set) then S (span set l) else O | [] => O end.

Lemma scan_set_run set n ct a b c si di f lt m :
  bytes_at m ct set -> 0 ≤ ct -> ct + Z.of_nat (length set) < 2 ^ 32 -> (length set ≤ n)%nat ->
  exists c' di' f' lt', scan_set n ct (Cpu a b c (Z.of_nat (length set)) si di false f lt false m) =
    Ok (Cpu a b c' (Z.of_nat (length set)) si di' (bool_decide (a mod 256 ∈ set)) f' lt' false m, tt).
Proof.
  intros Hb H1 H2 Hn.
  destruct (repne_scasb_set set n a b (Z.of_nat (length set)) (Z.of_nat (length set)) si ct false f lt m Hb H1 H2 eq_refl Hn)
    as (c' & di' & f' & lt' & E).
  exists c', di', f', lt'. unfold scan_set. do 2 (erewrite bind_ok by reflexivity). etransitivity; [exact E|].
  do 2 f_equal. f_equal. destruct set; [|done]. symmetry. apply bool_decide_eq_false, not_elem_of_nil.
Qed.

Lemma strspn_1_S n ct a b c d si di z f l m :
  strspn_1 (S n) ct (Cpu a b c d si di z f l false m) =
    (if bool_decide (set_low a (m si) mod 256 = 0) then mret tt
     else scan_set n ct;; je (strspn_1 n ct) (mret tt))
    (logic_flags 8 (set_low a (m si) mod 256) (Cpu (set_low a (m si)) b c d (next false si) di z f l false m)).
Proof. reflexivity. Qed.

Lemma strspn_1_spec set l : forall n ct a b c si di z f lt m,
  str_at m si l -> bytes_at m ct set -> 0 ≤ ct -> ct + Z.of_nat (length set) < 2 ^ 32 ->
  (length l < n)%nat -> (length l + length set < n)%nat ->
  exists s', strspn_1 n ct (Cpu a b c (Z.of_nat (length set)) si di z f lt false m) = Ok (s', tt) /\
    esi s' = si + Z.of_nat (span set l) + 1 /\ mem s' = m.
Proof.
  induction l as [|x l IH]; intros n ct a b c si di z f lt m Hs Hb H1 H2 Hn Hn'; (destruct n as [|n]; [cbn in Hn; lia|]);
    cbn [length span] in *; rewrite strspn_1_S.
  - destruct (str_at_nil _ _ Hs) as (E & B1 & B2). rewrite E, set_low_mod, !next_up by lia.
    eexists. split; [reflexivity|]. split; [|reflexivity]. cbn. lia.
  - destruct (str_at_cons _ _ _ _ Hs) as (E & Hx & Hs' & B1 & B2).
    assert (set_low a (m si) mod 256 = x) as Ex by (rewrite E; apply set_low_mod; unfold is_char in Hx; lia).
    rewrite Ex, !next_up by lia. unfold logic_flags. cbn [upd eax ebx ecx edx esi edi zf sf lf df mem].
    rewrite (bool_decide_false (x = 0)) by (unfold is_char in Hx; lia).
    set (neg := bool_decide (2 ^ (8 - 1) ≤ x)).
    destruct (scan_set_run set n ct (set_low a (m si)) b c (si + 1) di neg neg m Hb H1 H2 ltac:(lia))
      as (c' & di' & f' & lt' & Er).
    rewrite Ex in Er. rewrite (bind_ok _ _ _ _ _ Er). unfold branch. erewrite bind_ok by reflexivity. cbn [zf].
    destruct (decide (x ∈ set)) as [Hin|Hin].
    + rewrite (bool_decide_true (x ∈ set)) by done.
      destruct (IH n ct (set_low a (m si)) b c' (si + 1) di' true f' lt' m Hs' Hb H1 H2) as (s' & Es & Ee & Em); [lia|lia|].
      exists s'. split; [exact Es|]. split; [lia|done].
    + rewrite (bool_decide_false (x ∈ set)) by done. eexists. split; [reflexivity|]. split; [|reflexivity]. cbn. lia.
Qed.

Lemma set_length_run set n ct a b d si di z f lt m :
  a mod 256 = 0 -> str_at m ct set -> (length set < n)%nat ->
  exists di' f' lt', set_length n ct (Cpu a b 0xffffffff d si di z f lt false m) =
    Ok (Cpu a b (Z.of_nat (length set)) d si di' (bool_decide (length set = 0%nat)) f' lt' false m, tt).
Proof.
  intros Ha Hs Hn. pose proof (proj2 (proj2 Hs)) as Hb. unfold set_length.
  erewrite bind_ok by reflexivity. cbn [to_edi upd eax ebx ecx edx esi edi zf sf lf df mem].
  rewrite (bind_ok _ _ _ _ _ (repne_scasb_nul set n a b 0xffffffff d si ct z f lt m Ha Hs ltac:(lia) Hn)).
  erewrite bind_ok by reflexivity. cbn [to_ecx upd eax ebx ecx edx esi edi zf sf lf df mem].
  assert (u32 (- (0xffffffff - Z.of_nat (length set) - 1) - 1) = Z.of_nat (length set) + 1) as E1.
  { unfold u32. Z.to_euclidean_division_equations; lia. }
  rewrite E1. set (k := Z.of_nat (length set)) in *.
  exists (ct + k + 1), (bool_decide (2 ^ 31 ≤ k)), (xorb (bool_decide (2 ^ 31 ≤ k)) (bool_decide (k + 1 = 2 ^ 31))).
  transitivity (Ok (step_flags (u32 (k + 1 - 1)) (bool_decide (k + 1 = 2 ^ 31))
    (Cpu a b (u32 (k + 1 - 1)) d si (ct + k + 1) true false false false m), tt)); [reflexivity|].
  rewrite Z.add_simpl_r, u32_small by lia. unfold step_flags. cbn [upd eax ebx ecx edx esi edi zf sf lf df mem].
  do 3 f_equal. apply bool_decide_ext. unfold k. lia.
Qed.

Lemma strspn_run fuel s cs ct l set :
  str_at (mem s) cs l -> str_at (mem s) ct set -> (length l + length set < fuel)%nat ->
  exists s', strspn fuel cs ct s = Ok (s', Z.of_nat (span set l)) /\ mem s' = mem s.
Proof.
  intros Hl Hs Hn. destruct s as [a b c d si di z f lt k m]. cbn [mem] in *.
  assert (span set l ≤ length l)%nat as Hle.
  { clear. induction l as [|x l IH]; cbn [span length]; [lia|]. case_decide; lia. }
  pose proof (proj2 (proj2 Hl)) as Hb1. pose proof (proj2 (proj2 Hs)) as Hb2. unfold strspn.
  do 4 (erewrite bind_ok by reflexivity). cbn [to_eax to_ecx to_esi upd eax ebx ecx edx esi edi zf sf lf df mem].
  destruct (set_length_run set fuel ct 0 b d cs di z f lt m eq_refl Hs ltac:(lia)) as (di' & f' & lt' & E).
  rewrite (bind_ok _ _ _ _ _ E). erewrite bind_ok by reflexivity.
  cbn [to_edx upd eax ebx ecx edx esi edi zf sf lf df mem].
  assert (bytes_at m ct set) as Hset.
  { eapply bytes_at_app, Hs. }
  destruct (strspn_1_spec set l fuel ct 0 b (Z.of_nat (length set)) cs di' (bool_decide (length set = 0%nat)) f' lt' m
    Hl Hset) as (s' & Er & Ee & Em); [lia|lia|lia|lia|].
  rewrite (bind_ok _ _ _ _ _ Er). erewrite bind_ok by reflexivity.
  assert (u32 (u32 (esi s' - 1) - cs) = Z.of_nat (span set l)) as Ev.
  { rewrite Ee, (u32_small (_ - 1)), u32_small by lia. lia. }
  eexists. split; [exact (f_equal2 (fun x y => Ok (x, y)) eq_refl Ev)|exact Em].
Qed.

(** ** strstr *)

Lemma repe_cmpsb_S n a b c d si di z f l m : c <> 0 ->
  repe (S n) cmpsb (Cpu a b c d si di z f l false m) =
    (if bool_decide (m si = m di) then repe n cmpsb else mret tt)
    (Cpu a b (c - 1) d (next false si) (next false di) (bool_decide (m si = m di))
      (bool_decide (128 ≤ u8 (m si - m di))) (bool_decide (s8 (m si) < s8 (m di))) false m).
Proof.
  intros Hc. cbn [repe]. rewrite (bind_ok (reg ecx) _ _ (Cpu a b c d si di z f l false m) c) by done.
  cbv beta. rewrite decide_False by done. reflexivity.
Qed.

Lemma repe_0 fuel i a b d si di z f l k m :
  repe fuel i (Cpu a b 0 d si di z f l k m) = Ok (Cpu a b 0 d si di z f l k m, tt).
Proof. by destruct fuel. Qed.

(** Comparing the string [l] with the word [w]: either [w] is a prefix, or the
    comparison stops behind the first byte of [l] and its [NUL] that differs. *)
Lemma repe_cmpsb_word w : forall l n a b d si di z f lt m,
  w <> [] -> str_at m si l -> bytes_at m di w -> Forall is_char w -> 0 ≤ di -> di + Z.of_nat (length w) < 2 ^ 32 ->
  (length w ≤ n)%nat ->
  exists s', repe n cmpsb (Cpu a b (Z.of_nat (length w)) d si di z f lt false m) = Ok (s', tt) /\
    eax s' = a /\ edx s' = d /\ df s' = false /\ mem s' = m /\
    (zf s' = true /\ w `prefix_of` l \/
     zf s' = false /\ ~ w `prefix_of` l /\ exists j, (j ≤ length l)%nat /\ esi s' = si + Z.of_nat j + 1 /\
       ((j < length w)%nat /\ (j = length l -> (length l < length w)%nat))).
Proof.
  induction w as [|y w IH]; intros l n a b d si di z f lt m Hw Hl Hb Hc H1 H2 Hn; [done|].
  cbn [length bytes_at] in *. destruct n as [|n]; [lia|]. destruct Hb as [Hy Hb].
  apply list.Forall_cons in Hc as [Hyc Hc]. rewrite repe_cmpsb_S by lia. rewrite Hy.
  destruct l as [|x l].
  - destruct (str_at_nil _ _ Hl) as (E & B1 & B2). rewrite E, !next_up by lia.
    rewrite (bool_decide_false (0 = y)) by (unfold is_char in Hyc; lia).
    eexists. split; [reflexivity|]. cbn [eax edx df mem zf esi]. repeat (split; [done|]). right. split; [done|].
    split; [by intros [? ?]|]. exists 0%nat. cbn. lia.
  - destruct (str_at_cons _ _ _ _ Hl) as (E & Hx & Hl' & B1 & B2). rewrite E, !next_up by lia.
    destruct (decide (x = y)) as [->|Hxy].
    + rewrite (bool_decide_true (y = y)) by done. replace (Z.of_nat (S (length w)) - 1) with (Z.of_nat (length w)) by lia.
      destruct w as [|y' w].
      * cbn [length]. rewrite repe_0. eexists. split; [reflexivity|]. cbn [eax edx df mem zf esi].
        repeat (split; [done|]). left. split; [done|]. by exists l.
      * destruct (IH l n a b d (si + 1) (di + 1) true (bool_decide (128 ≤ u8 (y - y))) (bool_decide (s8 y < s8 y)) m)
          as (s' & Er & Ea & Ed & Ef & Em & Hres); try done; try lia.
        exists s'. split; [exact Er|]. repeat (split; [done|]).
        destruct Hres as [[Hz Hp]|(Hz & Hp & j & Hj & Es & Hjw & Hjl)]; [left|right].
        -- split; [done|]. by apply prefix_cons.
        -- split; [done|]. split; [by intros ?%prefix_cons_inv_2|].
           exists (S j). cbn [length]. split; [lia|]. split; [lia|]. split; [cbn in Hjw; lia|].
           intros Hjl'. injection Hjl' as Hjl'. specialize (Hjl Hjl'). cbn in Hjl. lia.
    + rewrite (bool_decide_false (x = y)) by done. eexists. split; [reflexivity|]. cbn [eax edx df mem zf esi].
      repeat (split; [done|]). right. split; [done|]. split; [by intros ->%prefix_cons_inv_1|].
      exists 0%nat. cbn [length]. lia.
Qed.

Definition first_occurrence (w l : list Z) (cs r : Z) : Prop :=
  (exists k, (k ≤ length l)%nat /\ w `prefix_of` drop k l /\ (forall i, (i < k)%nat -> ~ w `prefix_of` drop i l) /\
     r = cs + Z.of_nat k) \/
  (forall i, ~ w `prefix_of` drop i l) /\ r = 0.

Lemma first_occurrence_cons w x l cs r :
  ~ w `prefix_of` (x :: l) -> first_occurrence w l (cs + 1) r -> first_occurrence w (x :: l) cs r.
Proof.
  intros Hn [(k & Hk & Hp & Hmin & ->)|[Hno ->]]; [left|right].
  - exists (S k). split; [cbn; lia|]. split; [done|]. split; [|lia]. intros [|i] Hi; [done|]. apply Hmin. lia.
  - split; [|done]. intros [|i]; [done|apply Hno].
Qed.

Lemma strstr_1_entry n ct a b c d si di z f l m :
  strstr_1 (S n) ct (Cpu a b c d si di z f l false m) =
    (repe n cmpsb;;
     je (mret tt)
        (modify (fun s => s <| eax := esi s |> <| esi := eax s |>);; incl esi to_esi;;
         cmpb_0 (fun s => u32 (eax s - 1));; jne (strstr_1 n ct) (xorl to_eax)))
    (Cpu si b d d si ct z f l false m).
Proof. reflexivity. Qed.

(** Behind a comparison that failed. *)
Lemma strstr_1_miss n ct s : df s = false -> zf s = false -> 0 ≤ eax s -> eax s + 1 < 2 ^ 32 ->
  exists b c di f l, je (mret tt)
        (modify (fun s => s <| eax := esi s |> <| esi := eax s |>);; incl esi to_esi;;
         cmpb_0 (fun s => u32 (eax s - 1));; jne (strstr_1 n ct) (xorl to_eax)) s =
    (if negb (bool_decide (mem s (u32 (esi s - 1)) = 0)) then strstr_1 n ct else xorl to_eax)
    (Cpu (esi s) b c (edx s) (eax s + 1) di (bool_decide (mem s (u32 (esi s - 1)) = 0)) f l false (mem s)).
Proof.
  destruct s as [a b c d si di z f l k m]. cbn [df zf eax esi edx mem]. intros -> -> H1 H2.
  exists b, c, di, (bool_decide (128 ≤ u8 (m (u32 (si - 1)) - 0))), (bool_decide (s8 (m (u32 (si - 1))) < s8 0)).
  rewrite <-(u32_small (a + 1)) by lia. reflexivity.
Qed.

Lemma strstr_1_spec w l : forall n ct a b c si di z f lt m,
  w <> [] -> str_at m si l -> bytes_at m ct w -> Forall is_char w -> 0 ≤ ct -> ct + Z.of_nat (length w) < 2 ^ 32 ->
  (length l + length w < n)%nat ->
  exists s', strstr_1 n ct (Cpu a b c (Z.of_nat (length w)) si di z f lt false m) = Ok (s', tt) /\
    first_occurrence w l si (eax s') /\ mem s' = m.
Proof.
  induction l as [|x l IH]; intros n ct a b c si di z f lt m Hw Hl Hb Hc H1 H2 Hn; (destruct n as [|n]; [lia|]);
    cbn [length] in *; rewrite strstr_1_entry.
  all: match type of Hl with str_at _ _ ?l0 =>
    destruct (repe_cmpsb_word w l0 n si b (Z.of_nat (length w)) si ct z f lt m Hw Hl Hb Hc H1 H2 ltac:(lia))
      as (s1 & E & Ea & Ed & Ef & Em & [[Hz Hp]|(Hz & Hp & j & Hj & Es & Hjw & Hjl)]); rewrite (bind_ok _ _ _ _ _ E) end.
  1,3: unfold branch; (erewrite bind_ok by reflexivity); rewrite Hz; exists s1; (split; [done|]); (split; [|done]);
    left; exists 0%nat; rewrite Ea; (split; [lia|]); (split; [done|]); (split; [lia|lia]).
  - pose proof (str_at_nil _ _ Hl) as (E0 & B1 & B2). cbn [length] in Hj. assert (j = 0%nat) as -> by lia.
    destruct (strstr_1_miss n ct s1 Ef Hz) as (b' & c' & di' & f' & l' & Er); [lia|lia|].
    rewrite Er, Em, Es. replace (si + Z.of_nat 0 + 1 - 1) with si by lia. rewrite (u32_small si), E0 by lia.
    eexists. split; [reflexivity|]. split; [|reflexivity]. right. split; [|reflexivity].
    intros i. by rewrite drop_nil.
  - pose proof (str_at_cons _ _ _ _ Hl) as (E0 & Hx & Hl' & B1 & B2).
    pose proof (proj2 (proj2 Hl)) as Hb1. cbn [length] in Hb1.
    destruct (strstr_1_miss n ct s1 Ef Hz) as (b' & c' & di' & f' & l' & Er); [lia|lia|].
    rewrite Er, Em, Es, Ea, Ed. cbn [length] in Hj.
    replace (si + Z.of_nat j + 1 - 1) with (si + Z.of_nat j) by lia. rewrite u32_small by lia.
    destruct (decide (j = S (length l))) as [->|Hne].
    + assert (m (si + Z.of_nat (S (length l))) = 0) as ->.
      { apply (bytes_at_lookup m ((x :: l) ++ [0]) si (S (length l))); [apply Hl|].
        by rewrite (list_lookup_middle (x :: l) [] 0). }
      eexists. split; [reflexivity|]. split; [|reflexivity]. right. split; [|reflexivity].
      specialize (Hjl eq_refl). intros i Hpre%prefix_length. rewrite length_drop in Hpre. cbn [length] in *. lia.
    + destruct (lookup_lt_is_Some_2 (x :: l) j) as [y Hy]; [cbn; lia|].
      assert (m (si + Z.of_nat j) = y) as ->.
      { apply (bytes_at_lookup m ((x :: l) ++ [0]) si j); [apply Hl|]. by apply lookup_app_l_Some. }
      assert (is_char y) as Hyc.
      { eapply (Forall_lookup_1 is_char (x :: l)); [apply Hl|exact Hy]. }
      rewrite (bool_decide_false (y = 0)) by (unfold is_char in Hyc; lia). cbn [negb].
      destruct (IH n ct (si + Z.of_nat j + 1) b' c' (si + 1) di' false f' l' m Hw Hl' Hb Hc H1 H2 ltac:(lia))
        as (s' & Er' & Hocc & Em').
      exists s'. split; [exact Er'|]. split; [|done]. by apply first_occurrence_cons.
Qed.

Lemma strstr_run fuel s cs ct l w :
  str_at (mem s) cs l -> str_at (mem s) ct w -> (length l + length w < fuel)%nat ->
  exists s' r, strstr fuel cs ct s = Ok (s', r) /\ first_occurrence w l cs r /\ mem s' = mem s.
Proof.
  intros Hl Hw Hn. destruct s as [a b c d si di z f lt k m]. cbn [mem] in *.
  pose proof (proj2 (proj2 Hl)) as Hb1. pose proof (proj2 (proj2 Hw)) as Hb2. unfold strstr.
  do 4 (erewrite bind_ok by reflexivity). cbn [to_eax to_ecx to_esi upd eax ebx ecx edx esi edi zf sf lf df mem].
  destruct (set_length_run w fuel ct 0 b d cs di z f lt m eq_refl Hw ltac:(lia)) as (di' & f' & lt' & E).
  rewrite (bind_ok _ _ _ _ _ E). erewrite bind_ok by reflexivity.
  cbn [to_edx upd eax ebx ecx edx esi edi zf sf lf df mem].
  destruct w as [|y w].
  - destruct fuel as [|fuel]; [cbn in Hn; lia|]. cbn [length].
    assert (strstr_1 (S fuel) ct (Cpu 0 b 0 0 cs di' true f' lt' false m) =
      Ok (Cpu cs b 0 0 cs ct true f' lt' false m, tt)) as Er.
    { by rewrite strstr_1_entry, (bind_ok _ _ _ _ _ (repe_0 _ _ _ _ _ _ _ _ _ _ _ _)). }
    exists (Cpu cs b 0 0 cs ct true f' lt' false m), cs. rewrite (bind_ok _ _ _ _ _ Er).
    split; [done|]. split; [|done]. left. exists 0%nat. split; [lia|]. split; [apply prefix_nil|]. split; [lia|lia].
  - destruct (strstr_1_spec (y :: w) l fuel ct 0 b (Z.of_nat (length (y :: w))) cs di' (bool_decide (length (y :: w) = 0%nat)) f' lt' m)
      as (s' & Er & Hocc & Em); try done; try lia; [|apply Hw|].
    + eapply bytes_at_app, Hw.
    + exists s', (eax s'). split; [|done]. by rewrite (bind_ok _ _ _ _ _ Er).
Qed.

Lemma strncat_run fuel s dest src l1 l2 count :
  str_at (mem s) dest l1 -> str_at (mem s) src l2 -> Z.of_nat (length l2) < count -> count ≤ 2 ^ 31 ->
  dest + Z.of_nat (length l1) + Z.of_nat (length l2) + 2 < 2 ^ 32 ->
  dest + Z.of_nat (length l1) + Z.of_nat (length l2) < src \/ src + Z.of_nat (length l2) < dest + Z.of_nat (length l1) ->
  (length l1 < fuel)%nat -> (length l2 < fuel)%nat ->
  exists s' m', strncat fuel dest src count s = Ok (s', dest) /\
    copied (mem s) m' (dest + Z.of_nat (length l1)) src (Z.of_nat (length l2) + 1) /\
    mem s' = store (dest + Z.of_nat (length l1) + Z.of_nat (length l2) + 1) 0 m'.
Proof.
  intros Hs1 Hs2 Hc1 Hc2 H2 Hov Hn1 Hn2. destruct s as [a b c d si di z f lt k m]. cbn [mem] in *.
  pose proof (proj2 (proj2 Hs1)) as Hb. set (n1 := Z.of_nat (length l1)) in *.
  assert (u32 (dest + n1 + 1 - 1) = dest + n1) as Eu by (rewrite u32_small; lia).
  set (s1 := step_flags (dest + n1) (bool_decide (dest + n1 + 1 = 2 ^ 31))
      (Cpu 0 b (0xffffffff - n1 - 1) d src (dest + n1) true false false false m)).
  assert (decl edi to_edi (Cpu 0 b (0xffffffff - n1 - 1) d src (dest + n1 + 1) true false false false m) = Ok (s1, tt)) as Edec.
  { transitivity (Ok (step_flags (u32 (dest + n1 + 1 - 1)) (bool_decide (dest + n1 + 1 = 2 ^ 31))
      (Cpu 0 b (0xffffffff - n1 - 1) d src (u32 (dest + n1 + 1 - 1)) true false false false m), tt)); [reflexivity|].
    by rewrite Eu. }
  destruct (strncat_1_spec l2 fuel 0 b count d src (dest + n1) (zf s1) (sf s1) (lf s1) m Hs2) as (s' & m' & E & Hcp & Em); try lia.
  exists s', m'. split; [|done]. unfold strncat. do 5 (erewrite bind_ok by reflexivity).
  cbn [to_eax to_ecx to_edi to_esi upd eax ebx ecx edx esi edi zf sf lf df mem].
  rewrite (bind_ok _ _ _ _ _ (repne_scasb_nul l1 fuel 0 b 0xffffffff d src dest z f lt m eq_refl Hs1 ltac:(lia) Hn1)).
  fold n1. rewrite (bind_ok _ _ _ _ _ Edec). erewrite bind_ok by reflexivity.
  by rewrite (bind_ok _ _ _ _ _ E).
Qed.

(** [memcmp] of no bytes: [repe] leaves the caller's flags. *)
Lemma memcmp_empty fuel s cs ct :
  exists s', memcmp fuel cs ct 0 s =
    Ok (s', if zf s then 0 else if lf s then 1 else 2 ^ 32 - 1) /\ mem s' = mem s.
Proof.
  destruct s as [a b c d si di z f lt k m]. unfold memcmp. do 5 (erewrite bind_ok by reflexivity).
  cbn [to_eax to_ecx to_edi to_esi upd eax ebx ecx edx esi edi zf sf lf df mem].
  rewrite (bind_ok _ _ _ _ _ (repe_0 _ _ _ _ _ _ _ _ _ _ _ _)). destruct z, lt; eexists; split; reflexivity.
Qed.
