(* ===== verification/StringProps.v ===== *)
(** * The properties of the string functions

    Statements over bytes in memory: what each function leaves in memory and
    what it returns, and three places where the assembly does not do what the C
    function of that name promises. *)
From S2P Require Import Prelude Words Cpu StringH Strings.

(** A memory with the lists of bytes of [l] at their addresses, zero elsewhere. *)
Fixpoint memory (l : list (Z * list Z)) : Z -> Z :=
  match l with
  | [] => fun _ => 0
  | (a, bs) :: l => fun x =>
      if decide (a ≤ x < a + Z.of_nat (length bs)) then default 0 (bs !! Z.to_nat (x - a)) else memory l x
  end.
Definition at_rest (m : Z -> Z) : cpu := Cpu 0 0 0 0 0 0 false false false false m.

(** "ababc", "abc" and room. *)
Definition ababc : list Z := [97; 98; 97; 98; 99].
Definition abc : list Z := [97; 98; 99].
Definition sample : Z -> Z := memory [(100, ababc ++ [0]); (200, abc ++ [0]); (300, [65; 66; 0; 9; 9; 9; 9; 9; 9])].

Lemma sample_ababc : str_at sample 100 ababc.
Proof. split; [repeat split|]. split; [repeat constructor|]. cbn. lia. Qed.
Lemma sample_abc : str_at sample 200 abc.
Proof. split; [repeat split|]. split; [repeat constructor|]. cbn. lia. Qed.
Lemma sample_AB : str_at sample 300 [65; 66].
Proof. split; [repeat split|]. split; [repeat constructor|]. cbn. lia. Qed.

(** [strcmp] returns 0 for equal strings; otherwise the sign of the
    difference of the first bytes that differ, the terminating zero included,
    as signed characters. *)
Theorem strcmp_correct fuel s cs ct l1 l2 :
  str_at (mem s) cs l1 -> str_at (mem s) ct l2 -> (length l1 < fuel)%nat ->
  exists s' r, strcmp fuel cs ct s = Ok (s', r) /\ first_difference l1 l2 r /\ mem s' = mem s.
Proof. apply strcmp_run. Qed.

Lemma strcmp_correct_witness :
  exists s' r, strcmp 10 100 200 (at_rest sample) = Ok (s', r) /\ first_difference ababc abc r /\ mem s' = sample.
Proof. apply (strcmp_correct 10 (at_rest sample) 100 200 ababc abc sample_ababc sample_abc). cbn. lia. Defined.

(** [memmove] moves the bytes whether or not the blocks overlap, and leaves
    the direction flag set when the source does not lie above the destination. *)
Theorem memmove_correct fuel s dest src n :
  0 ≤ src -> src + Z.of_nat n < 2 ^ 32 -> 0 ≤ dest -> dest + Z.of_nat n < 2 ^ 32 -> (n ≤ fuel)%nat ->
  exists s', memmove fuel dest src (Z.of_nat n) s = Ok (s', dest) /\
    copied (mem s) (mem s') dest src (Z.of_nat n) /\ df s' = bool_decide (src ≤ dest).
Proof. apply memmove_run. Qed.

Lemma memmove_correct_witness :
  exists s', memmove 6 101 100 5 (at_rest sample) = Ok (s', 101) /\ copied sample (mem s') 101 100 5 /\ df s' = true.
Proof. apply (memmove_correct 6 (at_rest sample) 101 100 5); lia. Defined.

(** C22.  [strstr] returns the address of the first occurrence of the word in the
    string, or the null pointer when there is none; the empty word occurs at the
    start. *)
Theorem strstr_correct fuel s cs ct l w :
  str_at (mem s) cs l -> str_at (mem s) ct w -> (length l + length w < fuel)%nat ->
  exists s' r, strstr fuel cs ct s = Ok (s', r) /\ first_occurrence w l cs r /\ mem s' = mem s.
Proof. apply strstr_run. Qed.

Lemma strstr_correct_witness :
  exists s' r, strstr 10 100 200 (at_rest sample) = Ok (s', r) /\ first_occurrence abc ababc 100 r /\ mem s' = sample.
Proof. apply (strstr_correct 10 (at_rest sample) 100 200 ababc abc sample_ababc sample_abc). cbn. lia. Defined.

Lemma bytes_at_app_intro m l1 l2 : forall a,
  bytes_at m a l1 -> bytes_at m (a + Z.of_nat (length l1)) l2 -> bytes_at m a (l1 ++ l2).
Proof.
  induction l1 as [|x l1 IH]; intros a; cbn [app bytes_at length].
  - by rewrite Z.add_0_r.
  - intros [Hx H1] H2. split; [done|]. apply IH; [done|]. by replace (a + 1 + Z.of_nat (length l1)) with (a + Z.of_nat (S (length l1))) by lia.
Qed.

Lemma bytes_at_copied m m' src l : forall dest n k, copied m m' dest src n ->
  bytes_at m (src + k) l -> 0 ≤ k -> k + Z.of_nat (length l) ≤ n -> bytes_at m' (dest + k) l.
Proof.
  induction l as [|x l IH]; intros dest n k Hc; cbn [bytes_at length]; [done|]. intros [Hx Hb] Hk Hn. split.
  - rewrite Hc, decide_True by lia. rewrite <-Hx. f_equal. lia.
  - rewrite <-Z.add_assoc. eapply IH; [exact Hc| |lia|lia]. by rewrite Z.add_assoc.
Qed.

(** [strcat] of two strings in separate memory leaves their concatenation
    at the destination, and [strlen] of it is the sum of the lengths. *)
Theorem strcat_strlen fuel s dest src l1 l2 :
  str_at (mem s) dest l1 -> str_at (mem s) src l2 ->
  dest + Z.of_nat (length l1) + Z.of_nat (length l2) + 1 < 2 ^ 32 ->
  dest + Z.of_nat (length l1) + Z.of_nat (length l2) < src \/ src + Z.of_nat (length l2) < dest ->
  (length l1 + length l2 < fuel)%nat ->
  exists s1 s2, strcat fuel dest src s = Ok (s1, dest) /\ str_at (mem s1) dest (l1 ++ l2) /\
    strlen fuel dest s1 = Ok (s2, Z.of_nat (length l1) + Z.of_nat (length l2)).
Proof.
  intros H1 H2 Hend Hsep Hn.
  destruct (strcat_run fuel s dest src l1 l2 H1 H2 Hend) as (s1 & E1 & Hc); [lia|lia|lia|].
  assert (str_at (mem s1) dest (l1 ++ l2)) as Hs.
  { split; [|split; [apply Forall_app_2; [apply H1|apply H2]|]].
    - rewrite <-app_assoc. apply bytes_at_app_intro.
      + eapply bytes_at_ext; [eapply bytes_at_app, H1|]. intros y Hy. by rewrite Hc, decide_False by lia.
      + pose proof (proj1 H2) as Hb. rewrite <-(Z.add_0_r src) in Hb. rewrite <-(Z.add_0_r (dest + _)).
        eapply bytes_at_copied; [exact Hc|exact Hb|lia|]. rewrite length_app. cbn [length]. lia.
    - rewrite length_app. destruct H1 as (_ & _ & ? & _). lia. }
  destruct (strlen_run fuel s1 dest (l1 ++ l2) Hs) as (s2 & E2 & _); [rewrite length_app; lia|].
  exists s1, s2. split; [done|]. split; [done|]. rewrite E2, length_app. do 2 f_equal. lia.
Qed.

Lemma strcat_strlen_witness :
  exists s1 s2, strcat 10 300 200 (at_rest sample) = Ok (s1, 300) /\ str_at (mem s1) 300 ([65; 66] ++ abc) /\
    strlen 10 300 s1 = Ok (s2, 5).
Proof.
  apply (strcat_strlen 10 (at_rest sample) 300 200 [65; 66] abc sample_AB sample_abc); [cbn; lia|right; cbn; lia|cbn; lia].
Defined.

(** When the count exceeds the length of the source, [strncat] copies the
    source with its terminating zero and then writes one more zero behind it:
    one byte past the memory the result needs. *)
Theorem strncat_extra_byte fuel s dest src l1 l2 count :
  str_at (mem s) dest l1 -> str_at (mem s) src l2 -> Z.of_nat (length l2) < count -> count ≤ 2 ^ 31 ->
  dest + Z.of_nat (length l1) + Z.of_nat (length l2) + 2 < 2 ^ 32 ->
  dest + Z.of_nat (length l1) + Z.of_nat (length l2) < src \/ src + Z.of_nat (length l2) < dest + Z.of_nat (length l1) ->
  (length l1 < fuel)%nat -> (length l2 < fuel)%nat ->
  exists s' m', strncat fuel dest src count s = Ok (s', dest) /\
    copied (mem s) m' (dest + Z.of_nat (length l1)) src (Z.of_nat (length l2) + 1) /\
    mem s' = store (dest + Z.of_nat (length l1) + Z.of_nat (length l2) + 1) 0 m'.
Proof. apply strncat_run. Qed.

Lemma strncat_extra_byte_witness :
  exists s' m', strncat 10 300 200 7 (at_rest sample) = Ok (s', 300) /\ copied sample m' 302 200 4 /\
    mem s' = store 306 0 m'.
Proof.
  apply (strncat_extra_byte 10 (at_rest sample) 300 200 [65; 66] abc 7 sample_AB sample_abc); cbn; lia.
Defined.

(** [memcmp] of no bytes compares nothing and answers from the flags the
    caller happened to leave: two empty blocks can differ either way. *)
Theorem memcmp_no_bytes fuel s cs ct :
  exists s', memcmp fuel cs ct 0 s = Ok (s', if zf s then 0 else if lf s then 1 else 2 ^ 32 - 1) /\ mem s' = mem s.
Proof. apply memcmp_empty. Qed.

(** [strspn] returns the length of the longest prefix of the string whose
    characters all belong to the set; an empty set gives 0. *)
Theorem strspn_correct fuel s cs ct l set :
  str_at (mem s) cs l -> str_at (mem s) ct set -> (length l + length set < fuel)%nat ->
  exists s', strspn fuel cs ct s = Ok (s', Z.of_nat (span set l)) /\ mem s' = mem s.
Proof. apply strspn_run. Qed.

Lemma strspn_correct_witness :
  exists s', strspn 10 100 200 (at_rest sample) = Ok (s', Z.of_nat (span abc ababc)) /\ mem s' = sample.
Proof. apply (strspn_correct 10 (at_rest sample) 100 200 ababc abc sample_ababc sample_abc). cbn. lia. Defined.
