(* ===== verification/Ports.v ===== *)
(** * I/O ports

    [outb], [inb] and their delayed variants (include/asm/io.h) and the word
    transfer of kernel/blk_drv/hd.c.  The hardware is a parameter: [device log
    port] is what a read of [port] yields after the port operations [log]. *)
From S2P Require Import Prelude Words.

(** One transfer of 8 or 16 bits. *)
Inductive io :=
| Out (port v : Z)
| In (port v : Z)
| InW (port v : Z).

#[export] Instance io_eq_dec : EqDecision io.
Proof. solve_decision. Defined.

(** A state that records its port operations, the last one last. *)
Class Ports (S : Type) := {
  io_log : S -> list io;
  set_log : list io -> S -> S
}.
#[global] Hint Mode Ports ! : typeclass_instances.

Section ports.
Context {S : Type} `{Ports S} (device : list io -> Z -> Z).

Definition record (e : io) : M S unit := modify (fun s => set_log (io_log s ++ [e]) s).

Definition outb (value port : Z) : M S unit := record (Out port (u8 value)).
Definition outb_p (value port : Z) : M S unit := outb value port.

Definition inb (port : Z) : M S Z :=
  s ← get; let v := u8 (device (io_log s) port) in record (In port v);; mret v.
Definition inb_p (port : Z) : M S Z := inb port.

(** One word of [insw]. *)
Definition inw (port : Z) : M S Z :=
  s ← get; let v := u16 (device (io_log s) port) in record (InW port v);; mret v.

Lemma inb_eq port s : inb port s = Ok (set_log (io_log s ++ [In port (u8 (device (io_log s) port))]) s, u8 (device (io_log s) port)).
Proof. done. Qed.

Lemma inw_eq port s : inw port s = Ok (set_log (io_log s ++ [InW port (u16 (device (io_log s) port))]) s, u16 (device (io_log s) port)).
Proof. done. Qed.
End ports.
