(* ===== verification/Blk.v ===== *)
(** * Block requests and the hard-disk driver

    kernel/blk_drv: the request structure, the order and the checks of blk.h,
    and the interrupt-driven read of hd.c.  Pointers into [request[]] are
    indices.  The disk is the [device] parameter of Ports.v. *)
From S2P Require Import Prelude Words Ports Sched Buffer.

Definition NR_BLK_DEV : Z := 7.
Definition NR_REQUEST : Z := 32.
Definition READ : Z := 0.
Definition MAJOR (a : Z) : Z := Z.shiftr (u32 a) 8.
(** [MAJOR_NR] as hd.c defines it. *)
Definition MAJOR_NR : Z := 3.

Record request := Request {
  dev : Z; cmd : Z; errors : Z; sector : Z; nr_sectors : Z; buffer : Z;
  waiting : Z; bh : Z; next_request : option nat
}.

#[export] Instance eta_request : Eta request := fun r =>
  Request (dev r) (cmd r) (errors r) (sector r) (nr_sectors r) (buffer r) (waiting r) (bh r) (next_request r).

(** The elevator order: [cmd], then [dev], then [sector]. *)
Definition IN_ORDER (s1 s2 : request) : Prop :=
  cmd s1 < cmd s2 \/ (cmd s1 = cmd s2 /\
    (dev s1 < dev s2 \/ (dev s1 = dev s2 /\ sector s1 < sector s2))).

#[export] Instance IN_ORDER_dec s1 s2 : Decision (IN_ORDER s1 s2).
Proof. unfold IN_ORDER. apply _. Defined.

(** Handlers [do_hd] can point to. *)
Inductive handler := Read_intr.

Record blk := Blk {
  requests : list request;               (** [request[]] *)
  current_request : option nat;          (** [blk_dev[3].current_request] *)
  do_hd : option handler;
  hd_timeout : Z;
  wait_for_request : Z;
  bhs : gmap Z buffer_head;
  memory : Z -> Z;
  tasks : sched_state;
  blk_log : list io
}.

#[export] Instance eta_blk : Eta blk := fun r =>
  Blk (requests r) (current_request r) (do_hd r) (hd_timeout r) (wait_for_request r) (bhs r) (memory r) (tasks r) (blk_log r).

#[export] Instance blk_ports : Ports blk := {|
  io_log := blk_log;
  set_log l s := s <| blk_log := l |>
|}.

#[export] Instance blk_sched : SchedOps blk := {|
  init_task s := init_task (tasks s);
  slots s := slots (tasks s);
  cur s := cur (tasks s);
  set_cur p s := s <| tasks := set_cur p (tasks s) |>;
  state_of s := state_of (tasks s);
  set_state p v s := s <| tasks := set_state p v (tasks s) |>
|}.

(** The wait queues of the block layer. *)
Inductive queue := Q_buffer (bh : Z) | Q_request (i : nat) | Q_wait_for_request.

#[export] Instance blk_queues : WaitQueues blk queue := {|
  head_of q s :=
    match q with
    | Q_buffer b => from_option b_wait 0 (bhs s !! b)
    | Q_request i => from_option waiting 0 (requests s !! i)
    | Q_wait_for_request => wait_for_request s
    end;
  set_head q p s :=
    match q with
    | Q_buffer b => s <| bhs := alter (fun h => h <| b_wait := p |>) b (bhs s) |>
    | Q_request i => s <| requests := alter (fun r => r <| waiting := p |>) i (requests s) |>
    | Q_wait_for_request => s <| wait_for_request := p |>
    end
|}.

(** ** blk.h *)

(** [CURRENT], dereferenced. *)
Definition CURRENT : M blk (nat * request) :=
  s ← get; i ← check "CURRENT" (current_request s); r ← check "request" (requests s !! i); mret (i, r).
Definition set_request (i : nat) (f : request -> request) : M blk unit :=
  modify (fun s => s <| requests := alter f i (requests s) |>).
Definition bh_of (b : Z) : M blk buffer_head := s ← get; check "buffer_head" (bhs s !! b).
Definition set_bh_of (b : Z) (f : buffer_head -> buffer_head) : M blk unit :=
  h ← bh_of b; modify (fun s => s <| bhs := <[b := f h]> (bhs s) |>).

Definition SET_INTR (x : handler) : M blk unit := modify (fun s => s <| do_hd := Some x |> <| hd_timeout := 200 |>).

(** (The message about a free buffer has no effect on the state.) *)
Definition unlock_buffer (b : Z) : M blk unit :=
  _ ← bh_of b;
  set_bh_of b (fun h => h <| b_lock := 0 |>);; wake_up (Q_buffer b).

(** [end_request]; the messages of a failed request read its buffer head even
    when there is none. *)
Definition end_request (uptodate : Z) : M blk unit :=
  c ← CURRENT;
  when (bool_decide (bh c.2 <> 0))
    (set_bh_of (bh c.2) (fun h => h <| b_uptodate := u8 uptodate |>);; unlock_buffer (bh c.2));;
  when (bool_decide (uptodate = 0)) (_ ← bh_of (bh c.2); mret tt);;
  wake_up (Q_request c.1);;
  wake_up Q_wait_for_request;;
  set_request c.1 (fun r => r <| dev := -1 |>);;
  modify (fun s => s <| current_request := next_request c.2 |>).

(** [INIT_REQUEST]: [false] when the function it stands in returns. *)
Definition INIT_REQUEST : M blk bool :=
  s ← get;
  match current_request s with
  | None => modify (fun s => s <| do_hd := None |> <| hd_timeout := 0 |>);; mret false
  | Some _ =>
      c ← CURRENT;
      if decide (MAJOR (dev c.2) <> MAJOR_NR) then stop (Panic "harddisk: request list destroyed") else
      if decide (bh c.2 <> 0)
      then h ← bh_of (bh c.2); if decide (b_lock h = 0) then stop (Panic "harddisk: block not locked") else mret true
      else mret true
  end.

(** ** hd.c *)

Definition HD_DATA : Z := 0x1f0.
Definition HD_ERROR : Z := 0x1f1.
Definition HD_STATUS : Z := 0x1f7.
Definition ERR_STAT : Z := 0x01.
Definition SEEK_STAT : Z := 0x10.
Definition WRERR_STAT : Z := 0x20.
Definition READY_STAT : Z := 0x40.
Definition BUSY_STAT : Z := 0x80.

Section hd.
Variable device : list io -> Z -> Z.

(** [cld; rep; insw] *)
Fixpoint port_read (port buf : Z) (nr : nat) : M blk unit :=
  match nr with
  | O => mret tt
  | S nr =>
      w ← inw device port;
      modify (fun s => s <| memory := fun x =>
        if decide (x = buf) then w mod 256 else if decide (x = u32 (buf + 1)) then w / 256 else memory s x |>);;
      port_read port (u32 (buf + 2)) nr
  end.

Definition win_result : M blk Z :=
  i ← inb_p device HD_STATUS;
  if decide (Z.land i (Z.lor (Z.lor (Z.lor (Z.lor BUSY_STAT READY_STAT) WRERR_STAT) SEEK_STAT) ERR_STAT)
             = Z.lor READY_STAT SEEK_STAT)
  then mret 0
  else when (bool_decide (Z.land i 1 <> 0)) (_ ← inb device HD_ERROR; mret tt);; mret 1.

(** What [read_intr] stores in the current request after a sector. *)
Definition next_sector (r : request) : request :=
  r <| errors := 0 |> <| buffer := u32 (buffer r + 512) |> <| sector := u32 (sector r + 1) |>
    <| nr_sectors := u32 (nr_sectors r - 1) |>.

(** (The messages have no effect on the state.) *)
Definition read_intr : M blk unit :=
  r ← win_result;
  if decide (r <> 0) then mret tt else
  c ← CURRENT;
  port_read HD_DATA (buffer c.2) 256;;
  set_request c.1 next_sector;;
  c ← CURRENT;
  when (bool_decide (nr_sectors c.2 <> 0)) (SET_INTR Read_intr).

Definition unexpected_hd_int : M blk unit := stop (Panic "unexpected int").

(** [hd_interrupt] of kernel/idt.asm: take the handler out of [do_hd] and call it. *)
Definition hd_interrupt : M blk unit :=
  outb 0x20 0xa0;;
  s ← get;
  modify (fun s => s <| hd_timeout := 0 |> <| do_hd := None |>);;
  outb 0x20 0x20;;
  match do_hd s with
  | Some Read_intr => read_intr
  | None => unexpected_hd_int
  end.

Definition mock_hd_out : M blk Z :=
  SET_INTR Read_intr;;
  outb_p 0xc8 0x3f6;; outb_p 0xff 0x1f1;; outb_p 0x02 0x1f2;;
  outb_p 0x01 0x1f3;; outb_p 0 0x1f4;; outb_p 0 0x1f5;; outb_p 0xa0 0x1f6;;
  outb 0x20 0x1f7;;
  mret 0.

(** [test_bh], the head of [hd_test_buf]. *)
Definition test_head (hd_test_buf : Z) : buffer_head := BufferHead hd_test_buf 0 0x300 0 0 1 0 0 0 0 0 0.

(** The read request for the block of a buffer head. *)
Definition fill_request (test_bh : Z) (h : buffer_head) (r : request) : request :=
  r <| dev := b_dev h |> <| cmd := READ |> <| errors := 0 |>
    <| sector := u32 (Z.shiftl (b_blocknr h) 1) |> <| nr_sectors := 2 |> <| buffer := b_data h |>
    <| bh := test_bh |> <| next_request := None |>.

(** [sys_kdebug] of hd.c, [test_bh] the address of that variable. *)
Definition sys_kdebug (test_bh : Z) : M blk Z :=
  h ← bh_of test_bh;
  s ← get; _ ← check "request" (requests s !! 31%nat);
  set_request 31 (fill_request test_bh h);;
  modify (fun s => s <| current_request := Some 31%nat |>);;
  _ ← mock_hd_out;
  mret 0.
End hd.

(** ** The elevator order *)

(** [IN_ORDER] is a strict order that is total on the triples (command,
    device, sector): it never holds both ways, composes, and relates any two
    requests that differ in one of the three. *)
Theorem in_order_strict r1 r2 r3 :
  ~ IN_ORDER r1 r1 /\ (IN_ORDER r1 r2 -> ~ IN_ORDER r2 r1) /\
  (IN_ORDER r1 r2 -> IN_ORDER r2 r3 -> IN_ORDER r1 r3) /\
  (IN_ORDER r1 r2 \/ IN_ORDER r2 r1 \/ (cmd r1 = cmd r2 /\ dev r1 = dev r2 /\ sector r1 = sector r2)).
Proof. unfold IN_ORDER. repeat split; lia. Qed.

(** ** The interrupt-driven read *)

(** Memory after [ws] were stored from [buf] on, low byte first. *)
Fixpoint store_words (buf : Z) (ws : list Z) (m : Z -> Z) : Z -> Z :=
  match ws with
  | [] => m
  | w :: ws => store_words (u32 (buf + 2)) ws (fun x =>
      if decide (x = buf) then w mod 256 else if decide (x = u32 (buf + 1)) then w / 256 else m x)
  end.

Lemma store_words_spec ws : forall buf m x,
  0 ≤ buf -> buf + 2 * Z.of_nat (length ws) ≤ 2 ^ 32 ->
  store_words buf ws m x =
  if decide (buf ≤ x < buf + 2 * Z.of_nat (length ws))
  then let w := nth (Z.to_nat ((x - buf) / 2)) ws 0 in if decide ((x - buf) mod 2 = 0) then w mod 256 else w / 256
  else m x.
Proof.
  induction ws as [|w ws IH]; intros buf m x Hb Hw; cbn [store_words length].
  - by rewrite decide_False by (cbn; lia).
  - cbn [length] in Hw. destruct ws as [|w' ws'] eqn:E.
    + cbn [store_words length]. assert (u32 (buf + 1) = buf + 1) as -> by (apply u32_small; cbn in *; lia).
      destruct (decide (x = buf)) as [->|]; [|destruct (decide (x = buf + 1)) as [->|]].
      * rewrite Z.sub_diag. by rewrite decide_True by (cbn; lia).
      * replace (buf + 1 - buf) with 1 by lia. by rewrite decide_True by (cbn; lia).
      * by rewrite decide_False by (cbn; lia).
    + rewrite <-E in *. assert (0 < Z.of_nat (length ws)) by (subst ws; cbn; lia).
      assert (u32 (buf + 1) = buf + 1 /\ u32 (buf + 2) = buf + 2) as [-> ->]
        by (split; apply u32_small; cbn in *; lia).
      rewrite IH by lia.
      destruct (decide (x = buf)) as [->|]; [|destruct (decide (x = buf + 1)) as [->|]].
      * rewrite decide_False by lia. rewrite (decide_True (P := buf ≤ buf < _)) by lia. by rewrite Z.sub_diag.
      * rewrite decide_False by lia. rewrite (decide_True (P := buf ≤ buf + 1 < _)) by lia.
        by replace (buf + 1 - buf) with 1 by lia.
      * case_decide; [rewrite (decide_True (P := buf ≤ x < _)) by lia|by rewrite decide_False by lia].
        replace (x - buf) with (x - (buf + 2) + 1 * 2) by lia.
        rewrite Z.div_add, Z.mod_add by lia.
        by replace (Z.to_nat ((x - (buf + 2)) / 2 + 1)) with (S (Z.to_nat ((x - (buf + 2)) / 2)))
          by (Z.div_mod_to_equations; lia).
Qed.

Section read.
Variable device : list io -> Z -> Z.

(** The words [n] reads of [port] yield after the operations [log]. *)
Fixpoint words_in (port : Z) (n : nat) (log : list io) : list Z :=
  match n with
  | O => []
  | S n => let w := u16 (device log port) in w :: words_in port n (log ++ [InW port w])
  end.

Lemma length_words_in port n log : length (words_in port n log) = n.
Proof. revert log. induction n; intros; cbn; congruence. Qed.

Lemma port_read_eq port n : forall buf s,
  port_read device port buf n s =
  Ok (s <| memory := store_words buf (words_in port n (blk_log s)) (memory s) |>
        <| blk_log := blk_log s ++ map (InW port) (words_in port n (blk_log s)) |>, tt).
Proof.
  induction n as [|n IH]; intros buf s.
  - destruct s. cbn. by rewrite app_nil_r.
  - cbn [port_read]. rewrite (bind_ok _ _ _ _ _ (inw_eq device port s)). erewrite bind_ok by reflexivity. rewrite IH.
    destruct s. cbn [upd blk_log memory words_in map store_words set_log blk_ports io_log].
    by rewrite <-app_assoc.
Qed.

Lemma CURRENT_eq s i r : current_request s = Some i -> requests s !! i = Some r -> CURRENT s = Ok (s, (i, r)).
Proof.
  intros Hi Hr. unfold CURRENT. erewrite bind_ok by reflexivity. rewrite Hi.
  erewrite bind_ok by reflexivity. rewrite Hr. reflexivity.
Qed.

(** The status bits [win_result] looks at. *)
Definition status_ok (v : Z) : bool := bool_decide (Z.land (u8 v) 0xf1 = 0x50).

Lemma win_result_ok s : status_ok (device (blk_log s) HD_STATUS) = true ->
  win_result device s = Ok (s <| blk_log := blk_log s ++ [In HD_STATUS (u8 (device (blk_log s) HD_STATUS))] |>, 0).
Proof.
  intros H%bool_decide_eq_true. unfold win_result, inb_p. rewrite (bind_ok _ _ _ _ _ (inb_eq device HD_STATUS s)).
  change (io_log s) with (blk_log s). by rewrite decide_True.
Qed.

Lemma win_result_bad s : status_ok (device (blk_log s) HD_STATUS) = false ->
  exists l, (l = [] \/ exists e, l = [In HD_ERROR e]) /\
    win_result device s = Ok (s <| blk_log := blk_log s ++ In HD_STATUS (u8 (device (blk_log s) HD_STATUS)) :: l |>, 1).
Proof.
  intros H%bool_decide_eq_false. unfold win_result, inb_p. rewrite (bind_ok _ _ _ _ _ (inb_eq device HD_STATUS s)).
  change (io_log s) with (blk_log s). rewrite decide_False by done.
  set (log := blk_log s ++ _).
  destruct (bool_decide _); [exists [In HD_ERROR (u8 (device log HD_ERROR))]|exists []]; (split; [eauto|]); [|by destruct s].
  unfold when, inb, record, modify, get, mbind, M_bind, mret, M_ret. unfold log. destruct s.
  cbn [io_log set_log blk_ports upd blk_log]. by rewrite <-app_assoc.
Qed.

(** One good interrupt stores a sector and moves the request on. *)
Lemma read_intr_ok s i r :
  current_request s = Some i -> requests s !! i = Some r ->
  status_ok (device (blk_log s) HD_STATUS) = true ->
  let log := blk_log s ++ [In HD_STATUS (u8 (device (blk_log s) HD_STATUS))] in
  let ws := words_in HD_DATA 256 log in
  let more := bool_decide (nr_sectors (next_sector r) <> 0) in
  read_intr device s =
  Ok (Blk (alter next_sector i (requests s)) (current_request s)
        (if more then Some Read_intr else do_hd s) (if more then 200 else hd_timeout s)
        (wait_for_request s) (bhs s) (store_words (buffer r) ws (memory s)) (tasks s)
        (log ++ map (InW HD_DATA) ws), tt).
Proof.
  intros Hi Hr Hs log ws more. unfold read_intr. rewrite (bind_ok _ _ _ _ _ (win_result_ok s Hs)).
  rewrite decide_False by tauto. fold log.
  erewrite bind_ok by (apply CURRENT_eq; [exact Hi|exact Hr]). cbn [fst snd].
  rewrite (bind_ok _ _ _ _ _ (port_read_eq _ _ _ _)). erewrite bind_ok by reflexivity.
  erewrite bind_ok. 2:{ apply CURRENT_eq with (r := next_sector r); [exact Hi|].
    transitivity (alter next_sector i (requests s) !! i); [reflexivity|]. by rewrite list_lookup_alter_eq, Hr. }
  cbn [fst snd]. fold more. destruct s. by destruct more.
Qed.

(** What [hd_interrupt] writes to the interrupt controllers, and the state it
    calls the handler in. *)
Definition eoi : list io := [Out 0xa0 0x20; Out 0x20 0x20].
Definition taken (s : blk) : blk :=
  Blk (requests s) (current_request s) None 0 (wait_for_request s) (bhs s) (memory s) (tasks s) (blk_log s ++ eoi).

Lemma hd_interrupt_eq s :
  hd_interrupt device s =
  match do_hd s with Some Read_intr => read_intr device (taken s) | None => unexpected_hd_int (taken s) end.
Proof.
  unfold hd_interrupt. do 4 (erewrite bind_ok by reflexivity).
  replace (do_hd _) with (do_hd s) by reflexivity. unfold taken, eoi.
  change [Out 0xa0 0x20; Out 0x20 0x20] with ([Out 0xa0 0x20] ++ [Out 0x20 0x20]). rewrite app_assoc.
  by destruct (do_hd s) as [[]|].
Qed.

(** The command [mock_hd_out] gives the drive: read two sectors. *)
Definition command : list io :=
  [Out 0x3f6 0xc8; Out 0x1f1 0xff; Out 0x1f2 2; Out 0x1f3 1; Out 0x1f4 0; Out 0x1f5 0; Out 0x1f6 0xa0; Out 0x1f7 0x20].

Lemma sys_kdebug_eq s tb h :
  bhs s !! tb = Some h -> is_Some (requests s !! 31%nat) ->
  sys_kdebug tb s =
  Ok (Blk (alter (fill_request tb h) 31%nat (requests s)) (Some 31%nat) (Some Read_intr) 200
        (wait_for_request s) (bhs s) (memory s) (tasks s) (blk_log s ++ command), 0).
Proof.
  intros Hh [r Hr]. unfold sys_kdebug, bh_of. erewrite bind_ok.
  2:{ erewrite bind_ok by reflexivity. rewrite Hh. reflexivity. }
  erewrite bind_ok by reflexivity. rewrite Hr. do 3 (erewrite bind_ok by reflexivity).
  destruct s. unfold mock_hd_out, SET_INTR, outb_p, outb, record, mbind, M_bind, modify.
  cbn [upd requests current_request do_hd hd_timeout wait_for_request bhs memory tasks blk_log io_log set_log blk_ports].
  by rewrite <-!app_assoc.
Qed.
End read.

(** The composition the driver lives by: the request, then one interrupt per
    sector. *)
Definition read_block (device : list io -> Z -> Z) (test_bh : Z) : M blk unit :=
  _ ← sys_kdebug test_bh; hd_interrupt device;; hd_interrupt device.

Lemma nth_app_words ws1 ws2 (k : nat) :
  length ws1 = 256%nat -> nth k (ws1 ++ ws2) 0 = if decide (k < 256)%nat then nth k ws1 0 else nth (k - 256) ws2 0.
Proof. intros H. case_decide; [apply app_nth1; lia|]. rewrite app_nth2 by lia. by rewrite H. Qed.

(** Two sectors of words, one after the other. *)
Lemma store_two buf ws1 ws2 m x :
  length ws1 = 256%nat -> length ws2 = 256%nat -> 0 ≤ buf -> buf + 1024 ≤ 2 ^ 32 ->
  store_words (u32 (buf + 512)) ws2 (store_words buf ws1 m) x = store_words buf (ws1 ++ ws2) m x.
Proof.
  intros H1 H2 Hb Hw. assert (u32 (buf + 512) = buf + 512) as -> by (apply u32_small; lia).
  rewrite !store_words_spec by (rewrite ?length_app, ?H1, ?H2; lia). rewrite length_app, H1, H2.
  cbv zeta. rewrite nth_app_words by done.
  repeat case_decide; try lia; try done.
  all: replace (Z.to_nat ((x - (buf + 512)) / 2)) with (Z.to_nat ((x - buf) / 2) - 256)%nat by (Z.div_mod_to_equations; lia).
  all: try done; Z.div_mod_to_equations; lia.
Qed.

(** C19.  When every status the drive reports is good, the request of
    [sys_kdebug] and two disk interrupts bring one block in: the ports see the
    command, and per sector the acknowledgement, the status and 256 words; byte
    [2k] of the buffer is the low and byte [2k+1] the high half of the [k]-th
    word, no other memory changes, and the request has no sector left.  Nothing
    ends the request: it stays current, its buffer is not marked up to date,
    no task is woken, and [do_hd] is [NULL]. *)
Theorem hd_read_block device s test_bh h :
  (forall log, status_ok (device log HD_STATUS) = true) ->
  bhs s !! test_bh = Some h -> is_Some (requests s !! 31%nat) ->
  0 ≤ b_data h -> b_data h + 1024 ≤ 2 ^ 32 ->
  exists s' ws1 ws2 v1 v2 r,
    read_block device test_bh s = Ok (s', tt) /\
    length ws1 = 256%nat /\ length ws2 = 256%nat /\
    blk_log s' = blk_log s ++ command ++ eoi ++ In HD_STATUS v1 :: map (InW HD_DATA) ws1
                                      ++ eoi ++ In HD_STATUS v2 :: map (InW HD_DATA) ws2 /\
    (forall x, memory s' x = if decide (b_data h ≤ x < b_data h + 1024)
       then let w := nth (Z.to_nat ((x - b_data h) / 2)) (ws1 ++ ws2) 0 in
            if decide ((x - b_data h) mod 2 = 0) then w mod 256 else w / 256
       else memory s x) /\
    requests s' !! 31%nat = Some r /\ nr_sectors r = 0 /\ bh r = test_bh /\
    sector r = u32 (u32 (Z.shiftl (b_blocknr h) 1) + 2) /\
    current_request s' = Some 31%nat /\ do_hd s' = None /\ bhs s' = bhs s /\ tasks s' = tasks s.
Proof.
  intros Hd Hh [r Hr] Hb Hw. unfold read_block.
  rewrite (bind_ok _ _ _ _ _ (sys_kdebug_eq s test_bh h Hh (mk_is_Some _ _ Hr))).
  erewrite bind_ok.
  2:{ rewrite hd_interrupt_eq. cbn [do_hd]. apply (read_intr_ok device _ 31 (fill_request test_bh h r)); [done| |apply Hd].
      transitivity (alter (fill_request test_bh h) 31%nat (requests s) !! 31%nat); [reflexivity|].
      by rewrite list_lookup_alter_eq, Hr. }
  rewrite hd_interrupt_eq.
  change (nr_sectors (next_sector (fill_request test_bh h r))) with 1.
  rewrite bool_decide_true by done. cbn [do_hd].
  erewrite (read_intr_ok device _ 31 (next_sector (fill_request test_bh h r))); [|done| |apply Hd].
  2:{ etransitivity; [reflexivity|]. cbn [taken requests]. by rewrite !list_lookup_alter_eq, Hr. }
  change (nr_sectors (next_sector (next_sector (fill_request test_bh h r)))) with 0.
  rewrite bool_decide_false by tauto.
  do 6 eexists. split; [reflexivity|]. cbn [taken blk_log memory requests current_request do_hd bhs tasks].
  split; [apply length_words_in|]. split; [apply length_words_in|]. split; [by rewrite <-!app_assoc|].
  split; [|rewrite !list_lookup_alter_eq, Hr; split; [reflexivity|]].
  - intros x. change (buffer (next_sector (fill_request test_bh h r))) with (u32 (b_data h + 512)).
    change (buffer (fill_request test_bh h r)) with (b_data h).
    rewrite store_two by first [apply length_words_in|done].
    rewrite store_words_spec by (rewrite ?length_app, ?length_words_in; lia).
    rewrite length_app, !length_words_in, <-!app_assoc. reflexivity.
  - split; [done|]. split; [done|]. split; [|done].
    change (u32 (u32 (u32 (Z.shiftl (b_blocknr h) 1) + 1) + 1) = u32 (u32 (Z.shiftl (b_blocknr h) 1) + 2)).
    unfold u32 at 1 2 4. rewrite Zplus_mod_idemp_l. f_equal. lia.
Qed.

(** A bad status ends a transfer for good: the interrupt reads the status
    (and the error register when its low bit is set) but no data, leaves the
    request, the buffer and every task as they were, wakes nobody, and leaves
    [do_hd] [NULL], so that one more disk interrupt stops the machine. *)
Theorem hd_bad_status device s :
  do_hd s = Some Read_intr -> status_ok (device (blk_log s ++ eoi) HD_STATUS) = false ->
  exists s' l, hd_interrupt device s = Ok (s', tt) /\
    blk_log s' = blk_log s ++ eoi ++ In HD_STATUS (u8 (device (blk_log s ++ eoi) HD_STATUS)) :: l /\
    (l = [] \/ exists e, l = [In HD_ERROR e]) /\
    do_hd s' = None /\ requests s' = requests s /\ current_request s' = current_request s /\
    memory s' = memory s /\ bhs s' = bhs s /\ tasks s' = tasks s /\
    forall device', hd_interrupt device' s' = Err (Panic "unexpected int").
Proof.
  intros Hd Hs. rewrite hd_interrupt_eq, Hd.
  destruct (win_result_bad device (taken s) Hs) as (l & Hl & E). unfold read_intr. rewrite (bind_ok _ _ _ _ _ E).
  eexists _, l. split; [reflexivity|]. split; [cbn [upd taken blk_log]; by rewrite <-app_assoc|].
  split; [done|]. repeat (split; [done|]). intros device'. by rewrite hd_interrupt_eq.
Qed.

(** ** Witnesses: a drive that is always ready and counts its reads *)

Definition ready_drive (log : list io) (port : Z) : Z :=
  if decide (port = HD_STATUS) then 0x50 else Z.of_nat (length log).
Definition idle_blk : blk :=
  Blk (replicate 32 (Request (-1) 0 0 0 0 0 0 0 None)) None None 0 0 {[0x1000 := test_head 0x2000]} (fun _ => 0)
    (SchedState 0 [] 0 ∅ []) [].
Definition first_drive : blk := idle_blk <| do_hd := Some Read_intr |>.

Lemma in_order_strict_witness :
  let r d := Request d READ 0 0 0 0 0 0 None in
  ~ IN_ORDER (r 1) (r 1) /\ (IN_ORDER (r 1) (r 2) -> ~ IN_ORDER (r 2) (r 1)) /\
  (IN_ORDER (r 1) (r 2) -> IN_ORDER (r 2) (r 3) -> IN_ORDER (r 1) (r 3)) /\
  (IN_ORDER (r 1) (r 2) \/ IN_ORDER (r 2) (r 1) \/ (READ = READ /\ 1 = 2 /\ 0 = 0)).
Proof. intros r. exact (in_order_strict (r 1) (r 2) (r 3)). Defined.

Lemma hd_read_block_witness :
  exists s' ws1 ws2 v1 v2 r,
    read_block ready_drive 0x1000 idle_blk = Ok (s', tt) /\
    length ws1 = 256%nat /\ length ws2 = 256%nat /\
    blk_log s' = [] ++ command ++ eoi ++ In HD_STATUS v1 :: map (InW HD_DATA) ws1
                                      ++ eoi ++ In HD_STATUS v2 :: map (InW HD_DATA) ws2 /\
    (forall x, memory s' x = if decide (0x2000 ≤ x < 0x2000 + 1024)
       then let w := nth (Z.to_nat ((x - 0x2000) / 2)) (ws1 ++ ws2) 0 in
            if decide ((x - 0x2000) mod 2 = 0) then w mod 256 else w / 256
       else 0) /\
    requests s' !! 31%nat = Some r /\ nr_sectors r = 0 /\ bh r = 0x1000 /\
    sector r = u32 (u32 (Z.shiftl 0 1) + 2) /\
    current_request s' = Some 31%nat /\ do_hd s' = None /\ bhs s' = bhs idle_blk /\ tasks s' = tasks idle_blk.
Proof.
  apply (hd_read_block ready_drive idle_blk 0x1000 (test_head 0x2000));
    [reflexivity|reflexivity|eexists; reflexivity|cbn; lia|cbn; lia].
Defined.

Lemma hd_bad_status_witness :
  exists s' l, hd_interrupt (fun _ _ => 0x51) first_drive = Ok (s', tt) /\
    blk_log s' = [] ++ eoi ++ In HD_STATUS 0x51 :: l /\
    (l = [] \/ exists e, l = [In HD_ERROR e]) /\
    do_hd s' = None /\ requests s' = requests first_drive /\ current_request s' = None /\
    memory s' = memory first_drive /\ bhs s' = bhs first_drive /\ tasks s' = tasks first_drive /\
    forall device', hd_interrupt device' s' = Err (Panic "unexpected int").
Proof. apply (hd_bad_status (fun _ _ => 0x51) first_drive); reflexivity. Defined.
