(* ===== verification/Boot.v ===== *)
(** * Boot

    What init/main.c runs before it enters user mode: [init_serial]
    (kernel/printk.c), [mem_init], [buffer_init], [trap_init], [sched_init]
    (kernel/sched.c) and [hd_init] (kernel/blk_drv/hd.c) on one machine state,
    built from the components.  The addresses of the assembly handlers and of
    the linker's [end] are parameters, the devices the [device] of Ports.v. *)
From S2P Require Import Prelude Words Ports Descriptors Memory Sched Links Buffer Getblk BufferInit CacheSpec.

Record machine := Machine {
  m_mm : mm;
  m_bsys : bsys;
  idt : list desc_struct;
  gdt : list desc_struct;
  task_table : list Z;
  tr : Z;               (** task register *)
  ldtr : Z;             (** local descriptor table register *)
  nt : bool;            (** nested-task flag *)
  interrupts : bool;
  m_log : list io
}.

#[export] Instance eta_machine : Eta machine := fun r =>
  Machine (m_mm r) (m_bsys r) (idt r) (gdt r) (task_table r) (tr r) (ldtr r) (nt r) (interrupts r) (m_log r).

#[export] Instance machine_ports : Ports machine := {| io_log := m_log; set_log l s := s <| m_log := l |> |}.

(** Code of a component, run on its part of the machine. *)
Definition on_mm {A} (m : M mm A) : M machine A := fun s =>
  match m (m_mm s) with Ok (x, a) => Ok (s <| m_mm := x |>, a) | Err f => Err f end.
Definition on_bsys {A} (m : M bsys A) : M machine A := fun s =>
  match m (m_bsys s) with Ok (x, a) => Ok (s <| m_bsys := x |>, a) | Err f => Err f end.

Section boot.
Variable device : list io -> Z -> Z.

(** ** kernel/printk.c *)

Definition COM1_PORT : Z := 0x3f8.

Definition init_serial : M machine Z :=
  outb 0x00 (COM1_PORT + 1);;
  outb 0x80 (COM1_PORT + 3);;
  outb 0x03 (COM1_PORT + 0);;
  outb 0x00 (COM1_PORT + 1);;
  outb 0x03 (COM1_PORT + 3);;
  outb 0xC7 (COM1_PORT + 2);;
  outb 0x0B (COM1_PORT + 4);;
  outb 0x1E (COM1_PORT + 4);;
  outb 0xAE (COM1_PORT + 0);;
  v ← inb device (COM1_PORT + 0);
  if decide (v <> 0xAE) then mret 1 else
  outb 0x0F (COM1_PORT + 4);;
  mret 0.

(** ** kernel/sched.c *)

Definition HZ : Z := 100.
Definition LATCH : Z := 1193180 / HZ.

(** A store to entry [n] of the descriptor tables, the task table. *)
Definition write_idt (n : Z) (d : desc_struct) : M machine unit :=
  s ← get; l ← check "idt" (arr_set (idt s) n d); modify (fun s => s <| idt := l |>).
Definition write_gdt (n : Z) (f : desc_struct -> desc_struct) : M machine unit :=
  s ← get; d ← check "gdt" (arr_get (gdt s) n); l ← check "gdt" (arr_set (gdt s) n (f d));
  modify (fun s => s <| gdt := l |>).
Definition write_task (n p : Z) : M machine unit :=
  s ← get; l ← check "task" (arr_set (task_table s) n p); modify (fun s => s <| task_table := l |>).

Definition ltr (n : Z) : M machine unit := modify (fun s => s <| tr := u16 (_TSS n) |>).
Definition lldt (n : Z) : M machine unit := modify (fun s => s <| ldtr := u16 (_LDT n) |>).

(** The [for] loop of [sched_init] with [i] and the index of [p] in [gdt]. *)
Fixpoint clear_slots (fuel : nat) (i p : Z) : M machine unit :=
  match fuel with
  | O => if decide (i < NR_TASKS) then stop Fuel else mret tt
  | S fuel =>
      if decide (i < NR_TASKS) then
        write_task i 0;;
        write_gdt p (fun _ => Desc 0 0);;
        write_gdt (p + 1) (fun _ => Desc 0 0);;
        clear_slots fuel (i + 1) (p + 2)
      else mret tt
  end.

(** [init_tss] and [init_ldt] are the addresses of the members of [init_task].
    (The size of [struct sigaction] is the constant 16.) *)
Definition sched_init (init_tss init_ldt timer_interrupt system_call : Z) : M machine unit :=
  write_gdt FIRST_TSS_ENTRY (fun d => set_tss_desc d init_tss);;
  write_gdt FIRST_LDT_ENTRY (fun d => set_ldt_desc d init_ldt);;
  clear_slots 64 1 (2 + FIRST_TSS_ENTRY);;
  modify (fun s => s <| nt := false |>);;
  ltr 0;;
  lldt 0;;
  outb_p 0x36 0x43;;
  outb_p (Z.land LATCH 0xff) 0x40;;
  outb (Z.shiftr LATCH 8) 0x40;;
  write_idt 0x20 (set_intr_gate timer_interrupt);;
  v ← inb_p device 0x21;
  outb (Z.land v (Z.lnot 0x01)) 0x21;;
  write_idt 0x80 (set_system_gate system_call).

(** ** kernel/blk_drv/hd.c *)

Definition hd_init (hd_interrupt : Z) : M machine unit :=
  write_idt 0x2E (set_intr_gate hd_interrupt);;
  v ← inb_p device 0x21; outb_p (Z.land v 0xfb) 0x21;;
  v ← inb_p device 0xA1; outb (Z.land v 0xbf) 0xA1.

(** ** init/main.c

    The addresses the linker gives: [end], the handlers, members of [init_task]. *)
Record image := Image {
  a_end : Z; a_idt_ptrs : Z -> Z; a_page_fault : Z; a_timer_interrupt : Z; a_system_call : Z;
  a_hd_interrupt : Z; a_init_tss : Z; a_init_ldt : Z
}.

(** [main] up to [sti()]. *)
Definition main (k : image) : M machine unit :=
  _ ← init_serial;
  on_mm (mem_init (Z.shiftl 4 20) (Z.shiftl 16 20));;
  on_bsys (buffer_init (a_end k) (4 * 1024 * 1024));;
  modify (fun s => s <| idt := trap_init (a_idt_ptrs k) (a_page_fault k) (idt s) |>);;
  sched_init (a_init_tss k) (a_init_ldt k) (a_timer_interrupt k) (a_system_call k);;
  hd_init (a_hd_interrupt k);;
  modify (fun s => s <| interrupts := true |>).
End boot.

(** ** Running the parts *)

Section steps.
Context {A : Type}.
Implicit Types (l : list A).

Lemma arr_set_nat l (n : nat) x : (n < length l)%nat -> arr_set l (Z.of_nat n) x = Some (<[n := x]> l).
Proof. intros H. rewrite arr_set_Some by lia. by rewrite Nat2Z.id. Qed.
End steps.

Lemma write_idt_eq (n : nat) d s : (n < length (idt s))%nat ->
  write_idt (Z.of_nat n) d s = Ok (s <| idt := <[n := d]> (idt s) |>, tt).
Proof. intros H. unfold write_idt. erewrite bind_ok by reflexivity. by rewrite arr_set_nat. Qed.

Lemma write_task_eq (n : nat) p s : (n < length (task_table s))%nat ->
  write_task (Z.of_nat n) p s = Ok (s <| task_table := <[n := p]> (task_table s) |>, tt).
Proof. intros H. unfold write_task. erewrite bind_ok by reflexivity. by rewrite arr_set_nat. Qed.

Lemma write_gdt_eq (n : nat) f s d : gdt s !! n = Some d ->
  write_gdt (Z.of_nat n) f s = Ok (s <| gdt := <[n := f d]> (gdt s) |>, tt).
Proof.
  intros H. pose proof (lookup_lt_Some _ _ _ H). unfold write_gdt. erewrite bind_ok by reflexivity.
  rewrite arr_get_nat, H. erewrite bind_ok by reflexivity. by rewrite arr_set_nat.
Qed.

(** The tables after the loop from slot [i] on. *)
Lemma clear_slots_eq fuel : forall (i : nat) s,
  (1 ≤ i ≤ 64)%nat -> (64 ≤ fuel + i)%nat -> length (gdt s) = 256%nat -> length (task_table s) = 64%nat ->
  exists g t, clear_slots fuel (Z.of_nat i) (Z.of_nat (2 * i + 4)) s =
      Ok (s <| gdt := g |> <| task_table := t |>, tt) /\
    length g = 256%nat /\ length t = 64%nat /\
    (forall j : nat, g !! j = if decide (2 * i + 4 ≤ j < 132)%nat then Some (Desc 0 0) else gdt s !! j) /\
    (forall j : nat, t !! j = if decide (i ≤ j < 64)%nat then Some 0 else task_table s !! j).
Proof.
  induction fuel as [|fuel IH]; intros i s Hi Hf Hg Ht; cbn [clear_slots]; unfold NR_TASKS.
  all: destruct (decide (Z.of_nat i < 64)) as [Hlt|Hge]; [try lia|].
  all: try (exists (gdt s), (task_table s); split; [by destruct s|]; split; [done|]; split; [done|];
    split; intros j; rewrite decide_False by lia; done).
  rewrite (bind_ok _ _ _ _ _ (write_task_eq i 0 s ltac:(lia))).
  set (s1 := s <| task_table := _ |>).
  destruct (lookup_lt_is_Some_2 (gdt s) (2 * i + 4)) as [d Hd]; [lia|].
  rewrite (bind_ok _ _ _ _ _ (write_gdt_eq (2 * i + 4) _ s1 d Hd)).
  set (s2 := s1 <| gdt := _ |>).
  destruct (lookup_lt_is_Some_2 (gdt s2) (2 * i + 5)) as [d' Hd'];
    [change (gdt s2) with (<[(2 * i + 4)%nat := Desc 0 0]> (gdt s)); rewrite length_insert; lia|].
  replace (Z.of_nat (2 * i + 4) + 1) with (Z.of_nat (2 * i + 5)) by lia.
  rewrite (bind_ok _ _ _ _ _ (write_gdt_eq (2 * i + 5) _ s2 d' Hd')).
  set (s3 := s2 <| gdt := _ |>).
  replace (Z.of_nat i + 1) with (Z.of_nat (S i)) by lia.
  replace (Z.of_nat (2 * i + 4) + 2) with (Z.of_nat (2 * S i + 4)) by lia.
  assert (gdt s3 = <[(2 * i + 5)%nat := Desc 0 0]> (<[(2 * i + 4)%nat := Desc 0 0]> (gdt s))) as Eg by done.
  assert (task_table s3 = <[i := 0]> (task_table s)) as Et by done.
  destruct (IH (S i) s3) as (g & t & E & Hlg & Hlt' & Hjg & Hjt); [lia|lia|by rewrite Eg, !length_insert|by rewrite Et, length_insert|].
  exists g, t. split; [exact E|]. split; [done|]. split; [done|]. rewrite Eg in Hjg. rewrite Et in Hjt. split; intros j.
  - rewrite Hjg. destruct (decide (j = 2 * i + 5)%nat) as [->|]; [|destruct (decide (j = 2 * i + 4)%nat) as [->|]].
    + rewrite decide_False, decide_True by lia. by rewrite list_lookup_insert_eq by (rewrite length_insert; lia).
    + rewrite decide_False, decide_True by lia. rewrite list_lookup_insert_ne by lia. by rewrite list_lookup_insert_eq by lia.
    + rewrite !list_lookup_insert_ne by lia. repeat case_decide; done || lia.
  - rewrite Hjt. destruct (decide (j = i)) as [->|].
    + rewrite decide_False, decide_True by lia. by rewrite list_lookup_insert_eq by lia.
    + rewrite list_lookup_insert_ne by lia. repeat case_decide; done || lia.
Qed.

Section parts.
Variable device : list io -> Z -> Z.

(** Port operations on a state whose log is named. *)
Definition logged (l : list io) (s : machine) : machine :=
  Machine (m_mm s) (m_bsys s) (idt s) (gdt s) (task_table s) (tr s) (ldtr s) (nt s) (interrupts s) l.

Lemma logged_log s : s = logged (m_log s) s.
Proof. by destruct s. Qed.

Lemma outb_eq v port l s : outb v port (logged l s) = Ok (logged (l ++ [Out port (u8 v)]) s, tt).
Proof. done. Qed.

Lemma inb_logged port l s :
  inb device port (logged l s) = Ok (logged (l ++ [In port (u8 (device l port))]) s, u8 (device l port)).
Proof. done. Qed.

(** The ports of [init_serial] belong to the serial line. *)
Definition serial_only (l : list io) : Prop :=
  Forall (fun e => match e with Out p _ | In p _ | InW p _ => COM1_PORT ≤ p < COM1_PORT + 8 end) l.

Lemma init_serial_eq l0 s : exists l r,
  init_serial device (logged l0 s) = Ok (logged (l0 ++ l) s, r) /\ serial_only l.
Proof.
  unfold init_serial. do 9 (erewrite bind_ok by apply outb_eq).
  rewrite (bind_ok _ _ _ _ _ (inb_logged _ _ _)).
  destruct (decide _); [|erewrite bind_ok by apply outb_eq]; rewrite <-!app_assoc.
  - eexists _, 1. split; [reflexivity|]. repeat constructor; cbn; lia.
  - eexists _, 0. split; [reflexivity|]. repeat constructor; cbn; lia.
Qed.

(** Masking bits of the interrupt mask register. *)
Definition mask_write (port keep : Z) (log : list io) : list io :=
  let v := u8 (device log port) in [In port v; Out port (u8 (Z.land v keep))].

Definition timer_setup : list io := [Out 0x43 0x36; Out 0x40 0x9b; Out 0x40 0x2e].

(** The GDT after [sched_init]. *)
Record gdt_ready (tss ldt : Z) (g g' : list desc_struct) : Prop := {
  ready_length : length g' = 256%nat;
  ready_tss : forall d, g !! 4%nat = Some d -> g' !! 4%nat = Some (set_tss_desc d tss);
  ready_ldt : forall d, g !! 5%nat = Some d -> g' !! 5%nat = Some (set_ldt_desc d ldt);
  ready_free : forall j : nat, (6 ≤ j < 132)%nat -> g' !! j = Some (Desc 0 0);
  ready_kept : forall j : nat, (j < 4 \/ 132 ≤ j)%nat -> g' !! j = g !! j
}.

(** The part of [sched_init] that installs gates. *)
Lemma sched_init_gates m b i g t r1 r2 f1 f2 l timer call :
  length i = 256%nat ->
  (write_idt 0x20 (set_intr_gate timer);;
   v ← inb_p device 0x21; outb (Z.land v (Z.lnot 0x01)) 0x21;;
   write_idt 0x80 (set_system_gate call)) (Machine m b i g t r1 r2 f1 f2 l) =
  Ok (Machine m b (<[0x80%nat := set_system_gate call]> (<[0x20%nat := set_intr_gate timer]> i)) g t r1 r2 f1 f2
        (l ++ mask_write 0x21 (Z.lnot 1) l), tt).
Proof.
  intros Hi. rewrite (bind_ok _ _ _ _ _ (write_idt_eq 32 _ (Machine m b i g t r1 r2 f1 f2 l) ltac:(cbn [idt]; lia))).
  unfold inb_p. rewrite (bind_ok _ _ _ _ _ (inb_eq device _ _)). erewrite bind_ok by reflexivity.
  erewrite (write_idt_eq 128); [|cbn [upd set_log machine_ports idt]; rewrite length_insert; lia].
  cbn [upd set_log io_log machine_ports idt m_log m_mm m_bsys gdt task_table tr ldtr nt interrupts].
  by rewrite <-app_assoc.
Qed.

Lemma sched_init_eq tss ldt timer call s :
  length (gdt s) = 256%nat -> length (task_table s) = 64%nat -> length (idt s) = 256%nat ->
  exists g t,
    sched_init device tss ldt timer call s =
    Ok (Machine (m_mm s) (m_bsys s)
          (<[0x80%nat := set_system_gate call]> (<[0x20%nat := set_intr_gate timer]> (idt s)))
          g t 0x20 0x28 false (interrupts s)
          ((m_log s ++ timer_setup) ++ mask_write 0x21 (Z.lnot 1) (m_log s ++ timer_setup)), tt) /\
    gdt_ready tss ldt (gdt s) g /\
    (t !! 0%nat = task_table s !! 0%nat /\ forall j : nat, (1 ≤ j < 64)%nat -> t !! j = Some 0) /\ length t = 64%nat.
Proof.
  intros Hg Ht Hi. unfold sched_init, FIRST_LDT_ENTRY, FIRST_TSS_ENTRY.
  destruct (lookup_lt_is_Some_2 (gdt s) 4) as [d4 H4]; [lia|].
  destruct (lookup_lt_is_Some_2 (gdt s) 5) as [d5 H5]; [lia|].
  rewrite (bind_ok _ _ _ _ _ (write_gdt_eq 4 _ s d4 H4)). set (s1 := s <| gdt := _ |>).
  assert (gdt s1 !! 5%nat = Some d5) as H5' by (cbn [s1 upd gdt]; by rewrite list_lookup_insert_ne by lia).
  rewrite (bind_ok _ _ _ _ _ (write_gdt_eq 5 _ s1 d5 H5')). set (s2 := s1 <| gdt := _ |>).
  assert (gdt s2 = <[5%nat := set_ldt_desc d5 ldt]> (<[4%nat := set_tss_desc d4 tss]> (gdt s))) as Eg by done.
  destruct (clear_slots_eq 64 1 s2) as (g & t & E & Hlg & Hlt & Hjg & Hjt); [lia|lia|by rewrite Eg, !length_insert|done|].
  rewrite (bind_ok _ _ _ _ _ E). exists g, t. split; [|split; [split|split; [split|done]]].
  - do 3 (erewrite bind_ok by reflexivity).
    match goal with |- _ ?st = _ =>
      change st with (logged (m_log s) (Machine (m_mm s) (m_bsys s) (idt s) g t 0x20 0x28 false (interrupts s) (m_log s))) end.
    do 3 (erewrite bind_ok by apply outb_eq).
    assert (((m_log s ++ [Out 0x43 (u8 0x36)]) ++ [Out 0x40 (u8 (Z.land LATCH 0xff))]) ++ [Out 0x40 (u8 (Z.shiftr LATCH 8))]
      = m_log s ++ timer_setup) as -> by (by rewrite <-!app_assoc).
    by apply sched_init_gates.
  - done.
  - intros d Hd. rewrite Hjg, decide_False, Eg by lia. rewrite list_lookup_insert_ne by lia.
    rewrite list_lookup_insert_eq by lia. congruence.
  - intros d Hd. rewrite Hjg, decide_False, Eg by lia.
    rewrite list_lookup_insert_eq by (rewrite length_insert; lia). congruence.
  - intros j Hj. rewrite Hjg. by rewrite decide_True by lia.
  - intros j Hj. rewrite Hjg, decide_False, Eg by lia. by rewrite !list_lookup_insert_ne by lia.
  - rewrite Hjt. by rewrite decide_False by lia.
  - intros j Hj. rewrite Hjt. by rewrite decide_True by lia.
Qed.

Lemma mask_step {A} (k : unit -> M machine A) port keep l s :
  (v ← inb_p device port; outb (Z.land v keep) port ≫= k) (logged l s) =
  k tt (logged (l ++ mask_write port keep l) s).
Proof.
  unfold inb_p. rewrite (bind_ok _ _ _ _ _ (inb_logged _ _ _)). erewrite bind_ok by apply outb_eq.
  by rewrite <-app_assoc.
Qed.

Lemma hd_init_eq addr l s : length (idt s) = 256%nat ->
  hd_init device addr (logged l s) =
  let l1 := l ++ mask_write 0x21 0xfb l in
  Ok (logged (l1 ++ mask_write 0xA1 0xbf l1) (s <| idt := <[0x2E%nat := set_intr_gate addr]> (idt s) |>), tt).
Proof.
  intros Hi. unfold hd_init. rewrite (bind_ok _ _ _ _ _ (write_idt_eq 46 _ (logged l s) ltac:(cbn [logged idt]; lia))).
  change (logged l s <| idt := <[46%nat := set_intr_gate addr]> (idt (logged l s)) |>)
    with (logged l (s <| idt := <[46%nat := set_intr_gate addr]> (idt s) |>)).
  unfold outb_p. rewrite mask_step. unfold inb_p. rewrite (bind_ok _ _ _ _ _ (inb_logged _ _ _)).
  rewrite outb_eq. by rewrite <-app_assoc.
Qed.
End parts.

(** ** The machine when [main] enables interrupts *)

Section main.
Variables (device : list io -> Z -> Z) (k : image).

(** The linker and loader give [main] tables of the declared sizes, a cache
    without heads, and room for two buffers between [end] and 4 MB. *)
Record loaded (s : machine) : Prop := {
  loaded_gdt : length (gdt s) = 256%nat;
  loaded_idt : length (idt s) = 256%nat;
  loaded_task : length (task_table s) = 64%nat;
  loaded_end : 0 < a_end k ≤ Z.shiftl 4 20 - 1024 * 2 - 36 * 2;
  loaded_heads : heads (bc (m_bsys s)) = ∅
}.

Definition boot_idt (i : list desc_struct) : list desc_struct :=
  <[0x2E%nat := set_intr_gate (a_hd_interrupt k)]> (<[0x80%nat := set_system_gate (a_system_call k)]>
    (<[0x20%nat := set_intr_gate (a_timer_interrupt k)]> (trap_init (a_idt_ptrs k) (a_page_fault k) i))).

Definition boot_log (l : list io) : list io :=
  let l1 := l ++ timer_setup in
  let l2 := l1 ++ mask_write device 0x21 (Z.lnot 1) l1 in
  let l3 := l2 ++ mask_write device 0x21 0xfb l2 in
  l3 ++ mask_write device 0xA1 0xbf l3.

(** The state [main] reaches, given what the parts leave. *)
Record booted (s s' : machine) (ser : list io) (blocks : list Z) : Prop := {
  booted_mm : mem_init (Z.shiftl 4 20) (Z.shiftl 16 20) (m_mm s) = Ok (m_mm s', tt);
  booted_cache : m_bsys s' = in_cache (initial (a_end k) blocks (m_bsys s)) (m_bsys s);
  booted_blocks : (2 ≤ length blocks)%nat /\ descending (Z.shiftl 4 20) blocks;
  booted_idt : idt s' = boot_idt (idt s);
  booted_gdt : gdt_ready (a_init_tss k) (a_init_ldt k) (gdt s) (gdt s');
  booted_task : task_table s' !! 0%nat = task_table s !! 0%nat /\
                forall j : nat, (1 ≤ j < 64)%nat -> task_table s' !! j = Some 0;
  booted_regs : tr s' = 0x20 /\ ldtr s' = 0x28 /\ nt s' = false /\ interrupts s' = true;
  booted_serial : serial_only ser;
  booted_log : m_log s' = boot_log (m_log s ++ ser);
  booted_slots : length (task_table s') = 64%nat
}.

Lemma length_trap_init l : length (trap_init (a_idt_ptrs k) (a_page_fault k) l) = length l.
Proof. unfold trap_init. by rewrite length_insert, length_imap. Qed.

Lemma on_mm_eq (m : M mm unit) x l s : m (m_mm s) = Ok (x, tt) ->
  on_mm m (logged l s) = Ok (logged l (s <| m_mm := x |>), tt).
Proof. intros E. unfold on_mm. change (m_mm (logged l s)) with (m_mm s). by rewrite E. Qed.

Lemma on_bsys_eq (m : M bsys unit) x l s : m (m_bsys s) = Ok (x, tt) ->
  on_bsys m (logged l s) = Ok (logged l (s <| m_bsys := x |>), tt).
Proof. intros E. unfold on_bsys. change (m_bsys (logged l s)) with (m_bsys s). by rewrite E. Qed.

Lemma main_eq s : loaded s -> exists s' ser blocks,
  main device k s = Ok (s', tt) /\ booted s s' ser blocks.
Proof.
  intros [Hg Hi Ht He Hh].
  destruct (mem_init_marks (Z.shiftl 4 20) (Z.shiftl 16 20) (m_mm s)) as (x & Em & _);
    [vm_compute; discriminate..|].
  destruct (buffer_init_eq (a_end k) (4 * 1024 * 1024) (m_bsys s)) as (bl & Eb & Hb2 & Hbd & _);
    [lia|done|rewrite decide_False by discriminate; change (Z.shiftl 4 20) with (4 * 1024 * 1024) in He; lia
    |left; by rewrite decide_False by discriminate|].
  rewrite decide_False in Hbd by discriminate.
  destruct (init_serial_eq device (m_log s) s) as (ser & r & Es & Hser). rewrite <-logged_log in Es.
  unfold main. rewrite (bind_ok _ _ _ _ _ Es).
  rewrite (bind_ok _ _ _ _ _ (on_mm_eq _ x _ s Em)). set (s1 := s <| m_mm := x |>).
  rewrite (bind_ok _ _ _ _ _ (on_bsys_eq _ _ _ s1 (Eb : _ (m_bsys s1) = _))). set (s2 := s1 <| m_bsys := _ |>).
  erewrite bind_ok by reflexivity. set (s3 := upd idt _ _).
  destruct (sched_init_eq device (a_init_tss k) (a_init_ldt k) (a_timer_interrupt k) (a_system_call k) s3)
    as (g & t & E & Hgr & Htr & Htl); [done|done|exact (eq_trans (length_trap_init (idt s)) Hi)|].
  rewrite (bind_ok _ _ _ _ _ E).
  set (l2 := _ ++ mask_write _ _ _ _).
  change (Machine (m_mm s3) (m_bsys s3) (<[128%nat := set_system_gate (a_system_call k)]> (<[32%nat := set_intr_gate (a_timer_interrupt k)]> (idt s3)))
            g t 32 40 false (interrupts s3) l2)
    with (logged l2 (Machine (m_mm s3) (m_bsys s3) (<[128%nat := set_system_gate (a_system_call k)]> (<[32%nat := set_intr_gate (a_timer_interrupt k)]> (idt s3)))
            g t 32 40 false (interrupts s3) l2)).
  erewrite bind_ok.
  2:{ apply hd_init_eq. cbn [idt]. rewrite !length_insert. exact (eq_trans (length_trap_init (idt s)) Hi). }
  eexists _, ser, bl. split; [reflexivity|].
  split; [exact Em|reflexivity|exact (conj Hb2 Hbd)|reflexivity|exact Hgr|exact Htr|repeat split; reflexivity|exact Hser|reflexivity|exact Htl].
Qed.
End main.

(** ** What boot promises *)

(** The gate of a vector. *)
Definition gate_at (s : machine) (n : nat) : option gate := decode_gate <$> idt s !! n.

(** All addresses of the image are 32-bit. *)
Definition image_ok (k : image) : Prop :=
  Forall (fun a => 0 ≤ a < 2 ^ 32)
    [a_page_fault k; a_timer_interrupt k; a_system_call k; a_hd_interrupt k; a_init_tss k; a_init_ldt k] /\
  forall i, 0 ≤ a_idt_ptrs k i < 2 ^ 32.

Lemma gates_decode k : image_ok k ->
  decode_gate (set_trap_gate (a_page_fault k)) = Gate (a_page_fault k) 8 15 0 true /\
  decode_gate (set_intr_gate (a_timer_interrupt k)) = Gate (a_timer_interrupt k) 8 14 0 true /\
  decode_gate (set_intr_gate (a_hd_interrupt k)) = Gate (a_hd_interrupt k) 8 14 0 true /\
  decode_gate (set_system_gate (a_system_call k)) = Gate (a_system_call k) 8 15 3 true.
Proof.
  intros [H _]. decompose_Forall_hyps. repeat split; apply set_gate_decode; lia.
Qed.

(** Boot installs the descriptors the kernel runs on.  The page fault, the
    timer, the disk and the system-call vectors reach their handlers, only the
    last one is open to user code, and every other gate keeps the privilege
    level it had; the task register selects a TSS descriptor for the TSS of
    [init_task] and the LDT register one for its LDT; the 63 other slots have
    null descriptors and no task. *)
Theorem boot_descriptors device k s :
  loaded k s -> image_ok k -> Forall wf_desc (idt s) -> Forall wf_desc (gdt s) ->
  exists s', main device k s = Ok (s', tt) /\
    gate_at s' 14 = Some (Gate (a_page_fault k) 8 15 0 true) /\
    gate_at s' 0x20 = Some (Gate (a_timer_interrupt k) 8 14 0 true) /\
    gate_at s' 0x2E = Some (Gate (a_hd_interrupt k) 8 14 0 true) /\
    gate_at s' 0x80 = Some (Gate (a_system_call k) 8 15 3 true) /\
    (forall (i : nat) g, gate_at s i = Some g -> i ∉ [14; 0x20; 0x2E; 0x80]%nat ->
       exists g', gate_at s' i = Some g' /\ gate_dpl g' = gate_dpl g /\ gate_selector g' = gate_selector g) /\
    decode_segment <$> gdt s' !! Z.to_nat (Z.shiftr (tr s') 3) = Some (Segment (a_init_tss k) 104 0x89 0) /\
    decode_segment <$> gdt s' !! Z.to_nat (Z.shiftr (ldtr s') 3) = Some (Segment (a_init_ldt k) 104 0x82 0) /\
    (forall j : nat, (6 ≤ j < 132)%nat -> gdt s' !! j = Some (Desc 0 0)) /\
    (forall j : nat, (1 ≤ j < 64)%nat -> task_table s' !! j = Some 0).
Proof.
  intros Hl Hk Hi Hg. destruct (main_eq device k s Hl) as (s' & ser & bl & E & B).
  destruct B as [_ _ _ Bi Bg [_ Bt] (Btr & Bl & _) _ _ _]. destruct (gates_decode k Hk) as (G1 & G2 & G3 & G4).
  exists s'. split; [exact E|]. pose proof (loaded_idt k s Hl) as Hil.
  unfold gate_at. rewrite Bi, Btr, Bl. unfold boot_idt. pose proof (length_trap_init k (idt s)) as Ht.
  split; [|split; [|split; [|split; [|split]]]].
  - rewrite !list_lookup_insert_ne by lia. unfold trap_init. rewrite list_lookup_insert_eq; [by rewrite <-G1|].
    rewrite length_imap. lia.
  - rewrite !list_lookup_insert_ne by lia. rewrite list_lookup_insert_eq by lia. by rewrite <-G2.
  - rewrite list_lookup_insert_eq by (rewrite !length_insert; lia). by rewrite <-G3.
  - rewrite list_lookup_insert_ne by lia. rewrite list_lookup_insert_eq by (rewrite !length_insert; lia). by rewrite <-G4.
  - intros i g Hgi Hne. destruct (idt s !! i) as [d|] eqn:Ed; [|done]. cbn in Hgi. simplify_eq.
    rewrite !list_lookup_insert_ne by (intros <-; apply Hne; set_solver).
    rewrite (trap_init_lookup _ _ _ _ d) by (done || (intros ->; apply Hne; set_solver)). eexists. split; [reflexivity|].
    rewrite low_offset_decode; [by split|exact (Forall_lookup_1 _ _ _ _ Hi Ed)|apply Hk].
  - destruct (lookup_lt_is_Some_2 (gdt s) 4) as [d4 H4]; [rewrite (loaded_gdt k s Hl); lia|].
    destruct (lookup_lt_is_Some_2 (gdt s) 5) as [d5 H5]; [rewrite (loaded_gdt k s Hl); lia|].
    change (Z.to_nat (Z.shiftr 0x20 3)) with 4%nat. change (Z.to_nat (Z.shiftr 0x28 3)) with 5%nat.
    rewrite (ready_tss _ _ _ _ Bg _ H4), (ready_ldt _ _ _ _ Bg _ H5).
    destruct Hk as [Hk _]. decompose_Forall_hyps.
    split; [|split; [|split; [apply (ready_free _ _ _ _ Bg)|exact Bt]]]; cbn [fmap option_fmap option_map];
      f_equal; apply decode_tssldt; try lia; eapply Forall_lookup_1; eauto.
Qed.

Lemma free_frame_range f :
  MAP_NR (Z.shiftl 4 20) ≤ f < MAP_NR (Z.shiftl 4 20) + (Z.shiftl 16 20 - Z.shiftl 4 20) / 4096 ->
  Z.shiftl 4 20 ≤ LOW_MEM + 4096 * f /\ LOW_MEM + 4096 * f + 4096 ≤ Z.shiftl 16 20.
Proof.
  change (MAP_NR (Z.shiftl 4 20)) with 768. change ((Z.shiftl 16 20 - Z.shiftl 4 20) / 4096) with 3072.
  change (Z.shiftl 4 20) with 0x400000. change (Z.shiftl 16 20) with 0x1000000. change LOW_MEM with 0x100000. lia.
Qed.

(** C7.  Boot divides memory without overlap: the buffer cache is well formed and
    its blocks all lie below 4 MB, while every frame that [get_free_page] can
    hand out lies between 4 MB and 16 MB; so no free frame shares a byte with a
    buffer. *)
Theorem boot_memory_disjoint device k s :
  loaded k s ->
  exists s' c blocks, main device k s = Ok (s', tt) /\ m_bsys s' = in_cache c (m_bsys s) /\
    wf (addrs (a_end k) (length blocks)) c (addrs (a_end k) (length blocks)) (fun _ => []) /\
    map (fun e => b_data e.2) (abs c (addrs (a_end k) (length blocks))) = blocks /\
    wf_mm (m_mm s') /\
    forall d (f : nat), d ∈ blocks -> mem_map (m_mm s') !! f = Some 0 ->
      let frame := LOW_MEM + 4096 * Z.of_nat f in
      d + BLOCK_SIZE ≤ Z.shiftl 4 20 ≤ frame /\ frame + 4096 ≤ Z.shiftl 16 20.
Proof.
  intros Hl. destruct (main_eq device k s Hl) as (s' & ser & bl & E & B).
  exists s', (initial (a_end k) bl (m_bsys s)), bl. pose proof (booted_blocks _ _ _ _ _ _ B) as [H2 Hd].
  split; [exact E|]. split; [apply (booted_cache _ _ _ _ _ _ B)|].
  split; [apply wf_initial; [apply (loaded_end k s Hl)|done|apply (loaded_heads k s Hl)]|].
  split; [apply initial_data; [apply (loaded_end k s Hl)|done|apply (loaded_heads k s Hl)]|].
  pose proof (booted_mm _ _ _ _ _ _ B) as Em.
  destruct (mem_init_marks (Z.shiftl 4 20) (Z.shiftl 16 20) (m_mm s)) as (x & Em' & _ & _ & Hw & Hf);
    [vm_compute; discriminate..|]. rewrite Em in Em'. injection Em' as <-. split; [done|].
  intros d f Hin Hfree. pose proof (descending_below _ _ _ Hd Hin). split; [split; [done|]|].
  all: apply lookup_lt_Some in Hfree as Hlt; rewrite (Memory.wf_len _ Hw), PAGING_PAGES_eq in Hlt; rewrite Hf in Hfree by done;
    case_decide as Hr; [apply (free_frame_range _ Hr)|done].
Qed.

(** ** The interrupt controllers and the timer *)

(** What was written to a port, in order. *)
Definition outs (port : Z) (l : list io) : list Z :=
  omap (fun e => match e with Out p v => if decide (p = port) then Some v else None | _ => None end) l.

Lemma outs_app port l1 l2 : outs port (l1 ++ l2) = outs port l1 ++ outs port l2.
Proof. apply omap_app. Qed.

Lemma outs_serial port l : serial_only l -> port < COM1_PORT -> outs port l = [].
Proof.
  intros H Hp. induction H as [|[p v|p v|p v] l Hx _ IH]; [done| |exact IH|exact IH].
  cbn. by rewrite decide_False by lia.
Qed.

Lemma u8_land x : u8 x = Z.land x 0xff.
Proof. symmetry. apply (Z.land_ones x 8). lia. Qed.

Lemma outs_mask device port keep l :
  outs port (mask_write device port keep l) = [u8 (Z.land (u8 (device l port)) keep)].
Proof. cbn. by rewrite decide_True. Qed.

Lemma outs_mask_ne device port port' keep l : port <> port' -> outs port' (mask_write device port keep l) = [].
Proof. intros H. cbn. by rewrite decide_False. Qed.

(** The timer runs at 100 Hz (its divisor is [LATCH], low byte first), and
    when the interrupt controllers read back the mask last written, boot ends
    with the timer line and the cascade to the second controller open in the
    first mask, the disk line open in the second, and every other line as the
    firmware left it: the two updates of the first mask do not undo each other. *)
Theorem boot_interrupts device k s :
  loaded k s ->
  (forall log v, list.last (outs 0x21 log) = Some v -> u8 (device log 0x21) = u8 v) ->
  exists s' m1 m2, main device k s = Ok (s', tt) /\ interrupts s' = true /\
    outs 0x40 (m_log s') = outs 0x40 (m_log s) ++ [LATCH mod 256; LATCH / 256] /\
    list.last (outs 0x21 (m_log s')) = Some m1 /\ list.last (outs 0xA1 (m_log s')) = Some m2 /\
    exists log1 log2, m1 = Z.land (u8 (device log1 0x21)) 0xfa /\ m2 = Z.land (u8 (device log2 0xA1)) 0xbf /\
      outs 0x21 log1 = outs 0x21 (m_log s) /\ outs 0xA1 log2 = outs 0xA1 (m_log s).
Proof.
  intros Hl Hpic. destruct (main_eq device k s Hl) as (s' & ser & bl & E & B).
  pose proof (booted_log _ _ _ _ _ _ B) as El. pose proof (booted_serial _ _ _ _ _ _ B) as Hser.
  unfold boot_log in El. set (l1 := (m_log s ++ ser) ++ timer_setup) in El.
  set (l2 := l1 ++ mask_write device 0x21 (Z.lnot 1) l1) in El.
  set (l3 := l2 ++ mask_write device 0x21 0xfb l2) in El.
  assert (forall p, p < COM1_PORT -> p ∉ [0x40; 0x43] -> outs p l1 = outs p (m_log s)) as H1.
  { intros p Hp Hn. unfold l1. rewrite !outs_app, (outs_serial _ _ Hser Hp), app_nil_r. cbn.
    rewrite !decide_False by (intros <-; apply Hn; set_solver). by rewrite app_nil_r. }
  assert (u8 (device l2 0x21) = u8 (u8 (Z.land (u8 (device l1 0x21)) (Z.lnot 1)))) as Hv.
  { apply Hpic. unfold l2. by rewrite outs_app, outs_mask, last_snoc. }
  exists s', (u8 (Z.land (u8 (device l2 0x21)) 0xfb)), (u8 (Z.land (u8 (device l3 0xA1)) 0xbf)).
  split; [exact E|]. split; [apply (booted_regs _ _ _ _ _ _ B)|]. rewrite El.
  split; [|split; [|split; [|exists l1, l3; split; [|split; [|split]]]]].
  - rewrite outs_app, outs_mask_ne by done. unfold l3. rewrite outs_app, outs_mask_ne by done.
    unfold l2. rewrite outs_app, outs_mask_ne by done. unfold l1.
    rewrite !outs_app, (outs_serial _ _ Hser) by done. by rewrite !app_nil_r.
  - rewrite outs_app, outs_mask_ne by done. unfold l3. rewrite outs_app, outs_mask. by rewrite app_nil_r, last_snoc.
  - rewrite outs_app, outs_mask. by rewrite last_snoc.
  - rewrite Hv, !u8_land, <-!Z.land_assoc. reflexivity.
  - rewrite !u8_land, <-!Z.land_assoc. reflexivity.
  - by apply H1; [|set_solver].
  - unfold l3. rewrite outs_app, outs_mask_ne by done. unfold l2. rewrite outs_app, outs_mask_ne by done.
    rewrite !app_nil_r. by apply H1; [|set_solver].
Qed.

(** ** Witnesses: a machine as the loader leaves it *)

Definition fresh_machine : machine :=
  Machine (Mm ∅ [] 0 0) (Bsys (Cache ∅ 0 [] 0) [] true) (replicate 256 (Desc 0x00085000 0x00008e00))
    (Desc 0 0 :: Desc 0xfff 0xc09a00 :: Desc 0xfff 0xc09200 :: replicate 253 (Desc 0 0))
    (0x18000 :: replicate 63 0) 0 0 true false [].
Definition kernel_image : image :=
  Image 0x20000 (fun i => 0x6000 + 16 * (i mod 256)) 0x7abc 0x7b00 0x7c00 0x7d00 0x182e8 0x182d0.
(** Devices that read back the last byte written, all ones before. *)
Definition latches (log : list io) (port : Z) : Z := default 0xff (list.last (outs port log)).

Lemma fresh_loaded : loaded kernel_image fresh_machine.
Proof. split; [reflexivity|reflexivity|reflexivity|vm_compute; split; congruence|reflexivity]. Qed.

Lemma kernel_image_ok : image_ok kernel_image.
Proof. split; [repeat constructor; cbn; lia|]. intros i. cbn. pose proof (Z.mod_pos_bound i 256). lia. Qed.

Lemma boot_descriptors_witness :
  exists s', main latches kernel_image fresh_machine = Ok (s', tt) /\
    gate_at s' 14 = Some (Gate 0x7abc 8 15 0 true) /\ gate_at s' 0x80 = Some (Gate 0x7c00 8 15 3 true) /\
    decode_segment <$> gdt s' !! Z.to_nat (Z.shiftr (tr s') 3) = Some (Segment 0x182e8 104 0x89 0).
Proof.
  destruct (boot_descriptors latches kernel_image fresh_machine fresh_loaded kernel_image_ok)
    as (s' & E & G1 & _ & _ & G4 & _ & T & _).
  - apply (bool_decide_unpack _). vm_compute. exact I.
  - apply (bool_decide_unpack _). vm_compute. exact I.
  - exists s'. exact (conj E (conj G1 (conj G4 T))).
Defined.

Lemma boot_memory_disjoint_witness :
  exists s' (blocks : list Z), main latches kernel_image fresh_machine = Ok (s', tt) /\
    forall d (f : nat), d ∈ blocks -> mem_map (m_mm s') !! f = Some 0 ->
      d + BLOCK_SIZE ≤ LOW_MEM + 4096 * Z.of_nat f.
Proof.
  destruct (boot_memory_disjoint latches kernel_image fresh_machine fresh_loaded)
    as (s' & c & bl & E & _ & _ & _ & _ & H).
  exists s', bl. split; [exact E|]. intros d f Hd Hf. destruct (H d f Hd Hf) as [[H1 H2] _]. lia.
Defined.

Lemma boot_interrupts_witness :
  exists s' m1 m2, main latches kernel_image fresh_machine = Ok (s', tt) /\
    outs 0x40 (m_log s') = [0x9b; 0x2e] /\
    list.last (outs 0x21 (m_log s')) = Some m1 /\ list.last (outs 0xA1 (m_log s')) = Some m2.
Proof.
  destruct (boot_interrupts latches kernel_image fresh_machine fresh_loaded)
    as (s' & m1 & m2 & E & _ & H & H1 & H2 & _).
  - intros log v Hv. unfold latches. by rewrite Hv.
  - exists s', m1, m2. exact (conj E (conj H (conj H1 H2))).
Defined.
