(* ===== verification/Head.v ===== *)
(** * Protected-mode entry

    boot/head.s, which runs before [main]: the interrupt and segment descriptor
    tables, the A20 test, and the identity map of 16 MB.  With it, what [main]
    assumes of the machine (Boot.v) and what the address spaces assume of task 0
    (AddressSpace.v) become theorems.  [ignore_int] is the address of the default
    handler, [line] the address lines of the memory bus. *)
From S2P Require Import Prelude Words Descriptors Memory AddressSpace Ports Links Buffer CacheSpec BufferInit Boot.

(** ** setup_idt *)

Definition movw (v w : Z) : Z := put_bits 0 16 w v.

Fixpoint rp_sidt (ecx : nat) (edi eax edx : Z) : M machine unit :=
  match ecx with
  | O => mret tt
  | S ecx => write_idt edi (Desc eax edx);; rp_sidt ecx (edi + 1) eax edx
  end.

Definition setup_idt (ignore_int : Z) : M machine unit :=
  let edx := ignore_int in
  let eax := 0x00080000 in
  let eax := movw (get_bits 0 16 edx) eax in
  let edx := movw 0x8E00 edx in
  rp_sidt 256 0 eax edx.

(** ** setup_gdt: the table is data of the image *)

Definition quad (q : Z) : desc_struct := Desc (q mod 2 ^ 32) (Z.shiftr q 32).

Definition head_gdt : list desc_struct :=
  [quad 0x0000000000000000; quad 0x00c09a0000000fff; quad 0x00c0920000000fff; quad 0x00cff2000000ffff] ++
  replicate 252 (quad 0).

(** Selector 0x1b, through which [log_buf] reaches the log buffer in every task: the
    whole address space from 0, for user code too. *)
Example log_segment : decode_segment <$> head_gdt !! Z.to_nat (Z.shiftr 0x1b 3) = Some (Segment 0 0xfffff 0xf2 0xc).
Proof. reflexivity. Qed.

Definition setup_gdt : M machine unit := modify (fun s => s <| gdt := head_gdt |>).

(** ** The A20 test *)

Section a20.
Variable line : Z -> Z.

Fixpoint check_a20 (fuel : nat) (eax : Z) : M mm Z :=
  match fuel with
  | O => stop Fuel
  | S fuel =>
      let eax := u32 (eax + 1) in
      store (line 0) eax;;
      v ← load (line 0x100000);
      if decide (eax = v) then check_a20 fuel eax else mret eax
  end.
End a20.

(** ** setup_paging *)

Definition pg_dir : Z := 0.
Definition pg0 : Z := 0x1000.
Definition pg1 : Z := 0x2000.
Definition pg2 : Z := 0x3000.
Definition pg3 : Z := 0x4000.

(** [cld; rep; stosl] *)
Fixpoint rep_stosl (ecx : nat) (edi eax : Z) : M mm unit :=
  match ecx with
  | O => mret tt
  | S ecx => store edi eax;; rep_stosl ecx (edi + 4) eax
  end.

(** [std; 1: stosl; subl $0x1000, %eax; jge 1b] *)
Fixpoint fill_pages (fuel : nat) (edi eax : Z) : M mm unit :=
  match fuel with
  | O => stop Fuel
  | S fuel =>
      store edi eax;;
      let eax := s32 (eax - 0x1000) in
      if decide (0 ≤ eax) then fill_pages fuel (edi - 4) eax else mret tt
  end.

Definition setup_paging : M mm unit :=
  rep_stosl (1024 * 5) 0 0;;
  store pg_dir (pg0 + 7);;
  store (pg_dir + 4) (pg1 + 7);;
  store (pg_dir + 8) (pg2 + 7);;
  store (pg_dir + 12) (pg3 + 7);;
  fill_pages 4096 (pg3 + 4092) 0xfff007.

(** The test for a coprocessor: [sw] is the status word that [fstsw] stores after
    [fninit].  The result is what [cr0] holds then. *)
Definition check_x87 (cr0 sw : Z) : Z := if decide (sw mod 256 = 0) then cr0 else Z.lxor cr0 6.
Definition math_cr0 (cr0 sw : Z) : Z := check_x87 (Z.lor (Z.land cr0 0x80000011) 2) sw.
(** The end of [setup_paging]. *)
Definition paging_cr0 (cr0 : Z) : Z := Z.lor cr0 0x80000000.

(** The processor is left in protected mode with paging; coprocessor instructions
    are monitored (bit 1) if there is one and trap (bit 2) if there is none, and
    no task switch is pending (bit 3). *)
Lemma control_register cr0 sw : Z.testbit cr0 0 = true ->
  let cr0 := paging_cr0 (math_cr0 cr0 sw) in
  Z.testbit cr0 31 = true /\ Z.testbit cr0 0 = true /\ Z.testbit cr0 3 = false /\
  Z.testbit cr0 1 = bool_decide (sw mod 256 = 0) /\ Z.testbit cr0 2 = bool_decide (sw mod 256 <> 0).
Proof.
  intros Hpe. cbv zeta. unfold paging_cr0, math_cr0, check_x87.
  destruct (decide (sw mod 256 = 0)) as [H|H];
    rewrite ?(bool_decide_eq_true_2 _ H), ?(bool_decide_eq_false_2 (sw mod 256 = 0) H);
    (repeat split); rewrite ?Z.lor_spec, ?Z.lxor_spec, ?Z.lor_spec, ?Z.land_spec, ?Hpe, ?andb_false_r; try done.
  all: try apply orb_true_r.
  symmetry. apply bool_decide_eq_false_2. tauto.
Qed.

Definition startup_32 (line : Z -> Z) (ignore_int : Z) : M machine unit :=
  setup_idt ignore_int;;
  setup_gdt;;
  _ ← on_mm (check_a20 line 2 0);
  on_mm setup_paging.

(** ** The tables *)

Lemma quad_wf : wf_desc (quad 0).
Proof. unfold wf_desc. apply (bool_decide_unpack _). vm_compute. exact I. Qed.

Lemma intr_gate_wf a : 0 ≤ a < 2 ^ 32 -> wf_desc (set_intr_gate a).
Proof. intros Ha. split; apply put_bits_range; lia. Qed.

Lemma ignore_gate a : 0 ≤ a < 2 ^ 32 ->
  Desc (movw (get_bits 0 16 a) 0x00080000) (movw 0x8E00 a) = set_intr_gate a.
Proof.
  intros Ha. unfold set_intr_gate, _set_gate, movw. f_equal.
  unfold get_bits, put_bits. rewrite Z.shiftr_0_r. by rewrite Zmod_mod.
Qed.

Lemma rp_sidt_eq a b n : forall (i : nat) s, length (idt s) = (i + n)%nat ->
  rp_sidt n (Z.of_nat i) a b s = Ok (s <| idt := take i (idt s) ++ replicate n (Desc a b) |>, tt).
Proof.
  induction n as [|n IH]; intros i s Hl.
  - cbn [rp_sidt replicate]. rewrite app_nil_r, take_ge by lia. by destruct s.
  - cbn [rp_sidt]. erewrite bind_ok by (apply write_idt_eq; lia).
    replace (Z.of_nat i + 1) with (Z.of_nat (S i)) by lia.
    rewrite IH by (cbn [idt upd]; rewrite length_insert; lia). cbn [idt upd].
    do 3 f_equal. rewrite (take_S_r _ i (Desc a b)) by (apply list_lookup_insert_eq; lia).
    rewrite take_insert_ge by lia. by rewrite <-app_assoc.
Qed.

Lemma setup_idt_eq a s : length (idt s) = 256%nat -> 0 ≤ a < 2 ^ 32 ->
  setup_idt a s = Ok (s <| idt := replicate 256 (set_intr_gate a) |>, tt).
Proof.
  intros Hl Ha. unfold setup_idt. cbv zeta. rewrite <-(ignore_gate a Ha).
  apply (rp_sidt_eq _ _ 256 0 s Hl).
Qed.

(** ** The identity map *)

Lemma in_words_at b n k : 0 ≤ k < Z.of_nat n -> in_words b n (b + 4 * k).
Proof. unfold in_words. intros. Z.div_mod_to_equations. lia. Qed.

Lemma store_bind {A} a v (k : unit -> M mm A) s :
  (store a v ≫= k) s = k tt (s <| phys := <[a := v]> (phys s) |>).
Proof. done. Qed.

Lemma rep_stosl_eq v n : forall edi s,
  exists p, rep_stosl n edi v s = Ok (s <| phys := p |>, tt) /\
    forall x, read_word p x = if decide (in_words edi n x) then v else read_word (phys s) x.
Proof.
  induction n as [|n IH]; intros edi s; cbn [rep_stosl].
  - exists (phys s). split; [by destruct s|]. intros x. by rewrite decide_False by (unfold in_words; lia).
  - erewrite bind_ok by apply store_eq. destruct (IH (edi + 4) (s <| phys := <[edi := v]> (phys s) |>)) as (p & E & H).
    exists p. split; [exact E|]. intros x. rewrite H. cbn [phys upd]. rewrite read_insert.
    destruct (decide (in_words edi (S n) x)) as [Hx|Hx].
    + apply in_words_S in Hx as [->|Hx]; [|by rewrite decide_True].
      case_decide; [done|]. by rewrite decide_True.
    + rewrite !decide_False; [done| |]; intros Hn; apply Hx, in_words_S; [by left|by right].
Qed.

Lemma fill_pages_eq b n : forall s, (n < 4096)%nat ->
  exists p, fill_pages (S n) (b + 4 * Z.of_nat n) (4096 * Z.of_nat n + 7) s = Ok (s <| phys := p |>, tt) /\
    forall x, read_word p x = if decide (in_words b (S n) x) then 1024 * (x - b) + 7 else read_word (phys s) x.
Proof.
  induction n as [|n IH]; intros s Hn.
  - eexists. split.
    { cbn [fill_pages]. cbv zeta. erewrite bind_ok by apply store_eq. rewrite decide_False by (vm_compute; congruence). reflexivity. }
    intros x. cbn [phys upd]. rewrite read_insert.
    unfold in_words. destruct (decide (b + 4 * Z.of_nat 0 = x)) as [<-|Hx].
    + rewrite decide_True by (change (4 * Z.of_nat 0) with 0; rewrite Z.add_0_r, Z.sub_diag; split; [lia|done]). lia.
    + rewrite decide_False; [done|]. intros [H1 H2]. Z.div_mod_to_equations. lia.
  - cbn [fill_pages]. cbv zeta. erewrite bind_ok by apply store_eq.
    assert (s32 (4096 * Z.of_nat (S n) + 7 - 0x1000) = 4096 * Z.of_nat n + 7) as ->
      by (rewrite s32_small by lia; lia).
    rewrite decide_True by lia. replace (b + 4 * Z.of_nat (S n) - 4) with (b + 4 * Z.of_nat n) by lia.
    set (s1 := s <| phys := _ |>). destruct (IH s1) as (p & E & H); [lia|].
    exists p. split; [exact E|]. intros x. rewrite H. unfold s1. cbn [phys upd]. rewrite read_insert.
    unfold in_words. repeat case_decide; try done; try lia; exfalso; Z.div_mod_to_equations; lia.
Qed.

(** Memory after [setup_paging]. *)
Record paging_ready (s s' : mm) : Prop := {
  pr_map : mem_map s' = mem_map s;
  pr_dir : forall q, 0 ≤ q < 1024 -> read_word (phys s') (4 * q) = if decide (q < 4) then 0x1000 * (q + 1) + 7 else 0;
  pr_table : forall m, 0 ≤ m < 4096 -> read_word (phys s') (0x1000 + 4 * m) = 4096 * m + 7;
  pr_rest : forall x, 0x5000 ≤ x -> read_word (phys s') x = read_word (phys s) x
}.

Lemma setup_paging_eq s : exists s', setup_paging s = Ok (s', tt) /\ paging_ready s s'.
Proof.
  unfold setup_paging. destruct (rep_stosl_eq 0 (1024 * 5) 0 s) as (p & E & Hp).
  rewrite (bind_ok _ _ _ _ _ E). rewrite !store_bind.
  set (s1 := upd phys _ (upd phys _ _)).
  destruct (fill_pages_eq pg0 4095 s1) as (p' & E' & Hp'); [lia|].
  change (pg0 + 4 * Z.of_nat 4095) with (pg3 + 4092) in E'. change (4096 * Z.of_nat 4095 + 7) with 0xfff007 in E'.
  assert (forall x, read_word (phys s1) x = if decide (pg_dir + 12 = x) then pg3 + 7
    else if decide (pg_dir + 8 = x) then pg2 + 7 else if decide (pg_dir + 4 = x) then pg1 + 7
    else if decide (pg_dir = x) then pg0 + 7
    else if decide (in_words 0 (1024 * 5) x) then 0 else read_word (phys s) x) as H1.
  { intros x. unfold s1. cbn [phys upd]. rewrite !read_insert, Hp. reflexivity. }
  exists (s1 <| phys := p' |>). split; [exact E'|]. unfold pg0 in Hp'. constructor.
  - done.
  - intros q Hq. cbn [phys upd]. rewrite Hp', decide_False by (unfold in_words; lia). rewrite H1.
    destruct (decide (q < 4)) as [H4|H4].
    + assert (q = 0 \/ q = 1 \/ q = 2 \/ q = 3) as [-> | [-> | [-> | ->]]] by lia; reflexivity.
    + rewrite !decide_False by (unfold pg_dir; lia). rewrite decide_True; [reflexivity|].
      by apply (in_words_at 0 _ q); lia.
  - intros m Hm. cbn [phys upd]. rewrite Hp', decide_True; [lia|]. apply in_words_at. lia.
  - intros x Hx. cbn [phys upd]. rewrite Hp', decide_False by (unfold in_words; lia). rewrite H1.
    rewrite !decide_False by (unfold in_words, pg_dir; lia). reflexivity.
Qed.

(** An entry that maps page [m] for all. *)
Lemma identity_entry m : 0 ≤ m < 2 ^ 20 -> page_of (4096 * m + 7) = 4096 * m /\ user_ok (4096 * m + 7) = true.
Proof.
  intros Hm. assert (Z.land (4096 * m) 7 = 0) as E.
  { change 7 with (Z.ones 3). rewrite Z.land_ones by lia. change (2 ^ 3) with 8. Z.div_mod_to_equations. lia. }
  rewrite <-(lor_add _ _ E). split.
  - apply page_of_flags; [|lia|lia]. rewrite Z.mul_comm. apply Z_mod_mult.
  - unfold user_ok. apply Z.eqb_eq. rewrite Z.land_lor_distr_l. change (Z.land 7 5) with 5.
    replace 5 with (Z.land 7 5) at 1 by done. by rewrite Z.land_assoc, E.
Qed.

Lemma identity_read s s' lin : paging_ready s s' -> 0 ≤ lin < 2 ^ 24 -> lin mod 4 = 0 ->
  user_read s' lin = Some (read_word (phys s') lin).
Proof.
  intros H Hl H4. unfold user_read, pte_addr. rewrite pde_addr_eq by lia.
  assert (0 ≤ lin / 0x400000 < 4) as Hq by (Z.div_mod_to_equations; lia).
  rewrite (pr_dir s s' H) by lia. rewrite decide_True by lia.
  set (q := lin / 0x400000) in *. destruct (identity_entry (q + 1)) as [Hp Hu]; [lia|].
  change (0x1000 * (q + 1)) with (4096 * (q + 1)). rewrite Hp, Hu. cbn [andb].
  assert (page_index lin = lin / 4096 - 1024 * q) as ->.
  { unfold page_index, q. change 0x3ff with (Z.ones 10). rewrite Z.land_ones, Z.shiftr_div_pow2 by lia.
    change (2 ^ 12) with 4096. change (2 ^ 10) with 1024. Z.div_mod_to_equations. lia. }
  replace (4096 * (q + 1) + 4 * (lin / 4096 - 1024 * q)) with (0x1000 + 4 * (lin / 4096)) by lia.
  assert (0 ≤ lin / 4096 < 4096) as Hm by (Z.div_mod_to_equations; lia).
  rewrite (pr_table s s' H) by done. destruct (identity_entry (lin / 4096)) as [Hp2 Hu2]; [lia|].
  rewrite Hp2, Hu2. do 2 f_equal. rewrite land_offset, H4. Z.div_mod_to_equations. lia.
Qed.

Lemma beyond_read s s' lin : paging_ready s s' -> 2 ^ 24 ≤ lin < 2 ^ 32 -> user_read s' lin = None.
Proof.
  intros H Hl. unfold user_read. rewrite pde_addr_eq by lia.
  assert (4 ≤ lin / 0x400000 < 1024) as Hq by (Z.div_mod_to_equations; lia).
  rewrite (pr_dir s s' H), decide_False by lia. done.
Qed.

(** [setup_paging] ends (the descending fill loop leaves after exactly 4096
    entries, when the address turns negative) and makes the first 16 MB of
    linear addresses read the physical word of the same address; no address
    beyond is mapped; and it touches nothing above the four tables. *)
Theorem setup_paging_identity s :
  exists s', setup_paging s = Ok (s', tt) /\ mem_map s' = mem_map s /\
    (forall x, 0x5000 ≤ x -> read_word (phys s') x = read_word (phys s) x) /\
    (forall lin, 0 ≤ lin < 2 ^ 24 -> lin mod 4 = 0 -> user_read s' lin = Some (read_word (phys s') lin)) /\
    (forall lin, 2 ^ 24 ≤ lin < 2 ^ 32 -> user_read s' lin = None).
Proof.
  destruct (setup_paging_eq s) as (s' & E & H). exists s'. split; [exact E|].
  split; [apply (pr_map s s' H)|]. split; [apply (pr_rest s s' H)|].
  split; intros; [by apply (identity_read s)|by apply (beyond_read s)].
Qed.

(** ** The A20 test *)

Lemma check_a20_on line s : line 0 <> line 0x100000 ->
  exists s' eax, check_a20 line 2 0 s = Ok (s', eax) /\ mem_map s' = mem_map s.
Proof.
  intros Hl. cbn [check_a20]. cbv zeta. change (u32 (0 + 1)) with 1. change (u32 (1 + 1)) with 2.
  rewrite store_bind. erewrite bind_ok by apply load_eq. cbn [phys upd].
  rewrite read_insert, (decide_False (P := line 0 = _)) by done.
  case_decide as Hv; [|do 2 eexists; split; reflexivity].
  rewrite store_bind. erewrite bind_ok by apply load_eq. cbn [phys upd].
  rewrite !read_insert, !(decide_False (P := line 0 = _)) by done. rewrite <-Hv.
  do 2 eexists; split; reflexivity.
Qed.

(** The A20 test ends, after at most two rounds, exactly when the address
    line is open: with the line closed 0 and 1 MB are one word, and the loop
    never ends. *)
Theorem check_a20_iff line s :
  (line 0 <> line 0x100000 -> exists s' eax, check_a20 line 2 0 s = Ok (s', eax)) /\
  (line 0 = line 0x100000 -> forall fuel eax, check_a20 line fuel eax s = Err Fuel).
Proof.
  split; [intros Hl; destruct (check_a20_on line s Hl) as (s' & eax & E & _); by exists s', eax|].
  intros Hl fuel. revert s. induction fuel as [|fuel IH]; intros s eax; [done|].
  cbn [check_a20]. cbv zeta. rewrite store_bind. erewrite bind_ok by apply load_eq.
  cbn [phys upd]. rewrite read_insert, (decide_True (P := line 0 = _)) by done.
  rewrite decide_True by done. apply IH.
Qed.

(** ** From reset to the first user space *)

Lemma on_mm_ok {A} (m : M mm A) (a : A) x s : m (m_mm s) = Ok (x, a) -> on_mm m s = Ok (s <| m_mm := x |>, a).
Proof. intros E. unfold on_mm. by rewrite E. Qed.

Lemma on_mm_set {A} (m : M mm A) (a : A) x y s :
  m y = Ok (x, a) -> on_mm m (s <| m_mm := y |>) = Ok (s <| m_mm := x |>, a).
Proof. intros E. unfold on_mm. cbn [m_mm upd]. by rewrite E. Qed.

Lemma special_vectors (i : nat) : i ∉ [14; 0x20; 0x2E; 0x80]%nat ->
  i <> 14%nat /\ i <> 0x20%nat /\ i <> 0x2E%nat /\ i <> 0x80%nat.
Proof. set_solver. Qed.

Lemma special_cases (i : nat) : i ∈ [14; 0x20; 0x2E; 0x80]%nat ->
  i = 14%nat \/ i = 0x20%nat \/ i = 0x2E%nat \/ i = 0x80%nat.
Proof. set_solver. Qed.

Lemma other_gate k a (i : nat) : (i < 256)%nat -> i ∉ [14; 0x20; 0x2E; 0x80]%nat -> image_ok k -> 0 ≤ a < 2 ^ 32 ->
  decode_gate <$> boot_idt k (replicate 256 (set_intr_gate a)) !! i =
    Some (Gate (put_bits 0 16 a (a_idt_ptrs k (Z.of_nat i))) 8 14 0 true).
Proof.
  intros Hi (N1 & N2 & N3 & N4)%special_vectors [_ Hk] Ha. unfold boot_idt.
  rewrite !list_lookup_insert_ne by congruence.
  rewrite (trap_init_lookup _ _ _ _ (set_intr_gate a) (length_replicate _ _) (lookup_replicate_2 _ _ _ Hi) N1).
  cbn [fmap option_fmap option_map]. rewrite (low_offset_decode _ _ (intr_gate_wf a Ha) (Hk _)).
  unfold set_intr_gate. rewrite set_gate_decode by lia. reflexivity.
Qed.

Lemma image_tss k : image_ok k -> 0 ≤ a_init_tss k < 2 ^ 32 /\ 0 ≤ a_init_ldt k < 2 ^ 32.
Proof. intros [Hk _]. decompose_Forall_hyps. done. Qed.

Section power_on.
Variables (device : list io -> Z -> Z) (line : Z -> Z) (k : image) (ignore_int init_task : Z).

(** What the image and its loader fix: the sizes of the tables, an empty cache,
    the place of [end], 32-bit addresses, an open A20 line. *)
Record linked (s : machine) : Prop := {
  ln_idt : length (idt s) = 256%nat;
  ln_task : length (task_table s) = 64%nat;
  ln_task0 : task_table s !! 0%nat = Some init_task;
  ln_end : 0 < a_end k ≤ Z.shiftl 4 20 - 1024 * 2 - 36 * 2;
  ln_heads : heads (bc (m_bsys s)) = ∅;
  ln_image : image_ok k;
  ln_ignore : 0 ≤ ignore_int < 2 ^ 32;
  ln_a20 : line 0 <> line 0x100000
}.

(** The machine when [main] is entered. *)
Definition entered (x : mm) (s : machine) : machine :=
  s <| idt := replicate 256 (set_intr_gate ignore_int) |> <| gdt := head_gdt |> <| m_mm := x |>.

Lemma startup_eq s : linked s -> exists x y,
  startup_32 line ignore_int s = Ok (entered x s, tt) /\
  paging_ready y x.
Proof.
  intros [Hi _ _ _ _ _ Ha Hl]. unfold startup_32. rewrite (bind_ok _ _ _ _ _ (setup_idt_eq _ s Hi Ha)).
  erewrite bind_ok by reflexivity. set (s1 := upd gdt _ _).
  destruct (check_a20_on line (m_mm s1) Hl) as (y & eax & E & _).
  rewrite (bind_ok _ _ _ _ _ (on_mm_ok (check_a20 line 2 0) _ _ s1 E)).
  destruct (setup_paging_eq y) as (x & Ex & Hr). exists x, y. split; [|exact Hr].
  exact (on_mm_set setup_paging tt x y s1 Ex).
Qed.

Lemma startup_loaded s x : linked s ->
  loaded k (entered x s).
Proof.
  intros [_ Ht _ He Hh _ _ _]. constructor; [|exact (length_replicate 256 _)|exact Ht|exact He|exact Hh].
  exact (eq_refl : length head_gdt = 256%nat).
Qed.

(** The machine as [main] leaves it before user mode. *)
Record ready (s' : machine) : Prop := {
  rd_fault : gate_at s' 14 = Some (Gate (a_page_fault k) 8 15 0 true);
  rd_timer : gate_at s' 0x20 = Some (Gate (a_timer_interrupt k) 8 14 0 true);
  rd_disk : gate_at s' 0x2E = Some (Gate (a_hd_interrupt k) 8 14 0 true);
  rd_call : gate_at s' 0x80 = Some (Gate (a_system_call k) 8 15 3 true);
  rd_other : forall i : nat, (i < 256)%nat -> i ∉ [14; 0x20; 0x2E; 0x80]%nat ->
    gate_at s' i = Some (Gate (put_bits 0 16 ignore_int (a_idt_ptrs k (Z.of_nat i))) 8 14 0 true);
  rd_code : decode_segment <$> gdt s' !! 1%nat = Some (Segment 0 0xfff 0x9a 0xc);
  rd_data : decode_segment <$> gdt s' !! 2%nat = Some (Segment 0 0xfff 0x92 0xc);
  rd_tss : decode_segment <$> gdt s' !! Z.to_nat (Z.shiftr (tr s') 3) = Some (Segment (a_init_tss k) 104 0x89 0);
  rd_ldt : decode_segment <$> gdt s' !! Z.to_nat (Z.shiftr (ldtr s') 3) = Some (Segment (a_init_ldt k) 104 0x82 0);
  rd_gdt : length (gdt s') = 256%nat;
  rd_null : forall j : nat, (6 ≤ j < 132)%nat -> gdt s' !! j = Some (Desc 0 0);
  rd_slots : task_table s' = init_task :: replicate 63 0;
  rd_flags : nt s' = false /\ interrupts s' = true;
  rd_tables : kernel_tables (m_mm s');
  rd_frees : (3072 ≤ frees (m_mm s'))%nat
}.

Lemma length_filter_all (P : nat -> Prop) {HP : forall x, Decision (P x)} l :
  Forall P l -> length (filter P l) = length l.
Proof. induction 1; [done|]. rewrite filter_cons_True by done. cbn. congruence. Qed.

Lemma frees_at_least s a n : Z.to_nat PAGING_PAGES = (a + n)%nat ->
  (forall j, (a ≤ j < a + n)%nat -> is_free s j) -> (n ≤ frees s)%nat.
Proof.
  intros E H. unfold frees. rewrite E, seq_app, list.filter_app, length_app.
  rewrite (length_filter_all _ (seq (0 + a) n)), length_seq; [lia|]. apply list.Forall_forall.
  intros j Hj%elem_of_seq. apply H. lia.
Qed.

Lemma base_index d : base d -> 16 ≤ d / 0x400000 < 1024.
Proof. intros [H _]. Z.div_mod_to_equations. lia. Qed.

Lemma paging_tables y x x' :
  paging_ready y x -> mem_init (Z.shiftl 4 20) (Z.shiftl 16 20) x = Ok (x', tt) ->
  kernel_tables x' /\ (3072 ≤ frees x')%nat.
Proof.
  intros Hr Em. destruct (mem_init_marks (Z.shiftl 4 20) (Z.shiftl 16 20) x) as (x1 & E & _ & Hp & Hw & Hf);
    [vm_compute; discriminate..|]. rewrite Em in E. injection E as <-. split.
  - constructor; [exact Hw| | |].
    + rewrite Hp. exact (pr_dir y x Hr 0 (conj (Z.le_refl 0) eq_refl)).
    + intros j Hj. unfold entry. rewrite Hp. apply (pr_table y x Hr). lia.
    + intros d Hb. unfold pde. pose proof (base_index d Hb). destruct Hb as [Hb _].
      rewrite pde_addr_eq, Hp, (pr_dir y x Hr), decide_False by lia. done.
  - apply (frees_at_least x' 768 3072); [reflexivity|]. intros j Hj. unfold is_free.
    rewrite Hf by lia. rewrite decide_True; [done|].
    change (MAP_NR (Z.shiftl 4 20)) with 768. change ((Z.shiftl 16 20 - Z.shiftl 4 20) / 4096) with 3072. lia.
Qed.

Lemma task_table_eq (t : list Z) p : length t = 64%nat -> t !! 0%nat = Some p ->
  (forall j : nat, (1 ≤ j < 64)%nat -> t !! j = Some 0) -> t = p :: replicate 63 0.
Proof.
  intros Hl H0 H. apply list_eq. intros [|j]; [done|]. cbn [lookup list_lookup].
  destruct (decide (S j < 64)%nat) as [Hj|Hj].
  - rewrite H by lia. symmetry. apply lookup_replicate. split; [done|lia].
  - rewrite lookup_ge_None_2 by lia. symmetry. apply lookup_ge_None_2. rewrite length_replicate. lia.
Qed.

Lemma power_on_ready s : linked s -> exists s',
  (startup_32 line ignore_int;; main device k) s = Ok (s', tt) /\ ready s'.
Proof.
  intros Hs. destruct (startup_eq s Hs) as (x & y & E & Hr). 
  destruct (main_eq device k (entered x s) (startup_loaded s x Hs)) as (s' & ser & bl & Em & B).
  exists s'. split; [by rewrite (bind_ok _ _ _ _ _ E)|].
  destruct B as [Bm _ _ Bi Bg [Bt0 Bt] (Btr & Bl & Bfl) _ _ Bts].
  destruct (gates_decode k (ln_image s Hs)) as (G1 & G2 & G3 & G4).
  destruct (paging_tables y x (m_mm s') Hr Bm) as [Hkt Hfr].
  pose proof (image_tss k (ln_image s Hs)) as Hka.
  change (idt (entered x s)) with (replicate 256 (set_intr_gate ignore_int)) in Bi. change (gdt (entered x s)) with head_gdt in Bg.
  pose proof (length_trap_init k (replicate 256 (set_intr_gate ignore_int))) as Ht. rewrite length_replicate in Ht.
  constructor; [| | | | | | | | |exact (ready_length _ _ _ _ Bg)|exact (ready_free _ _ _ _ Bg)| |exact Bfl|exact Hkt|exact Hfr];
    unfold gate_at; rewrite ?Bi, ?Btr, ?Bl; unfold boot_idt.
  - rewrite !list_lookup_insert_ne by lia. unfold trap_init. rewrite list_lookup_insert_eq; [rewrite <-G1; reflexivity|].
    rewrite length_imap, length_replicate. lia.
  - rewrite !list_lookup_insert_ne by lia. rewrite list_lookup_insert_eq by lia. rewrite <-G2; reflexivity.
  - rewrite list_lookup_insert_eq by (rewrite !length_insert; lia). rewrite <-G3; reflexivity.
  - rewrite list_lookup_insert_ne by lia. rewrite list_lookup_insert_eq by (rewrite !length_insert; lia). rewrite <-G4; reflexivity.
  - intros i Hi Hn. apply (other_gate k ignore_int i Hi Hn (ln_image s Hs) (ln_ignore s Hs)).
  - rewrite (ready_kept _ _ _ _ Bg) by lia. reflexivity.
  - rewrite (ready_kept _ _ _ _ Bg) by lia. reflexivity.
  - change (Z.to_nat (Z.shiftr 0x20 3)) with 4%nat. rewrite (ready_tss _ _ _ _ Bg (quad 0)) by reflexivity.
    cbn [fmap option_fmap option_map]. f_equal. apply (decode_tssldt (quad 0) (a_init_tss k) 0x89); [exact quad_wf|apply Hka|lia].
  - change (Z.to_nat (Z.shiftr 0x28 3)) with 5%nat. rewrite (ready_ldt _ _ _ _ Bg (quad 0)) by reflexivity.
    cbn [fmap option_fmap option_map]. f_equal. apply (decode_tssldt (quad 0) (a_init_ldt k) 0x82); [exact quad_wf|apply Hka|lia].
  - apply (task_table_eq _ _ Bts); [|exact Bt]. rewrite Bt0. exact (ln_task0 s Hs).
Qed.
End power_on.

(** C12.  From reset to user mode: boot/head.s and then [main], on any image,
    leave a machine that is ready for user code.  The page fault, timer, disk and
    system-call vectors reach their handlers; every other vector is an
    interrupt gate closed to user code, so 0x80 is the only way in, and it keeps
    the high half of the address of [ignore_int]; the kernel segments span exactly the 16 MB that
    are mapped one to one; TSS and LDT of task 0 are installed; the
    nested-task flag is clear and interrupts are open; and the tables
    and the 3072 free frames are what the first [fork] needs. *)
Theorem power_on device line k ignore_int init_task s :
  linked line k ignore_int init_task s ->
  exists s', (startup_32 line ignore_int;; main device k) s = Ok (s', tt) /\ ready k ignore_int init_task s' /\
    forall (i : nat) g, gate_at s' i = Some g -> (i < 256)%nat -> gate_dpl g = 3 -> i = 0x80%nat.
Proof.
  intros Hs. destruct (power_on_ready device line k ignore_int init_task s Hs) as (s' & E & R). exists s'.
  split; [exact E|]. split; [exact R|]. intros i g Hg Hi Hd.
  destruct (decide (i ∈ [14; 0x20; 0x2E; 0x80]%nat)) as [Hin|Hn].
  - apply special_cases in Hin as [-> | [-> | [-> | ->]]]; [| | |reflexivity];
      [rewrite (rd_fault _ _ _ _ R) in Hg|rewrite (rd_timer _ _ _ _ R) in Hg|rewrite (rd_disk _ _ _ _ R) in Hg];
      injection Hg as <-; discriminate Hd.
  - rewrite (rd_other _ _ _ _ R i Hi Hn) in Hg. injection Hg as <-. discriminate Hd.
Qed.

(** Private memories from the start: after boot/head.s and [main], the
    duplication of task 0's space into any user region followed by any sequence of
    user reads, writes and duplications that the specification allows (fewer than
    3072 of them) gives the results, and ends in the state, of separate memories
    that start with the words of low memory. *)
Theorem boot_private_memories device line k ignore_int init_task s :
  linked line k ignore_int init_task s ->
  exists s', (startup_32 line ignore_int;; main device k) s = Ok (s', tt) /\
    forall to size ops a rs, base to -> 0 < size ≤ 0x400000 ->
      arun ops ([to], boot_words (m_mm s')) = Some (a, rs) -> (length ops < 3072)%nat ->
      exists x, (r ← copy_page_tables 0 to size; rs ← crun ops; mret (r :: rs)) (m_mm s') = Ok (x, 0 :: rs) /\
        agree x a.
Proof.
  intros Hs. destruct (power_on_ready device line k ignore_int init_task s Hs) as (s' & E & R). exists s'.
  split; [exact E|]. intros to size ops a rs Hb Hsize Ha Hl. pose proof (rd_frees _ _ _ _ R) as Hf.
  destruct (first_fork_agree (m_mm s') to size (rd_tables _ _ _ _ R) Hb Hsize) as (x & Ex & Hx & Hfx & _); [lia|].
  destruct (crun_agree ops x _ a rs Hx Ha) as (x' & Ex' & Hx' & _); [lia|].
  exists x'. split; [|exact Hx']. rewrite (bind_ok _ _ _ _ _ Ex), (bind_ok _ _ _ _ _ Ex'). reflexivity.
Qed.

(** ** Witnesses *)

Lemma fresh_linked : linked (fun x => x) kernel_image 0x5428 0x18000 fresh_machine.
Proof.
  split; [reflexivity|reflexivity|reflexivity|vm_compute; split; congruence|reflexivity|exact kernel_image_ok|lia|discriminate].
Qed.

Lemma power_on_witness :
  exists s', (startup_32 (fun x => x) 0x5428;; main latches kernel_image) fresh_machine = Ok (s', tt) /\
    gate_at s' 0x80 = Some (Gate 0x7c00 8 15 3 true) /\ gate_at s' 0 = Some (Gate 0x6000 8 14 0 true).
Proof.
  destruct (power_on latches (fun x => x) kernel_image 0x5428 0x18000 fresh_machine fresh_linked) as (s' & E & R & _).
  exists s'. split; [exact E|]. split; [exact (rd_call _ _ _ _ R)|].
  apply (rd_other _ _ _ _ R 0%nat); [lia|]. apply (bool_decide_unpack _). vm_compute. exact I.
Defined.

(** One user region: its first word of page 5 is the machine's. *)
Lemma boot_private_memories_witness :
  exists s' x w, (startup_32 (fun x => x) 0x5428;; main latches kernel_image) fresh_machine = Ok (s', tt) /\
    (r ← copy_page_tables 0 0x4000000 0xA0000;
     rs ← crun [Write 0x4000000 5 0 7; Read 0x4000000 5 0; Read 0x4000000 6 0]; mret (r :: rs)) (m_mm s') =
      Ok (x, [0; 0; 7; w]).
Proof.
  destruct (boot_private_memories latches (fun x => x) kernel_image 0x5428 0x18000 fresh_machine fresh_linked) as (s' & E & H).
  destruct (H 0x4000000 0xA0000 [Write 0x4000000 5 0 7; Read 0x4000000 5 0; Read 0x4000000 6 0]
    (([0x4000000], set_word (boot_words (m_mm s')) 0x4000000 5 0 7)) [0; 7; read_word (phys (m_mm s')) 0x6000]) as (x & Ex & _).
  - apply space_base. reflexivity.
  - lia.
  - reflexivity.
  - cbn [length]. lia.
  - exists s', x, (read_word (phys (m_mm s')) 0x6000). split; [exact E|exact Ex].
Defined.
