(* ===== verification/Syscalls.v ===== *)
(** * System calls

    The numbers user code passes (include/unistd.h), the table they index
    (include/linux/sys.h), the functions of kernel/traps.c that only return 0,
    the entry and exit code of kernel/sys_call.s and the library wrappers of
    unistd.h.  Functions are named by their C names. *)
From S2P Require Import Prelude Words Sched Task Fork.

(** The [__NR_] constants. *)
Definition __NR : list (string * Z) := [
  ("setup", 0); ("exit", 1); ("fork", 2); ("read", 3); ("write", 4); ("open", 5); ("close", 6);
  ("waitpid", 7); ("creat", 8); ("link", 9); ("unlink", 10); ("execve", 11); ("chdir", 12);
  ("time", 13); ("mknod", 14); ("chmod", 15); ("chown", 16); ("break", 17); ("stat", 18);
  ("lseek", 19); ("getpid", 20); ("mount", 21); ("umount", 22); ("setuid", 23); ("getuid", 24);
  ("stime", 25); ("ptrace", 26); ("alarm", 27); ("fstat", 28); ("pause", 29); ("utime", 30);
  ("stty", 31); ("gtty", 32); ("access", 33); ("nice", 34); ("ftime", 35); ("sync", 36);
  ("kill", 37); ("rename", 38); ("mkdir", 39); ("rmdir", 40); ("dup", 41); ("pipe", 42);
  ("times", 43); ("prof", 44); ("brk", 45); ("setgid", 46); ("getgid", 47); ("signal", 48);
  ("geteuid", 49); ("getegid", 50); ("acct", 51); ("phys", 52); ("lock", 53); ("ioctl", 54);
  ("fcntl", 55); ("mpx", 56); ("setpgid", 57); ("ulimit", 58); ("uname", 59); ("umask", 60);
  ("chroot", 61); ("ustat", 62); ("dup2", 63); ("getppid", 64); ("getpgrp", 65); ("setsid", 66);
  ("sigaction", 67); ("sgetmask", 68); ("ssetmask", 69); ("setreuid", 70); ("setregid", 71);
  ("sigsuspend", 72); ("sigpending", 73); ("sethostname", 74); ("setrlimit", 75);
  ("getrlimit", 76); ("getrusage", 77); ("gettimeofday", 78); ("settimeofday", 79);
  ("getgroups", 80); ("setgroups", 81); ("select", 82); ("symlink", 83); ("lstat", 84);
  ("readlink", 85); ("uselib", 86); ("klock", 87); ("kunlock", 88); ("kdebug", 89)].

Definition sys_call_table : list string := [
  "sys_setup"; "sys_exit"; "sys_fork"; "sys_read"; "sys_write"; "sys_open"; "sys_close";
  "sys_waitpid"; "sys_creat"; "sys_link"; "sys_unlink"; "sys_execve"; "sys_chdir"; "sys_time";
  "sys_mknod"; "sys_chmod"; "sys_chown"; "sys_break"; "sys_stat"; "sys_lseek"; "sys_getpid";
  "sys_mount"; "sys_umount"; "sys_setuid"; "sys_getuid"; "sys_stime"; "sys_ptrace"; "sys_alarm";
  "sys_fstat"; "sys_pause"; "sys_utime"; "sys_stty"; "sys_gtty"; "sys_access"; "sys_nice";
  "sys_ftime"; "sys_sync"; "sys_kill"; "sys_rename"; "sys_mkdir"; "sys_rmdir"; "sys_dup";
  "sys_pipe"; "sys_times"; "sys_prof"; "sys_brk"; "sys_setgid"; "sys_getgid"; "sys_signal";
  "sys_geteuid"; "sys_getegid"; "sys_acct"; "sys_phys"; "sys_lock"; "sys_ioctl"; "sys_fcntl";
  "sys_mpx"; "sys_setpgid"; "sys_ulimit"; "sys_uname"; "sys_umask"; "sys_chroot"; "sys_ustat";
  "sys_dup2"; "sys_getppid"; "sys_getpgrp"; "sys_setsid"; "sys_sigaction"; "sys_sgetmask";
  "sys_ssetmask"; "sys_setreuid"; "sys_setregid"; "sys_sigsuspend"; "sys_sigpending";
  "sys_sethostname"; "sys_setrlimit"; "sys_getrlimit"; "sys_getrusage"; "sys_gettimeofday";
  "sys_settimeofday"; "sys_getgroups"; "sys_setgroups"; "sys_select"; "sys_symlink"; "sys_lstat";
  "sys_readlink"; "sys_uselib"; "sys_klock"; "sys_kunlock"; "sys_kdebug"].

(** The functions [int sys_x() { return 0; }]. *)
Definition stubs : list string := [
  "sys_setup"; "sys_exit"; "sys_read"; "sys_write"; "sys_open"; "sys_close"; "sys_waitpid";
  "sys_creat"; "sys_link"; "sys_unlink"; "sys_execve"; "sys_chdir"; "sys_time"; "sys_mknod";
  "sys_chmod"; "sys_chown"; "sys_break"; "sys_stat"; "sys_lseek"; "sys_getpid"; "sys_mount";
  "sys_umount"; "sys_setuid"; "sys_getuid"; "sys_stime"; "sys_ptrace"; "sys_alarm"; "sys_fstat";
  "sys_utime"; "sys_stty"; "sys_gtty"; "sys_access"; "sys_nice"; "sys_ftime"; "sys_sync";
  "sys_kill"; "sys_rename"; "sys_mkdir"; "sys_rmdir"; "sys_dup"; "sys_pipe"; "sys_times";
  "sys_prof"; "sys_brk"; "sys_setgid"; "sys_getgid"; "sys_signal"; "sys_geteuid"; "sys_getegid";
  "sys_acct"; "sys_phys"; "sys_lock"; "sys_ioctl"; "sys_fcntl"; "sys_mpx"; "sys_setpgid";
  "sys_ulimit"; "sys_uname"; "sys_umask"; "sys_chroot"; "sys_ustat"; "sys_dup2"; "sys_getppid";
  "sys_getpgrp"; "sys_setsid"; "sys_sigaction"; "sys_sgetmask"; "sys_ssetmask"; "sys_setreuid";
  "sys_setregid"; "sys_sigpending"; "sys_sigsuspend"; "sys_sethostname"; "sys_setrlimit";
  "sys_getrlimit"; "sys_getrusage"; "sys_gettimeofday"; "sys_settimeofday"; "sys_getgroups";
  "sys_setgroups"; "sys_select"; "sys_symlink"; "sys_lstat"; "sys_readlink"; "sys_uselib"].

(** What the entry and exit code reads of a task besides its state. *)
Class TaskFields (S : Type) := {
  counter_of : S -> Z -> Z;
  signal_of : S -> Z -> Z;
  blocked_of : S -> Z -> Z;
  set_signal : Z -> Z -> S -> S
}.
#[global] Hint Mode TaskFields ! : typeclass_instances.

(** [bsfl]: the least bit set in a nonzero word. *)
Definition bsf (v : Z) : Z := Z.log2 (Z.land v (- v)).

(** What a wrapper makes of the value in [eax]: its result and [errno]. *)
Definition _syscall (res errno : Z) : Z * Z :=
  let res := s32 res in if decide (0 ≤ res) then (res, errno) else (-1, s32 (- res)).

Section syscalls.
Context {S : Type} `{SchedOps S, TaskFields S}.
(** The system calls that are not in [stubs]: fork, pause, klock, kunlock and
    kdebug, modelled in the files of their components. *)
Variable body : string -> list Z -> M S Z.

Definition invoke (f : string) (args : list Z) : M S Z :=
  if decide (f ∈ stubs) then mret 0 else body f args.

(** [system_call] up to the label [ret_from_sys_call].  The table has no
    bounds check; the address of the entry is computed modulo [2 ^ 32]. *)
Definition system_call (eax ebx ecx edx : Z) : M S Z :=
  f ← check "sys_call_table" (arr_get sys_call_table (u32 eax mod 2 ^ 30));
  r ← invoke f [ebx; ecx; edx];
  s ← get;
  when (bool_decide (state_of s (cur s) <> 0 \/ counter_of s (cur s) = 0)) schedule;;
  mret r.

(** [ret_from_sys_call] up to label [3]; [cs] and [oldss] are the saved
    segment selectors. *)
Definition ret_from_sys_call (cs oldss : Z) : M S unit :=
  s ← get;
  t0 ← check "task" (slots s !! 0%nat);
  let p := cur s in
  if decide (p = t0) then mret tt else
  if decide (u16 cs <> 0x0f) then mret tt else
  if decide (u16 oldss <> 0x17) then mret tt else
  let pending := Z.land (u32 (Z.lnot (blocked_of s p))) (u32 (signal_of s p)) in
  if decide (pending = 0) then mret tt else
  modify (set_signal p (Z.clearbit (u32 (signal_of s p)) (bsf pending))).

(** A wrapper of unistd.h from the interrupt to its return, without
    [ret_from_sys_call]: it changes the state only when a signal is pending, and no
    code sends one. *)
Definition user_call (nr : Z) (args : Z * Z * Z) (errno : Z) : M S (Z * Z) :=
  r ← system_call nr args.1.1 args.1.2 args.2; mret (_syscall r errno).
End syscalls.

(** ** The table *)

(** The table holds the function of each number. *)
Lemma table_entry name nr : (name, nr) ∈ __NR -> arr_get sys_call_table nr = Some ("sys_" +:+ name).
Proof.
  intros Hin. apply (list.Forall_forall (fun x => arr_get sys_call_table x.2 = Some ("sys_" +:+ x.1)) __NR) in Hin; [done|].
  apply (bool_decide_unpack _). vm_compute. exact I.
Qed.

(** The numbers of unistd.h and the table of sys.h agree in both directions:
    entry [nr] of the table is [sys_name] exactly when [name] has the number
    [nr], for all 90 calls. *)
Theorem numbers_match_table name nr :
  (name, nr) ∈ __NR <-> arr_get sys_call_table nr = Some ("sys_" +:+ name).
Proof.
  split; [apply table_entry|]. intros Hg. pose proof (arr_get_Some _ _ _ Hg) as Hr.
  destruct (lookup_lt_is_Some_2 __NR (Z.to_nat nr)) as [[name' nr'] Hn].
  { change (Z.of_nat (length sys_call_table)) with 90 in Hr. change (length __NR) with 90%nat. lia. }
  assert (nr' = nr) as ->.
  { assert (imap (fun i _ => Z.of_nat i) __NR = __NR.*2) as Ei by reflexivity.
    apply (f_equal (fun l => l !! Z.to_nat nr)) in Ei. rewrite list_lookup_imap, list_lookup_fmap, Hn in Ei.
    cbn in Ei. simplify_eq. lia. }
  apply list_elem_of_lookup_2 in Hn. pose proof (table_entry _ _ Hn) as E. rewrite Hg in E.
  by simplify_eq.
Qed.

Lemma numbers_small name nr : (name, nr) ∈ __NR -> 0 ≤ nr < 90.
Proof. intros H%table_entry%arr_get_Some. exact H. Qed.

Section calls.
Context {S : Type} `{SchedOps S, TaskFields S} (body : string -> list Z -> M S Z).
Implicit Types s : S.

(** The task can go on: no call of [schedule]. *)
Definition may_go_on s : Prop := state_of s (cur s) = 0 /\ counter_of s (cur s) <> 0.

Lemma system_call_eq name nr eax ebx ecx edx s s' r :
  (name, nr) ∈ __NR -> u32 eax mod 2 ^ 30 = nr ->
  invoke body ("sys_" +:+ name) [ebx; ecx; edx] s = Ok (s', r) ->
  system_call body eax ebx ecx edx s =
  if bool_decide (may_go_on s') then Ok (s', r) else (schedule;; mret r) s'.
Proof.
  intros Hin <- Hi. unfold system_call. rewrite (table_entry _ _ Hin).
  erewrite bind_ok by reflexivity. rewrite (bind_ok _ _ _ _ _ Hi). erewrite bind_ok by reflexivity.
  unfold may_go_on. do 2 case_bool_decide; try reflexivity; tauto.
Qed.
End calls.

(** ** The least bit *)

Lemma odd_part v : 0 < v -> exists k q, 0 ≤ k /\ 0 ≤ q /\ v = Z.shiftl (2 * q + 1) k.
Proof.
  intros Hv. induction v as [v IH] using (well_founded_induction (Z.lt_wf 0)).
  destruct (Z.Even_or_Odd v) as [[w ->]|[w ->]].
  - destruct (IH w) as (k & q & Hk & Hq & E); [lia|lia|]. exists (k + 1), q. split; [lia|]. split; [done|].
    rewrite E, !Z.shiftl_mul_pow2, Z.pow_add_r by lia. lia.
  - exists 0, w. split; [done|]. split; [lia|]. by rewrite Z.shiftl_0_r.
Qed.

Lemma land_opp_odd q : Z.land (2 * q + 1) (- (2 * q + 1)) = 1.
Proof.
  replace (- (2 * q + 1)) with (2 * Z.lnot q + 1) by (unfold Z.lnot; lia).
  apply Z.bits_inj'. intros i Hi. rewrite Z.land_spec.
  destruct (decide (i = 0)) as [->|]; [by rewrite !Z.testbit_odd_0|].
  replace i with (Z.succ (i - 1)) by lia. rewrite !Z.testbit_odd_succ, Z.lnot_spec by lia.
  replace (Z.testbit 1 (Z.succ (i - 1))) with false by (symmetry; apply (testbit_high 1); lia).
  by destruct (Z.testbit q (i - 1)).
Qed.

(** [bsf] finds the least bit set. *)
Lemma bsf_spec v : 0 < v ->
  0 ≤ bsf v /\ Z.testbit v (bsf v) = true /\ forall j, 0 ≤ j < bsf v -> Z.testbit v j = false.
Proof.
  intros (k & q & Hk & Hq & ->)%odd_part. unfold bsf.
  replace (- Z.shiftl (2 * q + 1) k) with (Z.shiftl (- (2 * q + 1)) k) by (rewrite !Z.shiftl_mul_pow2 by lia; lia).
  rewrite <-Z.shiftl_land, land_opp_odd, Z.shiftl_1_l, Z.log2_pow2 by done.
  split; [done|]. split.
  - rewrite Z.shiftl_spec, Z.sub_diag by done. apply Z.testbit_odd_0.
  - intros j Hj. rewrite Z.shiftl_spec by lia. apply Z.testbit_neg_r. lia.
Qed.

(** ** What a caller gets *)

Section results.
Context {S : Type} `{SchedOps S, TaskFields S} (body : string -> list Z -> M S Z).
Implicit Types s : S.

(** C21.  A system call by its number runs the function of that name (85 of the 90
    change nothing and give 0), and when the task can go on its caller gets the
    function's result, or -1 with the positive error code in [errno]. *)
Theorem user_call_correct name nr ebx ecx edx errno s s' r :
  (name, nr) ∈ __NR ->
  (if decide ("sys_" +:+ name ∈ stubs) then s' = s /\ r = 0
   else body ("sys_" +:+ name) [ebx; ecx; edx] s = Ok (s', r)) ->
  - 2 ^ 31 < r < 2 ^ 31 -> may_go_on s' ->
  user_call body nr (ebx, ecx, edx) errno s = Ok (s', if decide (0 ≤ r) then (r, errno) else (-1, - r)).
Proof.
  intros Hin Hb Hr Hgo. pose proof (numbers_small _ _ Hin) as Hn. unfold user_call. cbn [fst snd].
  erewrite bind_ok.
  2:{ rewrite (system_call_eq body name nr nr ebx ecx edx s s' r); [by rewrite bool_decide_true|done| |].
      - rewrite u32_small by lia. apply Z.mod_small. lia.
      - unfold invoke. case_decide; [destruct Hb as [-> ->]; reflexivity|exact Hb]. }
  unfold _syscall. rewrite (s32_small r) by lia. cbv zeta. destruct (decide (0 ≤ r)); [reflexivity|]. rewrite s32_small by lia. reflexivity.
Qed.

(** C34.  A number outside the table is not refused: with the bounds check of
    kernel/sys_call.s commented out, the call jumps through whatever word
    follows the table, and never gives [-ENOSYS]. *)
Theorem system_call_unchecked eax ebx ecx edx s :
  90 ≤ u32 eax mod 2 ^ 30 ->
  system_call body eax ebx ecx edx s = Err (Wild "sys_call_table").
Proof.
  intros He. unfold system_call. erewrite bind_err; [reflexivity|].
  unfold arr_get. rewrite decide_True by lia. rewrite lookup_ge_None_2; [done|].
  change (length sys_call_table) with 90%nat. lia.
Qed.

(** On the way back to user mode the least pending signal that is not
    blocked is cleared from the task without any handler being run; blocked and
    later signals stay pending. *)
Theorem ret_drops_signal s t0 :
  slots s !! 0%nat = Some t0 -> cur s <> t0 ->
  let pend := Z.land (u32 (Z.lnot (blocked_of s (cur s)))) (u32 (signal_of s (cur s))) in
  pend <> 0 ->
  exists i w, ret_from_sys_call 0x0f 0x17 s = Ok (set_signal (cur s) w s, tt) /\
    0 ≤ i /\ Z.testbit pend i = true /\ (forall j, 0 ≤ j < i -> Z.testbit pend j = false) /\
    forall j, 0 ≤ j -> Z.testbit w j = if decide (j = i) then false else Z.testbit (u32 (signal_of s (cur s))) j.
Proof.
  intros Ht Hc pend Hp. assert (0 < pend) as Hpos.
  { enough (0 ≤ pend) by lia. apply Z.land_nonneg. left. apply u32_range. }
  destruct (bsf_spec pend Hpos) as (Hi & Hb & Hlow).
  exists (bsf pend), (Z.clearbit (u32 (signal_of s (cur s))) (bsf pend)). split; [|split; [|split; [|split]]]; try done.
  - unfold ret_from_sys_call. erewrite bind_ok by reflexivity. rewrite Ht. erewrite bind_ok by reflexivity.
    fold pend. by rewrite !decide_False by (done || vm_compute; tauto).
  - intros j Hj. case_decide; [subst; by apply Z.clearbit_eq|]. apply Z.clearbit_neq. done.
Qed.
End results.

(** ** The kernel state of Fork.v *)

#[export] Instance kernel_sched : SchedOps kernel := {|
  init_task s := default 0 (Fork.task s !! 0%nat);
  slots := Fork.task;
  cur := Fork.current;
  set_cur p s := s <| Fork.current := p |>;
  state_of s p := from_option state 0 (tasks s !! p);
  set_state p v s := s <| tasks := alter (fun t => t <| state := v |>) p (tasks s) |>
|}.

#[export] Instance kernel_fields : TaskFields kernel := {|
  counter_of s p := from_option counter 0 (tasks s !! p);
  signal_of s p := from_option signal 0 (tasks s !! p);
  blocked_of s p := from_option blocked 0 (tasks s !! p);
  set_signal p v s := s <| tasks := alter (fun t => t <| signal := v |>) p (tasks s) |>
|}.

Definition fork_body (r : regs) (f : string) (_ : list Z) : M kernel Z :=
  if decide (f = "sys_fork") then sys_fork r else stop (Wild f).

(** ** Witnesses *)

(** A task in slot 1 with signals 3 and 5 pending and 3 blocked. *)
Definition signalled : kernel :=
  demo_kernel <| tasks := {[0x18000 := INIT_TASK 0x18000 0 <| signal := 0x28 |> <| blocked := 0x08 |>]} |>
    <| Fork.task := 0x4000 :: 0x18000 :: replicate 62 0 |> <| Fork.current := 0x18000 |>.

Lemma user_call_correct_witness :
  user_call (fork_body demo_regs) 20 (0, 0, 0) 7 demo_kernel = Ok (demo_kernel, (0, 7)).
Proof.
  apply (user_call_correct (fork_body demo_regs) "getpid" 20 0 0 0 7 demo_kernel demo_kernel 0).
  - apply (bool_decide_unpack _). vm_compute. exact I.
  - by rewrite decide_True by (apply (bool_decide_unpack _); vm_compute; exact I).
  - lia.
  - split; [reflexivity|vm_compute; discriminate].
Defined.

Lemma system_call_unchecked_witness :
  system_call (fork_body demo_regs) (-1) 0 0 0 demo_kernel = Err (Wild "sys_call_table").
Proof. apply (system_call_unchecked (fork_body demo_regs) (-1)). vm_compute. discriminate. Defined.

Lemma ret_drops_signal_witness :
  exists i w, ret_from_sys_call 0x0f 0x17 signalled = Ok (set_signal 0x18000 w signalled, tt) /\
    0 ≤ i /\ Z.testbit 0x20 i = true /\ (forall j, 0 ≤ j < i -> Z.testbit 0x20 j = false) /\
    forall j, 0 ≤ j -> Z.testbit w j = if decide (j = i) then false else Z.testbit 0x28 j.
Proof.
  assert (signal_of signalled 0x18000 = 0x28 /\ blocked_of signalled 0x18000 = 0x08) as [Es Eb] by (vm_compute; tauto).
  pose proof (ret_drops_signal signalled 0x4000) as P. cbv zeta in P. change (cur signalled) with 0x18000 in P.
  rewrite Es, Eb in P. apply P; [reflexivity|discriminate|discriminate].
Defined.
