(* ===== verification/Entry.v ===== *)
(** * Entering and leaving the kernel

    The way from user code into the kernel and back, instruction by instruction:
    the interrupt and [iret] of the processor, [system_call], [ret_from_sys_call]
    and [sys_fork] of kernel/sys_call.s, [move_to_user_mode] of
    include/asm/system.h.  [cpu] is the register file, the words of the memory
    that holds the kernel stack, and the rest of the kernel's state.

    Functions compiled from C are parameters of this code: [compiled] says that
    machine code keeps the calling convention and computes a function of the
    model.  Arithmetic flags are not tracked, each conditional jump has its test;
    nor is [eip] inside the kernel. *)
From S2P Require Import Prelude Words Descriptors Memory Sched Task Fork Syscalls.

#[export] Instance eta_context : Eta context := fun r =>
  Context_ (c_eip r) (c_eflags r) (c_eax r) (c_ecx r) (c_edx r) (c_ebx r) (c_esp r) (c_ebp r) (c_esi r) (c_edi r)
    (c_es r) (c_cs r) (c_ss r) (c_ds r) (c_fs r) (c_gs r).

Record cpu (S : Type) := Cpu { ctx : context; stk : gmap Z Z; kern : S }.
Arguments Cpu {S} ctx stk kern.
Arguments ctx {S} c.
Arguments stk {S} c.
Arguments kern {S} c.

#[export] Instance eta_cpu S : Eta (cpu S) := fun r => Cpu (ctx r) (stk r) (kern r).

(** ** The processor *)

(** The privilege level of the running code. *)
Definition cpl (c : context) : Z := c_cs c mod 4.

(** The bits an interrupt clears in the flags: trap, nested task, resume and
    virtual 8086; an interrupt gate (type 14) also closes interrupts. *)
Definition entry_flags (type fl : Z) : Z := Z.ldiff fl (if decide (type = 14) then 0x34300 else 0x34100).

Definition NT : Z := 14.
Definition DF : Z := 10.
Definition VM : Z := 17.

Section entry.
Context {S : Type}.
(** [high a]: what a push of a 16-bit segment register leaves in the upper half
    of the word at [a], which no manual promises. *)
Variable high : Z -> Z.
(** The stack for privilege level 0 in the TSS of the running task, and the
    privilege level of the segment of a selector. *)
Variables (ss0 esp0 : Z) (dpl : Z -> Z).

Definition set_ctx (f : context -> context) : M (cpu S) unit := modify (fun s => s <| ctx := f (ctx s) |>).
Definition reg (r : context -> Z) : M (cpu S) Z := gets (fun s => r (ctx s)).
Definition in_kernel {A} (m : M S A) : M (cpu S) A := fun s =>
  match m (kern s) with Ok (k, a) => Ok (s <| kern := k |>, a) | Err f => Err f end.

Definition pushl (v : Z) : M (cpu S) unit := modify (fun s =>
  let a := u32 (c_esp (ctx s) - 4) in
  s <| ctx := ctx s <| c_esp := a |> |> <| stk := <[a := v]> (stk s) |>).
Definition selector_word (a v : Z) : Z := u16 v + 0x10000 * u16 (high a).
Definition push_seg (v : Z) : M (cpu S) unit :=
  e ← reg c_esp; pushl (selector_word (u32 (e - 4)) v).
(** The word at [n(%esp)]. *)
Definition stack_word (n : Z) : M (cpu S) Z := gets (fun s => read_word (stk s) (c_esp (ctx s) + n)).
Definition popl : M (cpu S) Z :=
  v ← stack_word 0; set_ctx (fun c => c <| c_esp := u32 (c_esp c + 4) |>);; mret v.
Definition addl_esp (n : Z) : M (cpu S) unit := set_ctx (fun c => c <| c_esp := u32 (c_esp c + n) |>).

(** An interrupt through gate [g], whose code segment has level 0. *)
Definition interrupt (g : gate) : M (cpu S) unit :=
  c ← gets ctx;
  (if decide (0 < cpl c) then
     set_ctx (fun c => c <| c_ss := ss0 |> <| c_esp := esp0 |>);; push_seg (c_ss c);; pushl (c_esp c)
   else mret tt);;
  pushl (c_eflags c);; push_seg (c_cs c);; pushl (c_eip c);;
  set_ctx (fun c => c <| c_eflags := entry_flags (gate_type g) (c_eflags c) |> <| c_cs := gate_selector g |>
                      <| c_eip := gate_offset g |>).

(** The [int] instruction; [eip] is already behind it. *)
Definition int (g : gate) : M (cpu S) unit :=
  c ← gets ctx; if decide (cpl c ≤ gate_dpl g) then interrupt g else stop (Wild "gate").

(** A data segment register on the way to level [l]: selectors of segments that
    are more privileged become null. *)
Definition leave_segment (l v : Z) : Z := if decide (4 ≤ v /\ dpl v < l) then 0 else v.

Definition outer_context (l new_esp new_ss : Z) (c : context) : context :=
  c <| c_esp := new_esp |> <| c_ss := u16 new_ss |>
    <| c_ds := leave_segment l (c_ds c) |> <| c_es := leave_segment l (c_es c) |>
    <| c_fs := leave_segment l (c_fs c) |> <| c_gs := leave_segment l (c_gs c) |>.

Definition iret : M (cpu S) unit :=
  c ← gets ctx;
  if Z.testbit (c_eflags c) NT then stop (Wild "nested task") else
  new_eip ← popl; new_cs ← popl; fl ← popl;
  if Z.testbit fl VM then stop (Wild "virtual 8086 mode") else
  set_ctx (fun c => c <| c_eip := new_eip |> <| c_cs := u16 new_cs |> <| c_eflags := fl |>);;
  if decide (cpl c < u16 new_cs mod 4) then
    new_esp ← popl; new_ss ← popl;
    set_ctx (outer_context (u16 new_cs mod 4) new_esp new_ss)
  else mret tt.

(** [call f], where [here] is the return address. *)
Definition call (here : Z) (f : M (cpu S) unit) : M (cpu S) unit := pushl here;; f.
Definition ret : M (cpu S) unit := _ ← popl; mret tt.
(** [popl] into a register. *)
Definition pop_to (put : Z -> context -> context) : M (cpu S) unit := v ← popl; set_ctx (put v).
Definition push_reg (r : context -> Z) : M (cpu S) unit := v ← reg r; pushl v.
Definition push_sreg (r : context -> Z) : M (cpu S) unit := v ← reg r; push_seg v.

(** ** kernel/sys_call.s *)

Context `{SchedOps S, TaskFields S}.

(** Label [3] of [ret_from_sys_call]. *)
Definition restore_all : M (cpu S) unit :=
  pop_to (fun v c => c <| c_eax := v |>);;
  pop_to (fun v c => c <| c_ebx := v |>);;
  pop_to (fun v c => c <| c_ecx := v |>);;
  pop_to (fun v c => c <| c_edx := v |>);;
  addl_esp 4;;
  pop_to (fun v c => c <| c_fs := u16 v |>);;
  pop_to (fun v c => c <| c_es := u16 v |>);;
  pop_to (fun v c => c <| c_ds := u16 v |>);;
  iret.

Definition CS : Z := 0x24.
Definition OLDSS : Z := 0x30.

(** The signal part, from [movl signal(%eax),%ebx] to [popl %ecx]. *)
Definition take_signal : M (cpu S) unit :=
  k ← gets kern;
  let ebx := u32 (signal_of k (cur k)) in
  let ecx := Z.land (u32 (Z.lnot (blocked_of k (cur k)))) ebx in
  set_ctx (fun c => c <| c_ebx := ebx |> <| c_ecx := ecx |>);;
  if decide (ecx = 0) then mret tt else
  let ebx := Z.clearbit ebx (bsf ecx) in
  in_kernel (modify (set_signal (cur k) ebx));;
  set_ctx (fun c => c <| c_ebx := ebx |> <| c_ecx := u32 (bsf ecx + 1) |>);;
  push_reg c_ecx;;
  pop_to (fun v c => c <| c_ecx := v |>).

Definition ret_from_sys_call : M (cpu S) unit :=
  k ← gets kern;
  set_ctx (fun c => c <| c_eax := cur k |>);;
  t0 ← check "task" (slots k !! 0%nat);
  cs ← stack_word CS;
  oldss ← stack_word OLDSS;
  (if decide (cur k = t0) then mret tt else
   if decide (u16 cs <> 0x0f) then mret tt else
   if decide (u16 oldss <> 0x17) then mret tt else take_signal);;
  restore_all.

(** [movl $0x10,%edx; mov %dx,%ds; mov %dx,%es; movl $0x17,%edx; mov %dx,%fs],
    with [edx] or [eax]. *)
Definition kernel_segments (r : context -> Z) (put : Z -> context -> context) : M (cpu S) unit :=
  set_ctx (put 0x10);;
  set_ctx (fun c => c <| c_ds := u16 (r c) |>);; set_ctx (fun c => c <| c_es := u16 (r c) |>);;
  set_ctx (put 0x17);;
  set_ctx (fun c => c <| c_fs := u16 (r c) |>).

(** [schedule] is the code of the C function; [back] stands for the return
    addresses the calls push. *)
Definition system_call (table : list (M (cpu S) unit)) (schedule : M (cpu S) unit) (back : Z) : M (cpu S) unit :=
  push_sreg c_ds;; push_sreg c_es;; push_sreg c_fs;;
  push_reg c_eax;; push_reg c_edx;; push_reg c_ecx;; push_reg c_ebx;;
  kernel_segments c_edx (fun v c => c <| c_edx := v |>);;
  nr ← reg c_eax;
  f ← check "sys_call_table" (arr_get table (u32 nr mod 2 ^ 30));
  call back f;;
  push_reg c_eax;;
  k ← gets kern;
  set_ctx (fun c => c <| c_eax := cur k |>);;
  when (bool_decide (state_of k (cur k) <> 0 \/ counter_of k (cur k) = 0)) (call back schedule);;
  ret_from_sys_call.

Definition sys_fork (find_empty_process copy_process : M (cpu S) unit) (back : Z) : M (cpu S) unit :=
  set_ctx (fun c => c <| c_eflags := Z.clearbit (c_eflags c) 9 |>);;
  call back find_empty_process;;
  eax ← reg c_eax;
  (if decide (s32 eax < 0) then mret tt else
   push_sreg c_gs;; push_reg c_esi;; push_reg c_edi;; push_reg c_ebp;; push_reg c_eax;;
   call back copy_process;;
   addl_esp 20);;
  ret.

(** ** include/asm/system.h *)

Definition move_to_user_mode (here : Z) : M (cpu S) unit :=
  set_ctx (fun c => c <| c_eax := c_esp c |>);;
  pushl 0x17;; push_reg c_eax;; push_reg c_eflags;; pushl 0x0f;; pushl here;;
  iret;;
  set_ctx (fun c => c <| c_eax := 0x17 |>);;
  set_ctx (fun c => c <| c_ds := u16 (c_eax c) |>);; set_ctx (fun c => c <| c_es := u16 (c_eax c) |>);;
  set_ctx (fun c => c <| c_fs := u16 (c_eax c) |>);; set_ctx (fun c => c <| c_gs := u16 (c_eax c) |>).
End entry.

(** ** Runs

    [runs m s Q]: from [s] the code [m] ends, in [Q]. *)
Definition runs {T A} (m : M T A) (s : T) (Q : T -> A -> Prop) : Prop := exists s' a, m s = Ok (s', a) /\ Q s' a.

Lemma runs_bind {T A B} (m : M T A) (k : A -> M T B) s Q :
  runs m s (fun s' a => runs (k a) s' Q) -> runs (m ≫= k) s Q.
Proof. intros (s1 & a & E & s2 & b & E2 & HQ). exists s2, b. by rewrite (bind_ok _ _ _ _ _ E). Qed.

Lemma runs_impl {T A} (m : M T A) s (P Q : T -> A -> Prop) :
  runs m s P -> (forall s' a, P s' a -> Q s' a) -> runs m s Q.
Proof. intros (s' & a & E & HP) H. exists s', a. split; [done|by apply H]. Qed.

(** The same for what the run of a whole program satisfies. *)
Definition holds {O} (P : O -> Prop) (o : O) : Prop := P o.

Lemma holds_bind {T A B} (m : M T A) (k : A -> M T B) s (R : T -> A -> Prop) P :
  runs m s R -> (forall s' a, R s' a -> holds P (k a s')) -> holds P ((m ≫= k) s).
Proof. intros (s' & a & E & HR) H. rewrite (bind_ok _ _ _ _ _ E). by apply H. Qed.

Lemma runs_ret {T A} (a : A) (s : T) (Q : T -> A -> Prop) : Q s a -> runs (mret a) s Q.
Proof. intros HQ. by exists s, a. Qed.

Section stack.
Context {S : Type}.
Implicit Types (s : cpu S) (c : context) (l : list Z) (k : S).

(** The kernel runs with context [c] and the words [l] on the stack that starts
    below [top]; the memory from [top] on is that of [m]. *)
Record stacked (top : Z) (m : gmap Z Z) (c : context) (l : list Z) (k : S) (s : cpu S) : Prop := {
  sk_ctx : ctx s = c <| c_esp := top - 4 * Z.of_nat (length l) |>;
  sk_kern : kern s = k;
  sk_room : 4 * Z.of_nat (length l) ≤ top < 2 ^ 32;
  sk_words : forall i v, l !! i = Some v -> read_word (stk s) (top - 4 * Z.of_nat (length l) + 4 * Z.of_nat i) = v;
  sk_above : forall x, top ≤ x -> read_word (stk s) x = read_word m x
}.

Lemma stacked_word top m c l k s i v : stacked top m c l k s -> l !! i = Some v ->
  read_word (stk s) (c_esp (ctx s) + 4 * Z.of_nat i) = v.
Proof. intros H Hi. rewrite (sk_ctx _ _ _ _ _ _ H). by apply (sk_words _ _ _ _ _ _ H). Qed.

Lemma stacked_push top m c l k s v : stacked top m c l k s -> 4 * Z.of_nat (length l) + 4 ≤ top ->
  runs (pushl v) s (fun s' _ => stacked top m c (v :: l) k s').
Proof.
  intros [Hc Hk Hr Hw Ha] Hroom. eexists _, tt. split; [reflexivity|].
  assert (u32 (c_esp (ctx s) - 4) = top - 4 * Z.of_nat (length (v :: l))) as E.
  { rewrite Hc. cbn [upd c_esp length]. rewrite u32_small by lia. lia. }
  rewrite E. cbn [length] in *. constructor; cbn [ctx kern stk upd].
  - by rewrite Hc.
  - done.
  - cbn [length]. lia.
  - intros [|i] w Hi; cbn [length] in *.
    + injection Hi as <-. rewrite read_insert, decide_True by lia. done.
    + cbn [lookup list_lookup] in Hi. rewrite read_insert, decide_False by lia. rewrite <-(Hw i w Hi). f_equal. lia.
  - intros x Hx. rewrite read_insert, decide_False by lia. by apply Ha.
Qed.

Lemma stacked_pop top m c v l k s : stacked top m c (v :: l) k s ->
  runs popl s (fun s' a => a = v /\ stacked top m c l k s').
Proof.
  intros H. pose proof (stacked_word _ _ _ _ _ _ 0 v H eq_refl) as Hv. destruct H as [Hc Hk Hr Hw Ha].
  rewrite Z.mul_0_r in Hv. eexists _, _. split; [reflexivity|]. split; [exact Hv|]. cbn [length] in *.
  constructor; cbn [ctx kern stk upd].
  - rewrite Hc. cbn. rewrite u32_small by lia. f_equal. lia.
  - done.
  - lia.
  - intros i w Hi. rewrite <-(Hw (Datatypes.S i) w Hi). f_equal. lia.
  - done.
Qed.

Lemma stacked_set top m c l k s (f : context -> context) :
  stacked top m c l k s -> (forall v c', f (c' <| c_esp := v |>) = f c' <| c_esp := v |>) ->
  runs (set_ctx f) s (fun s' _ => stacked top m (f c) l k s').
Proof.
  intros [Hc Hk Hr Hw Ha] Hf. eexists _, tt. split; [reflexivity|].
  constructor; cbn [ctx kern stk upd]; try done. by rewrite Hc.
Qed.

Lemma stacked_reg top m c l k s (r : context -> Z) :
  stacked top m c l k s -> (forall v c', r (c' <| c_esp := v |>) = r c') ->
  runs (reg r) s (fun s' a => s' = s /\ a = r c).
Proof. intros [Hc _ _ _ _] Hr. eexists _, _. split; [reflexivity|]. by rewrite Hc. Qed.
End stack.

(** ** The calling convention *)

Section convention.
Context {S : Type}.
(** The stack a C function may use. *)
Variable depth : Z.
Implicit Types (s : cpu S) (c : context) (l : list Z) (k : S).

(** What compiled code expects when it is entered: a stack, the kernel's data
    segments, and the direction flag clear. *)
Record callable c : Prop := {
  cl_stack : depth ≤ c_esp c;
  cl_ds : c_ds c = 0x10;
  cl_es : c_es c = 0x10;
  cl_ss : c_ss c = 0x10;
  cl_df : Z.testbit (c_eflags c) DF = false
}.

(** What it leaves: the result in [eax], and everything else but [ecx], [edx]
    and the flags. *)
Record kept c c' (v : Z) : Prop := {
  kp_eax : c_eax c' = u32 v;
  kp_ebx : c_ebx c' = c_ebx c;
  kp_ebp : c_ebp c' = c_ebp c;
  kp_esi : c_esi c' = c_esi c;
  kp_edi : c_edi c' = c_edi c;
  kp_cs : c_cs c' = c_cs c;
  kp_ss : c_ss c' = c_ss c;
  kp_ds : c_ds c' = c_ds c;
  kp_es : c_es c' = c_es c;
  kp_fs : c_fs c' = c_fs c;
  kp_gs : c_gs c' = c_gs c;
  kp_flags : forall i, i ∈ [NT; DF] -> Z.testbit (c_eflags c') i = Z.testbit (c_eflags c) i
}.

(** [f] is code for [m], whose argument it finds where [args] says.  It returns
    by popping its return address, and does not write above it: kernel functions
    do not assign their parameters. *)
Definition compiled {A} (args : cpu S -> A) (f : M (cpu S) unit) (m : A -> M S Z) : Prop := forall s k v,
  callable (ctx s) -> c_esp (ctx s) < 2 ^ 32 - 4 -> m (args s) (kern s) = Ok (k, v) ->
  runs f s (fun s' _ => kept (ctx s) (ctx s') v /\ kern s' = k /\ c_esp (ctx s') = c_esp (ctx s) + 4 /\
    forall x, c_esp (ctx s) < x -> read_word (stk s') x = read_word (stk s) x).

Lemma stacked_call {A} (args : cpu S -> A) f (m : A -> M S Z) a here top mem c l k k' v s :
  compiled args f m -> stacked top mem c l k s ->
  callable (c <| c_esp := top - 4 * Z.of_nat (length l) - 4 |>) -> 0 ≤ depth ->
  (forall s', stacked top mem c (here :: l) k s' -> args s' = a) ->
  m a k = Ok (k', v) ->
  runs (call here f) s (fun s' _ => exists c', stacked top mem c' l k' s' /\ kept c c' v).
Proof.
  intros Hf Hs Hc Hd Ha Hm. pose proof (cl_stack _ Hc) as Hst. cbn [c_esp upd] in Hst.
  apply runs_bind. eapply runs_impl; [apply (stacked_push _ _ _ _ _ _ here Hs); lia|].
  intros s1 [] H1. pose proof (Ha s1 H1) as Hargs. destruct H1 as [Hc1 Hk1 Hr1 Hw1 Ha1]. cbn [length] in *.
  replace (top - 4 * Z.of_nat (Datatypes.S (length l))) with (top - 4 * Z.of_nat (length l) - 4) in * by lia.
  assert (c_esp (ctx s1) = top - 4 * Z.of_nat (length l) - 4) as He by (by rewrite Hc1).
  eapply runs_impl.
  - apply (Hf s1 k' v); [by rewrite Hc1|rewrite He; lia|by rewrite Hargs, Hk1].
  - intros s2 [] (Hkp & Hk2 & He2 & Hm2). exists (ctx s2). rewrite He in *. split.
    + constructor; try done.
      * replace (top - 4 * Z.of_nat (length l)) with (c_esp (ctx s2)) by lia. by destruct (ctx s2).
      * lia.
      * intros i w Hi. rewrite Hm2 by lia. rewrite <-(Hw1 (Datatypes.S i) w Hi). f_equal. lia.
      * intros x Hx. rewrite Hm2 by lia. by apply Ha1.
    + rewrite Hc1 in Hkp. destruct Hkp. by constructor.
Qed.
End convention.

(** ** Instructions on a stack *)

Section instructions.
Context {S : Type}.
Variable high : Z -> Z.
Implicit Types (s : cpu S) (c : context) (l : list Z) (k : S).

Lemma stacked_push_seg top m c l k s v : stacked top m c l k s -> 4 * Z.of_nat (length l) + 4 ≤ top ->
  runs (push_seg high v) s (fun s' _ => stacked top m c (selector_word high (top - 4 * Z.of_nat (length l) - 4) v :: l) k s').
Proof.
  intros Hs Hroom. apply runs_bind. eexists _, _. split; [reflexivity|].
  replace (u32 (c_esp (ctx s) - 4)) with (top - 4 * Z.of_nat (length l) - 4); [by apply stacked_push|].
  destruct Hs as [Hc _ Hr _ _]. rewrite Hc. cbn [c_esp upd]. rewrite u32_small; lia.
Qed.

Lemma stacked_push_reg top m c l k s (r : context -> Z) : stacked top m c l k s ->
  (forall v c', r (c' <| c_esp := v |>) = r c') -> 4 * Z.of_nat (length l) + 4 ≤ top ->
  runs (push_reg r) s (fun s' _ => stacked top m c (r c :: l) k s').
Proof.
  intros Hs Hr Hroom. apply runs_bind. eapply runs_impl; [by apply (stacked_reg _ _ _ _ _ _ r Hs)|].
  intros s' a [-> ->]. by apply stacked_push.
Qed.

Lemma stacked_push_sreg top m c l k s (r : context -> Z) : stacked top m c l k s ->
  (forall v c', r (c' <| c_esp := v |>) = r c') -> 4 * Z.of_nat (length l) + 4 ≤ top ->
  runs (push_sreg high r) s (fun s' _ =>
    stacked top m c (selector_word high (top - 4 * Z.of_nat (length l) - 4) (r c) :: l) k s').
Proof.
  intros Hs Hr Hroom. apply runs_bind. eapply runs_impl; [by apply (stacked_reg _ _ _ _ _ _ r Hs)|].
  intros s' a [-> ->]. by apply stacked_push_seg.
Qed.

Lemma stacked_pop_to top m c v l k s (put : Z -> context -> context) : stacked top m c (v :: l) k s ->
  (forall e c', put v (c' <| c_esp := e |>) = put v c' <| c_esp := e |>) ->
  runs (pop_to put) s (fun s' _ => stacked top m (put v c) l k s').
Proof.
  intros Hs Hp. apply runs_bind. eapply runs_impl; [exact (stacked_pop _ _ _ _ _ _ _ Hs)|].
  intros s' a [-> Hs']. by apply stacked_set.
Qed.

Lemma stacked_addl top m c l1 l k s : stacked top m c (l1 ++ l) k s ->
  runs (addl_esp (4 * Z.of_nat (length l1))) s (fun s' _ => stacked top m c l k s').
Proof.
  intros [Hc Hk Hr Hw Ha]. rewrite length_app in *. eexists _, tt. split; [reflexivity|].
  constructor; cbn [ctx kern stk upd]; try done.
  - rewrite Hc. cbn. rewrite u32_small by lia. f_equal. lia.
  - lia.
  - intros i v Hi. rewrite <-(Hw (length l1 + i)%nat v); [f_equal; lia|]. rewrite lookup_app_r by lia.
    by replace (length l1 + i - length l1)%nat with i by lia.
Qed.

Lemma stacked_kernel top m c l k s (f : S -> S) : stacked top m c l k s ->
  runs (in_kernel (modify f)) s (fun s' _ => stacked top m c l (f k) s').
Proof. intros [Hc Hk Hr Hw Ha]. eexists _, tt. split; [reflexivity|]. constructor; try done. cbn. by rewrite Hk. Qed.

Lemma stacked_peek top m c l k s (i : nat) v : stacked top m c l k s -> l !! i = Some v ->
  runs (stack_word (4 * Z.of_nat i)) s (fun s' a => s' = s /\ a = v).
Proof.
  intros Hs Hi. eexists _, _. split; [reflexivity|]. split; [done|]. exact (stacked_word _ _ _ _ _ _ i v Hs Hi).
Qed.

Lemma stacked_segments top m c l k s (r : context -> Z) (put : Z -> context -> context) : stacked top m c l k s ->
  (forall v w c', put v (c' <| c_esp := w |>) = put v c' <| c_esp := w |>) ->
  (forall w c', r (c' <| c_esp := w |>) = r c') -> (forall v c', r (put v c') = v) ->
  (forall v c', r (c' <| c_ds := v |>) = r c') -> (forall v c', r (c' <| c_es := v |>) = r c') ->
  runs (kernel_segments r put) s (fun s' _ =>
    stacked top m (put 0x17 (put 0x10 c <| c_ds := 0x10 |> <| c_es := 0x10 |>) <| c_fs := 0x17 |>) l k s').
Proof.
  intros Hs Hput Hr Hrput Hrds Hres. unfold kernel_segments.
  apply runs_bind. eapply runs_impl; [apply (stacked_set _ _ _ _ _ _ (put 0x10) Hs); intros; apply Hput|].
  intros s1 [] H1. apply runs_bind.
  eapply runs_impl; [apply (stacked_set _ _ _ _ _ _ (fun c => c <| c_ds := u16 (r c) |>) H1); intros; by rewrite Hr|].
  intros s2 [] H2. cbv beta in H2. rewrite Hrput in H2. apply runs_bind.
  eapply runs_impl; [apply (stacked_set _ _ _ _ _ _ (fun c => c <| c_es := u16 (r c) |>) H2); intros; by rewrite Hr|].
  intros s3 [] H3. cbv beta in H3. rewrite Hrds, Hrput in H3. apply runs_bind.
  eapply runs_impl; [apply (stacked_set _ _ _ _ _ _ (put 0x17) H3); intros; apply Hput|].
  intros s4 [] H4. eapply runs_impl; [apply (stacked_set _ _ _ _ _ _ (fun c => c <| c_fs := u16 (r c) |>) H4); intros; by rewrite Hr|].
  intros s5 [] H5. cbv beta in H5. rewrite Hrput in H5. exact H5.
Qed.

Lemma selector_word_u16 a v : u16 (selector_word high a v) = u16 v.
Proof. unfold selector_word, u16. rewrite Z.mul_comm, Z.mod_add by lia. by rewrite Z.mod_mod by lia. Qed.
End instructions.

(** The next instruction, by the lemma of its kind. *)
Ltac run lem :=
  lazymatch goal with
  | |- runs _ _ _ => apply runs_bind; eapply runs_impl; [eapply lem|]
  | |- holds _ _ => eapply holds_bind; [eapply lem|]
  end.

(** ** The frame of a system call *)

Section frame.
Context {S : Type}.
Variable high : Z -> Z.
Variables (esp0 : Z) (dpl : Z -> Z).
Implicit Types (s : cpu S) (c u : context) (l : list Z) (k : S).

(** A context of user code: level 3, 16-bit selectors, no data segment of the
    kernel, neither nested-task nor virtual 8086 mode. *)
Record user_context u : Prop := {
  uc_cs : c_cs u = 0x0f;
  uc_ss : c_ss u = 0x17;
  uc_segments : forall v, v ∈ [c_ds u; c_es u; c_fs u; c_gs u] -> 0 ≤ v < 2 ^ 16 /\ (4 ≤ v -> 3 ≤ dpl v);
  uc_vm : Z.testbit (c_eflags u) VM = false
}.

(** What the processor pushes, lowest address first. *)
Definition int_frame u : list Z :=
  [c_eip u; selector_word high (esp0 - 16) (c_cs u); c_eflags u; c_esp u; selector_word high (esp0 - 4) (c_ss u)].

(** The registers the kernel starts with. *)
Definition entered_context (ss0 : Z) (g : gate) u : context :=
  u <| c_ss := ss0 |> <| c_eflags := entry_flags (gate_type g) (c_eflags u) |> <| c_cs := gate_selector g |>
    <| c_eip := gate_offset g |>.

Lemma stacked_int ss0 g s : 64 ≤ esp0 < 2 ^ 32 -> cpl (ctx s) = 3 ->
  runs (interrupt high ss0 esp0 g) s (fun s' _ =>
    stacked esp0 (stk s) (entered_context ss0 g (ctx s)) (int_frame (ctx s)) (kern s) s').
Proof.
  intros He Hl. unfold interrupt. apply runs_bind. eexists _, _. split; [reflexivity|].
  rewrite decide_True by lia. apply runs_bind. apply runs_bind. eexists _, tt. split; [reflexivity|].
  set (s0 := upd ctx _ s).
  assert (stacked esp0 (stk s) (ctx s <| c_ss := ss0 |>) [] (kern s) s0) as H0.
  { constructor; cbn [length ctx kern stk upd s0]; try done; try lia. by rewrite Z.sub_0_r. }
  run @stacked_push_seg; [exact H0|cbn [length]; lia|]. intros s1 [] H1. cbn [length] in H1. rewrite Z.sub_0_r in H1.
  eapply runs_impl; [eapply stacked_push; [exact H1|cbn [length]; lia]|]. intros s2 [] H2.
  run @stacked_push; [exact H2|cbn [length]; lia|]. intros s3 [] H3.
  run @stacked_push_seg; [exact H3|cbn [length]; lia|]. intros s4 [] H4.
  replace (esp0 - 4 * Z.of_nat (length _) - 4) with (esp0 - 16) in H4 by (cbn [length]; lia).
  run @stacked_push; [exact H4|cbn [length]; lia|]. intros s5 [] H5.
  eapply runs_impl; [apply (stacked_set _ _ _ _ _ _ _ H5); reflexivity|]. intros s6 [] H6. exact H6.
Qed.

(** ** The way out *)

(** What [restore_all] takes from the stack. *)
Definition full_frame (eax ebx ecx edx orig fs es ds : Z) (l : list Z) : list Z :=
  eax :: ebx :: ecx :: edx :: orig :: fs :: es :: ds :: l.

Lemma testbit_NT_iret c : Z.testbit (c_eflags c) NT = false -> forall s top m l k,
  stacked top m c l k s -> Z.testbit (c_eflags (ctx s)) NT = false /\ cpl (ctx s) = cpl c /\ c_ds (ctx s) = c_ds c /\
    c_es (ctx s) = c_es c /\ c_fs (ctx s) = c_fs c /\ c_gs (ctx s) = c_gs c.
Proof. intros Hnt s top m l k [Hc _ _ _ _]. by rewrite Hc. Qed.

Lemma leave_user u v : user_context u -> v ∈ [c_ds u; c_es u; c_fs u; c_gs u] -> leave_segment dpl 3 v = v.
Proof.
  intros Hu Hv. destruct (uc_segments _ Hu v Hv) as [_ Hd]. unfold leave_segment.
  rewrite decide_False; [reflexivity|]. intros [H4 Hl]. specialize (Hd H4). lia.
Qed.

Lemma leave_user_ctx u c : user_context u -> [c_ds c; c_es c; c_fs c; c_gs c] = [c_ds u; c_es u; c_fs u; c_gs u] ->
  leave_segment dpl 3 (c_ds c) = c_ds c /\ leave_segment dpl 3 (c_es c) = c_es c /\
  leave_segment dpl 3 (c_fs c) = c_fs c /\ leave_segment dpl 3 (c_gs c) = c_gs c.
Proof.
  intros Hu E. assert (forall v, v ∈ [c_ds c; c_es c; c_fs c; c_gs c] -> leave_segment dpl 3 v = v) as Hl.
  { intros v Hv. rewrite E in Hv. exact (leave_user u v Hu Hv). }
  repeat split; apply Hl; rewrite ?elem_of_cons; tauto.
Qed.

Lemma outer_user u c e : user_context u -> [c_ds c; c_es c; c_fs c; c_gs c] = [c_ds u; c_es u; c_fs u; c_gs u] ->
  outer_context dpl 3 (c_esp u) (selector_word high (esp0 - 4) (c_ss u))
    (c <| c_eip := c_eip u |> <| c_cs := 0x0f |> <| c_eflags := c_eflags u |> <| c_esp := e |>) =
  c <| c_eip := c_eip u |> <| c_cs := 0x0f |> <| c_eflags := c_eflags u |> <| c_esp := c_esp u |> <| c_ss := c_ss u |>.
Proof.
  intros Hu Hsel. destruct (leave_user_ctx u c Hu Hsel) as (D1 & D2 & D3 & D4). pose proof (uc_ss _ Hu) as Hss.
  unfold outer_context. rewrite selector_word_u16, Hss. destruct c. cbn in *. rewrite D1, D2, D3, D4. reflexivity.
Qed.

(** From kernel to user code. *)
Lemma stacked_iret_outer top m c k s new_eip csw fl e ssw :
  stacked top m c [new_eip; csw; fl; e; ssw] k s ->
  Z.testbit (c_eflags c) NT = false -> cpl c = 0 -> u16 csw = 0x0f -> Z.testbit fl VM = false ->
  runs (iret dpl) s (fun s' _ =>
    ctx s' = outer_context dpl 3 e ssw (c <| c_eip := new_eip |> <| c_cs := 0x0f |> <| c_eflags := fl |> <| c_esp := top |>) /\
    kern s' = k /\ forall x, top ≤ x -> read_word (stk s') x = read_word m x).
Proof.
  intros Hs Hnt Hl Hcs Hvm. destruct (testbit_NT_iret c Hnt _ _ _ _ _ Hs) as (Hnt' & Hl' & _).
  unfold iret. apply runs_bind. eexists _, _. split; [reflexivity|]. rewrite Hnt'.
  run @stacked_pop; [exact Hs|]. intros s1 a1 [-> H1].
  run @stacked_pop; [exact H1|]. intros s2 a2 [-> H2].
  run @stacked_pop; [exact H2|]. intros s3 a3 [-> H3]. rewrite Hvm.
  run @stacked_set; [exact H3|reflexivity|]. intros s4 [] H4.
  rewrite Hcs in *. change (0x0f mod 4) with 3. rewrite decide_True by lia.
  run @stacked_pop; [exact H4|]. intros s5 a5 [-> H5].
  run @stacked_pop; [exact H5|]. intros s6 a6 [-> H6]. eexists _, tt. split; [reflexivity|].
  destruct H6 as [Hc6 Hk6 _ _ Ha6]. split; [|split; [exact Hk6|exact Ha6]].
  rewrite <-(Z.sub_0_r top). exact (f_equal (outer_context dpl 3 e ssw) Hc6).
Qed.

Lemma stacked_iret_user top m c k s u : stacked top m c (int_frame u) k s ->
  Z.testbit (c_eflags c) NT = false -> cpl c = 0 -> user_context u ->
  [c_ds c; c_es c; c_fs c; c_gs c] = [c_ds u; c_es u; c_fs u; c_gs u] ->
  runs (iret dpl) s (fun s' _ =>
    ctx s' = c <| c_eip := c_eip u |> <| c_cs := c_cs u |> <| c_eflags := c_eflags u |> <| c_esp := c_esp u |> <| c_ss := c_ss u |> /\
    kern s' = k /\ forall x, top ≤ x -> read_word (stk s') x = read_word m x).
Proof.
  intros Hs Hnt Hl Hu Hsel. pose proof (uc_cs _ Hu) as Hcs.
  eapply runs_impl; [eapply stacked_iret_outer; [exact Hs|exact Hnt|exact Hl| |exact (uc_vm _ Hu)]|].
  - by rewrite selector_word_u16, Hcs.
  - intros s' [] (E & Hk & Ha). split; [|by split]. rewrite E, Hcs. exact (outer_user u c _ Hu Hsel).
Qed.
End frame.

(** *** The end of [ret_from_sys_call] *)

Section restore.
Context {S : Type}.
Variable high : Z -> Z.
Variables (esp0 : Z) (dpl : Z -> Z).
Implicit Types (s : cpu S) (c u : context) (l : list Z) (k : S).

Definition restored (eax ebx ecx edx fs es ds : Z) c : context :=
  c <| c_eax := eax |> <| c_ebx := ebx |> <| c_ecx := ecx |> <| c_edx := edx |>
    <| c_fs := u16 fs |> <| c_es := u16 es |> <| c_ds := u16 ds |>.

Lemma stacked_restore top m c l k s eax ebx ecx edx orig fs es ds Q :
  stacked top m c (eax :: ebx :: ecx :: edx :: orig :: fs :: es :: ds :: l) k s ->
  (forall s', stacked top m (restored eax ebx ecx edx fs es ds c) l k s' -> runs (iret dpl) s' Q) ->
  runs (restore_all dpl) s Q.
Proof.
  intros Hs HQ. unfold restore_all.
  run @stacked_pop_to; [exact Hs|reflexivity|]. intros s1 [] H1.
  run @stacked_pop_to; [exact H1|reflexivity|]. intros s2 [] H2.
  run @stacked_pop_to; [exact H2|reflexivity|]. intros s3 [] H3.
  run @stacked_pop_to; [exact H3|reflexivity|]. intros s4 [] H4.
  apply runs_bind. eapply runs_impl; [exact (stacked_addl _ _ _ [orig] _ _ _ H4)|]. intros s5 [] H5.
  run @stacked_pop_to; [exact H5|reflexivity|]. intros s6 [] H6.
  run @stacked_pop_to; [exact H6|reflexivity|]. intros s7 [] H7.
  run @stacked_pop_to; [exact H7|reflexivity|]. intros s8 [] H8.
  apply HQ. exact H8.
Qed.

(** The words a handler saved on entry. *)
Definition saved_segments u a : list Z :=
  [selector_word high (a - 12) (c_fs u); selector_word high (a - 8) (c_es u); selector_word high (a - 4) (c_ds u)].

(** The kernel may leave any value in the registers the frame holds. *)
Definition same_rest c u : Prop :=
  c_ebp c = c_ebp u /\ c_esi c = c_esi u /\ c_edi c = c_edi u /\ c_gs c = c_gs u.

Lemma rest_trans c1 c2 c3 : same_rest c1 c2 -> same_rest c2 c3 -> same_rest c1 c3.
Proof.
  intros (E1 & E2 & E3 & E4) (F1 & F2 & F3 & F4).
  exact (conj (eq_trans E1 F1) (conj (eq_trans E2 F2) (conj (eq_trans E3 F3) (eq_trans E4 F4)))).
Qed.

Lemma restored_user c u e v : user_context dpl u -> same_rest c u ->
  restored v (c_ebx u) (c_ecx u) (c_edx u) (selector_word high (e - 12) (c_fs u)) (selector_word high (e - 8) (c_es u))
      (selector_word high (e - 4) (c_ds u)) c
    <| c_eip := c_eip u |> <| c_cs := c_cs u |> <| c_eflags := c_eflags u |> <| c_esp := c_esp u |> <| c_ss := c_ss u |> =
  u <| c_eax := v |>.
Proof.
  intros Hu (E1 & E2 & E3 & E4). pose proof (uc_segments _ _ Hu) as Hseg.
  assert (forall w, w ∈ [c_ds u; c_es u; c_fs u; c_gs u] -> u16 w = w) as Hw.
  { intros w Hin. apply u16_small. apply (Hseg w Hin). }
  unfold restored. rewrite !selector_word_u16.
  rewrite (Hw (c_fs u)), (Hw (c_es u)), (Hw (c_ds u)) by (rewrite !elem_of_cons; tauto).
  destruct c, u. cbn in *. subst. reflexivity.
Qed.

(** Back to user code with result [v]. *)
Lemma stacked_return m c k s u v orig : stacked esp0 m c
    (v :: c_ebx u :: c_ecx u :: c_edx u :: orig :: saved_segments u (esp0 - 20) ++ int_frame high esp0 u) k s ->
  Z.testbit (c_eflags c) NT = false -> cpl c = 0 -> user_context dpl u -> same_rest c u ->
  runs (restore_all dpl) s (fun s' _ =>
    ctx s' = u <| c_eax := v |> /\ kern s' = k /\ forall x, esp0 ≤ x -> read_word (stk s') x = read_word m x).
Proof.
  intros Hs Hnt Hl Hu Hr. eapply stacked_restore; [exact Hs|]. intros s' H'.
  eapply runs_impl; [eapply stacked_iret_user; [exact H'|..]|].
  - exact Hnt.
  - exact Hl.
  - exact Hu.
  - pose proof (restored_user c u (esp0 - 20) v Hu Hr) as E. apply (f_equal (fun c => [c_ds c; c_es c; c_fs c; c_gs c])) in E.
    exact E.
  - intros s2 [] (E & Hk & Ha). split; [|by split]. rewrite E. by apply restored_user.
Qed.
End restore.

(** *** The signal part *)

Section signals.
Context {S : Type} {HS : SchedOps S} {HT : TaskFields S}.
Variable dpl : Z -> Z.
Implicit Types (s : cpu S) (c u : context) (l : list Z) (k : S).

(** The registers neither saved nor used by the exit code. *)
Definition same_saved c u : Prop := same_rest c u /\ c_eflags c = c_eflags u /\ c_cs c = c_cs u /\ c_ss c = c_ss u.

Lemma stacked_signal top m c l k s : stacked top m c l k s -> 4 * Z.of_nat (length l) + 4 ≤ top ->
  let pending := Z.land (u32 (Z.lnot (blocked_of k (cur k)))) (u32 (signal_of k (cur k))) in
  runs take_signal s (fun s' _ => exists c', same_saved c' c /\
    stacked top m c' l
      (if decide (pending = 0) then k else set_signal (cur k) (Z.clearbit (u32 (signal_of k (cur k))) (bsf pending)) k) s').
Proof.
  intros Hs Hroom pending. unfold take_signal. apply runs_bind. eexists _, _. split; [reflexivity|].
  rewrite (sk_kern _ _ _ _ _ _ Hs). fold pending. cbv zeta.
  run @stacked_set; [exact Hs|reflexivity|]. intros s1 [] H1.
  destruct (decide (pending = 0)) as [E|E].
  - apply runs_ret. eexists. split; [|exact H1]. repeat split.
  - run @stacked_kernel; [exact H1|]. intros s2 [] H2.
    run @stacked_set; [exact H2|reflexivity|]. intros s3 [] H3.
    run @stacked_push_reg; [exact H3|reflexivity|exact Hroom|]. intros s4 [] H4.
    eapply runs_impl; [eapply stacked_pop_to; [exact H4|reflexivity]|]. intros s5 [] H5.
    eexists. split; [|exact H5]. repeat split.
Qed.

Lemma stacked_ret top m c l k k' s csw Q :
  stacked top m c l k s -> 4 * Z.of_nat (length l) + 4 ≤ top -> l !! 9%nat = Some csw ->
  (forall ssw, (forall w, l !! 12%nat = Some w -> w = ssw) -> Syscalls.ret_from_sys_call csw ssw k = Ok (k', tt)) ->
  (forall s' c', stacked top m c' l k' s' -> same_saved c' c -> runs (restore_all dpl) s' Q) ->
  runs (ret_from_sys_call dpl) s Q.
Proof.
  intros Hs Hroom Hcs Habs HQ. unfold ret_from_sys_call. apply runs_bind. eexists _, _. split; [reflexivity|].
  rewrite (sk_kern _ _ _ _ _ _ Hs).
  run @stacked_set; [exact Hs|reflexivity|]. intros s1 [] H1.
  set (ssw := read_word (stk s1) (c_esp (ctx s1) + OLDSS)).
  assert (Syscalls.ret_from_sys_call csw ssw k = Ok (k', tt)) as E.
  { apply Habs. intros w Hw. symmetry. exact (stacked_word _ _ _ _ _ _ 12 w H1 Hw). }
  unfold Syscalls.ret_from_sys_call in E. cbv zeta in E. apply bind_inv in E as (k1 & a & Eg & E). injection Eg as <- <-.
  apply bind_inv in E as (k2 & t0 & Et & E). destruct (slots k !! 0%nat) as [t|]; [|discriminate Et]. injection Et as <- <-.
  apply runs_bind. eexists _, _. split; [reflexivity|].
  change CS with (4 * Z.of_nat 9). run @stacked_peek; [exact H1|exact Hcs|]. intros s2 a [-> ->].
  apply runs_bind. eexists _, _. split; [reflexivity|]. fold ssw. apply runs_bind.
  assert (forall c', same_saved c' (c <| c_eax := cur k |>) -> same_saved c' c) as Hsame.
  { intros c' Hc'. exact Hc'. }
  destruct (decide (cur k = t)); [injection E as <-; apply runs_ret; by eapply HQ|].
  destruct (decide (u16 csw <> 0x0f)); [injection E as <-; apply runs_ret; by eapply HQ|].
  destruct (decide (u16 ssw <> 0x17)); [injection E as <-; apply runs_ret; by eapply HQ|].
  eapply runs_impl; [exact (stacked_signal _ _ _ _ _ _ H1 Hroom)|]. intros s3 [] (c' & Hc' & H3).
  eapply HQ; [|exact (Hsame c' Hc')].
  destruct (decide (Z.land _ _ = 0)); injection E as <-; exact H3.
Qed.
End signals.

(** ** System calls *)

Section calls.
Context {S : Type} {HS : SchedOps S} {HT : TaskFields S}.
Variable high : Z -> Z.
Variables (ss0 esp0 : Z) (dpl : Z -> Z) (depth : Z).
Implicit Types (s : cpu S) (c u : context) (l : list Z) (k : S).

(** The parameters of [copy_process] as the stack and the registers hold them
    when a system call's function is entered. *)
Definition call_args s : regs :=
  let c := ctx s in let w n := read_word (stk s) (c_esp c + n) in
  {| r_ebp := c_ebp c; r_edi := c_edi c; r_esi := c_esi c; r_gs := selector_word high (c_esp c - 4) (c_gs c);
     r_ebx := w 4; r_ecx := w 8; r_edx := w 12; r_orig_eax := w 16; r_fs := w 20; r_es := w 24; r_ds := w 28;
     r_eip := w 32; r_cs := w 36; r_eflags := w 40; r_esp := w 44; r_ss := w 48 |}.

(** The same, from the registers of the user code that made the call. *)
Definition user_regs u : regs :=
  {| r_ebp := c_ebp u; r_edi := c_edi u; r_esi := c_esi u; r_gs := selector_word high (esp0 - 56) (c_gs u);
     r_ebx := c_ebx u; r_ecx := c_ecx u; r_edx := c_edx u; r_orig_eax := c_eax u;
     r_fs := selector_word high (esp0 - 32) (c_fs u); r_es := selector_word high (esp0 - 28) (c_es u);
     r_ds := selector_word high (esp0 - 24) (c_ds u); r_eip := c_eip u;
     r_cs := selector_word high (esp0 - 16) (c_cs u); r_eflags := c_eflags u; r_esp := c_esp u;
     r_ss := selector_word high (esp0 - 4) (c_ss u) |}.

(** A system call as the model of its parts sees it: the function, [schedule]
    ([resched] is what happens until it returns) and the signals. *)
Definition served (f : regs -> M S Z) (resched : M S Z) (r : regs) : M S Z :=
  v ← f r;
  k ← get;
  when (bool_decide (state_of k (cur k) <> 0 \/ counter_of k (cur k) = 0)) (_ ← resched; mret tt);;
  Syscalls.ret_from_sys_call (r_cs r) (r_ss r);;
  mret v.

(** The gate of a system call. *)
Definition call_gate (g : gate) : Prop := gate_selector g = 8 /\ gate_dpl g = 3 /\ gate_type g = 15.

Lemma entry_flags_bit type fl i : Z.testbit (entry_flags type fl) i =
  Z.testbit fl i && negb (Z.testbit (if decide (type = 14) then 0x34300 else 0x34100) i).
Proof. unfold entry_flags. by rewrite Z.ldiff_spec. Qed.

Lemma entered_NT g u : Z.testbit (c_eflags (entered_context ss0 g u)) NT = false.
Proof. cbn [entered_context c_eflags upd]. rewrite entry_flags_bit. case_decide; apply andb_false_r. Qed.

Lemma entered_DF g u : Z.testbit (c_eflags (entered_context ss0 g u)) DF = Z.testbit (c_eflags u) DF.
Proof. cbn [entered_context c_eflags upd]. rewrite entry_flags_bit. case_decide; apply andb_true_r. Qed.

Lemma user_cpl u : user_context dpl u -> cpl u = 3.
Proof. intros Hu. unfold cpl. by rewrite (uc_cs _ _ Hu). Qed.

(** What is on the stack when the function is called. *)
Definition call_frame u : list Z :=
  c_ebx u :: c_ecx u :: c_edx u :: c_eax u :: saved_segments high u (esp0 - 20) ++ int_frame high esp0 u.

Definition call_context (g : gate) u : context :=
  (entered_context ss0 g u <| c_edx := 0x10 |> <| c_ds := 0x10 |> <| c_es := 0x10 |> <| c_edx := 0x17 |> <| c_fs := 0x17 |>).

Lemma call_frame_args s g u k m here : stacked esp0 m (call_context g u) (here :: call_frame u) k s ->
  call_args s = user_regs u.
Proof.
  intros Hs. unfold call_args. cbv zeta.
  assert (forall i v, (here :: call_frame u) !! i = Some v -> read_word (stk s) (c_esp (ctx s) + 4 * Z.of_nat i) = v) as Hw.
  { intros i v. exact (stacked_word _ _ _ _ _ _ i v Hs). }
  pose proof (sk_ctx _ _ _ _ _ _ Hs) as Hc. unfold user_regs.
  f_equal; try (rewrite Hc; reflexivity).
  - rewrite Hc. f_equal. cbn [c_esp upd length call_frame app saved_segments int_frame]. lia.
  - exact (Hw 1%nat _ eq_refl).
  - exact (Hw 2%nat _ eq_refl).
  - exact (Hw 3%nat _ eq_refl).
  - exact (Hw 4%nat _ eq_refl).
  - etrans; [exact (Hw 5%nat _ eq_refl)|f_equal; lia].
  - etrans; [exact (Hw 6%nat _ eq_refl)|f_equal; lia].
  - etrans; [exact (Hw 7%nat _ eq_refl)|f_equal; lia].
  - exact (Hw 8%nat _ eq_refl).
  - exact (Hw 9%nat _ eq_refl).
  - exact (Hw 10%nat _ eq_refl).
  - exact (Hw 11%nat _ eq_refl).
  - exact (Hw 12%nat _ eq_refl).
Qed.

(** What follows the call. *)
Definition after_call (sched : M (cpu S) unit) (back : Z) : M (cpu S) unit :=
  push_reg c_eax;;
  k ← gets kern;
  set_ctx (fun c => c <| c_eax := cur k |>);;
  when (bool_decide (state_of k (cur k) <> 0 \/ counter_of k (cur k) = 0)) (call back sched);;
  ret_from_sys_call dpl.

(** The way in, up to the call. *)
Lemma stacked_entry g s u nr table f sched back : 64 ≤ esp0 < 2 ^ 32 -> user_context dpl u -> ctx s = u ->
  call_gate g -> c_eax u = nr -> arr_get table (u32 nr mod 2 ^ 30) = Some f ->
  exists s', stacked esp0 (stk s) (call_context g u) (call_frame u) (kern s) s' /\
    (int high ss0 esp0 g;; system_call high dpl table sched back) s = (call back f;; after_call sched back) s'.
Proof.
  intros He Hu Hc (Hg1 & Hg2 & Hg3) Hnr Hf. pose proof (user_cpl u Hu) as Hl.
  set (P := fun o => exists s', stacked esp0 (stk s) (call_context g u) (call_frame u) (kern s) s' /\
    o = (call back f;; after_call sched back) s').
  change (holds P ((int high ss0 esp0 g;; system_call high dpl table sched back) s)).
  eapply (holds_bind _ _ _ (fun s' _ => stacked esp0 (stk s) (entered_context ss0 g u) (int_frame high esp0 u) (kern s) s')).
  { unfold int. apply runs_bind. eexists _, _. split; [reflexivity|]. rewrite Hc, Hl, Hg2.
    rewrite decide_True by lia. rewrite <-Hc. apply stacked_int; [lia|by rewrite Hc]. }
  intros s0 [] H0.
  run @stacked_push_sreg; [exact H0|reflexivity|cbn [length int_frame]; lia|]. intros s1 [] H1.
  run @stacked_push_sreg; [exact H1|reflexivity|cbn [length int_frame]; lia|]. intros s2 [] H2.
  run @stacked_push_sreg; [exact H2|reflexivity|cbn [length int_frame]; lia|]. intros s3 [] H3.
  run @stacked_push_reg; [exact H3|reflexivity|cbn [length int_frame]; lia|]. intros s4 [] H4.
  run @stacked_push_reg; [exact H4|reflexivity|cbn [length int_frame]; lia|]. intros s5 [] H5.
  run @stacked_push_reg; [exact H5|reflexivity|cbn [length int_frame]; lia|]. intros s6 [] H6.
  run @stacked_push_reg; [exact H6|reflexivity|cbn [length int_frame]; lia|]. intros s7 [] H7.
  run @stacked_segments; [exact H7|reflexivity..|]. intros s8 [] H8.
  assert (stacked esp0 (stk s) (call_context g u) (call_frame u) (kern s) s8) as H9.
  { replace (call_frame u) with
      (c_ebx (entered_context ss0 g u) :: c_ecx (entered_context ss0 g u) :: c_edx (entered_context ss0 g u) ::
       c_eax (entered_context ss0 g u) ::
       selector_word high (esp0 - 4 * Z.of_nat 7 - 4) (c_fs (entered_context ss0 g u)) ::
       selector_word high (esp0 - 4 * Z.of_nat 6 - 4) (c_es (entered_context ss0 g u)) ::
       selector_word high (esp0 - 4 * Z.of_nat 5 - 4) (c_ds (entered_context ss0 g u)) :: int_frame high esp0 u); [exact H8|].
    unfold call_frame, saved_segments. replace (esp0 - 20 - 12) with (esp0 - 4 * Z.of_nat 7 - 4) by lia.
    replace (esp0 - 20 - 8) with (esp0 - 4 * Z.of_nat 6 - 4) by lia.
    replace (esp0 - 20 - 4) with (esp0 - 4 * Z.of_nat 5 - 4) by lia. reflexivity. }
  run @stacked_reg; [exact H9|reflexivity|]. intros s9 a [-> ->].
  change (c_eax (call_context g u)) with (c_eax u). rewrite Hnr, Hf. exists s8. split; [exact H9|reflexivity].
Qed.

(** The machine a system call starts from: a kernel stack, and user code that
    keeps to the calling convention's direction flag. *)
Record call_ready (g : gate) s u : Prop := {
  cr_stack : 0 ≤ depth /\ depth + 256 ≤ esp0 < 2 ^ 32;
  cr_ss0 : ss0 = 0x10;
  cr_user : user_context dpl u;
  cr_ctx : ctx s = u;
  cr_gate : call_gate g;
  cr_df : Z.testbit (c_eflags u) DF = false
}.

Lemma callable_kept c v e c0 e0 x : callable depth (c0 <| c_esp := e0 |>) -> kept c0 c v -> depth ≤ e ->
  callable depth (c <| c_eax := x |> <| c_esp := e |>).
Proof.
  intros [H1 H2 H3 H4 H5] [_ _ _ _ _ _ K1 K2 K3 _ _ K4] He. cbn [c_esp c_ds c_es c_ss c_eflags upd] in *.
  constructor; cbn [c_esp c_ds c_es c_ss c_eflags upd]; [done|congruence..|].
  rewrite K4; [done|]. right. left.
Qed.

Lemma callable_entered g s u e : call_ready g s u -> depth ≤ e -> callable depth (call_context g u <| c_esp := e |>).
Proof.
  intros [_ Hss _ _ _ Hdf] He. constructor; [exact He|reflexivity|reflexivity|exact Hss|].
  etrans; [exact (entered_DF g u)|exact Hdf].
Qed.

Lemma kept_rest c u g v : kept (call_context g u) c v -> call_gate g ->
  same_rest c u /\ Z.testbit (c_eflags c) NT = false /\ cpl c = 0 /\ c_eax c = u32 v.
Proof.
  intros [K1 _ K2 K3 K4 K5 _ _ _ _ K6 K7] (Hg & _).
  split; [by split|]. split; [|split; [|exact K1]].
  - rewrite K7 by left. exact (entered_NT g u).
  - unfold cpl. rewrite K5. cbn [call_context entered_context c_cs upd]. by rewrite Hg.
Qed.

Lemma kept_same c1 c2 v : kept c1 c2 v -> same_rest c2 c1 /\ c_cs c2 = c_cs c1 /\
  Z.testbit (c_eflags c2) NT = Z.testbit (c_eflags c1) NT.
Proof. intros [_ _ K2 K3 K4 K5 _ _ _ _ K6 K7]. split; [by split|]. split; [done|]. apply K7. left. Qed.

(** Exit: what follows the call. *)
Lemma stacked_exit g s u c k1 k2 v sched resched back s1 :
  call_ready g s u -> compiled depth (fun _ => tt) sched (fun _ => resched) ->
  stacked esp0 (stk s) c (call_frame u) k1 s1 -> kept (call_context g u) c v ->
  (k ← get; when (bool_decide (state_of k (cur k) <> 0 \/ counter_of k (cur k) = 0)) (_ ← resched; mret tt);;
   Syscalls.ret_from_sys_call (r_cs (user_regs u)) (r_ss (user_regs u))) k1 = Ok (k2, tt) ->
  runs (after_call sched back) s1 (fun s' _ =>
    ctx s' = u <| c_eax := u32 v |> /\ kern s' = k2 /\ forall x, esp0 ≤ x -> read_word (stk s') x = read_word (stk s) x).
Proof.
  intros Hready Hsched Hs Hk E. pose proof (cr_stack _ _ _ Hready) as [Hd He].
  destruct (kept_rest _ _ _ _ Hk (cr_gate _ _ _ Hready)) as (Hrest & Hnt & Hl & Hv).
  run @stacked_push_reg; [exact Hs|reflexivity|cbn [length call_frame app saved_segments int_frame]; lia|]. intros s2 [] H2.
  rewrite Hv in H2. apply runs_bind. eexists _, _. split; [reflexivity|]. rewrite (sk_kern _ _ _ _ _ _ H2).
  run @stacked_set; [exact H2|reflexivity|]. intros s3 [] H3.
  apply bind_inv in E as (k0 & a0 & Eg & E). injection Eg as <- <-. apply bind_inv in E as (k3 & [] & Ew & E).
  assert (runs (when (bool_decide (state_of k1 (cur k1) <> 0 \/ counter_of k1 (cur k1) = 0)) (call back sched)) s3
    (fun s' _ => exists c', stacked esp0 (stk s) c' (u32 v :: call_frame u) k3 s' /\
      same_rest c' c /\ c_cs c' = c_cs c /\ Z.testbit (c_eflags c') NT = Z.testbit (c_eflags c) NT)) as Hwhen.
  { destruct (bool_decide _).
    - cbn [when] in Ew |- *. apply bind_inv in Ew as (k4 & w & Es & Er). injection Er as ->.
      eapply runs_impl.
      + apply (stacked_call depth _ _ _ tt back _ _ _ _ _ k3 w s3 Hsched H3); [|exact Hd|done|exact Es].
        eapply callable_kept; [exact (callable_entered g s u _ Hready (Z.le_refl depth))|exact Hk|].
        cbn [length call_frame app saved_segments int_frame]. lia.
      + intros s' [] (c' & Hs' & Hk'). exists c'. split; [exact Hs'|]. destruct (kept_same _ _ _ Hk') as (Hr' & Hc' & Hn').
        split; [exact Hr'|]. split; [exact Hc'|exact Hn'].
    - cbn [when] in Ew |- *. injection Ew as ->. apply runs_ret. eexists. split; [exact H3|]. repeat split. }
  apply runs_bind. eapply runs_impl; [exact Hwhen|]. intros s4 [] (c4 & H4 & Hr4 & Hc4 & Hn4).
  eapply (stacked_ret dpl _ _ _ _ _ k2); [exact H4|cbn [length call_frame app saved_segments int_frame]; lia|reflexivity| |].
  - intros ssw Hw. rewrite <-(Hw _ eq_refl). exact E.
  - intros s5 c5 H5 (Hr5 & Hf5 & Hc5 & _). eapply stacked_return; [exact H5| | |exact (cr_user _ _ _ Hready)|].
    + rewrite Hf5, Hn4. exact Hnt.
    + unfold cpl in *. by rewrite Hc5, Hc4.
    + eapply rest_trans; [exact Hr5|]. by eapply rest_trans.
Qed.

Lemma system_call_run g s u table f m sched resched back k v :
  call_ready g s u -> arr_get table (u32 (c_eax u) mod 2 ^ 30) = Some f ->
  compiled depth call_args f m -> compiled depth (fun _ => tt) sched (fun _ => resched) ->
  served m resched (user_regs u) (kern s) = Ok (k, v) ->
  runs (int high ss0 esp0 g;; system_call high dpl table sched back) s (fun s' _ =>
    ctx s' = u <| c_eax := u32 v |> /\ kern s' = k /\ forall x, esp0 ≤ x -> read_word (stk s') x = read_word (stk s) x).
Proof.
  intros Hready Hf Hm Hsched E. pose proof (cr_stack _ _ _ Hready) as [Hd He].
  destruct (stacked_entry g s u _ table f sched back ltac:(lia) (cr_user _ _ _ Hready) (cr_ctx _ _ _ Hready)
    (cr_gate _ _ _ Hready) eq_refl Hf) as (s1 & H1 & Eq).
  unfold runs. rewrite Eq. change (runs (call back f;; after_call sched back) s1 (fun s' _ =>
    ctx s' = u <| c_eax := u32 v |> /\ kern s' = k /\ forall x, esp0 ≤ x -> read_word (stk s') x = read_word (stk s) x)).
  unfold served in E. apply bind_inv in E as (k1 & v1 & E1 & E).
  apply runs_bind. eapply runs_impl.
  - apply (stacked_call depth call_args f m (user_regs u) back _ _ _ _ _ k1 v1 s1 Hm H1); [|exact Hd| |exact E1].
    + apply (callable_entered g s u _ Hready). cbn [length call_frame app saved_segments int_frame]. lia.
    + intros s2 H2. exact (call_frame_args s2 g u _ _ _ H2).
  - intros s2 [] (c & H2 & Hk).
    assert (v1 = v /\ (k ← get; when (bool_decide (state_of k (cur k) <> 0 \/ counter_of k (cur k) = 0)) (_ ← resched; mret tt);;
      Syscalls.ret_from_sys_call (r_cs (user_regs u)) (r_ss (user_regs u))) k1 = Ok (k, tt)) as [-> E2].
    { apply bind_inv in E as (k2 & a2 & Eg & E). injection Eg as <- <-. apply bind_inv in E as (k3 & [] & Ew & E).
      apply bind_inv in E as (k4 & [] & Er & E). injection E as <- <-. split; [done|].
      erewrite bind_ok by reflexivity. rewrite (bind_ok _ _ _ _ _ Ew). exact Er. }
    by eapply stacked_exit.
Qed.

(** C4.  A system call, from the [int] instruction to the next user instruction.
    Let [f] be code for the function the table holds at [eax], and [sched] code
    for [schedule].  Then the kernel's state changes as the model of the call,
    [served], says when it is given the caller's registers; and the user code
    goes on behind [int] with the result in [eax] and every other register,
    segment, the flags and its stack pointer as they were. *)
Theorem system_call_refines g s u table f m sched resched back k v :
  call_ready g s u -> arr_get table (u32 (c_eax u) mod 2 ^ 30) = Some f ->
  compiled depth call_args f m -> compiled depth (fun _ => tt) sched (fun _ => resched) ->
  served m resched (user_regs u) (kern s) = Ok (k, v) ->
  runs (int high ss0 esp0 g;; system_call high dpl table sched back) s (fun s' _ =>
    ctx s' = u <| c_eax := u32 v |> /\ kern s' = k /\ forall x, esp0 ≤ x -> read_word (stk s') x = read_word (stk s) x).
Proof. exact (system_call_run g s u table f m sched resched back k v). Qed.

(** C35.  The entry code never executes [cld]: the direction flag of the user code is
    still set when the function is called, although compiled code may rely on it
    being clear.  (The words the function finds on its stack are the right ones.) *)
Theorem direction_flag_passes g s u table f sched back :
  64 ≤ esp0 < 2 ^ 32 -> user_context dpl u -> ctx s = u -> call_gate g ->
  arr_get table (u32 (c_eax u) mod 2 ^ 30) = Some f ->
  exists s1, (int high ss0 esp0 g;; system_call high dpl table sched back) s = (f;; after_call sched back) s1 /\
    call_args s1 = user_regs u /\ Z.testbit (c_eflags (ctx s1)) DF = Z.testbit (c_eflags u) DF /\
    (Z.testbit (c_eflags u) DF = true -> ~ callable depth (ctx s1)).
Proof.
  intros He Hu Hc Hg Hf. destruct (stacked_entry g s u _ table f sched back He Hu Hc Hg eq_refl Hf) as (s0 & H0 & Eq).
  destruct (stacked_push _ _ _ _ _ _ back H0) as (s1 & [] & E1 & H1);
    [cbn [length call_frame app saved_segments int_frame]; lia|].
  assert (Z.testbit (c_eflags (ctx s1)) DF = Z.testbit (c_eflags u) DF) as Hdf.
  { rewrite (sk_ctx _ _ _ _ _ _ H1). exact (entered_DF g u). }
  exists s1. split; [|split; [exact (call_frame_args s1 g u _ _ _ H1)|split; [exact Hdf|]]].
  - rewrite Eq. unfold call. unfold mbind, M_bind. by rewrite E1.
  - intros Ht Hcl. pose proof (cl_df _ _ Hcl). congruence.
Qed.
End calls.

(** ** sys_fork *)

Section fork.
Context {S : Type}.
Variable high : Z -> Z.
Variable depth : Z.
Implicit Types (s : cpu S) (c u : context) (l : list Z) (k : S).

(** The parameters of [copy_process], from its stack. *)
Definition copy_args s : Z * regs :=
  let w n := read_word (stk s) (c_esp (ctx s) + n) in
  (s32 (w 4),
   {| r_ebp := w 8; r_edi := w 12; r_esi := w 16; r_gs := w 20;
      r_ebx := w 28; r_ecx := w 32; r_edx := w 36; r_orig_eax := w 40; r_fs := w 44; r_es := w 48; r_ds := w 52;
      r_eip := w 56; r_cs := w 60; r_eflags := w 64; r_esp := w 68; r_ss := w 72 |}).

(** [sys_fork] over models of the functions it calls. *)
Definition fork_model (find : M S Z) (copy : Z -> regs -> M S Z) (r : regs) : M S Z :=
  nr ← find; if decide (nr < 0) then mret nr else copy nr r.

Lemma stacked_here s : 0 ≤ c_esp (ctx s) < 2 ^ 32 -> stacked (c_esp (ctx s)) (stk s) (ctx s) [] (kern s) s.
Proof.
  intros He. constructor; cbn [length]; [|done|lia|done|done]. rewrite Z.sub_0_r. by destruct (ctx s).
Qed.

Lemma kept_trans c1 c2 c3 v w : kept c1 c2 v -> kept c2 c3 w -> kept c1 c3 w.
Proof.
  intros [] []. constructor; try congruence. intros i Hi. rewrite kp_flags1 by done. by apply kp_flags0.
Qed.

Lemma clear_if c i : i ∈ [NT; DF] -> Z.testbit (Z.clearbit (c_eflags c) 9) i = Z.testbit (c_eflags c) i.
Proof. rewrite !elem_of_cons, elem_of_nil. intros [-> | [-> | []]]; by rewrite Z.clearbit_neq. Qed.

(** The parameters [copy_process] gets are those [sys_fork] was called with. *)
Lemma fork_copy_args s c nr back k s' : 0 ≤ c_esp (ctx s) < 2 ^ 32 - 4 -> - 2 ^ 31 ≤ nr < 2 ^ 31 ->
  kept (ctx s) c nr ->
  stacked (c_esp (ctx s)) (stk s) c
    [back; c_eax c; c_ebp c; c_edi c; c_esi c; selector_word high (c_esp (ctx s) - 4) (c_gs c)] k s' ->
  copy_args s' = (nr, call_args high s).
Proof.
  intros He Hnr Hk Hs. set (l := [_; _; _; _; _; _]) in Hs.
  assert (c_esp (ctx s') = c_esp (ctx s) - 24) as He' by (rewrite (sk_ctx _ _ _ _ _ _ Hs); reflexivity).
  assert (forall i v, l !! i = Some v -> read_word (stk s') (c_esp (ctx s') + 4 * Z.of_nat i) = v) as Hw.
  { intros i v. exact (stacked_word _ _ _ _ _ _ i v Hs). }
  assert (forall n, 0 ≤ n -> read_word (stk s') (c_esp (ctx s') + (24 + n)) = read_word (stk s) (c_esp (ctx s) + n)) as Hup.
  { intros n Hn. rewrite He'. replace (c_esp (ctx s) - 24 + (24 + n)) with (c_esp (ctx s) + n) by lia.
    apply (sk_above _ _ _ _ _ _ Hs). lia. }
  unfold copy_args, call_args. cbv zeta. f_equal.
  - etrans; [exact (f_equal s32 (Hw 1%nat _ eq_refl))|]. rewrite (kp_eax _ _ _ Hk). unfold s32, u32.
    rewrite Z.add_mod_idemp_l, Z.mod_small by lia. lia.
  - f_equal.
    + etrans; [exact (Hw 2%nat _ eq_refl)|exact (kp_ebp _ _ _ Hk)].
    + etrans; [exact (Hw 3%nat _ eq_refl)|exact (kp_edi _ _ _ Hk)].
    + etrans; [exact (Hw 4%nat _ eq_refl)|exact (kp_esi _ _ _ Hk)].
    + etrans; [exact (Hw 5%nat _ eq_refl)|]. by rewrite (kp_gs _ _ _ Hk).
    + exact (Hup 4 ltac:(lia)).
    + exact (Hup 8 ltac:(lia)).
    + exact (Hup 12 ltac:(lia)).
    + exact (Hup 16 ltac:(lia)).
    + exact (Hup 20 ltac:(lia)).
    + exact (Hup 24 ltac:(lia)).
    + exact (Hup 28 ltac:(lia)).
    + exact (Hup 32 ltac:(lia)).
    + exact (Hup 36 ltac:(lia)).
    + exact (Hup 40 ltac:(lia)).
    + exact (Hup 44 ltac:(lia)).
    + exact (Hup 48 ltac:(lia)).
Qed.

(** The assembly of [sys_fork] keeps the calling convention and computes
    [fork_model], if the two C functions it calls do: in particular the 17
    parameters of [copy_process] are the caller's registers, some pushed by the
    [int] instruction, some by [system_call], some by [sys_fork]. *)
Lemma sys_fork_compiled find copy m_find m_copy back :
  0 ≤ depth -> compiled depth (fun _ => tt) find (fun _ => m_find) ->
  compiled depth copy_args copy (fun a => m_copy a.1 a.2) ->
  (forall k k' v, m_find k = Ok (k', v) -> - 2 ^ 31 ≤ v < 2 ^ 31) ->
  compiled (depth + 32) (call_args high) (sys_fork high find copy back) (fork_model m_find m_copy).
Proof.
  intros Hd Hfind Hcopy Hrange s k v Hcl He Hm. pose proof (cl_stack _ _ Hcl) as Hst.
  apply bind_inv in Hm as (k1 & nr & E1 & Hm). specialize (Hrange _ _ _ E1).
  pose proof (stacked_here s ltac:(lia)) as H0. unfold sys_fork.
  run @stacked_set; [exact H0|reflexivity|]. intros s1 [] H1.
  set (c1 := ctx s <| c_eflags := _ |>) in H1.
  assert (forall c e, kept c1 c nr -> depth ≤ e -> callable depth (c <| c_esp := e |>)) as Hcall.
  { intros c e [_ _ _ _ _ _ K1 K2 K3 _ _ K4] Hde. destruct Hcl as [_ C2 C3 C4 C5].
    constructor; cbn [c_esp c_ds c_es c_ss c_eflags upd]; [done|..].
    - exact (eq_trans K2 C2).
    - exact (eq_trans K3 C3).
    - exact (eq_trans K1 C4).
    - rewrite K4 by (right; left). etrans; [exact (clear_if (ctx s) DF ltac:(right; left))|exact C5]. }
  assert (callable depth (c1 <| c_esp := c_esp (ctx s) - 4 * Z.of_nat (length ([] : list Z)) - 4 |>)) as Hcl1.
  { destruct Hcl as [_ C2 C3 C4 C5]. cbn [length].
    constructor; cbn [c1 c_esp c_ds c_es c_ss c_eflags upd]; [lia|done..|]. by rewrite clear_if by (right; left). }
  apply runs_bind. eapply runs_impl; [exact (stacked_call depth _ _ _ tt back _ _ _ _ _ k1 nr s1 Hfind H1 Hcl1 Hd (fun _ _ => eq_refl) E1)|].
  intros s2 [] (c2 & H2 & Hk2).
  assert (kept (ctx s) c2 nr) as Hk.
  { destruct Hk2 as [? ? ? ? ? ? ? ? ? ? ? Hfl]. constructor; try assumption.
    intros i Hi. rewrite Hfl by done. by apply clear_if. }
  run @stacked_reg; [exact H2|reflexivity|]. intros s3 a [-> ->]. rewrite (kp_eax _ _ _ Hk).
  assert (s32 (u32 nr) = nr) as ->.
  { unfold s32, u32. rewrite Z.add_mod_idemp_l, Z.mod_small by lia. lia. }
  assert (forall s4 c4, stacked (c_esp (ctx s)) (stk s) c4 [] k s4 -> kept (ctx s) c4 v ->
    runs ret s4 (fun s' _ => kept (ctx s) (ctx s') v /\ kern s' = k /\ c_esp (ctx s') = c_esp (ctx s) + 4 /\
      forall x, c_esp (ctx s) < x -> read_word (stk s') x = read_word (stk s) x)) as Hret.
  { intros s4 c4 [Hc4 Hk4 _ _ Ha4] [? ? ? ? ? ? ? ? ? ? ? Hfl]. eexists _, tt. split; [reflexivity|].
    cbn [ctx kern stk upd length] in *. rewrite Hc4. split; [constructor; assumption|]. split; [exact Hk4|].
    split; [cbn [c_esp upd]; rewrite u32_small; lia|]. intros x Hx. apply Ha4. lia. }
  apply runs_bind. destruct (decide (nr < 0)).
  - injection Hm as -> ->. apply runs_ret. exact (Hret s2 c2 H2 Hk).
  - run @stacked_push_sreg; [exact H2|reflexivity|cbn [length]; lia|]. intros s4 [] H4.
    run @stacked_push_reg; [exact H4|reflexivity|cbn [length]; lia|]. intros s5 [] H5.
    run @stacked_push_reg; [exact H5|reflexivity|cbn [length]; lia|]. intros s6 [] H6.
    run @stacked_push_reg; [exact H6|reflexivity|cbn [length]; lia|]. intros s7 [] H7.
    run @stacked_push_reg; [exact H7|reflexivity|cbn [length]; lia|]. intros s8 [] H8.
    replace (c_esp (ctx s) - 4 * Z.of_nat (length []) - 4) with (c_esp (ctx s) - 4) in H8 by (cbn [length]; lia).
    apply runs_bind. eapply runs_impl.
    + apply (stacked_call depth copy_args copy _ (nr, call_args high s) back _ _ _ _ _ k v s8 Hcopy H8); [|exact Hd| |exact Hm].
      * apply Hcall; [exact Hk2|cbn [length]; lia].
      * intros s' Hs'. eapply fork_copy_args; [lia|exact Hrange|exact Hk|exact Hs'].
    + intros s9 [] (c9 & H9 & Hk9). eapply runs_impl.
      * change 20 with (4 * Z.of_nat (length [c_eax c2; c_ebp c2; c_edi c2; c_esi c2; selector_word high (c_esp (ctx s) - 4) (c_gs c2)])).
        eapply stacked_addl. rewrite app_nil_r. exact H9.
      * intros s10 [] H10. exact (Hret s10 c9 H10 (kept_trans _ _ _ _ _ Hk Hk9)).
Qed.
End fork.

(** ** To user mode *)

Section user.
Context {S : Type}.
Variables (high : Z -> Z) (dpl : Z -> Z).
Implicit Types (s : cpu S) (c : context).

(** The registers behind [move_to_user_mode]. *)
Definition user_start (here : Z) c : context :=
  c <| c_eip := here |> <| c_cs := 0x0f |> <| c_ss := 0x17 |> <| c_eax := 0x17 |>
    <| c_ds := 0x17 |> <| c_es := 0x17 |> <| c_fs := 0x17 |> <| c_gs := 0x17 |>.

Lemma move_to_user_mode_run s here :
  32 ≤ c_esp (ctx s) < 2 ^ 32 -> cpl (ctx s) = 0 ->
  Z.testbit (c_eflags (ctx s)) NT = false -> Z.testbit (c_eflags (ctx s)) VM = false -> dpl 0x17 = 3 ->
  runs (move_to_user_mode dpl here) s (fun s' _ =>
    ctx s' = user_start here (ctx s) /\ user_context dpl (ctx s') /\ kern s' = kern s /\
    forall x, c_esp (ctx s) ≤ x -> read_word (stk s') x = read_word (stk s) x).
Proof.
  intros He Hl Hnt Hvm Hdpl. unfold move_to_user_mode. apply runs_bind. eexists _, tt. split; [reflexivity|].
  set (s0 := upd ctx _ s). set (c0 := ctx s <| c_eax := c_esp (ctx s) |>).
  assert (stacked (c_esp (ctx s)) (stk s) c0 [] (kern s) s0) as H0 by exact (stacked_here s0 ltac:(cbn; lia)).
  run @stacked_push; [exact H0|cbn [length]; lia|]. intros s1 [] H1.
  run @stacked_push_reg; [exact H1|reflexivity|cbn [length]; lia|]. intros s2 [] H2.
  run @stacked_push_reg; [exact H2|reflexivity|cbn [length]; lia|]. intros s3 [] H3.
  run @stacked_push; [exact H3|cbn [length]; lia|]. intros s4 [] H4.
  run @stacked_push; [exact H4|cbn [length]; lia|]. intros s5 [] H5.
  apply runs_bind. eapply runs_impl; [eapply (stacked_iret_outer dpl); [exact H5|exact Hnt|exact Hl|reflexivity|exact Hvm]|].
  intros s6 [] (E & Hk & Ha).
  assert (runs (set_ctx (fun c => c <| c_eax := 0x17 |>);;
     set_ctx (fun c => c <| c_ds := u16 (c_eax c) |>);; set_ctx (fun c => c <| c_es := u16 (c_eax c) |>);;
     set_ctx (fun c => c <| c_fs := u16 (c_eax c) |>);; set_ctx (fun c => c <| c_gs := u16 (c_eax c) |>)) s6 (fun s' _ =>
     ctx s' = user_start here (ctx s) /\ kern s' = kern s6 /\ stk s' = stk s6)) as Hsegs.
  { eexists _, tt. split; [reflexivity|]. split; [|by split].
    unfold user_start. destruct s6 as [c6 m6 k6], s as [c m k]. cbn in E |- *. subst c6. by destruct c. }
  eapply runs_impl; [exact Hsegs|]. intros s7 [] (E7 & Hk7 & Hm7).
  split; [exact E7|]. split; [|split; [congruence|by rewrite Hm7]].
  rewrite E7. constructor; [reflexivity|reflexivity| |exact Hvm].
  intros v Hv. assert (v = 0x17) as -> by (revert v Hv; apply list.Forall_forall; repeat constructor). lia.
Qed.

(** [move_to_user_mode] gives up the kernel's privilege and nothing else: the
    code goes on at the next instruction with level 3 and the local descriptors,
    on the same stack at the same place, nothing at or above the stack pointer
    changed, interrupts and the other flags as they were.  It needs the
    nested-task flag clear, as [sched_init] leaves it, and the user segments
    installed. *)
Theorem move_to_user_mode_correct s here :
  32 ≤ c_esp (ctx s) < 2 ^ 32 -> cpl (ctx s) = 0 ->
  Z.testbit (c_eflags (ctx s)) NT = false -> Z.testbit (c_eflags (ctx s)) VM = false -> dpl 0x17 = 3 ->
  runs (move_to_user_mode dpl here) s (fun s' _ =>
    ctx s' = user_start here (ctx s) /\ user_context dpl (ctx s') /\ kern s' = kern s /\
    forall x, c_esp (ctx s) ≤ x -> read_word (stk s') x = read_word (stk s) x).
Proof. exact (move_to_user_mode_run s here). Qed.
End user.

(** ** Witnesses

    Machine code that computes a model and keeps the calling convention. *)
Definition code_for {S A} (args : cpu S -> A) (m : A -> M S Z) : M (cpu S) unit := fun s =>
  match m (args s) (kern s) with
  | Ok (k, v) => Ok (Cpu (ctx s <| c_eax := u32 v |> <| c_esp := u32 (c_esp (ctx s) + 4) |>) (stk s) k, tt)
  | Err f => Err f
  end.

Lemma code_for_compiled {S A} depth (args : cpu S -> A) (m : A -> M S Z) : 0 ≤ depth ->
  compiled depth args (code_for args m) m.
Proof.
  intros Hd s k v Hcl He Hm. pose proof (cl_stack _ _ Hcl) as Hst. unfold runs, code_for. rewrite Hm.
  eexists _, tt. split; [reflexivity|]. cbn [ctx kern stk]. split; [by constructor|]. split; [done|].
  split; [cbn [c_esp upd]; rewrite u32_small; lia|done].
Qed.

Definition demo_dpl (v : Z) : Z := if decide (v = 0x17) then 3 else 0.

Definition demo_user : context := {|
  c_eip := 0x5678; c_eflags := 0x202; c_eax := 20; c_ecx := 2; c_edx := 3; c_ebx := 4; c_esp := 0x7f00; c_ebp := 0x7f40;
  c_esi := 5; c_edi := 6; c_es := 0x17; c_cs := 0x0f; c_ss := 0x17; c_ds := 0x17; c_fs := 0x17; c_gs := 0x17
|}.

Definition demo_cpu (c : context) : cpu kernel := Cpu c ∅ demo_kernel.

Definition demo_table (r : Z) : list (M (cpu kernel) unit) := replicate 90 (code_for (call_args (fun _ => 5)) (fun _ => mret r)).

Lemma demo_user_context x : user_context demo_dpl (demo_user <| c_eflags := x |>) <-> Z.testbit x VM = false.
Proof.
  split; [intros H; exact (uc_vm _ _ H)|]. intros Hx. constructor; [reflexivity|reflexivity| |exact Hx].
  intros v Hv. assert (v = 0x17) as -> by (revert v Hv; apply list.Forall_forall; repeat constructor). vm_compute.
  repeat split; congruence.
Qed.

Lemma demo_user_ok : user_context demo_dpl demo_user.
Proof. apply (demo_user_context 0x202). reflexivity. Qed.

Lemma system_call_refines_witness :
  runs (int (fun _ => 5) 0x10 0x19000 (Gate 0x7c00 8 15 3 true);;
    system_call (fun _ => 5) demo_dpl (demo_table 7) (code_for (fun _ => tt) (fun _ => mret 0)) 0) (demo_cpu demo_user)
  (fun s' _ => ctx s' = demo_user <| c_eax := 7 |> /\ kern s' = demo_kernel /\
    forall x, 0x19000 ≤ x -> read_word (stk s') x = read_word ∅ x).
Proof.
  apply (system_call_refines (fun _ => 5) 0x10 0x19000 demo_dpl 0 (Gate 0x7c00 8 15 3 true) (demo_cpu demo_user) demo_user
    (demo_table 7) (code_for (call_args (fun _ => 5)) (fun _ => mret 7)) (fun _ => mret 7)
    (code_for (fun _ => tt) (fun _ => mret 0)) (mret 0) 0 demo_kernel 7).
  - constructor; [lia|reflexivity|exact demo_user_ok|reflexivity|by repeat split|reflexivity].
  - reflexivity.
  - apply code_for_compiled. lia.
  - apply code_for_compiled. lia.
  - reflexivity.
Defined.

(** The direction flag of user code that ran [std]. *)
Lemma direction_flag_passes_witness :
  exists s1, (int (fun _ => 5) 0x10 0x19000 (Gate 0x7c00 8 15 3 true);;
      system_call (fun _ => 5) demo_dpl (demo_table 7) (mret tt) 0) (demo_cpu (demo_user <| c_eflags := 0x602 |>)) =
    (code_for (call_args (fun _ => 5)) (fun _ => mret 7);; after_call demo_dpl (mret tt) 0) s1 /\
    Z.testbit (c_eflags (ctx s1)) DF = true /\ ~ callable 0 (ctx s1).
Proof.
  destruct (direction_flag_passes (fun _ => 5) 0x10 0x19000 demo_dpl 0 (Gate 0x7c00 8 15 3 true)
    (demo_cpu (demo_user <| c_eflags := 0x602 |>)) (demo_user <| c_eflags := 0x602 |>) (demo_table 7)
    (code_for (call_args (fun _ => 5)) (fun _ => mret 7)) (mret tt) 0) as (s1 & E & _ & Hdf & Hcl).
  - lia.
  - apply demo_user_context. reflexivity.
  - reflexivity.
  - by repeat split.
  - reflexivity.
  - exists s1. split; [exact E|]. split; [exact Hdf|]. apply Hcl. reflexivity.
Defined.

(** Kernel code. *)
Definition demo_inner : context := demo_user <| c_cs := 8 |> <| c_ss := 0x10 |> <| c_esp := 0x18f00 |>.

Lemma move_to_user_mode_correct_witness :
  runs (move_to_user_mode demo_dpl 0x5678) (demo_cpu demo_inner) (fun s' _ =>
    ctx s' = user_start 0x5678 demo_inner /\ user_context demo_dpl (ctx s') /\ kern s' = demo_kernel /\
    forall x, 0x18f00 ≤ x -> read_word (stk s') x = read_word ∅ x).
Proof. apply (move_to_user_mode_correct demo_dpl (demo_cpu demo_inner) 0x5678); [vm_compute; split; congruence|reflexivity..]. Defined.
