(* ===== verification/Handlers.v ===== *)
(** * Interrupt handlers

    [timer_interrupt] of kernel/sys_call.s, [hd_interrupt] of kernel/idt.asm,
    [page_fault] of mm/page.asm and [ignore_int] of boot/head.s, on the processor of Entry.v: whatever code an
    interrupt strikes, in user mode or in the kernel, finds its registers and its
    stack as they were. *)
From S2P Require Import Prelude Words Descriptors Memory AddressSpace Sched Task Fork Ports Blk Syscalls Entry.

Section handlers.
Context {S : Type} {HS : SchedOps S} {HT : TaskFields S}.
Variable high : Z -> Z.
Variable dpl : Z -> Z.

(** The first lines of [timer_interrupt]. *)
Definition timer_save : M (cpu S) unit :=
  push_sreg high c_ds;; push_sreg high c_es;; push_sreg high c_fs;;
  pushl (u32 (-1));; push_reg c_edx;; push_reg c_ecx;; push_reg c_ebx;; push_reg c_eax;;
  kernel_segments c_eax (fun v c => c <| c_eax := v |>).

(** [tick] is [incl jiffies]; [eoi] the store to the interrupt controller. *)
Definition timer_interrupt (tick eoi : S -> S) (sync_log_buf_2 do_timer : M (cpu S) unit) (back : Z) : M (cpu S) unit :=
  timer_save;;
  in_kernel (modify tick);;
  call back sync_log_buf_2;;
  set_ctx (fun c => c <| c_eax := Z.land (c_eax c) (Z.lnot 0xff) + 0x20 |>);;
  in_kernel (modify eoi);;
  v ← stack_word CS;
  set_ctx (fun c => c <| c_eax := Z.land v 3 |>);;
  push_reg c_eax;;
  call back do_timer;;
  addl_esp 4;;
  ret_from_sys_call dpl.

End handlers.

(** ** The timer interrupt *)

Section timer.
Context {S : Type} {HS : SchedOps S} {HT : TaskFields S}.
Variable high : Z -> Z.
Variables (ss0 esp0 : Z) (dpl : Z -> Z) (depth : Z).
Implicit Types (s : cpu S) (c u : context) (l : list Z) (k : S).

(** A context of kernel code. *)
Record kernel_context u : Prop := {
  kc_cs : c_cs u = 8;
  kc_ss : c_ss u = 0x10;
  kc_segments : forall v, v ∈ [c_ds u; c_es u; c_fs u] -> 0 ≤ v < 2 ^ 16;
  kc_vm : Z.testbit (c_eflags u) VM = false
}.

(** Where the interrupt's frame starts: on the stack of the TSS, or on the one in
    use. *)
Definition frame_top u : Z := if decide (cpl u = 3) then esp0 else c_esp u.
Definition frame_of u : list Z :=
  if decide (cpl u = 3) then int_frame high esp0 u
  else [c_eip u; selector_word high (c_esp u - 8) (c_cs u); c_eflags u].
Definition entered_from (g : gate) u : context :=
  if decide (cpl u = 3) then entered_context ss0 g u
  else u <| c_eflags := entry_flags (gate_type g) (c_eflags u) |> <| c_cs := gate_selector g |> <| c_eip := gate_offset g |>.

Definition interrupted u : Prop := user_context dpl u \/ kernel_context u.

Lemma interrupted_cpl u : interrupted u -> cpl u = 3 /\ user_context dpl u \/ cpl u = 0 /\ kernel_context u.
Proof.
  intros [Hu|Hu]; [left; split; [exact (user_cpl dpl u Hu)|exact Hu]|right; split; [|exact Hu]].
  unfold cpl. by rewrite (kc_cs _ Hu).
Qed.

Lemma stacked_interrupt g s : 64 ≤ frame_top (ctx s) < 2 ^ 32 -> interrupted (ctx s) ->
  runs (interrupt high ss0 esp0 g) s (fun s' _ =>
    stacked (frame_top (ctx s)) (stk s) (entered_from g (ctx s)) (frame_of (ctx s)) (kern s) s').
Proof.
  unfold frame_top, frame_of, entered_from. intros He [[Hl _]|[Hl _]]%interrupted_cpl; rewrite Hl in *.
  - change (decide (3 = 3)) with (left eq_refl : Decision (3 = 3)) in *. by apply stacked_int.
  - rewrite !(decide_False (P := 0 = 3)) in * by lia. unfold interrupt. apply runs_bind. eexists _, _. split; [reflexivity|].
    rewrite Hl, decide_False by lia. pose proof (stacked_here s ltac:(lia)) as H0.
    apply runs_bind, runs_ret.
    run @stacked_push; [exact H0|cbn [length]; lia|]. intros s1 [] H1.
    run @stacked_push_seg; [exact H1|cbn [length]; lia|]. intros s2 [] H2. cbn [length] in H2.
    replace (c_esp (ctx s) - 4 * Z.of_nat 1 - 4) with (c_esp (ctx s) - 8) in H2 by lia.
    run @stacked_push; [exact H2|cbn [length]; lia|]. intros s3 [] H3.
    eapply runs_impl; [eapply stacked_set; [exact H3|reflexivity]|]. intros s4 [] H4. exact H4.
Qed.

(** Back to kernel code: no stack switch. *)
Lemma stacked_iret_kernel top m c k s u : kernel_context u ->
  stacked top m c [c_eip u; selector_word high (top - 8) (c_cs u); c_eflags u] k s ->
  Z.testbit (c_eflags c) NT = false -> cpl c = 0 ->
  runs (iret dpl) s (fun s' _ =>
    ctx s' = c <| c_eip := c_eip u |> <| c_cs := c_cs u |> <| c_eflags := c_eflags u |> <| c_esp := top |> /\
    kern s' = k /\ forall x, top ≤ x -> read_word (stk s') x = read_word m x).
Proof.
  intros Hu Hs Hnt Hl. destruct (testbit_NT_iret c Hnt _ _ _ _ _ Hs) as (Hnt' & Hl' & _).
  unfold iret. apply runs_bind. eexists _, _. split; [reflexivity|]. rewrite Hnt'.
  run @stacked_pop; [exact Hs|]. intros s1 a1 [-> H1].
  run @stacked_pop; [exact H1|]. intros s2 a2 [-> H2].
  run @stacked_pop; [exact H2|]. intros s3 a3 [-> H3]. rewrite (kc_vm _ Hu).
  run @stacked_set; [exact H3|reflexivity|]. intros s4 [] H4.
  rewrite Hl', Hl, selector_word_u16, (kc_cs _ Hu) in *. change (u16 8 mod 4) with 0. rewrite decide_False by lia.
  apply runs_ret. destruct H4 as [Hc4 Hk4 _ _ Ha4]. split; [|by split].
  rewrite Hc4. cbn [length]. rewrite Z.sub_0_r. reflexivity.
Qed.

(** What the timer interrupt does to the kernel's state. *)
Definition ticked (tick eoi : S -> S) (drain : M S Z) (timer : Z -> M S Z) u : M S unit :=
  modify tick;; _ ← drain; modify eoi;; _ ← timer (cpl u); Syscalls.ret_from_sys_call (c_cs u) (c_ss u).

Definition timer_frame u : list Z :=
  c_eax u :: c_ebx u :: c_ecx u :: c_edx u :: u32 (-1) ::
  saved_segments high u (frame_top u - 4 * Z.of_nat (length (frame_of u))) ++ frame_of u.

Lemma length_frame_of u : (3 ≤ length (frame_of u) ≤ 5)%nat.
Proof. unfold frame_of. case_decide; cbn; lia. Qed.

Lemma timer_frame_cs u : interrupted u ->
  exists a, timer_frame u !! 9%nat = Some (selector_word high a (c_cs u)) /\
    (cpl u = 3 -> exists b, timer_frame u !! 12%nat = Some (selector_word high b (c_ss u))).
Proof.
  intros [[Hl _]|[Hl _]]%interrupted_cpl; unfold timer_frame, frame_of; rewrite Hl.
  - change (decide (3 = 3)) with (left eq_refl : Decision (3 = 3)). eexists. split; [reflexivity|].
    intros _. eexists. reflexivity.
  - rewrite decide_False by lia. eexists. split; [reflexivity|lia].
Qed.

Lemma selector_word_cpl a v : Z.land (selector_word high a v) 3 = v mod 4.
Proof.
  change 3 with (Z.ones 2). rewrite Z.land_ones by lia. unfold selector_word, u16. Z.div_mod_to_equations. lia.
Qed.

(** The way out, to the code that was interrupted. *)
Lemma stacked_resume m c k s u : interrupted u ->
  stacked (frame_top u) m c (timer_frame u) k s ->
  Z.testbit (c_eflags c) NT = false -> cpl c = 0 -> c_ss c = (if decide (cpl u = 3) then ss0 else c_ss u) -> same_rest c u ->
  runs (restore_all dpl) s (fun s' _ =>
    ctx s' = u /\ kern s' = k /\ forall x, frame_top u ≤ x -> read_word (stk s') x = read_word m x).
Proof.
  intros Hint Hs Hnt Hl Hss Hr. unfold timer_frame, frame_top, frame_of in *.
  destruct (interrupted_cpl u Hint) as [[Hl' Hu]|[Hl' Hu]]; rewrite Hl' in *.
  - change (decide (3 = 3)) with (left eq_refl : Decision (3 = 3)) in *.
    eapply runs_impl; [eapply (stacked_return high esp0 dpl); [exact Hs|exact Hnt|exact Hl|exact Hu|exact Hr]|].
    intros s' [] (E & Hk & Ha). split; [|by split]. rewrite E. by destruct u.
  - rewrite !(decide_False (P := 0 = 3)) in * by lia. eapply stacked_restore; [exact Hs|]. intros s1 H1.
    eapply runs_impl; [eapply stacked_iret_kernel; [exact Hu|exact H1|exact Hnt|exact Hl]|].
    intros s' [] (E & Hk & Ha). split; [|by split]. rewrite E. clear -Hr Hss Hu.
    assert (forall w, w ∈ [c_ds u; c_es u; c_fs u] -> u16 w = w) as Hw.
    { intros w Hin. apply u16_small. exact (kc_segments _ Hu w Hin). }
    destruct Hr as (E1 & E2 & E3 & E4). unfold restored. rewrite !selector_word_u16.
    rewrite (Hw (c_fs u)), (Hw (c_es u)), (Hw (c_ds u)) by (rewrite !elem_of_cons; tauto).
    destruct c, u. cbn in *. subst. reflexivity.
Qed.

(** The machine a timer interrupt finds. *)
Record timer_ready (g : gate) s u : Prop := {
  tm_stack : 0 ≤ depth /\ depth + 256 ≤ frame_top u < 2 ^ 32;
  tm_ss0 : ss0 = 0x10;
  tm_code : interrupted u;
  tm_ctx : ctx s = u;
  tm_gate : gate_selector g = 8;
  tm_df : Z.testbit (c_eflags u) DF = false
}.

(** The registers while the handler runs: what the compiled functions keep of
    them. *)
Record in_handler u c : Prop := {
  ih_rest : same_rest c u;
  ih_cs : cpl c = 0;
  ih_ss : c_ss c = (if decide (cpl u = 3) then ss0 else c_ss u);
  ih_ds : c_ds c = 0x10;
  ih_es : c_es c = 0x10;
  ih_nt : Z.testbit (c_eflags c) NT = false;
  ih_df : Z.testbit (c_eflags c) DF = false
}.

Lemma in_handler_kept u c c' v : in_handler u c -> kept c c' v -> in_handler u c'.
Proof.
  intros [H1 H2 H3 H4 H5 H6 H7] [_ _ K2 K3 K4 K5 K6 K7 K8 _ K9 K10]. constructor.
  - eapply rest_trans; [|exact H1]. by split.
  - unfold cpl in *. by rewrite K5.
  - by rewrite K6.
  - by rewrite K7.
  - by rewrite K8.
  - rewrite K10; [done|left].
  - rewrite K10; [done|right; left].
Qed.

Lemma in_handler_eax u c x : in_handler u c -> in_handler u (c <| c_eax := x |>).
Proof. intros []. by constructor. Qed.

Lemma in_handler_entered g s u : timer_ready g s u -> forall c,
  c = entered_from g u <| c_eax := 0x10 |> <| c_ds := 0x10 |> <| c_es := 0x10 |> <| c_eax := 0x17 |> <| c_fs := 0x17 |> ->
  in_handler u c.
Proof.
  intros [_ _ _ _ Hg Hdf] c ->. unfold entered_from. case_decide as Hl; constructor; try reflexivity.
  - repeat split.
  - unfold cpl. cbn [entered_context c_cs upd]. by rewrite Hg.
  - by rewrite decide_True.
  - exact (entered_NT ss0 g u).
  - etrans; [exact (entered_DF ss0 g u)|exact Hdf].
  - repeat split.
  - unfold cpl. cbn [c_cs upd]. by rewrite Hg.
  - by rewrite decide_False.
  - exact (entered_NT ss0 g u).
  - etrans; [exact (entered_DF ss0 g u)|exact Hdf].
Qed.

Lemma handler_callable g s u c e x : timer_ready g s u -> in_handler u c -> depth ≤ e ->
  callable depth (c <| c_eax := x |> <| c_esp := e |>).
Proof.
  intros [_ Hss Hint _ _ _] [_ _ H3 H4 H5 _ H7] He. constructor; cbn [c_esp c_ds c_es c_ss c_eflags upd]; try done.
  rewrite H3. destruct (interrupted_cpl u Hint) as [[Hl Hu]|[Hl Hu]]; rewrite Hl.
  - rewrite decide_True by done. exact Hss.
  - rewrite decide_False by lia. exact (kc_ss _ Hu).
Qed.

Lemma entered_from_reg g u r :
  r ∈ [c_eax; c_ebx; c_ecx; c_edx; c_ebp; c_esi; c_edi; c_gs; c_fs; c_es; c_ds] -> r (entered_from g u) = r u.
Proof. unfold entered_from. case_decide; revert r; apply list.Forall_forall; repeat constructor. Qed.

(** The frame is complete when [kernel_segments] is done. *)
Lemma stacked_timer_entry g s u : timer_ready g s u -> forall s0,
  stacked (frame_top u) (stk s) (entered_from g u) (frame_of u) (kern s) s0 ->
  runs (timer_save high) s0 (fun s' _ => exists c,
    in_handler u c /\ stacked (frame_top u) (stk s) c (timer_frame u) (kern s) s').
Proof.
  intros Hready s0 H0. pose proof (tm_stack _ _ _ Hready) as [Hd He]. pose proof (length_frame_of u) as Hlen.
  pose proof (entered_from_reg g u) as Hreg.
  run @stacked_push_sreg; [exact H0|reflexivity|lia|]. intros s1 [] H1.
  run @stacked_push_sreg; [exact H1|reflexivity|cbn [length]; lia|]. intros s2 [] H2.
  run @stacked_push_sreg; [exact H2|reflexivity|cbn [length]; lia|]. intros s3 [] H3.
  run @stacked_push; [exact H3|cbn [length]; lia|]. intros s4 [] H4.
  run @stacked_push_reg; [exact H4|reflexivity|cbn [length]; lia|]. intros s5 [] H5.
  run @stacked_push_reg; [exact H5|reflexivity|cbn [length]; lia|]. intros s6 [] H6.
  run @stacked_push_reg; [exact H6|reflexivity|cbn [length]; lia|]. intros s7 [] H7.
  run @stacked_push_reg; [exact H7|reflexivity|cbn [length]; lia|]. intros s8 [] H8.
  eapply runs_impl; [eapply stacked_segments; [exact H8|reflexivity..]|]. intros s9 [] H9.
  eexists. split; [exact (in_handler_entered g s u Hready _ eq_refl)|].
  cbn [length] in H9. rewrite !Hreg in H9 by (rewrite !elem_of_cons; tauto).
  unfold timer_frame, saved_segments. cbn [app].
  replace (frame_top u - 4 * Z.of_nat (length (frame_of u)) - 12) with
    (frame_top u - 4 * Z.of_nat (Datatypes.S (Datatypes.S (length (frame_of u)))) - 4) by lia.
  replace (frame_top u - 4 * Z.of_nat (length (frame_of u)) - 8) with
    (frame_top u - 4 * Z.of_nat (Datatypes.S (length (frame_of u))) - 4) by lia.
  exact H9.
Qed.

Lemma timer_ret u a ssw k k' : interrupted u ->
  (cpl u = 3 -> exists b, ssw = selector_word high b (c_ss u)) ->
  Syscalls.ret_from_sys_call (c_cs u) (c_ss u) k = Ok (k', tt) ->
  Syscalls.ret_from_sys_call (selector_word high a (c_cs u)) ssw k = Ok (k', tt).
Proof.
  intros Hint Hss E. unfold Syscalls.ret_from_sys_call in *. rewrite selector_word_u16.
  destruct (interrupted_cpl u Hint) as [[Hl Hu]|[Hl Hu]].
  - destruct (Hss Hl) as [b ->]. rewrite selector_word_u16. exact E.
  - rewrite (kc_cs _ Hu) in *. exact E.
Qed.

(** The parameter of [do_timer] on the stack. *)
Definition timer_arg s : Z := read_word (stk s) (c_esp (ctx s) + 4).

(** C13.  The timer interrupt is invisible to the code it interrupts.  Wherever it
    strikes, in user code or in the kernel, the handler runs the two C functions
    (with the privilege level of the interrupted code as the parameter of
    [do_timer]) and every register, the flags and the stack pointer are back as
    they were, with the stack in use untouched.  The interrupted code has the
    direction flag clear ([timer_ready]). *)
Theorem timer_transparent g s u tick eoi sync timer drain m_timer back k :
  timer_ready g s u ->
  compiled depth (fun _ => tt) sync (fun _ => drain) -> compiled depth timer_arg timer m_timer ->
  ticked tick eoi drain m_timer u (kern s) = Ok (k, tt) ->
  runs (interrupt high ss0 esp0 g;; timer_interrupt high dpl tick eoi sync timer back) s (fun s' _ =>
    ctx s' = u /\ kern s' = k /\ forall x, frame_top u ≤ x -> read_word (stk s') x = read_word (stk s) x).
Proof.
  intros Hready Hsync Htimer E. pose proof (tm_stack _ _ _ Hready) as [Hd He].
  pose proof (tm_code _ _ _ Hready) as Hint. pose proof (length_frame_of u) as Hlen.
  assert (length (timer_frame u) = 8 + length (frame_of u))%nat as Hlen' by reflexivity.
  apply runs_bind. eapply runs_impl.
  { apply stacked_interrupt; rewrite (tm_ctx _ _ _ Hready); [lia|exact Hint]. }
  intros s0 [] H0. rewrite (tm_ctx _ _ _ Hready) in H0. unfold ticked in E.
  apply bind_inv in E as (k1 & [] & Ek & E). injection Ek as <-.
  apply bind_inv in E as (k2 & w2 & E2 & E). apply bind_inv in E as (k3 & [] & Ek & E). injection Ek as <-.
  apply bind_inv in E as (k4 & w4 & E4 & E).
  apply runs_bind. eapply runs_impl; [exact (stacked_timer_entry g s u Hready s0 H0)|]. intros s1 [] (c1 & Hc1 & H1).
  run @stacked_kernel; [exact H1|]. intros s2 [] H2.
  apply runs_bind. eapply runs_impl.
  { apply (stacked_call depth _ _ _ tt back _ _ _ _ _ k2 w2 s2 Hsync H2); [|exact Hd|done|exact E2].
    apply (handler_callable g s u c1 _ (c_eax c1) Hready Hc1). lia. }
  intros s3 [] (c3 & H3 & Hk3). pose proof (in_handler_kept u c1 c3 _ Hc1 Hk3) as Hc3.
  run @stacked_set; [exact H3|reflexivity|]. intros s4 [] H4.
  run @stacked_kernel; [exact H4|]. intros s5 [] H5.
  destruct (timer_frame_cs u Hint) as (a & Hcs & Hss).
  change CS with (4 * Z.of_nat 9). run @stacked_peek; [exact H5|exact Hcs|]. intros s6 v [-> ->].
  run @stacked_set; [exact H5|reflexivity|]. intros s6 [] H6.
  set (c6 := _ <| c_eax := Z.land _ 3 |>) in H6.
  assert (in_handler u c6) as Hc6 by by do 2 apply in_handler_eax.
  assert (c_eax c6 = cpl u) as He6 by exact (selector_word_cpl a (c_cs u)). clearbody c6.
  run @stacked_push_reg; [exact H6|reflexivity|rewrite Hlen'; lia|]. intros s7 [] H7. rewrite He6 in H7.
  apply runs_bind. eapply runs_impl.
  { apply (stacked_call depth timer_arg timer m_timer (cpl u) back _ _ _ _ _ k4 w4 s7 Htimer H7); [|exact Hd| |exact E4].
    - apply (handler_callable g s u c6 _ (c_eax c6) Hready Hc6). cbn [length]. rewrite Hlen'. lia.
    - intros s' Hs'. exact (stacked_word _ _ _ _ _ _ 1 _ Hs' eq_refl). }
  intros s8 [] (c8 & H8 & Hk8). pose proof (in_handler_kept u c6 c8 _ Hc6 Hk8) as Hc8.
  apply runs_bind. eapply runs_impl; [exact (stacked_addl _ _ _ [cpl u] _ _ _ H8)|]. intros s9 [] H9.
  eapply (stacked_ret dpl _ _ _ _ _ k); [exact H9|rewrite Hlen'; lia|exact Hcs| |].
  - intros ssw Hw. apply (timer_ret u a ssw _ _ Hint); [|exact E]. intros Hl. destruct (Hss Hl) as [b Hb].
    exists b. symmetry. exact (Hw _ Hb).
  - intros s10 c10 H10 (Hr10 & Hf10 & Hc10 & Hs10). destruct Hc8 as [R1 R2 R3 _ _ R6 _].
    apply (stacked_resume _ c10); [exact Hint|exact H10|by rewrite Hf10|unfold cpl in *; by rewrite Hc10|by rewrite Hs10|].
    by eapply rest_trans.
Qed.
End timer.

(** ** Handlers that save three registers and three segments *)

Lemma interrupted_u16 dpl u v : interrupted dpl u -> v ∈ [c_ds u; c_es u; c_fs u] -> u16 v = v.
Proof.
  intros [Hu|Hu] Hv; apply u16_small.
  - apply (uc_segments _ _ Hu). rewrite !elem_of_cons in *. tauto.
  - exact (kc_segments _ Hu v Hv).
Qed.

Section leave.
Context {S : Type}.
Variable high : Z -> Z.
Variables (ss0 esp0 : Z) (dpl : Z -> Z) (depth : Z).
Implicit Types (s : cpu S) (c u : context) (l : list Z) (k : S).

(** The general registers and data segments. *)
Definition registers c : list Z :=
  [c_eax c; c_ecx c; c_edx c; c_ebx c; c_ebp c; c_esi c; c_edi c; c_ds c; c_es c; c_fs c; c_gs c].

(** Back to the interrupted code, once its registers are restored. *)
Lemma stacked_leave m c k s u : interrupted dpl u -> stacked (frame_top esp0 u) m c (frame_of high esp0 u) k s ->
  Z.testbit (c_eflags c) NT = false -> cpl c = 0 -> c_ss c = (if decide (cpl u = 3) then ss0 else c_ss u) ->
  registers c = registers u ->
  runs (iret dpl) s (fun s' _ =>
    ctx s' = u /\ kern s' = k /\ forall x, frame_top esp0 u ≤ x -> read_word (stk s') x = read_word m x).
Proof.
  intros Hint Hs Hnt Hl Hss Hr. unfold frame_top, frame_of in *.
  destruct (interrupted_cpl dpl u Hint) as [[Hl' Hu]|[Hl' Hu]]; rewrite Hl' in *.
  - change (decide (3 = 3)) with (left eq_refl : Decision (3 = 3)) in *.
    eapply runs_impl; [eapply (stacked_iret_user high esp0 dpl); [exact Hs|exact Hnt|exact Hl|exact Hu|]|].
    + exact (f_equal (drop 7) Hr).
    + intros s' [] (E & Hk & Ha). split; [|by split]. rewrite E. clear -Hr. destruct c, u. cbn in *. by simplify_eq.
  - rewrite !(decide_False (P := 0 = 3)) in * by lia.
    eapply runs_impl; [eapply stacked_iret_kernel; [exact Hu|exact Hs|exact Hnt|exact Hl]|].
    intros s' [] (E & Hk & Ha). split; [|by split]. rewrite E. clear -Hr Hss. destruct c, u. cbn in *. by simplify_eq.
Qed.

(** [pop %fs; pop %es; pop %ds; pop %edx; pop %ecx; pop %eax; iret]. *)
Definition restore_six : M (cpu S) unit :=
  pop_to (fun v c => c <| c_fs := u16 v |>);;
  pop_to (fun v c => c <| c_es := u16 v |>);;
  pop_to (fun v c => c <| c_ds := u16 v |>);;
  pop_to (fun v c => c <| c_edx := v |>);;
  pop_to (fun v c => c <| c_ecx := v |>);;
  pop_to (fun v c => c <| c_eax := v |>);;
  iret dpl.

(** What such a handler saved, lowest address first. *)
Definition six_frame u : list Z :=
  let a := frame_top esp0 u - 4 * Z.of_nat (length (frame_of high esp0 u)) in
  selector_word high (a - 24) (c_fs u) :: selector_word high (a - 20) (c_es u) :: selector_word high (a - 16) (c_ds u) ::
  c_edx u :: c_ecx u :: c_eax u :: frame_of high esp0 u.

Lemma stacked_restore_six m c k s u : interrupted dpl u -> stacked (frame_top esp0 u) m c (six_frame u) k s ->
  Z.testbit (c_eflags c) NT = false -> cpl c = 0 -> c_ss c = (if decide (cpl u = 3) then ss0 else c_ss u) ->
  c_ebx c = c_ebx u -> same_rest c u ->
  runs restore_six s (fun s' _ =>
    ctx s' = u /\ kern s' = k /\ forall x, frame_top esp0 u ≤ x -> read_word (stk s') x = read_word m x).
Proof.
  intros Hint Hs Hnt Hl Hss Hb (E1 & E2 & E3 & E4). unfold restore_six, six_frame in *. cbv zeta in Hs.
  run @stacked_pop_to; [exact Hs|reflexivity|]. intros s1 [] H1.
  run @stacked_pop_to; [exact H1|reflexivity|]. intros s2 [] H2.
  run @stacked_pop_to; [exact H2|reflexivity|]. intros s3 [] H3.
  run @stacked_pop_to; [exact H3|reflexivity|]. intros s4 [] H4.
  run @stacked_pop_to; [exact H4|reflexivity|]. intros s5 [] H5.
  run @stacked_pop_to; [exact H5|reflexivity|]. intros s6 [] H6.
  eapply stacked_leave; [exact Hint|exact H6|exact Hnt|exact Hl|exact Hss|].
  clear -Hint Hb E1 E2 E3 E4. pose proof (fun v => interrupted_u16 dpl u v Hint) as Hw. rewrite !selector_word_u16.
  rewrite (Hw (c_ds u)), (Hw (c_es u)), (Hw (c_fs u)) by (rewrite !elem_of_cons; tauto).
  unfold registers. cbn [upd c_eax c_ecx c_edx c_ebx c_ebp c_esi c_edi c_ds c_es c_fs c_gs]. by rewrite Hb, E1, E2, E3, E4.
Qed.

(** The registers while such a handler runs. *)
Record in_six u c : Prop := {
  is_handler : in_handler ss0 u c;
  is_ebx : c_ebx c = c_ebx u
}.

Lemma in_six_kept u c c' v : in_six u c -> kept c c' v -> in_six u c'.
Proof.
  intros [H1 H2] Hk. constructor; [by eapply in_handler_kept|]. by rewrite (kp_ebx _ _ _ Hk).
Qed.

Lemma in_six_ext u c c' : in_six u c -> same_rest c' c -> c_cs c' = c_cs c -> c_ss c' = c_ss c -> c_ds c' = c_ds c ->
  c_es c' = c_es c -> c_eflags c' = c_eflags c -> c_ebx c' = c_ebx c -> in_six u c'.
Proof.
  intros [[H1 H2 H3 H4 H5 H6 H7] H8] Hr E1 E2 E3 E4 E5 E6. constructor; [constructor|by rewrite E6].
  - by eapply rest_trans.
  - unfold cpl in *. by rewrite E1.
  - by rewrite E2.
  - by rewrite E3.
  - by rewrite E4.
  - by rewrite E5.
  - by rewrite E5.
Qed.

Lemma in_six_entered g s u c : timer_ready ss0 esp0 dpl depth g s u ->
  same_rest c u -> c_ebx c = c_ebx u -> c_ds c = 0x10 -> c_es c = 0x10 ->
  c_cs c = c_cs (entered_from ss0 g u) -> c_ss c = c_ss (entered_from ss0 g u) ->
  c_eflags c = c_eflags (entered_from ss0 g u) -> in_six u c.
Proof.
  intros Hready Hr Hb Hd He Ec Es Ef.
  destruct (in_handler_entered ss0 esp0 dpl depth g s u Hready _ eq_refl) as [_ H2 H3 _ _ H6 H7].
  cbn [c_cs c_ss c_eflags upd] in H2, H3, H6, H7.
  constructor; [constructor|exact Hb]; try done.
  - unfold cpl in *. by rewrite Ec.
  - by rewrite Es.
  - by rewrite Ef.
  - by rewrite Ef.
Qed.

(** [push %ecx; push %edx; push %ds; push %es; push %fs]. *)
Definition save_five : M (cpu S) unit :=
  push_reg c_ecx;; push_reg c_edx;; push_sreg high c_ds;; push_sreg high c_es;; push_sreg high c_fs.

Lemma stacked_save_five m c k s u : 64 ≤ frame_top esp0 u < 2 ^ 32 ->
  [c_ecx c; c_edx c; c_ds c; c_es c; c_fs c] = [c_ecx u; c_edx u; c_ds u; c_es u; c_fs u] ->
  stacked (frame_top esp0 u) m c (c_eax u :: frame_of high esp0 u) k s ->
  runs save_five s (fun s' _ => stacked (frame_top esp0 u) m c (six_frame u) k s').
Proof.
  intros He Hr Hs. injection Hr as E1 E2 E3 E4 E5. pose proof (length_frame_of high esp0 u) as Hlen.
  run @stacked_push_reg; [exact Hs|reflexivity|cbn [length]; lia|]. intros s1 [] H1.
  run @stacked_push_reg; [exact H1|reflexivity|cbn [length]; lia|]. intros s2 [] H2.
  run @stacked_push_sreg; [exact H2|reflexivity|cbn [length]; lia|]. intros s3 [] H3.
  run @stacked_push_sreg; [exact H3|reflexivity|cbn [length]; lia|]. intros s4 [] H4.
  eapply runs_impl; [eapply stacked_push_sreg; [exact H4|reflexivity|cbn [length]; lia]|]. intros s5 [] H5.
  cbn [length] in H5. rewrite E1, E2, E3, E4, E5 in H5. unfold six_frame. cbv zeta.
  replace (frame_top esp0 u - 4 * Z.of_nat (length (frame_of high esp0 u)) - 24) with
    (frame_top esp0 u - 4 * Z.of_nat (5 + length (frame_of high esp0 u)) - 4) by lia.
  replace (frame_top esp0 u - 4 * Z.of_nat (length (frame_of high esp0 u)) - 20) with
    (frame_top esp0 u - 4 * Z.of_nat (4 + length (frame_of high esp0 u)) - 4) by lia.
  replace (frame_top esp0 u - 4 * Z.of_nat (length (frame_of high esp0 u)) - 16) with
    (frame_top esp0 u - 4 * Z.of_nat (3 + length (frame_of high esp0 u)) - 4) by lia.
  exact H5.
Qed.

Lemma length_six_frame u : length (six_frame u) = (6 + length (frame_of high esp0 u))%nat.
Proof. reflexivity. Qed.

Lemma stacked_in_kernel {A} top m c l k k' s (f : M S A) a : stacked top m c l k s -> f k = Ok (k', a) ->
  runs (in_kernel f) s (fun s' b => b = a /\ stacked top m c l k' s').
Proof.
  intros [Hc Hk Hr Hw Ha] E. unfold in_kernel, runs. rewrite Hk, E. eexists _, _. split; [reflexivity|].
  split; [done|]. by constructor.
Qed.

(** The call of the C function. *)
Lemma stacked_handler_call {A} (args : cpu S -> A) f (m : A -> M S Z) a (l : list Z) back mem g s0 c k k' v s u
    (rest : M (cpu S) unit) Q :
  timer_ready ss0 esp0 dpl depth g s0 u -> in_six u c -> compiled depth args f m -> (length l ≤ 2)%nat ->
  stacked (frame_top esp0 u) mem c (l ++ six_frame u) k s ->
  (forall s', stacked (frame_top esp0 u) mem c (back :: l ++ six_frame u) k s' -> args s' = a) ->
  m a k = Ok (k', v) ->
  (forall s' c', in_six u c' -> stacked (frame_top esp0 u) mem c' (l ++ six_frame u) k' s' -> runs rest s' Q) ->
  runs (call back f;; rest) s Q.
Proof.
  intros Hready Hc Hf Hl Hs Ha E HQ. pose proof (tm_stack _ _ _ _ _ _ _ Hready) as [Hd He].
  pose proof (length_frame_of high esp0 u) as Hlen.
  apply runs_bind. eapply runs_impl.
  { apply (stacked_call depth args f m a back _ _ _ _ _ k' v s Hf Hs); [|exact Hd|exact Ha|exact E].
    apply (handler_callable ss0 esp0 dpl depth g s0 u c _ (c_eax c) Hready (is_handler _ _ Hc)).
    rewrite length_app, length_six_frame. lia. }
  intros s1 [] (c1 & H1 & Hk1). exact (HQ s1 c1 (in_six_kept u c c1 v Hc Hk1) H1).
Qed.

Lemma stacked_six_done m c k s u : interrupted dpl u -> in_six u c ->
  stacked (frame_top esp0 u) m c (six_frame u) k s ->
  runs restore_six s (fun s' _ =>
    ctx s' = u /\ kern s' = k /\ forall x, frame_top esp0 u ≤ x -> read_word (stk s') x = read_word m x).
Proof.
  intros Hint [[R1 R2 R3 _ _ R6 _] Rb] Hs. exact (stacked_restore_six m c k s u Hint Hs R6 R2 R3 Rb R1).
Qed.
End leave.

(** ** The page fault *)

Section fault.
Context {S : Type}.
Variable high : Z -> Z.
Variables (ss0 esp0 : Z) (dpl : Z -> Z) (depth : Z).
Implicit Types (s : cpu S) (c u : context) (l : list Z) (k : S).

(** [xchg [esp], eax] *)
Definition xchg_top : M (cpu S) unit := modify (fun s =>
  let e := c_esp (ctx s) in
  s <| stk := <[e := c_eax (ctx s)]> (stk s) |> <| ctx := ctx s <| c_eax := read_word (stk s) e |> |>).

(** [cr2] is the address of the access that faulted, as long as no other task
    faults before [mov edx, cr2]. *)
Definition page_fault (cr2 : Z) (do_wp_page : M (cpu S) unit) (back : Z) : M (cpu S) unit :=
  xchg_top;;
  save_five high;;
  set_ctx (fun c => c <| c_edx := 0x10 |>);;
  set_ctx (fun c => c <| c_ds := u16 (c_edx c) |>);; set_ctx (fun c => c <| c_es := u16 (c_edx c) |>);;
  set_ctx (fun c => c <| c_fs := u16 (c_edx c) |>);;
  set_ctx (fun c => c <| c_edx := cr2 |>);;
  push_reg c_edx;;
  push_reg c_eax;;
  call back do_wp_page;;
  addl_esp 8;;
  restore_six dpl.

(** The parameters of [do_wp_page] on the stack. *)
Definition fault_args s : Z * Z :=
  (read_word (stk s) (c_esp (ctx s) + 4), read_word (stk s) (c_esp (ctx s) + 8)).

Lemma stacked_xchg top m c v l k s : stacked top m c (v :: l) k s ->
  runs xchg_top s (fun s' _ => stacked top m (c <| c_eax := v |>) (c_eax c :: l) k s').
Proof.
  intros [Hc Hk Hr Hw Ha]. eexists _, tt. split; [reflexivity|]. cbn [length] in *.
  assert (c_esp (ctx s) = top - 4 * Z.of_nat (Datatypes.S (length l))) as He by (by rewrite Hc).
  assert (read_word (stk s) (c_esp (ctx s)) = v) as Hv.
  { rewrite He. rewrite <-(Hw 0%nat v eq_refl). f_equal. lia. }
  constructor; cbn [ctx kern stk upd length].
  - rewrite Hv, Hc. reflexivity.
  - done.
  - lia.
  - intros [|i] w Hi.
    + injection Hi as <-. rewrite read_insert, decide_True by (rewrite He; lia). by rewrite Hc.
    + rewrite read_insert, decide_False by (rewrite He; lia). by apply (Hw (Datatypes.S i)).
  - intros x Hx. rewrite read_insert, decide_False by (rewrite He; lia). by apply Ha.
Qed.

(** C14.  A page fault restarts the instruction that caused it: the handler runs
    [do_wp_page] on the error code the processor pushed and the address in
    [cr2], and the interrupted code, user or kernel, goes on with every register
    and its stack as they were.  (Gate 14 leaves interrupts on: the theorem has no
    fault of another task between the fault and the load of [cr2].) *)
Theorem page_fault_transparent g s u code cr2 f m back k v :
  timer_ready ss0 esp0 dpl depth g s u -> compiled depth fault_args f m ->
  m (code, cr2) (kern s) = Ok (k, v) ->
  runs (interrupt high ss0 esp0 g;; pushl code;; page_fault cr2 f back) s (fun s' _ =>
    ctx s' = u /\ kern s' = k /\ forall x, frame_top esp0 u ≤ x -> read_word (stk s') x = read_word (stk s) x).
Proof.
  intros Hready Hf E. pose proof (tm_stack _ _ _ _ _ _ _ Hready) as [Hd He].
  pose proof (tm_code _ _ _ _ _ _ _ Hready) as Hint. pose proof (length_frame_of high esp0 u) as Hlen.
  pose proof (length_six_frame high esp0 u) as Hlen'. pose proof (tm_ctx _ _ _ _ _ _ _ Hready) as Hcu.
  apply runs_bind. eapply runs_impl; [apply (stacked_interrupt high ss0 esp0 dpl); rewrite Hcu; [lia|exact Hint]|].
  intros s0 [] H0. rewrite Hcu in H0.
  run @stacked_push; [exact H0|lia|]. intros s1 [] H1.
  run @stacked_xchg; [exact H1|]. intros s2 [] H2.
  pose proof (entered_from_reg ss0 g u) as Hreg.
  rewrite (Hreg c_eax) in H2 by left.
  apply runs_bind. eapply runs_impl; [eapply (stacked_save_five high esp0 _ _ _ _ u); [lia| |exact H2]|].
  { cbn [c_ecx c_edx c_ds c_es c_fs upd]. rewrite (Hreg c_ecx), (Hreg c_edx), (Hreg c_ds), (Hreg c_es), (Hreg c_fs);
      [reflexivity|rewrite !elem_of_cons; tauto..]. }
  intros s3 [] H3.
  run @stacked_set; [exact H3|reflexivity|]. intros s4 [] H4.
  run @stacked_set; [exact H4|reflexivity|]. intros s5 [] H5.
  run @stacked_set; [exact H5|reflexivity|]. intros s6 [] H6.
  run @stacked_set; [exact H6|reflexivity|]. intros s7 [] H7.
  run @stacked_set; [exact H7|reflexivity|]. intros s8 [] H8.
  match type of H8 with stacked _ _ ?c _ _ _ => set (c8 := c) in H8 end.
  assert (in_six ss0 u c8) as Hc8.
  { apply (in_six_entered ss0 esp0 dpl depth g s u _ Hready); try reflexivity.
    - unfold same_rest, c8. cbn [c_ebp c_esi c_edi c_gs upd].
      rewrite (Hreg c_ebp), (Hreg c_esi), (Hreg c_edi), (Hreg c_gs) by (rewrite !elem_of_cons; tauto). done.
    - unfold c8. cbn [c_ebx upd]. apply Hreg. rewrite !elem_of_cons; tauto. }
  assert (c_eax c8 = code /\ c_edx c8 = cr2) as [Ea8 Ed8] by (split; reflexivity). clearbody c8.
  run @stacked_push_reg; [exact H8|reflexivity|lia|]. intros s9 [] H9.
  run @stacked_push_reg; [exact H9|reflexivity|cbn [length]; lia|]. intros s10 [] H10. rewrite Ea8, Ed8 in H10.
  eapply (stacked_handler_call high ss0 esp0 dpl depth fault_args f m (code, cr2) [code; cr2]);
    [exact Hready|exact Hc8|exact Hf|cbn; lia|exact H10| |exact E|].
  - intros s' Hs'. unfold fault_args. f_equal; [exact (stacked_word _ _ _ _ _ _ 1 _ Hs' eq_refl)|].
    exact (stacked_word _ _ _ _ _ _ 2 _ Hs' eq_refl).
  - intros s' c' Hc' Hs'. apply runs_bind. eapply runs_impl; [exact (stacked_addl _ _ _ [code; cr2] _ _ _ Hs')|].
    intros s'' [] Hs''. exact (stacked_six_done high ss0 esp0 dpl _ c' k s'' u Hint Hc' Hs'').
Qed.
End fault.

(** ** The disk interrupt *)

Section disk.
Variable high : Z -> Z.
Variables (ss0 esp0 : Z) (dpl : Z -> Z) (depth : Z).
Variable device : list io -> Z -> Z.

(** The processor's view of [Blk.hd_interrupt].  [pointer h] is the address of
    the function to call when [do_hd] holds [h] ([unexpected_hd_int] for a null
    pointer), [code h] its code. *)
Definition hd_interrupt (pointer : option handler -> Z) (code : option handler -> M (cpu blk) unit) (back : Z) :
    M (cpu blk) unit :=
  push_reg c_eax;;
  save_five high;;
  kernel_segments c_eax (fun v c => c <| c_eax := v |>);;
  set_ctx (fun c => c <| c_eax := Z.land (c_eax c) (Z.lnot 0xff) + 0x20 |>);;
  in_kernel (outb 0x20 0xa0);;
  set_ctx (fun c => c <| c_edx := 0 |>);;
  h ← in_kernel (s ← get; modify (fun s => s <| hd_timeout := 0 |> <| do_hd := None |>);; mret (do_hd s));
  set_ctx (fun c => c <| c_edx := pointer h |>);;
  in_kernel (outb 0x20 0x20);;
  call back (code h);;
  restore_six dpl.

(** What the function [do_hd] points to does. *)
Definition handler_model (h : option handler) : M blk Z :=
  match h with
  | Some Read_intr => read_intr device;; mret 0
  | None => unexpected_hd_int;; mret 0
  end.

Lemma hd_interrupt_model k k' : Blk.hd_interrupt device k = Ok (k', tt) ->
  exists k1 k2 k3, outb 0x20 0xa0 k = Ok (k1, tt) /\ k2 = k1 <| hd_timeout := 0 |> <| do_hd := None |> /\
    outb 0x20 0x20 k2 = Ok (k3, tt) /\ handler_model (do_hd k1) k3 = Ok (k', 0).
Proof.
  unfold Blk.hd_interrupt. intros E. apply bind_inv in E as (k1 & [] & E1 & E).
  apply bind_inv in E as (k1' & a & Eg & E). injection Eg as <- <-.
  apply bind_inv in E as (k2 & [] & Em & E). injection Em as <-. apply bind_inv in E as (k3 & [] & E3 & E).
  exists k1, (k1 <| hd_timeout := 0 |> <| do_hd := None |>), k3. split; [exact E1|]. split; [reflexivity|]. split; [exact E3|].
  unfold handler_model. destruct (do_hd k1) as [[]|]; by rewrite (bind_ok _ _ _ _ _ E).
Qed.

(** The disk interrupt does to the driver's state what [Blk.hd_interrupt] says,
    and is invisible to the code it interrupts. *)
Theorem hd_interrupt_transparent g s u pointer code back k :
  timer_ready ss0 esp0 dpl depth g s u ->
  (forall h, compiled depth (fun _ => tt) (code h) (fun _ => handler_model h)) ->
  Blk.hd_interrupt device (kern s) = Ok (k, tt) ->
  runs (interrupt high ss0 esp0 g;; hd_interrupt pointer code back) s (fun s' _ =>
    ctx s' = u /\ kern s' = k /\ forall x, frame_top esp0 u ≤ x -> read_word (stk s') x = read_word (stk s) x).
Proof.
  intros Hready Hf E. pose proof (tm_stack _ _ _ _ _ _ _ Hready) as [Hd He].
  pose proof (tm_code _ _ _ _ _ _ _ Hready) as Hint. pose proof (length_frame_of high esp0 u) as Hlen.
  pose proof (tm_ctx _ _ _ _ _ _ _ Hready) as Hcu.
  destruct (hd_interrupt_model (kern s) k E) as (k1 & k2 & k3 & E1 & E2 & E3 & E4).
  apply runs_bind. eapply runs_impl; [apply (stacked_interrupt high ss0 esp0 dpl); rewrite Hcu; [lia|exact Hint]|].
  intros s0 [] H0. rewrite Hcu in H0.
  pose proof (entered_from_reg ss0 g u) as Hreg.
  run @stacked_push_reg; [exact H0|reflexivity|lia|]. intros s1 [] H1. rewrite (Hreg c_eax) in H1 by left.
  apply runs_bind. eapply runs_impl; [eapply (stacked_save_five high esp0 _ _ _ _ u); [lia| |exact H1]|].
  { rewrite (Hreg c_ecx), (Hreg c_edx), (Hreg c_ds), (Hreg c_es), (Hreg c_fs);
      [reflexivity|rewrite !elem_of_cons; tauto..]. }
  intros s2 [] H2.
  run @stacked_segments; [exact H2|reflexivity..|]. intros s3 [] H3.
  run @stacked_set; [exact H3|reflexivity|]. intros s4 [] H4.
  run @stacked_in_kernel; [exact H4|exact E1|]. intros s5 [] [_ H5].
  run @stacked_set; [exact H5|reflexivity|]. intros s6 [] H6.
  subst k2. run @stacked_in_kernel; [exact H6|reflexivity|]. intros s7 h [-> H7].
  run @stacked_set; [exact H7|reflexivity|]. intros s8 [] H8.
  run @stacked_in_kernel; [exact H8|exact E3|]. intros s9 [] [_ H9].
  match type of H9 with stacked _ _ ?c _ _ _ => set (c9 := c) in H9 end.
  assert (in_six ss0 u c9) as Hc9.
  { apply (in_six_entered ss0 esp0 dpl depth g s u _ Hready); try reflexivity.
    - unfold same_rest, c9. cbn [c_ebp c_esi c_edi c_gs upd].
      rewrite (Hreg c_ebp), (Hreg c_esi), (Hreg c_edi), (Hreg c_gs) by (rewrite !elem_of_cons; tauto). done.
    - unfold c9. cbn [c_ebx upd]. apply Hreg. rewrite !elem_of_cons; tauto. }
  clearbody c9.
  eapply (stacked_handler_call high ss0 esp0 dpl depth _ _ _ tt [] back);
    [exact Hready|exact Hc9|exact (Hf (do_hd k1))|cbn; lia|exact H9|done|exact E4|].
  intros s' c' Hc' Hs'. exact (stacked_six_done high ss0 esp0 dpl _ c' k s' u Hint Hc' Hs').
Qed.
End disk.

(** ** The default handler *)

Section default.
Context {S : Type}.
Variable high : Z -> Z.
Variables (ss0 esp0 : Z) (dpl : Z -> Z) (depth : Z).
Implicit Types (s : cpu S) (c u : context).

(** [ignore_int] of boot/head.s, where all gates lead until [trap_init].
    [int_msg] is the address of its message; the call of [printk] between the
    push and the pop is commented out. *)
Definition ignore_int (int_msg : Z) : M (cpu S) unit :=
  push_reg c_eax;;
  save_five high;;
  set_ctx (fun c => c <| c_eax := 0x10 |>);;
  set_ctx (fun c => c <| c_ds := u16 (c_eax c) |>);; set_ctx (fun c => c <| c_es := u16 (c_eax c) |>);;
  set_ctx (fun c => c <| c_fs := u16 (c_eax c) |>);;
  pushl int_msg;;
  pop_to (fun v c => c <| c_eax := v |>);;
  restore_six dpl.

(** It ignores the interrupt: nothing changes but the words below the stack in
    use. *)
Theorem ignore_int_transparent g s u int_msg : timer_ready ss0 esp0 dpl depth g s u ->
  runs (interrupt high ss0 esp0 g;; ignore_int int_msg) s (fun s' _ =>
    ctx s' = u /\ kern s' = kern s /\ forall x, frame_top esp0 u ≤ x -> read_word (stk s') x = read_word (stk s) x).
Proof.
  intros Hready. pose proof (tm_stack _ _ _ _ _ _ _ Hready) as [Hd He].
  pose proof (tm_code _ _ _ _ _ _ _ Hready) as Hint. pose proof (length_frame_of high esp0 u) as Hlen.
  pose proof (tm_ctx _ _ _ _ _ _ _ Hready) as Hcu.
  apply runs_bind. eapply runs_impl; [apply (stacked_interrupt high ss0 esp0 dpl); rewrite Hcu; [lia|exact Hint]|].
  intros s0 [] H0. rewrite Hcu in H0. pose proof (entered_from_reg ss0 g u) as Hreg.
  unfold ignore_int. run @stacked_push_reg; [exact H0|reflexivity|lia|]. intros s1 [] H1. rewrite (Hreg c_eax) in H1 by left.
  apply runs_bind. eapply runs_impl; [eapply (stacked_save_five high esp0 _ _ _ _ u); [lia| |exact H1]|].
  { rewrite (Hreg c_ecx), (Hreg c_edx), (Hreg c_ds), (Hreg c_es), (Hreg c_fs);
      [reflexivity|rewrite !elem_of_cons; tauto..]. }
  intros s2 [] H2.
  run @stacked_set; [exact H2|reflexivity|]. intros s3 [] H3.
  run @stacked_set; [exact H3|reflexivity|]. intros s4 [] H4.
  run @stacked_set; [exact H4|reflexivity|]. intros s5 [] H5.
  run @stacked_set; [exact H5|reflexivity|]. intros s6 [] H6.
  run @stacked_push; [exact H6|rewrite length_six_frame; lia|]. intros s7 [] H7.
  run @stacked_pop_to; [exact H7|reflexivity|]. intros s8 [] H8.
  match type of H8 with stacked _ _ ?c _ _ _ => set (c8 := c) in H8 end.
  assert (in_six ss0 u c8) as Hc8.
  { apply (in_six_entered ss0 esp0 dpl depth g s u _ Hready); try reflexivity.
    - unfold same_rest, c8. cbn [c_ebp c_esi c_edi c_gs upd].
      rewrite (Hreg c_ebp), (Hreg c_esi), (Hreg c_edi), (Hreg c_gs) by (rewrite !elem_of_cons; tauto). done.
    - unfold c8. cbn [c_ebx upd]. apply Hreg. rewrite !elem_of_cons; tauto. }
  exact (stacked_six_done high ss0 esp0 dpl _ c8 _ s8 u Hint Hc8 H8).
Qed.
End default.

(** ** Witnesses *)

(** An interrupt that strikes in kernel code. *)
Lemma demo_timer_ready {S} (s : cpu S) type offset : ctx s = demo_inner ->
  timer_ready 0x10 0x19000 demo_dpl 0 (Gate offset 8 type 0 true) s demo_inner.
Proof.
  intros Hs. constructor; [vm_compute; repeat split; congruence|reflexivity| |exact Hs|reflexivity|reflexivity].
  right. constructor; [reflexivity|reflexivity| |reflexivity].
  intros v Hv. assert (v = 0x17) as -> by (revert v Hv; apply list.Forall_forall; repeat constructor). lia.
Qed.

Lemma timer_transparent_witness :
  runs (interrupt (fun _ => 5) 0x10 0x19000 (Gate 0x7b00 8 14 0 true);;
    timer_interrupt (fun _ => 5) demo_dpl (fun k => k <| jiffies := 1 |>) (fun k => k)
      (code_for (fun _ => tt) (fun _ => mret 0)) (code_for timer_arg (fun _ => mret 0)) 0) (demo_cpu demo_inner)
  (fun s' _ => ctx s' = demo_inner /\ kern s' = demo_kernel <| jiffies := 1 |> /\
    forall x, 0x18f00 ≤ x -> read_word (stk s') x = read_word ∅ x).
Proof.
  apply (timer_transparent (fun _ => 5) 0x10 0x19000 demo_dpl 0 (Gate 0x7b00 8 14 0 true) (demo_cpu demo_inner) demo_inner
    (fun k => k <| jiffies := 1 |>) (fun k => k) (code_for (fun _ => tt) (fun _ => mret 0)) (code_for timer_arg (fun _ => mret 0))
    (mret 0) (fun _ => mret 0) 0).
  - by apply demo_timer_ready.
  - apply code_for_compiled. lia.
  - apply code_for_compiled. lia.
  - reflexivity.
Defined.

(** A write fault on page 5 of the identity map. *)
Lemma page_fault_transparent_witness :
  exists k, AddressSpace.page_fault 7 0x5000 ident_mm = Ok (k, tt) /\
  runs (interrupt (fun _ => 5) 0x10 0x19000 (Gate 0x7abc 8 15 0 true);; pushl 7;;
    page_fault (fun _ => 5) demo_dpl 0x5000 (code_for fault_args (fun a => AddressSpace.page_fault a.1 a.2;; mret 0)) 0)
    (Cpu demo_inner ∅ ident_mm)
  (fun s' _ => ctx s' = demo_inner /\ kern s' = k /\ forall x, 0x18f00 ≤ x -> read_word (stk s') x = read_word ∅ x).
Proof.
  assert (exists k, AddressSpace.page_fault 7 0x5000 ident_mm = Ok (k, tt)) as [k E].
  { destruct (AddressSpace.page_fault 7 0x5000 ident_mm) as [[k []]|f] eqn:E; [by exists k|].
    assert (match AddressSpace.page_fault 7 0x5000 ident_mm with Ok _ => true | Err _ => false end = true) as C
      by (vm_compute; reflexivity). rewrite E in C. discriminate C. }
  exists k. split; [exact E|].
  apply (page_fault_transparent (fun _ => 5) 0x10 0x19000 demo_dpl 0 (Gate 0x7abc 8 15 0 true) (Cpu demo_inner ∅ ident_mm)
    demo_inner 7 0x5000 (code_for fault_args (fun a => AddressSpace.page_fault a.1 a.2;; mret 0))
    (fun a => AddressSpace.page_fault a.1 a.2;; mret 0) 0 k 0).
  - by apply demo_timer_ready.
  - apply code_for_compiled. lia.
  - cbn [fst snd kern]. by rewrite (bind_ok _ _ _ _ _ E).
Defined.

(** An interrupt of a drive that reports an error. *)
Lemma hd_interrupt_transparent_witness :
  exists k, Blk.hd_interrupt (fun _ _ => 0x51) first_drive = Ok (k, tt) /\
  runs (interrupt (fun _ => 5) 0x10 0x19000 (Gate 0x7ad0 8 14 0 true);;
    hd_interrupt (fun _ => 5) demo_dpl (fun _ => 0x3000)
      (fun h => code_for (fun _ => tt) (fun _ => handler_model (fun _ _ => 0x51) h)) 0)
    (Cpu demo_inner ∅ first_drive)
  (fun s' _ => ctx s' = demo_inner /\ kern s' = k /\ forall x, 0x18f00 ≤ x -> read_word (stk s') x = read_word ∅ x).
Proof.
  assert (exists k, Blk.hd_interrupt (fun _ _ => 0x51) first_drive = Ok (k, tt)) as [k E].
  { destruct (Blk.hd_interrupt (fun _ _ => 0x51) first_drive) as [[k []]|f] eqn:E; [by exists k|].
    assert (match Blk.hd_interrupt (fun _ _ => 0x51) first_drive with Ok _ => true | Err _ => false end = true) as C
      by (vm_compute; reflexivity). rewrite E in C. discriminate C. }
  exists k. split; [exact E|].
  apply (hd_interrupt_transparent (fun _ => 5) 0x10 0x19000 demo_dpl 0 (fun _ _ => 0x51) (Gate 0x7ad0 8 14 0 true)
    (Cpu demo_inner ∅ first_drive) demo_inner (fun _ => 0x3000)
    (fun h => code_for (fun _ => tt) (fun _ => handler_model (fun _ _ => 0x51) h)) 0 k).
  - by apply demo_timer_ready.
  - intros h. apply code_for_compiled. lia.
  - exact E.
Defined.
