(* ===== verification/Messages.v ===== *)
(** * Messages

    [printk] and [printm] of kernel/printk.c from the format to the serial line:
    the formatter (Vsprintf.v), the log buffer and its drain (Log.v) composed;
    and the messages of the user half of [main] of init/main.c, which run once in
    the parent and once in the child. *)
From S2P Require Import Prelude Words Vsprintf Log.

Section messages.
(** The memory strings are read from, for [%s]. *)
Variable strings : Z -> option (list Z).
(** The interrupt flag, and the answers of the line while a text waits. *)
Variables (interrupts : bool) (env : list (list bool)).

Definition print (format : list Z -> list Z -> outcome (list Z)) (fmt args : list Z) : M log Z :=
  match format fmt args with
  | Ok buf => log_buf buf interrupts env;; mret (Z.of_nat (length buf))
  | Err f => stop f
  end.

Definition printk (fmt args : list Z) : M log Z := print (Vsprintf.printk strings) fmt args.
Definition printm (fmt args : list Z) : M log Z := print (Vsprintf.printm strings) fmt args.

Definition newline : list Z := [10].

(** A message: the format and the arguments. *)
Definition message : Type := list Z * list Z.

(** What [main] prints after [move_to_user_mode], and after [fork()] returned
    [pid]; [kdebug()] and the endless loop [asmbp()] follow. *)
Definition before_fork : M log Z := printm (str "printk from user space" ++ newline) [].
Definition after_fork (pid : Z) : list message :=
  [(str "return from fork() pid = " ++ str "%d" ++ newline, [pid]); (str "hello world" ++ newline, [])].

(** *** Two processes and the timer

    [log_buf] reaches [log_buffer] through selector 0x1b, whose segment starts at 0
    ([log_segment] of Head.v) whatever task runs: all tasks write one log, the one the timer
    drains.  A message is one step here; Log.v has what can happen when a task is
    interrupted inside it. *)
Inductive event := Parent | Child | Timer (polls : list bool).

#[export] Instance event_eq_dec : EqDecision event.
Proof. solve_decision. Defined.

Definition state : Type := log * list message * list message.

Definition exec (e : event) (st : state) : outcome state :=
  let '(s, ps, cs) := st in
  match e, ps, cs with
  | Parent, m :: ps, _ => match printm m.1 m.2 s with Ok (s, _) => Ok (s, ps, cs) | Err f => Err f end
  | Child, _, m :: cs => match printm m.1 m.2 s with Ok (s, _) => Ok (s, ps, cs) | Err f => Err f end
  | Timer polls, _, _ => match sync_log_buf_2 0 polls s with Ok (s, _) => Ok (s, ps, cs) | Err f => Err f end
  | _, _, _ => Ok st
  end.

Fixpoint run (es : list event) (st : state) : outcome state :=
  match es with
  | [] => Ok st
  | e :: es => match exec e st with Ok st => run es st | Err f => Err f end
  end.

(** ** One message *)

(** A text the log has room for. *)
Lemma print_eq format fmt args buf s : format fmt args = Ok buf -> wf_log s -> has_room s buf ->
  print format fmt args s = Ok (logged s buf, Z.of_nat (length buf)).
Proof.
  intros E Hw Hr. unfold print. rewrite E. by rewrite (bind_ok _ _ _ _ _ (log_buf_room s buf interrupts env Hw Hr)).
Qed.

(** A decimal numeral has at most 11 characters, none of them 0. *)
Lemma decimal_length a : (length (decimal (s32 a)) ≤ 11)%nat.
Proof.
  pose proof (s32_range a) as Ha.
  assert (forall n, - 2 ^ 31 ≤ n < 2 ^ 31 -> (length (digits_of 0 10 n) ≤ 10)%nat) as Hd.
  { intros n Hn. unfold digits_of. case_decide; [cbn; lia|]. rewrite length_rev.
    apply low_digits_length; [lia|]. pose proof (u32_range n). lia. }
  unfold decimal. case_decide; cbn [length]; [specialize (Hd (s32 (- s32 a)) (s32_range _))|specialize (Hd (s32 a) Ha)]; lia.
Qed.

Lemma decimal_bytes a : Forall (fun b => 0 < b < 256) (decimal a).
Proof.
  assert (forall n, Forall (fun b => 0 < b < 256) (digits_of 0 10 n)) as Hd.
  { intros n. eapply list.Forall_impl; [apply digits_of_decimal|]. intros c Hc. unfold is_digit, c_zero, c_nine in Hc.
    cbv beta in *. lia. }
  unfold decimal. case_decide; [constructor; [lia|apply Hd]|apply Hd].
Qed.

Definition text (l : list Z) : Prop := literal l /\ Forall (fun b => 0 < b < 256) l.

(** After a message the log has [text] more to send. *)
Definition said (s s' : log) (t : list Z) : Prop := wf_log s' /\ pending s' = pending s ++ t /\
  limit s' = limit s + Z.of_nat (length t) /\ offset s' = offset s /\ sent s' = sent s.

Lemma said_trans s1 s2 s3 t1 t2 : said s1 s2 t1 -> said s2 s3 t2 -> said s1 s3 (t1 ++ t2).
Proof.
  intros (_ & Hp1 & Hl1 & Ho1 & Hs1) (Hw & Hp2 & Hl2 & Ho2 & Hs2). split; [done|].
  rewrite Hp2, Hp1, length_app, app_assoc, Hs2, Ho2. split; [done|]. split; [lia|done].
Qed.

Lemma logged_said s t : wf_log s -> has_room s t -> Forall (fun b => 0 < b < 256) t -> said s (logged s t) t.
Proof.
  intros Hw Hr Ht. split; [apply wf_logged; [done..|]|split; [by apply pending_logged|done]].
  eapply list.Forall_impl; [exact Ht|]. cbv beta. lia.
Qed.

Lemma print_into_ok n fmt a buf stores : vsprintf strings fmt a = Ok (buf, stores) -> Z.of_nat (length buf) < n ->
  print_into strings n fmt a = Ok buf.
Proof. intros E Hn. unfold print_into. rewrite E. by rewrite decide_False by lia. Qed.

(** A message without directives, and one with [%d], that fit the 128 bytes. *)
Lemma printm_text t s : text t -> Z.of_nat (length t) < 128 -> wf_log s -> has_room s t ->
  exists s', printm t [] s = Ok (s', Z.of_nat (length t)) /\ said s s' t.
Proof.
  intros [Hl Hb] Hn Hw Hr. exists (logged s t). split; [|by apply logged_said].
  apply print_eq; [|done..]. eapply print_into_ok; [by apply vsprintf_literal|done].
Qed.

Lemma printm_decimal pre post a s : text pre -> text post ->
  let t := pre ++ decimal (s32 a) ++ post in
  Z.of_nat (length t) < 128 -> wf_log s -> has_room s t ->
  exists s', printm (pre ++ str "%d" ++ post) [a] s = Ok (s', Z.of_nat (length t)) /\ said s s' t.
Proof.
  intros [Hl1 Hb1] [Hl2 Hb2] t Hn Hw Hr. exists (logged s t). split.
  - apply print_eq; [|done..]. eapply print_into_ok; [by apply vsprintf_one_decimal|done].
  - apply logged_said; [done..|]. repeat apply list.Forall_app_2; [done|apply decimal_bytes|done].
Qed.

(** The drain keeps the bytes in their order. *)
Lemma drain_keeps polls s : wf_log s -> exists s', sync_log_buf_2 0 polls s = Ok (s', tt) /\ wf_log s' /\
  sent s' ++ pending s' = sent s ++ pending s /\ limit s' ≤ limit s /\
  exists k, pending s' = drop k (pending s).
Proof.
  intros Hw. pose proof (sends_le 0 polls (pending s)) as Hk. eexists. split; [by apply sync_eq|].
  split; [by apply wf_drained|]. rewrite pending_drained by done.
  split; [|split; [|by eexists]].
  - unfold drained. cbn [sent]. by rewrite <-app_assoc, take_drop.
  - unfold drained. cbn [limit]. destruct Hw as [Ho Hor _ _ _]. case_bool_decide; lia.
Qed.

(** When the line takes every byte. *)
Lemma drain_all_said s : wf_log s -> Forall (fun b => 0 < b < 256) (pending s) ->
  sync_log_buf_2 0 (replicate (length (pending s)) true) s = Ok (Log 0 0 (data s) (sent s ++ pending s), tt).
Proof.
  intros Hw Hb. rewrite (sync_eq _ _ _ Hw), sends_all.
  - unfold drained. by rewrite bool_decide_eq_true_2, firstn_all by done.
  - eapply list.Forall_impl; [exact Hb|]. cbv beta. lia.
Qed.

(** ** The messages of [main] *)

Definition greeting : list Z := str "printk from user space" ++ newline.
Definition lines (pid : Z) : list (list Z) :=
  [str "return from fork() pid = " ++ decimal (s32 pid) ++ newline; str "hello world" ++ newline].

(** [h] has the elements of [l1] and of [l2], each in their order. *)
Inductive merged {A} : list A -> list A -> list A -> Prop :=
| merged_nil : merged [] [] []
| merged_l x l1 l2 h : merged l1 l2 h -> merged (x :: l1) l2 (x :: h)
| merged_r x l1 l2 h : merged l1 l2 h -> merged l1 (x :: l2) (x :: h).

Definition parents (es : list event) : nat := length (filter (fun e => e = Parent) es).
Definition childs (es : list event) : nat := length (filter (fun e => e = Child) es).

Lemma text_bool l : bool_decide (Forall (fun c => c <> c_percent /\ 0 < c < 256) l) = true -> text l.
Proof. intros H%bool_decide_eq_true_1. split; (eapply list.Forall_impl; [exact H|]); by intros ? []. Qed.

(** Message [m] prints the text [t]. *)
Definition prints (m : message) (t : list Z) : Prop := Forall (fun b => 0 < b < 256) t /\
  forall s, wf_log s -> has_room s t -> exists s' n, printm m.1 m.2 s = Ok (s', n) /\ said s s' t.

Lemma after_fork_prints pid : Forall2 prints (after_fork pid) (lines pid).
Proof.
  pose proof (decimal_length pid) as Hd. constructor; [|constructor; [|constructor]]; split.
  - repeat apply list.Forall_app_2; (apply decimal_bytes || by apply text_bool).
  - intros s Hw Hr. destruct (printm_decimal (str "return from fork() pid = ") newline pid s) as (s' & E & H);
      [by apply text_bool|by apply text_bool| |done|done|].
    + rewrite !length_app. cbn. lia.
    + exists s'. eexists. split; [exact E|exact H].
  - by apply text_bool.
  - intros s Hw Hr. destruct (printm_text (str "hello world" ++ newline) s) as (s' & E & H);
      [by apply text_bool|done|done|done|].
    exists s'. eexists. split; [exact E|exact H].
Qed.

(** What holds between two steps: [all] is what was sent and is pending, [room] what is
    still to come. *)
Record between (s : log) (all : list Z) (room : Z) : Prop := {
  bt_wf : wf_log s;
  bt_bytes : Forall (fun b => 0 < b < 256) (pending s);
  bt_all : sent s ++ pending s = all;
  bt_room : limit s + room ≤ buffer_size
}.

Lemma between_prints m t s all room : prints m t -> between s all (Z.of_nat (length t) + room) -> 0 ≤ room ->
  exists s' n, printm m.1 m.2 s = Ok (s', n) /\ between s' (all ++ t) room.
Proof.
  intros [Hb Hp] [Hw Hbs Ha Hr] H0. destruct (Hp s Hw) as (s' & n & E & Hw' & Hpe & Hl & _ & Hs).
  { unfold has_room. lia. }
  exists s', n. split; [exact E|]. constructor; [done| | |lia].
  - rewrite Hpe. by apply list.Forall_app_2.
  - by rewrite Hs, Hpe, app_assoc, Ha.
Qed.

Lemma between_drain polls s all room : between s all room ->
  exists s', sync_log_buf_2 0 polls s = Ok (s', tt) /\ between s' all room.
Proof.
  intros [Hw Hb Ha Hr]. destruct (drain_keeps polls s Hw) as (s' & E & Hw' & Ha' & Hl & k & Hk).
  exists s'. split; [exact E|]. constructor; [done| |by rewrite Ha'|lia]. rewrite Hk. by apply Forall_drop.
Qed.

Abbreviation size ts := (Z.of_nat (length (concat ts))).

Lemma run_merged es : forall s ps cs tp tc all,
  Forall2 prints ps tp -> Forall2 prints cs tc -> between s all (size tp + size tc) ->
  let i := Nat.min (parents es) (length tp) in
  let j := Nat.min (childs es) (length tc) in
  exists s' h, run es (s, ps, cs) = Ok (s', drop i ps, drop j cs) /\
    merged (take i tp) (take j tc) h /\ between s' (all ++ concat h) 0.
Proof.
  induction es as [|e es IH]; intros s ps cs tp tc all Hp Hc Hs; cbn [run].
  { exists s, []. split; [done|]. split; [constructor|]. cbn [concat]. rewrite app_nil_r. destruct Hs. constructor; [done..|lia]. }
  unfold parents, childs. destruct e as [| |polls]; cbn [exec].
  - rewrite filter_cons_True, filter_cons_False by done. cbn [length]. destruct Hp as [|m t ps tp Hm Hp].
    + destruct (IH s [] cs [] tc all) as (s' & h & E & Hh & Hb); [constructor|done|done|].
      exists s', h. cbn [length] in *. by rewrite !Nat.min_0_r in *.
    + cbn [concat] in Hs. rewrite length_app, Nat2Z.inj_add in Hs.
      destruct (between_prints m t s all (size tp + size tc) Hm) as (s1 & n & E1 & H1).
      { replace (Z.of_nat (length t) + (size tp + size tc)) with (Z.of_nat (length t) + size tp + size tc) by lia. exact Hs. }
      { lia. }
      rewrite E1. destruct (IH s1 ps cs tp tc _ Hp Hc H1) as (s' & h & E & Hh & Hb).
      exists s', (t :: h). split; [exact E|]. split; [by constructor|]. cbn [concat]. by rewrite app_assoc.
  - rewrite filter_cons_False, filter_cons_True by done. cbn [length]. destruct Hc as [|m t cs tc Hm Hc].
    + destruct (IH s ps [] tp [] all) as (s' & h & E & Hh & Hb); [done|constructor|done|].
      exists s', h. cbn [length] in *. rewrite !Nat.min_0_r in *. by destruct ps.
    + cbn [concat] in Hs. rewrite length_app, Nat2Z.inj_add in Hs.
      destruct (between_prints m t s all (size tp + size tc) Hm) as (s1 & n & E1 & H1).
      { replace (Z.of_nat (length t) + (size tp + size tc)) with (size tp + (Z.of_nat (length t) + size tc)) by lia. exact Hs. }
      { lia. }
      assert (exec Child (s, ps, m :: cs) = Ok (s1, ps, cs)) as Ex by (cbn [exec]; rewrite E1; by destruct ps).
      cbn [exec] in Ex. rewrite Ex. destruct (IH s1 ps cs tp tc _ Hp Hc H1) as (s' & h & E & Hh & Hb).
      exists s', (t :: h). split; [exact E|]. split; [by constructor|]. cbn [concat]. by rewrite app_assoc.
  - rewrite !filter_cons_False by done. destruct (between_drain polls s all _ Hs) as (s1 & E1 & H1).
    assert (exec (Timer polls) (s, ps, cs) = Ok (s1, ps, cs)) as Ex by (cbn [exec]; rewrite E1; by destruct ps, cs).
    cbn [exec] in Ex. rewrite Ex. exact (IH s1 ps cs tp tc all Hp Hc H1).
Qed.

(** C38.  What the user half of [main] prints.  With 121 bytes of room in the log no
    message waits or overruns the 128 bytes of [printm].  Parent and child run the
    same code behind [fork()], their messages in any order with timer interrupts
    in between, and share the log: what was sent and is pending is always what it was
    before [main] printed, the greeting, and the messages printed so far, those of
    each process in their order; a timer interrupt whose line takes every byte sends
    all of it. *)
Theorem main_messages pid s es : wf_log s -> Forall (fun b => 0 < b < 256) (pending s) -> limit s + 121 ≤ buffer_size ->
  let i := Nat.min (parents es) 2 in
  let j := Nat.min (childs es) 2 in
  exists s1 n s' h, before_fork s = Ok (s1, n) /\
    run es (s1, after_fork pid, after_fork 0) = Ok (s', drop i (after_fork pid), drop j (after_fork 0)) /\
    merged (take i (lines pid)) (take j (lines 0)) h /\
    sent s' ++ pending s' = sent s ++ pending s ++ greeting ++ concat h /\
    exists s2, sync_log_buf_2 0 (replicate (length (pending s')) true) s' = Ok (s2, tt) /\
      sent s2 = sent s ++ pending s ++ greeting ++ concat h /\ pending s2 = [].
Proof.
  intros Hw Hb Hr. destruct (printm_text greeting s) as (s1 & E1 & Hw1 & Hp1 & Hl1 & _ & Hs1);
    [by apply text_bool|by cbn|done|unfold has_room; cbn; lia|].
  assert (between s1 (sent s ++ pending s ++ greeting) (size (lines pid) + size (lines 0))) as H1.
  { constructor; [done| |by rewrite Hs1, Hp1|].
    - rewrite Hp1. apply list.Forall_app_2; [done|by apply text_bool].
    - rewrite Hl1. pose proof (decimal_length pid). pose proof (decimal_length 0).
      unfold lines. cbn [concat]. rewrite !length_app. cbn. cbn in Hr. lia. }
  destruct (run_merged es s1 _ _ _ _ _ (after_fork_prints pid) (after_fork_prints 0) H1) as (s' & h & E & Hh & [Hw' Hb' Ha' _]).
  exists s1, (Z.of_nat (length greeting)), s', h. split; [exact E1|]. split; [exact E|]. split; [exact Hh|].
  split; [rewrite Ha'; by rewrite <-!app_assoc|].
  eexists. split; [by apply drain_all_said|]. cbn [sent]. split; [rewrite Ha'; by rewrite <-!app_assoc|done].
Qed.
End messages.

(** ** Witnesses *)

(** From the empty log, with 1 as the pid of the child, which runs first. *)
Lemma main_messages_witness :
  exists s1 n s' h, before_fork (fun _ => None) true [] init_log = Ok (s1, n) /\
    run (fun _ => None) true [] [Child; Timer [true; true]; Parent; Child; Parent] (s1, after_fork 1, after_fork 0) =
      Ok (s', [], []) /\
    merged (lines 1) (lines 0) h /\ sent s' ++ pending s' = greeting ++ concat h.
Proof.
  destruct (main_messages (fun _ => None) true [] 1 init_log [Child; Timer [true; true]; Parent; Child; Parent] wf_init)
    as (s1 & n & s' & h & E1 & E2 & Hm & Hs & _).
  - constructor.
  - vm_compute. discriminate.
  - exists s1, n, s', h. split; [exact E1|]. split; [exact E2|]. split; [exact Hm|exact Hs].
Defined.
