(* ===== verification/Layout.v ===== *)
(** * Structures in memory

    The records of the other files stand for C structures.  This file gives the
    structures their bytes, the way the compiler for this machine lays them out,
    and proves that a record is a faithful view of them: assigning a member
    changes that member and no other, copying a structure copies every member.
    Assembly that uses offsets of its own (kernel/sys_call.s, the task switch of
    the processor, [mm/memory.c] for the size of a page) finds the members it
    means.  Structures no function uses yet (inodes, super blocks, files) get
    their layout too: those on disk have the sizes the block size divides by. *)
From S2P Require Import Prelude Words Descriptors Memory Sched Task Buffer.

(** ** Types

    An integer or pointer of [size] bytes, an array, a structure. *)
#[warnings="-register-all"]
Inductive ctype :=
| Int (size : nat)
| Arr (t : ctype) (n : nat)
| Struct (ms : list (string * ctype)).

(** A type once it is laid out: its alignment, its size, and the offset and size
    of each integer in it. *)
Record shape := Shape { alignof : Z; sizeof : Z; slots_of : list (Z * nat) }.

Definition shift (o : Z) (l : list (Z * nat)) : list (Z * nat) := (fun s => (o + s.1, s.2)) <$> l.

(** Members in order, each at the next multiple of its alignment; the offsets
    and the end. *)
Fixpoint place (off : Z) (l : list shape) : list Z * Z :=
  match l with
  | [] => ([], off)
  | s :: l => let o := align_up off (alignof s) in let '(os, e) := place (o + sizeof s) l in (o :: os, e)
  end.

Fixpoint copies (n : nat) (off : Z) (s : shape) : list (Z * nat) :=
  match n with
  | 0%nat => []
  | S n => shift off (slots_of s) ++ copies n (off + sizeof s) s
  end.

Definition struct_shape (l : list shape) : shape :=
  let al := foldr (fun s a => Z.max (alignof s) a) 1 l in
  let '(os, e) := place 0 l in
  Shape al (align_up e al) (concat (zip_with (fun o s => shift o (slots_of s)) os l)).

Fixpoint shape_of (t : ctype) : shape :=
  match t with
  | Int n => Shape (Z.of_nat n) (Z.of_nat n) [(0, n)]
  | Arr t n => Shape (alignof (shape_of t)) (Z.of_nat n * sizeof (shape_of t)) (copies n 0 (shape_of t))
  | Struct ms => struct_shape (map (fun m => shape_of m.2) ms)
  end.

Definition type_size (t : ctype) : Z := sizeof (shape_of t).
Definition type_slots (t : ctype) : list (Z * nat) := slots_of (shape_of t).

(** [offsetof(t, name)] *)
Definition offsetof (t : ctype) (name : string) : option Z :=
  match t with
  | Struct ms => '(i, _) ← list_find (fun m => m.1 = name) ms; (place 0 (map (fun m => shape_of m.2) ms)).1 !! i
  | _ => None
  end.

(** The machine's integers have 1, 2 or 4 bytes. *)
Fixpoint machine_type (t : ctype) : Prop :=
  match t with
  | Int n => n = 1%nat \/ n = 2%nat \/ n = 4%nat
  | Arr t _ => machine_type t
  | Struct ms => foldr (fun m P => machine_type m.2 /\ P) True ms
  end.

(** Induction over a type and the types of its members. *)
Lemma ctype_members_ind (P : ctype -> Prop) :
  (forall n, P (Int n)) -> (forall t n, P t -> P (Arr t n)) -> (forall ms, Forall (fun m => P m.2) ms -> P (Struct ms)) ->
  forall t, P t.
Proof.
  intros HI HA HS. fix IH 1. intros [n|t n|ms]; [apply HI|apply HA, IH|]. apply HS.
  induction ms as [|[x t] ms IHms]; constructor; [apply IH|exact IHms].
Qed.

(** ** Slots are aligned and do not overlap *)

(** The slots [l] lie in order between [lo] and [hi]. *)
Fixpoint packed (lo : Z) (l : list (Z * nat)) (hi : Z) : Prop :=
  match l with
  | [] => lo ≤ hi
  | (o, n) :: l => lo ≤ o /\ (0 < n)%nat /\ packed (o + Z.of_nat n) l hi
  end.

Lemma packed_le l : forall lo hi, packed lo l hi -> lo ≤ hi.
Proof. induction l as [|[o n] l IH]; intros lo hi; [done|]. intros (H1 & H2 & H3%IH). lia. Qed.

Lemma packed_lower l lo lo' hi : lo' ≤ lo -> packed lo l hi -> packed lo' l hi.
Proof. destruct l as [|[o n] l]; cbn; intuition lia. Qed.

Lemma packed_upper l : forall lo hi hi', hi ≤ hi' -> packed lo l hi -> packed lo l hi'.
Proof. induction l as [|[o n] l IH]; intros lo hi hi' Hle; cbn; [lia|]. intros (? & ? & ?). eauto. Qed.

Lemma packed_app l1 : forall lo mid l2 hi, packed lo l1 mid -> packed mid l2 hi -> packed lo (l1 ++ l2) hi.
Proof.
  induction l1 as [|[o n] l1 IH]; intros lo mid l2 hi; cbn; [by apply packed_lower|].
  intros (? & ? & ?) ?. eauto.
Qed.

Lemma packed_shift x l : forall lo hi, packed lo l hi -> packed (x + lo) (shift x l) (x + hi).
Proof.
  induction l as [|[o n] l IH]; intros lo hi; cbn; [lia|]. intros (? & ? & ?). repeat split; [lia|done|].
  replace (x + o + Z.of_nat n) with (x + (o + Z.of_nat n)) by lia. by apply IH.
Qed.

Lemma packed_slot l : forall lo hi i o n, packed lo l hi -> l !! i = Some (o, n) -> lo ≤ o /\ o + Z.of_nat n ≤ hi.
Proof.
  induction l as [|[o' n'] l IH]; intros lo hi i o n; [done|]. intros (? & ? & Hl) Hi.
  destruct i as [|i]; cbn in Hi; [injection Hi as -> ->; apply packed_le in Hl; lia|].
  destruct (IH _ _ _ _ _ Hl Hi). lia.
Qed.

Lemma packed_order l : forall lo hi i j o n o' n', packed lo l hi -> (i < j)%nat ->
  l !! i = Some (o, n) -> l !! j = Some (o', n') -> o + Z.of_nat n ≤ o'.
Proof.
  induction l as [|[p m] l IH]; intros lo hi i j o n o' n'; [done|]. intros (? & ? & Hl) Hij Hi Hj.
  destruct j as [|j]; [lia|]. destruct i as [|i]; cbn in Hi, Hj.
  - injection Hi as -> ->. by destruct (packed_slot _ _ _ _ _ _ Hl Hj).
  - apply (IH _ _ i j o n o' n' Hl); [lia|done..].
Qed.

(** Alignments are 1, 2 or 4. *)
Definition alignment (a : Z) : Prop := a = 1 \/ a = 2 \/ a = 4.

Lemma alignment_max a b : alignment a -> alignment b -> alignment (Z.max a b) /\ (a | Z.max a b) /\ (b | Z.max a b).
Proof.
  unfold alignment. intros [-> | [-> | ->]] [-> | [-> | ->]]; cbn [Z.max Z.compare Pos.compare Pos.compare_cont];
    (split; [tauto|split; apply Z.mod_divide; done]).
Qed.

Lemma align_up_spec x a : 0 < a -> x ≤ align_up x a < x + a /\ (a | align_up x a).
Proof.
  intros Ha. unfold align_up. split; [|by exists ((x + a - 1) / a)].
  pose proof (Z.div_mod (x + a - 1) a ltac:(lia)). pose proof (Z.mod_pos_bound (x + a - 1) a Ha). nia.
Qed.

(** What a laid-out type satisfies. *)
Record laid_out (s : shape) : Prop := {
  lo_align : alignment (alignof s);
  lo_size : 0 ≤ sizeof s;
  lo_whole : (alignof s | sizeof s);
  lo_packed : packed 0 (slots_of s) (sizeof s);
  lo_slots : forall i o n, slots_of s !! i = Some (o, n) -> (Z.of_nat n | o) /\ (Z.of_nat n | alignof s)
}.

Lemma shift_lookup x l i o n : shift x l !! i = Some (o, n) -> exists o', l !! i = Some (o', n) /\ o = x + o'.
Proof. unfold shift. rewrite list_lookup_fmap. intros ([o' n'] & -> & E)%fmap_Some. injection E as -> ->. by exists o'. Qed.

Lemma laid_shift x s i o n : laid_out s -> (alignof s | x) -> shift x (slots_of s) !! i = Some (o, n) ->
  (Z.of_nat n | o) /\ (Z.of_nat n | alignof s).
Proof.
  intros Hs Hx (o' & Hi & ->)%shift_lookup. destruct (lo_slots _ Hs _ _ _ Hi) as [H1 H2].
  split; [|done]. apply Z.divide_add_r; [by transitivity (alignof s)|done].
Qed.

Lemma laid_int n : machine_type (Int n) -> laid_out (shape_of (Int n)).
Proof.
  intros Hn. constructor; cbn.
  - unfold alignment. destruct Hn as [-> | [-> | ->]]; cbn; lia.
  - lia.
  - done.
  - destruct Hn as [-> | [-> | ->]]; lia.
  - intros [|i] o m; [|done]. intros E. injection E as <- <-. split; [by exists 0|done].
Qed.

Lemma copies_packed s n : forall x, laid_out s -> packed x (copies n x s) (x + Z.of_nat n * sizeof s).
Proof.
  induction n as [|n IH]; intros x Hs; cbn [copies]; [cbn; lia|].
  apply (packed_app _ _ (x + sizeof s)).
  - pose proof (packed_shift x _ _ _ (lo_packed _ Hs)) as H. by rewrite Z.add_0_r in H.
  - replace (x + Z.of_nat (S n) * sizeof s) with (x + sizeof s + Z.of_nat n * sizeof s) by lia. by apply IH.
Qed.

Lemma copies_slots s n : forall x i o m, laid_out s -> (alignof s | x) -> copies n x s !! i = Some (o, m) ->
  (Z.of_nat m | o) /\ (Z.of_nat m | alignof s).
Proof.
  induction n as [|n IH]; intros x i o m Hs Hx; [done|]. cbn [copies]. intros [Hi|[_ Hi]]%lookup_app_Some.
  - by apply (laid_shift x s i).
  - refine (IH (x + sizeof s) _ o m Hs _ Hi). apply Z.divide_add_r; [done|apply (lo_whole _ Hs)].
Qed.

Lemma laid_array t n : laid_out (shape_of t) -> laid_out (shape_of (Arr t n)).
Proof.
  intros Hs. constructor; cbn [shape_of alignof sizeof slots_of].
  - apply (lo_align _ Hs).
  - pose proof (lo_size _ Hs). nia.
  - apply Z.divide_mul_r, (lo_whole _ Hs).
  - pose proof (copies_packed (shape_of t) n 0 Hs) as H. by rewrite Z.add_0_l in H.
  - intros i o m. apply copies_slots; [done|by exists 0].
Qed.

(** Members of a structure. *)
Lemma place_packed l : forall off os e, Forall laid_out l -> place off l = (os, e) ->
  off ≤ e /\ packed off (concat (zip_with (fun o s => shift o (slots_of s)) os l)) e /\
  Forall2 (fun o s => (alignof s | o) /\ off ≤ o /\ o + sizeof s ≤ e) os l.
Proof.
  induction l as [|s l IH]; intros off os e Hl; cbn [place].
  - intros E. injection E as <- <-. cbn. repeat split; [lia..|constructor].
  - inversion Hl as [|? ? Hs Hl']; subst. clear Hl; rename Hl' into Hl. destruct (place _ l) as [os' e'] eqn:E. intros E'. injection E' as <- <-.
    assert (0 < alignof s) as Ha by (destruct (lo_align _ Hs) as [-> | [-> | ->]]; lia).
    destruct (align_up_spec off (alignof s) Ha) as [Hb Hd]. pose proof (lo_size _ Hs).
    destruct (IH _ _ _ Hl E) as (H1 & H2 & H3). split; [lia|]. split.
    + cbn [zip_with concat]. apply (packed_app _ _ (align_up off (alignof s) + sizeof s)); [|exact H2].
      apply (packed_lower _ (align_up off (alignof s))); [lia|].
      pose proof (packed_shift (align_up off (alignof s)) _ _ _ (lo_packed _ Hs)) as Hsh. by rewrite Z.add_0_r in Hsh.
    + constructor; [split; [done|lia]|]. refine (list.Forall2_impl _ _ _ _ H3 _). intros x y (? & ? & ?). split; [done|lia].
Qed.

Lemma foldr_alignment l : Forall laid_out l ->
  alignment (foldr (fun s a => Z.max (alignof s) a) 1 l) /\
  Forall (fun s => (alignof s | foldr (fun s a => Z.max (alignof s) a) 1 l)) l.
Proof.
  induction 1 as [|s l Hs _ [IH1 IH2]]; cbn [foldr]; [split; [by left|constructor]|].
  destruct (alignment_max _ _ (lo_align _ Hs) IH1) as (H1 & H2 & H3). split; [exact H1|]. constructor; [exact H2|].
  refine (list.Forall_impl _ _ _ IH2 _). intros x Hx. by etransitivity.
Qed.

Lemma laid_struct l : Forall laid_out l -> laid_out (struct_shape l).
Proof.
  intros Hl. destruct (foldr_alignment l Hl) as [Hal Hdiv]. unfold struct_shape.
  set (al := foldr _ 1 l) in *. destruct (place 0 l) as [os e] eqn:E.
  destruct (place_packed l 0 os e Hl E) as (He & Hp & Hos).
  assert (0 < al) as Ha by (destruct Hal as [-> | [-> | ->]]; lia). destruct (align_up_spec e al Ha) as [Hb Hd].
  constructor; cbn [alignof sizeof slots_of]; [done|lia|done|by eapply packed_upper; [|exact Hp]; lia|].
  intros i o n. clear E Hp Hb Hd He Hal. clearbody al. revert i. induction Hos as [|x s os l [Hx _] Hos IH]; [done|]. cbn [zip_with concat].
  inversion Hl as [|? ? Hs Hl']; inversion Hdiv as [|? ? Hsd Hdiv']; subst. intros i [Hi|[_ Hi]]%lookup_app_Some.
  - destruct (laid_shift x s i o n Hs Hx Hi). split; [done|by etransitivity].
  - exact (IH Hl' Hdiv' _ Hi).
Qed.

(** Every machine type is laid out: its integers are aligned, do not overlap and
    lie within its size. *)
Lemma shape_laid_out t : machine_type t -> laid_out (shape_of t).
Proof.
  induction t as [n|t n IH|ms IH] using ctype_members_ind; intros Ht; [by apply laid_int|by apply laid_array, IH|].
  apply laid_struct. induction IH as [|m ms Hm _ IH']; [constructor|]. destruct Ht as [H1 H2].
  constructor; [by apply Hm|by apply IH'].
Qed.

(** ** Loads and stores

    A memory of bytes; the machine is little-endian.  An object lies below 4 GB
    and does not wrap around. *)
Definition memory : Type := Z -> Z.

Fixpoint load (m : memory) (a : Z) (n : nat) : Z :=
  match n with
  | 0%nat => 0
  | S n => m a + 256 * load m (a + 1) n
  end.

Definition store (a : Z) (n : nat) (v : Z) (m : memory) : memory := fun x =>
  if decide (a ≤ x < a + Z.of_nat n) then v / 256 ^ (x - a) mod 256 else m x.

(** Copying [n] bytes to [dst], where the ranges do not overlap. *)
Definition copy_bytes (dst src n : Z) (m : memory) : memory := fun x =>
  if decide (dst ≤ x < dst + n) then m (x - dst + src) else m x.

Lemma load_ext m m' a n : (forall x, a ≤ x < a + Z.of_nat n -> m x = m' x) -> load m a n = load m' a n.
Proof.
  revert a. induction n as [|n IH]; intros a H; [done|]. cbn [load]. rewrite H by lia. f_equal. f_equal.
  apply IH. intros x Hx. apply H. lia.
Qed.

Lemma load_bytes m n : forall a v,
  (forall x, a ≤ x < a + Z.of_nat n -> m x = v / 256 ^ (x - a) mod 256) -> load m a n = v mod 256 ^ Z.of_nat n.
Proof.
  induction n as [|n IH]; intros a v H; [cbn; by rewrite Z.mod_1_r|]. cbn [load].
  rewrite H by lia. rewrite Z.sub_diag, Z.pow_0_r, Z.div_1_r. rewrite (IH (a + 1) (v / 256)).
  - rewrite Nat2Z.inj_succ, Z.pow_succ_r by lia. rewrite Z.rem_mul_r by lia. lia.
  - intros x Hx. rewrite H by lia. rewrite Z.div_div by lia. rewrite <-Z.pow_succ_r by lia. do 3 f_equal. lia.
Qed.

Lemma load_store a n v m : load (store a n v m) a n = v mod 256 ^ Z.of_nat n.
Proof. apply load_bytes. intros x Hx. unfold store. by rewrite decide_True. Qed.

Lemma load_store_other a n v m b k : a + Z.of_nat n ≤ b \/ b + Z.of_nat k ≤ a -> load (store a n v m) b k = load m b k.
Proof. intros H. apply load_ext. intros x Hx. unfold store. rewrite decide_False by lia. done. Qed.

Lemma load_copy dst src n m b k : dst ≤ b -> b + Z.of_nat k ≤ dst + n ->
  load (copy_bytes dst src n m) b k = load m (b - dst + src) k.
Proof.
  revert b. induction k as [|k IH]; intros b H1 H2; [done|]. cbn [load]. unfold copy_bytes at 1.
  rewrite decide_True by lia. f_equal. f_equal. rewrite IH by lia. f_equal. lia.
Qed.

(** ** Objects

    The integers of the object of type [t] at [a], and an assignment to the
    [i]-th of them. *)
Definition values (t : ctype) (m : memory) (a : Z) : list Z := (fun s => load m (a + s.1) s.2) <$> type_slots t.

Definition assign (t : ctype) (a : Z) (i : nat) (v : Z) (m : memory) : memory :=
  match type_slots t !! i with
  | Some (o, n) => store (a + o) n v m
  | None => m
  end.

Lemma member_values t m a i o n v :
  machine_type t -> type_slots t !! i = Some (o, n) ->
  values t (assign t a i v m) a = <[i := v mod 256 ^ Z.of_nat n]> (values t m a) /\
  ((alignof (shape_of t) | a) -> (a + o) mod Z.of_nat n = 0) /\
  forall x, x < a \/ a + type_size t ≤ x -> assign t a i v m x = m x.
Proof.
  intros Ht Hi. pose proof (shape_laid_out t Ht) as Hs. unfold assign. rewrite Hi.
  pose proof (lo_packed _ Hs) as Hp. destruct (packed_slot _ _ _ _ _ _ Hp Hi) as [Hlo Hhi]. split; [|split].
  - apply list_eq. intros j. unfold values. rewrite list_lookup_fmap.
    destruct (decide (i = j)) as [<-|Hne].
    + rewrite list_lookup_insert_eq by (rewrite length_fmap; by eapply lookup_lt_Some).
      rewrite Hi. cbn. by rewrite load_store.
    + rewrite list_lookup_insert_ne, list_lookup_fmap by done.
      destruct (type_slots t !! j) as [[o' n']|] eqn:Hj; [|done]. cbn. f_equal. apply load_store_other.
      destruct (decide (i < j)%nat).
      * left. pose proof (packed_order _ _ _ i j _ _ _ _ Hp ltac:(lia) Hi Hj). lia.
      * right. pose proof (packed_order _ _ _ j i _ _ _ _ Hp ltac:(lia) Hj Hi). lia.
  - intros Ha. destruct (lo_slots _ Hs _ _ _ Hi) as [H1 H2]. apply Z.mod_divide.
    + intros H0. destruct (lo_align _ Hs) as [E|[E|E]]; rewrite E, H0 in H2; destruct H2; lia.
    + apply Z.divide_add_r; [by transitivity (alignof (shape_of t))|done].
  - intros x Hx. unfold store. rewrite decide_False; [done|]. unfold type_size in Hx. lia.
Qed.

(** [*dst = *src]: the target holds the values of the source, and the source
    keeps them. *)
Lemma struct_copy t m dst src : machine_type t -> dst + type_size t ≤ src \/ src + type_size t ≤ dst ->
  values t (copy_bytes dst src (type_size t) m) dst = values t m src /\
  values t (copy_bytes dst src (type_size t) m) src = values t m src.
Proof.
  intros Ht Hd. pose proof (lo_packed _ (shape_laid_out t Ht)) as Hp.
  split; apply list_fmap_ext; intros i [o n] Hi; destruct (packed_slot _ _ _ _ _ _ Hp Hi) as [Hlo Hhi];
    cbn [fst snd]; unfold type_size in *.
  - rewrite load_copy by lia. f_equal. lia.
  - apply load_ext. intros x Hx. unfold copy_bytes. rewrite decide_False by lia. done.
Qed.

(** An initialiser: all integers of an object. *)
Fixpoint write_slots (l : list (Z * nat)) (vs : list Z) (a : Z) (m : memory) : memory :=
  match l, vs with
  | (o, n) :: l, v :: vs => write_slots l vs a (store (a + o) n v m)
  | _, _ => m
  end.

Lemma write_slots_other a b k l : forall vs m lo hi, packed lo l hi -> b + Z.of_nat k ≤ a + lo ->
  load (write_slots l vs a m) b k = load m b k.
Proof.
  induction l as [|[o n] l IH]; intros vs m lo hi Hl Hb; [done|]. destruct vs as [|v vs]; [done|].
  destruct Hl as (H1 & H2 & Hl). cbn [write_slots]. rewrite (IH _ _ _ _ Hl) by lia. apply load_store_other. lia.
Qed.

(** Each value fits its integer. *)
Fixpoint fits (l : list (Z * nat)) (vs : list Z) : bool :=
  match l, vs with
  | [], [] => true
  | (_, n) :: l, v :: vs => (0 <=? v) && (v <? 256 ^ Z.of_nat n) && fits l vs
  | _, _ => false
  end.

Lemma write_slots_values a l : forall vs m lo hi, packed lo l hi -> fits l vs = true ->
  (fun s => load (write_slots l vs a m) (a + s.1) s.2) <$> l = vs.
Proof.
  induction l as [|[o n] l IH]; intros [|v vs] m lo hi Hl Hv; try done.
  destruct Hl as (H1 & H2 & Hl). cbn [fits] in Hv. apply andb_true_iff in Hv as [Hr Hv].
  apply andb_true_iff in Hr as [?%Z.leb_le ?%Z.ltb_lt]. cbn [write_slots fmap list_fmap fst snd] in *. f_equal.
  - rewrite (write_slots_other _ _ _ _ _ _ _ _ Hl) by lia. by rewrite load_store, Z.mod_small.
  - exact (IH _ _ _ _ Hl Hv).
Qed.

(** Whatever an object is initialised with is read back. *)
Lemma object_roundtrip t m a vs : machine_type t -> fits (type_slots t) vs = true ->
  values t (write_slots (type_slots t) vs a m) a = vs.
Proof. intros Ht. exact (write_slots_values a _ vs m _ _ (lo_packed _ (shape_laid_out t Ht))). Qed.

(** ** The structures *)

Definition char : ctype := Int 1.
Definition short : ctype := Int 2.
Definition long : ctype := Int 4.
(** Every pointer is a [long]. *)
Definition ptr : ctype := Int 4.

Open Scope string_scope.

(** include/linux/fs.h *)
Definition NAME_LEN : nat := 14.

Definition buffer_head_t : ctype := Struct [
  ("b_data", ptr); ("b_blocknr", long); ("b_dev", short); ("b_uptodate", char); ("b_dirt", char);
  ("b_count", char); ("b_lock", char); ("b_wait", ptr);
  ("b_prev", ptr); ("b_next", ptr); ("b_prev_free", ptr); ("b_next_free", ptr)].

Definition d_inode_t : ctype := Struct [
  ("i_mode", short); ("i_uid", short); ("i_size", long); ("i_time", long); ("i_gid", char); ("i_nlinks", char);
  ("i_zone", Arr short 9)].

Definition m_inode_t : ctype := Struct [
  ("i_mode", short); ("i_uid", short); ("i_size", long); ("i_mtime", long); ("i_gid", char); ("i_nlinks", char);
  ("i_zone", Arr short 9);
  ("i_wait", ptr); ("i_wait2", ptr); ("i_atime", long); ("i_ctime", long); ("i_dev", short); ("i_num", short);
  ("i_count", short); ("i_lock", char); ("i_dirt", char); ("i_pipe", char); ("i_mount", char); ("i_seek", char);
  ("i_update", char)].

Definition file_t : ctype := Struct [
  ("f_mode", short); ("f_flags", short); ("f_count", short); ("f_inode", ptr); ("f_pos", long)].

Definition super_block_t : ctype := Struct [
  ("s_ninodes", short); ("s_nzones", short); ("s_imap_blocks", short); ("s_zmap_blocks", short);
  ("s_firstdatazone", short); ("s_log_zone_size", short); ("s_max_size", long); ("s_magic", short);
  ("s_imap", Arr ptr 8); ("s_zmap", Arr ptr 8); ("s_dev", short); ("s_isup", ptr); ("s_imount", ptr);
  ("s_time", long); ("s_wait", ptr); ("s_lock", char); ("s_rd_only", char); ("s_dirt", char)].

Definition d_super_block_t : ctype := Struct [
  ("s_ninodes", short); ("s_nzones", short); ("s_imap_blocks", short); ("s_zmap_blocks", short);
  ("s_firstdatazone", short); ("s_log_zone_size", short); ("s_max_size", long); ("s_magic", short)].

Definition dir_entry_t : ctype := Struct [("inode", short); ("name", Arr char NAME_LEN)].

Definition INODES_PER_BLOCK : Z := BLOCK_SIZE / type_size d_inode_t.
Definition DIR_ENTRIES_PER_BLOCK : Z := BLOCK_SIZE / type_size dir_entry_t.

(** include/linux/hdreg.h, kernel/blk_drv/blk.h *)
Definition partition_t : ctype := Struct [
  ("boot_ind", char); ("head", char); ("sector", char); ("cyl", char); ("sys_ind", char); ("end_head", char);
  ("end_sector", char); ("end_cyl", char); ("start_sect", long); ("nr_sects", long)].

Definition request_t : ctype := Struct [
  ("dev", long); ("cmd", long); ("errors", long); ("sector", long); ("nr_sectors", long); ("buffer", ptr);
  ("waiting", ptr); ("bh", ptr); ("next", ptr)].

(** include/sys/time.h, sys/resource.h, sys/types.h, time.h *)
Definition timeval_t : ctype := Struct [("tv_sec", long); ("tv_usec", long)].
Definition timezone_t : ctype := Struct [("tz_minuteswest", long); ("tz_dsttime", long)].
Definition itimerval_t : ctype := Struct [("it_interval", timeval_t); ("it_value", timeval_t)].

Definition rusage_t : ctype := Struct [
  ("ru_utime", timeval_t); ("ru_stime", timeval_t); ("ru_maxrss", long); ("ru_ixrss", long); ("ru_idrss", long);
  ("ru_isrss", long); ("ru_minflt", long); ("ru_majflt", long); ("ru_nswap", long); ("ru_inblock", long);
  ("ru_oublock", long); ("ru_msgsnd", long); ("ru_msgrcv", long); ("ru_nsignals", long); ("ru_nvcsw", long);
  ("ru_nivcsw", long)].

Definition rlimit_t : ctype := Struct [("rlim_cur", long); ("rlim_max", long)].
Definition ustat_t : ctype := Struct [("f_tfree", long); ("f_tinode", short); ("f_fname", Arr char 6); ("f_fpack", Arr char 6)].

Definition tm_t : ctype := Struct [
  ("tm_sec", long); ("tm_min", long); ("tm_hour", long); ("tm_mday", long); ("tm_mon", long); ("tm_year", long);
  ("tm_wday", long); ("tm_yday", long); ("tm_isdst", long)].

(** include/signal.h, include/linux/head.h, include/linux/sched.h *)
Definition sigaction_t : ctype := Struct [("sa_handler", ptr); ("sa_mask", long); ("sa_flags", long); ("sa_restorer", ptr)].
Definition desc_t : ctype := Struct [("a", long); ("b", long)].

Definition i387_t : ctype := Struct [
  ("cwd", long); ("swd", long); ("twd", long); ("fip", long); ("fcs", long); ("foo", long); ("fos", long);
  ("st_space", Arr long 20)].

Definition tss_t : ctype := Struct [
  ("back_link", long); ("esp0", long); ("ss0", long); ("esp1", long); ("ss1", long); ("esp2", long); ("ss2", long);
  ("cr3", long); ("eip", long); ("eflags", long); ("eax", long); ("ecx", long); ("edx", long); ("ebx", long);
  ("esp", long); ("ebp", long); ("esi", long); ("edi", long); ("es", long); ("cs", long); ("ss", long); ("ds", long);
  ("fs", long); ("gs", long); ("ldt", long); ("trace_bitmap", long); ("i387", i387_t)].

Definition task_t : ctype := Struct [
  ("state", long); ("counter", long); ("priority", long); ("signal", long);
  ("sigaction", Arr sigaction_t 32); ("blocked", long);
  ("exit_code", long); ("start_code", long); ("end_code", long); ("end_data", long); ("brk", long);
  ("start_stack", long); ("pid", long); ("pgrp", long); ("session", long); ("leader", long);
  ("groups", Arr long 32); ("p_pptr", ptr); ("p_cptr", ptr); ("p_ysptr", ptr); ("p_osptr", ptr);
  ("uid", short); ("euid", short); ("suid", short); ("gid", short); ("egid", short); ("sgid", short);
  ("timeout", long); ("alarm", long); ("utime", long); ("stime", long); ("cutime", long); ("cstime", long);
  ("start_time", long); ("rlim", Arr rlimit_t 6); ("flags", long); ("used_math", short); ("tty", long);
  ("umask", short); ("pwd", ptr); ("root", ptr); ("executable", ptr); ("library", ptr); ("close_on_exec", long);
  ("filp", Arr ptr 20); ("ldt", Arr desc_t 3); ("tss", tss_t)].

(** The two layouts of [task_struct] of this library agree. *)
Lemma task_layouts_agree :
  offsetof task_t "ldt" = Some LDT_OFFSET /\ offsetof task_t "tss" = Some TSS_OFFSET /\ type_size task_t = TASK_STRUCT_SIZE.
Proof. by vm_compute. Qed.

(** The whole directory of structures; each is a machine type. *)
Definition structures : list ctype := [
  buffer_head_t; d_inode_t; m_inode_t; file_t; super_block_t; d_super_block_t; dir_entry_t; partition_t; request_t;
  timeval_t; timezone_t; itimerval_t; rusage_t; rlimit_t; ustat_t; tm_t; sigaction_t; desc_t; i387_t; tss_t; task_t].

Lemma structures_machine t : t ∈ structures -> machine_type t.
Proof.
  revert t. apply list.Forall_forall. repeat (apply List.Forall_cons; [cbn; tauto|]). apply List.Forall_nil.
Qed.

Close Scope string_scope.

(** ** Records as views of structures *)

Class View (R : Type) := { view_type : ctype; words : R -> list Z }.

(** The structure at [a] holds the members of [r]; signed members are there as
    their 32-bit patterns. *)
Definition at_addr {R} `{View R} (m : memory) (a : Z) (r : R) : Prop := values view_type m a = words r.

#[export] Instance view_desc : View desc_struct := {| view_type := desc_t; words d := [u32 (desc_a d); u32 (desc_b d)] |}.

#[export] Instance view_sigaction : View sigaction := {|
  view_type := sigaction_t;
  words r := [u32 (sa_handler r); u32 (sa_mask r); u32 (sa_flags r); u32 (sa_restorer r)]
|}.

#[export] Instance view_rlimit : View rlimit := {|
  view_type := rlimit_t; words r := [u32 (rlim_cur r); u32 (rlim_max r)]
|}.

#[export] Instance view_i387 : View i387_struct := {|
  view_type := i387_t;
  words r := [u32 (cwd r); u32 (swd r); u32 (twd r); u32 (fip r); u32 (fcs r); u32 (foo r); u32 (fos r)] ++ (u32 <$> st_space r)
|}.

#[export] Instance view_tss : View tss_struct := {|
  view_type := tss_t;
  words r := [u32 (back_link r); u32 (esp0 r); u32 (ss0 r); u32 (esp1 r); u32 (ss1 r); u32 (esp2 r); u32 (ss2 r);
    u32 (cr3 r); u32 (eip r); u32 (eflags r); u32 (eax r); u32 (ecx r); u32 (edx r); u32 (ebx r); u32 (esp r);
    u32 (ebp r); u32 (esi r); u32 (edi r); u32 (es r); u32 (cs r); u32 (ss r); u32 (ds r); u32 (fs r); u32 (gs r);
    u32 (tss_ldt r); u32 (trace_bitmap r)] ++ words (i387 r)
|}.

(** The members of a task between its arrays. *)
Definition task_chunks (t : task_struct) : list (list Z) := [
  [u32 (state t); u32 (counter t); u32 (priority t); u32 (signal t)];
  concat (words <$> sigactions t);
  [u32 (blocked t); u32 (exit_code t); u32 (start_code t); u32 (end_code t); u32 (end_data t); u32 (brk t);
   u32 (start_stack t); u32 (pid t); u32 (pgrp t); u32 (session t); u32 (leader t)];
  u32 <$> groups t;
  [u32 (p_pptr t); u32 (p_cptr t); u32 (p_ysptr t); u32 (p_osptr t);
   u16 (uid t); u16 (euid t); u16 (suid t); u16 (gid t); u16 (egid t); u16 (sgid t);
   u32 (timeout t); u32 (alarm t); u32 (utime t); u32 (stime t); u32 (cutime t); u32 (cstime t); u32 (start_time t)];
  concat (words <$> rlim t);
  [u32 (flags t); u16 (used_math t); u32 (tty t); u16 (umask t);
   u32 (pwd t); u32 (root t); u32 (executable t); u32 (library t); u32 (close_on_exec t)];
  u32 <$> filp t;
  concat (words <$> ldt t);
  words (tss t)].

#[export] Instance view_task : View task_struct := {| view_type := task_t; words t := concat (task_chunks t) |}.

#[export] Instance view_head : View buffer_head := {|
  view_type := buffer_head_t;
  words b := [u32 (b_data b); u32 (b_blocknr b); u16 (b_dev b); u8 (b_uptodate b); u8 (b_dirt b); u8 (b_count b);
    u8 (b_lock b); u32 (b_wait b); u32 (b_prev b); u32 (b_next b); u32 (b_prev_free b); u32 (b_next_free b)]
|}.

Section view.
Context {R : Type} `{View R}.

(** Reading a member. *)
Lemma at_read m a (r : R) i o n w : at_addr m a r -> type_slots view_type !! i = Some (o, n) -> words r !! i = Some w ->
  load m (a + o) n = w.
Proof.
  intros Hr Hi Hw. unfold at_addr in Hr. rewrite <-Hr in Hw. unfold values in Hw.
  rewrite list_lookup_fmap, Hi in Hw. by injection Hw.
Qed.

(** Writing a member. *)
Lemma at_write m a (r r' : R) i o n v : machine_type view_type -> at_addr m a r ->
  type_slots view_type !! i = Some (o, n) -> words r' = <[i := v mod 256 ^ Z.of_nat n]> (words r) ->
  at_addr (store (a + o) n v m) a r'.
Proof.
  intros Ht Hr Hi Hw. unfold at_addr in *. destruct (member_values view_type m a i o n v Ht Hi) as (E & _).
  unfold assign in E. rewrite Hi in E. rewrite E, Hr. done.
Qed.

(** Copying a structure. *)
Lemma at_copy m dst src (r : R) : machine_type view_type -> at_addr m src r ->
  dst + type_size view_type ≤ src \/ src + type_size view_type ≤ dst ->
  at_addr (copy_bytes dst src (type_size view_type) m) dst r /\ at_addr (copy_bytes dst src (type_size view_type) m) src r.
Proof. unfold at_addr. intros Ht <- Hd. by apply struct_copy. Qed.
End view.

(** ** What assembly and the processor read *)

(** The offsets kernel/sys_call.s has for the members of a task and of a
    [sigaction]. *)
Definition asm_offsets : list (string * Z) :=
  [("state", 0); ("counter", 4); ("priority", 8); ("signal", 12); ("sigaction", 16); ("blocked", 33 * 16)]%string.
Definition asm_sa_offsets : list (string * Z) :=
  [("sa_handler", 0); ("sa_mask", 4); ("sa_flags", 8); ("sa_restorer", 12)]%string.

Lemma asm_offsets_right :
  Forall (fun p => offsetof task_t p.1 = Some p.2) asm_offsets /\
  Forall (fun p => offsetof sigaction_t p.1 = Some p.2) asm_sa_offsets /\ type_size sigaction_t = 16.
Proof. split; [|split; [|done]]; repeat (apply List.Forall_cons; [done|]); apply List.Forall_nil. Qed.

(** The format of a 32-bit TSS in the manuals of the processor. *)
Definition tss_format : list (Z * (tss_struct -> Z)) := [
  (0, back_link); (4, esp0); (8, ss0); (12, esp1); (16, ss1); (20, esp2); (24, ss2); (28, cr3); (32, eip);
  (36, eflags); (40, eax); (44, ecx); (48, edx); (52, ebx); (56, esp); (60, ebp); (64, esi); (68, edi); (72, es);
  (76, cs); (80, ss); (84, ds); (88, fs); (92, gs); (96, tss_ldt); (100, trace_bitmap)].

(** The arrays of a task have the lengths of their declarations. *)
Record task_arrays (t : task_struct) : Prop := {
  ta_sigaction : length (sigactions t) = 32%nat;
  ta_groups : length (groups t) = 32%nat;
  ta_rlim : length (rlim t) = 6%nat;
  ta_filp : length (filp t) = 20%nat;
  ta_ldt : length (ldt t) = 3%nat
}.

Lemma concat_lookup {A} (ls : list (list A)) : forall j l i, ls !! j = Some l -> (i < length l)%nat ->
  concat ls !! (sum_list (length <$> take j ls) + i)%nat = l !! i.
Proof.
  induction ls as [|l0 ls IH]; intros j l i; [done|]. destruct j as [|j]; cbn; intros Hj Hi.
  - injection Hj as ->. by apply lookup_app_l.
  - rewrite <-Nat.add_assoc, lookup_app_r by lia. rewrite Nat.add_comm, Nat.add_sub. by apply IH.
Qed.

Lemma length_concat_words {R} `{View R} n (l : list R) : (forall r, length (words r) = n) -> length (concat (words <$> l)) = (n * length l)%nat.
Proof. intros Hn. induction l as [|r l IH]; cbn; [lia|]. rewrite length_app, Hn, IH. lia. Qed.

(** Where the chunks of a task begin among its integers. *)
Definition chunk_starts : list nat := [0; 4; 132; 143; 175; 192; 204; 213; 233; 239]%nat.

Lemma task_word t j l i k : task_arrays t -> task_chunks t !! j = Some l -> (i < length l)%nat ->
  chunk_starts !! j = Some k -> words t !! (k + i)%nat = l !! i.
Proof.
  intros Ht Hj Hi Hk. cbn [words view_task]. rewrite <-(concat_lookup _ j l i Hj Hi). f_equal. f_equal.
  assert (length <$> task_chunks t = [4; 128; 11; 32; 17; 12; 9; 20; 6; length (words (tss t))]%nat) as El.
  { destruct Ht as [H1 H2 H3 H4 H5]. unfold task_chunks. cbn [fmap list_fmap].
    rewrite (length_concat_words 4) by done. rewrite !(length_concat_words 2) by done.
    rewrite !length_fmap, H1, H2, H3, H4, H5. reflexivity. }
  rewrite fmap_take, El. revert Hk. clear.
  do 10 (destruct j as [|j]; [intros E; injection E as <-; reflexivity|]). intros E. destruct j; discriminate E.
Qed.

(** The members [ret_from_sys_call] and [system_call] use. *)
Definition asm_reads : list (string * (task_struct -> Z)) :=
  [("state", state); ("counter", counter); ("priority", priority); ("signal", signal); ("blocked", blocked)]%string.

Lemma task_read m p t j l i k o w : at_addr m p t -> task_arrays t -> task_chunks t !! j = Some l ->
  chunk_starts !! j = Some k -> l !! i = Some w -> type_slots task_t !! (k + i)%nat = Some (o, 4%nat) ->
  load m (p + o) 4 = w.
Proof.
  intros Hp Ht Hj Hk Hw Hs. eapply (at_read (R := task_struct)); [exact Hp|exact Hs|].
  rewrite (task_word t j l i k Ht Hj (lookup_lt_Some _ _ _ Hw) Hk). exact Hw.
Qed.

Lemma asm_reads_right m p t : at_addr m p t -> task_arrays t -> forall name get off,
  (name, get) ∈ asm_reads -> (name, off) ∈ asm_offsets -> load m (p + off) 4 = u32 (get t).
Proof.
  intros Hp Ht name get off Hg Ho.
  pose proof (fun i o w => task_read m p t 0 _ i 0 o w Hp Ht eq_refl eq_refl) as H0.
  pose proof (task_read m p t 2 _ 0 132 528 _ Hp Ht eq_refl eq_refl eq_refl eq_refl) as Hb.
  pose proof (H0 0%nat 0 _ eq_refl eq_refl) as H1. pose proof (H0 1%nat 4 _ eq_refl eq_refl) as H2.
  pose proof (H0 2%nat 8 _ eq_refl eq_refl) as H3. pose proof (H0 3%nat 12 _ eq_refl eq_refl) as H4. clear H0 Hp Ht.
  unfold asm_reads, asm_offsets in Hg, Ho. rewrite !elem_of_cons, elem_of_nil in Hg. rewrite !elem_of_cons, elem_of_nil in Ho.
  destruct Hg as [Hg|[Hg|[Hg|[Hg|[Hg|[]]]]]]; injection Hg as -> ->;
    destruct Ho as [Ho|[Ho|[Ho|[Ho|[Ho|[Ho|[]]]]]]]; try discriminate Ho; injection Ho as ->; assumption.
Qed.

Lemma tss_words_format r : words r = ((fun e => u32 (e.2 r)) <$> tss_format) ++ words (i387 r).
Proof. reflexivity. Qed.

Lemma tss_slots_format i off get : tss_format !! i = Some (off, get) ->
  type_slots task_t !! (239 + i)%nat = Some (TSS_OFFSET + off, 4%nat) /\ (i < 26)%nat.
Proof.
  intros Hi. pose proof (lookup_lt_Some _ _ _ Hi) as Hlt. change (length tss_format) with 26%nat in Hlt. split; [|exact Hlt].
  assert (take 26 (drop 239 (type_slots task_t)) = (fun e => (TSS_OFFSET + e.1, 4%nat)) <$> tss_format) as E by (vm_compute; reflexivity).
  apply (f_equal (lookup i)) in E. rewrite list_lookup_fmap, Hi, lookup_take_lt, lookup_drop in E by exact Hlt. exact E.
Qed.

(** C36.  Assembly code and the processor find the members of a task where C put them.
    With a task in memory at [p]: the offsets of kernel/sys_call.s read its
    state, counter, priority, signals and mask, and a store through them is an
    assignment; and the task segment [p->tss], which [_set_tss_desc] gives the
    processor, has the format of the processor's manuals, word by word. *)
Theorem task_members_found m p t : at_addr m p t -> task_arrays t ->
  (forall name get off, (name, get) ∈ asm_reads -> (name, off) ∈ asm_offsets -> load m (p + off) 4 = u32 (get t)) /\
  (forall v, at_addr (store (p + 12) 4 v m) p (t <| signal := v |>)) /\
  (forall off get, (off, get) ∈ tss_format -> load m (p + TSS_OFFSET + off) 4 = u32 (get (tss t))).
Proof.
  intros Hp Ht. split; [exact (asm_reads_right m p t Hp Ht)|]. split.
  - intros v. eapply (at_write (R := task_struct) m p t _ 3 12 4); [|exact Hp|reflexivity|].
    + apply (structures_machine task_t). unfold structures. rewrite !elem_of_cons. tauto.
    + reflexivity.
  - intros off get (i & Hi)%list_elem_of_lookup. destruct (tss_slots_format i off get Hi) as [Hs Hlt].
    rewrite <-Z.add_assoc. apply (task_read m p t 9 (words (tss t)) i 239 _ _ Hp Ht eq_refl eq_refl); [|exact Hs].
    rewrite tss_words_format, lookup_app_l by exact Hlt. by rewrite list_lookup_fmap, Hi.
Qed.

(** ** Structures on disk *)

(** [d] is the part of [t] that is on disk. *)
Definition disk_parts : list (ctype * ctype) := [(d_inode_t, m_inode_t); (d_super_block_t, super_block_t)].

Lemma disk_slots d t : (d, t) ∈ disk_parts -> exists rest, type_slots t = type_slots d ++ rest /\
  Forall (fun s => type_size d ≤ s.1) rest.
Proof.
  unfold disk_parts. rewrite !elem_of_cons, elem_of_nil. intros [E|[E|[]]]; injection E as -> ->.
  - exists (drop (length (type_slots d_inode_t)) (type_slots m_inode_t)). split; [vm_compute; reflexivity|].
    vm_compute. repeat (apply List.Forall_cons; [discriminate|]). apply List.Forall_nil.
  - exists (drop (length (type_slots d_super_block_t)) (type_slots super_block_t)). split; [vm_compute; reflexivity|].
    vm_compute. repeat (apply List.Forall_cons; [discriminate|]). apply List.Forall_nil.
Qed.

(** The in-memory inode and super block begin with their form on disk: copying
    the disk's bytes over them sets exactly the members they share.  Blocks hold
    a whole number of inodes and of directory entries. *)
Theorem disk_parts_found :
  INODES_PER_BLOCK * type_size d_inode_t = BLOCK_SIZE /\ DIR_ENTRIES_PER_BLOCK * type_size dir_entry_t = BLOCK_SIZE /\
  forall d t m dst src, (d, t) ∈ disk_parts -> dst + type_size d ≤ src \/ src + type_size d ≤ dst ->
    values t (copy_bytes dst src (type_size d) m) dst =
      values d m src ++ drop (length (type_slots d)) (values t m dst).
Proof.
  split; [done|]. split; [done|]. intros d t m dst src Hdt Hd.
  assert (machine_type d) as Ht.
  { apply structures_machine. unfold disk_parts in Hdt. rewrite !elem_of_cons, elem_of_nil in Hdt. unfold structures.
    rewrite !elem_of_cons. destruct Hdt as [E|[E|[]]]; injection E as -> ->; tauto. }
  destruct (disk_slots d t Hdt) as (rest & Hs & Hrest). unfold values at 1 3. rewrite Hs, !fmap_app, drop_app_length'.
  - f_equal; [exact (proj1 (struct_copy d m dst src Ht Hd))|]. apply list_fmap_ext. intros i [o n] Hi.
    pose proof (proj1 (list.Forall_lookup _ _) Hrest i _ Hi) as Ho. cbn [fst snd] in *.
    apply load_ext. intros x Hx. unfold copy_bytes. rewrite decide_False by lia. done.
  - by rewrite length_fmap.
Qed.

(** ** Witnesses *)

(** Task 0 in memory. *)
Definition init_memory : memory := write_slots (type_slots task_t) (words (INIT_TASK 0x18000 0)) 0x18000 (fun _ => 0).

Lemma task_members_found_witness :
  load init_memory (0x18000 + 4) 4 = 15 /\ load init_memory (0x18000 + TSS_OFFSET + 4) 4 = 0x19000 /\
  load init_memory (0x18000 + TSS_OFFSET + 96) 4 = 40.
Proof.
  assert (at_addr init_memory 0x18000 (INIT_TASK 0x18000 0)) as H.
  { apply (object_roundtrip task_t); [apply structures_machine; unfold structures; rewrite !elem_of_cons; tauto|].
    vm_compute. reflexivity. }
  destruct (task_members_found _ _ _ H) as (Hr & _ & Ht); [by constructor|]. split; [|split].
  - exact (Hr "counter"%string counter 4 ltac:(right; left) ltac:(right; left)).
  - exact (Ht 4 esp0 ltac:(right; left)).
  - apply (Ht 96 tss_ldt). unfold tss_format. rewrite !elem_of_cons. tauto.
Defined.

(** An inode read from a block at 0x5000 into the table at 0x9000. *)
Lemma disk_parts_found_witness :
  let m := fun x => x mod 256 in
  values m_inode_t (copy_bytes 0x9000 0x5000 32 m) 0x9000 = values d_inode_t m 0x5000 ++ drop 15 (values m_inode_t m 0x9000).
Proof.
  apply (proj2 (proj2 disk_parts_found) d_inode_t m_inode_t (fun x => x mod 256) 0x9000 0x5000);
    [left|right; vm_compute; discriminate].
Defined.
