(* ===== verification/Macros.v ===== *)
(** * Constants and macros of the headers

    What the header files define besides structures: error and signal numbers,
    the prototypes of the system calls, descriptor sets, time values, the ring of
    a pipe, tick and page arithmetic, the assertions of linux/sched.h.  Most of it
    is there for code still to be written; the lemmas say what such code can rely
    on, and where a macro is not what its name or comment promises. *)
From S2P Require Import Prelude Words Descriptors Memory Sched Task Blk Boot Syscalls Layout.

(** ** include/errno.h *)

Definition errors : list (string * Z) := [
  ("ERROR", 99); ("EPERM", 1); ("ENOENT", 2); ("ESRCH", 3); ("EINTR", 4); ("EIO", 5); ("ENXIO", 6); ("E2BIG", 7);
  ("ENOEXEC", 8); ("EBADF", 9); ("ECHILD", 10); ("EAGAIN", 11); ("ENOMEM", 12); ("EACCES", 13); ("EFAULT", 14);
  ("ENOTBLK", 15); ("EBUSY", 16); ("EEXIST", 17); ("EXDEV", 18); ("ENODEV", 19); ("ENOTDIR", 20); ("EISDIR", 21);
  ("EINVAL", 22); ("ENFILE", 23); ("EMFILE", 24); ("ENOTTY", 25); ("ETXTBSY", 26); ("EFBIG", 27); ("ENOSPC", 28);
  ("ESPIPE", 29); ("EROFS", 30); ("EMLINK", 31); ("EPIPE", 32); ("EDOM", 33); ("ERANGE", 34); ("EDEADLK", 35);
  ("ENAMETOOLONG", 36); ("ENOLCK", 37); ("ENOSYS", 38); ("ENOTEMPTY", 39); ("ERESTARTSYS", 512); ("ERESTARTNOINTR", 513)
]%string.

(** A kernel function that returns [-e] makes the wrapper return -1 with [errno]
    set to [e], for every error, and different errors stay apart; a result that
    is not negative leaves [errno] alone. *)
Theorem errors_reach_user :
  (forall name e old, (name, e) ∈ errors -> _syscall (u32 (- e)) old = (-1, e)) /\ NoDup errors.*2 /\
  forall r old, 0 ≤ r < 2 ^ 31 -> _syscall r old = (r, old).
Proof.
  split; [|split].
  - intros name e old Hin.
    assert (0 < e < 2 ^ 31) as He.
    { apply (list.Forall_forall (fun x => 0 < x.2 < 2 ^ 31) errors) in Hin; [exact Hin|].
      repeat (apply List.Forall_cons; [cbn; lia|]). apply List.Forall_nil. }
    unfold _syscall. assert (s32 (u32 (- e)) = - e) as ->.
    { unfold s32, u32. rewrite Z.add_mod_idemp_l, Z.mod_small by lia. lia. }
    rewrite decide_False by lia. f_equal. unfold s32. rewrite Z.mod_small by lia. lia.
  - apply (bool_decide_unpack _). vm_compute. exact I.
  - intros r old Hr. unfold _syscall. assert (s32 r = r) as -> by (unfold s32; rewrite Z.mod_small by lia; lia).
    by rewrite decide_True by lia.
Qed.

(** ** include/signal.h *)

Definition _NSIG : Z := 32.
Definition signals : list (string * Z) := [
  ("SIGHUP", 1); ("SIGINT", 2); ("SIGQUIT", 3); ("SIGILL", 4); ("SIGTRAP", 5); ("SIGABRT", 6); ("SIGIOT", 6);
  ("SIGUNUSED", 7); ("SIGFPE", 8); ("SIGKILL", 9); ("SIGUSR1", 10); ("SIGSEGV", 11); ("SIGUSR2", 12); ("SIGPIPE", 13);
  ("SIGALRM", 14); ("SIGTERM", 15); ("SIGSTKFLT", 16); ("SIGCHLD", 17); ("SIGCONT", 18); ("SIGSTOP", 19);
  ("SIGTSTP", 20); ("SIGTTIN", 21); ("SIGTTOU", 22)]%string.

(** Signal [n] is bit [n - 1] of the 32-bit word of pending signals: the number
    [ret_from_sys_call] computes from a lone bit ([bsfl], [incl]) is the signal's. *)
Lemma signal_bits name n : (name, n) ∈ signals -> 1 ≤ n ≤ _NSIG /\ bsf (Z.shiftl 1 (n - 1)) + 1 = n.
Proof.
  intros Hin. apply (list.Forall_forall (fun x => 1 ≤ x.2 ≤ _NSIG /\ bsf (Z.shiftl 1 (x.2 - 1)) + 1 = x.2) signals) in Hin; [done|].
  apply (bool_decide_unpack _). vm_compute. exact I.
Qed.

(** ** include/linux/sys.h *)

(** The prototypes, in their order. *)
Definition declared : list string := [
  "sys_setup"; "sys_exit"; "sys_fork"; "sys_read"; "sys_write"; "sys_open"; "sys_close"; "sys_waitpid"; "sys_creat";
  "sys_link"; "sys_unlink"; "sys_execve"; "sys_chdir"; "sys_time"; "sys_mknod"; "sys_chmod"; "sys_chown"; "sys_break";
  "sys_stat"; "sys_lseek"; "sys_getpid"; "sys_mount"; "sys_umount"; "sys_setuid"; "sys_getuid"; "sys_stime";
  "sys_ptrace"; "sys_alarm"; "sys_fstat"; "sys_pause"; "sys_utime"; "sys_stty"; "sys_gtty"; "sys_access"; "sys_nice";
  "sys_ftime"; "sys_sync"; "sys_kill"; "sys_rename"; "sys_mkdir"; "sys_rmdir"; "sys_dup"; "sys_pipe"; "sys_times";
  "sys_prof"; "sys_brk"; "sys_setgid"; "sys_getgid"; "sys_signal"; "sys_geteuid"; "sys_getegid"; "sys_acct";
  "sys_phys"; "sys_lock"; "sys_ioctl"; "sys_fcntl"; "sys_mpx"; "sys_setpgid"; "sys_ulimit"; "sys_uname"; "sys_umask";
  "sys_chroot"; "sys_ustat"; "sys_dup2"; "sys_getppid"; "sys_getpgrp"; "sys_setsid"; "sys_sigaction"; "sys_sgetmask";
  "sys_ssetmask"; "sys_setreuid"; "sys_setregid"; "sys_sigpending"; "sys_sigsuspend"; "sys_sethostname";
  "sys_setrlimit"; "sys_getrlimit"; "sys_getrusage"; "sys_gettimeofday"; "sys_settimeofday"; "sys_getgroups";
  "sys_setgroups"; "sys_select"; "sys_symlink"; "sys_lstat"; "sys_readlink"; "sys_uselib"; "sys_klock"; "sys_kunlock";
  "sys_kdebug"]%string.

Definition NR_syscalls : Z := 4 * Z.of_nat (length sys_call_table) / 4.

(** Every entry of the table is declared and every declared function is in the
    table, once; each but five is one of the functions of kernel/traps.c. *)
Lemma declared_in_table : Permutation declared sys_call_table /\ NoDup declared /\ NR_syscalls = 90 /\
  Permutation declared (stubs ++ ["sys_fork"; "sys_pause"; "sys_klock"; "sys_kunlock"; "sys_kdebug"]%string).
Proof.
  assert (NoDup declared) as H1 by (apply (bool_decide_unpack _); vm_compute; exact I).
  assert (forall l, NoDup l -> (forall x, x ∈ declared <-> x ∈ l) -> Permutation declared l) as Hp.
  { intros l Hl. by apply NoDup_Permutation. }
  assert (forall l l' : list string, bool_decide (Forall (fun x => x ∈ l') l /\ Forall (fun x => x ∈ l) l') = true ->
    forall x, x ∈ l <-> x ∈ l') as Hsub.
  { intros l l' H x. apply bool_decide_eq_true in H as [Ha Hb]. rewrite list.Forall_forall in Ha, Hb. split; [apply Ha|apply Hb]. }
  repeat split; [apply Hp|exact H1|apply Hp].
  - apply (bool_decide_unpack _). vm_compute. exact I.
  - apply Hsub. vm_compute. reflexivity.
  - apply (bool_decide_unpack _). vm_compute. exact I.
  - apply Hsub. vm_compute. reflexivity.
Qed.

(** ** include/sys/time.h *)

(** A set of descriptors is an [unsigned long]; [1 << 31] is the sign bit. *)
Definition FD_SET (fd set : Z) : Z := Z.lor set (u32 (Z.shiftl 1 fd)).
Definition FD_CLR (fd set : Z) : Z := Z.land set (u32 (Z.lnot (Z.shiftl 1 fd))).
Definition FD_ISSET (fd set : Z) : Z := Z.land (Z.shiftr set fd) 1.
Definition FD_ZERO : Z := 0.

Lemma fd_isset fd set : 0 ≤ fd -> FD_ISSET fd set = Z.b2z (Z.testbit set fd).
Proof. intros H. unfold FD_ISSET. change 1 with (Z.ones 1). rewrite Z.land_ones, <-Z.bit0_mod, Z.shiftr_spec by lia. done. Qed.

Lemma bit_mask fd i : 0 ≤ fd < 32 -> 0 ≤ i -> Z.testbit (u32 (Z.shiftl 1 fd)) i = bool_decide (i = fd).
Proof.
  intros Hf Hi. rewrite Z.shiftl_1_l, u32_small.
  - rewrite Z.pow2_bits_eqb by lia. rewrite Z.eqb_sym. by destruct (Z.eqb_spec i fd); [rewrite bool_decide_true|rewrite bool_decide_false].
  - split; [apply Z.pow_nonneg; lia|apply Z.pow_lt_mono_r; lia].
Qed.

Lemma land_word x y : 0 ≤ x < 2 ^ 32 -> 0 ≤ Z.land x y < 2 ^ 32.
Proof.
  intros Hx. split; [apply Z.land_nonneg; lia|].
  assert (Z.land x y mod 2 ^ 32 = Z.land x y) as <-; [|apply Z.mod_pos_bound; lia].
  rewrite <-land_ones_mod by lia. rewrite <-Z.land_assoc, (Z.land_comm y), Z.land_assoc.
  f_equal. rewrite land_ones_mod by lia. by apply Z.mod_small.
Qed.

Lemma lor_word x y : 0 ≤ x < 2 ^ 32 -> 0 ≤ y < 2 ^ 32 -> 0 ≤ Z.lor x y < 2 ^ 32.
Proof.
  intros Hx Hy. split; [apply Z.lor_nonneg; lia|].
  assert (Z.lor x y mod 2 ^ 32 = Z.lor x y) as <-; [|apply Z.mod_pos_bound; lia].
  rewrite <-land_ones_mod by lia. rewrite Z.land_lor_distr_l, !land_ones_mod by lia. by rewrite !Z.mod_small.
Qed.

(** The four macros are the operations of a set of the descriptors 0 to 31, more
    than a task can have open ([NR_OPEN]). *)
Theorem fd_sets fd fd' set : 0 ≤ fd < 32 -> 0 ≤ fd' < 32 -> 0 ≤ set < 2 ^ 32 ->
  FD_ISSET fd FD_ZERO = 0 /\
  FD_ISSET fd' (FD_SET fd set) = (if decide (fd' = fd) then 1 else FD_ISSET fd' set) /\
  FD_ISSET fd' (FD_CLR fd set) = (if decide (fd' = fd) then 0 else FD_ISSET fd' set) /\
  0 ≤ FD_SET fd set < 2 ^ 32 /\ 0 ≤ FD_CLR fd set < 2 ^ 32 /\ NR_OPEN ≤ 32.
Proof.
  intros Hf Hf' Hs. rewrite !fd_isset by lia. unfold FD_SET, FD_CLR, FD_ZERO. rewrite Z.testbit_0_l.
  split; [done|]. split; [|split; [|split; [|split]]].
  - rewrite Z.lor_spec, bit_mask by lia. case_decide; [by rewrite bool_decide_true, orb_true_r|].
    by rewrite bool_decide_false, orb_false_r.
  - rewrite Z.land_spec. unfold u32. rewrite <-Z.land_ones, Z.land_spec, Z.lnot_spec, Z.ones_spec_low, andb_true_r by lia.
    rewrite Z.shiftl_1_l, Z.pow2_bits_eqb by lia. destruct (Z.eqb_spec fd fd'); case_decide; try lia; cbn;
      [by rewrite andb_false_r|by rewrite andb_true_r].
  - apply lor_word; [done|apply u32_range].
  - by apply land_word.
  - done.
Qed.

(** [struct timeval] and its macros; [cmp] is a comparison of C. *)
Record timeval := Timeval { tv_sec : Z; tv_usec : Z }.
Definition timerisset (t : timeval) : bool := negb (tv_sec t =? 0) || negb (tv_usec t =? 0).
Definition timercmp (t u : timeval) (cmp : Z -> Z -> bool) : bool :=
  cmp (tv_sec t) (tv_sec u) || (tv_sec t =? tv_sec u) && cmp (tv_usec t) (tv_usec u).
Definition timerclear : timeval := Timeval 0 0.

(** The time a normal value stands for, in microseconds. *)
Definition microseconds (t : timeval) : Z := 1000000 * tv_sec t + tv_usec t.
Definition normal_time (t : timeval) : Prop := 0 ≤ tv_usec t < 1000000.

(** [timercmp] compares normal times with [<], [>] and [!=].  The comment says
    that it does not with [<=] and [>=]; it does not with [==] either. *)
Theorem timercmp_orders :
  (forall t u, normal_time t -> normal_time u ->
    timercmp t u Z.ltb = (microseconds t <? microseconds u) /\ timercmp t u Z.gtb = (microseconds t >? microseconds u) /\
    timercmp t u (fun x y => negb (x =? y)) = negb (microseconds t =? microseconds u) /\
    timerisset t = negb (microseconds t =? microseconds timerclear)) /\
  forall cmp, cmp ∈ [Z.leb; Z.geb; Z.eqb] -> exists t u, normal_time t /\ normal_time u /\
    timercmp t u cmp <> cmp (microseconds t) (microseconds u).
Proof.
  split.
  - intros [s m] [s' m'] Ht Hu. unfold timercmp, timerisset, timerclear, microseconds, normal_time in *. cbn [tv_sec tv_usec] in *.
    rewrite !Z.gtb_ltb. repeat split; apply eq_true_iff_eq;
      rewrite ?orb_true_iff, ?andb_true_iff, ?negb_true_iff, ?Z.ltb_lt, ?Z.eqb_eq, ?Z.eqb_neq; lia.
  - intros cmp. rewrite !elem_of_cons, elem_of_nil. intros [-> | [-> | [-> | []]]].
    + exists (Timeval 1 1), (Timeval 1 0). unfold normal_time. cbn. repeat split; [lia..|discriminate].
    + exists (Timeval 1 0), (Timeval 1 1). unfold normal_time. cbn. repeat split; [lia..|discriminate].
    + exists (Timeval 1 0), (Timeval 1 1). unfold normal_time. cbn. repeat split; [lia..|discriminate].
Qed.

(** ** include/time.h *)

Definition __isleap (year : Z) : bool :=
  (Z.rem year 4 =? 0) && (negb (Z.rem year 100 =? 0) || (Z.rem year 1000 =? 0)).

(** The Gregorian rule. *)
Definition gregorian_leap (year : Z) : bool :=
  (year mod 4 =? 0) && (negb (year mod 100 =? 0) || (year mod 400 =? 0)).

(** The macro has 1000 where the calendar has 400.  From 1601 to 2399 no year is
    affected (2000 is a leap year by both rules), 2400 is the next that is. *)
Theorem isleap_calendar :
  (forall year, 1601 ≤ year < 2400 -> __isleap year = gregorian_leap year) /\
  __isleap 2400 = false /\ gregorian_leap 2400 = true /\ __isleap 3000 = true /\ gregorian_leap 3000 = false.
Proof.
  split; [|by vm_compute]. intros year Hy. unfold __isleap, gregorian_leap. rewrite !Z.rem_mod_nonneg by lia.
  f_equal. f_equal. apply eq_true_iff_eq. rewrite !Z.eqb_eq.
  assert (year mod 400 = 0 <-> year = 2000) as -> by (split; [Z.div_mod_to_equations; lia|by intros ->]).
  split; [Z.div_mod_to_equations; lia|by intros ->].
Qed.

(** ** include/linux/fs.h *)

Definition IS_SEEKABLE (x : Z) : bool := (1 <=? x) && (x <=? 3).
Definition MINOR (a : Z) : Z := Z.land a 0xff.

(** [DEVICE_NR] of blk.h for the three drivers it knows: ram disk, floppy, hard
    disk. *)
Definition DEVICE_NR (major device : Z) : option Z :=
  if decide (major = 1) then Some (Z.land device 7) else
  if decide (major = 2) then Some (Z.land device 3) else
  if decide (major = 3) then Some (MINOR device / 5) else None.

(** A device number is its major and minor number; the ten minor numbers of the
    hard disks are five for each drive. *)
Lemma device_numbers dev : 0 ≤ dev < 2 ^ 16 ->
  dev = MAJOR dev * 256 + MINOR dev /\ 0 ≤ MINOR dev < 256 /\ 0 ≤ MAJOR dev < 256 /\
  (MAJOR dev = 3 -> MINOR dev < 10 -> exists nr, DEVICE_NR 3 dev = Some nr /\ 0 ≤ nr < 2 /\ 5 * nr ≤ MINOR dev < 5 * nr + 5).
Proof.
  intros Hd. unfold MAJOR, MINOR. change 0xff with (Z.ones 8). rewrite land_ones_mod, u32_small, Z.shiftr_div_pow2 by lia.
  change (2 ^ 8) with 256. split; [Z.div_mod_to_equations; lia|]. split; [Z.div_mod_to_equations; lia|].
  split; [Z.div_mod_to_equations; lia|]. intros _ Hm. unfold DEVICE_NR, MINOR. change 0xff with (Z.ones 8).
  rewrite land_ones_mod by lia. change (2 ^ 8) with 256. eexists. split; [reflexivity|]. Z.div_mod_to_equations; lia.
Qed.

(** The ring of a pipe: one page, with the places of the next byte to write and
    the next to read in [i_zone[0]] and [i_zone[1]]. *)
Definition PIPE_HEAD (i_zone : list Z) : Z := nth 0 i_zone 0.
Definition PIPE_TAIL (i_zone : list Z) : Z := nth 1 i_zone 0.
Definition PIPE_SIZE (i_zone : list Z) : Z := Z.land (PIPE_HEAD i_zone - PIPE_TAIL i_zone) (PAGE_SIZE - 1).
Definition PIPE_EMPTY (i_zone : list Z) : bool := PIPE_HEAD i_zone =? PIPE_TAIL i_zone.
Definition PIPE_FULL (i_zone : list Z) : bool := PIPE_SIZE i_zone =? PAGE_SIZE - 1.

(** When [n] bytes are in the pipe, the head [n] places after the tail around the
    page, the macros give the size and say when it is empty and when it is full:
    at 4095 bytes, one short of the page. *)
Lemma pipe_ring tail n i_zone : 0 ≤ tail < PAGE_SIZE -> 0 ≤ n < PAGE_SIZE ->
  PIPE_HEAD i_zone = (tail + n) mod PAGE_SIZE -> PIPE_TAIL i_zone = tail ->
  PIPE_SIZE i_zone = n /\ (PIPE_EMPTY i_zone = true <-> n = 0) /\ (PIPE_FULL i_zone = true <-> n = PAGE_SIZE - 1).
Proof.
  intros Ht Hn Hh Htl. assert (PIPE_SIZE i_zone = n) as E.
  { unfold PIPE_SIZE. rewrite Hh, Htl. unfold PAGE_SIZE in *. change (4096 - 1) with (Z.ones 12).
    rewrite land_ones_mod by lia. change (2 ^ 12) with 4096. Z.div_mod_to_equations; lia. }
  unfold PIPE_EMPTY, PIPE_FULL. rewrite E, Z.eqb_eq, Hh, Htl, Z.eqb_eq. split; [done|]. split; [|done].
  unfold PAGE_SIZE in *. Z.div_mod_to_equations; lia.
Qed.

(** ** include/linux/sched.h, include/linux/mm.h *)

Definition LIBRARY_SIZE : Z := 0x400000.
Definition LIBRARY_OFFSET : Z := TASK_SIZE - LIBRARY_SIZE.

(** The four [#if] of the file, with the one for [NR_OPEN]. *)
Definition sched_h_errors : list bool := [
  negb (Z.land TASK_SIZE 0x3fffff =? 0); negb (Z.land LIBRARY_SIZE 0x3fffff =? 0);
  TASK_SIZE / 2 <=? LIBRARY_SIZE; negb (Z.shiftr TASK_SIZE 16 * NR_TASKS =? 0x10000); 32 <? NR_OPEN].

(** None of them stops the compiler; so the regions of the tasks are whole page
    tables and fill the 4 GB, and the library lies in the upper half of each. *)
Lemma sched_h_compiles : Forall (fun e => e = false) sched_h_errors /\
  (0x400000 | TASK_SIZE) /\ TASK_SIZE * NR_TASKS = 2 ^ 32 /\ TASK_SIZE / 2 < LIBRARY_OFFSET /\
  LIBRARY_OFFSET + LIBRARY_SIZE = TASK_SIZE.
Proof. repeat split; [repeat constructor|by exists 16]. Qed.

(** Ticks of a task in seconds and microseconds; [x] is a [long]. *)
Definition CT_TO_SECS (x : Z) : Z := Z.quot x HZ.
Definition CT_TO_USECS (x : Z) : Z := Z.quot (Z.rem x HZ * 1000000) HZ.

(** Together they are exact, the second part is below a second, and the product
    in it stays within a [long]. *)
Lemma ticks_to_time x : 0 ≤ x < 2 ^ 31 ->
  CT_TO_SECS x * 1000000 + CT_TO_USECS x = x * (1000000 / HZ) /\ 0 ≤ CT_TO_USECS x < 1000000 /\
  0 ≤ Z.rem x HZ * 1000000 < 2 ^ 31.
Proof.
  intros Hx. unfold CT_TO_SECS, CT_TO_USECS, HZ. rewrite (Z.rem_mod_nonneg x) by lia.
  rewrite !Z.quot_div_nonneg by (try lia; pose proof (Z.mod_pos_bound x 100); lia).
  change (1000000 / 100) with 10000. Z.div_mod_to_equations; lia.
Qed.

(** The time in seconds since 1970: all of it is [unsigned long] arithmetic. *)
Definition CURRENT_TIME (startup_time jiffies jiffies_offset : Z) : Z :=
  u32 (startup_time + u32 (jiffies + jiffies_offset) / HZ).

(** The clock is right for the first [2 ^ 32] ticks and moves on by one second
    every 100 of them; then (after 497 days) it falls back to the time of the
    start. *)
Lemma current_time_spec startup ticks : 0 ≤ startup < 2 ^ 31 -> 0 ≤ ticks < 2 ^ 32 ->
  CURRENT_TIME startup ticks 0 = startup + ticks / HZ /\ CURRENT_TIME startup (ticks + 2 ^ 32) 0 = startup + ticks / HZ.
Proof.
  intros Hs Ht. unfold CURRENT_TIME, HZ. rewrite !Z.add_0_r.
  assert (u32 (ticks + 2 ^ 32) = ticks) as -> by (unfold u32; rewrite <-(Z.mul_1_l (2 ^ 32)) at 1; rewrite Z.mod_add, Z.mod_small by lia; done).
  rewrite (u32_small ticks) by lia. rewrite u32_small by (Z.div_mod_to_equations; lia). done.
Qed.

(** [str(n)]: [str] puts the selector of the task in [eax], which was 0. *)
Definition str (tr : Z) : Z := Z.shiftr (u32 (u16 tr - 0x20)) 4.

(** It finds the number of the task whose segment [ltr(n)] loaded, also with the
    privilege bits of the selector set. *)
Lemma str_ltr n rpl : 0 ≤ n < NR_TASKS -> 0 ≤ rpl < 4 -> str (_TSS n + rpl) = n.
Proof.
  unfold NR_TASKS, str, _TSS, FIRST_TSS_ENTRY. intros Hn Hr. rewrite !Z.shiftl_mul_pow2 by lia. unfold u16.
  rewrite (u32_small (_ + _)), Z.mod_small by lia. rewrite u32_small by lia. rewrite Z.shiftr_div_pow2 by lia. Z.div_mod_to_equations; lia.
Qed.

Definition PAGE_ALIGN (n : Z) : Z := Z.land (u32 (n + 0xfff)) 0xfffff000.

(** The first page boundary not below [n], except in the last page of the address
    space, where the sum wraps to 0. *)
Lemma page_align_spec n : 0 ≤ n < 2 ^ 32 ->
  PAGE_ALIGN n = (if decide (n ≤ 0xfffff000) then align_up n PAGE_SIZE else 0).
Proof.
  intros Hn. unfold PAGE_ALIGN, align_up, PAGE_SIZE.
  assert (forall x, 0 ≤ x < 2 ^ 32 -> Z.land x 0xfffff000 = x / 4096 * 4096) as Hland.
  { intros x Hx. change 0xfffff000 with (Z.ldiff (Z.ones 32) (Z.ones 12)).
    rewrite Z.ldiff_land, Z.land_assoc, land_ones_mod, Z.mod_small, <-Z.ldiff_land, Z.ldiff_ones_r by lia.
    by rewrite Z.shiftl_mul_pow2, Z.shiftr_div_pow2 by lia. }
  rewrite Hland by apply u32_range. case_decide.
  - rewrite u32_small by lia. do 2 f_equal. lia.
  - assert (u32 (n + 0xfff) = n + 0xfff - 2 ^ 32) as ->.
    { unfold u32. symmetry. apply (Z.mod_unique_pos _ _ 1); lia. }
    rewrite Z.div_small by lia. done.
Qed.

(** ** include/stdarg.h *)

(** The room an argument of [size] bytes has on the stack; [size] is unsigned. *)
Definition __va_rounded_size (size : Z) : Z := (size + 4 - 1) / 4 * 4.

(** [va_start] on the last named parameter, at [last], and the address the
    [i]-th [va_arg] reads after it, for arguments of the given sizes. *)
Definition va_start (last size : Z) : Z := last + __va_rounded_size size.
Fixpoint va_args (ap : Z) (sizes : list Z) : list Z :=
  match sizes with
  | [] => []
  | s :: sizes => let ap := ap + __va_rounded_size s in (ap - __va_rounded_size s) :: va_args ap sizes
  end.

(** The arguments of the kernel's formats are [int]s, [long]s and pointers: the
    [i]-th is the [i]-th word behind the format. *)
Lemma va_args_words n last : forall i, (i < n)%nat ->
  va_args (va_start last 4) (replicate n 4) !! i = Some (last + 4 + 4 * Z.of_nat i).
Proof.
  unfold va_start. change (__va_rounded_size 4) with 4. generalize (last + 4). induction n as [|n IH]; intros ap i Hi; [lia|].
  cbn [replicate va_args]. change (__va_rounded_size 4) with 4. destruct i as [|i]; cbn [lookup list_lookup].
  - f_equal. lia.
  - rewrite IH by lia. f_equal. lia.
Qed.
