(* ===== verification/Start.v ===== *)
(** * From reset to the first user process

    boot/head.s, [main] of init/main.c and the [fork] that [main] makes once it
    runs as task 0 in user mode, composed: the machine that the boot code leaves
    (Head.v) is a kernel that can fork (ForkSpaces.v), and the new process runs on
    private memory (AddressSpace.v). *)
From S2P Require Import Prelude Words Descriptors Memory AddressSpace Sched Task Fork ForkSpaces Ports Links Buffer CacheSpec BufferInit Boot Head Syscalls Entry.

(** The kernel state of a machine whose tasks are still those of the image: task
    0 is [INIT_TASK], whose structure is at [init_task]. *)
Definition kernel_of (s : machine) (init_task jiffies math : Z) (fpu : i387_struct) : kernel := {|
  mem := m_mm s; tasks := {[init_task := INIT_TASK init_task pg_dir]}; task := task_table s;
  current := init_task; last_pid := 0; Fork.jiffies := jiffies; Fork.gdt := Boot.gdt s;
  f_count := ∅; i_count := ∅; last_task_used_math := math; Fork.fpu := fpu
|}.

Lemma first_slot k ignore_int init_task s jiffies math fpu :
  ready k ignore_int init_task s -> 0 < init_task ->
  find_empty_process (kernel_of s init_task jiffies math fpu) =
    Ok (kernel_of s init_task jiffies math fpu <| last_pid := 1 |>, 1).
Proof.
  intros R Hi. unfold find_empty_process. erewrite bind_ok by reflexivity.
  set (K := kernel_of s init_task jiffies math fpu).
  assert (task K = init_task :: replicate 63 0) as Et by exact (rd_slots _ _ _ _ R).
  assert (search_pid PID_ROUNDS K (last_pid K) = Ok 1) as ->.
  { change PID_ROUNDS with (S 128). cbn [search_pid]. change (next_pid (last_pid K)) with 1. rewrite Et.
    assert (existsb (pid_used K 1) (init_task :: replicate 63 0) = false) as ->; [|done].
    apply not_true_is_false. intros (p & Hp & Hu)%existsb_exists. unfold pid_used in Hu.
    apply andb_true_iff in Hu as [Hp0%bool_decide_eq_true_1 Hu]. destruct Hp as [<-|Hp].
    - change (tasks K) with ({[init_task := INIT_TASK init_task pg_dir]} : gmap Z task_struct) in Hu.
      rewrite lookup_singleton_eq in Hu. discriminate Hu.
    - apply list_elem_of_In, elem_of_replicate in Hp as [-> _]. done. }
  erewrite bind_ok by reflexivity. change (task (K <| last_pid := 1 |>)) with (task K). rewrite Et. reflexivity.
Qed.

Lemma first_can_fork k ignore_int init_task s jiffies math fpu r :
  ready k ignore_int init_task s -> 0 < init_task < LOW_MEM -> 0x1000 < r_esp r ≤ 0xA0000 ->
  can_fork (kernel_of s init_task jiffies math fpu <| last_pid := 1 |>) 1 r (INIT_TASK init_task pg_dir)
    (Desc 0 0) (Desc 0x9f 0xc0fa00) (Desc 0x9f 0xc0f200).
Proof.
  intros R Hi Hesp. constructor.
  - exact (eq_trans (f_equal length (rd_slots _ _ _ _ R)) eq_refl).
  - lia.
  - exact (rd_gdt _ _ _ _ R).
  - apply lookup_singleton_eq.
  - reflexivity.
  - split; split; cbn; lia.
  - reflexivity.
  - vm_compute. intuition discriminate.
  - intros i Hf%frame_above. cbn [current kernel_of upd p_cptr INIT_TASK]. unfold LOW_MEM in Hi. lia.
  - intros H. by destruct H.
  - lia.
Qed.

(** The first [fork] on such a machine. *)
Lemma first_sys_fork k ignore_int init_task s jiffies math fpu r :
  ready k ignore_int init_task s -> 0 < init_task < LOW_MEM -> 0x1000 < r_esp r ≤ 0xA0000 ->
  let K := kernel_of s init_task jiffies math fpu in
  exists s2, Fork.sys_fork r K = Ok (s2, 1) /\ child_in_slot (K <| last_pid := 1 |>) s2 1 r /\
    agree (mem s2) ([0x4000000], boot_words (m_mm s)) /\ (3069 ≤ frees (mem s2))%nat.
Proof.
  intros R Hi Hesp K. pose proof (rd_frees _ _ _ _ R) as Hf.
  destruct (fork_task0_spaces (K <| last_pid := 1 |>) 1 r _ _ _ _
    (first_can_fork k ignore_int init_task s jiffies math fpu r R Hi Hesp) (rd_tables _ _ _ _ R) eq_refl Hesp)
    as (s2 & E2 & Hc & Ha & Hf2); [change (3 ≤ frees (m_mm s))%nat; lia|].
  change (frees (mem (K <| last_pid := 1 |>))) with (frees (m_mm s)) in Hf2.
  exists s2. split; [|split; [exact Hc|split; [exact Ha|lia]]].
  unfold Fork.sys_fork. rewrite (bind_ok _ _ _ _ _ (first_slot k ignore_int init_task s jiffies math fpu R (proj1 Hi))).
  exact E2.
Qed.

(** From reset to two processes.  boot/head.s and [main] run to the end on any
    image; then the first [fork], made by task 0 with its stack in low memory,
    returns 1: the child is in slot 1, runnable, with 0 as its own result and
    segments at 64 MB; and from then on any sequence of user reads, writes and
    duplications that separate memories allow (at most 3069) behaves on the
    page tables as on those memories, the child's starting as a copy of low
    memory. *)
Theorem first_process device line k ignore_int init_task s :
  linked line k ignore_int init_task s -> 0 < init_task < LOW_MEM ->
  exists s1, (startup_32 line ignore_int;; main device k) s = Ok (s1, tt) /\
    forall jiffies math fpu r, 0x1000 < r_esp r ≤ 0xA0000 ->
    let K := kernel_of s1 init_task jiffies math fpu in
    exists s2, Fork.sys_fork r K = Ok (s2, 1) /\
      child_in_slot (K <| last_pid := 1 |>) s2 1 r /\
      agree (mem s2) ([0x4000000], boot_words (m_mm s1)) /\
      forall ops a rs, arun ops ([0x4000000], boot_words (m_mm s1)) = Some (a, rs) -> (length ops ≤ 3069)%nat ->
        exists m, crun ops (mem s2) = Ok (m, rs) /\ agree m a.
Proof.
  intros Hs Hi. destruct (power_on_ready device line k ignore_int init_task s Hs) as (s1 & E & R). exists s1.
  split; [exact E|]. intros jiffies math fpu r Hesp K.
  destruct (first_sys_fork k ignore_int init_task s1 jiffies math fpu r R Hi Hesp) as (s2 & E2 & Hc & Ha & Hf).
  exists s2. split; [exact E2|split; [exact Hc|split; [exact Ha|]]].
  intros ops a rs Hops Hl. destruct (crun_agree ops (mem s2) _ a rs Ha Hops) as (m & Em & Hm & _); [lia|]. by exists m.
Qed.

(** ** Two processes

    The user half of [main] up to its [fork()], at the level of the processor. *)

(** The privilege level of the segment a selector names. *)
Definition selected_dpl (gdt ldt : list desc_struct) (sel : Z) : Z :=
  match (if Z.testbit sel 2 then ldt else gdt) !! Z.to_nat (Z.shiftr sel 3) with
  | Some d => Z.land (Z.shiftr (seg_access (decode_segment d)) 5) 3
  | None => 0
  end.

(** [find_empty_process] on a task table of the right size. *)
Definition find_in_table : M kernel Z := fun k =>
  if decide (length (task k) = 64%nat) then find_empty_process k else Err (Wild "task").

Lemma empty_slot_range l : forall i, 0 ≤ i -> - EAGAIN ≤ empty_slot l i ≤ i + Z.of_nat (length l).
Proof.
  induction l as [|p l IH]; intros i Hi; cbn [empty_slot length]; [unfold EAGAIN; lia|].
  case_decide; [unfold EAGAIN; lia|]. specialize (IH (i + 1)). lia.
Qed.

Lemma find_in_table_range k k' v : find_in_table k = Ok (k', v) -> - 2 ^ 31 ≤ v < 2 ^ 31.
Proof.
  unfold find_in_table, find_empty_process, mbind, M_bind, get. case_decide as Hl; [|discriminate].
  destruct (search_pid _ _ _); [|discriminate]. intros E. injection E as <- <-.
  pose proof (empty_slot_range (drop 1 (task k)) 1). rewrite length_drop, Hl in *. unfold EAGAIN in *. lia.
Qed.

Lemma user_context_eax dpl u x : user_context dpl u -> user_context dpl (u <| c_eax := x |>).
Proof. intros []. by constructor. Qed.

Lemma eax_again u x y : u <| c_eax := x |> <| c_eax := y |> = u <| c_eax := y |>.
Proof. reflexivity. Qed.

(** The child's context is the caller's. *)
Lemma frame_user_regs high esp0 dpl u v : user_context dpl u ->
  frame_context (user_regs high esp0 u) v = u <| c_eax := v |>.
Proof.
  intros Hu. pose proof (uc_segments _ _ Hu) as Hseg.
  assert (forall w, w ∈ [c_ds u; c_es u; c_fs u; c_gs u] -> u16 w = w) as Hw.
  { intros w Hin. apply u16_small. apply (Hseg w Hin). }
  unfold frame_context, user_regs. cbn [r_es r_cs r_ss r_ds r_fs r_gs r_eip r_eflags r_ecx r_edx r_ebx r_esp r_ebp r_esi r_edi].
  rewrite !selector_word_u16, (uc_cs _ _ Hu), (uc_ss _ _ Hu).
  rewrite (Hw (c_ds u)), (Hw (c_es u)), (Hw (c_fs u)), (Hw (c_gs u)) by (rewrite !elem_of_cons; tauto).
  destruct u. cbn in *. destruct Hu as [E1 E2 _ _]. cbn in E1, E2. by subst.
Qed.

(** [fork] as a system call, when the parent need not give up the processor. *)
Lemma fork_served high esp0 u resched K K' :
  length (task K) = 64%nat -> Fork.sys_fork (user_regs high esp0 u) K = Ok (K', 1) ->
  state_of K' (cur K') = 0 -> counter_of K' (cur K') <> 0 -> task K' !! 0%nat = Some (current K') ->
  served (fork_model find_in_table copy_process) resched (user_regs high esp0 u) K = Ok (K', 1).
Proof.
  intros Hl E Hst Hco Hcur. unfold served. rewrite (bind_ok _ _ K K' 1).
  2: { unfold fork_model, find_in_table, mbind, M_bind. rewrite decide_True by exact Hl. exact E. }
  erewrite bind_ok by reflexivity. rewrite bool_decide_false by tauto. cbn [when]. rewrite bind_ret.
  rewrite (bind_ok _ _ K' K' tt); [reflexivity|].
  unfold Syscalls.ret_from_sys_call. erewrite bind_ok by reflexivity.
  change (slots K') with (task K'). rewrite Hcur. erewrite bind_ok by reflexivity.
  by rewrite decide_True.
Qed.

(** The machine code of the kernel functions a [fork] runs. *)
Record fork_code (depth : Z) (high : Z -> Z) (find copy sched : M (cpu kernel) unit) (resched : M kernel Z)
    (table : list (M (cpu kernel) unit)) (back : Z) : Prop := {
  fc_find : compiled depth (fun _ => tt) find (fun _ => find_in_table);
  fc_copy : compiled depth copy_args copy (fun a => copy_process a.1 a.2);
  fc_sched : compiled (depth + 32) (fun _ => tt) sched (fun _ => resched);
  fc_table : arr_get table 2 = Some (sys_fork high find copy back)
}.

(** The context of task 0 where [main] calls [move_to_user_mode]. *)
Record main_context (s : machine) (c : context) : Prop := {
  mc_cpl : cpl c = 0;
  mc_nt : Z.testbit (c_eflags c) NT = nt s;
  mc_vm : Z.testbit (c_eflags c) VM = false;
  mc_df : Z.testbit (c_eflags c) DF = false;
  mc_esp : 0x1000 < c_esp c ≤ 0xA0000
}.

(** [movl $2,%eax; int $0x80] of the wrapper [fork()]. *)
Definition fork_call (high : Z -> Z) (t0 : tss_struct) (g : gate) (dpl : Z -> Z) (table : list (M (cpu kernel) unit))
    (sched : M (cpu kernel) unit) (back : Z) : M (cpu kernel) unit :=
  set_ctx (fun c => c <| c_eax := 2 |>);;
  int high (ss0 t0) (esp0 t0) g;; system_call high dpl table sched back.

Lemma main_fork_ready k ignore_int init_task s1 c here depth s2 u :
  ready k ignore_int init_task s1 -> 0 < init_task < LOW_MEM -> main_context s1 c ->
  0 ≤ depth /\ depth + 288 ≤ PAGE_SIZE + init_task ->
  u = user_start here c <| c_eax := 2 |> -> ctx s2 = u ->
  user_context (selected_dpl (Boot.gdt s1) (ldt (INIT_TASK init_task pg_dir))) u ->
  call_ready (S := kernel) (ss0 (INIT_TSS init_task pg_dir)) (esp0 (INIT_TSS init_task pg_dir))
    (selected_dpl (Boot.gdt s1) (ldt (INIT_TASK init_task pg_dir))) (depth + 32)
    (Gate (a_system_call k) 8 15 3 true) s2 u.
Proof.
  intros R Hi [_ _ _ Hdf _] [Hd He] Hu Hs Hus. constructor; try done.
  - cbn [esp0 INIT_TSS]. unfold PAGE_SIZE, LOW_MEM in *. rewrite u32_small by lia. lia.
  - by rewrite Hu.
Qed.

(** C3.  [fork] returns twice.  After boot/head.s and [main] up to
    [move_to_user_mode], the code goes on in user mode on the same stack; its
    [fork()] then goes through the gate, [system_call] and [sys_fork] and comes
    back behind the [int] instruction with 1 in [eax] and nothing else changed,
    while slot 1 holds a runnable task whose saved context is the very same with
    0 in [eax].  The child has a memory of its own, a copy of low memory: from
    then on any sequence of user reads, writes and duplications that separate
    memories allow (at most 3069) behaves on the page tables as on those.  (The
    [printm] that [main] makes before [fork()] is left out: it works on the log
    and on the stack below.) *)
Theorem two_processes device line k ignore_int init_task s :
  linked line k ignore_int init_task s -> 0 < init_task < LOW_MEM ->
  exists s1, (startup_32 line ignore_int;; main device k) s = Ok (s1, tt) /\ nt s1 = false /\
    forall jiffies math fpu depth high find copy sched resched table back c m here,
    fork_code depth high find copy sched resched table back -> main_context s1 c ->
    0 ≤ depth /\ depth + 288 ≤ PAGE_SIZE + init_task ->
    let t0 := INIT_TASK init_task pg_dir in
    let dpl := selected_dpl (Boot.gdt s1) (ldt t0) in
    let u := user_start here c in
    exists g, gate_at s1 0x80 = Some g /\ gate_offset g = a_system_call k /\
    runs (move_to_user_mode dpl here;; fork_call high (tss t0) g dpl table sched back)
      (Cpu c m (kernel_of s1 init_task jiffies math fpu)) (fun s2 _ =>
      ctx s2 = u <| c_eax := 1 |> /\
      exists p child, task (kern s2) !! 1%nat = Some p /\ tasks (kern s2) !! p = Some child /\
        state child = TASK_RUNNING /\ tss_context (tss child) = u <| c_eax := 0 |> /\
        agree (mem (kern s2)) ([0x4000000], boot_words (m_mm s1)) /\
        forall ops a rs, arun ops ([0x4000000], boot_words (m_mm s1)) = Some (a, rs) -> (length ops ≤ 3069)%nat ->
          exists m', crun ops (mem (kern s2)) = Ok (m', rs) /\ agree m' a).
Proof.
  intros Hs Hi. destruct (power_on_ready device line k ignore_int init_task s Hs) as (s1 & E & R). exists s1.
  split; [exact E|]. split; [apply (rd_flags _ _ _ _ R)|]. intros jiffies math fpu depth high find copy sched resched table back c m here Hcode Hmain Hdepth t0 dpl u.
  exists (Gate (a_system_call k) 8 15 3 true). split; [exact (rd_call _ _ _ _ R)|]. split; [reflexivity|].
  set (K := kernel_of s1 init_task jiffies math fpu). pose proof (mc_esp _ _ Hmain) as Hesp.
  assert (Z.testbit (c_eflags c) NT = false) as Hnt by (rewrite (mc_nt _ _ Hmain); apply (rd_flags _ _ _ _ R)).
  assert (dpl 0x17 = 3) as Hdpl by reflexivity.
  apply runs_bind. eapply runs_impl.
  { apply (move_to_user_mode_run dpl (Cpu c m K) here); [cbn [ctx]; lia|exact (mc_cpl _ _ Hmain)|exact Hnt|exact (mc_vm _ _ Hmain)|exact Hdpl]. }
  intros s2 [] (E2 & Hus & Hk2 & _). change (ctx (Cpu c m K)) with c in E2. fold u in E2. rewrite E2 in Hus.
  apply runs_bind. eexists _, tt. split; [reflexivity|]. set (s3 := upd ctx _ s2). set (v := u <| c_eax := 2 |>).
  assert (ctx s3 = v) as E3 by exact (f_equal (fun c => c <| c_eax := 2 |>) E2).
  pose proof (user_context_eax dpl u 2 Hus) as Hv. fold v in Hv.
  destruct (first_sys_fork k ignore_int init_task s1 jiffies math fpu (user_regs high (esp0 (tss t0)) v) R Hi Hesp)
    as (K' & E4 & Hc & Ha & Hf). fold K in E4, Hc.
  destruct Hc as [Hcur (p & child & Hp & Hchild & Hrun & _ & Htss & _) Hpar Hslots].
  assert (Hserved : served (fork_model find_in_table copy_process) resched (user_regs high (esp0 (tss t0)) v) K = Ok (K', 1)).
  { destruct (Hpar t0 (lookup_singleton_eq _ _)) as [q Hq]. cbn [current kernel_of upd] in Hcur, Hq.
    apply fork_served; [exact (f_equal length (rd_slots _ _ _ _ R))|exact E4| | |].
    - cbn [state_of cur kernel_sched]. rewrite Hcur. change (current K) with init_task in *. rewrite Hq. reflexivity.
    - cbn [counter_of cur kernel_sched kernel_fields]. rewrite Hcur. rewrite Hq. discriminate.
    - rewrite Hslots by lia. rewrite Hcur. change (task_table s1 !! 0%nat = Some init_task). by rewrite (rd_slots _ _ _ _ R). }
  destruct Hcode as [Hfind Hcopy Hsched Htable].
  eapply runs_impl.
  { apply (system_call_run high _ _ dpl (depth + 32) _ s3 v table _ _ sched resched back K' 1
      (main_fork_ready k ignore_int init_task s1 c here depth s3 v R Hi Hmain Hdepth eq_refl E3 Hv) Htable
      (sys_fork_compiled high depth find copy find_in_table copy_process back (proj1 Hdepth) Hfind Hcopy find_in_table_range) Hsched).
    change (kern s3) with (kern s2). rewrite Hk2. exact Hserved. }
  intros s5 [] (E5 & Hk5 & _). split; [rewrite E5; exact (eax_again u 2 1)|]. rewrite Hk5.
  exists p, child. split; [exact Hp|]. split; [exact Hchild|]. split; [exact Hrun|]. split; [|split; [exact Ha|]].
  - rewrite Htss. etrans; [exact (frame_user_regs high (esp0 (tss t0)) dpl v 0 Hv)|exact (eax_again u 2 0)].
  - intros ops a rs Hops Hl. destruct (crun_agree ops (mem K') _ a rs Ha Hops) as (m' & Em & Hm & _); [lia|]. by exists m'.
Qed.

(** ** Witnesses *)

Lemma first_process_witness :
  exists s1 s2 m w, (startup_32 (fun x => x) 0x5428;; main latches kernel_image) fresh_machine = Ok (s1, tt) /\
    Fork.sys_fork demo_regs (kernel_of s1 0x18000 0 0 (i387 (INIT_TSS 0x18000 0))) = Ok (s2, 1) /\
    crun [Write 0x4000000 5 0 7; Fork 0x4000000 0x8000000 0xA0000; Write 0x8000000 5 0 8; Read 0x4000000 5 0;
          Read 0x8000000 5 0; Read 0x8000000 6 0] (mem s2) = Ok (m, [0; 0; 0; 7; 8; w]).
Proof.
  destruct (first_process latches (fun x => x) kernel_image 0x5428 0x18000 fresh_machine fresh_linked) as (s1 & E & H);
    [vm_compute; split; reflexivity|].
  destruct (H 0 0 (i387 (INIT_TSS 0x18000 0)) demo_regs) as (s2 & E2 & _ & _ & Hops); [vm_compute; split; congruence|].
  set (m0 := boot_words (m_mm s1)) in *. set (w := read_word (phys (m_mm s1)) 0x6000).
  set (m1 := copy_space (set_word m0 0x4000000 5 0 7) 0x4000000 0x8000000).
  destruct (Hops [Write 0x4000000 5 0 7; Fork 0x4000000 0x8000000 0xA0000; Write 0x8000000 5 0 8; Read 0x4000000 5 0;
    Read 0x8000000 5 0; Read 0x8000000 6 0] ([0x8000000; 0x4000000], set_word m1 0x8000000 5 0 8) [0; 0; 0; 7; 8; w])
    as (m & Em & _).
  - reflexivity.
  - cbn [length]. lia.
  - exists s1, s2, m, w. split; [exact E|]. split; [exact E2|exact Em].
Defined.

(** [two_processes] with machine code that computes the models directly. *)
Definition demo_main : context := {|
  c_eip := 0x5000; c_eflags := 0x202; c_eax := 1; c_ecx := 2; c_edx := 3; c_ebx := 4; c_esp := 0x7f00; c_ebp := 0x7f40;
  c_esi := 5; c_edi := 6; c_es := 0x10; c_cs := 8; c_ss := 0x10; c_ds := 0x10; c_fs := 0x10; c_gs := 0x10
|}.

Lemma two_processes_witness :
  exists s1 g s2 p child, (startup_32 (fun x => x) 0x5428;; main latches kernel_image) fresh_machine = Ok (s1, tt) /\
    let high := fun _ => 0 in
    let find := code_for (fun _ => tt) (fun _ => find_in_table) in
    let copy := code_for copy_args (fun a => copy_process a.1 a.2) in
    let sched := code_for (fun _ => tt) (fun _ => mret 0) in
    let t0 := INIT_TASK 0x18000 pg_dir in
    let dpl := selected_dpl (Boot.gdt s1) (ldt t0) in
    (move_to_user_mode dpl 0x5678;;
      fork_call high (tss t0) g dpl (replicate 90 (sys_fork high find copy 0)) sched 0)
      (Cpu demo_main ∅ (kernel_of s1 0x18000 0 0 (i387 (INIT_TSS 0x18000 0)))) = Ok (s2, tt) /\
    ctx s2 = user_start 0x5678 demo_main <| c_eax := 1 |> /\
    task (kern s2) !! 1%nat = Some p /\ tasks (kern s2) !! p = Some child /\
    tss_context (tss child) = user_start 0x5678 demo_main <| c_eax := 0 |>.
Proof.
  destruct (two_processes latches (fun x => x) kernel_image 0x5428 0x18000 fresh_machine fresh_linked) as (s1 & E & Hnt & H);
    [vm_compute; split; reflexivity|].
  destruct (H 0 0 (i387 (INIT_TSS 0x18000 0)) 0x1000 (fun _ => 0) (code_for (fun _ => tt) (fun _ => find_in_table))
    (code_for copy_args (fun a => copy_process a.1 a.2)) (code_for (fun _ => tt) (fun _ => mret 0)) (mret 0)
    (replicate 90 (sys_fork (fun _ => 0) (code_for (fun _ => tt) (fun _ => find_in_table))
      (code_for copy_args (fun a => copy_process a.1 a.2)) 0)) 0 demo_main ∅ 0x5678) as (g & _ & _ & s2 & [] & E2 & Ec & p & child & H1 & H2 & _ & H3 & _).
  - constructor; [apply code_for_compiled; lia..|reflexivity].
  - constructor; [reflexivity|exact (eq_sym Hnt)|reflexivity|reflexivity|cbn; lia].
  - vm_compute. split; congruence.
  - exists s1, g, s2, p, child. split; [exact E|]. split; [exact E2|]. split; [exact Ec|].
    split; [exact H1|]. split; [exact H2|exact H3].
Defined.
