(* ===== verification/Build.v ===== *)
(** * The image builder

    tools/build.c: puts the boot sector, the setup code and the system after one
    another on the standard output, checking the headers and sizes.  The program
    is compiled for 32 bits: a [long] is four bytes.  What it calls of the
    operating system is a parameter: the contents of the files by name, the
    device numbers [stat] finds, and how much a [write] takes.  A file is read
    from its start; [read] gives the bytes asked for or those that are left. *)
From S2P Require Import Prelude Words.

Definition MINIX_HEADER : nat := 32.
Definition SYS_SIZE : Z := 0x3000.
Definition SETUP_SECTS : Z := 4.
Definition DEFAULT_MAJOR_ROOT : Z := 3.
Definition DEFAULT_MINOR_ROOT : Z := 1.
Definition DEFAULT_MAJOR_SWAP : Z := 3.
Definition DEFAULT_MINOR_SWAP : Z := 4.
Definition MAJOR (a : Z) : Z := Z.shiftr (u32 a) 8.
Definition MINOR (a : Z) : Z := Z.land a 0xff.

Record build := Build { stdout : list Z; buf : list Z; rest : list Z }.

#[export] Instance eta_build : Eta build := fun r => Build (stdout r) (buf r) (rest r).

Definition die {A} (str : string) : M build A := stop (Panic str).

(** The [k]-th [long] of the buffer. *)
Definition long_at (l : list Z) (k : nat) : Z :=
  nth (4 * k) l 0 + Z.shiftl (nth (4 * k + 1) l 0) 8 + Z.shiftl (nth (4 * k + 2) l 0) 16 + Z.shiftl (nth (4 * k + 3) l 0) 24.

Section build.
Variables (files : string -> option (list Z)) (st_rdev : string -> option Z) (written : list Z -> Z -> Z).

Definition open (path msg : string) : M build unit :=
  match files path with Some l => modify (fun s => s <| rest := l |>) | None => die msg end.

Definition read (n : nat) : M build nat :=
  s ← get;
  let c := Nat.min n (length (rest s)) in
  modify (fun s => s <| buf := take c (rest s) ++ drop c (buf s) |> <| rest := drop c (rest s) |>);; mret c.

(** [if (write(1, buf, c) != c) die("Write call failed");] *)
Definition write_buf (c : nat) : M build unit :=
  s ← get;
  let w := written (stdout s) (Z.of_nat c) in
  modify (fun s => s <| stdout := stdout s ++ take (Z.to_nat w) (take c (buf s)) |>);;
  if decide (w <> Z.of_nat c) then die "Write call failed" else mret tt.

(** The checks of a Minix header, in the same order for both modules. *)
Definition check_header (what : string) : M build unit :=
  c ← read MINIX_HEADER;
  if decide (c <> MINIX_HEADER) then die ("Unable to read header of '" +:+ what) else
  s ← get;
  let l := long_at (buf s) in
  if decide (l 0%nat <> 0x04100301) then die ("Non-Minix header of '" +:+ what) else
  if decide (l 1%nat <> Z.of_nat MINIX_HEADER) then die ("Non-Minix header of '" +:+ what) else
  if decide (l 3%nat <> 0) then die ("Illegal data segment in '" +:+ what) else
  if decide (l 4%nat <> 0) then die ("Illegal bss in '" +:+ what) else
  if decide (l 5%nat <> 0) then die ("Non-Minix header of '" +:+ what) else
  if decide (l 7%nat <> 0) then die ("Illegal symbol table in '" +:+ what) else
  mret tt.

(** [for (i = 0; (c = read(id, buf, sizeof buf)) > 0; i += c) write] from [i] on. *)
Fixpoint copy_loop (fuel : nat) (i : Z) : M build Z :=
  match fuel with
  | O => stop Fuel
  | S fuel =>
      c ← read 1024;
      if decide (0 < c)%nat then write_buf c;; copy_loop fuel (i + Z.of_nat c) else mret i
  end.
Definition copy_file : M build Z := s ← get; copy_loop (S (length (rest s))) 0.

(** [while (i < SETUP_SECTS * 512)] *)
Fixpoint pad_loop (fuel : nat) (i : Z) : M build unit :=
  match fuel with
  | O => stop Fuel
  | S fuel =>
      if decide (i < SETUP_SECTS * 512) then
        let c := SETUP_SECTS * 512 - i in
        let c := if decide (1024 < c) then 1024 else c in
        write_buf (Z.to_nat c);; pad_loop fuel (i + c)
      else mret tt
  end.

(** The device numbers: of the device [arg] names, unless it is the word
    [none], or the default. *)
Definition device_of (arg : option string) (none : string) (default : Z * Z) : M build (Z * Z) :=
  match arg with
  | None => mret default
  | Some a =>
      if decide (a = none) then mret (0, 0) else
      match st_rdev a with
      | Some r => mret (s8 (MAJOR r), s8 (MINOR r))
      | None => die "Couldn't stat root device."
      end
  end.

Definition boot_module (path : string) (root swap : Z * Z) : M build unit :=
  open path "Unable to open 'boot'";;
  check_header "boot'";;
  i ← read 1024;
  if decide (i <> 512%nat) then die "Boot block must be exactly 512 bytes" else
  s ← get;
  if decide (nth 510 (buf s) 0 + Z.shiftl (nth 511 (buf s) 0) 8 <> 0xAA55) then die "Boot block hasn't got boot flag (0xAA55)" else
  modify (fun s => s <| buf := <[509%nat := u8 root.1]> (<[508%nat := u8 root.2]> (<[507%nat := u8 swap.1]>
                                 (<[506%nat := u8 swap.2]> (buf s)))) |>);;
  write_buf 512.

Definition setup_module (path : string) : M build unit :=
  open path "Unable to open 'setup'";;
  check_header "setup'";;
  i ← copy_file;
  if decide (SETUP_SECTS * 512 < i) then die "Setup exceeds 4 sectors - rewrite build/boot/setup" else
  modify (fun s => s <| buf := replicate 1024 0 |>);;
  pad_loop 3 i.

Definition system_module (path : string) : M build unit :=
  open path "Unable to open 'system'";;
  i ← copy_file;
  if decide (SYS_SIZE * 16 < i) then die "System is too big" else mret tt.

(** [main]; [argv] counts the program's name. *)
Definition main (argv : list string) : M build Z :=
  let argc := length argv in
  if decide (argc < 4 \/ 6 < argc)%nat then die "Usage: build bootsect setup system [rootdev] [> image]" else
  root ← device_of (argv !! 4%nat) "FLOPPY" (DEFAULT_MAJOR_ROOT, DEFAULT_MINOR_ROOT);
  swap ← device_of (argv !! 5%nat) "NONE" (DEFAULT_MAJOR_SWAP, DEFAULT_MINOR_SWAP);
  if decide (root.1 <> 2 /\ root.1 <> 3 /\ root.1 <> 0) then die "Bad root device --- major #" else
  if decide (swap.1 <> 0 /\ swap.1 <> 3) then die "Bad root device --- major #" else
  modify (fun s => s <| buf := replicate 1024 0 |>);;
  boot_module (nth 1 argv "") root swap;;
  setup_module (nth 2 argv "");;
  system_module (nth 3 argv "");;
  mret 0.
End build.

(** ** The image as a function of the files *)

(** A Minix header: magic number and flags, header length, no data, bss, entry
    point or symbols. *)
Definition header_ok (l : list Z) : bool :=
  bool_decide ((32 ≤ length l)%nat /\ long_at l 0 = 0x04100301 /\ long_at l 1 = 32 /\ long_at l 3 = 0 /\
    long_at l 4 = 0 /\ long_at l 5 = 0 /\ long_at l 7 = 0).

Definition valid_boot (b : list Z) : bool :=
  header_ok b && bool_decide (length b = 544%nat /\ nth 542 b 0 + Z.shiftl (nth 543 b 0) 8 = 0xAA55).
Definition valid_setup (t : list Z) : bool := header_ok t && bool_decide (length t ≤ 32 + 2048)%nat.
Definition valid_system (k : list Z) : bool := bool_decide (Z.of_nat (length k) ≤ 192 * 1024).

Definition image (root swap : Z * Z) (b t k : list Z) : list Z :=
  (take 506 (drop 32 b) ++ [u8 swap.2; u8 swap.1; u8 root.2; u8 root.1] ++ drop 542 b) ++
  (drop 32 t ++ replicate (2048 - length (drop 32 t)) 0) ++ k.

Section spec.
Variables (files : string -> option (list Z)) (st_rdev : string -> option Z).

Definition device_spec (arg : option string) (none : string) (default : Z * Z) : option (Z * Z) :=
  match arg with
  | None => Some default
  | Some a => if decide (a = none) then Some (0, 0) else (fun r => (s8 (MAJOR r), s8 (MINOR r))) <$> st_rdev a
  end.

(** The image for a command line, when there is one. *)
Definition spec (argv : list string) : option (list Z) :=
  guard (4 ≤ length argv ≤ 6)%nat;;
  root ← device_spec (argv !! 4%nat) "FLOPPY" (3, 1);
  swap ← device_spec (argv !! 5%nat) "NONE" (3, 4);
  guard (root.1 = 2 \/ root.1 = 3 \/ root.1 = 0);;
  guard (swap.1 = 0 \/ swap.1 = 3);;
  b ← files (nth 1 argv ""); guard (Is_true (valid_boot b));;
  t ← files (nth 2 argv ""); guard (Is_true (valid_setup t));;
  k ← files (nth 3 argv ""); guard (Is_true (valid_system k));;
  Some (image root swap b t k).
End spec.

(** ** The steps *)

(** The outcome is a fault with a message, or leaves output [out] and a buffer
    of full size. *)
Definition dies {A} (o : outcome A) : Prop := exists msg, o = Err (Panic msg).

Lemma dies_bind {A B} (m : M build A) (k : A -> M build B) s : dies (m s) -> dies ((m ≫= k) s).
Proof. intros [msg E]. exists msg. by apply bind_err. Qed.

Lemma read_eq n s :
  let c := Nat.min n (length (rest s)) in
  read n s = Ok (Build (stdout s) (take c (rest s) ++ drop c (buf s)) (drop c (rest s)), c).
Proof. by destruct s. Qed.

Lemma length_read n (l bf : list Z) : (n ≤ 1024)%nat -> length bf = 1024%nat ->
  length (take (Nat.min n (length l)) l ++ drop (Nat.min n (length l)) bf) = 1024%nat.
Proof. intros Hn Hb. rewrite length_app, length_take, length_drop. lia. Qed.

Lemma long_at_prefix l n bf k : (4 * k + 4 ≤ n)%nat -> (n ≤ length l)%nat -> long_at (take n l ++ bf) k = long_at l k.
Proof.
  intros Hk Hn. unfold long_at.
  assert (forall j, (j < n)%nat -> nth j (take n l ++ bf) 0 = nth j l 0) as E.
  { intros j Hj. rewrite app_nth1 by (rewrite length_take; lia).
    rewrite <-(take_drop n l) at 2. rewrite app_nth1 by (rewrite length_take; lia). done. }
  rewrite !E by lia. done.
Qed.

Lemma check_header_spec what s : length (buf s) = 1024%nat ->
  if header_ok (rest s)
  then exists bf, check_header what s = Ok (Build (stdout s) bf (drop 32 (rest s)), tt) /\ length bf = 1024%nat
  else dies (check_header what s).
Proof.
  intros Hb. unfold check_header, header_ok, MINIX_HEADER. rewrite (bind_ok _ _ _ _ _ (read_eq 32 s)).
  set (c := Nat.min 32 (length (rest s))).
  destruct (decide (c <> 32%nat)) as [Hc|Hc].
  { rewrite bool_decide_false by (unfold c in Hc; lia). by eexists. }
  assert (c = 32%nat) as Ec by (by apply dec_stable). assert (32 ≤ length (rest s))%nat as Hl by (unfold c in Ec; lia).
  rewrite Ec.
  erewrite bind_ok by reflexivity. cbn [buf].
  assert (forall k, (k < 8)%nat -> long_at (take 32 (rest s) ++ drop 32 (buf s)) k = long_at (rest s) k) as E
    by (intros k Hk; apply long_at_prefix; lia).
  rewrite !E by lia. change (Z.of_nat 32) with 32.
  repeat match goal with |- context [decide (long_at ?l ?k <> ?v)] =>
    let H := fresh "H" in destruct (decide (long_at l k <> v)) as [H|H];
      [rewrite bool_decide_false by tauto; by eexists|apply dec_stable in H] end.
  rewrite bool_decide_true by done. eexists. split; [reflexivity|]. rewrite length_app, length_take, length_drop. lia.
Qed.

Lemma device_of_spec st_rdev arg none default s :
  match device_spec st_rdev arg none default with
  | Some d => device_of st_rdev arg none default s = Ok (s, d)
  | None => dies (device_of st_rdev arg none default s)
  end.
Proof.
  unfold device_spec, device_of. destruct arg as [a|]; [|done]. case_decide; [done|].
  destruct (st_rdev a); cbn; [done|by eexists].
Qed.

Section files.
Variables (files : string -> option (list Z)) (written : list Z -> Z -> Z).
Hypothesis Hw : forall out n, written out n = n.

Lemma write_buf_eq c s : (c ≤ length (buf s))%nat ->
  write_buf written c s = Ok (Build (stdout s ++ take c (buf s)) (buf s) (rest s), tt).
Proof.
  intros Hc. unfold write_buf. do 2 (erewrite bind_ok by reflexivity). rewrite Hw, Nat2Z.id.
  rewrite decide_False by tauto. destruct s. cbn. by rewrite take_take, Nat.min_id.
Qed.

Lemma copy_loop_spec fuel : forall i s, length (buf s) = 1024%nat -> (length (rest s) < fuel)%nat ->
  exists bf, copy_loop written fuel i s = Ok (Build (stdout s ++ rest s) bf [], i + Z.of_nat (length (rest s))) /\
    length bf = 1024%nat.
Proof.
  induction fuel as [|fuel IH]; intros i s Hb Hf; cbn [copy_loop]; [lia|].
  rewrite (bind_ok _ _ _ _ _ (read_eq 1024 s)). set (c := Nat.min 1024 (length (rest s))).
  assert (c ≤ length (rest s) /\ c ≤ 1024)%nat as [Hcl Hc'] by (unfold c; lia).
  case_decide as Hc.
  - rewrite (bind_ok _ _ _ _ _ (write_buf_eq c (Build (stdout s) (take c (rest s) ++ drop c (buf s)) (drop c (rest s)))
      ltac:(cbn [buf]; rewrite length_app, length_take, length_drop; lia))).
    cbn [stdout buf rest]. rewrite take_app_le, take_take, Nat.min_id by (rewrite length_take; lia).
    destruct (IH (i + Z.of_nat c) (Build (stdout s ++ take c (rest s)) (take c (rest s) ++ drop c (buf s)) (drop c (rest s))))
      as (bf & E & Hbf).
    + cbn [buf]. apply length_read; [lia|done].
    + cbn [rest]. rewrite length_drop. lia.
    + exists bf. rewrite E. cbn [stdout rest]. rewrite <-app_assoc, take_drop, length_drop. split; [|done].
      do 2 f_equal. lia.
  - assert (rest s = []) as -> by (apply nil_length_inv; lia).
    exists (buf s). split; [|done]. assert (c = 0%nat) as -> by lia. cbn [length]. by rewrite app_nil_r, Z.add_0_r.
Qed.

Lemma copy_file_spec s : length (buf s) = 1024%nat ->
  exists bf, copy_file written s = Ok (Build (stdout s ++ rest s) bf [], Z.of_nat (length (rest s))) /\
    length bf = 1024%nat.
Proof.
  intros Hb. unfold copy_file. erewrite bind_ok by reflexivity. apply (copy_loop_spec _ 0); [done|lia].
Qed.

Lemma pad_loop_spec fuel : forall (i : nat) out r, (i ≤ 2048)%nat -> (2048 - i ≤ 1024 * (fuel - 1))%nat -> (0 < fuel)%nat ->
  pad_loop written fuel (Z.of_nat i) (Build out (replicate 1024 0) r) =
  Ok (Build (out ++ replicate (2048 - i) 0) (replicate 1024 0) r, tt).
Proof.
  induction fuel as [|fuel IH]; intros i out r Hi Hf Hp; cbn [pad_loop]; [lia|]. unfold SETUP_SECTS.
  destruct (decide (Z.of_nat i < 4 * 512)) as [Hlt|Hge].
  - cbv zeta. set (c := if decide _ then _ else _).
    assert (exists n : nat, c = Z.of_nat n /\ n = Nat.min 1024 (2048 - i)) as (n & -> & Hn).
    { exists (Nat.min 1024 (2048 - i)). unfold c. case_decide; split; lia. }
    rewrite Nat2Z.id.
    rewrite (bind_ok _ _ _ _ _ (write_buf_eq n (Build out (replicate 1024 0) r) ltac:(cbn [buf]; rewrite length_replicate; lia))).
    cbn [stdout buf rest]. rewrite <-Nat2Z.inj_add, IH by lia. rewrite take_replicate, <-app_assoc, <-replicate_add.
    by replace (Nat.min n 1024 + (2048 - (i + n)))%nat with (2048 - i)%nat by lia.
  - replace (2048 - i)%nat with 0%nat by lia. cbn [replicate]. by rewrite app_nil_r.
Qed.

(** The four device bytes replace bytes 506 to 509. *)
Lemma patch_sector (l : list Z) a b c d : (512 ≤ length l)%nat ->
  take 512 (<[509%nat := a]> (<[508%nat := b]> (<[507%nat := c]> (<[506%nat := d]> l)))) =
  take 506 l ++ [d; c; b; a] ++ take 2 (drop 510 l).
Proof.
  intros Hl. set (p := take 506 l). assert (length p = 506%nat) as Hp by (unfold p; rewrite length_take; lia).
  assert (exists w x y z r, drop 506 l = w :: x :: y :: z :: r) as (w & x & y & z & r & Hd).
  { pose proof (length_drop l 506) as H. destruct (drop 506 l) as [|w [|x [|y [|z r]]]]; cbn in H; try lia. by eexists _, _, _, _, _. }
  assert (drop 510 l = r) as -> by (change 510%nat with (506 + 4)%nat; by rewrite <-drop_drop, Hd).
  rewrite <-(take_drop 506 l) at 1. fold p. rewrite Hd.
  assert (forall n m v q, n = (506 + m)%nat -> <[n := v]> (p ++ q) = p ++ <[m := v]> q) as I
    by (intros n m v q ->; rewrite <-Hp; apply insert_app_r).
  rewrite (I 506%nat 0%nat), (I 507%nat 1%nat), (I 508%nat 2%nat), (I 509%nat 3%nat) by reflexivity. cbn [list_insert insert].
  replace 512%nat with (length p + 6)%nat by lia. by rewrite take_app_add.
Qed.

Lemma boot_module_spec path root swap s : length (buf s) = 1024%nat ->
  match files path with
  | Some b =>
      if valid_boot b
      then exists bf r, boot_module files written path root swap s =
             Ok (Build (stdout s ++ take 506 (drop 32 b) ++ [u8 swap.2; u8 swap.1; u8 root.2; u8 root.1] ++ drop 542 b) bf r, tt) /\
           length bf = 1024%nat
      else dies (boot_module files written path root swap s)
  | None => dies (boot_module files written path root swap s)
  end.
Proof.
  intros Hb. unfold boot_module, open. destruct (files path) as [b|]; [|by eexists].
  erewrite bind_ok by reflexivity. set (s1 := upd rest _ s). pose proof (check_header_spec "boot'" s1 Hb) as Hh.
  change (rest s1) with b in Hh. unfold valid_boot. destruct (header_ok b); [|destruct Hh as [msg E]; exists msg; by apply bind_err].
  destruct Hh as (bf & E & Hbf). rewrite (bind_ok _ _ _ _ _ E), (bind_ok _ _ _ _ _ (read_eq 1024 _)). cbn [stdout buf rest].
  rewrite length_drop. remember (Nat.min 1024 (length b - 32)) as i eqn:Ei. destruct (decide (i <> 512%nat)) as [Hn|Hn].
  { cbn [andb]. rewrite bool_decide_false by lia. by eexists. }
  assert (length b = 544%nat) as Hlb by lia. assert (i = 512%nat) as -> by lia.
  erewrite bind_ok by reflexivity. cbn [buf stdout].
  assert (forall j, (j < 512)%nat -> nth j (take 512 (drop 32 b) ++ drop 512 bf) 0 = nth (32 + j) b 0) as En.
  { intros j Hj. rewrite take_ge by (rewrite length_drop; lia). rewrite app_nth1 by (rewrite length_drop; lia). apply nth_skipn. }
  rewrite !En by lia. cbn [andb]. destruct (decide (_ <> 0xAA55)) as [Hs|Hs].
  { rewrite bool_decide_false by tauto. by eexists. }
  apply dec_stable in Hs. rewrite bool_decide_true by done. erewrite bind_ok by reflexivity.
  erewrite write_buf_eq.
  2:{ cbn [upd buf]. rewrite !length_insert, length_app, length_take, !length_drop. lia. }
  do 2 eexists. split.
  - cbn [upd buf stdout]. rewrite patch_sector by (rewrite length_app, length_take, !length_drop; lia).
    rewrite take_app_le, take_take by (rewrite length_take, length_drop; lia).
    rewrite drop_app_le, skipn_firstn_comm by (rewrite length_take, length_drop; lia).
    rewrite take_app_le by (rewrite length_take, !length_drop; lia). rewrite take_take, drop_drop.
    rewrite (take_ge (drop (32 + 510) b)) by (rewrite length_drop; lia). reflexivity.
  - cbn [upd buf]. rewrite !length_insert, length_app, length_take, !length_drop. lia.
Qed.

Lemma setup_module_spec path s : length (buf s) = 1024%nat ->
  match files path with
  | Some t =>
      if valid_setup t
      then exists bf r, setup_module files written path s =
             Ok (Build (stdout s ++ drop 32 t ++ replicate (2048 - length (drop 32 t)) 0) bf r, tt) /\ length bf = 1024%nat
      else dies (setup_module files written path s)
  | None => dies (setup_module files written path s)
  end.
Proof.
  intros Hb. unfold setup_module, open. destruct (files path) as [t|]; [|by eexists].
  erewrite bind_ok by reflexivity. set (s1 := upd rest _ s). pose proof (check_header_spec "setup'" s1 Hb) as Hh.
  change (rest s1) with t in Hh. unfold valid_setup. destruct (header_ok t); [|destruct Hh as [msg E]; exists msg; by apply bind_err].
  destruct Hh as (bf & E & Hbf). rewrite (bind_ok _ _ _ _ _ E).
  destruct (copy_file_spec (Build (stdout s1) bf (drop 32 t)) Hbf) as (bf' & E' & Hbf').
  rewrite (bind_ok _ _ _ _ _ E'). cbn [rest stdout]. pose proof (length_drop t 32) as Hl.
  unfold SETUP_SECTS. destruct (decide (4 * 512 < Z.of_nat (length (drop 32 t)))) as [Hn|Hn].
  { cbn [andb]. rewrite bool_decide_false by lia. by eexists. }
  cbn [andb]. rewrite bool_decide_true by lia. erewrite bind_ok by reflexivity. cbn [upd buf stdout rest].
  rewrite (pad_loop_spec 3) by lia. do 2 eexists. split; [by rewrite <-app_assoc|apply length_replicate].
Qed.

Lemma system_module_spec path s : length (buf s) = 1024%nat ->
  match files path with
  | Some k =>
      if valid_system k
      then exists bf r, system_module files written path s = Ok (Build (stdout s ++ k) bf r, tt)
      else dies (system_module files written path s)
  | None => dies (system_module files written path s)
  end.
Proof.
  intros Hb. unfold system_module, open. destruct (files path) as [k|]; [|by eexists].
  erewrite bind_ok by reflexivity. set (s1 := upd rest _ s).
  destruct (copy_file_spec s1 Hb) as (bf' & E' & Hbf'). rewrite (bind_ok _ _ _ _ _ E').
  change (rest s1) with k. unfold valid_system, SYS_SIZE. case_decide as Hn.
  - rewrite bool_decide_false by lia. by eexists.
  - rewrite bool_decide_true by lia. by do 2 eexists.
Qed.
End files.

(** C18.  The builder is the function [spec] of its files and arguments.  It
    succeeds exactly when the arguments name devices of the allowed kinds, both
    code modules have a Minix header, the boot sector is 512 bytes with its
    signature, the setup code has at most four sectors and the system at most
    192 KB; the output is then the boot sector with the device numbers at 506 to
    509, the setup code padded to 2048 bytes, and the system.  In every other
    case it stops with a message; its loops always end. *)
Theorem build_correct files st_rdev written argv s :
  (forall out n, written out n = n) -> stdout s = [] ->
  match spec files st_rdev argv with
  | Some img => exists s', main files st_rdev written argv s = Ok (s', 0) /\ stdout s' = img
  | None => exists msg, main files st_rdev written argv s = Err (Panic msg)
  end.
Proof.
  intros Hw Hs. unfold main, spec.
  destruct (decide (length argv < 4 \/ 6 < length argv)%nat) as [Ha|Ha].
  { rewrite option_guard_False by lia. by eexists. }
  rewrite option_guard_True by lia.
  pose proof (device_of_spec st_rdev (argv !! 4%nat) "FLOPPY" (3, 1) s) as Hr.
  destruct (device_spec st_rdev (argv !! 4%nat) _ _) as [root|]; [|by apply dies_bind]. rewrite (bind_ok _ _ _ _ _ Hr).
  pose proof (device_of_spec st_rdev (argv !! 5%nat) "NONE" (3, 4) s) as Hp.
  destruct (device_spec st_rdev (argv !! 5%nat) _ _) as [swap|]; [|by apply dies_bind]. rewrite (bind_ok _ _ _ _ _ Hp).
  cbn [mbind option_bind].
  destruct (decide (root.1 <> 2 /\ _)) as [Hn|Hn];
    [rewrite (option_guard_False (root.1 = 2 \/ root.1 = 3 \/ root.1 = 0)) by tauto; by eexists|].
  rewrite (option_guard_True (root.1 = 2 \/ root.1 = 3 \/ root.1 = 0)) by lia.
  destruct (decide (swap.1 <> 0 /\ _)) as [Hn'|Hn'];
    [rewrite (option_guard_False (swap.1 = 0 \/ swap.1 = 3)) by tauto; by eexists|].
  rewrite (option_guard_True (swap.1 = 0 \/ swap.1 = 3)) by lia.
  erewrite bind_ok by reflexivity. set (s0 := upd buf _ s).
  assert (length (buf s0) = 1024%nat) as H0 by (apply length_replicate).
  pose proof (boot_module_spec files written Hw (nth 1 argv "") root swap s0 H0) as Hb.
  destruct (files (nth 1 argv "")) as [b|]; [cbn [mbind option_bind]|by apply dies_bind].
  destruct (valid_boot b); [|by apply dies_bind]. destruct Hb as (bf & r & Eb & Hbf).
  rewrite option_guard_True by done. cbn [mbind option_bind]. rewrite (bind_ok _ _ _ _ _ Eb).
  match goal with |- context [Build ?o bf r] => pose proof (setup_module_spec files written Hw (nth 2 argv "") (Build o bf r) Hbf) as Ht end.
  destruct (files (nth 2 argv "")) as [t|]; [cbn [mbind option_bind]|by apply dies_bind].
  destruct (valid_setup t); [|by apply dies_bind]. destruct Ht as (bf' & r' & Et & Hbf').
  rewrite option_guard_True by done. rewrite (bind_ok _ _ _ _ _ Et).
  match goal with |- context [Build ?o bf' r'] => pose proof (system_module_spec files written Hw (nth 3 argv "") (Build o bf' r') Hbf') as Hk end.
  destruct (files (nth 3 argv "")) as [k|]; [cbn [mbind option_bind]|by apply dies_bind].
  destruct (valid_system k); [|by apply dies_bind]. destruct Hk as (bf'' & r'' & Ek).
  rewrite option_guard_True by done. rewrite (bind_ok _ _ _ _ _ Ek).
  eexists. split; [reflexivity|]. cbn [stdout s0 upd]. rewrite Hs. unfold image. by rewrite <-!app_assoc.
Qed.

(** ** Witness: the smallest modules *)

Definition minix_header : list Z := [0x01; 0x03; 0x10; 0x04; 32; 0; 0; 0] ++ replicate 24 0.
Definition demo_boot : list Z := minix_header ++ replicate 510 0x90 ++ [0x55; 0xAA].
Definition demo_setup : list Z := minix_header ++ [1; 2; 3].
Definition demo_files (path : string) : option (list Z) :=
  if decide (path = "boot") then Some demo_boot else if decide (path = "setup") then Some demo_setup
  else if decide (path = "kernel") then Some [7; 8; 9] else None.

Lemma build_correct_witness :
  exists s', main demo_files (fun _ => None) (fun _ n => n) ["build"; "boot"; "setup"; "kernel"] (Build [] [] []) = Ok (s', 0) /\
    stdout s' = image (3, 1) (3, 4) demo_boot demo_setup [7; 8; 9].
Proof.
  assert (spec demo_files (fun _ => None) ["build"; "boot"; "setup"; "kernel"] =
    Some (image (3, 1) (3, 4) demo_boot demo_setup [7; 8; 9])) as E by (vm_compute; reflexivity).
  pose proof (build_correct demo_files (fun _ => None) (fun _ n => n) ["build"; "boot"; "setup"; "kernel"] (Build [] [] [])
    (fun _ _ => eq_refl) eq_refl) as H.
  rewrite E in H. exact H.
Defined.
